(* ===== verification/_CoqProject ===== *)
-Q . S2P
Prelude.v
Memory.v
Codec.v
State.v
Logic.v
Uart.v
VirtioRegs.v
VhostUserProto.v
VirtioFs.v
VirtioNet.v
Transport.v
DeviceFacts.v
Snapshot.v
SnapFile.v
SaveFacts.v
CopyWorkers.v
CopyFacts.v
Lazy.v
Restore.v
RestoreFacts.v
Run.v
RunFacts.v
NetPath.v
NetFacts.v
BiosRom.v
Boot.v
BootFacts.v
Config.v
ConfigFacts.v
Cleanup.v
Cli.v
CliFacts.v
GuestInit.v
GuestFacts.v
GuestRunFacts.v
SnapDev.v
SnapBench.v
SnapToolFacts.v
ExVmm.v
ExFrame.v
ExIde.v
ExBlk.v
ExBlkFacts.v
ExIo.v
ExIoFacts.v
ExAcpi.v
ExAcpiFacts.v
ExBios.v
ExFiles.v
ExBiosFacts.v
ExKernel.v
ExKernelFacts.v
ExCpu.v
ExMain.v
ExGuestFacts.v
ExLedger.v
ExLifeFacts.v
ExBalance.v
ExWitnesses.v
Witnesses.v
