(* ===== verification/Prelude.v ===== *)
(** * vmtainer: a verification of the snapshot-restoring micro-VM monitor

    vmtainer boots a Linux guest under KVM, lets the guest's init signal that it
    is ready, writes the whole machine to a snapshot file, and later starts
    containers by restoring that file, once or as many clones.  This library
    models the monitor, the guest's init and the tools beside them as executable
    definitions and proves what makes them correct.

    ** The program and its model

    One class, [Vmm] (src/src/vmm.hpp), holds the state of every component; its
    member functions in src/src/vmm.cpp and src/src/virtio.cpp are the
    operations.  The parts, and the files that model them:

    - State.v: [Vmm] as a record of component records under the class's member
      names, the monad [M] of its member functions, the calls it makes.  Memory.v:
      guest RAM, addressed as by [gpa_ptr].  Codec.v: C structure layouts with
      their round-trip law.  Logic.v: the program logic [wp] (ends, no fault,
      postcondition) and [wlp].
    - Uart.v: [serial_in], [serial_out] and the console lines they print.
    - VirtioRegs.v, VirtioFs.v, VirtioNet.v: the two virtio-MMIO devices (register
      reads and writes, kicks, interrupt polling, TAP set-up).  Transport.v: the
      abstract virtio transport and the class [MmioDevice] that states what a
      device promises its driver; both devices are instances, and DeviceFacts.v
      proves driver sequences against the interface.
    - VhostUserProto.v: the vhost-user connection to virtiofsd ([vu_connect],
      [vu_early_init], [vu_setup], the interrupt thread).
    - NetPath.v, NetFacts.v: the packet thread [net_thread_func], descriptor
      chains and used rings in guest RAM, with the guest moving between any two
      accesses.
    - Snapshot.v, SnapFile.v, SaveFacts.v: [save_snapshot], [save_snapshot_file],
      the byte layout of the file, the page bitmap, and the parser of
      [restore_snapshot_file].
    - CopyWorkers.v, CopyFacts.v: the eager restore's copy threads as a
      transition system over a shared chunk counter.  Lazy.v: the userfaultfd
      worker.  Restore.v, RestoreFacts.v: [restore_snapshot] as a whole.
    - Run.v, RunFacts.v: the loop around KVM_RUN and its exits.
    - BiosRom.v, Boot.v, BootFacts.v: [init], the BIOS image and tables, the
      kernel and initrd loaders, the first register state.
    - Config.v, ConfigFacts.v: the JSON subset reader and the files written into
      the share.  Cleanup.v: the destructor.  Cli.v, CliFacts.v: [main] with
      boot, restore and clone.
    - GuestInit.v, GuestFacts.v, GuestRunFacts.v: src/initrd_src/init.c, the
      program in the guest, with its own calls and a logic of its own ([gwp]).
    - SnapDev.v, SnapBench.v, SnapToolFacts.v: src/kmod, the kernel module that
      keeps a snapshot in memory, and the program that restores from it.
    - The example monitor of docs/example-vmm, a C program of its own with
      several vCPUs.  ExVmm.v: [struct vmm] and [struct vcpu] (vmm.h), the monad
      [X] of its functions, its calls and its logic [xwp].  ExFrame.v: tables in
      guest RAM and what a store leaves alone.  ExIde.v: the ATA controller.
      ExBlk.v, ExBlkFacts.v: the virtio block device.  ExIo.v, ExIoFacts.v: serial
      port, exits, the pass of the run loop.  ExAcpi.v, ExAcpiFacts.v: acpi.c.
      ExBios.v, ExFiles.v, ExBiosFacts.v: bios.c with the MP table, and reading
      files.  ExKernel.v, ExKernelFacts.v: kernel.c.  ExCpu.v: vCPUs, registers and
      CPUID.  ExMain.v: life cycle, threads, [getopt] and [main].  ExGuestFacts.v:
      the guest as it is started.  ExLedger.v, ExLifeFacts.v, ExBalance.v: what the
      program holds and gives back.  ExWitnesses.v: concrete runs of it.
    - Witnesses.v: the theorems with hypotheses at concrete machines, hosts and
      files.

    They interact as in the code: Cli.v calls Boot.v or Restore.v and then Run.v;
    Run.v dispatches exits to Uart.v, VirtioFs.v and VirtioNet.v; VirtioFs.v
    hands its queues to VhostUserProto.v; Restore.v uses SnapFile.v,
    CopyWorkers.v and Lazy.v; Config.v writes what GuestInit.v reads.  In the
    example monitor ExMain.v calls ExBios.v, ExAcpi.v and ExKernel.v to prepare
    guest RAM, then ExCpu.v and the passes of ExIo.v, which dispatch to ExIde.v and
    ExBlk.v.  It shares Boot.v's structures with the main monitor, and its serial
    port is compared with that of Uart.v.

    ** How code becomes definitions

    Machine integers are [Z] with their wrap-around written out ([u8], [u16],
    [u32], [u64]).  A member function is a program of [M]: state passing, with
    [Fault] for what C++ leaves undefined (an access outside an object, a
    division by zero), so that a theorem that a program ends in a state also says
    that it commits none of these.  The arrays that an index or a length chosen
    by the guest reaches are accessed through [get_at], [update_at] and
    [copy_into], which fault out of bounds: the virtqueues of both devices, the
    data area of [kvm_run], the sector buffer of the IDE controller.  A boolean or null result is a value.

    What is not in the repository, the kernel, KVM, virtiofsd, the guest's
    instructions, is the class [Host]: a function from the calls made so far to
    the reply of the next one.  Theorems hold for every such function unless a
    hypothesis on it is stated; every call is recorded in a trace, and ordering
    properties are about that trace.  The guest kernel ([GuestHost]) and the
    kernel under the module ([SnapKernel]) are treated the same way.

    Loops that end by themselves are structural or have fuel for which the
    theorems show that it is enough ([write_ram], [tx_loop], [tx_chain] with its
    64 descriptors as in the code).  Loops that only an event ends, the run loop,
    the threads, the connection attempts, take fuel and return [None] when it is
    used up; their theorems either hold for every amount of it or say how much
    reaches the result.  The example monitor's block device has one amount for
    the requests of a queue and one for the descriptors of a chain, which the code
    does not bound; one unit per request and one more than the data segments are
    enough.  Reading a file needs one unit per byte at most.  The threads of the
    vCPUs run in the order of a list of turns, over which the theorems quantify.
    The MP table of the example has room for 603 vCPUs, its ACPI area for 8152.

    ** What is proved

    - Snapshots: the file of a saved machine is the image of a snapshot of that
      machine; parsing gives the snapshot back; restoring yields the same machine;
      truncated or mismatched files are rejected; clone reads what restore reads.
    - RAM: every interleaving of the copy threads ends, faults nowhere and leaves
      the RAM a sequential copy would; with a bitmap, demand paging gives each page
      the contents of the eager copy; the bitmap marks exactly the pages that are not zero.
    - Devices: register writes refine the abstract transport; the interrupt line
      follows the interrupt status; packets are sent and delivered as the
      descriptors describe, queues are drained in order, chains of any shape over
      buffers in RAM stay inside the packet buffer; the vhost-user handshake is in protocol order.
    - Machine: whatever the guest does, the run loop keeps its invariants and
      faults only in MMIO reads that begin inside the configuration structure of a
      device and end past it; each return value of the loop has its cause; the
      guest finds BIOS, kernel and initrd where the boot protocol wants
      them; cleanup gives back every descriptor, mapping and process.
    - Container: a configuration the file format can carry reaches the guest, its init signals the
      snapshot before it mounts the share, runs the entrypoint with the configured
      environment and network, and powers off after it.
    - Tools: the module's buffers are page-sized, zeroed and freed with their file;
      the benchmark's hard-coded offsets locate the sections of a snapshot file,
      and what it restores is the snapshot's RAM.
    - Example monitor: its IDE controller and its virtio block device are disks;
      its tables, E820 map, kernel and initrd are where an operating system looks
      for them and do not overwrite each other; each vCPU starts where the code
      means it to with the identifier the tables give it; the serial port behaves as
      the main monitor's but for the value of its modem status; and a run gives back everything it took.

    Where the code does something it does not mean to, the theorem says what the
    code does and holds for the code as it is (reset of a device in DeviceFacts.v,
    unchecked lengths in NetFacts.v and SnapFile.v, the environment parser in
    ConfigFacts.v, the requests the example's block device does not handle in
    ExBlkFacts.v, the network thread that is not joined in Cleanup.v, and others
    next to the component).

    ** What is not modelled

    Output to stderr and clock readings that only feed it; the usage text; the
    vhost-net structures of src/src/virtio.hpp, which nothing uses; memory barriers
    (accesses are sequentially consistent); the contents of the KVM structures,
    which the code moves without looking into them.  Of the example monitor the
    log messages are left out, and a turn of one of its threads is atomic: the
    registers of its serial port and IDE controller have no lock in the code, and
    what unsynchronised accesses to them may yield is not described.  Of the
    benchmark the theorems exclude a [read] that a signal interrupts for ever and a
    snapshot file that is truncated while it is mapped.  The scripts
    and the Go shim around the monitor are in other languages.

    This file is the prelude: record update, results and faults, bytes and their
    little-endian encodings, C strings and the formatting functions, the tactics
    and the hint databases the components share. *)
From Stdlib Require Import ZArith Lia.
From Stdlib Require Export Ascii String.
From stdpp Require Export base list list_numbers numbers sets.
From stdpp Require Import options.

#[export] Unset Default Proof Using.
Global Open Scope Z_scope.

Declare Scope vmm_scope.
Delimit Scope vmm_scope with vmm.
Global Open Scope vmm_scope.

(** ** Record update

    [r <| f := v |>] replaces field [f] of record [r].  A record opts in by an
    [Eta] instance that rebuilds it from its projections; the setter of a
    projection is then found by abstracting that projection in the rebuilt
    record. *)

Class Eta (R : Type) := rebuild : R -> R.
Class Setter {R T : Type} (f : R -> T) := upd : (T -> T) -> R -> R.
Global Arguments upd {R T} f {_} _ _.

Ltac find_setter :=
  lazymatch goal with
  | |- @Setter ?R ?T ?f =>
    let inst := constr:(_ : Eta R) in
    let body := eval hnf in inst in
    lazymatch eval pattern f in body with
    | ?h f => exact (fun (g : T -> T) (r : R) => h (fun r' => g (f r')) r)
    end
  end.
Global Hint Extern 1 (Setter _) => find_setter : typeclass_instances.

Notation "r <| f := v |>" := (upd f (fun _ => v) r)
  (at level 1, left associativity, f at level 9, format "r  <| f  :=  v |>")
  : vmm_scope.
Notation "r <| f ::= g |>" := (upd f g r)
  (at level 1, left associativity, f at level 9, format "r  <| f  ::=  g |>")
  : vmm_scope.

(** ** Outcomes

    [Fault] stands for a run of the C++ program whose behaviour the language
    leaves undefined, by the kind of misuse. *)

Inductive fault : Type :=
| OutOfBounds      (* an access outside the object it names *)
| NullPointer      (* an access through a null pointer *)
| DivideByZero     (* an unsigned [%] by zero *).

Inductive result (A : Type) : Type :=
| Ok (a : A)
| Fault (f : fault).
Global Arguments Ok {A} _.
Global Arguments Fault {A} _.

#[export] Instance fault_eq_dec : EqDecision fault.
Proof. solve_decision. Defined.

#[export] Instance result_eq_dec {A} `{EqDecision A} : EqDecision (result A).
Proof. solve_decision. Defined.

Definition is_ok {A} (r : result A) : bool :=
  match r with Ok _ => true | Fault _ => false end.

Definition guard_oob {A} (b : bool) (r : result A) : result A :=
  if b then r else Fault OutOfBounds.

#[export] Instance result_ret : MRet result := fun _ a => Ok a.
#[export] Instance result_bind : MBind result := fun _ _ k r =>
  match r with Ok a => k a | Fault f => Fault f end.
#[export] Instance result_fmap : FMap result := fun _ _ g r =>
  match r with Ok a => Ok (g a) | Fault f => Fault f end.

(** ** Machine integers

    A [w]-bit unsigned integer is a [Z] in [0, 2^w); [wrap w] is the
    conversion to that width. *)

Definition wrap (w z : Z) : Z := z mod 2 ^ w.
Abbreviation u8 := (wrap 8).
Abbreviation u16 := (wrap 16).
Abbreviation u32 := (wrap 32).
Abbreviation u64 := (wrap 64).

Definition fits (w z : Z) : Prop := 0 <= z < 2 ^ w.
Definition fitsb (w z : Z) : bool := (0 <=? z) && (z <? 2 ^ w).

(** [~ m] on a [w]-bit operand. *)
Definition bnot (w m : Z) : Z := Z.lxor (2 ^ w - 1) m.

(** Bit tests written [x & m] in a condition. *)
Definition has_bits (x m : Z) : bool := negb (Z.land x m =? 0).

(** [(x & ~0xFFFFFFFF) | v] and [(x & 0xFFFFFFFF) | (v << 32)]. *)
Definition set_lo32 (x v : Z) : Z := Z.lor (Z.land x 0xFFFFFFFF00000000) v.
Definition set_hi32 (x v : Z) : Z := Z.lor (Z.land x 0xFFFFFFFF) (Z.shiftl v 32).

Lemma fitsb_spec w z : fitsb w z = true <-> fits w z.
Proof. unfold fitsb, fits. rewrite andb_true_iff, Z.leb_le, Z.ltb_lt. tauto. Qed.

Lemma wrap_fits w z : 0 <= w -> fits w (wrap w z).
Proof. intros Hw. apply Z.mod_pos_bound, Z.pow_pos_nonneg; lia. Qed.

Lemma wrap_id w z : fits w z -> wrap w z = z.
Proof. apply Z.mod_small. Qed.

Lemma fits_mono v w z : 0 <= v <= w -> fits v z -> fits w z.
Proof.
  intros Hvw [H0 H1]. split; [done|].
  eapply Z.lt_le_trans; [exact H1|]. apply Z.pow_le_mono_r; lia.
Qed.

Lemma fits_bits w z : 0 <= w -> fits w z <-> 0 <= z /\ forall i, w <= i -> Z.testbit z i = false.
Proof.
  intros Hw. split.
  - intros [H0 H1]. split; [done|]. intros i Hi.
    destruct (decide (z = 0)) as [->|]; [apply Z.bits_0|].
    apply Z.bits_above_log2; [done|].
    apply Z.log2_lt_pow2; [lia|]. eapply Z.lt_le_trans; [exact H1|].
    apply Z.pow_le_mono_r; lia.
  - intros [H0 Hb]. split; [done|].
    destruct (Z_lt_le_dec z (2 ^ w)) as [|Hge]; [done|].
    exfalso. assert (Hpos : 0 < 2 ^ w) by (apply Z.pow_pos_nonneg; lia).
    pose proof (Hb (Z.log2 z)) as Hlog.
    rewrite Z.bit_log2 in Hlog by lia.
    discriminate Hlog. apply Z.log2_le_pow2 in Hge; lia.
Qed.

Lemma lor_fits w x y : 0 <= w -> fits w x -> fits w y -> fits w (Z.lor x y).
Proof.
  intros Hw [? Hx]%fits_bits [? Hy]%fits_bits; [|done|done].
  apply fits_bits; [done|]. split; [apply Z.lor_nonneg; lia|].
  intros i Hi. by rewrite Z.lor_spec, Hx, Hy.
Qed.

Lemma land_fits_l w x y : 0 <= w -> fits w x -> fits w (Z.land x y).
Proof.
  intros Hw [? Hx]%fits_bits; [|done].
  apply fits_bits; [done|]. split; [apply Z.land_nonneg; lia|].
  intros i Hi. by rewrite Z.land_spec, Hx.
Qed.

Lemma lo32_mask : 0xFFFFFFFF = Z.ones 32.
Proof. reflexivity. Qed.
Lemma hi32_mask : 0xFFFFFFFF00000000 = Z.shiftl (Z.ones 32) 32.
Proof. reflexivity. Qed.

(** The two half-register updates in arithmetic terms. *)
Lemma set_lo32_spec x v :
  fits 64 x -> fits 32 v -> set_lo32 x v = x / 2 ^ 32 * 2 ^ 32 + v.
Proof.
  intros Hx Hv. unfold set_lo32. rewrite hi32_mask.
  assert (Hhi : fits 32 (x / 2 ^ 32)) by (unfold fits in *; split;
    [apply Z.div_pos; lia | apply Z.div_lt_upper_bound; lia]).
  assert (Z.land x (Z.shiftl (Z.ones 32) 32) = Z.shiftl (x / 2 ^ 32) 32) as ->.
  { rewrite <- Z.shiftr_div_pow2 by lia.
    apply Z.bits_inj'. intros i Hi. rewrite Z.land_spec.
    destruct (Z_lt_le_dec i 32).
    - rewrite !Z.shiftl_spec_low by lia. apply andb_false_r.
    - rewrite !Z.shiftl_spec_high, Z.shiftr_spec by lia.
      replace (i - 32 + 32) with i by lia.
      destruct (Z_lt_le_dec i 64).
      + rewrite Z.ones_spec_low by lia. apply andb_true_r.
      + apply fits_bits in Hx; [|lia]. rewrite (proj2 Hx) by lia. done. }
  rewrite <- Z.shiftl_mul_pow2 by lia.
  symmetry. apply Z.add_nocarry_lor.
  apply Z.bits_inj'. intros i Hi. rewrite Z.land_spec, Z.bits_0.
  destruct (Z_lt_le_dec i 32).
  - by rewrite Z.shiftl_spec_low.
  - apply fits_bits in Hv; [|lia]. rewrite (proj2 Hv) by lia. apply andb_false_r.
Qed.

Lemma land_lo32 x : Z.land x 0xFFFFFFFF = x mod 2 ^ 32.
Proof. rewrite lo32_mask. by apply Z.land_ones. Qed.

Lemma set_hi32_spec x v : fits 32 v -> set_hi32 x v = x mod 2 ^ 32 + v * 2 ^ 32.
Proof.
  intros Hv. unfold set_hi32. rewrite land_lo32, Z.shiftl_mul_pow2 by lia.
  symmetry. apply Z.add_nocarry_lor.
  rewrite <- Z.shiftl_mul_pow2 by lia.
  apply Z.bits_inj'. intros i Hi. rewrite Z.land_spec, Z.bits_0.
  destruct (Z_lt_le_dec i 32).
  - rewrite Z.shiftl_spec_low by lia. apply andb_false_r.
  - rewrite Z.mod_pow2_bits_high by lia. done.
Qed.

Lemma set_lo32_fits x v : fits 64 x -> fits 32 v -> fits 64 (set_lo32 x v).
Proof.
  intros Hx Hv. apply lor_fits; [lia| by apply land_fits_l |].
  by apply (fits_mono 32).
Qed.

Lemma set_hi32_fits x v : fits 32 v -> fits 64 (set_hi32 x v).
Proof.
  intros Hv. rewrite set_hi32_spec by done.
  pose proof (Z.mod_pos_bound x (2 ^ 32)). unfold fits in *. lia.
Qed.

(** Low half, then high half, in either order, gives the 64-bit value. *)
Lemma set_lo_hi x lo hi :
  fits 64 x -> fits 32 lo -> fits 32 hi ->
  set_hi32 (set_lo32 x lo) hi = lo + hi * 2 ^ 32.
Proof.
  intros Hx Hlo Hhi. rewrite set_hi32_spec, set_lo32_spec by done.
  rewrite (Z.add_comm (x / 2 ^ 32 * 2 ^ 32) lo), Z.mod_add by lia.
  rewrite Z.mod_small by (unfold fits in *; lia).
  lia.
Qed.

Lemma set_hi_lo x lo hi :
  fits 32 lo -> fits 32 hi ->
  set_lo32 (set_hi32 x hi) lo = lo + hi * 2 ^ 32.
Proof.
  intros Hlo Hhi. rewrite set_lo32_spec; [|by apply set_hi32_fits|done].
  rewrite set_hi32_spec by done.
  rewrite Z.div_add by lia. rewrite Z.div_small by (apply Z.mod_pos_bound; lia). lia.
Qed.

Lemma land_bnot_fits w x m : 0 <= w -> fits w x -> fits w (Z.land x (bnot w m)).
Proof. apply land_fits_l. Qed.

(** [x & ~v] in terms of the set difference of bits. *)
Lemma land_bnot_ldiff w x v : 0 <= w -> fits w x -> Z.land x (bnot w v) = Z.ldiff x v.
Proof.
  intros Hw Hx. apply fits_bits in Hx as [_ Hx]; [|done]. unfold bnot.
  apply Z.bits_inj'. intros i Hi.
  rewrite Z.land_spec, Z.ldiff_spec, Z.lxor_spec.
  destruct (Z_lt_le_dec i w).
  - replace (2 ^ w - 1) with (Z.ones w) by (rewrite Z.ones_equiv; lia).
    rewrite Z.ones_spec_low by lia. by destruct (Z.testbit x i), (Z.testbit v i).
  - by rewrite Hx.
Qed.

(** ** Little-endian bytes *)

Definition byte_ok (b : Z) : Prop := fits 8 b.

(** The [n] bytes of [z], least significant first: what a store of an [n]-byte
    integer puts in memory on x86-64. *)
Fixpoint le_enc (n : nat) (z : Z) : list Z :=
  match n with
  | O => []
  | S n' => u8 z :: le_enc n' (z / 256)
  end.

Fixpoint le_dec (bs : list Z) : Z :=
  match bs with
  | [] => 0
  | b :: bs' => b + 256 * le_dec bs'
  end.

Lemma le_dec_cons b bs : le_dec (b :: bs) = b + 256 * le_dec bs.
Proof. reflexivity. Qed.

Lemma le_dec_nonneg bs : Forall (Z.le 0) bs -> 0 <= le_dec bs.
Proof. induction 1; cbn [le_dec]; lia. Qed.

Lemma le_enc_length n z : length (le_enc n z) = n.
Proof. revert z. induction n as [|n IH]; intros z; cbn; [done|]. by rewrite IH. Qed.

Lemma le_enc_bytes n z : Forall byte_ok (le_enc n z).
Proof.
  revert z. induction n as [|n IH]; intros z; cbn; constructor; [|apply IH].
  by apply wrap_fits.
Qed.

Lemma le_dec_enc n z : fits (8 * Z.of_nat n) z -> le_dec (le_enc n z) = z.
Proof.
  revert z. induction n as [|n IH]; intros z Hz.
  { cbn. unfold fits in Hz. cbn in Hz. lia. }
  cbn [le_enc le_dec]. rewrite IH.
  - unfold wrap. change (2 ^ 8) with 256. pose proof (Z.div_mod z 256). lia.
  - unfold fits in *. replace (8 * Z.of_nat (S n)) with (8 * Z.of_nat n + 8) in Hz by lia.
    rewrite Z.pow_add_r in Hz by lia. split; [apply Z.div_pos; lia|].
    apply Z.div_lt_upper_bound; lia.
Qed.

Lemma le_dec_fits bs : Forall byte_ok bs -> fits (8 * Z.of_nat (length bs)) (le_dec bs).
Proof.
  induction 1 as [|b bs Hb _ IH]; [by cbn|].
  cbn [le_dec length]. unfold fits, byte_ok in *.
  replace (8 * Z.of_nat (S (length bs))) with (8 * Z.of_nat (length bs) + 8) by lia.
  rewrite Z.pow_add_r by lia. unfold fits in Hb. lia.
Qed.

Lemma le_enc_dec bs : Forall byte_ok bs -> le_enc (length bs) (le_dec bs) = bs.
Proof.
  induction 1 as [|b bs Hb _ IH]; [done|]. cbn [le_dec length le_enc].
  unfold byte_ok, fits in Hb. change (2 ^ 8) with 256 in Hb.
  f_equal.
  - unfold wrap. change (2 ^ 8) with 256.
    rewrite Z.mul_comm, Z.mod_add by lia. apply Z.mod_small; lia.
  - rewrite Z.mul_comm, Z.div_add by lia. rewrite Z.div_small by lia.
    by rewrite Z.add_0_l.
Qed.

(** A wider store of what was loaded from [bs] starts with [bs]. *)
Lemma le_enc_dec_pad k bs :
  Forall byte_ok bs -> take (length bs) (le_enc (length bs + k) (le_dec bs)) = bs.
Proof.
  induction 1 as [|b bs Hb _ IH]; [done|].
  unfold byte_ok, fits in Hb. change (2 ^ 8) with 256 in Hb.
  cbn [length Nat.add le_enc take le_dec]. f_equal.
  - unfold wrap. change (2 ^ 8) with 256. rewrite Z.mul_comm, Z.mod_add by lia.
    apply Z.mod_small; lia.
  - rewrite Z.mul_comm, Z.div_add, Z.div_small by lia. by rewrite Z.add_0_l.
Qed.

(** [memcpy(&val, p, (len < 4) ? len : 4)] into a zeroed [uint32_t]. *)
Definition clamp4 (len : Z) : nat := Z.to_nat (if len <? 4 then len else 4).

Lemma clamp4_le len : (clamp4 len <= 4)%nat.
Proof. unfold clamp4. destruct (len <? 4) eqn:?; lia. Qed.

Lemma le_dec_take4_fits len bs :
  Forall byte_ok bs -> fits 32 (le_dec (take (clamp4 len) bs)).
Proof.
  intros Hb. eapply (fits_mono (8 * Z.of_nat (length (take (clamp4 len) bs)))).
  - rewrite length_take. pose proof (clamp4_le len). lia.
  - apply le_dec_fits. by apply Forall_take.
Qed.

(** ** Slices of byte lists *)

(** [n] bytes from offset [off] of an object; [None] when they do not all lie
    inside it. *)
Definition slice (off n : Z) (l : list Z) : option (list Z) :=
  if (0 <=? off) && (0 <=? n) && (off + n <=? Z.of_nat (length l))
  then Some (take (Z.to_nat n) (drop (Z.to_nat off) l)) else None.

Lemma slice_length off n l bs : slice off n l = Some bs -> length bs = Z.to_nat n.
Proof.
  unfold slice. case_match eqn:E; [|done]. intros [= <-].
  rewrite !andb_true_iff, !Z.leb_le in E.
  rewrite length_take, length_drop. lia.
Qed.

Lemma slice_some off n l :
  0 <= off -> 0 <= n -> off + n <= Z.of_nat (length l) -> is_Some (slice off n l).
Proof.
  intros. unfold slice. rewrite !(proj2 (Z.leb_le _ _)) by lia. by eexists.
Qed.

(** ** C strings *)

(** The bytes of a string literal, without the terminating NUL. *)
Definition bytes (s : string) : list Z :=
  (fun a => Z.of_N (N_of_ascii a)) <$> list_ascii_of_string s.

(** What [%s] prints of a buffer: the bytes before the first NUL. *)
Fixpoint c_str (l : list Z) : list Z :=
  match l with
  | [] => []
  | b :: l' => if b =? 0 then [] else b :: c_str l'
  end.

(** The digits [%x], [%u] and [%lx] print of a non-negative value: no leading
    zero, lower case.  Seventy digits are more than any 64-bit value has. *)
Definition digit (d : Z) : Z := if d <? 10 then 48 + d else 87 + d.

Fixpoint fmt_digits (fuel : nat) (base z : Z) (acc : list Z) : list Z :=
  match fuel with
  | O => acc
  | S fuel' =>
    let acc' := digit (z mod base) :: acc in
    if z / base =? 0 then acc' else fmt_digits fuel' base (z / base) acc'
  end.

Definition fmt_x (z : Z) : list Z := fmt_digits 70 16 z [].
Definition fmt_u (z : Z) : list Z := fmt_digits 70 10 z [].

(** [strncat(buf, src, cap - strlen(buf) - 1)] on a buffer of [cap] bytes,
    by the string it holds. *)
Definition strncat_cap (cap : Z) (dst src : list Z) : list Z :=
  dst ++ take (Z.to_nat (cap - Z.of_nat (length dst) - 1)) (c_str src).

(** [s.rfind(p, 0) == 0] and [s.find(p) != npos]. *)
Fixpoint starts_with (p s : list Z) : bool :=
  match p, s with
  | [], _ => true
  | a :: p', b :: s' => (a =? b) && starts_with p' s'
  | _ :: _, [] => false
  end.

Fixpoint contains (p s : list Z) : bool :=
  starts_with p s || match s with [] => false | _ :: s' => contains p s' end.

Lemma starts_with_spec p s : starts_with p s = true <-> exists t, s = p ++ t.
Proof.
  revert s. induction p as [|a p IH]; intros s; cbn.
  - naive_solver.
  - destruct s as [|b s]; [split; [done|by intros [? ?]]|].
    rewrite andb_true_iff, Z.eqb_eq, IH. naive_solver.
Qed.

Lemma contains_spec p s : contains p s = true <-> exists t u, s = t ++ p ++ u.
Proof.
  induction s as [|b s IH]; cbn [contains]; rewrite orb_true_iff, starts_with_spec.
  - split; [intros [[u ->]|[=]]; by exists [], u|].
    intros (t & u & H). left. exists u. by destruct t.
  - rewrite IH. split.
    + intros [[u ->]|(t & u & ->)]; [by exists [], u|by exists (b :: t), u].
    + intros (t & u & H). destruct t as [|b' t]; [by left; exists u|].
      right. injection H as -> ->. by exists t, u.
Qed.

Lemma c_str_no_nul l : Forall (fun b => b <> 0) l -> c_str l = l.
Proof.
  induction 1 as [|b l Hb _ IH]; [done|]. cbn.
  destruct (Z.eqb_spec b 0); [done|]. by rewrite IH.
Qed.

(** ** Arrays *)

Lemma alter_as_insert {A} (f : A -> A) (l : list A) i x :
  l !! i = Some x -> alter f i l = <[i := f x]> l.
Proof.
  revert i. induction l as [|y l IH]; intros [|i] Hi; cbn in *; [done..| |].
  - by injection Hi as ->.
  - f_equal. by apply IH.
Qed.

(** ** Arrays accessed by index

    [a[i]], [a[i] = f (a[i])] and a [memcpy] to the start of an object: an index
    that is not one of the object is a fault, never a no-op. *)

Definition get_at {A} (l : list A) (i : Z) : result A :=
  if i <? 0 then Fault OutOfBounds else
  match l !! Z.to_nat i with Some x => Ok x | None => Fault OutOfBounds end.

Definition update_at {A} (f : A -> A) (i : Z) (l : list A) : result (list A) :=
  x ← get_at l i; Ok (<[Z.to_nat i := f x]> l).

Definition copy_into (old data : list Z) : result (list Z) :=
  guard_oob (Z.of_nat (length data) <=? Z.of_nat (length old))
    (Ok (data ++ drop (length data) old)).

Lemma get_at_some {A} (l : list A) i :
  0 <= i < Z.of_nat (length l) -> exists x, l !! Z.to_nat i = Some x /\ get_at l i = Ok x.
Proof.
  intros Hi. destruct (lookup_lt_is_Some_2 l (Z.to_nat i)) as [x Hx]; [lia|].
  exists x. split; [done|]. unfold get_at. rewrite (proj2 (Z.ltb_ge _ _)) by lia. by rewrite Hx.
Qed.

Lemma get_at_inv {A} (l : list A) i x :
  get_at l i = Ok x -> 0 <= i /\ l !! Z.to_nat i = Some x.
Proof.
  unfold get_at. destruct (Z.ltb_spec i 0); [done|]. destruct (l !! _); [|done]. by intros [= ->].
Qed.

Lemma update_at_alter {A} (f : A -> A) i (l : list A) :
  0 <= i < Z.of_nat (length l) -> update_at f i l = Ok (alter f (Z.to_nat i) l).
Proof.
  intros Hi. destruct (get_at_some l i Hi) as (x & Hx & E). unfold update_at. rewrite E. cbn.
  by rewrite (alter_as_insert _ _ _ _ Hx).
Qed.

Lemma update_at_inv {A} (f : A -> A) i (l l' : list A) :
  update_at f i l = Ok l' -> 0 <= i < Z.of_nat (length l) /\ l' = alter f (Z.to_nat i) l.
Proof.
  unfold update_at. destruct (get_at l i) as [x|] eqn:E; [|done]. apply get_at_inv in E as [Hi Hx].
  intros [= <-]. rewrite (alter_as_insert _ _ _ _ Hx). split; [|done].
  apply lookup_lt_Some in Hx. lia.
Qed.

Lemma copy_into_ok old data :
  (length data <= length old)%nat -> copy_into old data = Ok (data ++ drop (length data) old).
Proof. intros Hl. unfold copy_into, guard_oob. by rewrite (proj2 (Z.leb_le _ _)) by lia. Qed.

Lemma filter_ext_in {A} (P Q : A -> Prop) `{!forall x, Decision (P x)} `{!forall x, Decision (Q x)} (l : list A) :
  (forall x, x ∈ l -> P x <-> Q x) -> filter P l = filter Q l.
Proof.
  induction l as [|x l IH]; intros Hl; [done|].
  rewrite !filter_cons, IH by (intros y Hy; apply Hl; by apply list_elem_of_further).
  pose proof (Hl x (list_elem_of_here x l)). by repeat case_decide; try tauto.
Qed.

Lemma strncat_cap_bound cap dst src :
  Z.of_nat (length dst) < cap -> Z.of_nat (length (strncat_cap cap dst src)) < cap.
Proof. intros Hd. unfold strncat_cap. rewrite length_app, length_take. lia. Qed.

Global Arguments fmt_digits : simpl never.
Global Arguments strncat_cap : simpl never.
Global Arguments bytes : simpl never.
Global Arguments starts_with : simpl never.
Global Arguments contains : simpl never.
Global Arguments le_enc : simpl never.
Global Arguments le_dec : simpl never.
Global Arguments wrap : simpl never.
Global Arguments Z.land : simpl never.
Global Arguments Z.lor : simpl never.
Global Arguments Z.shiftl : simpl never.
Global Arguments Z.shiftr : simpl never.
Global Arguments Z.pow : simpl never.
Global Arguments Z.eqb : simpl nomatch.
Global Arguments Z.ltb : simpl nomatch.
Global Arguments Z.leb : simpl nomatch.
