(* ===== verification/Memory.v ===== *)
(** * Guest RAM

    The memory behind [Vmm::ram_]: one byte per guest-physical address, with
    [Vmm::gpa_ptr] addressing.  A store or load names a range; a range that is
    not inside the [size] bytes of the mapping is a [Fault OutOfBounds].  Two
    memories are equivalent when they agree at every address ([≡]), and every
    operation respects that equivalence. *)
From S2P Require Import Prelude.
From stdpp Require Import options.

Definition mem : Type := Z -> Z.

Definition mem_zero : mem := fun _ => 0.

(** [memcpy] of [bs] to address [a], as a function update. *)
Definition mem_set (m : mem) (a : Z) (bs : list Z) : mem :=
  fun x => if (a <=? x) && (x <? a + Z.of_nat (length bs))
           then nth (Z.to_nat (x - a)) bs 0 else m x.

Definition mem_get (m : mem) (a n : Z) : list Z :=
  (fun i => m (a + i)) <$> seqZ 0 n.

Definition in_ram (size a n : Z) : bool :=
  (0 <=? a) && (0 <=? n) && (a + n <=? size).

Definition ram_store (size : Z) (m : mem) (a : Z) (bs : list Z) : result mem :=
  guard_oob (in_ram size a (Z.of_nat (length bs))) (Ok (mem_set m a bs)).

Definition ram_load (size : Z) (m : mem) (a n : Z) : result (list Z) :=
  guard_oob (in_ram size a n) (Ok (mem_get m a n)).

(** [memset(p, v, n)]. *)
Definition ram_fill (size : Z) (m : mem) (a v n : Z) : result mem :=
  ram_store size m a (replicate (Z.to_nat n) v).

(** Loads and stores of little-endian integers. *)
Definition ram_load_le (size : Z) (m : mem) (a : Z) (n : nat) : result Z :=
  le_dec <$> ram_load size m a (Z.of_nat n).

Definition ram_store_le (size : Z) (m : mem) (a : Z) (n : nat) (v : Z) : result mem :=
  ram_store size m a (le_enc n v).

(** ** Extensional equality *)

#[export] Instance mem_equiv : Equiv mem := fun m1 m2 => forall a, m1 a = m2 a.

#[export] Instance mem_equivalence : Equivalence (≡@{mem}).
Proof.
  split.
  - intros m a. done.
  - intros m1 m2 H a. symmetry. apply H.
  - intros m1 m2 m3 H1 H2 a. etrans; [apply H1|apply H2].
Qed.

#[export] Instance mem_set_proper : Proper ((≡) ==> (=) ==> (=) ==> (≡)) mem_set.
Proof.
  intros m1 m2 Hm a ? <- bs ? <- x. unfold mem_set. by rewrite (Hm x).
Qed.

#[export] Instance mem_get_proper : Proper ((≡) ==> (=) ==> (=) ==> (=)) mem_get.
Proof.
  intros m1 m2 Hm a ? <- n ? <-. unfold mem_get. apply list_fmap_ext.
  intros ? x _. apply Hm.
Qed.

(** ** Reading what was written *)

Lemma mem_get_length m a n : length (mem_get m a n) = Z.to_nat n.
Proof. unfold mem_get. by rewrite length_fmap, length_seqZ. Qed.

Lemma mem_get_lookup m a n (i : nat) :
  Z.of_nat i < n -> mem_get m a n !! i = Some (m (a + Z.of_nat i)).
Proof.
  intros Hi. unfold mem_get. rewrite list_lookup_fmap, lookup_seqZ_lt by lia. done.
Qed.

Lemma mem_set_inside m a bs x :
  a <= x < a + Z.of_nat (length bs) ->
  mem_set m a bs x = nth (Z.to_nat (x - a)) bs 0.
Proof.
  intros [H1 H2]. unfold mem_set.
  by rewrite (proj2 (Z.leb_le _ _) H1), (proj2 (Z.ltb_lt _ _) H2).
Qed.

Lemma mem_set_outside m a bs x :
  x < a \/ a + Z.of_nat (length bs) <= x -> mem_set m a bs x = m x.
Proof.
  intros H. unfold mem_set.
  destruct (a <=? x) eqn:E1, (x <? a + _) eqn:E2; try done.
  rewrite Z.leb_le in E1. rewrite Z.ltb_lt in E2. lia.
Qed.

Lemma mem_get_set_eq m a bs : mem_get (mem_set m a bs) a (Z.of_nat (length bs)) = bs.
Proof.
  apply list_eq_same_length with (length bs); rewrite ?mem_get_length; [lia..|].
  intros i x y Hi Hx Hy. rewrite mem_get_lookup in Hx by lia.
  injection Hx as <-. rewrite mem_set_inside by lia.
  replace (Z.to_nat (a + Z.of_nat i - a)) with i by lia.
  by apply nth_lookup_Some.
Qed.

Lemma mem_get_set_disjoint m a bs b n :
  b + n <= a \/ a + Z.of_nat (length bs) <= b ->
  mem_get (mem_set m a bs) b n = mem_get m b n.
Proof.
  intros H. unfold mem_get. apply list_fmap_ext. intros i x Hx.
  apply lookup_seqZ in Hx as [-> ?]. apply mem_set_outside. lia.
Qed.

Lemma mem_set_get m a n : 0 <= n -> mem_set m a (mem_get m a n) ≡ m.
Proof.
  intros Hn x. unfold mem_set. rewrite mem_get_length.
  destruct (_ && _) eqn:E; [|done].
  rewrite andb_true_iff, Z.leb_le, Z.ltb_lt in E.
  apply nth_lookup_Some. rewrite mem_get_lookup by lia.
  do 2 f_equal. lia.
Qed.

Lemma mem_get_1 m a : mem_get m a 1 = [m a].
Proof. unfold mem_get. change (seqZ 0 1) with [0]. cbn [fmap list_fmap]. by rewrite Z.add_0_r. Qed.

Lemma mem_get_app m a n1 n2 :
  0 <= n1 -> 0 <= n2 -> mem_get m a (n1 + n2) = mem_get m a n1 ++ mem_get m (a + n1) n2.
Proof.
  intros H1 H2. unfold mem_get. rewrite seqZ_app, fmap_app by done. f_equal.
  replace (0 + n1) with (n1 + 0) by lia.
  rewrite <- (fmap_add_seqZ n1 0 n2), <- list_fmap_compose.
  apply list_fmap_ext. intros i x _. cbn. f_equal. lia.
Qed.

(** ** Stores and loads inside the mapping *)

Lemma in_ram_spec size a n : in_ram size a n = true <-> 0 <= a /\ 0 <= n /\ a + n <= size.
Proof. unfold in_ram. rewrite !andb_true_iff, !Z.leb_le. tauto. Qed.

Lemma ram_store_ok size m a bs :
  0 <= a -> a + Z.of_nat (length bs) <= size -> ram_store size m a bs = Ok (mem_set m a bs).
Proof.
  intros H1 H2. unfold ram_store. by rewrite (proj2 (in_ram_spec _ _ _)) by lia.
Qed.

Lemma ram_store_inv size m a bs m' :
  ram_store size m a bs = Ok m' ->
  m' = mem_set m a bs /\ 0 <= a /\ a + Z.of_nat (length bs) <= size.
Proof.
  unfold ram_store, guard_oob. case_match eqn:E; [|done]. intros [= <-].
  apply in_ram_spec in E as (? & ? & ?). done.
Qed.

Lemma ram_load_ok size m a n :
  0 <= a -> 0 <= n -> a + n <= size -> ram_load size m a n = Ok (mem_get m a n).
Proof. intros. unfold ram_load. by rewrite (proj2 (in_ram_spec _ _ _)) by lia. Qed.

Lemma ram_load_fault size m a n :
  size < a + n -> ram_load size m a n = Fault OutOfBounds.
Proof.
  intros H. unfold ram_load, guard_oob. case_match eqn:E; [|done].
  apply in_ram_spec in E. lia.
Qed.

(** Reading inside what was written. *)
Lemma mem_get_set_sub m a bs b n :
  a <= b -> 0 <= n -> b + n <= a + Z.of_nat (length bs) ->
  mem_get (mem_set m a bs) b n = take (Z.to_nat n) (drop (Z.to_nat (b - a)) bs).
Proof.
  intros Hab Hn Hb. apply list_eq_same_length with (Z.to_nat n);
    [rewrite length_take, length_drop; lia|by rewrite mem_get_length|].
  intros i x y Hi Hx Hy. rewrite mem_get_lookup in Hx by lia. injection Hx as <-.
  rewrite mem_set_inside by lia. rewrite lookup_take_lt, lookup_drop in Hy by lia.
  apply nth_lookup_Some. rewrite <- Hy. f_equal. lia.
Qed.

(** Adjacent stores are one store. *)
Lemma mem_set_app m a b1 b2 :
  mem_set (mem_set m a b1) (a + Z.of_nat (length b1)) b2 ≡ mem_set m a (b1 ++ b2).
Proof.
  intros x. unfold mem_set. rewrite length_app, Nat2Z.inj_add.
  destruct (Z.leb_spec (a + Z.of_nat (length b1)) x), (Z.ltb_spec x (a + Z.of_nat (length b1) + Z.of_nat (length b2))),
    (Z.leb_spec a x), (Z.ltb_spec x (a + Z.of_nat (length b1))),
    (Z.ltb_spec x (a + (Z.of_nat (length b1) + Z.of_nat (length b2)))); try lia; cbn [andb]; try done.
  - rewrite app_nth2 by lia. f_equal. lia.
  - by rewrite app_nth1 by lia.
Qed.

(** Storing what is already there. *)
Lemma mem_set_same m a bs : mem_get m a (Z.of_nat (length bs)) = bs -> mem_set m a bs ≡ m.
Proof. intros <-. apply mem_set_get. lia. Qed.

(** Memory behind a pointer to a byte string. *)
Definition mem_of (l : list Z) : mem := fun a => if a <? 0 then 0 else nth (Z.to_nat a) l 0.

(** The [n]-byte integer at an address. *)
Definition rd (m : mem) (n : nat) (a : Z) : Z := le_dec (mem_get m a (Z.of_nat n)).

Definition mem_bytes (m : mem) : Prop := forall a, byte_ok (m a).

Lemma mem_get_bytes m a n : mem_bytes m -> Forall byte_ok (mem_get m a n).
Proof. intros Hm. unfold mem_get. apply Forall_fmap, Forall_true. intros i. apply Hm. Qed.

Lemma mem_set_bytes m a bs : mem_bytes m -> Forall byte_ok bs -> mem_bytes (mem_set m a bs).
Proof.
  intros Hm Hb x. unfold mem_set. case_match; [|apply Hm].
  destruct (nth_in_or_default (Z.to_nat (x - a)) bs 0) as [Hi|E]; [|by rewrite E].
  rewrite Forall_forall in Hb. apply Hb. by apply list_elem_of_In.
Qed.

Lemma mem_zero_bytes : mem_bytes mem_zero.
Proof. intros a. unfold byte_ok, fits, mem_zero. lia. Qed.

Lemma rd_fits m n a : mem_bytes m -> fits (8 * Z.of_nat n) (rd m n a).
Proof.
  intros Hm. unfold rd. pose proof (le_dec_fits _ (mem_get_bytes m a (Z.of_nat n) Hm)) as Hf.
  by rewrite mem_get_length, Nat2Z.id in Hf.
Qed.

Create Rewrite HintDb ram.
#[export] Hint Rewrite mem_get_length mem_get_set_eq @length_replicate le_enc_length : ram.
