(* ===== verification/Codec.v ===== *)
(** * Binary layouts

    A [codec] is the in-memory layout of a C structure: how many bytes it has,
    which values fit it, how they are stored and read back, and the law that
    reading returns what was stored, whatever follows in memory.  Packed and
    explicitly padded structures are built field by field. *)
From S2P Require Import Prelude.
From stdpp Require Import options.

Record codec (A : Type) : Type := Codec {
  c_size : nat;
  c_ok : A -> Prop;
  c_put : A -> list Z;
  c_get : list Z -> A;
  c_put_length : forall a, c_ok a -> length (c_put a) = c_size;
  c_get_put : forall a rest, c_ok a -> c_get (c_put a ++ rest) = a;
}.
Global Arguments Codec {A} _ _ _ _ _ _.
Global Arguments c_size {A} _.
Global Arguments c_ok {A} _ _.
Global Arguments c_put {A} _ _.
Global Arguments c_get {A} _ _.
Global Arguments c_put_length {A} _ _ _.
Global Arguments c_get_put {A} _ _ _ _.

(** An [n]-byte little-endian unsigned integer. *)
Program Definition cint (n : nat) : codec Z :=
  Codec n (fits (8 * Z.of_nat n)) (le_enc n) (fun l => le_dec (take n l)) _ _.
Next Obligation. intros. apply le_enc_length. Qed.
Next Obligation.
  intros n a rest Ha. cbv beta. rewrite take_app_length' by (symmetry; apply le_enc_length). by apply le_dec_enc.
Qed.

(** [n] bytes the program never looks into. *)
Program Definition craw (n : nat) : codec (list Z) :=
  Codec n (fun l => length l = n) (fun l => l) (take n) _ _.
Next Obligation. done. Qed.
Next Obligation. intros n a rest Ha. by apply take_app_length'. Qed.

Program Definition cpair {A B} (c : codec A) (d : codec B) : codec (A * B) :=
  Codec (c_size c + c_size d)
    (fun p => c_ok c p.1 /\ c_ok d p.2)
    (fun p => c_put c p.1 ++ c_put d p.2)
    (fun l => (c_get c l, c_get d (drop (c_size c) l))) _ _.
Next Obligation.
  intros A B c d [a b] [Ha Hb]. cbn in *. rewrite length_app. by rewrite !c_put_length.
Qed.
Next Obligation.
  intros A B c d [a b] rest [Ha Hb]. cbn in *. rewrite <- app_assoc.
  rewrite c_get_put by done. rewrite drop_app_length' by (symmetry; by apply c_put_length).
  by rewrite c_get_put.
Qed.

(** An array of [k] elements. *)
Section carray.
  Context {A : Type} (c : codec A).

Fixpoint array_get (k : nat) (l : list Z) : list A :=
  match k with
  | O => []
  | S k' => c_get c l :: array_get k' (drop (c_size c) l)
  end.

Lemma array_get_length k l : length (array_get k l) = k.
Proof. revert l. induction k as [|k IH]; intros l; cbn; [done|]. by rewrite IH. Qed.

Lemma array_get_put (xs : list A) rest :
  Forall (c_ok c) xs -> array_get (length xs) (mjoin (c_put c <$> xs) ++ rest) = xs.
Proof.
  induction 1 as [|x xs Hx _ IH]; [done|].
  cbn [length array_get fmap list_fmap mjoin list_join]. rewrite <- app_assoc.
  rewrite c_get_put by done. f_equal.
  by rewrite drop_app_length' by (symmetry; by apply c_put_length).
Qed.

Lemma array_put_length (xs : list A) :
  Forall (c_ok c) xs -> length (mjoin (c_put c <$> xs)) = (length xs * c_size c)%nat.
Proof.
  induction 1 as [|x xs Hx _ IH]; [done|].
  rewrite fmap_cons. change (mjoin (c_put c x :: (c_put c <$> xs))) with (c_put c x ++ mjoin (c_put c <$> xs)).
  rewrite length_app, IH, c_put_length by done. reflexivity.
Qed.
End carray.

Program Definition carray {A} (k : nat) (c : codec A) : codec (list A) :=
  Codec (k * c_size c)
    (fun xs => length xs = k /\ Forall (c_ok c) xs)
    (fun xs => mjoin (c_put c <$> xs)) (array_get c k) _ _.
Next Obligation. intros A k c xs [<- Hxs]. by apply array_put_length. Qed.
Next Obligation. intros A k c xs rest [<- Hxs]. by apply array_get_put. Qed.

(** The layout of a record through the tuple of its fields. *)
Program Definition cvia {A B} (c : codec B) (to : A -> B) (from : B -> A)
    (Hft : forall a, from (to a) = a) : codec A :=
  Codec (c_size c) (fun a => c_ok c (to a)) (fun a => c_put c (to a))
    (fun l => from (c_get c l)) _ _.
Next Obligation. intros. by apply c_put_length. Qed.
Next Obligation. intros A B c to from Hft a rest Ha. cbn. by rewrite c_get_put. Qed.

Infix "⊗" := cpair (at level 60, right associativity) : vmm_scope.

(** Reading an object whose bytes are a prefix of the source. *)
Lemma c_get_exact {A} (c : codec A) a : c_ok c a -> c_get c (c_put c a) = a.
Proof. intros Ha. rewrite <- (app_nil_r (c_put c a)). by apply c_get_put. Qed.

Lemma c_put_inj {A} (c : codec A) a b :
  c_ok c a -> c_ok c b -> c_put c a = c_put c b -> a = b.
Proof.
  intros Ha Hb Hab. rewrite <- (c_get_exact c a Ha), <- (c_get_exact c b Hb). by rewrite Hab.
Qed.
