(* ===== verification/State.v ===== *)
(** * The state of class [Vmm] and the world it runs in

    [Vmm] (src/src/vmm.hpp) is one class whose private members are the state of
    every component; here they are grouped, one record per component, under the
    names the class gives them.  Member functions are programs of the monad
    [M]: they read and write that state, call the host, and may end in a
    [fault].

    The host (kernel, KVM, the virtiofsd daemon, the guest) is not part of the
    repository: it is the parameter [Host], a function from the calls made so
    far to the reply of the next one.  Every call and its reply is appended to
    [trace_], so a statement about what the program does to the outside world
    is a statement about [trace_]. *)
From S2P Require Import Prelude Memory.
From stdpp Require Import options.

(** ** Calls to the host *)

(** The KVM state ioctls of save_snapshot and restore_snapshot, by the
    structure they move. *)
Inductive kvm_item : Type :=
| KvmRegs | KvmSregs | KvmLapic | KvmVcpuEvents | KvmXcrs | KvmMpState
| KvmDebugregs | KvmClock | KvmPit2 | KvmPicMaster | KvmPicSlave | KvmIoapic
| KvmTscKhz | KvmXsave2 | KvmXsave | KvmMsrs | KvmCpuid2.

Inductive thread : Type := ThIrq | ThNet | ThUffd | ThCopy.

Inductive syscall : Type :=
| sys_eventfd                                       (* eventfd(0, NONBLOCK|CLOEXEC) *)
| sys_close (fd : Z)
| sys_write (fd : Z) (buf : list Z)
| sys_read (fd count : Z)
| sys_irq_line (irq level : Z)                      (* ioctl(vm_fd_, KVM_IRQ_LINE) *)
| sys_kvm_get (what : kvm_item) (arg : list Z)      (* ioctl(_, KVM_GET_..) *)
| sys_kvm_set (what : kvm_item) (arg : list Z)      (* ioctl(_, KVM_SET_..) *)
| sys_kvm_run                                       (* ioctl(vcpu_fd_, KVM_RUN) *)
| sys_socket
| sys_connect (fd : Z)
| sys_socketpair
| sys_usleep (us : Z)
| sys_sendmsg (fd : Z) (buf : list Z) (fds : list Z)
| sys_recvmsg (fd count : Z)
| sys_sigaction_usr1
| sys_pthread_create (t : thread)
| sys_pthread_kill_usr1
| sys_pthread_join (t : thread)
| sys_poll (fds : list Z) (timeout : Z)
| sys_clock_gettime
| sys_stdout (timed : bool) (line : list Z)         (* a console line *)
| sys_timing_report (us_total us_vmm us_guest : Z)    (* the TIME TO START banner *)
| sys_userfaultfd
| sys_uffdio_api
| sys_uffdio_register (start len : Z)
| sys_uffdio_copy (dst : Z) (page : list Z)
| sys_uffdio_zeropage (start len : Z)
| sys_open (path : list Z) (write : bool)
| sys_tunsetiff (fd : Z) (ifname : list Z)          (* ioctl(TUNSETIFF), IFF_TAP|IFF_NO_PI *)
| sys_set_nonblock (fd : Z)                         (* fcntl F_GETFL, F_SETFL *)
| sys_fstat (fd : Z)
| sys_mmap (fd len : Z)
| sys_munmap (addr len : Z)
| sys_kill (pid : Z)
| sys_waitpid (pid : Z)
| sys_kvm_api_version
| sys_kvm_msr_index_list (buf : list Z)             (* struct kvm_msr_list *)
| sys_kvm_create_vm
| sys_kvm_create_irqchip
| sys_kvm_create_pit2
| sys_memfd_create (hugetlb : bool)
| sys_ftruncate (fd len : Z)
| sys_memory_region (slot gpa hva len : Z)          (* KVM_SET_USER_MEMORY_REGION *)
| sys_kvm_create_vcpu
| sys_kvm_vcpu_mmap_size
| sys_kvm_supported_cpuid (buf : list Z)            (* struct kvm_cpuid2 *)
| sys_unlink (path : list Z)
| sys_fork
| sys_exec_virtiofsd (sock_path shared_dir : list Z)
| sys_wait
| sys_getpid
| sys_mmap_anon (len : Z)                            (* private anonymous memory *)
| sys_exit (code : Z).

(** The value returned, [errno] when it is negative, and the bytes the call
    stores through its pointer arguments. *)
Record reply : Type := { r_ret : Z; r_errno : Z; r_data : list Z }.

Definition EAGAIN : Z := 11.
Definition EINTR : Z := 4.
Definition EEXIST : Z := 17.

Definition trace : Type := list (syscall * reply).

(** What KVM_RUN leaves in [struct kvm_run]: the exit reason with the members
    of its union that the run loop uses. *)
Inductive kvm_exit : Type :=
| KVM_EXIT_IO (is_out : bool) (port size count : Z) (data : list Z)
| KVM_EXIT_MMIO (phys_addr len : Z) (is_write : bool) (data : list Z)
| KVM_EXIT_HLT
| KVM_EXIT_SHUTDOWN
| KVM_EXIT_FAIL_ENTRY (reason : Z)
| KVM_EXIT_INTERNAL_ERROR (suberror : Z) (data : list Z)
| KVM_EXIT_OTHER (reason : Z).

Class Host : Type := {
  reply_of : trace -> syscall -> reply;
  (* what the guest does to [kvm_run] and to its RAM during a KVM_RUN *)
  guest_exit : trace -> kvm_exit -> kvm_exit;
  guest_mem : trace -> mem -> mem;
}.

(** ** Component state *)

(** [struct Virtqueue]. *)
Record Virtqueue : Type := {
  vq_num : Z;       (* uint32_t *)
  vq_ready : Z;     (* uint32_t *)
  vq_desc : Z;      (* uint64_t *)
  vq_driver : Z;    (* uint64_t, avail ring *)
  vq_device : Z;    (* uint64_t, used ring *)
  vq_kick_fd : Z;
  vq_call_fd : Z;
}.
#[export] Instance Virtqueue_eta : Eta Virtqueue := fun q =>
  {| vq_num := vq_num q; vq_ready := vq_ready q; vq_desc := vq_desc q;
     vq_driver := vq_driver q; vq_device := vq_device q;
     vq_kick_fd := vq_kick_fd q; vq_call_fd := vq_call_fd q |}.

(** [q = {}]: the default member initialisers. *)
Definition Virtqueue_init : Virtqueue :=
  {| vq_num := 0; vq_ready := 0; vq_desc := 0; vq_driver := 0; vq_device := 0;
     vq_kick_fd := -1; vq_call_fd := -1 |}.

(** Serial (16550) registers. *)
Record Uart : Type := {
  uart_ier_ : Z; uart_lcr_ : Z; uart_mcr_ : Z;
  uart_lsr_ : Z; uart_msr_ : Z; uart_scr_ : Z;
  uart_dll_ : Z; uart_dlh_ : Z; uart_fcr_ : Z;
}.
#[export] Instance Uart_eta : Eta Uart := fun u =>
  {| uart_ier_ := uart_ier_ u; uart_lcr_ := uart_lcr_ u; uart_mcr_ := uart_mcr_ u;
     uart_lsr_ := uart_lsr_ u; uart_msr_ := uart_msr_ u; uart_scr_ := uart_scr_ u;
     uart_dll_ := uart_dll_ u; uart_dlh_ := uart_dlh_ u; uart_fcr_ := uart_fcr_ u |}.

Definition Uart_init : Uart :=
  {| uart_ier_ := 0; uart_lcr_ := 0x03; uart_mcr_ := 0;
     uart_lsr_ := 0x60; uart_msr_ := 0xb0; uart_scr_ := 0;
     uart_dll_ := 0x01; uart_dlh_ := 0; uart_fcr_ := 0 |}.

(** Console line buffer and entrypoint timing; a [timespec] is a pair of
    seconds and nanoseconds, and the measured time is kept in microseconds
    (the class stores it divided by 1000.0). *)
Record Console : Type := {
  t_cmd_start_ : Z * Z;
  t_vcpu_start_ : Z * Z;
  timing_entrypoint_ : bool;
  entrypoint_measured_ : bool;
  serial_line_buf_ : list Z;
  time_to_entrypoint_us_ : Z;
}.
#[export] Instance Console_eta : Eta Console := fun c =>
  {| t_cmd_start_ := t_cmd_start_ c; t_vcpu_start_ := t_vcpu_start_ c;
     timing_entrypoint_ := timing_entrypoint_ c;
     entrypoint_measured_ := entrypoint_measured_ c;
     serial_line_buf_ := serial_line_buf_ c;
     time_to_entrypoint_us_ := time_to_entrypoint_us_ c |}.

Definition Console_init : Console :=
  {| t_cmd_start_ := (0, 0); t_vcpu_start_ := (0, 0);
     timing_entrypoint_ := false; entrypoint_measured_ := false;
     serial_line_buf_ := []; time_to_entrypoint_us_ := 0 |}.

(** [struct VirtioFsConfig] as its 40 bytes (a 36-byte tag, then
    [num_request_queues]) and [struct VirtioNetConfig] as its 12 packed bytes
    (mac, status, max_vq_pairs, mtu). *)
Definition sizeof_VirtioFsConfig : Z := 40.
Definition sizeof_VirtioNetConfig : Z := 12.

(** Virtio-fs device state. *)
Record FsDev : Type := {
  vqs_ : list Virtqueue;       (* Virtqueue[NUM_QUEUES] *)
  vdev_features_sel_ : Z;
  vdrv_features_sel_ : Z;
  vdrv_features_ : Z;
  vdev_status_ : Z;
  vqueue_sel_ : Z;
  virq_status_ : Z;
  shm_sel_ : Z;
  fs_config_ : list Z;
  virtio_active_ : bool;
}.
#[export] Instance FsDev_eta : Eta FsDev := fun d =>
  {| vqs_ := vqs_ d; vdev_features_sel_ := vdev_features_sel_ d;
     vdrv_features_sel_ := vdrv_features_sel_ d; vdrv_features_ := vdrv_features_ d;
     vdev_status_ := vdev_status_ d; vqueue_sel_ := vqueue_sel_ d;
     virq_status_ := virq_status_ d; shm_sel_ := shm_sel_ d;
     fs_config_ := fs_config_ d; virtio_active_ := virtio_active_ d |}.

Definition NUM_QUEUES : Z := 2.

Definition FsDev_init : FsDev :=
  {| vqs_ := [Virtqueue_init; Virtqueue_init];
     vdev_features_sel_ := 0; vdrv_features_sel_ := 0; vdrv_features_ := 0;
     vdev_status_ := 0; vqueue_sel_ := 0; virq_status_ := 0; shm_sel_ := 0;
     fs_config_ := replicate 40 0; virtio_active_ := false |}.

(** Virtio-net device state. *)
Record NetDev : Type := {
  net_vqs_ : list Virtqueue;   (* Virtqueue[NET_NUM_QUEUES] *)
  net_features_sel_ : Z;
  net_drv_features_sel_ : Z;
  net_drv_features_ : Z;
  net_status_ : Z;
  net_queue_sel_ : Z;
  net_irq_status_ : Z;
  net_config_ : list Z;
  net_active_ : bool;
  tap_fd_ : Z;
  vhost_fd_ : Z;
  net_wakeup_fd_ : Z;
  net_thread_running_ : bool;
  net_thread_stop_ : bool;
}.
#[export] Instance NetDev_eta : Eta NetDev := fun d =>
  {| net_vqs_ := net_vqs_ d; net_features_sel_ := net_features_sel_ d;
     net_drv_features_sel_ := net_drv_features_sel_ d;
     net_drv_features_ := net_drv_features_ d; net_status_ := net_status_ d;
     net_queue_sel_ := net_queue_sel_ d; net_irq_status_ := net_irq_status_ d;
     net_config_ := net_config_ d; net_active_ := net_active_ d;
     tap_fd_ := tap_fd_ d; vhost_fd_ := vhost_fd_ d;
     net_wakeup_fd_ := net_wakeup_fd_ d;
     net_thread_running_ := net_thread_running_ d;
     net_thread_stop_ := net_thread_stop_ d |}.

Definition NET_NUM_QUEUES : Z := 2.

Definition NetDev_init : NetDev :=
  {| net_vqs_ := [Virtqueue_init; Virtqueue_init];
     net_features_sel_ := 0; net_drv_features_sel_ := 0; net_drv_features_ := 0;
     net_status_ := 0; net_queue_sel_ := 0; net_irq_status_ := 0;
     net_config_ := replicate 12 0; net_active_ := false;
     tap_fd_ := -1; vhost_fd_ := -1; net_wakeup_fd_ := -1;
     net_thread_running_ := false; net_thread_stop_ := false |}.

(** The IRQ thread, the vhost-user connection and the virtiofsd process. *)
Record VhostUser : Type := {
  irq_thread_running_ : bool;
  irq_wakeup_fd_ : Z;
  vu_sock_ : Z;
  vu_backend_sock_ : Z;
  vu_features_ : Z;
  vu_proto_features_ : Z;
  virtiofsd_pid_ : Z;
}.
#[export] Instance VhostUser_eta : Eta VhostUser := fun v =>
  {| irq_thread_running_ := irq_thread_running_ v; irq_wakeup_fd_ := irq_wakeup_fd_ v;
     vu_sock_ := vu_sock_ v; vu_backend_sock_ := vu_backend_sock_ v;
     vu_features_ := vu_features_ v; vu_proto_features_ := vu_proto_features_ v;
     virtiofsd_pid_ := virtiofsd_pid_ v |}.

Definition VhostUser_init : VhostUser :=
  {| irq_thread_running_ := false; irq_wakeup_fd_ := -1; vu_sock_ := -1;
     vu_backend_sock_ := -1; vu_features_ := 0; vu_proto_features_ := 0;
     virtiofsd_pid_ := -1 |}.

(** userfaultfd and the snapshot kept resident for its worker.  [snap_ram_] is
    the pointer into the mapped snapshot, by the bytes it points to. *)
Record Uffd : Type := {
  uffd_ : Z;
  uffd_running_ : bool;
  uffd_wakeup_fd_ : Z;
  use_uffd_ : bool;
  midway_uffd_ : bool;
  uffd_fault_count_ : Z;
  snap_mmap_base_ : Z;
  snap_mmap_sz_ : Z;
  snap_fd_ : Z;
  snap_ram_ : option mem;
  snap_bitmap_buf_ : list Z;
  snap_total_pages_ : Z;
}.
#[export] Instance Uffd_eta : Eta Uffd := fun u =>
  {| uffd_ := uffd_ u; uffd_running_ := uffd_running_ u;
     uffd_wakeup_fd_ := uffd_wakeup_fd_ u; use_uffd_ := use_uffd_ u;
     midway_uffd_ := midway_uffd_ u; uffd_fault_count_ := uffd_fault_count_ u;
     snap_mmap_base_ := snap_mmap_base_ u; snap_mmap_sz_ := snap_mmap_sz_ u;
     snap_fd_ := snap_fd_ u; snap_ram_ := snap_ram_ u;
     snap_bitmap_buf_ := snap_bitmap_buf_ u; snap_total_pages_ := snap_total_pages_ u |}.

Definition Uffd_init : Uffd :=
  {| uffd_ := -1; uffd_running_ := false; uffd_wakeup_fd_ := -1;
     use_uffd_ := false; midway_uffd_ := false; uffd_fault_count_ := 0;
     snap_mmap_base_ := 0; snap_mmap_sz_ := 0; snap_fd_ := -1;
     snap_ram_ := None; snap_bitmap_buf_ := []; snap_total_pages_ := 0 |}.

(** ** class Vmm *)

(** [ram_] is the host address of the mapping (0 for [nullptr]) and
    [ram_mem_] its contents; likewise [kvm_run_addr_] and [kvm_run_]; [cpuid_] and [msr_list_] are the arrays without
    their counts, which are their lengths. *)
Record Vmm : Type := {
  kvm_fd_ : Z; vm_fd_ : Z; vcpu_fd_ : Z;
  ram_ : Z;
  ram_mem_ : mem;
  ram_bytes_ : Z;
  ram_mb_ : Z;
  kvm_run_addr_ : Z;
  kvm_run_ : kvm_exit;
  run_mmap_sz_ : Z;
  cpuid_ : list (list Z);
  msr_list_ : list Z;
  cmdline_ : list Z;
  ivt_ : list (Z * Z);
  uart_ : Uart;
  con_ : Console;
  fs_ : FsDev;
  net_ : NetDev;
  vu_ : VhostUser;
  lazy_ : Uffd;
  ignore_next_signal_ : bool;
  ram_memfd_ : Z;
  use_hugetlb_ : bool;
  copy_threads_ : Z;
  trace_ : trace;
}.
#[export] Instance Vmm_eta : Eta Vmm := fun s =>
  {| kvm_fd_ := kvm_fd_ s; vm_fd_ := vm_fd_ s; vcpu_fd_ := vcpu_fd_ s;
     ram_ := ram_ s; ram_mem_ := ram_mem_ s; ram_bytes_ := ram_bytes_ s;
     ram_mb_ := ram_mb_ s; kvm_run_addr_ := kvm_run_addr_ s; kvm_run_ := kvm_run_ s; run_mmap_sz_ := run_mmap_sz_ s;
     cpuid_ := cpuid_ s; msr_list_ := msr_list_ s; cmdline_ := cmdline_ s;
     ivt_ := ivt_ s; uart_ := uart_ s; con_ := con_ s; fs_ := fs_ s; net_ := net_ s;
     vu_ := vu_ s; lazy_ := lazy_ s; ignore_next_signal_ := ignore_next_signal_ s;
     ram_memfd_ := ram_memfd_ s; use_hugetlb_ := use_hugetlb_ s;
     copy_threads_ := copy_threads_ s; trace_ := trace_ s |}.

(** [explicit Vmm(size_t ram_mb)], with the default member initialisers. *)
Definition Vmm_new (ram_mb : Z) : Vmm :=
  {| kvm_fd_ := -1; vm_fd_ := -1; vcpu_fd_ := -1;
     ram_ := 0; ram_mem_ := mem_zero; ram_bytes_ := u64 (Z.shiftl ram_mb 20);
     ram_mb_ := ram_mb; kvm_run_addr_ := 0; kvm_run_ := KVM_EXIT_OTHER 0; run_mmap_sz_ := 0;
     cpuid_ := []; msr_list_ := [];
     cmdline_ := bytes "console=ttyS0,115200n8 earlyprintk=serial,0x3f8,115200 nokaslr tsc=reliable clocksource=tsc lpj=3392000 pci=off";
     ivt_ := replicate 256 (0, 0);
     uart_ := Uart_init; con_ := Console_init; fs_ := FsDev_init; net_ := NetDev_init;
     vu_ := VhostUser_init; lazy_ := Uffd_init; ignore_next_signal_ := false;
     ram_memfd_ := -1; use_hugetlb_ := false; copy_threads_ := 2; trace_ := [] |}.

(** ** Programs *)

Definition M (A : Type) : Type := Vmm -> result (A * Vmm).

#[export] Instance M_ret : MRet M := fun _ a s => Ok (a, s).
#[export] Instance M_bind : MBind M := fun _ _ k c s =>
  match c s with Ok (a, s') => k a s' | Fault f => Fault f end.

Definition gets {A} (f : Vmm -> A) : M A := fun s => Ok (f s, s).
Definition modify (f : Vmm -> Vmm) : M unit := fun s => Ok ((), f s).
Definition fail_with {A} (f : fault) : M A := fun _ => Fault f.
Definition lift {A} (r : result A) : M A := fun s => r ≫= fun a => Ok (a, s).
Definition skip : M unit := mret ().
Definition when (b : bool) (c : M unit) : M unit := if b then c else skip.

(** The loop [for (i : l) body]. *)
Fixpoint for_each {A} (l : list A) (body : A -> M unit) : M unit :=
  match l with
  | [] => skip
  | x :: l' => body x ;; for_each l' body
  end.

Section host.
  Context {H : Host}.

(** One call to the host. *)
Definition sys (c : syscall) : M reply := fun s =>
    let r := reply_of (trace_ s) c in
    Ok (r, s <| trace_ ::= (fun t => t ++ [(c, r)]) |>).

(** A call whose result is ignored, [(void)ioctl(..)]. *)
Definition sys_ (c : syscall) : M unit := sys c ;; skip.

(** [close(fd)] behind the guard [fd >= 0]. *)
Definition close_if_open (fd : Z) : M unit := when (0 <=? fd) (sys_ (sys_close fd)).
End host.

(** Stores and loads through [gpa_ptr] while the guest is not running. *)
Definition store (a : Z) (bs : list Z) : M unit :=
  s ← gets id;
  m ← lift (ram_store (ram_bytes_ s) (ram_mem_ s) a bs);
  modify (fun s => s <| ram_mem_ := m |>).

Definition fetch (a n : Z) : M (list Z) :=
  s ← gets id;
  lift (ram_load (ram_bytes_ s) (ram_mem_ s) a n).

Definition upd_uart (f : Uart -> Uart) : M unit := modify (fun s => s <| uart_ ::= f |>).
Definition upd_con (f : Console -> Console) : M unit := modify (fun s => s <| con_ ::= f |>).
Definition upd_fs (f : FsDev -> FsDev) : M unit := modify (fun s => s <| fs_ ::= f |>).
Definition upd_net (f : NetDev -> NetDev) : M unit := modify (fun s => s <| net_ ::= f |>).
Definition upd_vu (f : VhostUser -> VhostUser) : M unit := modify (fun s => s <| vu_ ::= f |>).
Definition upd_lazy (f : Uffd -> Uffd) : M unit := modify (fun s => s <| lazy_ ::= f |>).
