(* ===== verification/Logic.v ===== *)
(** * Reasoning about programs of [M]

    [wp c Q s]: run from [s], program [c] ends without a fault, in a result
    and a state that satisfy [Q].  The rules follow the program's syntax, and
    a host call is covered for every reply the host may give, so that a proof
    never computes with the trace.  [wlp] allows faults. *)
From S2P Require Import Prelude Memory State.
From stdpp Require Import options.

Definition wp {A} (c : M A) (Q : A -> Vmm -> Prop) (s : Vmm) : Prop :=
  match c s with Ok (a, s') => Q a s' | Fault _ => False end.

Definition wlp {A} (c : M A) (Q : A -> Vmm -> Prop) (s : Vmm) : Prop :=
  match c s with Ok (a, s') => Q a s' | Fault _ => True end.

Section rules.
  Context {H : Host}.

Lemma wp_ok {A} (c : M A) Q s :
  wp c Q s <-> exists a s', c s = Ok (a, s') /\ Q a s'.
Proof.
  unfold wp. destruct (c s) as [[a s']|f]; [|naive_solver].
  split; [by eauto|]. by intros (? & ? & [= -> ->] & ?).
Qed.

Lemma wlp_ok {A} (c : M A) Q s :
  wlp c Q s <-> forall a s', c s = Ok (a, s') -> Q a s'.
Proof.
  unfold wlp. destruct (c s) as [[a s']|f]; [|naive_solver].
  split; [by intros ??? [= -> ->]|by eauto].
Qed.

Lemma wp_wlp {A} (c : M A) Q s : wp c Q s -> wlp c Q s.
Proof. unfold wp, wlp. by destruct (c s) as [[]|]. Qed.

Lemma wp_mono {A} (c : M A) (Q R : A -> Vmm -> Prop) s :
  wp c Q s -> (forall a s', Q a s' -> R a s') -> wp c R s.
Proof. unfold wp. destruct (c s) as [[]|]; naive_solver. Qed.

Lemma wlp_mono {A} (c : M A) (Q R : A -> Vmm -> Prop) s :
  wlp c Q s -> (forall a s', Q a s' -> R a s') -> wlp c R s.
Proof. unfold wlp. destruct (c s) as [[]|]; naive_solver. Qed.

Lemma wp_and {A} (c : M A) (Q R : A -> Vmm -> Prop) s :
  wp c Q s -> wp c R s -> wp c (fun a s' => Q a s' /\ R a s') s.
Proof. unfold wp. destruct (c s) as [[]|]; naive_solver. Qed.

(** What holds if the program ends, next to a proof that it does. *)
Lemma wp_wlp_and {A} (c : M A) (Q R : A -> Vmm -> Prop) s :
  wp c Q s -> wlp c R s -> wp c (fun a s' => Q a s' /\ R a s') s.
Proof. unfold wp, wlp. destruct (c s) as [[]|]; naive_solver. Qed.

(** A fact that needs a hypothesis on the host, next to one that does not; the
    program is known to end without a fault. *)
Lemma wp_imp {A} (P : Prop) (c : M A) (Q R : A -> Vmm -> Prop) s :
  wp c Q s -> (P -> wp c R s) -> wp c (fun a s' => Q a s' /\ (P -> R a s')) s.
Proof. unfold wp. destruct (c s) as [[]|]; naive_solver. Qed.

Lemma wp_bind {A B} (c : M A) (k : A -> M B) Q s :
  wp c (fun a s' => wp (k a) Q s') s -> wp (c ≫= k) Q s.
Proof. unfold wp, mbind, M_bind. by destruct (c s) as [[]|]. Qed.

Lemma wlp_bind {A B} (c : M A) (k : A -> M B) Q s :
  wlp c (fun a s' => wlp (k a) Q s') s -> wlp (c ≫= k) Q s.
Proof. unfold wlp, mbind, M_bind. by destruct (c s) as [[]|]. Qed.

Lemma wp_ret {A} (a : A) (Q : A -> Vmm -> Prop) s : Q a s -> wp (mret a) Q s.
Proof. done. Qed.
Lemma wlp_ret {A} (a : A) (Q : A -> Vmm -> Prop) s : Q a s -> wlp (mret a) Q s.
Proof. done. Qed.

Lemma wp_skip (Q : () -> Vmm -> Prop) s : Q () s -> wp skip Q s.
Proof. done. Qed.
Lemma wlp_skip (Q : () -> Vmm -> Prop) s : Q () s -> wlp skip Q s.
Proof. done. Qed.

Lemma wp_gets {A} (f : Vmm -> A) (Q : A -> Vmm -> Prop) s : Q (f s) s -> wp (gets f) Q s.
Proof. done. Qed.
Lemma wlp_gets {A} (f : Vmm -> A) (Q : A -> Vmm -> Prop) s : Q (f s) s -> wlp (gets f) Q s.
Proof. done. Qed.

Lemma wp_modify f (Q : () -> Vmm -> Prop) s :
  (forall s', s' = f s -> Q () s') -> wp (modify f) Q s.
Proof. intros HQ. by apply HQ. Qed.
Lemma wlp_modify f (Q : () -> Vmm -> Prop) s :
  (forall s', s' = f s -> Q () s') -> wlp (modify f) Q s.
Proof. intros HQ. by apply HQ. Qed.

Lemma wp_lift {A} (r : result A) (Q : A -> Vmm -> Prop) s a :
  r = Ok a -> Q a s -> wp (lift r) Q s.
Proof. by intros ->. Qed.
Lemma wlp_lift {A} (r : result A) (Q : A -> Vmm -> Prop) s :
  (forall a, r = Ok a -> Q a s) -> wlp (lift r) Q s.
Proof. unfold wlp, lift. destruct r; cbn; eauto. Qed.

Lemma wlp_fail {A} f (Q : A -> Vmm -> Prop) s : wlp (fail_with f) Q s.
Proof. done. Qed.

Lemma wp_sys c (Q : reply -> Vmm -> Prop) s :
  (forall r s', r = reply_of (trace_ s) c -> s' = s <| trace_ ::= (fun t => t ++ [(c, r)]) |> ->
     Q r s') -> wp (sys c) Q s.
Proof. intros HQ. by apply HQ. Qed.
Lemma wlp_sys c (Q : reply -> Vmm -> Prop) s :
  (forall r s', r = reply_of (trace_ s) c -> s' = s <| trace_ ::= (fun t => t ++ [(c, r)]) |> ->
     Q r s') -> wlp (sys c) Q s.
Proof. intros HQ. by apply HQ. Qed.

Lemma wp_if {A} (b : bool) (c1 c2 : M A) Q s :
  (b = true -> wp c1 Q s) -> (b = false -> wp c2 Q s) -> wp (if b then c1 else c2) Q s.
Proof. destruct b; auto. Qed.
Lemma wlp_if {A} (b : bool) (c1 c2 : M A) Q s :
  (b = true -> wlp c1 Q s) -> (b = false -> wlp c2 Q s) -> wlp (if b then c1 else c2) Q s.
Proof. destruct b; auto. Qed.

(** A loop over a list preserves what its body preserves. *)
Lemma wp_for_each {A} (l : list A) (body : A -> M unit) (I : Vmm -> Prop) s :
  I s -> (forall x s', x ∈ l -> I s' -> wp (body x) (fun _ => I) s') ->
  wp (for_each l body) (fun _ => I) s.
Proof.
  revert s. induction l as [|x l IH]; intros s HI Hb; [done|].
  cbn [for_each]. apply wp_bind. eapply wp_mono; [apply Hb; [set_solver|done]|].
  cbn. intros _ s' HI'. apply IH; [done|]. set_solver.
Qed.

Lemma wlp_for_each {A} (l : list A) (body : A -> M unit) (I : Vmm -> Prop) s :
  I s -> (forall x s', x ∈ l -> I s' -> wlp (body x) (fun _ => I) s') ->
  wlp (for_each l body) (fun _ => I) s.
Proof.
  revert s. induction l as [|x l IH]; intros s HI Hb; [done|].
  cbn [for_each]. apply wlp_bind. eapply wlp_mono; [apply Hb; [set_solver|done]|].
  cbn. intros _ s' HI'. apply IH; [done|]. set_solver.
Qed.

End rules.

(** One rule of the logic, chosen by the program's head. *)
Ltac wp_one :=
  lazymatch goal with
  | |- wp (mbind _ _) _ _ => apply wp_bind
  | |- wp (mret _) _ _ => apply wp_ret
  | |- wp skip _ _ => apply wp_skip
  | |- wp (gets _) _ _ => apply wp_gets
  | |- wp (modify _) _ _ => apply wp_modify;
      let s' := fresh "s" in let Hs := fresh "Hs" in intros s' Hs; cbv beta in Hs
  | |- wp (sys _) _ _ => apply wp_sys;
      let r := fresh "r" in let s' := fresh "s" in
      let Hr := fresh "Hr" in let Hs := fresh "Hs" in intros r s' Hr Hs
  | |- wp (sys_ _) _ _ => unfold sys_
  | |- wp (when _ _) _ _ => unfold when
  | |- wp (close_if_open _) _ _ => unfold close_if_open
  | |- wp (upd_uart _) _ _ => unfold upd_uart
  | |- wp (upd_con _) _ _ => unfold upd_con
  | |- wp (upd_fs _) _ _ => unfold upd_fs
  | |- wp (upd_net _) _ _ => unfold upd_net
  | |- wp (upd_vu _) _ _ => unfold upd_vu
  | |- wp (upd_lazy _) _ _ => unfold upd_lazy
  | |- wp (if _ then _ else _) _ _ =>
    apply wp_if; let Hb := fresh "Hb" in intros Hb
  | |- wp (let _ := _ in _) _ _ => cbv zeta
  | |- wlp (mbind _ _) _ _ => apply wlp_bind
  | |- wlp (mret _) _ _ => apply wlp_ret
  | |- wlp skip _ _ => apply wlp_skip
  | |- wlp (gets _) _ _ => apply wlp_gets
  | |- wlp (modify _) _ _ => apply wlp_modify;
      let s' := fresh "s" in let Hs := fresh "Hs" in intros s' Hs; cbv beta in Hs
  | |- wlp (lift _) _ _ => apply wlp_lift; let a := fresh "a" in let Ha := fresh "Ha" in intros a Ha
  | |- wlp (fail_with _) _ _ => apply wlp_fail
  | |- wlp (sys _) _ _ => apply wlp_sys;
      let r := fresh "r" in let s' := fresh "s" in
      let Hr := fresh "Hr" in let Hs := fresh "Hs" in intros r s' Hr Hs
  | |- wlp (sys_ _) _ _ => unfold sys_
  | |- wlp (when _ _) _ _ => unfold when
  | |- wlp (close_if_open _) _ _ => unfold close_if_open
  | |- wlp (upd_uart _) _ _ => unfold upd_uart
  | |- wlp (upd_con _) _ _ => unfold upd_con
  | |- wlp (upd_fs _) _ _ => unfold upd_fs
  | |- wlp (upd_net _) _ _ => unfold upd_net
  | |- wlp (upd_vu _) _ _ => unfold upd_vu
  | |- wlp (upd_lazy _) _ _ => unfold upd_lazy
  | |- wlp (if _ then _ else _) _ _ =>
    apply wlp_if; let Hb := fresh "Hb" in intros Hb
  | |- wlp (let _ := _ in _) _ _ => cbv zeta
  end; cbv beta.

Ltac wp_run := repeat wp_one.

(** A run leaves one equation per state it goes through; fold them back, newest
    first, so that what is asked of the last state is said of the first one. *)
Ltac unwind :=
  repeat match goal with Hr : _ = reply_of _ _ |- _ => clear Hr end;
  repeat match goal with
         | Hs : ?s' = upd _ _ _ |- _ => is_var s'; subst s'; cbn in *
         | Hs : ?s' = ?s |- _ => is_var s'; is_var s; subst s'
         end.

(** Use a program's specification [L] and go on with what follows it. *)
Tactic Notation "wp_use" constr(L) := first [eapply wp_mono; [eapply L|] | eapply wlp_mono; [eapply L|]]; cbv beta.

(** ** Stores to guest RAM *)

Lemma wp_store a bs (Q : unit -> Vmm -> Prop) s :
  0 <= a -> a + Z.of_nat (length bs) <= ram_bytes_ s ->
  Q () (s <| ram_mem_ := mem_set (ram_mem_ s) a bs |>) -> wp (store a bs) Q s.
Proof.
  intros Ha Hs HQ. unfold store. wp_run. eapply wp_lift; [by apply ram_store_ok|].
  wp_run. by subst.
Qed.

(** ** Interrupt lines

    The levels a program drives on one line of the interrupt controller, in
    order, and the level the line is left at. *)

Definition irq_line_levels (irq : Z) (t : trace) : list Z :=
  omap (fun e => match e.1 with
                 | sys_irq_line i l => if i =? irq then Some l else None
                 | _ => None end) t.

Lemma irq_line_levels_snoc irq t c r :
  irq_line_levels irq (t ++ [(c, r)]) =
  irq_line_levels irq t ++
  match c with sys_irq_line i l => if i =? irq then [l] else [] | _ => [] end.
Proof. unfold irq_line_levels. rewrite omap_app. destruct c; try done. cbn. by destruct (_ =? _). Qed.

Global Arguments irq_line_levels : simpl never.

Definition line_level (irq : Z) (t : trace) : Z := default 0 (last (irq_line_levels irq t)).

(** ** A concrete world

    A host whose calls all return the same value with no data, and whose guest
    never runs: enough to evaluate a program on a concrete input. *)
Definition const_host (ret : Z) : Host := {|
  reply_of _ _ := {| r_ret := ret; r_errno := 0; r_data := [] |};
  guest_exit _ e := e;
  guest_mem _ m := m;
|}.
