(* ===== verification/Uart.v ===== *)
(** * Serial console (16550 UART)

    [Vmm::serial_in] and [Vmm::serial_out] of src/src/vmm.cpp, and the console
    they implement: what the guest prints, line by line. *)
From S2P Require Import Prelude Memory State Logic.
From stdpp Require Import options.

Definition ENTRYPOINT_MARK : list Z := bytes "VMTAINER: running entrypoint".
Definition VMTAINER_PREFIX : list Z := bytes "VMTAINER:".
Definition NEWLINE : Z := 10.

Section uart.
  Context {H : Host}.

(** [uart_lcr_ & 0x80]. *)
Definition dlab (u : Uart) : bool := has_bits (uart_lcr_ u) 0x80.

(** The value [serial_in] stores through [data]; it changes no state. *)
Definition serial_in (port : Z) (u : Uart) : Z :=
  if port =? 0x3f8 then (if dlab u then uart_dll_ u else 0)
  else if port =? 0x3f9 then (if dlab u then uart_dlh_ u else uart_ier_ u)
  else if port =? 0x3fa then (if has_bits (uart_ier_ u) 2 then 0x02 else 0x01)
  else if port =? 0x3fb then uart_lcr_ u
  else if port =? 0x3fc then uart_mcr_ u
  else if port =? 0x3fd then uart_lsr_ u
  else if port =? 0x3fe then uart_msr_ u
  else if port =? 0x3ff then uart_scr_ u
  else 0.

(** [ms_since_start()]: it reads the clock only once a start time is set. *)
Definition ms_since_start : M unit :=
  c ← gets con_;
  when (negb ((t_cmd_start_ c).1 =? 0)) (sys_ sys_clock_gettime).

(** [(b.tv_sec - a.tv_sec) * 1000000L + (b.tv_nsec - a.tv_nsec) / 1000L]. *)
Definition us_diff (a b : Z * Z) : Z :=
  (b.1 - a.1) * 1000000 + Z.quot (b.2 - a.2) 1000.

Definition timespec_of (r : reply) : Z * Z :=
  match r_data r with
  | sec :: nsec :: _ => (sec, nsec)
  | _ => (0, 0)
  end.

(** The part of [serial_out] that runs on a newline, up to the [clear]. *)
Definition serial_newline : M unit :=
  c ← gets con_;
  let line := serial_line_buf_ c in
  let timed := timing_entrypoint_ c && starts_with VMTAINER_PREFIX line in
  when timed ms_since_start ;;
  sys_ (sys_stdout timed (c_str line)) ;;
  when (timing_entrypoint_ c && negb (entrypoint_measured_ c) &&
        contains ENTRYPOINT_MARK line) (
    upd_con (fun c => c <| entrypoint_measured_ := true |>) ;;
    r ← sys sys_clock_gettime;
    let now := timespec_of r in
    let us_total := us_diff (t_cmd_start_ c) now in
    let us_guest := us_diff (t_vcpu_start_ c) now in
    let us_vmm := if us_guest <? us_total then us_total - us_guest else 0 in
    upd_con (fun c => c <| time_to_entrypoint_us_ := us_total |>) ;;
    sys_ (sys_timing_report us_total us_vmm us_guest)).

Definition serial_out (port data : Z) : M unit :=
  u ← gets uart_;
  if port =? 0x3f8 then
    if dlab u then upd_uart (fun u => u <| uart_dll_ := data |>)
    else
      (if data =? NEWLINE then
         serial_newline ;;
         upd_con (fun c => c <| serial_line_buf_ := [] |>)
       else
         c ← gets con_;
         when (Z.of_nat (length (serial_line_buf_ c)) <? 1024)
           (upd_con (fun c => c <| serial_line_buf_ ::= (fun l => l ++ [data]) |>))) ;;
      sys_ (sys_irq_line 4 1) ;;
      sys_ (sys_irq_line 4 0)
  else if port =? 0x3f9 then
    if dlab u then upd_uart (fun u => u <| uart_dlh_ := data |>)
    else upd_uart (fun u => u <| uart_ier_ := data |>)
  else if port =? 0x3fa then upd_uart (fun u => u <| uart_fcr_ := data |>)
  else if port =? 0x3fb then upd_uart (fun u => u <| uart_lcr_ := data |>)
  else if port =? 0x3fc then upd_uart (fun u => u <| uart_mcr_ := data |>)
  else if port =? 0x3ff then upd_uart (fun u => u <| uart_scr_ := data |>)
  else skip.

(** [for (i < io.count) serial_out(port, p[i])]. *)
Definition serial_out_all (port : Z) (data : list Z) : M unit :=
  for_each data (serial_out port).

End uart.

(** ** Specification of the console *)

(** A terminal fed the bytes [bs] with [buf] pending: the lines it shows and
    what stays pending.  A line keeps its first 1024 bytes and is shown up to
    its first NUL. *)
Fixpoint console (buf : list Z) (bs : list Z) : list (list Z) * list Z :=
  match bs with
  | [] => ([], buf)
  | b :: bs' =>
    if b =? NEWLINE then let '(ls, rest) := console [] bs' in (c_str buf :: ls, rest)
    else console (if Z.of_nat (length buf) <? 1024 then buf ++ [b] else buf) bs'
  end.

Definition stdout_lines (t : trace) : list (list Z) :=
  omap (fun e => match e.1 with sys_stdout _ l => Some l | _ => None end) t.

Definition Uart_ok (u : Uart) : Prop :=
  Forall byte_ok [uart_ier_ u; uart_lcr_ u; uart_mcr_ u; uart_lsr_ u; uart_msr_ u;
                  uart_scr_ u; uart_dll_ u; uart_dlh_ u; uart_fcr_ u] /\
  uart_lsr_ u = 0x60 /\ uart_msr_ u = 0xb0.

(** ** Correctness *)

Lemma stdout_lines_snoc t c r :
  stdout_lines (t ++ [(c, r)]) =
  stdout_lines t ++ match c with sys_stdout _ l => [l] | _ => [] end.
Proof. unfold stdout_lines. rewrite omap_app. by destruct c. Qed.

Global Arguments stdout_lines : simpl never.

Create Rewrite HintDb console.
#[export] Hint Rewrite stdout_lines_snoc irq_line_levels_snoc @app_nil_r : console.

(** Close a goal about the console view of a trace that grew call by call. *)
Ltac solve_console :=
  cbn; autorewrite with console; cbn; rewrite ?app_nil_r, <- ?app_assoc; done.

Section facts.
  Context {H : Host}.

Lemma serial_newline_spec s :
  wp serial_newline (fun _ s' =>
    uart_ s' = uart_ s /\ serial_line_buf_ (con_ s') = serial_line_buf_ (con_ s) /\
    stdout_lines (trace_ s') = stdout_lines (trace_ s) ++ [c_str (serial_line_buf_ (con_ s))] /\
    irq_line_levels 4 (trace_ s') = irq_line_levels 4 (trace_ s)) s.
Proof.
  unfold serial_newline, ms_since_start. wp_run.
  all: unwind; split_and!; try done; solve_console.
Qed.

(** One byte to the transmit register: the console of the specification takes
    it, and IRQ 4 is pulsed. *)
Lemma serial_out_thr s b :
  dlab (uart_ s) = false ->
  wp (serial_out 0x3f8 b) (fun _ s' =>
    uart_ s' = uart_ s /\
    let '(ls, rest) := console (serial_line_buf_ (con_ s)) [b] in
    stdout_lines (trace_ s') = stdout_lines (trace_ s) ++ ls /\
    serial_line_buf_ (con_ s') = rest /\
    irq_line_levels 4 (trace_ s') = irq_line_levels 4 (trace_ s) ++ [1; 0]) s.
Proof.
  intros Hd. unfold serial_out. wp_run; try discriminate; try congruence; cbn [console].
  - wp_use (serial_newline_spec s). intros _ s' (Hu & Hb' & Ho & Hi). wp_run.
    rewrite Hb1. unwind. autorewrite with console. by rewrite Ho, Hi, <- app_assoc.
  - rewrite Hb1, Hb2. unwind. solve_console.
  - rewrite Hb1, Hb2. unwind. solve_console.
Qed.

(** C37: the serial port as a terminal.  Bytes sent to the transmit register while
    DLAB is clear come out on standard output as the lines of the specification:
    cut at newlines, at most 1024 bytes each, in order, none lost, and what
    follows the last newline stays pending. *)
Theorem serial_console_lines s bs :
  dlab (uart_ s) = false ->
  wp (serial_out_all 0x3f8 bs) (fun _ s' =>
    let '(ls, rest) := console (serial_line_buf_ (con_ s)) bs in
    stdout_lines (trace_ s') = stdout_lines (trace_ s) ++ ls /\
    serial_line_buf_ (con_ s') = rest /\ uart_ s' = uart_ s) s.
Proof.
  unfold serial_out_all. revert s. induction bs as [|b bs IH]; intros s Hd.
  { cbn. by rewrite app_nil_r. }
  cbn [for_each]. wp_run. wp_use (serial_out_thr s b Hd). intros _ s1 [Hu Hc].
  eapply wp_mono; [apply IH; by rewrite Hu|]. cbv beta. intros _ s2.
  cbn [console] in *. destruct (b =? NEWLINE).
  - destruct Hc as (Ho & Hl & Hi). rewrite Hl.
    destruct (console [] bs) as [ls rest]. intros (Ho2 & Hl2 & Hu2).
    rewrite Ho2, Ho, <- app_assoc, Hu2. done.
  - destruct Hc as (Ho & Hl & Hi). rewrite Hl.
    destruct (console _ bs) as [ls rest]. intros (Ho2 & Hl2 & Hu2).
    rewrite Ho2, Ho, app_nil_r, Hu2. done.
Qed.

Lemma console_pending_bound buf bs :
  (length buf <= 1024)%nat -> (length (console buf bs).2 <= 1024)%nat.
Proof.
  revert buf. induction bs as [|b bs IH]; intros buf Hl; cbn [console]; [done|].
  case_match.
  - pose proof (IH [] ltac:(cbn; lia)) as Hr. by destruct (console [] bs).
  - apply IH. case_match eqn:E; [|done]. rewrite Z.ltb_lt in E. rewrite length_app. cbn. lia.
Qed.

(** The whole of [serial_out] keeps the registers bytes, the status registers
    at their idle values, and the pending line within its buffer. *)
Lemma serial_out_keeps_ok s port data :
  Uart_ok (uart_ s) -> (length (serial_line_buf_ (con_ s)) <= 1024)%nat -> byte_ok data ->
  wp (serial_out port data) (fun _ s' =>
    Uart_ok (uart_ s') /\ (length (serial_line_buf_ (con_ s')) <= 1024)%nat) s.
Proof.
  intros [Hu [Hl Hm]] Hb Hd. destruct (decide (port = 0x3f8 /\ dlab (uart_ s) = false)) as [[-> Hdl]|Hn].
  - wp_use (serial_out_thr s data Hdl). intros _ s'. rewrite surjective_pairing at 1.
    intros [-> (_ & -> & _)]. split; [by split|]. by apply console_pending_bound.
  - unfold serial_out. rewrite !Forall_cons in Hu. destruct_and!.
    wp_run; try (exfalso; apply Hn; split; [by apply Z.eqb_eq|done]).
    all: unwind; split; [|done]; split; [|done]; cbn; rewrite !Forall_cons; split_and!; done.
Qed.

(** the whole of [serial_out] keeps the registers bytes, the status
    registers at their idle values (so that a guest polling them never waits),
    and the pending console line within its 1024 bytes. *)
Theorem serial_out_invariant s port data :
  Uart_ok (uart_ s) -> (length (serial_line_buf_ (con_ s)) <= 1024)%nat -> byte_ok data ->
  wp (serial_out port data) (fun _ s' =>
    Uart_ok (uart_ s') /\ (length (serial_line_buf_ (con_ s')) <= 1024)%nat) s.
Proof. apply serial_out_keeps_ok. Qed.

Lemma serial_out_lcr s d :
  serial_out 0x3fb d s = Ok ((), s <| uart_ ::= (fun u => u <| uart_lcr_ := d |>) |>).
Proof. reflexivity. Qed.

Lemma serial_out_dll s d :
  dlab (uart_ s) = true ->
  serial_out 0x3f8 d s = Ok ((), s <| uart_ ::= (fun u => u <| uart_dll_ := d |>) |>).
Proof. intros Hd. unfold serial_out, mbind, M_bind, gets. by rewrite Hd. Qed.

Lemma serial_out_dlh s d :
  dlab (uart_ s) = true ->
  serial_out 0x3f9 d s = Ok ((), s <| uart_ ::= (fun u => u <| uart_dlh_ := d |>) |>).
Proof. intros Hd. unfold serial_out, mbind, M_bind, gets. by rewrite Hd. Qed.

(** Programming the divisor latch the way the 8250 driver does it: set DLAB,
    write both latch bytes, clear DLAB.  The latch holds the divisor, the
    interrupt-enable register is unchanged, and nothing reaches the console. *)
Theorem serial_divisor_latch s lcr lcr' lo hi :
  has_bits lcr 0x80 = true -> has_bits lcr' 0x80 = false ->
  wp (serial_out 0x3fb lcr ;; serial_out 0x3f8 lo ;; serial_out 0x3f9 hi ;; serial_out 0x3fb lcr')
    (fun _ s' =>
       uart_dll_ (uart_ s') = lo /\ uart_dlh_ (uart_ s') = hi /\
       serial_in 0x3f9 (uart_ s') = uart_ier_ (uart_ s) /\
       serial_in 0x3fb (uart_ s') = lcr' /\ trace_ s' = trace_ s /\ con_ s' = con_ s) s.
Proof.
  intros H1 H2. unfold wp, mbind, M_bind.
  rewrite serial_out_lcr, serial_out_dll, serial_out_dlh, serial_out_lcr by done.
  unfold serial_in, dlab. cbn. by rewrite H2.
Qed.

End facts.
