(* ===== verification/VirtioRegs.v ===== *)
(** * Virtio-MMIO registers

    The constants of src/src/virtio.hpp that the two devices share: register
    offsets, device identities, feature bits. *)
From S2P Require Import Prelude.
From stdpp Require Import options.

Definition VIRTIO_MMIO_GPA : Z := 0xd0001000.
Definition VIRTIO_MMIO_SIZE : Z := 0x1000.
Definition VIRTIO_MMIO_IRQ : Z := 5.
Definition VIRTIO_NET_MMIO_GPA : Z := 0xd0002000.
Definition VIRTIO_NET_MMIO_SIZE : Z := 0x1000.
Definition VIRTIO_NET_MMIO_IRQ : Z := 6.

Definition VIRTIO_DEV_FS : Z := 26.
Definition VIRTIO_DEV_NET : Z := 1.
Definition VIRTIO_VENDOR_ID : Z := 0x554d4551.

(** [enum VirtioMmioReg], less its last member [VIRTIO_MMIO_CONFIG], the start
    of the device-specific area. *)
Inductive VirtioMmioReg : Type :=
| VIRTIO_MMIO_MAGIC_VALUE | VIRTIO_MMIO_VERSION | VIRTIO_MMIO_DEVICE_ID
| VIRTIO_MMIO_VENDOR_ID | VIRTIO_MMIO_DEVICE_FEATURES
| VIRTIO_MMIO_DEVICE_FEATURES_SEL | VIRTIO_MMIO_DRIVER_FEATURES
| VIRTIO_MMIO_DRIVER_FEATURES_SEL | VIRTIO_MMIO_QUEUE_SEL
| VIRTIO_MMIO_QUEUE_NUM_MAX | VIRTIO_MMIO_QUEUE_NUM | VIRTIO_MMIO_QUEUE_READY
| VIRTIO_MMIO_QUEUE_NOTIFY | VIRTIO_MMIO_INTERRUPT_STATUS
| VIRTIO_MMIO_INTERRUPT_ACK | VIRTIO_MMIO_STATUS
| VIRTIO_MMIO_QUEUE_DESC_LOW | VIRTIO_MMIO_QUEUE_DESC_HIGH
| VIRTIO_MMIO_QUEUE_DRIVER_LOW | VIRTIO_MMIO_QUEUE_DRIVER_HIGH
| VIRTIO_MMIO_QUEUE_DEVICE_LOW | VIRTIO_MMIO_QUEUE_DEVICE_HIGH
| VIRTIO_MMIO_SHM_SEL | VIRTIO_MMIO_SHM_LEN_LOW | VIRTIO_MMIO_SHM_LEN_HIGH
| VIRTIO_MMIO_SHM_BASE_LOW | VIRTIO_MMIO_SHM_BASE_HIGH | VIRTIO_MMIO_CONFIG_GEN.

#[export] Instance VirtioMmioReg_eq_dec : EqDecision VirtioMmioReg.
Proof. solve_decision. Defined.

Definition VIRTIO_MMIO_CONFIG : Z := 0x100.

Definition reg_offset (r : VirtioMmioReg) : Z :=
  match r with
  | VIRTIO_MMIO_MAGIC_VALUE => 0x000 | VIRTIO_MMIO_VERSION => 0x004
  | VIRTIO_MMIO_DEVICE_ID => 0x008 | VIRTIO_MMIO_VENDOR_ID => 0x00c
  | VIRTIO_MMIO_DEVICE_FEATURES => 0x010 | VIRTIO_MMIO_DEVICE_FEATURES_SEL => 0x014
  | VIRTIO_MMIO_DRIVER_FEATURES => 0x020 | VIRTIO_MMIO_DRIVER_FEATURES_SEL => 0x024
  | VIRTIO_MMIO_QUEUE_SEL => 0x030 | VIRTIO_MMIO_QUEUE_NUM_MAX => 0x034
  | VIRTIO_MMIO_QUEUE_NUM => 0x038 | VIRTIO_MMIO_QUEUE_READY => 0x044
  | VIRTIO_MMIO_QUEUE_NOTIFY => 0x050 | VIRTIO_MMIO_INTERRUPT_STATUS => 0x060
  | VIRTIO_MMIO_INTERRUPT_ACK => 0x064 | VIRTIO_MMIO_STATUS => 0x070
  | VIRTIO_MMIO_QUEUE_DESC_LOW => 0x080 | VIRTIO_MMIO_QUEUE_DESC_HIGH => 0x084
  | VIRTIO_MMIO_QUEUE_DRIVER_LOW => 0x090 | VIRTIO_MMIO_QUEUE_DRIVER_HIGH => 0x094
  | VIRTIO_MMIO_QUEUE_DEVICE_LOW => 0x0a0 | VIRTIO_MMIO_QUEUE_DEVICE_HIGH => 0x0a4
  | VIRTIO_MMIO_SHM_SEL => 0x0ac | VIRTIO_MMIO_SHM_LEN_LOW => 0x0b0
  | VIRTIO_MMIO_SHM_LEN_HIGH => 0x0b4 | VIRTIO_MMIO_SHM_BASE_LOW => 0x0b8
  | VIRTIO_MMIO_SHM_BASE_HIGH => 0x0bc | VIRTIO_MMIO_CONFIG_GEN => 0x0fc
  end.

Definition all_regs : list VirtioMmioReg :=
  [VIRTIO_MMIO_MAGIC_VALUE; VIRTIO_MMIO_VERSION; VIRTIO_MMIO_DEVICE_ID;
   VIRTIO_MMIO_VENDOR_ID; VIRTIO_MMIO_DEVICE_FEATURES;
   VIRTIO_MMIO_DEVICE_FEATURES_SEL; VIRTIO_MMIO_DRIVER_FEATURES;
   VIRTIO_MMIO_DRIVER_FEATURES_SEL; VIRTIO_MMIO_QUEUE_SEL;
   VIRTIO_MMIO_QUEUE_NUM_MAX; VIRTIO_MMIO_QUEUE_NUM; VIRTIO_MMIO_QUEUE_READY;
   VIRTIO_MMIO_QUEUE_NOTIFY; VIRTIO_MMIO_INTERRUPT_STATUS;
   VIRTIO_MMIO_INTERRUPT_ACK; VIRTIO_MMIO_STATUS;
   VIRTIO_MMIO_QUEUE_DESC_LOW; VIRTIO_MMIO_QUEUE_DESC_HIGH;
   VIRTIO_MMIO_QUEUE_DRIVER_LOW; VIRTIO_MMIO_QUEUE_DRIVER_HIGH;
   VIRTIO_MMIO_QUEUE_DEVICE_LOW; VIRTIO_MMIO_QUEUE_DEVICE_HIGH;
   VIRTIO_MMIO_SHM_SEL; VIRTIO_MMIO_SHM_LEN_LOW; VIRTIO_MMIO_SHM_LEN_HIGH;
   VIRTIO_MMIO_SHM_BASE_LOW; VIRTIO_MMIO_SHM_BASE_HIGH; VIRTIO_MMIO_CONFIG_GEN].

(** [switch (off)]: the register an offset names, if any. *)
Definition reg_at (off : Z) : option VirtioMmioReg :=
  snd <$> list_find (fun r => reg_offset r = off) all_regs.

Definition VIRT_F_VERSION_1 : Z := Z.shiftl 1 32.
Definition VIRT_F_RING_PACKED : Z := Z.shiftl 1 34.
Definition VIRTIO_NET_F_MAC : Z := Z.shiftl 1 5.
Definition VIRTIO_NET_S_LINK_UP : Z := 1.

(** The DRIVER_OK bit of the status register. *)
Definition DRIVER_OK : Z := 0x4.

Lemma all_regs_complete r : r ∈ all_regs.
Proof. apply list_elem_of_lookup. destruct r; unfold all_regs;
  [exists 0%nat|exists 1%nat|exists 2%nat|exists 3%nat|exists 4%nat|exists 5%nat|exists 6%nat
  |exists 7%nat|exists 8%nat|exists 9%nat|exists 10%nat|exists 11%nat|exists 12%nat|exists 13%nat
  |exists 14%nat|exists 15%nat|exists 16%nat|exists 17%nat|exists 18%nat|exists 19%nat|exists 20%nat
  |exists 21%nat|exists 22%nat|exists 23%nat|exists 24%nat|exists 25%nat|exists 26%nat|exists 27%nat];
  reflexivity. Qed.

Lemma reg_at_offset r : reg_at (reg_offset r) = Some r.
Proof. by destruct r. Qed.

Lemma reg_at_some off r : reg_at off = Some r <-> off = reg_offset r.
Proof.
  split; [|intros ->; apply reg_at_offset].
  unfold reg_at. destruct (list_find _ _) as [[i r']|] eqn:E; [|done].
  cbn. intros [= <-]. by apply list_find_Some in E as (_ & <- & _).
Qed.

Lemma reg_at_config off : VIRTIO_MMIO_CONFIG <= off -> reg_at off = None.
Proof.
  intros Hoff. destruct (reg_at off) as [r|] eqn:E; [|done].
  apply reg_at_some in E. subst. by destruct r.
Qed.
