(* ===== verification/VhostUserProto.v ===== *)
(** * The vhost-user connection to virtiofsd

    Messages and handshake of src/src/virtio.cpp: [vu_send], [vu_recv],
    [vu_transact], [vu_connect], [vu_early_init], [vu_setup], and the IRQ
    thread that [vu_setup] starts.  virtiofsd itself is on the other side of
    the socket: its answers are replies of the host. *)
From S2P Require Import Prelude Memory Codec State Logic VirtioRegs.
From stdpp Require Import options.

(** Request numbers ("corrected", raw values). *)
Definition VU_GET_FEATURES : Z := 1.
Definition VU_SET_FEATURES : Z := 2.
Definition VU_SET_OWNER : Z := 3.
Definition VU_SET_MEM_TABLE : Z := 5.
Definition VU_SET_VRING_NUM : Z := 8.
Definition VU_SET_VRING_ADDR : Z := 9.
Definition VU_SET_VRING_BASE : Z := 10.
Definition VU_SET_VRING_KICK : Z := 12.
Definition VU_SET_VRING_CALL : Z := 13.
Definition VU_GET_PROTOCOL_FEATURES : Z := 15.
Definition VU_SET_PROTOCOL_FEATURES : Z := 16.
Definition VU_SET_VRING_ENABLE : Z := 18.
Definition VU_SET_BACKEND_REQ_FD : Z := 21.

Definition VU_PROTO_F_MQ : Z := Z.shiftl 1 0.
Definition VU_PROTO_F_REPLY_ACK : Z := Z.shiftl 1 3.
Definition VU_PROTO_F_BACKEND_REQ : Z := Z.shiftl 1 5.
Definition VU_PROTO_F_CONFIG : Z := Z.shiftl 1 9.
Definition VU_PROTO_F_BACKEND_SEND_FD : Z := Z.shiftl 1 10.

(** ** Message layout *)

(** [struct VhostUserMsgHdr]: request, flags, size; packed. *)
Definition VhostUserMsgHdr : codec (Z * (Z * Z)) := cint 4 ⊗ cint 4 ⊗ cint 4.
Definition VHOST_USER_HDR_SIZE : Z := 12.
Definition VHOST_USER_VERSION : Z := 1.

(** [payload.raw[4096]] bounds the union, and the control buffer holds 8
    descriptors. *)
Definition PAYLOAD_MAX : Z := 4096.
Definition CMSG_MAX_FDS : Z := 8.
Definition sizeof_VhostUserMsg : Z := VHOST_USER_HDR_SIZE + PAYLOAD_MAX.

(** [struct VhostUserVringState]: index, num. *)
Definition VhostUserVringState : codec (Z * Z) := cint 4 ⊗ cint 4.

(** [struct VhostUserVringAddr]: index, flags, desc, used, avail, log. *)
Definition VhostUserVringAddr : codec (Z * (Z * (Z * (Z * (Z * Z))))) :=
  cint 4 ⊗ cint 4 ⊗ cint 8 ⊗ cint 8 ⊗ cint 8 ⊗ cint 8.

(** The first [sizeof(uint64_t) + sizeof(VhostUserMemRegion)] bytes of a
    [VhostUserMemMsg]: nregions, padding, then guest_phys_addr, memory_size,
    userspace_addr and mmap_offset of region 0. *)
Definition VhostUserMemMsg1 : codec (Z * (Z * (Z * (Z * (Z * Z))))) :=
  cint 4 ⊗ cint 4 ⊗ cint 8 ⊗ cint 8 ⊗ cint 8 ⊗ cint 8.

(** The [VHOST_USER_HDR_SIZE + sz] bytes of a request. *)
Definition vu_frame (req : Z) (payload : list Z) : list Z :=
  c_put VhostUserMsgHdr (req, (VHOST_USER_VERSION, Z.of_nat (length payload))) ++ payload.

(** Reading a frame the way the peer does: the header, then [size] bytes. *)
Definition vu_unframe (bs : list Z) : option (Z * list Z * list Z) :=
  if Z.of_nat (length bs) <? VHOST_USER_HDR_SIZE then None else
  let '(req, (_, sz)) := c_get VhostUserMsgHdr bs in
  let body := drop 12 bs in
  if Z.of_nat (length body) <? sz then None
  else Some (req, take (Z.to_nat sz) body, drop (Z.to_nat sz) body).

Section proto.
  Context {H : Host}.

(** [vu_send]: the [memcpy] into the payload union and into the control
    buffer must fit them. *)
Definition vu_send (req : Z) (payload : list Z) (fds : list Z) : M bool :=
  if (PAYLOAD_MAX <? Z.of_nat (length payload)) || (CMSG_MAX_FDS <? Z.of_nat (length fds))
  then fail_with OutOfBounds else
  sock ← gets (fun s => vu_sock_ (vu_ s));
  r ← sys (sys_sendmsg sock (vu_frame req payload) fds);
  mret (0 <? r_ret r).

(** [vu_recv]: the message buffer is zeroed before [recvmsg] fills it, so the
    message is the received bytes padded with zeros. *)
Definition vu_recv : M (option (list Z)) :=
  sock ← gets (fun s => vu_sock_ (vu_ s));
  r ← sys (sys_recvmsg sock sizeof_VhostUserMsg);
  if r_ret r <? VHOST_USER_HDR_SIZE then mret None
  else mret (Some (resize (Z.to_nat sizeof_VhostUserMsg) 0
                     (take (Z.to_nat (r_ret r)) (r_data r)))).

(** [reply.payload.u64]. *)
Definition payload_u64 (msg : list Z) : Z := le_dec (take 8 (drop 12 msg)).

Definition vu_transact (req : Z) (payload : list Z) (fds : list Z) : M (option (list Z)) :=
  ok ← vu_send req payload fds;
  if (ok : bool) then vu_recv else mret None.

(** ** Connecting

    [for (us = 50; us <= 50000; us = std::min(us * 2, 50000))].  The loop is
    run with fuel; [None] is the fuel running out before the loop ends. *)
Fixpoint vu_connect_loop (fuel : nat) (sock us : Z) : M (option bool) :=
  match fuel with
  | O => mret None
  | S fuel' =>
    if us <=? 50000 then
      r ← sys (sys_connect sock);
      if r_ret r =? 0 then mret (Some true)
      else
        sys_ (sys_usleep us) ;;
        vu_connect_loop fuel' sock (Z.min (us * 2) 50000)
    else mret (Some false)
  end.

Definition vu_connect (fuel : nat) : M (option bool) :=
  r ← sys sys_socket;
  upd_vu (fun v => v <| vu_sock_ := r_ret r |>) ;;
  if r_ret r <? 0 then mret (Some false)
  else vu_connect_loop fuel (r_ret r) 50.

(** ** Early handshake *)

(** Step 2 of [vu_early_init]: the protocol features acknowledged, or [None]
    when SET_PROTOCOL_FEATURES could not be sent. *)
Definition vu_negotiate_protocol : M (option Z) :=
  m ← vu_transact VU_GET_PROTOCOL_FEATURES [] [];
  match m with
  | None => mret (Some 0)
  | Some msg =>
    upd_vu (fun v => v <| vu_proto_features_ := payload_u64 msg |>) ;;
    let mask := Z.lor (Z.lor (Z.lor (Z.lor VU_PROTO_F_MQ VU_PROTO_F_REPLY_ACK)
                  VU_PROTO_F_BACKEND_REQ) VU_PROTO_F_BACKEND_SEND_FD) VU_PROTO_F_CONFIG in
    let proto := Z.land (payload_u64 msg) mask in
    ok ← vu_send VU_SET_PROTOCOL_FEATURES (c_put (cint 8) proto) [];
    mret (if (ok : bool) then Some proto else None)
  end.

(** Step 5: the backend request channel; failures are ignored.  The
    socketpair reply carries [sv[0]] and [sv[1]]. *)
Definition vu_backend_channel (proto : Z) : M unit :=
  when (has_bits proto VU_PROTO_F_BACKEND_REQ) (
    r ← sys sys_socketpair;
    when (r_ret r =? 0) (
      let sv0 := nth 0 (r_data r) (-1) in
      let sv1 := nth 1 (r_data r) (-1) in
      upd_vu (fun v => v <| vu_backend_sock_ := sv0 |>) ;;
      vu_send VU_SET_BACKEND_REQ_FD [] [sv1] ;;
      sys_ (sys_close sv1))).

Definition vu_early_init : M bool :=
  m ← vu_transact VU_GET_FEATURES [] [];
  match m with
  | None => mret false
  | Some msg =>
    upd_vu (fun v => v <| vu_features_ := payload_u64 msg |>) ;;
    ok ← vu_send VU_SET_FEATURES (c_put (cint 8) (payload_u64 msg)) [];
    if negb ok then mret false else
    upd_vu (fun v => v <| vu_features_ ::= (fun f => Z.lor f VIRT_F_VERSION_1) |>) ;;
    p ← vu_negotiate_protocol;
    match p with
    | None => mret false
    | Some proto =>
      ok ← vu_send VU_SET_OWNER [] [];
      if negb ok then mret false else
      s ← gets id;
      ok ← vu_send VU_SET_MEM_TABLE
             (c_put VhostUserMemMsg1 (1, (0, (0, (ram_bytes_ s, (ram_ s, 0))))))
             [ram_memfd_ s];
      if negb ok then mret false else
      vu_backend_channel proto ;;
      mret true
    end
  end.

(** ** The IRQ thread *)

Definition start_irq_thread : M unit :=
  v ← gets vu_;
  if irq_thread_running_ v then skip else
  sys_ sys_sigaction_usr1 ;;
  r ← sys sys_eventfd;
  upd_vu (fun v => v <| irq_wakeup_fd_ := r_ret r |> <| irq_thread_running_ := true |>) ;;
  sys_ (sys_pthread_create ThIrq).

(** One iteration of [irq_thread_func]: poll the call eventfds and the wakeup
    eventfd, then either stop or interrupt KVM_RUN.  The poll reply carries the
    [revents] of each polled descriptor; POLLIN is 1.  The result says whether
    the loop goes on. *)
Definition irq_thread_iter : M bool :=
  d ← gets fs_;
  v ← gets vu_;
  let call_fds := filter (fun fd => 0 <= fd) (vq_call_fd <$> vqs_ d) in
  r ← sys (sys_poll (call_fds ++ [irq_wakeup_fd_ v]) 10);
  if (0 <? r_ret r) && has_bits (nth (length call_fds) (r_data r) 0) 1 then
    sys_ (sys_read (irq_wakeup_fd_ v) 8) ;;
    mret false
  else
    sys_ sys_pthread_kill_usr1 ;;
    mret true.

(** ** Late setup, on DRIVER_OK *)

(** The messages that hand one virtqueue to the backend. *)
Definition vu_setup_queue (i : nat) (q : Virtqueue) : M unit :=
  if (vq_num q =? 0) || (vq_ready q =? 0) then skip else
  close_if_open (vq_call_fd q) ;;
  close_if_open (vq_kick_fd q) ;;
  kick ← sys sys_eventfd;
  call ← sys sys_eventfd;
  upd_fs (fun d => d <| vqs_ ::= alter (fun q =>
    q <| vq_kick_fd := r_ret kick |> <| vq_call_fd := r_ret call |>) i |>) ;;
  let idx := Z.of_nat i in
  base ← gets ram_;
  vu_send VU_SET_VRING_NUM (c_put VhostUserVringState (idx, vq_num q)) [] ;;
  vu_send VU_SET_VRING_BASE (c_put VhostUserVringState (idx, 0)) [] ;;
  vu_send VU_SET_VRING_ADDR (c_put VhostUserVringAddr
    (idx, (0, (u64 (base + vq_desc q), (u64 (base + vq_device q),
               (u64 (base + vq_driver q), 0)))))) [] ;;
  vu_send VU_SET_VRING_KICK (c_put (cint 8) idx) [r_ret kick] ;;
  vu_send VU_SET_VRING_CALL (c_put (cint 8) idx) [r_ret call] ;;
  vu_send VU_SET_VRING_ENABLE (c_put VhostUserVringState (idx, 1)) [] ;;
  skip.

Definition vu_setup : M unit :=
  s ← gets id;
  if virtio_active_ (fs_ s) || (vu_sock_ (vu_ s) <? 0) then skip else
  for_each [0%nat; 1%nat] (fun i =>
    d ← gets fs_;
    q ← lift (get_at (vqs_ d) (Z.of_nat i));
    vu_setup_queue i q) ;;
  upd_fs (fun d => d <| virtio_active_ := true |>) ;;
  start_irq_thread.

End proto.

(** ** What the peer sees *)

Definition sent_msgs (t : trace) : list (list Z * list Z) :=
  omap (fun e => match e.1 with sys_sendmsg _ bs fds => Some (bs, fds) | _ => None end) t.

Lemma sent_msgs_snoc t c r :
  sent_msgs (t ++ [(c, r)]) =
  sent_msgs t ++ match c with sys_sendmsg _ bs fds => [(bs, fds)] | _ => [] end.
Proof. unfold sent_msgs. rewrite omap_app. by destruct c. Qed.
Global Arguments sent_msgs : simpl never.

(** The six messages that describe queue [i] of registers [q] to the backend. *)
Definition queue_msgs (base : Z) (i : nat) (q : Virtqueue) : list (list Z * list Z) :=
  if (vq_num q =? 0) || (vq_ready q =? 0) then [] else
  let idx := Z.of_nat i in
  [(vu_frame VU_SET_VRING_NUM (c_put VhostUserVringState (idx, vq_num q)), []);
   (vu_frame VU_SET_VRING_BASE (c_put VhostUserVringState (idx, 0)), []);
   (vu_frame VU_SET_VRING_ADDR (c_put VhostUserVringAddr
      (idx, (0, (u64 (base + vq_desc q), (u64 (base + vq_device q),
                 (u64 (base + vq_driver q), 0)))))), []);
   (vu_frame VU_SET_VRING_KICK (c_put (cint 8) idx), [vq_kick_fd q]);
   (vu_frame VU_SET_VRING_CALL (c_put (cint 8) idx), [vq_call_fd q]);
   (vu_frame VU_SET_VRING_ENABLE (c_put VhostUserVringState (idx, 1)), [])].

(** Same queue registers, whatever the descriptors. *)
Definition same_regs (q q' : Virtqueue) : Prop :=
  vq_num q' = vq_num q /\ vq_ready q' = vq_ready q /\ vq_desc q' = vq_desc q /\
  vq_driver q' = vq_driver q /\ vq_device q' = vq_device q.

(** ** Framing *)

Lemma vu_frame_length req p : length (vu_frame req p) = (12 + length p)%nat.
Proof. unfold vu_frame. cbn. by rewrite !length_app, !le_enc_length. Qed.

(** framing.  Whatever bytes follow on the socket, the peer that reads a
    header and then [size] bytes gets back the request number and the payload
    [vu_send] was given. *)
Theorem vu_frame_roundtrip req payload rest :
  fits 32 req -> Z.of_nat (length payload) <= PAYLOAD_MAX ->
  vu_unframe (vu_frame req payload ++ rest) = Some (req, payload, rest).
Proof.
  intros Hreq Hlen. unfold vu_unframe. rewrite length_app, vu_frame_length.
  unfold PAYLOAD_MAX in Hlen. case_match eqn:E; [rewrite Z.ltb_lt in E; unfold VHOST_USER_HDR_SIZE in E; lia|].
  unfold vu_frame. rewrite <- app_assoc, c_get_put.
  2: { cbn. unfold fits in *. unfold VHOST_USER_VERSION. lia. }
  rewrite drop_app_length'.
  2: { symmetry. cbn. by rewrite !length_app, !le_enc_length. }
  rewrite length_app. case_match eqn:E2; [rewrite Z.ltb_lt in E2; lia|].
  rewrite Nat2Z.id, take_app_length, drop_app_length. done.
Qed.

Section facts.
  Context {H : Host}.

Lemma vu_send_spec req p fds s :
  (length p <= 40)%nat -> (length fds <= 1)%nat ->
  wp (vu_send req p fds) (fun ok s' => exists r,
    ok = (0 <? r_ret r) /\
    s' = s <| trace_ ::= (fun t => t ++ [(sys_sendmsg (vu_sock_ (vu_ s)) (vu_frame req p) fds, r)]) |>) s.
Proof.
  intros Hp Hf. unfold vu_send, PAYLOAD_MAX, CMSG_MAX_FDS. wp_run.
  - apply orb_true_iff in Hb as [Hb|Hb]; apply Z.ltb_lt in Hb; lia.
  - by exists r.
Qed.

Ltac send_tac :=
  eapply wp_mono; [apply vu_send_spec; cbn; rewrite ?length_app, ?le_enc_length; cbn; lia|];
  cbv beta; intros ? ? (? & ? & ?).

Lemma vu_setup_queue_spec i q s :
  vqs_ (fs_ s) !! i = Some q ->
  wp (vu_setup_queue i q) (fun _ s' => exists q',
    fs_ s' = (fs_ s) <| vqs_ := <[i := q']> (vqs_ (fs_ s)) |> /\ same_regs q q' /\
    sent_msgs (trace_ s') = sent_msgs (trace_ s) ++ queue_msgs (ram_ s) i q' /\
    irq_line_levels 5 (trace_ s') = irq_line_levels 5 (trace_ s) /\
    ram_ s' = ram_ s /\ vu_ s' = vu_ s) s.
Proof.
  intros Hq. unfold vu_setup_queue. apply wp_if; intros Hg.
  { exists q. rewrite list_insert_id by done. unfold queue_msgs. rewrite Hg, app_nil_r.
    split; [by destruct (fs_ s)|done]. }
  repeat first [wp_one | send_tac].
  all: unwind; eexists; split;
    [unfold upd; cbn; by rewrite (alter_as_insert _ _ _ _ Hq)|].
  all: split; [done|]; unfold queue_msgs; cbn; rewrite Hg.
  all: rewrite !sent_msgs_snoc, !irq_line_levels_snoc, <- !app_assoc, !app_nil_r; done.
Qed.

(** ** Late setup *)

Lemma start_irq_thread_spec s :
  wp start_irq_thread (fun _ s' =>
    irq_thread_running_ (vu_ s') = true /\ fs_ s' = fs_ s /\ ram_ s' = ram_ s /\
    irq_line_levels 5 (trace_ s') = irq_line_levels 5 (trace_ s) /\
    sent_msgs (trace_ s') = sent_msgs (trace_ s)) s.
Proof.
  unfold start_irq_thread. wp_run; unwind; [done|].
  rewrite !sent_msgs_snoc, !irq_line_levels_snoc, !app_nil_r. done.
Qed.

Lemma vu_setup_full s :
  virtio_active_ (fs_ s) = false -> 0 <= vu_sock_ (vu_ s) -> length (vqs_ (fs_ s)) = 2%nat ->
  wp vu_setup (fun _ s' => exists vqs',
    fs_ s' = (fs_ s) <| vqs_ := vqs' |> <| virtio_active_ := true |> /\
    irq_thread_running_ (vu_ s') = true /\ Forall2 same_regs (vqs_ (fs_ s)) vqs' /\
    irq_line_levels 5 (trace_ s') = irq_line_levels 5 (trace_ s) /\
    sent_msgs (trace_ s') =
      sent_msgs (trace_ s) ++ mjoin (imap (queue_msgs (ram_ s)) vqs')) s.
Proof.
  intros Ha Hs Hl. destruct (vqs_ (fs_ s)) as [|q0 [|q1 [|]]] eqn:Hq; try done.
  unfold vu_setup. wp_run.
  { cbn in Hb. rewrite Ha in Hb. apply Z.ltb_lt in Hb. lia. }
  cbn [for_each]. wp_run. eapply wp_lift; [by rewrite Hq|].
  wp_use (vu_setup_queue_spec 0 q0 s ltac:(by rewrite Hq)).
  intros _ s1 (q0' & Hv1 & Hr1 & Hm1 & Hi1 & Hram1 & _). wp_run.
  eapply wp_lift; [by rewrite Hv1, Hq|].
  wp_use (vu_setup_queue_spec 1 q1 s1 ltac:(by rewrite Hv1, Hq)).
  intros _ s2 (q1' & Hv2 & Hr2 & Hm2 & Hi2 & Hram2 & _). wp_run.
  wp_use (start_irq_thread_spec). intros _ s4 (Hi & Hf & _ & Hi4 & Hm4). unwind.
  exists [q0'; q1']. rewrite Hf, Hv2, Hv1, Hq, Hm4, Hm2, Hm1, Hram1, Hi4, Hi2. cbn.
  rewrite app_nil_r, <- app_assoc. split_and!; [done..| |done|done].
  by apply Forall2_cons_2; [|apply Forall2_cons_2].
Qed.

(** C29: on DRIVER_OK the queues the driver has set up are handed to virtiofsd,
    with the six messages the protocol wants for each, in order: the size, the
    base, the ring addresses translated to the VMM's own address space, the two
    fresh event descriptors, and last the enable; the queue registers stay as
    the driver left them, the device is active and the IRQ thread runs. *)
Theorem vu_setup_spec s :
  virtio_active_ (fs_ s) = false -> 0 <= vu_sock_ (vu_ s) -> length (vqs_ (fs_ s)) = 2%nat ->
  wp vu_setup (fun _ s' =>
    virtio_active_ (fs_ s') = true /\ irq_thread_running_ (vu_ s') = true /\
    Forall2 same_regs (vqs_ (fs_ s)) (vqs_ (fs_ s')) /\
    sent_msgs (trace_ s') =
      sent_msgs (trace_ s) ++ mjoin (imap (queue_msgs (ram_ s)) (vqs_ (fs_ s')))) s.
Proof.
  intros Ha Hs Hl. wp_use (vu_setup_full s Ha Hs Hl).
  intros _ s' (vqs' & -> & Hi & Hr & _ & Hm). by cbn.
Qed.

(** Already active, or not connected: nothing happens. *)
Lemma vu_setup_noop s :
  virtio_active_ (fs_ s) = true \/ vu_sock_ (vu_ s) < 0 -> vu_setup s = Ok ((), s).
Proof.
  intros Hn. unfold vu_setup, mbind, M_bind, gets. cbn.
  destruct Hn as [->|Hn]; [done|]. apply Z.ltb_lt in Hn. by rewrite Hn, orb_true_r.
Qed.


(** ** Early handshake *)

(** The answers of the daemon, as the VMM reads them: the 64-bit payload of every
    message received that is at least a header long. *)
Definition answers (t : trace) : list Z :=
  omap (fun e => match e.1 with
    | sys_recvmsg _ _ =>
        if r_ret e.2 <? VHOST_USER_HDR_SIZE then None
        else Some (payload_u64 (resize (Z.to_nat sizeof_VhostUserMsg) 0
                                  (take (Z.to_nat (r_ret e.2)) (r_data e.2))))
    | _ => None end) t.

Lemma answers_snoc t c r :
  answers (t ++ [(c, r)]) = answers t ++
  match c with
  | sys_recvmsg _ _ =>
      if r_ret r <? VHOST_USER_HDR_SIZE then []
      else [payload_u64 (resize (Z.to_nat sizeof_VhostUserMsg) 0 (take (Z.to_nat (r_ret r)) (r_data r)))]
  | _ => [] end.
Proof. unfold answers. rewrite omap_app. destruct c; try done. cbn -[resize]. by destruct (_ <? _). Qed.
Global Arguments answers : simpl never.

(** What a run of the handshake preserves, and how it extends the messages
    sent and the answers received. *)
Definition vu_ext (s s' : Vmm) (ms : list (list Z * list Z)) (rs : list Z) : Prop :=
  sent_msgs (trace_ s') = sent_msgs (trace_ s) ++ ms /\ answers (trace_ s') = answers (trace_ s) ++ rs /\
  ram_ s' = ram_ s /\ ram_bytes_ s' = ram_bytes_ s /\ ram_memfd_ s' = ram_memfd_ s.

Lemma vu_ext_trans s1 s2 s3 m1 m2 r1 r2 :
  vu_ext s1 s2 m1 r1 -> vu_ext s2 s3 m2 r2 -> vu_ext s1 s3 (m1 ++ m2) (r1 ++ r2).
Proof.
  intros (E1 & A1 & ? & ? & ?) (E2 & A2 & ? & ? & ?). unfold vu_ext.
  rewrite E2, E1, A2, A1, !app_assoc. split_and!; congruence.
Qed.

(** virtiofsd takes every message and answers every question. *)
Definition daemon_answers : Prop :=
  (forall t fd bs fds, 0 < r_ret (reply_of t (sys_sendmsg fd bs fds))) /\
  forall t fd n, VHOST_USER_HDR_SIZE <= r_ret (reply_of t (sys_recvmsg fd n)).

Lemma vu_send_ext req p fds s :
  (length p <= 40)%nat -> (length fds <= 1)%nat ->
  wp (vu_send req p fds) (fun ok s' =>
    vu_ext s s' [(vu_frame req p, fds)] [] /\ vu_ s' = vu_ s /\ (daemon_answers -> ok = true)) s.
Proof.
  intros Hp Hf. unfold vu_send, PAYLOAD_MAX, CMSG_MAX_FDS. wp_run.
  { apply orb_true_iff in Hb as [Hb|Hb]; apply Z.ltb_lt in Hb; lia. }
  split_and!.
  - subst s0. unfold vu_ext. cbn. by rewrite sent_msgs_snoc, answers_snoc.
  - by subst s0.
  - intros [Hd _]. rewrite Hr. apply Z.ltb_lt, Hd.
Qed.

Lemma vu_recv_spec s :
  wp vu_recv (fun m s' =>
    vu_ext s s' [] (match m with Some msg => [payload_u64 msg] | None => [] end) /\
    vu_ s' = vu_ s /\ (daemon_answers -> is_Some m)) s.
Proof.
  unfold vu_recv. wp_run; subst s0; cbn -[resize]; unfold vu_ext; cbn -[resize];
    rewrite sent_msgs_snoc, answers_snoc, Hb, app_nil_r; split_and!; try done.
  intros [_ Hd]. apply Z.ltb_lt in Hb. rewrite Hr in Hb.
  specialize (Hd (trace_ s) (vu_sock_ (vu_ s)) sizeof_VhostUserMsg). lia.
Qed.

Lemma vu_transact_ext req s :
  wp (vu_transact req [] []) (fun m s' =>
    vu_ext s s' [(vu_frame req [], [])] (match m with Some msg => [payload_u64 msg] | None => [] end) /\
    vu_ s' = vu_ s /\ (daemon_answers -> is_Some m)) s.
Proof.
  unfold vu_transact. wp_run. wp_use (vu_send_ext req [] [] s); [cbn; lia..|].
  intros ok s1 (Hx & Hv & Hd). wp_run; [|split_and!; [done..|]; intros Hda; by rewrite (Hd Hda) in Hb].
  wp_use (vu_recv_spec s1). intros m s2 (Hm & Hv2 & Hd2).
  split; [exact (vu_ext_trans _ _ _ _ _ _ _ Hx Hm)|]. split; [congruence|done].
Qed.

(** Protocol features the VMM is prepared to acknowledge. *)
Definition vu_known_protocol_features : Z :=
  Z.lor (Z.lor (Z.lor (Z.lor VU_PROTO_F_MQ VU_PROTO_F_REPLY_ACK)
    VU_PROTO_F_BACKEND_REQ) VU_PROTO_F_BACKEND_SEND_FD) VU_PROTO_F_CONFIG.

(** Of the protocol features [offered] (if the daemon answered), those that are
    acknowledged, and the messages of their negotiation. *)
Definition acknowledged (offered : option Z) : Z :=
  match offered with Some p => Z.land p vu_known_protocol_features | None => 0 end.
Definition negotiate_msgs (offered : option Z) : list (list Z * list Z) :=
  (vu_frame VU_GET_PROTOCOL_FEATURES [], []) ::
  (match offered with
   | Some _ => [(vu_frame VU_SET_PROTOCOL_FEATURES (c_put (cint 8) (acknowledged offered)), [])]
   | None => [] end).

Lemma vu_negotiate_protocol_spec s :
  wp vu_negotiate_protocol (fun p s' =>
    vu_features_ (vu_ s') = vu_features_ (vu_ s) /\
    (daemon_answers -> is_Some p) /\
    forall proto, p = Some proto -> exists offered,
      vu_ext s s' (negotiate_msgs offered) (option_list offered) /\
      proto = acknowledged offered /\ (daemon_answers -> is_Some offered)) s.
Proof.
  unfold vu_negotiate_protocol. wp_run. wp_use (vu_transact_ext VU_GET_PROTOCOL_FEATURES s).
  intros m s1 (Hx & Hv & Hd). destruct m as [msg|]; wp_run.
  - wp_use vu_send_ext; [cbn; rewrite le_enc_length; lia|cbn; lia|].
    intros ok s3 (Hx3 & Hv3 & Hd3). wp_run. split; [rewrite Hv3; unwind; by rewrite Hv|].
    split; [intros Hda; by rewrite (Hd3 Hda)|].
    intros proto Hp. exists (Some (payload_u64 msg)). destruct ok; [|done]. injection Hp as <-.
    fold vu_known_protocol_features in *. split; [|done].
    refine (vu_ext_trans _ s1 _ [_] [_] [_] [] Hx _). unwind. exact Hx3.
  - split; [by rewrite Hv|]. split; [done|]. intros proto [= <-]. exists None.
    split; [done|]. split; [done|]. intros Hda. by destruct (Hd Hda).
Qed.

(** The messages of the backend request channel: one, with the second end of the
    socket pair, if the feature was acknowledged and there is a pair. *)
Definition backend_msgs (proto : Z) (pair : reply) : list (list Z * list Z) :=
  if has_bits proto VU_PROTO_F_BACKEND_REQ && (r_ret pair =? 0)
  then [(vu_frame VU_SET_BACKEND_REQ_FD [], [nth 1 (r_data pair) (-1)])] else [].

Lemma vu_backend_channel_spec proto s :
  wp (vu_backend_channel proto) (fun _ s' =>
    vu_features_ (vu_ s') = vu_features_ (vu_ s) /\
    vu_ext s s' (backend_msgs proto (reply_of (trace_ s) sys_socketpair)) []) s.
Proof.
  unfold vu_backend_channel, backend_msgs. wp_run.
  - wp_use vu_send_ext; [cbn; lia..|]. intros ok s3 (Hx & Hv & _). wp_run.
    rewrite Hb, <- Hr, Hb0. cbn [andb]. clear Hr Hr0. subst.
    unfold vu_ext in *. cbn in *. destruct Hx as (Hm & Ha & ? & ? & ?).
    rewrite Hv. split; [done|].
    rewrite sent_msgs_snoc, answers_snoc, !app_nil_r, Hm, Ha, sent_msgs_snoc, answers_snoc, !app_nil_r. done.
  - rewrite Hb, <- Hr, Hb0. cbn [andb]. clear Hr. subst. split; [done|]. unfold vu_ext. cbn.
    rewrite sent_msgs_snoc, answers_snoc. done.
  - rewrite Hb. cbn [andb]. split; [done|]. unfold vu_ext. by rewrite !app_nil_r.
Qed.

Lemma vu_early_init_msgs s :
  wp vu_early_init (fun ok s' => (daemon_answers -> ok = true) /\ (ok = true ->
    exists feats offered pair,
      (daemon_answers -> is_Some offered) /\
      answers (trace_ s') = answers (trace_ s) ++ feats :: option_list offered /\
      vu_features_ (vu_ s') = Z.lor feats VIRT_F_VERSION_1 /\
      sent_msgs (trace_ s') = sent_msgs (trace_ s) ++
        [(vu_frame VU_GET_FEATURES [], []);
         (vu_frame VU_SET_FEATURES (c_put (cint 8) feats), [])] ++
        negotiate_msgs offered ++
        [(vu_frame VU_SET_OWNER [], []);
         (vu_frame VU_SET_MEM_TABLE
            (c_put VhostUserMemMsg1 (1, (0, (0, (ram_bytes_ s, (ram_ s, 0)))))),
          [ram_memfd_ s])] ++ backend_msgs (acknowledged offered) pair)) s.
Proof.
  unfold vu_early_init. wp_run. wp_use (vu_transact_ext VU_GET_FEATURES s).
  intros [msg|] s1 (Hx1 & Hv1 & Hd1); wp_run; [|split; [intros Hda; by destruct (Hd1 Hda)|done]].
  wp_use vu_send_ext; [cbn; rewrite le_enc_length; lia|cbn; lia|].
  intros ok s3 (Hx3 & Hv3 & Hd3). wp_run; [split; [intros Hda; by rewrite (Hd3 Hda) in Hb|done]|].
  wp_use vu_negotiate_protocol_spec. intros [proto|] s5 (Hf5 & Hd5 & Hp5); wp_run;
    [|split; [intros Hda; by destruct (Hd5 Hda)|done]].
  destruct (Hp5 proto eq_refl) as (offered & Hx5 & Hk & Hdo).
  wp_use vu_send_ext; [cbn; lia..|]. intros ok6 s6 (Hx6 & Hv6 & Hd6).
  wp_run; [split; [intros Hda; by rewrite (Hd6 Hda) in Hb0|done]|].
  wp_use vu_send_ext; [cbn; rewrite !length_app, !le_enc_length; lia|cbn; lia|].
  intros ok7 s7 (Hx7 & Hv7 & Hd7). wp_run; [split; [intros Hda; by rewrite (Hd7 Hda) in Hb1|done]|].
  wp_use vu_backend_channel_spec. intros _ s8 (Hf8 & Hx8). wp_run. split; [done|]. intros _.
  assert (Hx3' : vu_ext s1 s3 [(vu_frame VU_SET_FEATURES (c_put (cint 8) (payload_u64 msg)), [])] [])
    by (clear -Hx3 Hs; subst; exact Hx3).
  assert (Hx5' : vu_ext s3 s5 (negotiate_msgs offered) (option_list offered)) by (clear -Hx5 Hs0; subst; exact Hx5).
  pose proof (vu_ext_trans _ _ _ _ _ _ _ Hx1 (vu_ext_trans _ _ _ _ _ _ _ Hx3'
    (vu_ext_trans _ _ _ _ _ _ _ Hx5' Hx6))) as Hx. pose proof Hx as (_ & _ & Hram & Hbytes & Hfd).
  exists (payload_u64 msg), offered, (reply_of (trace_ s7) sys_socketpair). rewrite Hk in Hx8.
  unfold id in Hx7. rewrite Hram, Hbytes, Hfd in Hx7.
  destruct (vu_ext_trans _ _ _ _ _ _ _ Hx (vu_ext_trans _ _ _ _ _ _ _ Hx7 Hx8)) as (-> & -> & _).
  split; [done|]. split; [cbn; by rewrite !app_nil_r|]. split.
  - rewrite Hf8, Hv7, Hv6, Hf5. rewrite Hs0. cbn. rewrite Hv3, Hs. done.
  - cbn. by rewrite <- ?app_assoc.
Qed.


(** ** Connecting *)

Definition connects (t : trace) : nat :=
  length (omap (fun e => match e.1 with sys_connect fd => Some fd | _ => None end) t).

Definition sleeps (t : trace) : list Z :=
  omap (fun e => match e.1 with sys_usleep us => Some us | _ => None end) t.

Lemma connects_snoc t c r :
  connects (t ++ [(c, r)]) =
  (connects t + match c with sys_connect _ => 1 | _ => 0 end)%nat.
Proof. unfold connects. rewrite omap_app, length_app. f_equal. by destruct c. Qed.

Lemma sleeps_snoc t c r :
  sleeps (t ++ [(c, r)]) = sleeps t ++ match c with sys_usleep us => [us] | _ => [] end.
Proof. unfold sleeps. rewrite omap_app. by destruct c. Qed.
Global Arguments connects : simpl never.
Global Arguments sleeps : simpl never.

(** Delays doubling from [us], capped at 50 ms. *)
Definition backoff (us : Z) (n : nat) : list Z :=
  (fun i => Z.min (us * 2 ^ Z.of_nat i) 50000) <$> seq 0 n.

Lemma backoff_S us n :
  us <= 50000 -> 0 <= us -> backoff us (S n) = us :: backoff (Z.min (us * 2) 50000) n.
Proof.
  intros Hle Hpos. unfold backoff. cbn [seq fmap list_fmap]. f_equal.
  { rewrite Z.pow_0_r, Z.mul_1_r. lia. }
  rewrite <- fmap_S_seq, <- list_fmap_compose. apply list_fmap_ext. intros _ i _. cbv beta delta [compose].
  replace (Z.of_nat (S i)) with (Z.of_nat i + 1) by lia.
  rewrite Z.pow_add_r by lia. change (2 ^ 1) with 2.
  pose proof (Z.pow_pos_nonneg 2 (Z.of_nat i)).
  destruct (Z.min_spec (us * 2) 50000) as [[? ->]|[? ->]]; nia.
Qed.

Global Arguments backoff : simpl never.

Lemma vu_connect_loop_ok k sock : forall n fuel us s,
  (forall t, r_ret (reply_of t (sys_connect sock)) = if (connects t <? k)%nat then -1 else 0) ->
  (connects (trace_ s) + n = k)%nat -> (n < fuel)%nat -> 0 <= us <= 50000 ->
  wp (vu_connect_loop fuel sock us) (fun r s' =>
    r = Some true /\ vu_ s' = vu_ s /\
    sleeps (trace_ s') = sleeps (trace_ s) ++ backoff us n) s.
Proof.
  induction n as [|n IH]; intros fuel us s Hh Hk Hf Hus; (destruct fuel as [|fuel]; [lia|]);
    cbn [vu_connect_loop]; wp_run.
  all: try (apply Z.leb_gt in Hb; lia).
  - unwind. rewrite sleeps_snoc. done.
  - rewrite Hr, Hh in Hb0. destruct (Nat.ltb_spec (connects (trace_ s)) k); [lia|done].
  - rewrite Hr, Hh in Hb0. destruct (Nat.ltb_spec (connects (trace_ s)) k); [done|lia].
  - eapply wp_mono; [apply IH; [done| |lia|lia]|].
    + subst. cbn. rewrite !connects_snoc. lia.
    + intros r' s' (-> & -> & ->). split; [done|]. subst. cbn. split; [done|]. rewrite !sleeps_snoc, backoff_S by lia.
      by rewrite app_nil_r, <- app_assoc.
Qed.

(** C30: a daemon that starts listening after [k] attempts is connected to at the
    next one: [vu_connect] succeeds, keeps the socket, and has slept between the
    attempts for delays that double from 50 us and never exceed 50 ms. *)
Theorem vu_connect_backoff k fuel s sock :
  (forall t, r_ret (reply_of t sys_socket) = sock) -> 0 <= sock ->
  (forall t, r_ret (reply_of t (sys_connect sock)) = if (connects t <? k)%nat then -1 else 0) ->
  connects (trace_ s) = 0%nat -> (k < fuel)%nat ->
  wp (vu_connect fuel) (fun r s' =>
    r = Some true /\ vu_sock_ (vu_ s') = sock /\
    sleeps (trace_ s') = sleeps (trace_ s) ++ backoff 50 k) s.
Proof.
  intros Hs Hpos Hh H0 Hf. unfold vu_connect. wp_run.
  { rewrite Hr, Hs in Hb. apply Z.ltb_lt in Hb. lia. }
  eapply wp_mono; [apply (vu_connect_loop_ok k _ k); [by rewrite Hr, Hs| |done|lia]|].
  - subst. cbn. rewrite connects_snoc. lia.
  - intros r' s' (-> & Hv & ->). rewrite Hv. subst. cbn. rewrite sleeps_snoc, app_nil_r.
    by rewrite Hs.
Qed.

(** A daemon that never listens is waited for without end: the delay is capped at
    the very bound the loop compares it with, so that no amount of fuel lets the
    loop leave with a failure. *)
Theorem vu_connect_never_gives_up sock us fuel s :
  (forall t, r_ret (reply_of t (sys_connect sock)) = -1) -> 0 <= us <= 50000 ->
  wp (vu_connect_loop fuel sock us) (fun r _ => r = None) s.
Proof.
  intros Hh. revert us s. induction fuel as [|fuel IH]; intros us s Hus; [done|].
  cbn [vu_connect_loop]. wp_run.
  - by rewrite Hr, Hh in Hb0.
  - apply IH. lia.
  - apply Z.leb_gt in Hb. lia.
Qed.

End facts.
