(* ===== verification/VirtioFs.v ===== *)
(** * The virtio-fs device

    Register reads and writes of the virtiofs device (src/src/virtio.cpp,
    [virtio_mmio_read], [virtio_mmio_write], [virtio_kick],
    [check_virtio_irqs], [setup_virtio_fs]). *)
From S2P Require Import Prelude Memory Codec State Logic VirtioRegs VhostUserProto.
From stdpp Require Import options.

(** [memcpy(&val, (uint8_t * )&config + (off - CONFIG), min(len, 4))] into a
    zeroed [val]; bytes past the structure are out of bounds. *)
Definition config_read (config : list Z) (off len : Z) : result Z :=
  match slice (off - VIRTIO_MMIO_CONFIG) (Z.of_nat (clamp4 len)) config with
  | Some bs => Ok (le_dec bs)
  | None => Fault OutOfBounds
  end.

(** The value of the register or configuration bytes at [off]. *)
Definition virtio_mmio_value (s : Vmm) (off len : Z) : result Z :=
  let d := fs_ s in
  match reg_at off with
  | Some VIRTIO_MMIO_MAGIC_VALUE => Ok 0x74726976
  | Some VIRTIO_MMIO_VERSION => Ok 2
  | Some VIRTIO_MMIO_DEVICE_ID => Ok VIRTIO_DEV_FS
  | Some VIRTIO_MMIO_VENDOR_ID => Ok VIRTIO_VENDOR_ID
  | Some VIRTIO_MMIO_DEVICE_FEATURES =>
      Ok (if vdev_features_sel_ d =? 0 then Z.land (vu_features_ (vu_ s)) 0xFFFFFFFF
          else if vdev_features_sel_ d =? 1 then u32 (Z.shiftr (vu_features_ (vu_ s)) 32)
          else 0)
  | Some VIRTIO_MMIO_QUEUE_NUM_MAX => Ok 1024
  | Some VIRTIO_MMIO_QUEUE_READY =>
      if vqueue_sel_ d <? NUM_QUEUES then vq_ready <$> get_at (vqs_ d) (vqueue_sel_ d) else Ok 0
  | Some VIRTIO_MMIO_INTERRUPT_STATUS => Ok (virq_status_ d)
  | Some VIRTIO_MMIO_STATUS => Ok (vdev_status_ d)
  | Some VIRTIO_MMIO_CONFIG_GEN => Ok 0
  | Some VIRTIO_MMIO_SHM_LEN_LOW | Some VIRTIO_MMIO_SHM_LEN_HIGH
  | Some VIRTIO_MMIO_SHM_BASE_LOW | Some VIRTIO_MMIO_SHM_BASE_HIGH => Ok 0xFFFFFFFF
  | _ =>
      if (VIRTIO_MMIO_CONFIG <=? off) && (off <? VIRTIO_MMIO_CONFIG + sizeof_VirtioFsConfig)
      then config_read (fs_config_ d) off len else Ok 0
  end.

(** [virtio_mmio_read]: the bytes stored through [data]. *)
Definition virtio_mmio_read (off len : Z) : M (list Z) := fun s =>
  val ← virtio_mmio_value s off len;
  Ok (take (clamp4 len) (le_enc 4 val), s).

(** [vqs_[vqueue_sel_].f = ...] behind the guard [vqueue_sel_ < NUM_QUEUES]:
    without it the store would be out of bounds. *)
Definition upd_selected (f : Virtqueue -> Virtqueue) : M unit :=
  d ← gets fs_;
  when (vqueue_sel_ d <? NUM_QUEUES)
    (vqs ← lift (update_at f (vqueue_sel_ d) (vqs_ d));
     upd_fs (fun d => d <| vqs_ := vqs |>)).

Section fs.
  Context {H : Host}.

Definition virtio_kick (qidx : Z) : M unit :=
  if NUM_QUEUES <=? qidx then skip else
  d ← gets fs_;
  q ← lift (get_at (vqs_ d) qidx);
  when (0 <=? vq_kick_fd q) (sys_ (sys_write (vq_kick_fd q) (le_enc 8 1))).

(** The switch of [virtio_mmio_write] on the 32-bit value written. *)
Definition virtio_write_reg (off val : Z) : M unit :=
  match reg_at off with
  | Some VIRTIO_MMIO_DEVICE_FEATURES_SEL => upd_fs (fun d => d <| vdev_features_sel_ := val |>)
  | Some VIRTIO_MMIO_DRIVER_FEATURES_SEL => upd_fs (fun d => d <| vdrv_features_sel_ := val |>)
  | Some VIRTIO_MMIO_DRIVER_FEATURES =>
      upd_fs (fun d =>
        if vdrv_features_sel_ d =? 0 then d <| vdrv_features_ ::= (fun f => set_lo32 f val) |>
        else if vdrv_features_sel_ d =? 1 then d <| vdrv_features_ ::= (fun f => set_hi32 f val) |>
        else d)
  | Some VIRTIO_MMIO_QUEUE_SEL => upd_fs (fun d => d <| vqueue_sel_ := val |>)
  | Some VIRTIO_MMIO_QUEUE_NUM => upd_selected (fun q => q <| vq_num := val |>)
  | Some VIRTIO_MMIO_QUEUE_READY => upd_selected (fun q => q <| vq_ready := val |>)
  | Some VIRTIO_MMIO_QUEUE_NOTIFY => virtio_kick val
  | Some VIRTIO_MMIO_INTERRUPT_ACK =>
      upd_fs (fun d => d <| virq_status_ ::= (fun x => Z.land x (bnot 32 val)) |>) ;;
      d ← gets fs_;
      when (virq_status_ d =? 0) (sys_ (sys_irq_line VIRTIO_MMIO_IRQ 0))
  | Some VIRTIO_MMIO_STATUS =>
      d ← gets fs_;
      let old := vdev_status_ d in
      upd_fs (fun d => d <| vdev_status_ := val |>) ;;
      when (val =? 0)
        (upd_fs (fun d => d <| vqs_ ::= fmap (fun _ => Virtqueue_init) |>
                            <| vdrv_features_ := 0 |> <| virq_status_ := 0 |>)) ;;
      when (has_bits val DRIVER_OK && negb (has_bits old DRIVER_OK)) vu_setup
  | Some VIRTIO_MMIO_QUEUE_DESC_LOW =>
      upd_selected (fun q => q <| vq_desc ::= (fun x => set_lo32 x val) |>)
  | Some VIRTIO_MMIO_QUEUE_DESC_HIGH =>
      upd_selected (fun q => q <| vq_desc ::= (fun x => set_hi32 x val) |>)
  | Some VIRTIO_MMIO_QUEUE_DRIVER_LOW =>
      upd_selected (fun q => q <| vq_driver ::= (fun x => set_lo32 x val) |>)
  | Some VIRTIO_MMIO_QUEUE_DRIVER_HIGH =>
      upd_selected (fun q => q <| vq_driver ::= (fun x => set_hi32 x val) |>)
  | Some VIRTIO_MMIO_QUEUE_DEVICE_LOW =>
      upd_selected (fun q => q <| vq_device ::= (fun x => set_lo32 x val) |>)
  | Some VIRTIO_MMIO_QUEUE_DEVICE_HIGH =>
      upd_selected (fun q => q <| vq_device ::= (fun x => set_hi32 x val) |>)
  | Some VIRTIO_MMIO_SHM_SEL => upd_fs (fun d => d <| shm_sel_ := val |>)
  | _ => skip
  end.

Definition virtio_mmio_write (off : Z) (data : list Z) (len : Z) : M unit :=
  virtio_write_reg off (le_dec (take (clamp4 len) data)).

(** [check_virtio_irqs]: the loop over the call eventfds, then the injection. *)
Fixpoint poll_call_fds (fds : list Z) (need_irq : bool) : M bool :=
  match fds with
  | [] => mret need_irq
  | fd :: fds' =>
    if 0 <=? fd then
      r ← sys (sys_read fd 8);
      poll_call_fds fds' (need_irq || (0 <? r_ret r))
    else poll_call_fds fds' need_irq
  end.

Definition check_virtio_irqs : M unit :=
  d ← gets fs_;
  if negb (virtio_active_ d) then skip else
  need_irq ← poll_call_fds (vq_call_fd <$> vqs_ d) false;
  when need_irq (
    upd_fs (fun d => d <| virq_status_ ::= (fun x => Z.lor x 1) |>) ;;
    sys_ (sys_irq_line VIRTIO_MMIO_IRQ 1)).

End fs.

(** The tag, NUL-padded to its 36 bytes, then one request queue. *)
Definition fs_config_bytes : list Z :=
  resize 36 0 (bytes "myfs") ++ le_enc 4 1.

(** [snprintf(.., " virtio_mmio.device=0x%lx@0x%llx:%u", size, gpa, irq)]. *)
Definition mmio_param (size gpa irq : Z) : list Z :=
  bytes " virtio_mmio.device=0x" ++ fmt_x size ++ bytes "@0x" ++ fmt_x gpa ++
  bytes ":" ++ fmt_u irq.

Definition CMDLINE_SIZE : Z := 2048.

Definition setup_virtio_fs (add_cmdline : bool) : M bool :=
  upd_fs (fun d => d <| fs_config_ := fs_config_bytes |>) ;;
  upd_vu (fun v => if vu_features_ v =? 0 then v <| vu_features_ := VIRT_F_VERSION_1 |> else v) ;;
  when add_cmdline (modify (fun s => s <| cmdline_ ::= (fun c =>
    strncat_cap CMDLINE_SIZE c (mmio_param VIRTIO_MMIO_SIZE VIRTIO_MMIO_GPA VIRTIO_MMIO_IRQ)) |>)) ;;
  mret true.

Example mmio_param_fs :
  mmio_param VIRTIO_MMIO_SIZE VIRTIO_MMIO_GPA VIRTIO_MMIO_IRQ =
  bytes " virtio_mmio.device=0x1000@0xd0001000:5".
Proof. reflexivity. Qed.
