(* ===== verification/VirtioNet.v ===== *)
(** * The virtio-net device: registers and set-up

    [net_mmio_read], [net_mmio_write], [vhost_net_setup], [setup_virtio_net],
    [open_tap] and [connect_tap] of src/src/virtio.cpp.  The packet path is in
    NetPath. *)
From S2P Require Import Prelude Memory Codec State Logic VirtioRegs VirtioFs.
From stdpp Require Import options.

(** Features the device offers: [VIRTIO_NET_F_MAC | VIRT_F_VERSION_1]. *)
Definition net_features : Z := Z.lor VIRTIO_NET_F_MAC VIRT_F_VERSION_1.

Definition net_mmio_value (s : Vmm) (off len : Z) : result Z :=
  let d := net_ s in
  match reg_at off with
  | Some VIRTIO_MMIO_MAGIC_VALUE => Ok 0x74726976
  | Some VIRTIO_MMIO_VERSION => Ok 2
  | Some VIRTIO_MMIO_DEVICE_ID => Ok VIRTIO_DEV_NET
  | Some VIRTIO_MMIO_VENDOR_ID => Ok VIRTIO_VENDOR_ID
  | Some VIRTIO_MMIO_DEVICE_FEATURES =>
      Ok (if net_features_sel_ d =? 0 then Z.land net_features 0xFFFFFFFF
          else if net_features_sel_ d =? 1 then u32 (Z.shiftr net_features 32)
          else 0)
  | Some VIRTIO_MMIO_QUEUE_NUM_MAX => Ok 256
  | Some VIRTIO_MMIO_QUEUE_READY =>
      if net_queue_sel_ d <? NET_NUM_QUEUES then vq_ready <$> get_at (net_vqs_ d) (net_queue_sel_ d) else Ok 0
  | Some VIRTIO_MMIO_INTERRUPT_STATUS => Ok (net_irq_status_ d)
  | Some VIRTIO_MMIO_STATUS => Ok (net_status_ d)
  | Some VIRTIO_MMIO_CONFIG_GEN => Ok 0
  | Some VIRTIO_MMIO_SHM_LEN_LOW | Some VIRTIO_MMIO_SHM_LEN_HIGH
  | Some VIRTIO_MMIO_SHM_BASE_LOW | Some VIRTIO_MMIO_SHM_BASE_HIGH => Ok 0xFFFFFFFF
  | _ =>
      if (VIRTIO_MMIO_CONFIG <=? off) && (off <? VIRTIO_MMIO_CONFIG + sizeof_VirtioNetConfig)
      then config_read (net_config_ d) off len else Ok 0
  end.

Definition net_mmio_read (off len : Z) : M (list Z) := fun s =>
  val ← net_mmio_value s off len;
  Ok (take (clamp4 len) (le_enc 4 val), s).

Definition upd_net_selected (f : Virtqueue -> Virtqueue) : M unit :=
  d ← gets net_;
  when (net_queue_sel_ d <? NET_NUM_QUEUES)
    (vqs ← lift (update_at f (net_queue_sel_ d) (net_vqs_ d));
     upd_net (fun d => d <| net_vqs_ := vqs |>)).

Section net.
  Context {H : Host}.

Definition vhost_net_setup : M bool :=
  d ← gets net_;
  if tap_fd_ d <? 0 then mret true else
  r ← sys sys_eventfd;
  upd_net (fun d => d <| net_wakeup_fd_ := r_ret r |>) ;;
  sys_ (sys_pthread_create ThNet) ;;
  upd_net (fun d => d <| net_thread_running_ := true |>) ;;
  mret true.

Definition net_write_reg (off val : Z) : M unit :=
  match reg_at off with
  | Some VIRTIO_MMIO_DEVICE_FEATURES_SEL => upd_net (fun d => d <| net_features_sel_ := val |>)
  | Some VIRTIO_MMIO_DRIVER_FEATURES_SEL => upd_net (fun d => d <| net_drv_features_sel_ := val |>)
  | Some VIRTIO_MMIO_DRIVER_FEATURES =>
      upd_net (fun d =>
        if net_drv_features_sel_ d =? 0
        then d <| net_drv_features_ ::= (fun f => set_lo32 f val) |>
        else if net_drv_features_sel_ d =? 1
        then d <| net_drv_features_ ::= (fun f => set_hi32 f val) |>
        else d)
  | Some VIRTIO_MMIO_QUEUE_SEL => upd_net (fun d => d <| net_queue_sel_ := val |>)
  | Some VIRTIO_MMIO_QUEUE_NUM => upd_net_selected (fun q => q <| vq_num := val |>)
  | Some VIRTIO_MMIO_QUEUE_READY => upd_net_selected (fun q => q <| vq_ready := val |>)
  | Some VIRTIO_MMIO_QUEUE_NOTIFY =>
      d ← gets net_;
      when (net_active_ d && (0 <=? net_wakeup_fd_ d))
        (sys_ (sys_write (net_wakeup_fd_ d) (le_enc 8 1)))
  | Some VIRTIO_MMIO_INTERRUPT_ACK =>
      upd_net (fun d => d <| net_irq_status_ ::= (fun x => Z.land x (bnot 32 val)) |>) ;;
      d ← gets net_;
      when (net_irq_status_ d =? 0) (sys_ (sys_irq_line VIRTIO_NET_MMIO_IRQ 0))
  | Some VIRTIO_MMIO_STATUS =>
      d ← gets net_;
      let old := net_status_ d in
      upd_net (fun d => d <| net_status_ := val |>) ;;
      when (val =? 0)
        (upd_net (fun d => d <| net_vqs_ ::= fmap (fun _ => Virtqueue_init) |>
                             <| net_drv_features_ := 0 |> <| net_irq_status_ := 0 |>)) ;;
      when (has_bits val DRIVER_OK && negb (has_bits old DRIVER_OK))
        (upd_net (fun d => d <| net_active_ := true |>) ;; vhost_net_setup ;; skip)
  | Some VIRTIO_MMIO_QUEUE_DESC_LOW =>
      upd_net_selected (fun q => q <| vq_desc ::= (fun x => set_lo32 x val) |>)
  | Some VIRTIO_MMIO_QUEUE_DESC_HIGH =>
      upd_net_selected (fun q => q <| vq_desc ::= (fun x => set_hi32 x val) |>)
  | Some VIRTIO_MMIO_QUEUE_DRIVER_LOW =>
      upd_net_selected (fun q => q <| vq_driver ::= (fun x => set_lo32 x val) |>)
  | Some VIRTIO_MMIO_QUEUE_DRIVER_HIGH =>
      upd_net_selected (fun q => q <| vq_driver ::= (fun x => set_hi32 x val) |>)
  | Some VIRTIO_MMIO_QUEUE_DEVICE_LOW =>
      upd_net_selected (fun q => q <| vq_device ::= (fun x => set_lo32 x val) |>)
  | Some VIRTIO_MMIO_QUEUE_DEVICE_HIGH =>
      upd_net_selected (fun q => q <| vq_device ::= (fun x => set_hi32 x val) |>)
  | _ => skip
  end.

Definition net_mmio_write (off : Z) (data : list Z) (len : Z) : M unit :=
  net_write_reg off (le_dec (take (clamp4 len) data)).

(** ** TAP *)

Definition open_tap (name : list Z) : M Z :=
  r ← sys (sys_open (bytes "/dev/net/tun") true);
  let fd := r_ret r in
  if fd <? 0 then mret (-1) else
  i ← sys (sys_tunsetiff fd (take 15 (c_str name)));
  if r_ret i <? 0 then sys_ (sys_close fd) ;; mret (-1)
  else sys_ (sys_set_nonblock fd) ;; mret fd.

Definition connect_tap (name : list Z) : M bool :=
  fd ← open_tap name;
  upd_net (fun d => d <| tap_fd_ := fd |>) ;;
  mret (negb (fd <? 0)).

End net.

(** mac, link up, one queue pair, mtu 1500. *)
Definition net_config_bytes (mac : list Z) : list Z :=
  mac ++ le_enc 2 VIRTIO_NET_S_LINK_UP ++ le_enc 2 1 ++ le_enc 2 1500.

Definition setup_virtio_net (mac : list Z) (add_cmdline : bool) : M bool :=
  upd_net (fun d => d <| net_config_ := net_config_bytes mac |>) ;;
  when add_cmdline (modify (fun s => s <| cmdline_ ::= (fun c =>
    strncat_cap CMDLINE_SIZE c
      (mmio_param VIRTIO_NET_MMIO_SIZE VIRTIO_NET_MMIO_GPA VIRTIO_NET_MMIO_IRQ)) |>)) ;;
  mret true.
