(* ===== verification/Transport.v ===== *)
(** * The virtio-MMIO transport both devices implement

    An abstract transport: what a driver may rely on when it writes a device
    register, with 64-bit registers as numbers rather than pairs of masked
    halves.  [MmioDevice] is the interface between a device of the VMM and a
    driver; the virtio-fs and virtio-net devices are its two instances, and
    the drivers' programming sequences are proved once, against the
    interface. *)
From S2P Require Import Prelude Memory Codec State Logic VirtioRegs VhostUserProto VirtioFs VirtioNet.
From stdpp Require Import options.

(** ** The abstract transport *)

Record tqueue : Type := {
  tq_num : Z; tq_ready : Z; tq_desc : Z; tq_driver : Z; tq_device : Z
}.
#[export] Instance tqueue_eta : Eta tqueue := fun q =>
  {| tq_num := tq_num q; tq_ready := tq_ready q; tq_desc := tq_desc q;
     tq_driver := tq_driver q; tq_device := tq_device q |}.

Definition tqueue_reset : tqueue :=
  {| tq_num := 0; tq_ready := 0; tq_desc := 0; tq_driver := 0; tq_device := 0 |}.

Record transport : Type := {
  tr_dev_sel : Z; tr_drv_sel : Z; tr_features : Z; tr_status : Z; tr_qsel : Z; tr_isr : Z;
  tr_queues : list tqueue
}.
#[export] Instance transport_eta : Eta transport := fun t =>
  {| tr_dev_sel := tr_dev_sel t; tr_drv_sel := tr_drv_sel t; tr_features := tr_features t;
     tr_status := tr_status t; tr_qsel := tr_qsel t; tr_isr := tr_isr t;
     tr_queues := tr_queues t |}.

(** Replacing the low or the high 32 bits of a number. *)
Definition with_low (x v : Z) : Z := x / 2 ^ 32 * 2 ^ 32 + v.
Definition with_high (x v : Z) : Z := x mod 2 ^ 32 + v * 2 ^ 32.

Definition on_selected (f : tqueue -> tqueue) (t : transport) : transport :=
  if tr_qsel t <? 2 then t <| tr_queues ::= alter f (Z.to_nat (tr_qsel t)) |> else t.

Definition transport_write (reg : option VirtioMmioReg) (v : Z) (t : transport) : transport :=
  match reg with
  | Some VIRTIO_MMIO_DEVICE_FEATURES_SEL => t <| tr_dev_sel := v |>
  | Some VIRTIO_MMIO_DRIVER_FEATURES_SEL => t <| tr_drv_sel := v |>
  | Some VIRTIO_MMIO_DRIVER_FEATURES =>
      if tr_drv_sel t =? 0 then t <| tr_features ::= (fun f => with_low f v) |>
      else if tr_drv_sel t =? 1 then t <| tr_features ::= (fun f => with_high f v) |>
      else t
  | Some VIRTIO_MMIO_QUEUE_SEL => t <| tr_qsel := v |>
  | Some VIRTIO_MMIO_QUEUE_NUM => on_selected (fun q => q <| tq_num := v |>) t
  | Some VIRTIO_MMIO_QUEUE_READY => on_selected (fun q => q <| tq_ready := v |>) t
  | Some VIRTIO_MMIO_INTERRUPT_ACK => t <| tr_isr ::= (fun x => Z.ldiff x v) |>
  | Some VIRTIO_MMIO_STATUS =>
      if v =? 0 then
        t <| tr_status := 0 |> <| tr_features := 0 |> <| tr_isr := 0 |>
          <| tr_queues ::= fmap (fun _ => tqueue_reset) |>
      else t <| tr_status := v |>
  | Some VIRTIO_MMIO_QUEUE_DESC_LOW =>
      on_selected (fun q => q <| tq_desc ::= (fun x => with_low x v) |>) t
  | Some VIRTIO_MMIO_QUEUE_DESC_HIGH =>
      on_selected (fun q => q <| tq_desc ::= (fun x => with_high x v) |>) t
  | Some VIRTIO_MMIO_QUEUE_DRIVER_LOW =>
      on_selected (fun q => q <| tq_driver ::= (fun x => with_low x v) |>) t
  | Some VIRTIO_MMIO_QUEUE_DRIVER_HIGH =>
      on_selected (fun q => q <| tq_driver ::= (fun x => with_high x v) |>) t
  | Some VIRTIO_MMIO_QUEUE_DEVICE_LOW =>
      on_selected (fun q => q <| tq_device ::= (fun x => with_low x v) |>) t
  | Some VIRTIO_MMIO_QUEUE_DEVICE_HIGH =>
      on_selected (fun q => q <| tq_device ::= (fun x => with_high x v) |>) t
  | _ => t
  end.

(** ** The interface *)

Class MmioDevice {H : Host} : Type := {
  md_ok : Vmm -> Prop;
  md_view : Vmm -> transport;
  md_write : Z -> list Z -> Z -> M unit;   (* offset, data, len *)
  md_queues : forall s, md_ok s -> length (tr_queues (md_view s)) = 2%nat;
  md_write_refines : forall s off data len,
    md_ok s -> Forall byte_ok data ->
    wp (md_write off data len) (fun _ s' =>
      md_ok s' /\
      md_view s' = transport_write (reg_at off) (le_dec (take (clamp4 len) data)) (md_view s)) s;
}.
Global Arguments MmioDevice : clear implicits.

(** ** Well-formed devices *)

Definition Virtqueue_ok (q : Virtqueue) : Prop :=
  fits 32 (vq_num q) /\ fits 32 (vq_ready q) /\ fits 64 (vq_desc q) /\
  fits 64 (vq_driver q) /\ fits 64 (vq_device q).

Definition FsDev_ok (d : FsDev) : Prop :=
  length (vqs_ d) = 2%nat /\ Forall Virtqueue_ok (vqs_ d) /\
  fits 32 (vdev_features_sel_ d) /\ fits 32 (vdrv_features_sel_ d) /\
  fits 64 (vdrv_features_ d) /\ fits 32 (vdev_status_ d) /\ fits 32 (vqueue_sel_ d) /\
  fits 32 (virq_status_ d) /\ fits 32 (shm_sel_ d).

Definition NetDev_ok (d : NetDev) : Prop :=
  length (net_vqs_ d) = 2%nat /\ Forall Virtqueue_ok (net_vqs_ d) /\
  fits 32 (net_features_sel_ d) /\ fits 32 (net_drv_features_sel_ d) /\
  fits 64 (net_drv_features_ d) /\ fits 32 (net_status_ d) /\ fits 32 (net_queue_sel_ d) /\
  fits 32 (net_irq_status_ d).

Definition queue_view (q : Virtqueue) : tqueue :=
  {| tq_num := vq_num q; tq_ready := vq_ready q; tq_desc := vq_desc q;
     tq_driver := vq_driver q; tq_device := vq_device q |}.

Definition fs_view (d : FsDev) : transport :=
  {| tr_dev_sel := vdev_features_sel_ d; tr_drv_sel := vdrv_features_sel_ d;
     tr_features := vdrv_features_ d; tr_status := vdev_status_ d;
     tr_qsel := vqueue_sel_ d; tr_isr := virq_status_ d;
     tr_queues := queue_view <$> vqs_ d |}.

Definition net_view (d : NetDev) : transport :=
  {| tr_dev_sel := net_features_sel_ d; tr_drv_sel := net_drv_features_sel_ d;
     tr_features := net_drv_features_ d; tr_status := net_status_ d;
     tr_qsel := net_queue_sel_ d; tr_isr := net_irq_status_ d;
     tr_queues := queue_view <$> net_vqs_ d |}.

(** ** Lemmas on queue updates *)

Lemma fmap_alter_view {A B} (P : A -> Prop) (v : A -> B) f g (l : list A) i :
  Forall P l -> (forall x, P x -> v (f x) = g (v x)) ->
  v <$> alter f i l = alter g i (v <$> l).
Proof.
  intros Hl Hfg. revert i. induction Hl as [|x l Hx _ IH]; intros [|i]; cbn; [done..| |].
  - by rewrite Hfg.
  - f_equal. apply IH.
Qed.

Lemma Forall_alter_P {A} (P : A -> Prop) f (l : list A) i :
  Forall P l -> (forall x, P x -> P (f x)) -> Forall P (alter f i l).
Proof. intros Hl Hf. apply Forall_alter; [done|]. intros x ? ?. by apply Hf. Qed.

(** A queue update of the code against its abstract counterpart. *)
Definition queue_sim (f : Virtqueue -> Virtqueue) (g : tqueue -> tqueue) : Prop :=
  forall q, Virtqueue_ok q -> Virtqueue_ok (f q) /\ queue_view (f q) = g (queue_view q).

Lemma queue_sim_low (v : Z) : fits 32 v ->
  queue_sim (fun q => q <| vq_desc ::= (fun x => set_lo32 x v) |>)
            (fun q => q <| tq_desc ::= (fun x => with_low x v) |>) /\
  queue_sim (fun q => q <| vq_driver ::= (fun x => set_lo32 x v) |>)
            (fun q => q <| tq_driver ::= (fun x => with_low x v) |>) /\
  queue_sim (fun q => q <| vq_device ::= (fun x => set_lo32 x v) |>)
            (fun q => q <| tq_device ::= (fun x => with_low x v) |>).
Proof.
  intros Hv. split_and!; intros q (? & ? & ? & ? & ?); unfold Virtqueue_ok, queue_view; cbn;
    (split; [split_and!; auto using set_lo32_fits|by rewrite set_lo32_spec]).
Qed.

Lemma queue_sim_high (v : Z) : fits 32 v ->
  queue_sim (fun q => q <| vq_desc ::= (fun x => set_hi32 x v) |>)
            (fun q => q <| tq_desc ::= (fun x => with_high x v) |>) /\
  queue_sim (fun q => q <| vq_driver ::= (fun x => set_hi32 x v) |>)
            (fun q => q <| tq_driver ::= (fun x => with_high x v) |>) /\
  queue_sim (fun q => q <| vq_device ::= (fun x => set_hi32 x v) |>)
            (fun q => q <| tq_device ::= (fun x => with_high x v) |>).
Proof.
  intros Hv. split_and!; intros q (? & ? & ? & ? & ?); unfold Virtqueue_ok, queue_view; cbn;
    (split; [split_and!; auto using set_hi32_fits|by rewrite set_hi32_spec]).
Qed.

Lemma queue_sim_num (v : Z) : fits 32 v ->
  queue_sim (fun q => q <| vq_num := v |>) (fun q => q <| tq_num := v |>) /\
  queue_sim (fun q => q <| vq_ready := v |>) (fun q => q <| tq_ready := v |>).
Proof. intros Hv. split; intros q (? & ? & ? & ? & ?); by split. Qed.

(** ** The virtio-fs device implements the transport *)

Section devices.
  Context {H : Host}.

Lemma upd_selected_sim f g s :
  FsDev_ok (fs_ s) -> queue_sim f g ->
  wp (upd_selected f) (fun _ s' =>
    FsDev_ok (fs_ s') /\ fs_view (fs_ s') = on_selected g (fs_view (fs_ s))) s.
Proof.
  intros Hok Hfg. pose proof Hok as (Hl & Hq & ?).
  unfold upd_selected, on_selected, NUM_QUEUES. wp_run;
    change (tr_qsel (fs_view (fs_ s))) with (vqueue_sel_ (fs_ s)); rewrite Hb; [|done].
  eapply wp_lift; [apply update_at_alter; rewrite Hl; apply Z.ltb_lt in Hb; unfold fits in *; lia|].
  wp_run. unwind.
  unfold FsDev_ok, fs_view. cbn. split.
  - rewrite length_alter. split; [done|]. split; [|tauto].
    apply Forall_alter_P; [done|]. intros x Hx. by apply Hfg.
  - unfold upd. cbn. f_equal. apply (fmap_alter_view Virtqueue_ok); [done|].
    intros x Hx. by apply Hfg.
Qed.

Lemma virtio_kick_queue qidx s (Q : () -> Vmm -> Prop) :
  length (vqs_ (fs_ s)) = 2%nat -> 0 <= qidx -> Q () s ->
  (forall q r, q ∈ vqs_ (fs_ s) -> 0 <= vq_kick_fd q ->
     Q () (s <| trace_ ::= (fun t => t ++ [(sys_write (vq_kick_fd q) (le_enc 8 1), r)]) |>)) ->
  wp (virtio_kick qidx) Q s.
Proof.
  intros Hl Hi Hs Hk. unfold virtio_kick, NUM_QUEUES. wp_run; [done|]. apply Z.leb_gt in Hb.
  destruct (get_at_some (vqs_ (fs_ s)) qidx) as (q & Hq & E); [lia|].
  eapply wp_lift; [exact E|]. wp_run; [|done]. subst. apply Hk; [|by apply Z.leb_le].
  by eapply list_elem_of_lookup_2.
Qed.

Lemma virtio_kick_fs qidx s :
  length (vqs_ (fs_ s)) = 2%nat -> 0 <= qidx ->
  wp (virtio_kick qidx) (fun _ s' => fs_ s' = fs_ s) s.
Proof. intros Hl Hi. by apply virtio_kick_queue. Qed.

Lemma same_regs_view q q' : same_regs q q' -> queue_view q' = queue_view q.
Proof. intros (? & ? & ? & ? & ?). unfold queue_view. by f_equal. Qed.

Lemma same_regs_ok q q' : same_regs q q' -> Virtqueue_ok q -> Virtqueue_ok q'.
Proof. intros (E1 & E2 & E3 & E4 & E5). unfold Virtqueue_ok. by rewrite E1, E2, E3, E4, E5. Qed.

(** Handing the queues to the backend does not change the registers. *)
Lemma vu_setup_view s :
  FsDev_ok (fs_ s) ->
  wp vu_setup (fun _ s' => FsDev_ok (fs_ s') /\ fs_view (fs_ s') = fs_view (fs_ s)) s.
Proof.
  intros Hok. pose proof Hok as (Hl & Hq & Hrest).
  destruct (decide (virtio_active_ (fs_ s) = true \/ vu_sock_ (vu_ s) < 0)) as [Hn|Hn].
  { unfold wp. by rewrite vu_setup_noop. }
  wp_use (vu_setup_full s); [by destruct (virtio_active_ (fs_ s)); [destruct Hn; left|]|lia|done|].
  intros _ s' (vqs' & -> & _ & Hr & _). unfold FsDev_ok, fs_view. cbn. split.
  - rewrite <- (Forall2_length _ _ _ Hr). split; [done|]. split; [|tauto].
    eapply Forall2_Forall_r; [exact Hr|]. apply (Forall_impl _ _ _ Hq).
    intros q Hqok q' Hqq'. by apply (same_regs_ok q).
  - unfold upd. cbn. f_equal. clear -Hr. induction Hr; cbn; [done|].
    f_equal; [by apply same_regs_view|done].
Qed.

Lemma fs_write_driver_features s v :
  FsDev_ok (fs_ s) -> fits 32 v ->
  wp (virtio_write_reg (reg_offset VIRTIO_MMIO_DRIVER_FEATURES) v) (fun _ s' =>
    FsDev_ok (fs_ s') /\
    fs_view (fs_ s') = transport_write (Some VIRTIO_MMIO_DRIVER_FEATURES) v (fs_view (fs_ s))) s.
Proof.
  intros Hok Hv. pose proof Hok as (? & ? & ? & ? & Hf & ? & ? & ?).
  unfold virtio_write_reg. rewrite reg_at_offset. wp_run. unwind.
  unfold transport_write. change (tr_drv_sel (fs_view (fs_ s))) with (vdrv_features_sel_ (fs_ s)).
  destruct (_ =? 0); [|destruct (_ =? 1); [|done]].
  all: unfold FsDev_ok; cbn; split; [split_and!; try tauto; auto using set_lo32_fits, set_hi32_fits|].
  all: unfold fs_view, upd; cbn; f_equal.
  - by rewrite set_lo32_spec.
  - by rewrite set_hi32_spec.
Qed.

Lemma fs_write_ack s v :
  FsDev_ok (fs_ s) ->
  wp (virtio_write_reg (reg_offset VIRTIO_MMIO_INTERRUPT_ACK) v) (fun _ s' =>
    FsDev_ok (fs_ s') /\
    fs_view (fs_ s') = transport_write (Some VIRTIO_MMIO_INTERRUPT_ACK) v (fs_view (fs_ s))) s.
Proof.
  intros Hok. pose proof Hok as (? & ? & ? & ? & ? & ? & ? & Hi & ?).
  unfold virtio_write_reg. rewrite reg_at_offset. wp_run; unwind.
  all: unfold FsDev_ok, transport_write, fs_view, upd; cbn; split;
    [split_and!; try tauto; by apply land_bnot_fits|].
  all: f_equal; by apply land_bnot_ldiff.
Qed.

Lemma Virtqueue_init_ok : Virtqueue_ok Virtqueue_init.
Proof. unfold Virtqueue_ok, fits. cbn. lia. Qed.

Lemma reset_queues_ok (l : list Virtqueue) :
  Forall Virtqueue_ok ((fun _ => Virtqueue_init) <$> l).
Proof. apply Forall_fmap, Forall_true. intros q. apply Virtqueue_init_ok. Qed.

Lemma reset_queues_view (l : list Virtqueue) :
  queue_view <$> ((fun _ => Virtqueue_init) <$> l) = (fun _ => tqueue_reset) <$> (queue_view <$> l).
Proof. by rewrite <- !list_fmap_compose. Qed.

Lemma fs_write_status s v :
  FsDev_ok (fs_ s) -> fits 32 v ->
  wp (virtio_write_reg (reg_offset VIRTIO_MMIO_STATUS) v) (fun _ s' =>
    FsDev_ok (fs_ s') /\
    fs_view (fs_ s') = transport_write (Some VIRTIO_MMIO_STATUS) v (fs_view (fs_ s))) s.
Proof.
  intros Hok Hv. pose proof Hok as (? & ? & ? & ? & ? & ? & ? & ? & ?).
  unfold virtio_write_reg. rewrite reg_at_offset. unfold transport_write.
  assert (Hset : forall s', FsDev_ok (fs_ s') -> fs_view (fs_ s') = transport_write (Some VIRTIO_MMIO_STATUS) v (fs_view (fs_ s)) ->
    wp vu_setup (fun _ s'' => FsDev_ok (fs_ s'') /\
      fs_view (fs_ s'') = transport_write (Some VIRTIO_MMIO_STATUS) v (fs_view (fs_ s))) s').
  { intros s' Hok' Hv'. wp_use (vu_setup_view s' Hok'). intros _ s'' [? ->]. done. }
  wp_run; try apply Hset; unwind; rewrite ?Hb; unfold transport_write; rewrite ?Hb.
  all: try (apply Z.eqb_eq in Hb as ->).
  all: unfold FsDev_ok, fs_view, upd; cbn; rewrite ?length_fmap, ?reset_queues_view; try done.
  all: split_and!; try tauto; auto using reset_queues_ok; unfold fits; lia.
Qed.

Lemma virtio_write_reg_refines s off v :
  FsDev_ok (fs_ s) -> fits 32 v ->
  wp (virtio_write_reg off v) (fun _ s' =>
    FsDev_ok (fs_ s') /\ fs_view (fs_ s') = transport_write (reg_at off) v (fs_view (fs_ s))) s.
Proof.
  intros Hok Hv. destruct (queue_sim_low v Hv) as (? & ? & ?).
  destruct (queue_sim_high v Hv) as (? & ? & ?). destruct (queue_sim_num v Hv) as (? & ?).
  destruct (reg_at off) as [r|] eqn:E; [apply reg_at_some in E as ->|].
  2: { unfold virtio_write_reg. rewrite E. by wp_run. }
  destruct r.
  all: lazymatch goal with
    | |- wp (virtio_write_reg (reg_offset VIRTIO_MMIO_DRIVER_FEATURES) _) _ _ =>
        by apply fs_write_driver_features
    | |- wp (virtio_write_reg (reg_offset VIRTIO_MMIO_INTERRUPT_ACK) _) _ _ => by apply fs_write_ack
    | |- wp (virtio_write_reg (reg_offset VIRTIO_MMIO_STATUS) _) _ _ => by apply fs_write_status
    | _ => unfold virtio_write_reg; rewrite reg_at_offset; cbn [transport_write]
    end.
  all: lazymatch goal with
    | |- wp (upd_selected _) _ _ => by apply upd_selected_sim
    | |- wp (virtio_kick _) _ _ => wp_use (virtio_kick_fs v s); [apply Hok|unfold fits in *; lia|by intros _ s' ->]
    | _ => wp_run; unwind; unfold FsDev_ok in *; cbn in *; unfold fs_view, upd; cbn; tauto
    end.
Qed.

(** ** The virtio-net device implements the transport *)

Lemma upd_net_selected_sim f g s :
  NetDev_ok (net_ s) -> queue_sim f g ->
  wp (upd_net_selected f) (fun _ s' =>
    NetDev_ok (net_ s') /\ net_view (net_ s') = on_selected g (net_view (net_ s))) s.
Proof.
  intros Hok Hfg. pose proof Hok as (Hl & Hq & ?).
  unfold upd_net_selected, on_selected, NET_NUM_QUEUES. wp_run;
    change (tr_qsel (net_view (net_ s))) with (net_queue_sel_ (net_ s)); rewrite Hb; [|done].
  eapply wp_lift; [apply update_at_alter; rewrite Hl; apply Z.ltb_lt in Hb; unfold fits in *; lia|].
  wp_run. unwind.
  unfold NetDev_ok, net_view. cbn. split.
  - rewrite length_alter. split; [done|]. split; [|tauto].
    apply Forall_alter_P; [done|]. intros x Hx. by apply Hfg.
  - unfold upd. cbn. f_equal. apply (fmap_alter_view Virtqueue_ok); [done|].
    intros x Hx. by apply Hfg.
Qed.

Lemma net_write_driver_features s v :
  NetDev_ok (net_ s) -> fits 32 v ->
  wp (net_write_reg (reg_offset VIRTIO_MMIO_DRIVER_FEATURES) v) (fun _ s' =>
    NetDev_ok (net_ s') /\
    net_view (net_ s') = transport_write (Some VIRTIO_MMIO_DRIVER_FEATURES) v (net_view (net_ s))) s.
Proof.
  intros Hok Hv. pose proof Hok as (? & ? & ? & ? & Hf & ? & ? & ?).
  unfold net_write_reg. rewrite reg_at_offset. wp_run. unwind.
  unfold transport_write.
  change (tr_drv_sel (net_view (net_ s))) with (net_drv_features_sel_ (net_ s)).
  destruct (_ =? 0); [|destruct (_ =? 1); [|done]].
  all: unfold NetDev_ok; cbn; split; [split_and!; try tauto; auto using set_lo32_fits, set_hi32_fits|].
  all: unfold net_view, upd; cbn; f_equal.
  - by rewrite set_lo32_spec.
  - by rewrite set_hi32_spec.
Qed.

Lemma net_write_ack s v :
  NetDev_ok (net_ s) ->
  wp (net_write_reg (reg_offset VIRTIO_MMIO_INTERRUPT_ACK) v) (fun _ s' =>
    NetDev_ok (net_ s') /\
    net_view (net_ s') = transport_write (Some VIRTIO_MMIO_INTERRUPT_ACK) v (net_view (net_ s))) s.
Proof.
  intros Hok. pose proof Hok as (? & ? & ? & ? & ? & ? & ? & Hi).
  unfold net_write_reg. rewrite reg_at_offset. wp_run; unwind.
  all: unfold NetDev_ok, transport_write, net_view, upd; cbn; split;
    [split_and!; try tauto; by apply land_bnot_fits|].
  all: f_equal; by apply land_bnot_ldiff.
Qed.

(** Starting the packet thread does not change the registers. *)
Lemma vhost_net_setup_view s :
  NetDev_ok (net_ s) ->
  wp vhost_net_setup (fun _ s' =>
    NetDev_ok (net_ s') /\ net_view (net_ s') = net_view (net_ s)) s.
Proof.
  intros Hok. unfold vhost_net_setup. wp_run; unwind; [done|].
  unfold NetDev_ok, net_view in *. cbn. done.
Qed.

Lemma net_write_status s v :
  NetDev_ok (net_ s) -> fits 32 v ->
  wp (net_write_reg (reg_offset VIRTIO_MMIO_STATUS) v) (fun _ s' =>
    NetDev_ok (net_ s') /\
    net_view (net_ s') = transport_write (Some VIRTIO_MMIO_STATUS) v (net_view (net_ s))) s.
Proof.
  intros Hok Hv. pose proof Hok as (? & ? & ? & ? & ? & ? & ? & ?).
  unfold net_write_reg. rewrite reg_at_offset. unfold transport_write.
  wp_run.
  all: lazymatch goal with |- wp vhost_net_setup _ _ =>
    wp_use vhost_net_setup_view; [|intros _ s'' [? Hv']; apply wp_skip; split; [done|rewrite Hv']] | _ => idtac end.
  all: unwind; rewrite ?Hb; try (apply Z.eqb_eq in Hb as ->).
  all: unfold NetDev_ok, net_view; cbn; rewrite ?length_fmap, ?reset_queues_view; try done.
  all: split_and!; try tauto; auto using reset_queues_ok; unfold fits; lia.
Qed.

Lemma net_write_reg_refines s off v :
  NetDev_ok (net_ s) -> fits 32 v ->
  wp (net_write_reg off v) (fun _ s' =>
    NetDev_ok (net_ s') /\ net_view (net_ s') = transport_write (reg_at off) v (net_view (net_ s))) s.
Proof.
  intros Hok Hv. destruct (queue_sim_low v Hv) as (? & ? & ?).
  destruct (queue_sim_high v Hv) as (? & ? & ?). destruct (queue_sim_num v Hv) as (? & ?).
  destruct (reg_at off) as [r|] eqn:E; [apply reg_at_some in E as ->|].
  2: { unfold net_write_reg. rewrite E. by wp_run. }
  destruct r.
  all: lazymatch goal with
    | |- wp (net_write_reg (reg_offset VIRTIO_MMIO_DRIVER_FEATURES) _) _ _ =>
        by apply net_write_driver_features
    | |- wp (net_write_reg (reg_offset VIRTIO_MMIO_INTERRUPT_ACK) _) _ _ => by apply net_write_ack
    | |- wp (net_write_reg (reg_offset VIRTIO_MMIO_STATUS) _) _ _ => by apply net_write_status
    | _ => unfold net_write_reg; rewrite reg_at_offset; cbn [transport_write]
    end.
  all: lazymatch goal with
    | |- wp (upd_net_selected _) _ _ => by apply upd_net_selected_sim
    | _ => wp_run; unwind; unfold NetDev_ok in *; cbn in *; unfold net_view, upd; cbn; tauto
    end.
Qed.

(** ** The instances *)

#[export] Program Instance fs_mmio : MmioDevice H := {|
  md_ok s := FsDev_ok (fs_ s);
  md_view s := fs_view (fs_ s);
  md_write := virtio_mmio_write;
|}.
Next Obligation. intros s (Hl & _). cbn. by rewrite length_fmap. Qed.
Next Obligation.
  intros s off data len Hok Hd. unfold virtio_mmio_write.
  apply virtio_write_reg_refines; [done|]. by apply le_dec_take4_fits.
Qed.

#[export] Program Instance net_mmio : MmioDevice H := {|
  md_ok s := NetDev_ok (net_ s);
  md_view s := net_view (net_ s);
  md_write := net_mmio_write;
|}.
Next Obligation. intros s (Hl & _). cbn. by rewrite length_fmap. Qed.
Next Obligation.
  intros s off data len Hok Hd. unfold net_mmio_write.
  apply net_write_reg_refines; [done|]. by apply le_dec_take4_fits.
Qed.

End devices.

(** ** What a driver programs *)

(** The effect of a queue register on the queue it is written for. *)
Definition queue_reg (r : VirtioMmioReg) (v : Z) (q : tqueue) : tqueue :=
  match r with
  | VIRTIO_MMIO_QUEUE_NUM => q <| tq_num := v |>
  | VIRTIO_MMIO_QUEUE_READY => q <| tq_ready := v |>
  | VIRTIO_MMIO_QUEUE_DESC_LOW => q <| tq_desc ::= (fun x => with_low x v) |>
  | VIRTIO_MMIO_QUEUE_DESC_HIGH => q <| tq_desc ::= (fun x => with_high x v) |>
  | VIRTIO_MMIO_QUEUE_DRIVER_LOW => q <| tq_driver ::= (fun x => with_low x v) |>
  | VIRTIO_MMIO_QUEUE_DRIVER_HIGH => q <| tq_driver ::= (fun x => with_high x v) |>
  | VIRTIO_MMIO_QUEUE_DEVICE_LOW => q <| tq_device ::= (fun x => with_low x v) |>
  | VIRTIO_MMIO_QUEUE_DEVICE_HIGH => q <| tq_device ::= (fun x => with_high x v) |>
  | _ => q
  end.

(** The register writes that describe queue contents [q], in the order the
    Linux driver makes them. *)
Definition queue_program (q : tqueue) : list (VirtioMmioReg * Z) :=
  [(VIRTIO_MMIO_QUEUE_NUM, tq_num q);
   (VIRTIO_MMIO_QUEUE_DESC_LOW, tq_desc q mod 2 ^ 32);
   (VIRTIO_MMIO_QUEUE_DESC_HIGH, tq_desc q / 2 ^ 32);
   (VIRTIO_MMIO_QUEUE_DRIVER_LOW, tq_driver q mod 2 ^ 32);
   (VIRTIO_MMIO_QUEUE_DRIVER_HIGH, tq_driver q / 2 ^ 32);
   (VIRTIO_MMIO_QUEUE_DEVICE_LOW, tq_device q mod 2 ^ 32);
   (VIRTIO_MMIO_QUEUE_DEVICE_HIGH, tq_device q / 2 ^ 32);
   (VIRTIO_MMIO_QUEUE_READY, tq_ready q)].

Definition tqueue_ok (q : tqueue) : Prop :=
  fits 32 (tq_num q) /\ fits 32 (tq_ready q) /\ fits 64 (tq_desc q) /\
  fits 64 (tq_driver q) /\ fits 64 (tq_device q).

(** A driver's 32-bit writes, one after the other. *)
Definition driver_writes {H : Host} {D : MmioDevice H} (ws : list (VirtioMmioReg * Z)) : M unit :=
  for_each ws (fun w => md_write (reg_offset w.1) (le_enc 4 w.2) 4).

Lemma with_low_high_comm x a b : fits 32 a -> fits 32 b ->
  with_low (with_high x b) a = with_high (with_low x a) b.
Proof.
  intros Ha Hb. unfold with_low, with_high, fits in *.
  pose proof (Z.mod_pos_bound x (2 ^ 32)).
  rewrite Z.div_add, (Z.div_small (x mod 2 ^ 32)) by lia.
  rewrite (Z.add_comm (x / 2 ^ 32 * 2 ^ 32) a), Z.mod_add, (Z.mod_small a) by lia. lia.
Qed.

Lemma with_low_high_split x y :
  fits 64 y -> with_high (with_low x (y mod 2 ^ 32)) (y / 2 ^ 32) = y.
Proof.
  intros Hy. unfold with_low, with_high, fits in *.
  rewrite (Z.add_comm (x / 2 ^ 32 * 2 ^ 32)), Z.mod_add, Z.mod_mod by lia.
  pose proof (Z.div_mod y (2 ^ 32)). lia.
Qed.

(** Writes to different registers of a queue commute. *)
Lemma queue_reg_comm r1 v1 r2 v2 q :
  r1 <> r2 -> fits 32 v1 -> fits 32 v2 ->
  queue_reg r1 v1 (queue_reg r2 v2 q) = queue_reg r2 v2 (queue_reg r1 v1 q).
Proof.
  intros Hr H1 H2. destruct q as [n rd de dr dv].
  destruct r1, r2; try reflexivity; try done.
  all: unfold queue_reg, upd; cbn; f_equal; first [by apply with_low_high_comm | symmetry; by apply with_low_high_comm].
Qed.

Definition apply_writes (ws : list (VirtioMmioReg * Z)) (q : tqueue) : tqueue :=
  foldl (fun q w => queue_reg w.1 w.2 q) q ws.

Lemma apply_writes_perm ws ws' q :
  ws ≡ₚ ws' -> NoDup ws.*1 -> Forall (fun w => fits 32 w.2) ws ->
  apply_writes ws q = apply_writes ws' q.
Proof.
  unfold apply_writes. intros Hp. revert q.
  induction Hp as [|x l l' Hp IH|x y l|l l' l'' Hp1 IH1 Hp2 IH2]; intros q Hn Hf; [done|..].
  - cbn. rewrite fmap_cons, NoDup_cons in Hn. rewrite Forall_cons in Hf. apply IH; tauto.
  - cbn. rewrite !fmap_cons, !NoDup_cons in Hn. rewrite !Forall_cons in Hf.
    f_equal. symmetry. apply queue_reg_comm; [|tauto..]. destruct Hn as [Hn _]. set_solver +Hn.
  - rewrite IH1 by done. apply IH2; [by rewrite <- Hp1|by rewrite <- Hp1].
Qed.

Lemma queue_program_ok q : tqueue_ok q ->
  Forall (fun w => fits 32 w.2) (queue_program q) /\ NoDup (queue_program q).*1 /\
  forall q0, apply_writes (queue_program q) q0 = q.
Proof.
  intros (Hn & Hr & Hd & Ha & Hu). split_and!.
  - unfold queue_program. rewrite !Forall_cons. cbn. unfold fits in *. split_and!; try done.
    all: first [apply Z.mod_pos_bound; lia | apply Z.div_pos; lia | apply Z.div_lt_upper_bound; lia | lia | apply Forall_nil_2].
  - cbn. by eapply bool_decide_eq_true_1.
  - intros q0. unfold apply_writes, queue_program. cbn. unfold upd. cbn.
    rewrite !with_low_high_split by done. by destruct q.
Qed.

Lemma le_dec_clamp_enc v : fits 32 v -> le_dec (take (clamp4 4) (le_enc 4 v)) = v.
Proof.
  intros Hv. rewrite take_ge by (rewrite le_enc_length; done). by apply le_dec_enc.
Qed.

Section driver.
  Context {H : Host} {D : MmioDevice H}.

Lemma driver_queue_writes ws s i :
  md_ok s -> tr_qsel (md_view s) = Z.of_nat i -> (i < 2)%nat ->
  Forall (fun w => fits 32 w.2) ws ->
  Forall (fun w => forall v t, transport_write (Some w.1) v t = on_selected (queue_reg w.1 v) t) ws ->
  wp (driver_writes ws) (fun _ s' =>
    md_ok s' /\
    md_view s' = (md_view s) <| tr_queues ::= alter (apply_writes ws) i |>) s.
Proof.
  intros Hok Hsel Hi Hf Hq. revert s Hok Hsel.
  induction ws as [|w ws IH]; intros s Hok Hsel.
  { cbn. split; [done|]. destruct (md_view s) as [????? ? qs]. unfold upd. cbn. f_equal.
    symmetry. apply list_alter_id. done. }
  rewrite Forall_cons in Hf, Hq. destruct Hf as [Hw Hf], Hq as [Hwq Hq].
  unfold driver_writes. cbn [for_each]. wp_run.
  wp_use md_write_refines; [done|apply le_enc_bytes|]. intros _ s' [Hok' Hv'].
  rewrite reg_at_offset, Hwq in Hv'.
  rewrite le_dec_clamp_enc in Hv' by done.
  unfold on_selected in Hv'. rewrite Hsel in Hv'.
  rewrite (proj2 (Z.ltb_lt _ _)), Nat2Z.id in Hv' by lia.
  wp_use (IH Hf Hq s' Hok'); [by rewrite Hv'|]. cbv beta. intros _ s'' [Hok'' ->]. split; [done|].
  rewrite Hv'. unfold upd. cbn. f_equal. by rewrite list_alter_alter_eq.
Qed.

Lemma driver_programs_queue_perm s i q ws :
  md_ok s -> (i < 2)%nat -> tqueue_ok q -> ws ≡ₚ queue_program q ->
  wp (driver_writes ((VIRTIO_MMIO_QUEUE_SEL, Z.of_nat i) :: ws)) (fun _ s' =>
    md_ok s' /\
    md_view s' = (md_view s) <| tr_qsel := Z.of_nat i |>
                             <| tr_queues := <[i := q]> (tr_queues (md_view s)) |>) s.
Proof.
  intros Hok Hi Hq Hp. destruct (queue_program_ok q Hq) as (Hf & Hn & Ha).
  unfold driver_writes. cbn [for_each]. wp_run.
  wp_use md_write_refines; [done|apply le_enc_bytes|]. intros _ s1 [Hok1 Hv1].
  rewrite reg_at_offset in Hv1. cbn [fst snd transport_write] in Hv1.
  rewrite le_dec_clamp_enc in Hv1 by (unfold fits; lia).
  wp_use (driver_queue_writes ws s1 i Hok1); [by rewrite Hv1|done|by rewrite Hp| |].
  { rewrite Hp. unfold queue_program. rewrite !Forall_cons. split_and!; done. }
  intros _ s2 [Hok2 ->]. split; [done|]. rewrite Hv1. unfold upd. cbn. f_equal.
  pose proof (md_queues s Hok) as Hl.
  destruct (lookup_lt_is_Some_2 (tr_queues (md_view s)) i) as [q0 Hq0]; [lia|].
  rewrite (alter_as_insert _ _ _ _ Hq0). f_equal.
  rewrite (apply_writes_perm ws (queue_program q)); [by rewrite Ha|done|by rewrite Hp|by rewrite Hp].
Qed.
End driver.
