(* ===== verification/DeviceFacts.v ===== *)
(** * Properties of the two virtio-MMIO devices

    Register writes refine the abstract transport, a driver's programming
    sequence is understood in any order, the interrupt line follows the
    interrupt status, feature words and configuration space read back, and
    what a device reset does. *)
From S2P Require Import Prelude Memory Codec State Logic VirtioRegs VhostUserProto VirtioFs VirtioNet Transport.
From stdpp Require Import options.

(** ** Views of the calls made *)

Definition written (t : trace) : list (Z * list Z) :=
  omap (fun e => match e.1 with sys_write fd bs => Some (fd, bs) | _ => None end) t.

Lemma written_snoc t c r :
  written (t ++ [(c, r)]) =
  written t ++ match c with sys_write fd bs => [(fd, bs)] | _ => [] end.
Proof. unfold written. rewrite omap_app. by destruct c. Qed.
Global Arguments written : simpl never.

Definition threads_started (t : trace) : list thread :=
  omap (fun e => match e.1 with sys_pthread_create th => Some th | _ => None end) t.

Lemma threads_started_snoc t c r :
  threads_started (t ++ [(c, r)]) =
  threads_started t ++ match c with sys_pthread_create th => [th] | _ => [] end.
Proof. unfold threads_started. rewrite omap_app. by destruct c. Qed.
Global Arguments threads_started : simpl never.

Lemma line_level_snoc irq t c r :
  line_level irq (t ++ [(c, r)]) =
  match c with sys_irq_line i l => if i =? irq then l else line_level irq t
             | _ => line_level irq t end.
Proof.
  unfold line_level. rewrite irq_line_levels_snoc.
  destruct c; rewrite ?app_nil_r; try done.
  destruct (_ =? _); [|by rewrite app_nil_r]. by rewrite last_snoc.
Qed.
Global Arguments line_level : simpl never.

(** ** The interrupt line follows the interrupt status *)

(** The level a device that asserts its line exactly while an interrupt is
    pending keeps it at. *)
Definition pending_level (status : Z) : Z := if status =? 0 then 0 else 1.

Definition fs_line_ok (s : Vmm) : Prop :=
  line_level VIRTIO_MMIO_IRQ (trace_ s) = pending_level (virq_status_ (fs_ s)).

Definition net_line_ok (s : Vmm) : Prop :=
  line_level VIRTIO_NET_MMIO_IRQ (trace_ s) = pending_level (net_irq_status_ (net_ s)).

Lemma pending_level_lor x : 0 <= x -> pending_level (Z.lor x 1) = 1.
Proof.
  intros Hx. unfold pending_level. case_match eqn:E; [|done].
  apply Z.eqb_eq, Z.lor_eq_0_iff in E as [_ E]. done.
Qed.

(** Clearing bits raises no line: either something is left pending, or the line
    is lowered. *)
Lemma pending_level_land x y l :
  l = pending_level x -> pending_level (Z.land x y) <> 0 -> l = 1.
Proof.
  intros ->. unfold pending_level. destruct (Z.eqb_spec x 0) as [->|]; [|done].
  by rewrite Z.land_0_l.
Qed.

Section facts.
  Context {H : Host}.

Lemma poll_call_fds_line fds need s :
  wp (poll_call_fds fds need) (fun _ s' =>
    fs_ s' = fs_ s /\ line_level VIRTIO_MMIO_IRQ (trace_ s') = line_level VIRTIO_MMIO_IRQ (trace_ s)) s.
Proof.
  revert need s. induction fds as [|fd fds IH]; intros need s; cbn [poll_call_fds]; [by wp_run|].
  wp_run; [|apply IH]. wp_use IH. cbv beta. intros _ s' [-> ->]. unwind.
  by rewrite line_level_snoc.
Qed.

Lemma upd_selected_line f s :
  length (vqs_ (fs_ s)) = 2%nat -> 0 <= vqueue_sel_ (fs_ s) ->
  wp (upd_selected f) (fun _ s' =>
    virq_status_ (fs_ s') = virq_status_ (fs_ s) /\ trace_ s' = trace_ s) s.
Proof.
  intros Hl Hs. unfold upd_selected, NUM_QUEUES. wp_run; [|done]. apply Z.ltb_lt in Hb.
  eapply wp_lift; [apply update_at_alter; lia|]. wp_run; by unwind.
Qed.

Lemma upd_net_selected_line f s :
  length (net_vqs_ (net_ s)) = 2%nat -> 0 <= net_queue_sel_ (net_ s) ->
  wp (upd_net_selected f) (fun _ s' =>
    net_irq_status_ (net_ s') = net_irq_status_ (net_ s) /\ trace_ s' = trace_ s) s.
Proof.
  intros Hl Hs. unfold upd_net_selected, NET_NUM_QUEUES. wp_run; [|done]. apply Z.ltb_lt in Hb.
  eapply wp_lift; [apply update_at_alter; lia|]. wp_run; by unwind.
Qed.

Lemma vu_setup_line s :
  length (vqs_ (fs_ s)) = 2%nat ->
  wp vu_setup (fun _ s' =>
    virq_status_ (fs_ s') = virq_status_ (fs_ s) /\
    line_level VIRTIO_MMIO_IRQ (trace_ s') = line_level VIRTIO_MMIO_IRQ (trace_ s)) s.
Proof.
  intros Hl.
  destruct (decide (virtio_active_ (fs_ s) = true \/ vu_sock_ (vu_ s) < 0)) as [Hn|Hn].
  { unfold wp. by rewrite vu_setup_noop. }
  wp_use (vu_setup_full s); [by destruct (virtio_active_ (fs_ s)); [destruct Hn; left|]|lia|done|].
  intros _ s' (vqs' & -> & _ & _ & Hi & _). split; [done|].
  unfold line_level, VIRTIO_MMIO_IRQ. by rewrite Hi.
Qed.

(** [check_virtio_irqs] raises IRQ 5 exactly when it sets the interrupt
    status, and every register write of the driver except a device reset keeps
    the line equal to "an interrupt is pending": acknowledging the last pending
    bit lowers it, acknowledging some of them does not. *)
Theorem fs_irq_line_follows_status s off data len :
  FsDev_ok (fs_ s) -> Forall byte_ok data -> fs_line_ok s ->
  wp check_virtio_irqs (fun _ => fs_line_ok) s /\
  (~ (reg_at off = Some VIRTIO_MMIO_STATUS /\ le_dec (take (clamp4 len) data) = 0) ->
   wp (virtio_mmio_write off data len) (fun _ => fs_line_ok) s).
Proof.
  intros (Hl & _ & _ & _ & _ & _ & Hsel & Hi & _) Hd Hok. split.
  - unfold check_virtio_irqs. wp_run; [done|]. wp_use poll_call_fds_line. cbv beta.
    intros need s1 [Hf Ht]. wp_run; unwind; unfold fs_line_ok in *; cbn.
    + rewrite line_level_snoc, Hf, pending_level_lor by (unfold fits in Hi; lia). done.
    + by rewrite Hf, Ht.
  - intros Hn. unfold virtio_mmio_write. pose proof (le_dec_take4_fits len data Hd) as Hv.
    set (v := le_dec _) in *. clearbody v.
    unfold virtio_write_reg. unfold fs_line_ok in *.
    destruct (reg_at off) as [r|]; [|by wp_run].
    destruct r; try (wp_run; unwind; done).
    all: try (wp_use upd_selected_line; [done|apply Hsel|cbv beta; intros _ s' [-> ->]; done]).
    + wp_run. unwind. by repeat case_match.
    + apply virtio_kick_queue; [done|apply Hv|done|]. intros q r _ _. cbn. by rewrite line_level_snoc.
    + wp_run; unwind; rewrite ?line_level_snoc.
      * by rewrite (proj1 (Z.eqb_eq _ _) Hb).
      * unfold pending_level at 1. rewrite Hb. eapply pending_level_land; [exact Hok|].
        unfold pending_level. by rewrite Hb.
    + wp_run; unwind; try done.
      all: try (exfalso; apply Hn; split; [done|by apply Z.eqb_eq]).
      wp_use vu_setup_line; [done|]. cbv beta. intros _ s' [-> ->]. done.
Qed.

Lemma vhost_net_setup_line s :
  wp vhost_net_setup (fun _ s' =>
    net_irq_status_ (net_ s') = net_irq_status_ (net_ s) /\
    line_level VIRTIO_NET_MMIO_IRQ (trace_ s') = line_level VIRTIO_NET_MMIO_IRQ (trace_ s)) s.
Proof. unfold vhost_net_setup. wp_run; unwind; rewrite ?line_level_snoc; done. Qed.

(** the same for the driver's writes to the network device and IRQ 6. *)
Theorem net_irq_line_follows_status s off data len :
  NetDev_ok (net_ s) -> net_line_ok s ->
  ~ (reg_at off = Some VIRTIO_MMIO_STATUS /\ le_dec (take (clamp4 len) data) = 0) ->
  wp (net_mmio_write off data len) (fun _ => net_line_ok) s.
Proof.
  intros (Hl & _ & _ & _ & _ & _ & Hsel & _) Hok Hn. unfold net_mmio_write. set (v := le_dec _) in *. clearbody v.
  unfold net_write_reg. unfold net_line_ok in *.
  destruct (reg_at off) as [r|]; [|by wp_run].
  destruct r; try (wp_run; unwind; done).
  all: try (wp_use upd_net_selected_line; [done|apply Hsel|cbv beta; intros _ s' [-> ->]; done]).
  + wp_run. unwind. by repeat case_match.
  + wp_run; unwind; rewrite ?line_level_snoc; done.
  + wp_run; unwind; rewrite ?line_level_snoc.
    * by rewrite (proj1 (Z.eqb_eq _ _) Hb).
    * unfold pending_level at 1. rewrite Hb. eapply pending_level_land; [exact Hok|].
      unfold pending_level. by rewrite Hb.
  + wp_run; unwind; try done.
    all: try (exfalso; apply Hn; split; [done|by apply Z.eqb_eq]).
    wp_use vhost_net_setup_line. cbv beta. intros _ s' [E1 E2]. wp_run. by rewrite E1, E2.
Qed.

(** a device reset forgets the pending interrupt but not the line: with an
    interrupt pending, writing 0 to the status register leaves the interrupt
    status 0 and the line of either device high. *)
Theorem reset_leaves_line_high s :
  fs_line_ok s -> virq_status_ (fs_ s) <> 0 ->
  net_line_ok s -> net_irq_status_ (net_ s) <> 0 ->
  wp (virtio_mmio_write (reg_offset VIRTIO_MMIO_STATUS) (le_enc 4 0) 4) (fun _ s' =>
    virq_status_ (fs_ s') = 0 /\ line_level VIRTIO_MMIO_IRQ (trace_ s') = 1) s /\
  wp (net_mmio_write (reg_offset VIRTIO_MMIO_STATUS) (le_enc 4 0) 4) (fun _ s' =>
    net_irq_status_ (net_ s') = 0 /\ line_level VIRTIO_NET_MMIO_IRQ (trace_ s') = 1) s.
Proof.
  unfold fs_line_ok, net_line_ok, pending_level.
  intros Hf Hfn Hn Hnn. rewrite (proj2 (Z.eqb_neq _ _) Hfn) in Hf.
  rewrite (proj2 (Z.eqb_neq _ _) Hnn) in Hn.
  unfold virtio_mmio_write, net_mmio_write. rewrite !le_dec_clamp_enc by done.
  unfold virtio_write_reg, net_write_reg. rewrite reg_at_offset. split; wp_run; unwind; done.
Qed.

(** ** Device reset *)

(** A virtio-fs device whose queues have no eventfds although it counts as
    active: nothing the driver writes reaches the backend any more. *)
Definition fs_unwired (s : Vmm) : Prop :=
  virtio_active_ (fs_ s) = true /\
  Forall (fun q => vq_kick_fd q = -1 /\ vq_call_fd q = -1) (vqs_ (fs_ s)).

Definition quiet_step (s s' : Vmm) : Prop :=
  fs_unwired s' /\ written (trace_ s') = written (trace_ s) /\
  sent_msgs (trace_ s') = sent_msgs (trace_ s).

Lemma upd_selected_unwired f s :
  (forall q, vq_kick_fd (f q) = vq_kick_fd q /\ vq_call_fd (f q) = vq_call_fd q) ->
  fs_unwired s -> wlp (upd_selected f) (fun _ => quiet_step s) s.
Proof.
  intros Hf Hs. unfold upd_selected. wp_run; [|done]. apply update_at_inv in Ha as [_ ->]. unwind.
  destruct Hs as [Ha Hq]. split; [|done]. split; [done|]. cbn.
  apply Forall_alter_P; [done|]. intros q [Hk Hc]. destruct (Hf q) as [-> ->]. done.
Qed.

Lemma virtio_write_unwired s off v :
  fs_unwired s -> wlp (virtio_write_reg off v) (fun _ => quiet_step s) s.
Proof.
  intros Hs. pose proof Hs as [Ha Hq]. unfold virtio_write_reg.
  destruct (reg_at off) as [r|]; [|by wp_run].
  destruct r; try (wp_run; unwind; done).
  all: try (by apply upd_selected_unwired).
  - wp_run. unwind. unfold quiet_step, fs_unwired. cbn. repeat case_match; done.
  - unfold virtio_kick. wp_run; [done|..|done]. exfalso.
    apply get_at_inv in Ha0 as [_ E]. rewrite Forall_lookup in Hq. destruct (Hq _ _ E) as [Hk _].
    by rewrite Hk in Hb0.
  - wp_run; unwind; unfold quiet_step, fs_unwired; cbn;
      rewrite ?written_snoc, ?sent_msgs_snoc, ?app_nil_r; done.
  - assert (Hz : fs_unwired (s <| fs_ ::= (fun d => d <| vdev_status_ := v |>) |>
      <| fs_ ::= (fun d => d <| vqs_ ::= fmap (fun _ => Virtqueue_init) |>
                            <| vdrv_features_ := 0 |> <| virq_status_ := 0 |>) |>)).
    { split; [done|]. cbn. apply Forall_fmap, Forall_true. done. }
    wp_run; try lazymatch goal with |- wlp vu_setup _ ?s' =>
      unfold wlp; rewrite vu_setup_noop by (left; by subst) end; subst;
      (split; [first [exact Hz | by split]|done]).
Qed.

(** once the queues have been handed to virtiofsd, a device reset is final.
    After the driver writes 0 to the status register, whatever registers it
    then programs, DRIVER_OK included, no message is sent to the backend and
    no kick reaches it: [vu_setup] returns early because [virtio_active_] is
    still set, and the new queues have no eventfds. *)
Theorem fs_reset_is_final s ws :
  FsDev_ok (fs_ s) -> Forall (fun w => Forall byte_ok w.1.2) ws ->
  virtio_active_ (fs_ s) = true ->
  wp (virtio_mmio_write (reg_offset VIRTIO_MMIO_STATUS) (le_enc 4 0) 4 ;;
      for_each ws (fun '(off, data, len) => virtio_mmio_write off data len))
    (fun _ s' => written (trace_ s') = written (trace_ s) /\
                 sent_msgs (trace_ s') = sent_msgs (trace_ s)) s.
Proof.
  intros Hok Hws Ha. apply wp_bind.
  eapply wp_mono; [eapply wp_wlp_and with (R := fun _ => quiet_step s);
    [exact (md_write_refines (MmioDevice := fs_mmio) s (reg_offset VIRTIO_MMIO_STATUS)
       (le_enc 4 0) 4 Hok (le_enc_bytes 4 0))|]|].
  {
    unfold virtio_mmio_write. rewrite le_dec_clamp_enc by done.
    unfold virtio_write_reg. rewrite reg_at_offset. wp_run; unwind; try done.
    split; [|done]. split; [done|]. cbn. apply Forall_fmap, Forall_true. done. }
  cbv beta. intros _ s1 [[Hok1 _] Hq1]. rewrite Forall_forall in Hws.
  eapply wp_mono; [apply (wp_for_each _ _ (fun s' => FsDev_ok (fs_ s') /\ quiet_step s s')); [done|]|].
  - intros [[off data] len] s2 Hin (Hok2 & Hu & Hw & Hm).
    eapply wp_mono; [eapply wp_wlp_and; [exact (md_write_refines (MmioDevice := fs_mmio) s2 off data len Hok2 (Hws _ Hin))|]|].
    { exact (virtio_write_unwired s2 off (le_dec (take (clamp4 len) data)) Hu). }
    cbv beta. intros _ s3 ([Hok3 _] & Hu3 & Hw3 & Hm3). split; [done|]. split; [done|]. by rewrite Hw3, Hm3.
  - intros _ s2 (_ & _ & ? & ?). done.
Qed.

(** ** Refinement of the transport *)

(** C7: every write of any size at any offset of the virtio-fs register window
    ends, keeps the device's registers at their widths, and has on them exactly
    the effect the abstract transport gives the register at that offset; writes
    at other offsets change nothing. *)
Theorem fs_write_refines_transport s off data len :
  FsDev_ok (fs_ s) -> Forall byte_ok data ->
  wp (virtio_mmio_write off data len) (fun _ s' =>
    FsDev_ok (fs_ s') /\
    fs_view (fs_ s') = transport_write (reg_at off) (le_dec (take (clamp4 len) data)) (fs_view (fs_ s))) s.
Proof. intros Hok Hd. exact (md_write_refines (MmioDevice := fs_mmio) s off data len Hok Hd). Qed.

(** C8: the same for the virtio-net register window. *)
Theorem net_write_refines_transport s off data len :
  NetDev_ok (net_ s) -> Forall byte_ok data ->
  wp (net_mmio_write off data len) (fun _ s' =>
    NetDev_ok (net_ s') /\
    net_view (net_ s') = transport_write (reg_at off) (le_dec (take (clamp4 len) data)) (net_view (net_ s))) s.
Proof. intros Hok Hd. exact (md_write_refines (MmioDevice := net_mmio) s off data len Hok Hd). Qed.

(** after the driver selects queue [i], the register writes that describe a
    queue may come in any order: both devices end up with exactly the size, the
    ready flag and the three 64-bit ring addresses written as halves, in queue
    [i], and with the other queue and every other register unchanged. *)
Theorem driver_programs_queue s i q ws :
  FsDev_ok (fs_ s) -> NetDev_ok (net_ s) -> (i < 2)%nat -> tqueue_ok q -> ws ≡ₚ queue_program q ->
  let program := (VIRTIO_MMIO_QUEUE_SEL, Z.of_nat i) :: ws in
  let write (h : Z -> list Z -> Z -> M unit) (w : VirtioMmioReg * Z) :=
    h (reg_offset w.1) (le_enc 4 w.2) 4 in
  let after (t : transport) := t <| tr_qsel := Z.of_nat i |>
                                 <| tr_queues := <[i := q]> (tr_queues t) |> in
  wp (for_each program (write virtio_mmio_write)) (fun _ s' =>
    fs_view (fs_ s') = after (fs_view (fs_ s))) s /\
  wp (for_each program (write net_mmio_write)) (fun _ s' =>
    net_view (net_ s') = after (net_view (net_ s))) s.
Proof.
  intros Hf Hn Hi Hq Hp. split.
  - wp_use (driver_programs_queue_perm (D := fs_mmio) s i q ws); [done..|]. by intros _ s' [_ ?].
  - wp_use (driver_programs_queue_perm (D := net_mmio) s i q ws); [done..|]. by intros _ s' [_ ?].
Qed.

(** ** Reads *)

Lemma slice_spec off n l :
  slice off n l =
  if bool_decide (0 <= off /\ 0 <= n /\ off + n <= Z.of_nat (length l))
  then Some (take (Z.to_nat n) (drop (Z.to_nat off) l)) else None.
Proof.
  unfold slice. destruct (0 <=? off) eqn:E1, (0 <=? n) eqn:E2, (off + n <=? _) eqn:E3; cbn;
    rewrite ?Z.leb_le, ?Z.leb_gt in *; case_bool_decide; try done; lia.
Qed.

Lemma config_read_spec config off len :
  VIRTIO_MMIO_CONFIG <= off -> 0 <= len ->
  config_read config off len =
  if bool_decide (off - VIRTIO_MMIO_CONFIG + Z.min len 4 <= Z.of_nat (length config))
  then Ok (le_dec (take (clamp4 len) (drop (Z.to_nat (off - VIRTIO_MMIO_CONFIG)) config)))
  else Fault OutOfBounds.
Proof.
  intros Ho Hl. unfold config_read. rewrite slice_spec, Nat2Z.id.
  assert (Z.of_nat (clamp4 len) = Z.min len 4) as ->.
  { unfold clamp4. destruct (Z.ltb_spec len 4); lia. }
  repeat case_bool_decide; try done; lia.
Qed.

(** Storing what was loaded gives the bytes back. *)
Lemma read_back_bytes len bs :
  Forall byte_ok bs -> (clamp4 len <= length bs)%nat ->
  take (clamp4 len) (le_enc 4 (le_dec (take (clamp4 len) bs))) = take (clamp4 len) bs.
Proof.
  intros Hb Hl. pose proof (clamp4_le len) as H4.
  assert (length (take (clamp4 len) bs) = clamp4 len) as Hn by (rewrite length_take; lia).
  pose proof (le_enc_dec_pad (4 - clamp4 len) (take (clamp4 len) bs) (Forall_take _ _ _ Hb)) as He.
  rewrite Hn in He. by replace (clamp4 len + (4 - clamp4 len))%nat with 4%nat in He by lia.
Qed.

(** a read inside the device-specific area returns the configuration bytes
    at that place, for the virtio-fs structure (tag and queue count, 40 bytes)
    and the virtio-net structure (12 bytes), and changes nothing; but the guard
    is on the first byte only, so a read that starts inside the structure and
    ends past it goes out of bounds. *)
Theorem config_space_reads s off len :
  VIRTIO_MMIO_CONFIG <= off -> 0 <= len ->
  length (fs_config_ (fs_ s)) = 40%nat -> Forall byte_ok (fs_config_ (fs_ s)) ->
  length (net_config_ (net_ s)) = 12%nat -> Forall byte_ok (net_config_ (net_ s)) ->
  let read (config : list Z) :=
    if bool_decide (off - VIRTIO_MMIO_CONFIG + Z.min len 4 <= Z.of_nat (length config))
    then Ok (take (clamp4 len) (drop (Z.to_nat (off - VIRTIO_MMIO_CONFIG)) config), s)
    else Fault OutOfBounds in
  (off < VIRTIO_MMIO_CONFIG + sizeof_VirtioFsConfig ->
   virtio_mmio_read off len s = read (fs_config_ (fs_ s))) /\
  (off < VIRTIO_MMIO_CONFIG + sizeof_VirtioNetConfig ->
   net_mmio_read off len s = read (net_config_ (net_ s))).
Proof.
  intros Ho Hl Hlf Hbf Hln Hbn read. unfold virtio_mmio_read, virtio_mmio_value, net_mmio_read, net_mmio_value.
  rewrite reg_at_config by done. rewrite (proj2 (Z.leb_le _ _) Ho). cbn [andb].
  split; intros Hu; rewrite (proj2 (Z.ltb_lt _ _) Hu), config_read_spec by done; unfold read;
    (case_bool_decide as Hfit; [|done]); unfold mbind, result_bind; rewrite read_back_bytes; try done.
  all: try by apply Forall_drop.
  all: rewrite length_drop; unfold clamp4; destruct (Z.ltb_spec len 4); lia.
Qed.

(** Reading a 64-bit feature set the way a driver does: select each half, read
    it, put them together. *)
Definition read_features (wr : Z -> list Z -> Z -> M unit) (rd : Z -> Z -> M (list Z)) : M Z :=
  wr (reg_offset VIRTIO_MMIO_DEVICE_FEATURES_SEL) (le_enc 4 0) 4 ;;
  lo ← rd (reg_offset VIRTIO_MMIO_DEVICE_FEATURES) 4;
  wr (reg_offset VIRTIO_MMIO_DEVICE_FEATURES_SEL) (le_enc 4 1) 4 ;;
  hi ← rd (reg_offset VIRTIO_MMIO_DEVICE_FEATURES) 4;
  mret (le_dec lo + le_dec hi * 2 ^ 32).

Lemma halves_of_64 x : fits 64 x ->
  le_dec (take (clamp4 4) (le_enc 4 (Z.land x 0xFFFFFFFF))) +
  le_dec (take (clamp4 4) (le_enc 4 (u32 (Z.shiftr x 32)))) * 2 ^ 32 = x.
Proof.
  intros Hx. assert (Hd : 0 <= x / 2 ^ 32 < 2 ^ 32).
  { unfold fits in Hx. split; [apply Z.div_pos; lia|apply Z.div_lt_upper_bound; lia]. }
  rewrite land_lo32, Z.shiftr_div_pow2, (wrap_id 32 (x / 2 ^ 32)) by done.
  rewrite !le_dec_clamp_enc; [|done|by apply Z.mod_pos_bound].
  pose proof (Z.div_mod x (2 ^ 32)). lia.
Qed.

(** the two 32-bit feature words a driver reads make up exactly the 64-bit
    feature set of the device: what virtiofsd announced for virtio-fs, MAC and
    VERSION_1 for virtio-net. *)
Theorem driver_reads_features s :
  fits 64 (vu_features_ (vu_ s)) ->
  wp (read_features virtio_mmio_write virtio_mmio_read) (fun f _ => f = vu_features_ (vu_ s)) s /\
  wp (read_features net_mmio_write net_mmio_read) (fun f _ => f = net_features) s.
Proof.
  intros Hf. split.
  - unfold wp, read_features, mbind, M_bind, virtio_mmio_write. rewrite !le_dec_clamp_enc by done.
    exact (halves_of_64 _ Hf).
  - unfold wp, read_features, mbind, M_bind, net_mmio_write. rewrite !le_dec_clamp_enc by done.
    exact (halves_of_64 net_features ltac:(done)).
Qed.
End facts.

(** ** Concrete instances *)

Section witnesses.
#[local] Instance host0 : Host := const_host 0.

(** A state with an interrupt of each device pending and both lines high. *)
Definition pending_state : Vmm :=
  (Vmm_new 512)
    <| fs_ ::= (fun d => d <| virq_status_ := 1 |> <| virtio_active_ := true |>) |>
    <| net_ ::= (fun d => d <| net_irq_status_ := 1 |>) |>
    <| trace_ := [(sys_irq_line 5 1, {| r_ret := 0; r_errno := 0; r_data := [] |});
                  (sys_irq_line 6 1, {| r_ret := 0; r_errno := 0; r_data := [] |})] |>.

Lemma FsDev_init_ok : FsDev_ok FsDev_init.
Proof.
  unfold FsDev_ok. cbn. split_and!; try (unfold fits; lia); try done.
  repeat constructor; unfold fits; cbn; lia.
Qed.

Lemma NetDev_init_ok : NetDev_ok NetDev_init.
Proof.
  unfold NetDev_ok. cbn. split_and!; try (unfold fits; lia); try done.
  repeat constructor; unfold fits; cbn; lia.
Qed.

Lemma pending_state_ok : FsDev_ok (fs_ pending_state) /\ NetDev_ok (net_ pending_state).
Proof.
  destruct FsDev_init_ok as (? & ? & ? & ? & ? & ? & ? & _ & ?).
  destruct NetDev_init_ok as (? & ? & ? & ? & ? & ? & ? & _).
  unfold FsDev_ok, NetDev_ok. cbn. split; split_and!; try done; unfold fits; lia.
Qed.

(** Acknowledging the one pending interrupt. *)
Lemma fs_irq_line_follows_status_witness :
  wp (virtio_mmio_write 0x64 (le_enc 4 1) 4) (fun _ => fs_line_ok) pending_state.
Proof.
  apply (fs_irq_line_follows_status pending_state 0x64 (le_enc 4 1) 4).
  - apply pending_state_ok.
  - apply le_enc_bytes.
  - reflexivity.
  - intros [[=] _].
Defined.

Lemma net_irq_line_follows_status_witness :
  wp (net_mmio_write 0x64 (le_enc 4 1) 4) (fun _ => net_line_ok) pending_state.
Proof.
  apply (net_irq_line_follows_status pending_state 0x64 (le_enc 4 1) 4).
  - apply pending_state_ok.
  - reflexivity.
  - intros [[=] _].
Defined.

Lemma reset_leaves_line_high_witness :
  wp (virtio_mmio_write (reg_offset VIRTIO_MMIO_STATUS) (le_enc 4 0) 4) (fun _ s' =>
    virq_status_ (fs_ s') = 0 /\ line_level VIRTIO_MMIO_IRQ (trace_ s') = 1) pending_state.
Proof.
  refine (proj1 (reset_leaves_line_high pending_state _ _ _ _)); [reflexivity|discriminate|reflexivity|discriminate].
Defined.

(** Reset, then DRIVER_OK, then a notification of queue 1. *)
Lemma fs_reset_is_final_witness :
  wp (virtio_mmio_write (reg_offset VIRTIO_MMIO_STATUS) (le_enc 4 0) 4 ;;
      for_each [(0x70, le_enc 4 4, 4); (0x50, le_enc 4 1, 4)]
        (fun '(off, data, len) => virtio_mmio_write off data len))
    (fun _ s' => written (trace_ s') = written (trace_ pending_state) /\
                 sent_msgs (trace_ s') = sent_msgs (trace_ pending_state)) pending_state.
Proof.
  apply (fs_reset_is_final pending_state); [apply pending_state_ok| |reflexivity].
  repeat (apply Forall_cons; split; [apply le_enc_bytes|]). apply Forall_nil_2.
Defined.

(** A 2-byte write of 0x1234 to QUEUE_NUM. *)
Lemma fs_write_refines_transport_witness :
  wp (virtio_mmio_write 0x38 [0x34; 0x12; 0xff; 0xff] 2) (fun _ s' =>
    FsDev_ok (fs_ s') /\
    fs_view (fs_ s') = transport_write (Some VIRTIO_MMIO_QUEUE_NUM) 0x1234 (fs_view (fs_ pending_state)))
    pending_state.
Proof.
  apply (fs_write_refines_transport pending_state 0x38 [0x34; 0x12; 0xff; 0xff] 2).
  - apply pending_state_ok.
  - repeat constructor; unfold byte_ok, fits; lia.
Defined.

Lemma net_write_refines_transport_witness :
  wp (net_mmio_write 0x38 [0x34; 0x12; 0xff; 0xff] 2) (fun _ s' =>
    NetDev_ok (net_ s') /\
    net_view (net_ s') = transport_write (Some VIRTIO_MMIO_QUEUE_NUM) 0x1234 (net_view (net_ pending_state)))
    pending_state.
Proof.
  apply (net_write_refines_transport pending_state 0x38 [0x34; 0x12; 0xff; 0xff] 2).
  - apply pending_state_ok.
  - repeat constructor; unfold byte_ok, fits; lia.
Defined.

Definition queue_example : tqueue :=
  {| tq_num := 128; tq_ready := 1; tq_desc := 0x123456000; tq_driver := 0x123457000;
     tq_device := 0x123458000 |}.

(** Queue 1, described backwards. *)
Lemma driver_programs_queue_witness :
  wp (for_each ((VIRTIO_MMIO_QUEUE_SEL, 1) :: reverse (queue_program queue_example))
        (fun w => virtio_mmio_write (reg_offset w.1) (le_enc 4 w.2) 4)) (fun _ s' =>
    fs_view (fs_ s') = (fs_view (fs_ pending_state)) <| tr_qsel := 1 |>
      <| tr_queues := <[1%nat := queue_example]> (tr_queues (fs_view (fs_ pending_state))) |>)
    pending_state.
Proof.
  refine (proj1 (driver_programs_queue pending_state 1 queue_example
                   (reverse (queue_program queue_example)) _ _ _ _ _)).
  - apply pending_state_ok.
  - apply pending_state_ok.
  - lia.
  - unfold tqueue_ok, fits. cbn. lia.
  - apply reverse_Permutation.
Defined.

(** The queue count of virtio-fs, and a read over the end of the virtio-net
    structure. *)
Lemma config_space_reads_witness :
  let s := (Vmm_new 512) <| fs_ ::= (fun d => d <| fs_config_ := fs_config_bytes |>) |> in
  virtio_mmio_read (0x100 + 36) 4 s = Ok ([1; 0; 0; 0], s) /\
  net_mmio_read (0x100 + 11) 4 s = Fault OutOfBounds.
Proof.
  intros s. split.
  - apply (config_space_reads s (0x100 + 36) 4); try done; try lia.
    + apply Forall_app. split; [|apply le_enc_bytes]. cbn. repeat constructor; unfold byte_ok, fits; lia.
    + repeat constructor; unfold byte_ok, fits; lia.
  - apply (config_space_reads s (0x100 + 11) 4); try done; try lia.
    + apply Forall_app. split; [|apply le_enc_bytes]. cbn. repeat constructor; unfold byte_ok, fits; lia.
    + repeat constructor; unfold byte_ok, fits; lia.
Defined.

Lemma driver_reads_features_witness :
  wp (read_features virtio_mmio_write virtio_mmio_read) (fun f _ => f = 0x140000000)
    ((Vmm_new 512) <| vu_ ::= (fun v => v <| vu_features_ := 0x140000000 |>) |>).
Proof.
  refine (proj1 (driver_reads_features
    ((Vmm_new 512) <| vu_ ::= (fun v => v <| vu_features_ := 0x140000000 |>) |>) _)).
  unfold fits. cbn. lia.
Defined.
End witnesses.
