(* ===== verification/Snapshot.v ===== *)
(** * Snapshots: data, binary layout, save

    [struct SnapshotHeader] and [struct Snapshot] of src/src/vmm.hpp with the
    byte layout the file format has (the structure is written to disk as it
    lies in memory on x86-64), the dirty-page bitmap, [Vmm::save_snapshot] and
    [Vmm::save_snapshot_file] of src/src/vmm.cpp.

    The KVM structures inside the header are moved by ioctls and never looked
    into: they are byte strings of the size the kernel headers give them. *)
From S2P Require Import Prelude Memory Codec State Logic.
From stdpp Require Import options.

Definition SNAP_MAGIC : Z := 0x48594C54534E4150.
Definition SNAP_VERSION : Z := 7.
Definition XSAVE_SIZE : Z := 8192.
Definition PAGE : Z := 4096.

Definition sizeof_cpuid_entry : Z := 40.
Definition sizeof_msr_entry : Z := 16.

(** ** Data *)

(** An element of [vq_state] or [net_vq_state]. *)
Record VqState : Type := {
  vs_num : Z; vs_ready : Z; vs_desc : Z; vs_driver : Z; vs_device : Z
}.

(** The part of the header about one virtio device. *)
Record DevState : Type := {
  ds_status : Z; ds_features_lo : Z; ds_features_hi : Z; ds_num_vqs : Z;
  ds_vq_state : list VqState
}.

(** The KVM part of the header.  [h_mp_pad] are the 4 bytes of alignment the
    compiler puts after [mp_state]. *)
Record KvmState : Type := {
  h_regs : list Z; h_sregs : list Z; h_lapic : list Z; h_events : list Z; h_xcrs : list Z;
  h_mp_state : list Z; h_mp_pad : list Z; h_debugregs : list Z; h_clock : list Z; h_pit : list Z;
  h_pic_master : list Z; h_pic_slave : list Z; h_ioapic : list Z
}.

Record SnapshotHeader : Type := {
  h_magic : Z; h_version : Z; h_ram_mb : Z;
  h_kvm : KvmState;
  h_tsc_khz : Z; h_cpuid_nent : Z; h_num_msrs : Z; h_xsave_size : Z;
  h_fs : DevState;
  h_net : DevState;
  h_net_mac : list Z; h_net_pad : list Z;
  h_bitmap_bytes : Z; h_bitmap_pad : Z
}.
#[export] Instance SnapshotHeader_eta : Eta SnapshotHeader := fun h =>
  {| h_magic := h_magic h; h_version := h_version h; h_ram_mb := h_ram_mb h;
     h_kvm := h_kvm h; h_tsc_khz := h_tsc_khz h; h_cpuid_nent := h_cpuid_nent h;
     h_num_msrs := h_num_msrs h; h_xsave_size := h_xsave_size h;
     h_fs := h_fs h; h_net := h_net h; h_net_mac := h_net_mac h; h_net_pad := h_net_pad h;
     h_bitmap_bytes := h_bitmap_bytes h; h_bitmap_pad := h_bitmap_pad h |}.

(** [struct Snapshot]; the pointer [ram] is its value [sn_ram_addr] and the
    memory behind it, [sn_ram]. *)
Record Snapshot : Type := {
  sn_hdr : SnapshotHeader;
  sn_xsave : list Z;
  sn_cpuid : list (list Z);
  sn_msrs : list (list Z);
  sn_ram : mem;
  sn_ram_addr : Z;
  sn_ram_size : Z;
  sn_dirty_bitmap : list Z
}.
#[export] Instance Snapshot_eta : Eta Snapshot := fun s =>
  {| sn_hdr := sn_hdr s; sn_xsave := sn_xsave s; sn_cpuid := sn_cpuid s; sn_msrs := sn_msrs s;
     sn_ram := sn_ram s; sn_ram_addr := sn_ram_addr s; sn_ram_size := sn_ram_size s; sn_dirty_bitmap := sn_dirty_bitmap s |}.

(** ** Layout *)

Definition VqState_codec : codec VqState.
Proof.
  refine (cvia (cint 4 ⊗ cint 4 ⊗ cint 8 ⊗ cint 8 ⊗ cint 8)
    (fun q => (vs_num q, (vs_ready q, (vs_desc q, (vs_driver q, vs_device q)))))
    (fun '(a, (b, (c, (d, e)))) =>
       {| vs_num := a; vs_ready := b; vs_desc := c; vs_driver := d; vs_device := e |}) _).
  abstract (by intros []).
Defined.

Definition DevState_codec : codec DevState.
Proof.
  refine (cvia (cint 4 ⊗ cint 4 ⊗ cint 4 ⊗ cint 4 ⊗ carray 2 VqState_codec)
    (fun d => (ds_status d, (ds_features_lo d, (ds_features_hi d, (ds_num_vqs d, ds_vq_state d)))))
    (fun '(a, (b, (c, (d, e)))) =>
       {| ds_status := a; ds_features_lo := b; ds_features_hi := c; ds_num_vqs := d;
          ds_vq_state := e |}) _).
  abstract (by intros []).
Defined.

Definition KvmState_codec : codec KvmState.
Proof.
  refine (cvia (craw 144 ⊗ craw 312 ⊗ craw 1024 ⊗ craw 64 ⊗ craw 392 ⊗ craw 4 ⊗ craw 4 ⊗
                craw 128 ⊗ craw 48 ⊗ craw 112 ⊗ craw 520 ⊗ craw 520 ⊗ craw 520)
    (fun k => (h_regs k, (h_sregs k, (h_lapic k, (h_events k, (h_xcrs k, (h_mp_state k,
       (h_mp_pad k, (h_debugregs k, (h_clock k, (h_pit k, (h_pic_master k, (h_pic_slave k,
       h_ioapic k)))))))))))))
    (fun '(a, (b, (c, (d, (e, (f, (g, (h, (i, (j, (k, (l, m)))))))))))) =>
       {| h_regs := a; h_sregs := b; h_lapic := c; h_events := d; h_xcrs := e; h_mp_state := f;
          h_mp_pad := g; h_debugregs := h; h_clock := i; h_pit := j; h_pic_master := k;
          h_pic_slave := l; h_ioapic := m |}) _).
  abstract (by intros []).
Defined.

Definition SnapshotHeader_codec : codec SnapshotHeader.
Proof.
  refine (cvia (cint 8 ⊗ cint 4 ⊗ cint 4 ⊗ KvmState_codec ⊗ cint 4 ⊗ cint 4 ⊗ cint 4 ⊗ cint 4 ⊗
                DevState_codec ⊗ DevState_codec ⊗ craw 6 ⊗ craw 2 ⊗ cint 4 ⊗ cint 4)
    (fun h => (h_magic h, (h_version h, (h_ram_mb h, (h_kvm h, (h_tsc_khz h, (h_cpuid_nent h,
       (h_num_msrs h, (h_xsave_size h, (h_fs h, (h_net h, (h_net_mac h, (h_net_pad h,
       (h_bitmap_bytes h, h_bitmap_pad h))))))))))))))
    (fun '(a, (b, (c, (d, (e, (f, (g, (h, (i, (j, (k, (l, (m, n))))))))))))) =>
       {| h_magic := a; h_version := b; h_ram_mb := c; h_kvm := d; h_tsc_khz := e;
          h_cpuid_nent := f; h_num_msrs := g; h_xsave_size := h; h_fs := i; h_net := j;
          h_net_mac := k; h_net_pad := l; h_bitmap_bytes := m; h_bitmap_pad := n |}) _).
  abstract (by intros []).
Defined.

Definition sizeof_SnapshotHeader : Z := Z.of_nat (c_size SnapshotHeader_codec).

Example sizeof_SnapshotHeader_eq : sizeof_SnapshotHeader = 4000.
Proof. reflexivity. Qed.

Global Arguments SnapshotHeader_codec : simpl never.

(** ** The dirty-page bitmap *)

(** [p[w]] of the page at byte offset [off], as a 64-bit word. *)
Definition page_word (m : mem) (off w : Z) : Z := le_dec (mem_get m (off + 8 * w) 8).

(** [acc |= p[w] | .. | p[w + 7]]. *)
Definition acc_words (m : mem) (off acc w : Z) : Z :=
  Z.lor acc (Z.lor (Z.lor (Z.lor (Z.lor (Z.lor (Z.lor (Z.lor
    (page_word m off w) (page_word m off (w + 1))) (page_word m off (w + 2)))
    (page_word m off (w + 3))) (page_word m off (w + 4))) (page_word m off (w + 5)))
    (page_word m off (w + 6))) (page_word m off (w + 7))).

(** [for (w = 0; w < PAGE / sizeof(uint64_t); w += 8)]. *)
Definition page_acc (m : mem) (off : Z) : Z :=
  foldl (fun acc k => acc_words m off acc (8 * k)) 0 (seqZ 0 64).

(** [bitmap[pg / 8] |= (1 << (pg & 7))]. *)
Definition set_page_bit (bm : list Z) (pg : Z) : list Z :=
  alter (fun b => u8 (Z.lor b (Z.shiftl 1 (Z.land pg 7)))) (Z.to_nat (pg / 8)) bm.

(** [bitmap[pg / 8] & (1 << (pg & 7))]. *)
Definition page_bit (bm : list Z) (pg : Z) : result bool :=
  match bm !! Z.to_nat (pg / 8) with
  | Some b => Ok (has_bits b (Z.shiftl 1 (Z.land pg 7)))
  | None => Fault OutOfBounds
  end.

Definition mark_page (m : mem) (st : list Z * Z) (pg : Z) : list Z * Z :=
  if page_acc m (pg * PAGE) =? 0 then st else (set_page_bit st.1 pg, st.2 + 1).

(** The bitmap of the first [total_pages] pages and the number of bits set. *)
Definition build_bitmap (m : mem) (total_pages : Z) : list Z * Z :=
  foldl (mark_page m) (replicate (Z.to_nat ((total_pages + 7) / 8)) 0, 0) (seqZ 0 total_pages).

(** ** Saving *)

(** The bytes a call stores over an object that held [old]. *)
Definition overlay (old data : list Z) : list Z :=
  take (length old) data ++ drop (length data) old.

Definition zeros (n : Z) : list Z := replicate (Z.to_nat n) 0.

Lemma zeros_length n : 0 <= n -> Z.of_nat (length (zeros n)) = n.
Proof. intros. unfold zeros. rewrite length_replicate. lia. Qed.

(** [struct kvm_irqchip] with only [chip_id] set. *)
Definition irqchip_arg (chip_id : Z) : list Z := le_enc 4 chip_id ++ zeros 516.

(** [struct kvm_msrs] asking for the listed indices. *)
Definition msrs_buffer (entries : list (list Z)) : list Z :=
  le_enc 4 (Z.of_nat (length entries)) ++ zeros 4 ++ mjoin entries.
Definition msr_request (index : Z) : list Z := le_enc 4 index ++ zeros 12.

Definition VqState_of (q : Virtqueue) : VqState :=
  {| vs_num := vq_num q; vs_ready := vq_ready q; vs_desc := vq_desc q;
     vs_driver := vq_driver q; vs_device := vq_device q |}.

Definition DevState_of (status features nq : Z) (qs : list Virtqueue) : DevState :=
  {| ds_status := status; ds_features_lo := u32 (Z.land features 0xFFFFFFFF);
     ds_features_hi := u32 (Z.shiftr features 32); ds_num_vqs := nq;
     ds_vq_state := VqState_of <$> qs |}.

Section save.
  Context {H : Host}.

(** [if (ioctl(fd, KVM_GET_.., &obj) < 0) return false;]: the object after the
    call, or [None]. *)
Definition kvm_get (what : kvm_item) (obj : list Z) : M (option (list Z)) :=
  r ← sys (sys_kvm_get what obj);
  mret (if r_ret r <? 0 then None else Some (overlay obj (r_data r))).

Definition and_get {A} (c : M (option (list Z))) (k : list Z -> M (option A)) : M (option A) :=
  o ← c;
  match o with None => mret None | Some bs => k bs end.

Definition save_kvm_state : M (option KvmState) :=
  and_get (kvm_get KvmRegs (zeros 144)) (fun regs =>
  and_get (kvm_get KvmSregs (zeros 312)) (fun sregs =>
  and_get (kvm_get KvmLapic (zeros 1024)) (fun lapic =>
  and_get (kvm_get KvmVcpuEvents (zeros 64)) (fun events =>
  and_get (kvm_get KvmXcrs (zeros 392)) (fun xcrs =>
  and_get (kvm_get KvmMpState (zeros 4)) (fun mp_state =>
  and_get (kvm_get KvmDebugregs (zeros 128)) (fun debugregs =>
  and_get (kvm_get KvmClock (zeros 48)) (fun clock =>
  and_get (kvm_get KvmPit2 (zeros 112)) (fun pit =>
  and_get (kvm_get KvmPicMaster (irqchip_arg 0)) (fun pic_master =>
  and_get (kvm_get KvmPicSlave (irqchip_arg 1)) (fun pic_slave =>
  and_get (kvm_get KvmIoapic (irqchip_arg 2)) (fun ioapic =>
  mret (Some {| h_regs := regs; h_sregs := sregs; h_lapic := lapic; h_events := events;
    h_xcrs := xcrs; h_mp_state := mp_state; h_mp_pad := zeros 4; h_debugregs := debugregs;
    h_clock := clock; h_pit := pit; h_pic_master := pic_master; h_pic_slave := pic_slave;
    h_ioapic := ioapic |}))))))))))))).

(** KVM_GET_XSAVE2, else KVM_GET_XSAVE. *)
Definition save_xsave : M (option (list Z)) :=
  r ← sys (sys_kvm_get KvmXsave2 (zeros XSAVE_SIZE));
  if r_ret r <? 0 then kvm_get KvmXsave (zeros XSAVE_SIZE)
  else mret (Some (overlay (zeros XSAVE_SIZE) (r_data r))).

Definition save_msrs (msr_list : list Z) : M (list (list Z)) :=
  let buf := msrs_buffer (msr_request <$> msr_list) in
  r ← sys (sys_kvm_get KvmMsrs buf);
  mret (c_get (carray (length msr_list) (craw (Z.to_nat sizeof_msr_entry)))
          (drop 8 (overlay buf (r_data r)))).

Definition save_snapshot : M (option Snapshot) :=
  k ← save_kvm_state;
  match k with
  | None => mret None
  | Some kvm =>
    tsc ← sys (sys_kvm_get KvmTscKhz []);
    s ← gets id;
    let f := fs_ s in let n := net_ s in
    let h := {|
      h_magic := SNAP_MAGIC; h_version := SNAP_VERSION; h_ram_mb := u32 (ram_mb_ s);
      h_kvm := kvm;
      h_tsc_khz := if 0 <? r_ret tsc then u32 (r_ret tsc) else 0;
      h_cpuid_nent := u32 (Z.of_nat (length (cpuid_ s)));
      h_num_msrs := u32 (Z.of_nat (length (msr_list_ s)));
      h_xsave_size := XSAVE_SIZE;
      h_fs := DevState_of (vdev_status_ f) (vdrv_features_ f) NUM_QUEUES (vqs_ f);
      h_net := DevState_of (net_status_ n) (net_drv_features_ n) NET_NUM_QUEUES (net_vqs_ n);
      h_net_mac := take 6 (net_config_ n); h_net_pad := zeros 2;
      h_bitmap_bytes := 0; h_bitmap_pad := 0 |} in
    and_get save_xsave (fun xsave =>
    msrs ← save_msrs (msr_list_ s);
    m ← sys (sys_mmap (-1) (ram_bytes_ s));
    if r_ret m =? -1 then mret None else
    ram ← gets ram_mem_;
    mret (Some {| sn_hdr := h; sn_xsave := xsave; sn_cpuid := cpuid_ s; sn_msrs := msrs;
      sn_ram := ram; sn_ram_addr := r_ret m; sn_ram_size := ram_bytes_ s; sn_dirty_bitmap := [] |}))
  end.

(** The loop that writes guest RAM: [write] may be short.  [None] is the fuel
    running out, [Some ok] the way the loop ended. *)
Fixpoint write_ram (fuel : nat) (fd : Z) (m : mem) (off size : Z) : M (option bool) :=
  if off <? size then
    match fuel with
    | O => mret None
    | S fuel' =>
      r ← sys (sys_write fd (mem_get m off (size - off)));
      if r_ret r <? 0 then mret (Some false)
      else write_ram fuel' fd m (off + r_ret r) size
    end
  else mret (Some true).

Definition save_snapshot_file (fuel : nat) (path : list Z) : M (option bool) :=
  o ← save_snapshot;
  match o with
  | None => mret (Some false)
  | Some snap =>
    ram_bytes ← gets ram_bytes_;
    let bm := (build_bitmap (sn_ram snap) (ram_bytes / PAGE)).1 in
    let h := (sn_hdr snap) <| h_bitmap_bytes := u32 (Z.of_nat (length bm)) |> in
    r ← sys (sys_open path true);
    let fd := r_ret r in
    if fd <? 0 then mret (Some false) else
    sys_ (sys_write fd (c_put SnapshotHeader_codec h)) ;;
    sys_ (sys_write fd (take (Z.to_nat (h_xsave_size h)) (sn_xsave snap))) ;;
    sys_ (sys_write fd (mjoin (sn_cpuid snap))) ;;
    sys_ (sys_write fd (mjoin (sn_msrs snap))) ;;
    sys_ (sys_write fd bm) ;;
    ok ← write_ram fuel fd (sn_ram snap) 0 ram_bytes;
    match ok with
    | None => mret None
    | Some ok =>
      sys_ (sys_close fd) ;;
      sys_ (sys_munmap (sn_ram_addr snap) ram_bytes) ;;
      mret (Some ok)
    end
  end.
End save.

(** ** The bitmap marks exactly the pages that are not all zero *)

Definition page_is_zero (m : mem) (pg : Z) : Prop :=
  forall i, 0 <= i < PAGE -> m (pg * PAGE + i) = 0.

Lemma le_dec_zero bs : Forall (Z.le 0) bs -> le_dec bs = 0 <-> Forall (fun b => b = 0) bs.
Proof.
  induction 1 as [|b bs Hb Hbs IH]; [by split|].
  rewrite le_dec_cons, Forall_cons, <- IH. pose proof (le_dec_nonneg bs Hbs). lia.
Qed.

Lemma page_word_zero m off w :
  (forall a, 0 <= m a) ->
  page_word m off w = 0 <-> forall i, 0 <= i < 8 -> m (off + 8 * w + i) = 0.
Proof.
  intros Hm. unfold page_word. rewrite le_dec_zero.
  - unfold mem_get. rewrite Forall_fmap, Forall_forall. setoid_rewrite elem_of_seqZ.
    unfold compose. split; intros Hz i Hi; apply Hz; lia.
  - unfold mem_get. apply Forall_fmap, Forall_true. intros i. apply Hm.
Qed.

Lemma foldl_lor_zero {A} (f : A -> Z) l a :
  foldl (fun acc x => Z.lor acc (f x)) a l = 0 <-> a = 0 /\ Forall (fun x => f x = 0) l.
Proof.
  revert a. induction l as [|x l IH]; intros a; cbn; [rewrite Forall_nil; tauto|].
  rewrite IH, Forall_cons, Z.lor_eq_0_iff. tauto.
Qed.

(** Eight words are zero when their 64 bytes are. *)
Lemma acc_words_zero m off acc k :
  (forall a, 0 <= m a) ->
  acc_words m off acc (8 * k) = 0 <->
  acc = 0 /\ forall i, 0 <= i < 64 -> m (off + 64 * k + i) = 0.
Proof.
  intros Hm. unfold acc_words. rewrite !Z.lor_eq_0_iff, !page_word_zero by done. split.
  - intros (Ha & ((((((H0 & H1) & H2) & H3) & H4) & H5) & H6) & H7). split; [done|]. intros i Hi.
    assert (Hw : forall j, 0 <= j < 8 -> forall x, 0 <= x < 8 -> m (off + 8 * (8 * k + j) + x) = 0).
    { intros j Hj x Hx. rewrite <- (Z.add_0_r (8 * k)) in H0.
      assert (j = 0 \/ j = 1 \/ j = 2 \/ j = 3 \/ j = 4 \/ j = 5 \/ j = 6 \/ j = 7) as Hc by lia.
      destruct_or! Hc; subst j; auto. }
    replace (off + 64 * k + i) with (off + 8 * (8 * k + i / 8) + i mod 8)
      by (pose proof (Z.div_mod i 8); lia).
    apply Hw; [|by apply Z.mod_pos_bound].
    split; [apply Z.div_pos; lia|apply Z.div_lt_upper_bound; lia].
  - intros [Ha Hz]. split; [done|]. repeat split; intros i Hi.
    1: replace (off + 8 * (8 * k) + i) with (off + 64 * k + i) by lia; apply Hz; lia.
    all: match goal with |- _ (?x + 8 * (8 * ?y + ?j) + ?z) = 0 =>
           replace (x + 8 * (8 * y + j) + z) with (x + 64 * y + (8 * j + z)) by lia end;
      apply Hz; lia.
Qed.

Lemma fold_acc_words_zero m off l acc :
  (forall a, 0 <= m a) ->
  foldl (fun acc k => acc_words m off acc (8 * k)) acc l = 0 <->
  acc = 0 /\ Forall (fun k => forall i, 0 <= i < 64 -> m (off + 64 * k + i) = 0) l.
Proof.
  intros Hm. revert acc. induction l as [|k l IH]; intros acc; cbn; [rewrite Forall_nil; tauto|].
  rewrite IH, Forall_cons, acc_words_zero by done. tauto.
Qed.

Lemma page_acc_zero m pg :
  (forall a, 0 <= m a) -> page_acc m (pg * PAGE) = 0 <-> page_is_zero m pg.
Proof.
  intros Hm. unfold page_acc, page_is_zero, PAGE. rewrite fold_acc_words_zero by done.
  rewrite Forall_forall. setoid_rewrite elem_of_seqZ. split.
  - intros [_ Hz] i Hi.
    replace (pg * 4096 + i) with (pg * 4096 + 64 * (i / 64) + i mod 64)
      by (pose proof (Z.div_mod i 64); lia).
    apply Hz; [|by apply Z.mod_pos_bound].
    split; [apply Z.div_pos; lia|apply Z.div_lt_upper_bound; lia].
  - intros Hz. split; [done|]. intros k Hk i Hi. rewrite <- Z.add_assoc. apply Hz. lia.
Qed.

(** One bit of a byte. *)
Lemma has_bits_shiftl b k : 0 <= k -> has_bits b (Z.shiftl 1 k) = Z.testbit b k.
Proof.
  intros Hk. unfold has_bits. rewrite Z.shiftl_1_l. destruct (Z.testbit b k) eqn:E.
  - destruct (Z.eqb_spec (Z.land b (2 ^ k)) 0) as [E0|]; [|done].
    apply (f_equal (fun z => Z.testbit z k)) in E0.
    rewrite Z.land_spec, Z.pow2_bits_true, E, Z.bits_0 in E0 by done. done.
  - destruct (Z.eqb_spec (Z.land b (2 ^ k)) 0) as [|E0]; [done|]. exfalso. apply E0.
    apply Z.bits_inj'. intros i Hi. rewrite Z.land_spec, Z.pow2_bits_eqb, Z.bits_0 by done.
    destruct (Z.eqb_spec k i) as [->|]; [by rewrite E|apply andb_false_r].
Qed.

Lemma land_7 pg : Z.land pg 7 = pg mod 8.
Proof. change 7 with (Z.ones 3). by rewrite Z.land_ones. Qed.

Lemma page_bit_testbit bm pg b :
  bm !! Z.to_nat (pg / 8) = Some b -> page_bit bm pg = Ok (Z.testbit b (pg mod 8)).
Proof.
  intros Hb. unfold page_bit. rewrite Hb, land_7, has_bits_shiftl; [done|].
  by apply Z.mod_pos_bound.
Qed.

Lemma page_bit_set bm pg pg' :
  Forall byte_ok bm -> 0 <= pg -> 0 <= pg' -> pg / 8 < Z.of_nat (length bm) ->
  page_bit (set_page_bit bm pg) pg' = if bool_decide (pg = pg') then Ok true else page_bit bm pg'.
Proof.
  intros Hbm Hpg Hpg' Hl. pose proof (Z.div_pos pg 8 Hpg). pose proof (Z.div_pos pg' 8 Hpg').
  pose proof (Z.mod_pos_bound pg 8). pose proof (Z.mod_pos_bound pg' 8).
  destruct (lookup_lt_is_Some_2 bm (Z.to_nat (pg / 8))) as [b Hb]; [lia|].
  unfold set_page_bit. rewrite (alter_as_insert _ _ _ _ Hb), land_7, Z.shiftl_1_l.
  assert (Hbok : byte_ok b) by by eapply Forall_lookup_1.
  assert (Hp : fits 8 (2 ^ (pg mod 8))).
  { split; [apply Z.pow_nonneg; lia|apply Z.pow_lt_mono_r; lia]. }
  rewrite wrap_id by (apply lor_fits; [lia|done|done]).
  destruct (decide (pg / 8 = pg' / 8)) as [Hd|Hd].
  - erewrite page_bit_testbit by (rewrite <- Hd; apply list_lookup_insert_eq; lia).
    rewrite Z.lor_spec, Z.pow2_bits_eqb by lia.
    case_bool_decide as He; [subst; rewrite Z.eqb_refl, orb_true_r; done|].
    rewrite (proj2 (Z.eqb_neq _ _)).
    2: { intros Hm. apply He. rewrite (Z.div_mod pg 8), (Z.div_mod pg' 8) by lia. lia. }
    rewrite orb_false_r. symmetry. apply page_bit_testbit. by rewrite <- Hd.
  - rewrite bool_decide_false by congruence. unfold page_bit.
    by rewrite list_lookup_insert_ne by lia.
Qed.

Definition page_dirty (m : mem) (pg : Z) : bool := negb (page_acc m (pg * PAGE) =? 0).

Lemma page_dirty_spec m pg :
  (forall a, 0 <= m a) -> page_dirty m pg = false <-> page_is_zero m pg.
Proof.
  intros Hm. unfold page_dirty. rewrite negb_false_iff, Z.eqb_eq. by apply page_acc_zero.
Qed.

Lemma set_page_bit_length bm pg : length (set_page_bit bm pg) = length bm.
Proof. apply length_alter. Qed.

Lemma set_page_bit_bytes bm pg : Forall byte_ok bm -> Forall byte_ok (set_page_bit bm pg).
Proof.
  intros Hbm. unfold set_page_bit. apply Forall_alter; [done|]. intros x _ _. by apply wrap_fits.
Qed.

Lemma mark_pages_spec m l bm n :
  Forall byte_ok bm -> Forall (fun pg => 0 <= pg /\ pg / 8 < Z.of_nat (length bm)) l ->
  let '(bm', n') := foldl (mark_page m) (bm, n) l in
  length bm' = length bm /\ Forall byte_ok bm' /\
  n' = n + Z.of_nat (length (filter (fun pg => page_dirty m pg = true) l)) /\
  forall pg, 0 <= pg ->
    page_bit bm' pg =
    if bool_decide (pg ∈ l /\ page_dirty m pg = true) then Ok true else page_bit bm pg.
Proof.
  revert bm n. induction l as [|p l IH]; intros bm n Hbm Hl.
  { cbn. split_and!; [done|done|lia|]. intros pg _. rewrite bool_decide_false; [done|]. set_solver. }
  rewrite Forall_cons in Hl. destruct Hl as [[Hp0 Hp] Hl]. cbn [foldl].
  unfold mark_page at 2. fold (page_dirty m p). cbn [fst snd].
  destruct (page_acc m (p * PAGE) =? 0) eqn:E.
  - assert (Hd : page_dirty m p = false) by (unfold page_dirty; by rewrite E).
    specialize (IH bm n Hbm Hl). destruct (foldl _ _ _) as [bm' n'].
    destruct IH as (H1 & H2 & H3 & H4). split_and!; [done|done| |].
    + rewrite filter_cons_False by congruence. done.
    + intros pg Hpg. rewrite H4 by done. erewrite bool_decide_ext; [reflexivity|].
      rewrite elem_of_cons. clear -Hd. intuition congruence.
  - assert (Hd : page_dirty m p = true) by (unfold page_dirty; by rewrite E).
    specialize (IH (set_page_bit bm p) (n + 1) (set_page_bit_bytes bm p Hbm)).
    rewrite set_page_bit_length in IH. specialize (IH Hl).
    destruct (foldl _ _ _) as [bm' n']. destruct IH as (H1 & H2 & H3 & H4).
    split_and!; [done|done| |].
    + rewrite filter_cons_True by done. cbn [length]. lia.
    + intros pg Hpg. rewrite H4, page_bit_set by done.
      destruct (decide (p = pg)) as [->|Hne].
      * rewrite (bool_decide_true (pg = pg)) by done.
        rewrite (bool_decide_true (pg ∈ pg :: l /\ _)) by (split; [apply list_elem_of_here|done]).
        by case_bool_decide.
      * rewrite (bool_decide_false (p = pg)) by done. erewrite bool_decide_ext; [reflexivity|].
        rewrite elem_of_cons. clear -Hne. intuition congruence.
Qed.

Lemma page_bit_zeros n pg :
  0 <= pg -> pg / 8 < Z.of_nat n -> page_bit (replicate n 0) pg = Ok false.
Proof.
  intros Hpg Hn. pose proof (Z.div_pos pg 8 Hpg).
  rewrite (page_bit_testbit _ _ 0); [by rewrite Z.bits_0|]. apply lookup_replicate. split; [done|lia].
Qed.

Lemma page_index_bound total pg :
  0 <= pg < total -> 0 <= pg / 8 < (total + 7) / 8.
Proof.
  intros Hpg. split; [apply Z.div_pos; lia|]. apply Z.div_lt_upper_bound; [lia|].
  pose proof (Z.div_mod (total + 7) 8). pose proof (Z.mod_pos_bound (total + 7) 8). lia.
Qed.

Lemma build_bitmap_ok m total :
  0 <= total ->
  let '(bm, n) := build_bitmap m total in
  length bm = Z.to_nat ((total + 7) / 8) /\ Forall byte_ok bm /\
  n = Z.of_nat (length (filter (fun pg => page_dirty m pg = true) (seqZ 0 total))) /\
  forall pg, 0 <= pg < total -> page_bit bm pg = Ok (page_dirty m pg).
Proof.
  intros Ht. unfold build_bitmap.
  pose proof (mark_pages_spec m (seqZ 0 total) (replicate (Z.to_nat ((total + 7) / 8)) 0) 0) as Hs.
  destruct (foldl _ _ _) as [bm n]. destruct Hs as (H1 & H2 & H3 & H4).
  - apply Forall_replicate. done.
  - rewrite Forall_forall. intros pg Hpg%elem_of_seqZ. rewrite length_replicate.
    pose proof (page_index_bound total pg). lia.
  - rewrite length_replicate in H1. split_and!; [done|done|done|].
    intros pg Hpg. rewrite H4 by lia. pose proof (page_index_bound total pg Hpg).
    rewrite page_bit_zeros by lia. case_bool_decide as Hc; [by destruct Hc as [_ ->]|].
    destruct (page_dirty m pg) eqn:E; [|done]. exfalso. apply Hc. split; [|done].
    apply elem_of_seqZ. lia.
Qed.

(** C27: the bitmap [save_snapshot_file] builds has one bit per page, in
    [(pages + 7) / 8] bytes, and the bit of a page is clear exactly when all
    4096 bytes of the page are zero; the count printed is the number of bits
    set. *)
Theorem bitmap_marks_nonzero_pages m total :
  (forall a, 0 <= m a) -> 0 <= total ->
  let '(bm, n) := build_bitmap m total in
  length bm = Z.to_nat ((total + 7) / 8) /\ Forall byte_ok bm /\
  n = Z.of_nat (length (filter (fun pg => page_bit bm pg = Ok true) (seqZ 0 total))) /\
  forall pg, 0 <= pg < total ->
    exists b, page_bit bm pg = Ok b /\ (b = false <-> page_is_zero m pg).
Proof.
  intros Hm Ht. pose proof (build_bitmap_ok m total Ht) as Hb.
  destruct (build_bitmap m total) as [bm n]. destruct Hb as (Hl & Hby & Hn & Hp).
  split_and!; [done|done| |].
  - rewrite Hn. do 2 f_equal. apply filter_ext_in.
    intros pg Hpg%elem_of_seqZ. rewrite Hp by lia. split; [by intros ->|by intros [= ->]].
  - intros pg Hpg. exists (page_dirty m pg). split; [by apply Hp|by apply page_dirty_spec].
Qed.
