(* ===== verification/SnapFile.v ===== *)
(** * The snapshot file

    What [save_snapshot_file] leaves on disk and how [restore_snapshot_file]
    (src/src/vmm.cpp) reads it back: the sections in order, each length checked
    against what remains of the file. *)
From S2P Require Import Prelude Memory Codec State Logic VirtioRegs Transport Snapshot.
From stdpp Require Import options.

(** ** Parsing *)

(** [remain < n] guarding a [memcpy] of [n] bytes at [p]: what is copied, and
    what is left. *)
Definition section_of (n : Z) (file : list Z) : option (list Z * list Z) :=
  if Z.of_nat (length file) <? n then None
  else Some (take (Z.to_nat n) file, drop (Z.to_nat n) file).

(** The parser of [restore_snapshot_file]: [Ok None] is a [return false],
    [stack] what the uninitialised [snap.xsave] held.  [memcpy(snap.xsave, ..)]
    of more than XSAVE_SIZE bytes overruns the array.  [addr] is the address the
    file is mapped at. *)
Definition parse_snapshot (stack : list Z) (addr : Z) (file : list Z) : result (option Snapshot) :=
  match section_of sizeof_SnapshotHeader file with
  | None => Ok None
  | Some (hbytes, f1) =>
    let h := c_get SnapshotHeader_codec hbytes in
    match section_of (h_xsave_size h) f1 with
    | None => Ok None
    | Some (xsave, f2) =>
      if XSAVE_SIZE <? h_xsave_size h then Fault OutOfBounds else
      match section_of (h_cpuid_nent h * sizeof_cpuid_entry) f2 with
      | None => Ok None
      | Some (cpuid, f3) =>
        match section_of (h_num_msrs h * sizeof_msr_entry) f3 with
        | None => Ok None
        | Some (msrs, f4) =>
          match section_of (h_bitmap_bytes h) f4 with
          | None => Ok None
          | Some (bm, f5) =>
            let ram_size := h_ram_mb h * 1048576 in
            if Z.of_nat (length f5) <? ram_size then Ok None else
            Ok (Some {|
              sn_hdr := h;
              sn_xsave := overlay stack xsave;
              sn_cpuid := c_get (carray (Z.to_nat (h_cpuid_nent h)) (craw (Z.to_nat sizeof_cpuid_entry))) cpuid;
              sn_msrs := c_get (carray (Z.to_nat (h_num_msrs h)) (craw (Z.to_nat sizeof_msr_entry))) msrs;
              sn_ram := mem_of f5;
              sn_ram_addr := addr + Z.of_nat (length file - length f5);
              sn_ram_size := ram_size;
              sn_dirty_bitmap := bm |})
          end
        end
      end
    end
  end.

(** ** The file format *)

(** The bytes of a snapshot on disk. *)
Definition snapshot_image (snap : Snapshot) : list Z :=
  c_put SnapshotHeader_codec (sn_hdr snap) ++ sn_xsave snap ++ mjoin (sn_cpuid snap) ++
  mjoin (sn_msrs snap) ++ sn_dirty_bitmap snap ++ mem_get (sn_ram snap) 0 (sn_ram_size snap).

(** A snapshot whose counts, sizes and arrays agree. *)
Definition Snapshot_ok (snap : Snapshot) : Prop :=
  let h := sn_hdr snap in
  c_ok SnapshotHeader_codec h /\
  h_xsave_size h = XSAVE_SIZE /\ Z.of_nat (length (sn_xsave snap)) = XSAVE_SIZE /\
  h_cpuid_nent h = Z.of_nat (length (sn_cpuid snap)) /\
  Forall (fun e => length e = 40%nat) (sn_cpuid snap) /\
  h_num_msrs h = Z.of_nat (length (sn_msrs snap)) /\
  Forall (fun e => length e = 16%nat) (sn_msrs snap) /\
  h_bitmap_bytes h = Z.of_nat (length (sn_dirty_bitmap snap)) /\
  sn_ram_size snap = h_ram_mb h * 1048576.

(** Equal snapshots, with RAM compared inside its size. *)
Definition snapshot_eq (a b : Snapshot) : Prop :=
  sn_hdr a = sn_hdr b /\ sn_xsave a = sn_xsave b /\ sn_cpuid a = sn_cpuid b /\
  sn_msrs a = sn_msrs b /\ sn_dirty_bitmap a = sn_dirty_bitmap b /\
  sn_ram_size a = sn_ram_size b /\
  forall x, 0 <= x < sn_ram_size a -> sn_ram a x = sn_ram b x.

Lemma section_of_app n l rest :
  n = Z.of_nat (length l) -> section_of n (l ++ rest) = Some (l, rest).
Proof.
  intros ->. unfold section_of. rewrite length_app. case_match eqn:E.
  { rewrite Z.ltb_lt in E. lia. }
  by rewrite Nat2Z.id, take_app_length, drop_app_length.
Qed.

Lemma mem_of_get m n x : 0 <= x < n -> mem_of (mem_get m 0 n) x = m x.
Proof.
  intros Hx. unfold mem_of. case_match eqn:E; [rewrite Z.ltb_lt in E; lia|].
  apply nth_lookup_Some. rewrite mem_get_lookup by lia. do 2 f_equal. lia.
Qed.

Lemma craw_array n (es : list (list Z)) :
  Forall (fun e => length e = n) es ->
  c_get (carray (length es) (craw n)) (mjoin es) = es /\ length (mjoin es) = (length es * n)%nat.
Proof.
  intros He. assert (Hp : mjoin es = c_put (carray (length es) (craw n)) es).
  { cbn. by rewrite list_fmap_id. }
  split.
  - rewrite Hp. apply c_get_exact. split; [done|]. exact He.
  - rewrite Hp. rewrite c_put_length by (split; [done|exact He]). done.
Qed.

Lemma overlay_full old data : length data = length old -> overlay old data = data.
Proof.
  intros Hl. unfold overlay. rewrite take_ge, drop_ge by lia. apply app_nil_r.
Qed.

Lemma parse_image stack addr snap :
  Snapshot_ok snap -> Z.of_nat (length stack) = XSAVE_SIZE ->
  exists snap', parse_snapshot stack addr (snapshot_image snap) = Ok (Some snap') /\
                snapshot_eq snap' snap.
Proof.
  intros (Hh & Hxs & Hxl & Hcn & Hce & Hmn & Hme & Hbn & Hrs) Hst.
  destruct (craw_array 40 _ Hce) as [Hcg Hcl]. destruct (craw_array 16 _ Hme) as [Hmg Hml].
  unfold parse_snapshot, snapshot_image.
  rewrite section_of_app by (unfold sizeof_SnapshotHeader; by rewrite c_put_length).
  rewrite c_get_exact by done. set (h := sn_hdr snap) in *.
  rewrite section_of_app by (rewrite Hxs; done).
  rewrite Hxs. change (XSAVE_SIZE <? XSAVE_SIZE) with false. cbv iota.
  rewrite section_of_app by (rewrite Hcn, Hcl; unfold sizeof_cpuid_entry; lia).
  rewrite section_of_app by (rewrite Hmn, Hml; unfold sizeof_msr_entry; lia).
  rewrite section_of_app by done.
  rewrite mem_get_length, Hrs.
  assert (Hmb : 0 <= h_ram_mb h) by (destruct Hh as (_ & _ & [Hr _] & _); exact Hr).
  case_match eqn:E; [rewrite Z.ltb_lt in E; lia|].
  eexists; split; [reflexivity|]. unfold snapshot_eq. cbn [sn_hdr sn_xsave sn_cpuid sn_msrs
    sn_dirty_bitmap sn_ram_size sn_ram]. rewrite Hcn, Hmn, !Nat2Z.id, Hrs. split_and!; try done.
  - apply overlay_full. lia.
  - intros x Hx. by apply mem_of_get.
Qed.

(** C4: reading a snapshot file back gives the snapshot that was written:
    header, extended state, CPUID, MSRs, bitmap and guest RAM, whatever the
    uninitialised buffer held and wherever the file is mapped. *)
Theorem snapshot_file_roundtrip stack addr snap :
  Snapshot_ok snap -> Z.of_nat (length stack) = XSAVE_SIZE ->
  exists snap', parse_snapshot stack addr (snapshot_image snap) = Ok (Some snap') /\
                snapshot_eq snap' snap.
Proof.
  apply parse_image.
Qed.

(** Reading one section of a file cut short: either the section is missed, or it
    is read and the cut is further on. *)
Lemma section_of_cut n l rest j :
  n = Z.of_nat (length l) -> (j < length (l ++ rest))%nat ->
  section_of n (take j (l ++ rest)) = None \/
  section_of n (take j (l ++ rest)) = Some (l, take (j - length l) rest) /\
  (j - length l < length rest)%nat.
Proof.
  intros -> Hj. rewrite length_app in Hj. unfold section_of. rewrite length_take, length_app.
  case_match eqn:E; [by left|]. right. rewrite Z.ltb_ge in E.
  rewrite Nat2Z.id, take_take, Nat.min_l, take_app_length, skipn_firstn_comm, drop_app_length by lia.
  split; [done|lia].
Qed.

(** Go past the next section of a truncated file, [Hk] saying where the cut is. *)
Ltac next_section Hk :=
  lazymatch goal with |- context [section_of ?n (take ?j (?l ++ ?rest))] =>
    let E := fresh "E" in let Hj := fresh "Hj" in
    destruct (section_of_cut n l rest j) as [E|[E Hj]];
    [|exact Hk|by rewrite E|rewrite E; clear E Hk; rename Hj into Hk]
  end.

(** C25: a snapshot file cut short anywhere is rejected: no proper prefix of a
    well-formed file is accepted, and reading it never goes out of bounds. *)
Theorem truncated_snapshot_rejected stack addr snap k :
  Snapshot_ok snap -> (k < length (snapshot_image snap))%nat ->
  parse_snapshot stack addr (take k (snapshot_image snap)) = Ok None.
Proof.
  intros (Hh & Hxs & Hxl & Hcn & Hce & Hmn & Hme & Hbn & Hrs).
  destruct (craw_array 40 _ Hce) as [_ Hcl]. destruct (craw_array 16 _ Hme) as [_ Hml].
  assert (Hmb : 0 <= h_ram_mb (sn_hdr snap)) by (destruct Hh as (_ & _ & [Hr _] & _); exact Hr).
  unfold snapshot_image. set (ram := mem_get _ _ _).
  assert (Hram : Z.of_nat (length ram) = h_ram_mb (sn_hdr snap) * 1048576).
  { unfold ram. rewrite mem_get_length. lia. }
  clearbody ram. intros Hk. unfold parse_snapshot.
  next_section Hk. { unfold sizeof_SnapshotHeader. by rewrite c_put_length. }
  rewrite c_get_exact by done.
  next_section Hk. { by rewrite Hxs. }
  rewrite Hxs. change (XSAVE_SIZE <? XSAVE_SIZE) with false. cbv iota.
  next_section Hk. { rewrite Hcn, Hcl. unfold sizeof_cpuid_entry. lia. }
  next_section Hk. { rewrite Hmn, Hml. unfold sizeof_msr_entry. lia. }
  next_section Hk. { done. }
  rewrite (proj2 (Z.ltb_lt _ _)); [done|]. rewrite length_take. lia.
Qed.

(** the size of the extended state is taken from the file unchecked: a file
    whose header asks for more than the 8192 bytes of [snap.xsave], and that
    has that many, makes the parser write past the array. *)
Theorem oversized_xsave_overruns stack addr h rest :
  c_ok SnapshotHeader_codec h -> XSAVE_SIZE < h_xsave_size h ->
  h_xsave_size h <= Z.of_nat (length rest) ->
  parse_snapshot stack addr (c_put SnapshotHeader_codec h ++ rest) = Fault OutOfBounds.
Proof.
  intros Hh Hx Hl. unfold parse_snapshot.
  rewrite section_of_app by (unfold sizeof_SnapshotHeader; by rewrite c_put_length).
  rewrite c_get_exact by done. unfold section_of at 1. rewrite (proj2 (Z.ltb_ge _ _) Hl).
  by rewrite (proj2 (Z.ltb_lt _ _) Hx).
Qed.
