(* ===== verification/SaveFacts.v ===== *)
(** * What saving a snapshot captures

    [save_snapshot] records the machine it runs on; [save_snapshot_file] leaves
    the image of that snapshot in the file. *)
From S2P Require Import Prelude Memory Codec State Logic VirtioRegs Transport Snapshot SnapFile.
From stdpp Require Import options.

(** ** Views of the calls made *)

(** The objects KVM filled in, in order: only calls that succeeded. *)
Definition kvm_got (t : trace) : list (kvm_item * list Z) :=
  omap (fun e => match e.1 with
    | sys_kvm_get w obj => if r_ret e.2 <? 0 then None else Some (w, overlay obj (r_data e.2))
    | _ => None end) t.

Lemma kvm_got_snoc t c r :
  kvm_got (t ++ [(c, r)]) =
  kvm_got t ++ match c with
    | sys_kvm_get w obj => if r_ret r <? 0 then [] else [(w, overlay obj (r_data r))]
    | _ => [] end.
Proof. unfold kvm_got. rewrite omap_app. destruct c; try done. cbn. by destruct (_ <? _). Qed.
Global Arguments kvm_got : simpl never.

(** The bytes written to a descriptor: of each call, as many as it returned. *)
Definition file_bytes (fd : Z) (t : trace) : list Z :=
  mjoin (omap (fun e => match e.1 with
    | sys_write fd' buf => if fd' =? fd then Some (take (Z.to_nat (r_ret e.2)) buf) else None
    | _ => None end) t).

Lemma file_bytes_snoc fd t c r :
  file_bytes fd (t ++ [(c, r)]) =
  file_bytes fd t ++ match c with
    | sys_write fd' buf => if fd' =? fd then take (Z.to_nat (r_ret r)) buf else []
    | _ => [] end.
Proof.
  unfold file_bytes. rewrite omap_app, join_app. f_equal.
  destruct c; try done. cbn. destruct (_ =? _); cbn; [|done]. by rewrite app_nil_r.
Qed.
Global Arguments file_bytes : simpl never.

(** The object in a KVM structure of the header, by the call that moves it. *)
Definition kvm_items (k : KvmState) : list (kvm_item * list Z) :=
  [(KvmRegs, h_regs k); (KvmSregs, h_sregs k); (KvmLapic, h_lapic k);
   (KvmVcpuEvents, h_events k); (KvmXcrs, h_xcrs k); (KvmMpState, h_mp_state k);
   (KvmDebugregs, h_debugregs k); (KvmClock, h_clock k); (KvmPit2, h_pit k);
   (KvmPicMaster, h_pic_master k); (KvmPicSlave, h_pic_slave k); (KvmIoapic, h_ioapic k)].

Lemma overlay_length old data : length (overlay old data) = length old.
Proof.
  unfold overlay. rewrite length_app, length_take, length_drop. lia.
Qed.

(** The machine a snapshot is a snapshot of. *)
Definition snapshot_of (s : Vmm) (snap : Snapshot) : Prop :=
  let h := sn_hdr snap in
  h_magic h = SNAP_MAGIC /\ h_version h = SNAP_VERSION /\ h_ram_mb h = ram_mb_ s /\
  h_fs h = DevState_of (vdev_status_ (fs_ s)) (vdrv_features_ (fs_ s)) NUM_QUEUES (vqs_ (fs_ s)) /\
  h_net h = DevState_of (net_status_ (net_ s)) (net_drv_features_ (net_ s)) NET_NUM_QUEUES
              (net_vqs_ (net_ s)) /\
  h_net_mac h = take 6 (net_config_ (net_ s)) /\
  sn_cpuid snap = cpuid_ s /\ sn_ram_size snap = ram_bytes_ s /\
  forall x, 0 <= x < ram_bytes_ s -> sn_ram snap x = ram_mem_ s x.

(** A machine whose sizes and counts are consistent, with less than 128 TB of
    RAM (the bitmap length is a 32-bit field). *)
Definition machine_ok (s : Vmm) : Prop :=
  fits 27 (ram_mb_ s) /\ ram_bytes_ s = ram_mb_ s * 1048576 /\
  Forall (fun e => length e = 40%nat) (cpuid_ s) /\ fits 32 (Z.of_nat (length (cpuid_ s))) /\
  fits 32 (Z.of_nat (length (msr_list_ s))) /\
  FsDev_ok (fs_ s) /\ NetDev_ok (net_ s) /\ length (net_config_ (net_ s)) = 12%nat.

Lemma DevState_of_ok status features nq qs :
  fits 32 status -> fits 64 features -> fits 32 nq -> length qs = 2%nat -> Forall Virtqueue_ok qs ->
  c_ok DevState_codec (DevState_of status features nq qs).
Proof.
  intros Hs Hf Hn Hl Hq. cbn. split_and!; try done; try (by apply wrap_fits).
  - by rewrite length_fmap.
  - apply Forall_fmap. apply (Forall_impl _ _ _ Hq). intros q (? & ? & ? & ? & ?). by cbn.
Qed.

Section facts.
  Context {H : Host}.

(** KVM hands out every piece of state it is asked for, and there is memory for
    the copy of RAM. *)
Definition host_gives : Prop :=
  (forall t what arg, 0 <= r_ret (reply_of t (sys_kvm_get what arg))) /\
  forall t len, r_ret (reply_of t (sys_mmap (-1) len)) <> -1.

(** Saving changes nothing but the trace, and writes to no file before the image
    is complete. *)
Definition only_reads (s s' : Vmm) : Prop :=
  exists t, s' = s <| trace_ := t |> /\ forall fd, file_bytes fd t = file_bytes fd (trace_ s).

Ltac solve_only_reads :=
  eexists; split; [subst; reflexivity|];
  intros ?; subst; cbn in *;
  repeat (rewrite ?file_bytes_snoc, ?app_nil_r;
          match goal with Ht : forall fd, file_bytes fd _ = _ |- _ => rewrite Ht; clear Ht end);
  rewrite ?file_bytes_snoc, ?app_nil_r; reflexivity.

Lemma wp_and_get {A} what obj (k : list Z -> M (option A)) (Q : option A -> Vmm -> Prop) s :
  (forall r s', s' = s <| trace_ ::= (fun t => t ++ [(sys_kvm_get what obj, r)]) |> ->
     ~ host_gives -> Q None s') ->
  (forall r s', s' = s <| trace_ ::= (fun t => t ++ [(sys_kvm_get what obj, r)]) |> ->
     (r_ret r <? 0) = false -> wp (k (overlay obj (r_data r))) Q s') ->
  wp (and_get (kvm_get what obj) k) Q s.
Proof.
  intros HN HS. unfold and_get, kvm_get. wp_run. destruct (r_ret r <? 0) eqn:E.
  - apply (HN r); [done|]. intros [Hg _]. specialize (Hg (trace_ s) what obj).
    rewrite <- Hr in Hg. apply Z.ltb_lt in E. lia.
  - apply (HS r); done.
Qed.

(** One ioctl of a chain that stops at the first failure. *)
Ltac get_step := apply wp_and_get; intros ? ? ? ?;
  [split; [solve_only_reads|split; [done|intros ? [=]]]|].

(** The 12 ioctls: only the trace changes, and on success the header holds what
    they returned, each structure at its size. *)
Lemma save_kvm_state_spec s :
  wp save_kvm_state (fun o s' =>
    only_reads s s' /\ (host_gives -> o <> None) /\
    forall k, o = Some k ->
      c_ok KvmState_codec k /\
      kvm_got (trace_ s') = kvm_got (trace_ s) ++ kvm_items k) s.
Proof.
  unfold save_kvm_state.
  do 12 get_step. wp_run. split; [solve_only_reads|]. split; [done|]. intros k [= <-]. split.
  - unfold KvmState_codec. cbn. unfold zeros, irqchip_arg.
    split_and!; rewrite ?overlay_length, ?length_app, ?length_replicate, ?le_enc_length; reflexivity.
  - repeat match goal with Hs : ?s' = upd trace_ _ _ |- _ => is_var s'; subst s' end.
    cbn. rewrite !kvm_got_snoc.
    repeat match goal with Hr : (_ <? 0) = false |- _ => rewrite Hr; clear Hr end.
    rewrite <- !app_assoc. reflexivity.
Qed.

Lemma array_get_raw n k l :
  (k * n <= length l)%nat ->
  length (array_get (craw n) k l) = k /\ Forall (fun e => length e = n) (array_get (craw n) k l).
Proof.
  revert l. induction k as [|k IH]; intros l Hl; [by split|]. cbn in Hl.
  destruct (IH (drop n l)) as [H1 H2]; [rewrite length_drop; lia|].
  cbn [array_get c_get craw c_size length]. rewrite H1. split; [done|].
  constructor; [|done]. rewrite length_take. lia.
Qed.

Lemma msrs_buffer_length l :
  Forall (fun e => length e = 16%nat) l -> length (msrs_buffer l) = (8 + length l * 16)%nat.
Proof.
  intros Hl. unfold msrs_buffer, zeros. rewrite !length_app, le_enc_length, length_replicate.
  destruct (craw_array 16 l Hl) as [_ ->]. lia.
Qed.

Lemma save_msrs_spec l s :
  wp (save_msrs l) (fun es s' =>
    only_reads s s' /\ (exists rest, kvm_got (trace_ s') = kvm_got (trace_ s) ++ rest) /\
    length es = length l /\ Forall (fun e => length e = 16%nat) es) s.
Proof.
  unfold save_msrs. wp_run. split; [solve_only_reads|].
  split; [subst; cbn; rewrite kvm_got_snoc; by eexists|].
  apply array_get_raw. rewrite length_drop, overlay_length, msrs_buffer_length, length_fmap; [lia|].
  apply Forall_fmap, Forall_true. intros i. unfold compose, msr_request, zeros.
  by rewrite length_app, le_enc_length, length_replicate.
Qed.

Lemma save_xsave_spec s :
  wp save_xsave (fun o s' =>
    only_reads s s' /\ (exists rest, kvm_got (trace_ s') = kvm_got (trace_ s) ++ rest) /\
    (host_gives -> o <> None) /\
    forall x, o = Some x -> Z.of_nat (length x) = XSAVE_SIZE) s.
Proof.
  assert (Hx : forall d, Z.of_nat (length (overlay (zeros XSAVE_SIZE) d)) = XSAVE_SIZE).
  { intros d. rewrite overlay_length. unfold zeros. rewrite length_replicate. done. }
  unfold save_xsave, kvm_get. wp_run; (split; [solve_only_reads|]);
    (split; [subst; cbn; rewrite !kvm_got_snoc, <- ?app_assoc; by eexists|]).
  - split; [|intros x; case_match; [done|]; intros [= <-]; apply Hx].
    intros [Hg _]. rewrite Hr0. specialize (Hg (trace_ s0) KvmXsave (zeros XSAVE_SIZE)).
    by rewrite (proj2 (Z.ltb_ge _ _) Hg).
  - split; [done|]. intros x [= <-]. apply Hx.
Qed.

Lemma save_snapshot_spec s :
  machine_ok s ->
  wp save_snapshot (fun o s' =>
    only_reads s s' /\ (host_gives -> o <> None) /\
    forall snap, o = Some snap ->
      Snapshot_ok snap /\ snapshot_of s snap /\ sn_ram snap = ram_mem_ s /\
      exists rest, kvm_got (trace_ s') =
        kvm_got (trace_ s) ++ kvm_items (h_kvm (sn_hdr snap)) ++ rest) s.
Proof.
  intros (Hmb' & Hrb & Hce & Hcn & Hmn & Hfs & Hnet & Hcfg). unfold save_snapshot. wp_run.
  assert (Hmb : fits 32 (ram_mb_ s)) by by apply (fits_mono 27).
  wp_use save_kvm_state_spec. intros k s1 ((t1 & -> & Ht1) & Hkn & Hk).
  destruct k as [k|]; wp_run; [|split; [by eexists|split; [intros Hg; by destruct (Hkn Hg)|intros ? [=]]]].
  destruct (Hk k eq_refl) as [Hkok Hkg]. clear Hk Hkn. unfold and_get. wp_run.
  wp_use save_xsave_spec. intros o s3 ((t3 & -> & Ht3) & [r3 Hg3] & Hxn & Hx).
  destruct o as [x|]; wp_run; [|split; [subst; cbn in *; solve_only_reads|split; [intros Hg; by destruct (Hxn Hg)|intros ? [=]]]].
  wp_use save_msrs_spec. intros es s4 ((t4 & -> & Ht4) & [r4 Hg4] & Hel & Hee). wp_run;
    (split; [subst; cbn in *; solve_only_reads|]).
  { split; [|intros ? [=]]. intros [_ Hg]. apply Z.eqb_eq in Hb. exfalso. eapply Hg. by rewrite <- Hr0. }
  split; [done|]. intros snap [= <-]. subst. cbn in *.
  specialize (Hx x eq_refl). clear Hb. destruct Hfs as (? & ? & ? & ? & ? & ? & ? & ? & ?).
  destruct Hnet as (? & ? & ? & ? & ? & ? & ? & ?).
  split; [|split; [unfold snapshot_of; cbn; split_and!; try done; by apply wrap_id|split; [done|]]].
  2: { eexists. rewrite kvm_got_snoc, Hg4, Hg3, kvm_got_snoc, Hkg, <- !app_assoc. reflexivity. }
  unfold Snapshot_ok. cbn [sn_hdr sn_xsave sn_cpuid sn_msrs sn_dirty_bitmap sn_ram_size
    h_xsave_size h_cpuid_nent h_num_msrs h_bitmap_bytes h_ram_mb].
  split_and!; try done.
  - unfold SnapshotHeader_codec. cbn [cvia c_ok cpair fst snd h_magic h_version h_ram_mb h_kvm h_tsc_khz
      h_cpuid_nent h_num_msrs h_xsave_size h_fs h_net h_net_mac h_net_pad h_bitmap_bytes h_bitmap_pad].
    split_and!; try done; try (by apply wrap_fits); try (by apply DevState_of_ok).
    + case_match; [by apply wrap_fits|done].
    + cbn. rewrite length_take. lia.
  - by apply wrap_id.
  - rewrite Hel. by apply wrap_id.
  - rewrite wrap_id by done. done.
Qed.

(** ** Writing *)

Lemma write_ram_ok fuel fd m off size s :
  (forall t buf, (0 < length buf)%nat ->
     1 <= r_ret (reply_of t (sys_write fd buf)) <= Z.of_nat (length buf)) ->
  0 <= off <= size -> size - off <= Z.of_nat fuel ->
  wp (write_ram fuel fd m off size) (fun r s' =>
    r = Some true /\ (exists t, s' = s <| trace_ := t |> /\ kvm_got t = kvm_got (trace_ s)) /\
    file_bytes fd (trace_ s') = file_bytes fd (trace_ s) ++ mem_get m off (size - off)) s.
Proof.
  intros Hw. revert off s. induction fuel as [|fuel IH]; intros off s Hoff Hf; cbn [write_ram]; wp_run.
  - apply Z.ltb_lt in Hb. lia.
  - apply Z.ltb_ge in Hb. replace (size - off) with 0 by lia. cbn.
    rewrite app_nil_r. split_and!; [done|by exists (trace_ s); destruct s|done].
  - apply Z.ltb_lt in Hb, Hb0. specialize (Hw (trace_ s) (mem_get m off (size - off))).
    rewrite <- Hr, mem_get_length in Hw. lia.
  - apply Z.ltb_lt in Hb. apply Z.ltb_ge in Hb0.
    specialize (Hw (trace_ s) (mem_get m off (size - off))) as Hn.
    rewrite <- Hr, mem_get_length in Hn.
    eapply wp_mono; [apply IH; lia|]. cbv beta. intros r' s' (-> & (t' & -> & Hg) & ->).
    subst s0. cbn in Hg. rewrite kvm_got_snoc, app_nil_r in Hg. split_and!; [done|by eexists|]. cbn.
    rewrite file_bytes_snoc, Z.eqb_refl, <- app_assoc. f_equal.
    replace (size - off) with (r_ret r + (size - (off + r_ret r))) at 2 by lia.
    rewrite mem_get_app by lia. f_equal.
    replace (size - off) with (r_ret r + (size - (off + r_ret r))) by lia.
    rewrite mem_get_app by lia. rewrite take_app_length'; [done|by rewrite mem_get_length].
  - apply Z.ltb_ge in Hb. replace (size - off) with 0 by lia. cbn.
    rewrite app_nil_r. split_and!; [done|by exists (trace_ s); destruct s|done].
Qed.

(** the loop that writes guest RAM copes with short writes: as long as each
    [write] makes progress, it ends within [size - off] calls, reports success,
    and the file holds exactly the bytes of RAM from [off] to [size], in order
    and without gaps or repeats. *)
Theorem ram_written_despite_short_writes fuel fd m off size s :
  (forall t buf, (0 < length buf)%nat ->
     1 <= r_ret (reply_of t (sys_write fd buf)) <= Z.of_nat (length buf)) ->
  0 <= off <= size -> size - off <= Z.of_nat fuel ->
  wp (write_ram fuel fd m off size) (fun r s' =>
    r = Some true /\
    file_bytes fd (trace_ s') = file_bytes fd (trace_ s) ++ mem_get m off (size - off)) s.
Proof.
  intros Hw Ho Hf. eapply wp_mono; [by apply write_ram_ok|]. cbv beta. tauto.
Qed.

(** The snapshot with the bitmap [save_snapshot_file] adds. *)
Definition with_bitmap (snap : Snapshot) (bm : list Z) : Snapshot :=
  snap <| sn_hdr ::= (fun h => h <| h_bitmap_bytes := Z.of_nat (length bm) |>) |>
       <| sn_dirty_bitmap := bm |>.

Lemma with_bitmap_ok snap bm :
  Snapshot_ok snap -> fits 32 (Z.of_nat (length bm)) -> Snapshot_ok (with_bitmap snap bm).
Proof.
  intros (Hh & ? & ? & ? & ? & ? & ? & _ & ?) Hb. unfold Snapshot_ok, with_bitmap. cbn.
  split_and!; try done. unfold SnapshotHeader_codec in *. cbn in *. split_and!; try done; apply Hh.
Qed.

Lemma bitmap_size_fits mb : fits 27 mb -> fits 32 ((mb * 1048576 / PAGE + 7) / 8).
Proof.
  intros Hm. unfold fits, PAGE in *. replace (mb * 1048576) with (mb * 256 * 4096) by lia.
  rewrite Z.div_mul by lia. split; [apply Z.div_pos; lia|apply Z.div_lt_upper_bound; lia].
Qed.

End facts.
