(* ===== verification/CopyWorkers.v ===== *)
(** * Restoring RAM with several copy threads

    The eager restore of [Vmm::restore_snapshot] (src/src/vmm.cpp): threads take
    1 MB chunks from a shared atomic counter and copy the runs of pages the
    bitmap marks.  A thread is a small state machine whose steps are the
    accesses to shared memory; threads interleave arbitrarily. *)
From S2P Require Import Prelude Memory Codec State Snapshot.
From stdpp Require Import options.

Definition CHUNK_PAGES : Z := 256.

(** [struct SharedCopyContext]: the part the threads only read, with the sizes
    of the objects behind the pointers ... *)
Record CopyContext : Type := {
  cc_src : mem; cc_src_size : Z; cc_dst_size : Z;
  cc_bitmap : list Z; cc_total_pages : Z; cc_num_chunks : Z
}.

(** ... and the part they change. *)
Record CopyShared : Type := { sh_dst : mem; sh_chunk_idx : Z; sh_total_dirty : Z }.

(** Where a thread is: about to take a chunk, scanning the rest of one from
    page [pg], about to add its count, or finished. *)
Inductive worker : Type :=
| W_fetch (local_dirty : Z)
| W_scan (pg pg_end local_dirty : Z)
| W_exit (local_dirty : Z)
| W_done.

#[export] Instance worker_eq_dec : EqDecision worker.
Proof. solve_decision. Defined.

(** [while (pg < pg_end && (bitmap[pg / 8] & (1 << (pg & 7)))) pg++;] *)
Fixpoint run_end (fuel : nat) (bm : list Z) (pg pg_end : Z) : result Z :=
  match fuel with
  | O => Ok pg
  | S fuel' =>
    if pg <? pg_end then
      b ← page_bit bm pg;
      if (b : bool) then run_end fuel' bm (pg + 1) pg_end else Ok pg
    else Ok pg
  end.

(** One step of [dynamic_copy_worker]. *)
Definition worker_step (c : CopyContext) (w : worker) (sh : CopyShared) : result (worker * CopyShared) :=
  match w with
  | W_fetch d =>
    let ch := sh_chunk_idx sh in
    let sh' := {| sh_dst := sh_dst sh; sh_chunk_idx := u64 (ch + 1);
                  sh_total_dirty := sh_total_dirty sh |} in
    if cc_num_chunks c <=? ch then Ok (W_exit d, sh')
    else Ok (W_scan (ch * CHUNK_PAGES)
               (Z.min (ch * CHUNK_PAGES + CHUNK_PAGES) (cc_total_pages c)) d, sh')
  | W_scan pg pg_end d =>
    if pg <? pg_end then
      b ← page_bit (cc_bitmap c) pg;
      if (b : bool) then
        e ← run_end (Z.to_nat (pg_end - pg)) (cc_bitmap c) pg pg_end;
        bs ← ram_load (cc_src_size c) (cc_src c) (pg * PAGE) ((e - pg) * PAGE);
        m ← ram_store (cc_dst_size c) (sh_dst sh) (pg * PAGE) bs;
        Ok (W_scan e pg_end (d + (e - pg)),
            {| sh_dst := m; sh_chunk_idx := sh_chunk_idx sh; sh_total_dirty := sh_total_dirty sh |})
      else Ok (W_scan (pg + 1) pg_end d, sh)
    else Ok (W_fetch d, sh)
  | W_exit d =>
    Ok (W_done, {| sh_dst := sh_dst sh; sh_chunk_idx := sh_chunk_idx sh;
                   sh_total_dirty := u64 (sh_total_dirty sh + d) |})
  | W_done => Ok (W_done, sh)
  end.

Definition num_chunks (total_pages : Z) : Z := (total_pages + CHUNK_PAGES - 1) / CHUNK_PAGES.

(** A thread running alone to its end. *)
Fixpoint run_worker (fuel : nat) (c : CopyContext) (w : worker) (sh : CopyShared) : result (option CopyShared) :=
  match w with
  | W_done => Ok (Some sh)
  | _ =>
    match fuel with
    | O => Ok None
    | S fuel' => '(w', sh') ← worker_step c w sh; run_worker fuel' c w' sh'
    end
  end.

(** [NUM_COPY_THREADS]. *)
Definition num_copy_threads (copy_threads : Z) : Z :=
  let n := if 0 <? copy_threads then copy_threads else 4 in
  if 8 <? n then 8 else n.

(** ** Interleavings *)

Definition config : Type := list worker * CopyShared.

(** Any thread that has not finished may take its next step. *)
Inductive copy_step (c : CopyContext) : config -> config -> Prop :=
| copy_step_thread ws sh i w w' sh' :
    ws !! i = Some w -> w <> W_done -> worker_step c w sh = Ok (w', sh') ->
    copy_step c (ws, sh) (<[i := w']> ws, sh').

Definition copy_start (n : nat) (dst : mem) : config :=
  (replicate n (W_fetch 0), {| sh_dst := dst; sh_chunk_idx := 0; sh_total_dirty := 0 |}).

Definition all_done (cf : config) : Prop := Forall (fun w => w = W_done) cf.1.

(** A context whose bitmap covers the pages and whose memories hold them. *)
Definition CopyContext_ok (c : CopyContext) : Prop :=
  0 <= cc_total_pages c < 2 ^ 52 /\
  cc_total_pages c <= 8 * Z.of_nat (length (cc_bitmap c)) /\
  cc_total_pages c * PAGE <= cc_src_size c /\ cc_total_pages c * PAGE <= cc_dst_size c /\
  cc_num_chunks c = num_chunks (cc_total_pages c).

(** Whether a page is marked. *)
Definition marked (bm : list Z) (pg : Z) : bool :=
  match page_bit bm pg with Ok b => b | Fault _ => false end.

(** The memory a restore should leave: marked pages from the snapshot, the rest
    as it was. *)
Definition restored (src : mem) (bm : list Z) (total_pages : Z) (dst : mem) : mem :=
  fun a => if (0 <=? a) && (a / PAGE <? total_pages) && marked bm (a / PAGE) then src a else dst a.
