(* ===== verification/CopyFacts.v ===== *)
(** * The copy threads restore the snapshot's RAM

    For any number of threads and any interleaving of their steps: no step
    faults, every execution ends, and the memory it leaves is the one a single
    sequential copy of the marked pages would leave. *)
From stdpp Require Import relations.
From S2P Require Import Prelude Memory Codec State Snapshot CopyWorkers.
From stdpp Require Import options.

(** ** Arithmetic of pages and chunks *)

Lemma page_range a p e : p * PAGE <= a < p * PAGE + (e - p) * PAGE <-> p <= a / PAGE < e.
Proof.
  unfold PAGE. split; intros Hr.
  - split; [apply Z.div_le_lower_bound; lia|apply Z.div_lt_upper_bound; lia].
  - pose proof (Z.div_mod a 4096). pose proof (Z.mod_pos_bound a 4096). lia.
Qed.

Lemma chunk_of_page pg total :
  0 <= pg < total -> 0 <= pg / CHUNK_PAGES < num_chunks total.
Proof.
  intros Hpg. unfold num_chunks, CHUNK_PAGES. split; [apply Z.div_pos; lia|].
  apply Z.div_lt_upper_bound; [lia|].
  pose proof (Z.div_mod (total + 256 - 1) 256). pose proof (Z.mod_pos_bound (total + 256 - 1) 256). lia.
Qed.

Lemma chunk_bounds pg k : pg / CHUNK_PAGES = k <-> k * CHUNK_PAGES <= pg < k * CHUNK_PAGES + CHUNK_PAGES.
Proof.
  unfold CHUNK_PAGES. pose proof (Z.div_mod pg 256). pose proof (Z.mod_pos_bound pg 256).
  split; [lia|]. intros Hk. symmetry. apply (Z.div_unique_pos _ _ _ (pg - k * 256)); lia.
Qed.

Lemma num_chunks_bound total : 0 <= total -> 0 <= num_chunks total <= total.
Proof.
  intros Ht. unfold num_chunks, CHUNK_PAGES. split; [apply Z.div_pos; lia|].
  destruct (decide (total = 0)) as [->|]; [done|].
  apply Z.div_le_upper_bound; lia.
Qed.

Lemma mem_set_copy m src a n x :
  0 <= n -> mem_set m a (mem_get src a n) x = if bool_decide (a <= x < a + n) then src x else m x.
Proof.
  intros Hn. case_bool_decide as Hx.
  - rewrite mem_set_inside by (rewrite mem_get_length; lia). apply nth_lookup_Some.
    rewrite mem_get_lookup by lia. do 2 f_equal. lia.
  - apply mem_set_outside. rewrite mem_get_length. lia.
Qed.

Lemma sum_list_insert {A} (f : A -> nat) (l : list A) i x y :
  l !! i = Some x -> (sum_list_with f (<[i := y]> l) + f x = sum_list_with f l + f y)%nat.
Proof.
  revert i. induction l as [|z l IH]; intros [|i] Hi; try done.
  - injection Hi as ->. cbn. lia.
  - specialize (IH i Hi). change (<[S i := y]> (z :: l)) with (z :: <[i := y]> l).
    cbn [sum_list_with]. lia.
Qed.

(** ** Single steps *)

Section copy.
  Context (c : CopyContext) (Hc : CopyContext_ok c).

Abbreviation total := (cc_total_pages c).
Abbreviation mark := (marked (cc_bitmap c)).

Lemma page_bit_marked pg : 0 <= pg < total -> page_bit (cc_bitmap c) pg = Ok (mark pg).
Proof using Hc.
  intros Hpg. destruct Hc as (_ & Hl & _). unfold marked, page_bit.
  destruct (lookup_lt_is_Some_2 (cc_bitmap c) (Z.to_nat (pg / 8))) as [b ->]; [|done].
  assert (0 <= pg / 8 < Z.of_nat (length (cc_bitmap c))); [|lia].
  split; [apply Z.div_pos; lia|apply Z.div_lt_upper_bound; lia].
Qed.

Lemma run_end_spec fuel p e :
  0 <= p <= e -> e <= total -> e - p <= Z.of_nat fuel ->
  exists e', run_end fuel (cc_bitmap c) p e = Ok e' /\ p <= e' <= e /\
    (forall pg, p <= pg < e' -> mark pg = true) /\ (p < e -> mark p = true -> p < e').
Proof using Hc.
  revert p. induction fuel as [|fuel IH]; intros p Hp He Hf.
  { exists p. split_and!; try done; lia. }
  cbn [run_end]. destruct (Z.ltb_spec p e) as [Hlt|Hge].
  2: { exists p. split_and!; try done; lia. }
  rewrite page_bit_marked by lia. cbn [mbind result_bind]. destruct (mark p) eqn:E.
  - destruct (IH (p + 1)) as (e' & -> & Hb & Hm & _); [lia..|].
    exists e'. split_and!; try done; try lia. intros pg Hpg.
    destruct (decide (pg = p)) as [->|]; [done|]. apply Hm. lia.
  - exists p. split_and!; try done; lia.
Qed.

(** What a step of a scanning thread does: skip a page, copy a run, or end. *)
Lemma scan_step p e d sh :
  0 <= p <= e -> e <= total ->
  (p = e /\ worker_step c (W_scan p e d) sh = Ok (W_fetch d, sh)) \/
  (p < e /\ mark p = false /\ worker_step c (W_scan p e d) sh = Ok (W_scan (p + 1) e d, sh)) \/
  (p < e /\ exists e' m, p < e' <= e /\ (forall pg, p <= pg < e' -> mark pg = true) /\
     (forall a, m a = if bool_decide (p <= a / PAGE < e') then cc_src c a else sh_dst sh a) /\
     worker_step c (W_scan p e d) sh =
       Ok (W_scan e' e (d + (e' - p)),
           {| sh_dst := m; sh_chunk_idx := sh_chunk_idx sh; sh_total_dirty := sh_total_dirty sh |})).
Proof using Hc.
  intros Hp He. pose proof Hc as (Ht & Hl & Hs & Hd & _).
  cbn [worker_step]. destruct (Z.ltb_spec p e) as [Hlt|Hge]; [|left; split; [lia|done]].
  right. rewrite page_bit_marked by lia. cbn [mbind result_bind].
  destruct (mark p) eqn:E; [|by left]. right. split; [done|].
  destruct (run_end_spec (Z.to_nat (e - p)) p e) as (e' & Hr & Hb & Hm & Hgt); [lia..|].
  specialize (Hgt Hlt E). exists e', (mem_set (sh_dst sh) (p * PAGE) (mem_get (cc_src c) (p * PAGE) ((e' - p) * PAGE))).
  unfold PAGE in *. split_and!; try lia; [done| |].
  - intros a. rewrite mem_set_copy by lia. erewrite bool_decide_ext; [done|]. apply page_range.
  - rewrite Hr. cbn. rewrite ram_load_ok by lia. cbn.
    rewrite ram_store_ok by (rewrite ?mem_get_length; lia). done.
Qed.

(** ** The invariant of all interleavings *)

Definition finished (w : worker) : nat :=
  match w with W_exit _ | W_done => 1 | _ => 0 end.

Definition copied (dst : mem) (pg : Z) : Prop := forall a, a / PAGE = pg -> dst a = cc_src c a.

(** Some thread is still to reach page [pg] of the chunk it scans. *)
Definition scanning (ws : list worker) (pg : Z) : Prop :=
  exists i p e d, ws !! i = Some (W_scan p e d) /\ p <= pg < e.

Record copy_inv (dst0 : mem) (n : nat) (cf : config) : Prop := {
  ci_len : length cf.1 = n;
  ci_idx : 0 <= sh_chunk_idx cf.2 <= num_chunks total + Z.of_nat (sum_list_with finished cf.1);
  ci_fin : forall i w, cf.1 !! i = Some w -> finished w = 1%nat -> num_chunks total <= sh_chunk_idx cf.2;
  ci_scan : forall i p e d, cf.1 !! i = Some (W_scan p e d) -> 0 <= p <= e /\ e <= total;
  ci_clean : forall a, (0 <= a / PAGE < total /\ mark (a / PAGE) = true) \/ sh_dst cf.2 a = dst0 a;
  ci_dirty : forall pg, 0 <= pg < total -> mark pg = true ->
    sh_chunk_idx cf.2 <= pg / CHUNK_PAGES \/ scanning cf.1 pg \/ copied (sh_dst cf.2) pg;
}.

Lemma finished_bound ws : (sum_list_with finished ws <= length ws)%nat.
Proof. induction ws as [|[] ws IH]; cbn; lia. Qed.

Lemma copy_start_inv dst0 n : copy_inv dst0 n (copy_start n dst0).
Proof using Hc.
  pose proof (num_chunks_bound total) as Hn. destruct Hc as (Ht & _).
  split; cbn.
  - apply length_replicate.
  - lia.
  - intros i w [-> _]%lookup_replicate. done.
  - intros i p e d [[=] _]%lookup_replicate.
  - auto.
  - intros pg Hpg _. left. by apply (chunk_of_page pg total).
Qed.

(** A thread that leaves a state in which it covered page [pg] still covers it,
    or another thread does. *)
Lemma scanning_insert ws (i : nat) w w' pg :
  ws !! i = Some w -> scanning ws pg ->
  (forall p e d, w = W_scan p e d -> p <= pg < e -> exists p' d', w' = W_scan p' e d' /\ p' <= pg) ->
  scanning (<[i := w']> ws) pg.
Proof.
  intros Hi (j & p & e & d & Hj & Hpg) Hw.
  assert (Hli : (i < length ws)%nat) by by eapply lookup_lt_Some.
  destruct (decide (i = j)) as [<-|Hne].
  - assert (w = W_scan p e d) as -> by congruence.
    destruct (Hw p e d eq_refl Hpg) as (p' & d' & -> & Hp').
    exists i, p', e, d'. rewrite list_lookup_insert_eq by done. split; [done|lia].
  - exists j, p, e, d. rewrite list_lookup_insert_ne by done. done.
Qed.

Lemma insert_scan_bounds (ws : list worker) (i : nat) w' :
  (forall j p e d, ws !! j = Some (W_scan p e d) -> 0 <= p <= e /\ e <= total) ->
  (forall p e d, w' = W_scan p e d -> 0 <= p <= e /\ e <= total) ->
  forall j p e d, <[i := w']> ws !! j = Some (W_scan p e d) -> 0 <= p <= e /\ e <= total.
Proof.
  intros Hws Hw j p e d Hj. destruct (decide (i = j)) as [<-|Hne].
  - apply (Hw p e d). apply list_lookup_insert_Some in Hj. naive_solver.
  - rewrite list_lookup_insert_ne in Hj by done. by apply (Hws j p e d).
Qed.

Lemma insert_finished (ws : list worker) (i : nat) w w' (k : Prop) :
  ws !! i = Some w ->
  (forall j v, ws !! j = Some v -> finished v = 1%nat -> k) ->
  (finished w' = 1%nat -> k) ->
  forall j v, <[i := w']> ws !! j = Some v -> finished v = 1%nat -> k.
Proof.
  intros Hi Hws Hw j v Hj Hv. destruct (decide (i = j)) as [<-|Hne].
  - apply Hw. apply list_lookup_insert_Some in Hj. naive_solver.
  - rewrite list_lookup_insert_ne in Hj by done. by apply (Hws j v).
Qed.

(** What a step of thread [i] must establish. *)
Lemma copy_inv_update dst0 n ws sh i w w' sh' :
  copy_inv dst0 n (ws, sh) -> ws !! i = Some w ->
  (sh_chunk_idx sh <= sh_chunk_idx sh' /\
   (sh_chunk_idx sh' <= num_chunks total \/
    sh_chunk_idx sh' + Z.of_nat (finished w) <= sh_chunk_idx sh + Z.of_nat (finished w'))) ->
  (finished w' = 1%nat -> num_chunks total <= sh_chunk_idx sh') ->
  (forall p e d, w' = W_scan p e d -> 0 <= p <= e /\ e <= total) ->
  (forall a, (0 <= a / PAGE < total /\ mark (a / PAGE) = true) \/ sh_dst sh' a = sh_dst sh a) ->
  (forall pg, 0 <= pg < total -> mark pg = true ->
    sh_chunk_idx sh <= pg / CHUNK_PAGES \/ scanning ws pg \/ copied (sh_dst sh) pg ->
    sh_chunk_idx sh' <= pg / CHUNK_PAGES \/ scanning (<[i := w']> ws) pg \/ copied (sh_dst sh') pg) ->
  copy_inv dst0 n (<[i := w']> ws, sh').
Proof using Hc.
  intros [Hl Hidx Hfin Hscan Hclean Hdirty] Hi Hk Hf Hw Hcl Hd. cbn in *.
  pose proof (sum_list_insert finished ws i w w' Hi) as Hsum.
  pose proof (num_chunks_bound total) as Hn. destruct Hc as (Ht & _).
  split; cbn.
  - by rewrite length_insert.
  - lia.
  - apply (insert_finished ws i w w' _ Hi); [|done]. intros j v Hj Hv. specialize (Hfin j v Hj Hv). lia.
  - by apply insert_scan_bounds.
  - intros a. destruct (Hcl a) as [?| ->]; [by left|apply Hclean].
  - intros pg Hpg Hm. apply Hd; [done..|]. by apply Hdirty.
Qed.

Lemma fetch_inv dst0 n ws sh i d w' sh' :
  Z.of_nat n < 2 ^ 60 -> copy_inv dst0 n (ws, sh) -> ws !! i = Some (W_fetch d) ->
  worker_step c (W_fetch d) sh = Ok (w', sh') -> copy_inv dst0 n (<[i := w']> ws, sh').
Proof using Hc.
  intros Hn Hinv Hi Hst. pose proof Hinv as [Hl Hidx Hfin _ _ _]. cbn in Hl, Hidx, Hfin.
  pose proof (finished_bound ws). pose proof (num_chunks_bound total).
  pose proof Hc as (Ht & _ & _ & _ & Hnc). cbn [worker_step] in Hst. rewrite Hnc in Hst.
  rewrite wrap_id in Hst by (unfold fits; lia).
  assert (Hkeep : forall w'' pg, scanning ws pg -> scanning (<[i := w'']> ws) pg).
  { intros w'' pg Hs. eapply scanning_insert; [exact Hi|exact Hs|]. intros ? ? ? [=]. }
  destruct (Z.leb_spec (num_chunks total) (sh_chunk_idx sh)) as [Hge|Hlt];
    injection Hst as <- <-; eapply copy_inv_update; try done; cbn.
  - lia.
  - lia.
  - intros a. by right.
  - intros pg Hpg Hm [Hk|[Hs|Hcp]]; [|right; left; by apply Hkeep|by right; right].
    pose proof (chunk_of_page pg total Hpg). lia.
  - lia.
  - intros p e d' [= <- <- <-]. unfold CHUNK_PAGES.
    assert ((sh_chunk_idx sh) * CHUNK_PAGES < total); [|unfold CHUNK_PAGES in *; lia].
    unfold num_chunks, CHUNK_PAGES in *.
    pose proof (Z.div_mod (total + 256 - 1) 256). pose proof (Z.mod_pos_bound (total + 256 - 1) 256). lia.
  - intros a. by right.
  - intros pg Hpg Hm [Hk|[Hs|Hcp]]; [|right; left; by apply Hkeep|by right; right].
    destruct (decide (pg / CHUNK_PAGES = sh_chunk_idx sh)) as [He|Hne]; [|left; lia].
    right; left. apply chunk_bounds in He.
    exists i, (sh_chunk_idx sh * CHUNK_PAGES), (Z.min (sh_chunk_idx sh * CHUNK_PAGES + CHUNK_PAGES) total), d.
    rewrite list_lookup_insert_eq by by eapply lookup_lt_Some. split; [done|lia].
Qed.

Lemma scan_inv dst0 n ws sh i p e d w' sh' :
  copy_inv dst0 n (ws, sh) -> ws !! i = Some (W_scan p e d) ->
  worker_step c (W_scan p e d) sh = Ok (w', sh') -> copy_inv dst0 n (<[i := w']> ws, sh').
Proof using Hc.
  intros Hinv Hi Hst. destruct (ci_scan _ _ _ Hinv i p e d Hi) as [Hp He].
  destruct (scan_step p e d sh Hp He)
    as [[-> Hs]|[(Hlt & Hm & Hs)|(Hlt & e' & m & He' & Hm & Hmem & Hs)]];
    rewrite Hst in Hs; injection Hs as -> ->; eapply copy_inv_update; try done; cbn; try lia.
  - intros pg Hpg Hmk [Hk|[Hsc|Hcp]]; [by left| |by right; right]. right; left.
    eapply scanning_insert; [exact Hi|exact Hsc|]. intros ? ? ? [= <- <- <-] ?. lia.
  - intros ? ? ? [= <- <- <-]. lia.
  - intros pg Hpg Hmk [Hk|[Hsc|Hcp]]; [by left| |by right; right]. right; left.
    eapply scanning_insert; [exact Hi|exact Hsc|]. intros ? ? ? [= <- <- <-] Hr.
    do 2 eexists. split; [done|]. destruct (decide (p = pg)) as [->|]; [congruence|lia].
  - intros ? ? ? [= <- <- <-]. lia.
  - intros a. rewrite Hmem. case_bool_decide as Hr; [|by right]. left. split; [lia|by apply Hm].
  - intros pg Hpg Hmk [Hk|[Hsc|Hcp]]; [by left| |].
    + destruct (decide (p <= pg < e')) as [Hr|Hr].
      * right; right. intros a <-. rewrite Hmem. by rewrite bool_decide_true.
      * right; left. eapply scanning_insert; [exact Hi|exact Hsc|]. intros ? ? ? [= <- <- <-] ?.
        do 2 eexists. split; [done|lia].
    + right; right. intros a Ha. rewrite Hmem. case_bool_decide; [done|by apply Hcp].
Qed.

Lemma copy_step_inv dst0 n cf cf' :
  Z.of_nat n < 2 ^ 60 -> copy_inv dst0 n cf -> copy_step c cf cf' -> copy_inv dst0 n cf'.
Proof using Hc.
  intros Hn Hinv Hst. destruct Hst as [ws sh i w w' sh' Hi Hnd Hst].
  destruct w as [d|p e d|d|]; [by eapply fetch_inv|by eapply scan_inv| |done].
  injection Hst as <- <-. eapply copy_inv_update; try done; cbn; try lia.
  - intros _. by apply (ci_fin _ _ _ Hinv i (W_exit d)).
  - intros pg Hpg Hm [Hk|[Hs|Hcp]]; [by left| |by right; right]. right; left.
    eapply scanning_insert; [exact Hi|exact Hs|]. intros ? ? ? [=].
Qed.

(** ** Progress and termination *)

Definition worker_measure (w : worker) : nat :=
  match w with
  | W_fetch _ => 2
  | W_scan p e _ => Z.to_nat (e - p) + 3
  | W_exit _ => 1
  | W_done => 0
  end.

Definition copy_measure (cf : config) : nat :=
  260 * Z.to_nat (num_chunks total - sh_chunk_idx cf.2) + sum_list_with worker_measure cf.1.

Lemma worker_progress dst0 n ws sh i w :
  Z.of_nat n < 2 ^ 60 -> copy_inv dst0 n (ws, sh) -> ws !! i = Some w -> w <> W_done ->
  exists w' sh', worker_step c w sh = Ok (w', sh') /\
    (copy_measure (<[i := w']> ws, sh') < copy_measure (ws, sh))%nat.
Proof using Hc.
  intros Hn Hinv Hi Hnd. pose proof Hinv as [Hl Hidx _ Hscan _ _]. cbn in Hl, Hidx, Hscan.
  pose proof (finished_bound ws). pose proof (num_chunks_bound total).
  pose proof Hc as (Ht & _ & _ & _ & Hnc).
  assert (Hsum : forall w', (sum_list_with worker_measure (<[i := w']> ws) + worker_measure w =
    sum_list_with worker_measure ws + worker_measure w')%nat) by (intros; by apply sum_list_insert).
  unfold copy_measure. destruct w as [d|p e d|d|]; cbn [worker_measure] in *; [| | |done].
  - cbn [worker_step]. rewrite Hnc, wrap_id by (unfold fits; lia).
    destruct (Z.leb_spec (num_chunks total) (sh_chunk_idx sh)) as [Hge|Hlt].
    + do 2 eexists. split; [reflexivity|]. specialize (Hsum (W_exit d)). cbn in *. lia.
    + do 2 eexists. split; [reflexivity|]. match goal with |- context [<[i := ?w']> ws] => specialize (Hsum w') end.
      cbn -[Nat.mul] in *. unfold CHUNK_PAGES in *. lia.
  - destruct (Hscan i p e d Hi) as [Hp He].
    destruct (scan_step p e d sh Hp He)
      as [[-> Hs]|[(Hlt & Hm & Hs)|(Hlt & e' & m & He' & Hm & Hmem & Hs)]];
      rewrite Hs; do 2 eexists; (split; [reflexivity|]);
      match goal with |- context [<[i := ?w']> ws] => specialize (Hsum w') end; cbn -[Nat.mul] in *; lia.
  - do 2 eexists. split; [reflexivity|]. specialize (Hsum W_done). cbn -[Nat.mul] in *. lia.
Qed.

Lemma copy_step_measure dst0 n cf cf' :
  Z.of_nat n < 2 ^ 60 -> copy_inv dst0 n cf -> copy_step c cf cf' ->
  (copy_measure cf' < copy_measure cf)%nat.
Proof using Hc.
  intros Hn Hinv Hst. destruct Hst as [ws sh i w w' sh' Hi Hnd Hst].
  destruct (worker_progress dst0 n ws sh i w Hn Hinv Hi Hnd) as (w'' & sh'' & Hst' & Hm).
  rewrite Hst in Hst'. by injection Hst' as <- <-.
Qed.

Lemma copy_run_inv dst0 n k cf cf' :
  Z.of_nat n < 2 ^ 60 -> copy_inv dst0 n cf -> nsteps (copy_step c) k cf cf' ->
  copy_inv dst0 n cf' /\ (k + copy_measure cf' <= copy_measure cf)%nat.
Proof using Hc.
  intros Hn Hinv Hst. revert Hinv. induction Hst as [cf|k x y z Hxy Hyz IH]; intros Hinv; [done|].
  pose proof (copy_step_measure _ _ _ _ Hn Hinv Hxy).
  destruct (IH (copy_step_inv _ _ _ _ Hn Hinv Hxy)). split; [done|lia].
Qed.

Lemma copy_inv_done dst0 n cf :
  (0 < n)%nat -> copy_inv dst0 n cf -> all_done cf ->
  sh_dst cf.2 ≡ restored (cc_src c) (cc_bitmap c) total dst0.
Proof using Hc.
  intros Hn [Hl _ Hfin _ Hclean Hdirty] Hd a. unfold restored, all_done in *.
  rewrite Forall_lookup in Hd.
  destruct (lookup_lt_is_Some_2 cf.1 0) as [w Hw]; [lia|].
  assert (Hk : num_chunks total <= sh_chunk_idx cf.2).
  { apply (Hfin 0%nat w Hw). by rewrite (Hd _ _ Hw). }
  assert (Ha : 0 <= a <-> 0 <= a / PAGE).
  { unfold PAGE. pose proof (Z.div_mod a 4096). pose proof (Z.mod_pos_bound a 4096). lia. }
  destruct (decide (0 <= a / PAGE < total /\ mark (a / PAGE) = true)) as [[Hp Hm]|Hn'].
  - rewrite (proj2 (Z.leb_le _ _)), (proj2 (Z.ltb_lt _ _)), Hm by lia. cbn.
    destruct (Hdirty _ Hp Hm) as [Hge|[(i & p & e & d & Hi & _)|Hcp]].
    + pose proof (chunk_of_page _ _ Hp). lia.
    + discriminate (Hd _ _ Hi).
    + by apply Hcp.
  - destruct (Hclean a) as [?| ->]; [done|].
    destruct (0 <=? a) eqn:E1, (a / PAGE <? total) eqn:E2, (mark (a / PAGE)) eqn:E3; try done.
    rewrite Z.leb_le in E1. rewrite Z.ltb_lt in E2. exfalso. apply Hn'. split; [lia|done].
Qed.

(** A thread on its own, run with enough fuel. *)
Lemma run_worker_ok dst0 fuel w sh :
  copy_inv dst0 1 ([w], sh) -> (copy_measure ([w], sh) <= fuel)%nat ->
  exists sh', run_worker fuel c w sh = Ok (Some sh') /\ copy_inv dst0 1 ([W_done], sh').
Proof using Hc.
  revert w sh. induction fuel as [|fuel IH]; intros w sh Hinv Hf.
  { unfold copy_measure in Hf. cbn in Hf. destruct w; cbn in Hf; try lia. by exists sh. }
  destruct (decide (w = W_done)) as [->|Hw].
  { by exists sh. }
  destruct (worker_progress dst0 1 [w] sh 0 w) as (w' & sh' & Hst & Hm); [done..|].
  destruct (IH w' sh') as (sh'' & Hr & Hi).
  - eapply (copy_step_inv dst0 1); [done|exact Hinv|]. by apply (copy_step_thread c [w] sh 0 w).
  - change (<[0%nat := w']> [w]) with [w'] in Hm. lia.
  - exists sh''. split; [|done]. destruct w; try done; cbn [run_worker]; rewrite Hst; exact Hr.
Qed.
End copy.

(** ** Theorems *)

(** Bound on the number of steps of all threads together. *)
Definition copy_bound (total_pages : Z) (n : nat) : nat :=
  (260 * Z.to_nat (num_chunks total_pages) + 2 * n)%nat.

Lemma copy_start_measure c n dst :
  copy_measure c (copy_start n dst) = copy_bound (cc_total_pages c) n.
Proof.
  unfold copy_measure, copy_bound, copy_start. cbn -[Nat.mul]. rewrite Z.sub_0_r. f_equal.
  induction n as [|n IH]; [done|]. cbn -[Nat.mul] in *. lia.
Qed.

(** The copy as one thread runs it. *)
Lemma run_worker_restores c dst :
  CopyContext_ok c ->
  exists sh, run_worker (copy_bound (cc_total_pages c) 1) c (W_fetch 0) (copy_start 1 dst).2 = Ok (Some sh) /\
    sh_dst sh ≡ restored (cc_src c) (cc_bitmap c) (cc_total_pages c) dst.
Proof.
  intros Hc. destruct (run_worker_ok c Hc dst (copy_bound (cc_total_pages c) 1) (W_fetch 0)
    (copy_start 1 dst).2) as (sh & Hr & Hi).
  - apply (copy_start_inv c Hc).
  - rewrite <- (copy_start_measure c 1 dst). done.
  - exists sh. split; [done|]. apply (copy_inv_done c Hc dst 1 ([W_done], sh)); [lia|done|].
    by constructor.
Qed.

(** C2: however the copy threads interleave, no step reads or writes out of
    bounds (an unfinished configuration can always step), and when all of them
    have finished, guest RAM holds the snapshot's bytes on every page marked in
    the bitmap and is untouched elsewhere: no page is lost, torn or copied to
    the wrong place. *)
Theorem parallel_copy_restores_ram c n dst cf :
  CopyContext_ok c -> (0 < n)%nat -> Z.of_nat n < 2 ^ 60 -> rtc (copy_step c) (copy_start n dst) cf ->
  (all_done cf \/ exists cf', copy_step c cf cf') /\
  (all_done cf -> sh_dst cf.2 ≡ restored (cc_src c) (cc_bitmap c) (cc_total_pages c) dst).
Proof.
  intros Hc Hn0 Hn Hst. apply rtc_nsteps in Hst as [k Hst].
  destruct (copy_run_inv c Hc dst n k _ cf Hn (copy_start_inv c Hc dst n) Hst) as [Hinv _].
  split; [|by apply (copy_inv_done c Hc dst n)].
  destruct (decide (Forall (fun w => w = W_done) cf.1)) as [Hd|Hd]; [by left|right].
  apply not_Forall_Exists in Hd; [|apply _]. apply Exists_exists in Hd as (w & [i Hi]%list_elem_of_lookup & Hw).
  destruct cf as [ws sh]. destruct (worker_progress c Hc dst n ws sh i w Hn Hinv Hi Hw) as (w' & sh' & Hs & _).
  eexists. by eapply copy_step_thread.
Qed.

(** C3: the copy ends: no schedule makes the threads together take more than
    260 steps per chunk plus 2 per thread. *)
Theorem parallel_copy_terminates c n dst k cf :
  CopyContext_ok c -> Z.of_nat n < 2 ^ 60 -> nsteps (copy_step c) k (copy_start n dst) cf ->
  (k <= copy_bound (cc_total_pages c) n)%nat.
Proof.
  intros Hc Hn Hst. rewrite <- (copy_start_measure c n dst).
  destruct (copy_run_inv c Hc dst n k _ cf Hn (copy_start_inv c Hc dst n) Hst). lia.
Qed.
