(* ===== verification/Lazy.v ===== *)
(** * Demand-paged restore (userfaultfd)

    [init_uffd], [start_uffd_thread], [uffd_worker] and the ring pre-faulting
    lambda of [restore_snapshot] (src/src/vmm.cpp).  The kernel is the host: a
    UFFDIO_COPY or UFFDIO_ZEROPAGE that returns 0 has put the page into guest
    RAM, one that fails has not.  The kernel that refuses a page already there
    with EEXIST is [uffd_kernel]. *)
From S2P Require Import Prelude Memory Codec State Logic Snapshot CopyWorkers.
From stdpp Require Import options.

Definition UFFD_EVENT_PAGEFAULT : Z := 0x12.
Definition POLLIN : Z := 1.

(** [addr & ~(PAGE - 1)] on a 64-bit address. *)
Definition page_align (addr : Z) : Z := Z.land addr (bnot 64 (PAGE - 1)).

(** Whether the snapshot has the page: [false] when there is no bitmap. *)
Definition uffd_is_dirty (u : Uffd) (total_pages page_idx : Z) : result bool :=
  match snap_bitmap_buf_ u with
  | [] => Ok false
  | bm => if page_idx <? total_pages then page_bit bm page_idx else Ok false
  end.

Section uffd.
  Context {H : Host}.

Definition init_uffd : M bool :=
  r ← sys sys_userfaultfd;
  upd_lazy (fun u => u <| uffd_ := r_ret r |>) ;;
  if r_ret r <? 0 then mret false else
  a ← sys sys_uffdio_api;
  if r_ret a <? 0 then
    sys_ (sys_close (r_ret r)) ;; upd_lazy (fun u => u <| uffd_ := -1 |>) ;; mret false
  else
  s ← gets id;
  g ← sys (sys_uffdio_register (ram_ s) (ram_bytes_ s));
  if r_ret g <? 0 then
    sys_ (sys_close (r_ret r)) ;; upd_lazy (fun u => u <| uffd_ := -1 |>) ;; mret false
  else
  w ← sys sys_eventfd;
  upd_lazy (fun u => u <| uffd_wakeup_fd_ := r_ret w |>) ;;
  mret true.

Definition start_uffd_thread : M unit :=
  u ← gets lazy_;
  if (uffd_ u <? 0) || uffd_running_ u then skip else
  upd_lazy (fun u => u <| uffd_running_ := true |>) ;;
  sys_ (sys_pthread_create ThUffd).

(** The page in RAM once the kernel has accepted it. *)
Definition put_page (off : Z) (page : list Z) : M unit :=
  modify (fun s => s <| ram_mem_ ::= (fun m => mem_set m off page) |>).

(** [while (ioctl(uffd_, UFFDIO_COPY, &copy) < 0) { if (errno == EAGAIN)
    continue; ..; break; }]; [None] is the fuel running out. *)
Fixpoint uffd_copy (fuel : nat) (addr off : Z) (page : list Z) : M (option unit) :=
  match fuel with
  | O => mret None
  | S fuel' =>
    r ← sys (sys_uffdio_copy addr page);
    if r_ret r <? 0 then
      if r_errno r =? EAGAIN then uffd_copy fuel' addr off page else mret (Some ())
    else put_page off page ;; mret (Some ())
  end.

Fixpoint uffd_zeropage (fuel : nat) (addr off : Z) : M (option unit) :=
  match fuel with
  | O => mret None
  | S fuel' =>
    r ← sys (sys_uffdio_zeropage addr PAGE);
    if r_ret r <? 0 then
      if r_errno r =? EAGAIN then uffd_zeropage fuel' addr off else mret (Some ())
    else put_page off (zeros PAGE) ;; mret (Some ())
  end.

(** The handling of one UFFD_EVENT_PAGEFAULT message: [Some n] adds [n] to the
    fault count. *)
Definition uffd_fault (fuel : nat) (address : Z) : M (option Z) :=
  s ← gets id;
  let u := lazy_ s in
  let fault_addr := page_align address in
  if (fault_addr <? ram_ s) || (ram_ s + ram_bytes_ s <=? fault_addr) then mret (Some 0) else
  let offset := fault_addr - ram_ s in
  let page_idx := offset / PAGE in
  is_dirty ← lift (uffd_is_dirty u (snap_total_pages_ u) page_idx);
  o ← match (if (is_dirty : bool) then snap_ram_ u else None) with
      | Some src => uffd_copy fuel fault_addr offset (mem_get src offset PAGE)
      | None => uffd_zeropage fuel fault_addr offset
      end;
  mret (match o with Some _ => Some 1 | None => None end).

(** [uffd_worker]: [total] is its local [total_faults]; the result is the count
    at the end of the loop.  The poll reply carries the two [revents]; the read
    reply is a [struct uffd_msg]. *)
Fixpoint uffd_loop (fuel : nat) (total : Z) : M (option Z) :=
  match fuel with
  | O => mret None
  | S fuel' =>
    u ← gets lazy_;
    if negb (uffd_running_ u) then mret (Some total) else
    p ← sys (sys_poll [uffd_ u; uffd_wakeup_fd_ u] (-1));
    if r_ret p <=? 0 then
      if (r_ret p <? 0) && (r_errno p =? EINTR) then uffd_loop fuel' total
      else mret (Some total)
    else if has_bits (nth 1 (r_data p) 0) POLLIN then mret (Some total)
    else if negb (has_bits (nth 0 (r_data p) 0) POLLIN) then uffd_loop fuel' total
    else
    r ← sys (sys_read (uffd_ u) 32);
    if r_ret r <=? 0 then
      if (r_ret r <? 0) && ((r_errno r =? EAGAIN) || (r_errno r =? EINTR)) then uffd_loop fuel' total
      else mret (Some total)
    else if nth 0 (r_data r) 0 =? UFFD_EVENT_PAGEFAULT then
      o ← uffd_fault fuel' (le_dec (take 8 (drop 16 (r_data r))));
      match o with
      | None => mret None
      | Some n =>
        when (negb (n =? 0)) (upd_lazy (fun u => u <| uffd_fault_count_ := total + n |>)) ;;
        uffd_loop fuel' (total + n)
      end
    else uffd_loop fuel' total
  end.

Definition uffd_worker (fuel : nat) : M (option unit) :=
  o ← uffd_loop fuel 0;
  match o with
  | None => mret None
  | Some total => upd_lazy (fun u => u <| uffd_fault_count_ := total |>) ;; mret (Some ())
  end.

(** [prefault_gpa]: one attempt, its result ignored. *)
Definition prefault_gpa (gpa : Z) : M unit :=
  s ← gets id;
  let u := lazy_ s in
  if (gpa =? 0) || (ram_bytes_ s <=? gpa) then skip else
  let fault_addr := page_align (u64 (ram_ s + gpa)) in
  let offset := fault_addr - ram_ s in
  let page_idx := offset / PAGE in
  is_dirty ← lift (uffd_is_dirty u (ram_bytes_ s / PAGE) page_idx);
  match (if (is_dirty : bool) then snap_ram_ u else None) with
  | Some src =>
    r ← sys (sys_uffdio_copy fault_addr (mem_get src offset PAGE));
    when (0 <=? r_ret r) (put_page offset (mem_get src offset PAGE))
  | None =>
    r ← sys (sys_uffdio_zeropage fault_addr PAGE);
    when (0 <=? r_ret r) (put_page offset (zeros PAGE))
  end.
End uffd.

(** ** Demand paging gives the guest the memory an eager copy would *)

Lemma page_align_spec a : fits 64 a -> page_align a = a / PAGE * PAGE.
Proof.
  intros Ha. unfold page_align. rewrite land_bnot_ldiff by done.
  change (PAGE - 1) with (Z.ones 12). rewrite Z.ldiff_ones_r by done.
  rewrite Z.shiftl_mul_pow2, Z.shiftr_div_pow2 by done. done.
Qed.

(** A VMM set up for demand paging of the snapshot RAM [src] with bitmap [bm]. *)
Record lazy_set_up (src : mem) (bm : list Z) (s : Vmm) : Prop := {
  lr_src : snap_ram_ (lazy_ s) = Some src;
  lr_bm : snap_bitmap_buf_ (lazy_ s) = bm;
  lr_total : snap_total_pages_ (lazy_ s) = ram_bytes_ s / PAGE;
  lr_align : ram_ s mod PAGE = 0;
  lr_range : 0 <= ram_ s /\ ram_ s + ram_bytes_ s < 2 ^ 64;
  lr_pages : ram_bytes_ s mod PAGE = 0;
}.

(** The snapshot has a bitmap, with a bit for every page. *)
Definition has_bitmap (bm : list Z) (s : Vmm) : Prop :=
  bm <> [] /\ ram_bytes_ s / PAGE <= 8 * Z.of_nat (length bm).

(** The pages the kernel has put into the mapping so far. *)
Definition populates (a : Z) (e : syscall * reply) : bool :=
  (r_ret e.2 =? 0) &&
  match e.1 with
  | sys_uffdio_copy dst _ => dst =? a
  | sys_uffdio_zeropage start _ => start =? a
  | _ => false
  end.
Definition populated (t : trace) (a : Z) : bool := existsb (populates a) t.

Lemma populated_snoc t e a : populated (t ++ [e]) a = populated t a || populates a e.
Proof. unfold populated. rewrite existsb_app. cbn [existsb]. by rewrite orb_false_r. Qed.
Global Arguments populated : simpl never.

(** A faulting address inside guest RAM. *)
Definition in_guest (s : Vmm) (addr : Z) : Prop := ram_ s <= addr < ram_ s + ram_bytes_ s.

(** RAM after the page of offset [x0] has been served. *)
Definition serve (target m : mem) (x0 : Z) : mem :=
  fun x => if bool_decide (x / PAGE = x0 / PAGE) then target x else m x.

Lemma aligned_split b a : b mod PAGE = 0 -> (a / PAGE * PAGE - b) = (a - b) / PAGE * PAGE.
Proof.
  intros Hb. unfold PAGE in *. pose proof (Z.div_mod b 4096).
  replace (a - b) with (a + (- (b / 4096)) * 4096) by lia. rewrite Z.div_add by lia. lia.
Qed.

Lemma serve_copy m src target x0 :
  (forall x, x / PAGE = x0 / PAGE -> target x = src x) ->
  mem_set m (x0 / PAGE * PAGE) (mem_get src (x0 / PAGE * PAGE) PAGE) ≡ serve target m x0.
Proof.
  intros Ht x. unfold serve.
  assert (Hin : x0 / PAGE * PAGE <= x < x0 / PAGE * PAGE + PAGE <-> x / PAGE = x0 / PAGE).
  { unfold PAGE. pose proof (Z.div_mod x 4096). pose proof (Z.mod_pos_bound x 4096).
    split; [|lia]. intros Hr. symmetry. apply (Z.div_unique_pos _ _ _ (x - x0 / 4096 * 4096)); lia. }
  case_bool_decide as Hp.
  - rewrite mem_set_inside by (rewrite mem_get_length; apply Hin in Hp; unfold PAGE in *; lia).
    rewrite Ht by done. apply nth_lookup_Some. apply Hin in Hp. unfold PAGE in *.
    rewrite mem_get_lookup by lia. do 2 f_equal. lia.
  - apply mem_set_outside. rewrite mem_get_length. unfold PAGE in *. lia.
Qed.

Lemma zeros_as_get : zeros PAGE = mem_get mem_zero 0 PAGE.
Proof. reflexivity. Qed.

Lemma mem_get_zero a n : mem_get mem_zero a n = mem_get mem_zero 0 n.
Proof. unfold mem_get. by apply list_fmap_ext. Qed.

Section facts.
  Context {H : Host}.

(** What the kernel answers: a page that is not yet in the mapping is put
    there; for one that already is, the call fails with EEXIST and changes
    nothing. *)
Definition uffd_answer (t : trace) (addr : Z) (r : reply) : Prop :=
  if populated t addr then r_ret r = -1 /\ r_errno r = EEXIST else r_ret r = 0.
Definition uffd_kernel : Prop :=
  (forall t addr page, uffd_answer t addr (reply_of t (sys_uffdio_copy addr page))) /\
  (forall t addr len, uffd_answer t addr (reply_of t (sys_uffdio_zeropage addr len))).

(** The state after the page of offset [x0] was asked for. *)
Definition served (target : mem) (x0 : Z) (s s' : Vmm) : Prop :=
  let p := ram_ s + x0 / PAGE * PAGE in
  lazy_ s' = lazy_ s /\ ram_ s' = ram_ s /\ ram_bytes_ s' = ram_bytes_ s /\
  (forall a, populated (trace_ s') a = populated (trace_ s) a || (p =? a)) /\
  ram_mem_ s' ≡ if populated (trace_ s) p then ram_mem_ s else serve target (ram_mem_ s) x0.

Lemma uffd_copy_served target src x0 fuel s :
  uffd_kernel -> (forall x, x / PAGE = x0 / PAGE -> target x = src x) -> (0 < fuel)%nat ->
  wp (uffd_copy fuel (ram_ s + x0 / PAGE * PAGE) (x0 / PAGE * PAGE) (mem_get src (x0 / PAGE * PAGE) PAGE))
    (fun o s' => o = Some () /\ served target x0 s s') s.
Proof.
  intros [Hk _] Ht Hf. destruct fuel as [|fuel]; [lia|]. cbn [uffd_copy]. unfold put_page, served. wp_run.
  all: pose proof (Hk (trace_ s) (ram_ s + x0 / PAGE * PAGE) (mem_get src (x0 / PAGE * PAGE) PAGE)) as Ha;
    rewrite <- Hr in Ha; unfold uffd_answer in Ha.
  all: destruct (populated (trace_ s) (ram_ s + x0 / PAGE * PAGE)) eqn:Ep;
    [destruct Ha as [Ha1 Ha2]|]; rewrite ?Ha1, ?Ha2, ?Ha in Hb; try done;
    try (rewrite ?Ha2 in Hb0; done); subst; cbn; split_and!; try done.
  - intros a. rewrite populated_snoc. unfold populates at 1. cbn. rewrite Ha1. cbn. rewrite orb_false_r.
    destruct (Z.eqb_spec (ram_ s + x0 / PAGE * PAGE) a) as [<-|]; [by rewrite Ep|by rewrite orb_false_r].
  - intros a. rewrite populated_snoc. unfold populates at 1. cbn. by rewrite Ha.
  - by apply serve_copy.
Qed.

Lemma uffd_zeropage_served target x0 fuel s :
  uffd_kernel -> (forall x, x / PAGE = x0 / PAGE -> target x = 0) -> (0 < fuel)%nat ->
  wp (uffd_zeropage fuel (ram_ s + x0 / PAGE * PAGE) (x0 / PAGE * PAGE))
    (fun o s' => o = Some () /\ served target x0 s s') s.
Proof.
  intros [_ Hk] Ht Hf. destruct fuel as [|fuel]; [lia|]. cbn [uffd_zeropage]. unfold put_page, served. wp_run.
  all: pose proof (Hk (trace_ s) (ram_ s + x0 / PAGE * PAGE) PAGE) as Ha;
    rewrite <- Hr in Ha; unfold uffd_answer in Ha.
  all: destruct (populated (trace_ s) (ram_ s + x0 / PAGE * PAGE)) eqn:Ep;
    [destruct Ha as [Ha1 Ha2]|]; rewrite ?Ha1, ?Ha2, ?Ha in Hb; try done;
    try (rewrite ?Ha2 in Hb0; done); subst; cbn; split_and!; try done.
  - intros a. rewrite populated_snoc. unfold populates at 1. cbn. rewrite Ha1. cbn. rewrite orb_false_r.
    destruct (Z.eqb_spec (ram_ s + x0 / PAGE * PAGE) a) as [<-|]; [by rewrite Ep|by rewrite orb_false_r].
  - intros a. rewrite populated_snoc. unfold populates at 1. cbn. by rewrite Ha.
  - rewrite zeros_as_get, <- (mem_get_zero (x0 / PAGE * PAGE)). by apply serve_copy.
Qed.

(** The page the worker decides on is the page of the eager restore over zeroed
    memory. *)
Lemma uffd_fault_ok src bm s addr fuel :
  uffd_kernel -> lazy_set_up src bm s -> bm = [] \/ has_bitmap bm s -> in_guest s addr -> (0 < fuel)%nat ->
  wp (uffd_fault fuel addr) (fun o s' => o = Some 1 /\
    served (restored src bm (ram_bytes_ s / PAGE) mem_zero) (addr - ram_ s) s s') s.
Proof.
  intros Hk [Hsrc Hbm Htot Hal Hrg Hpg] Hcov Hin Hf.
  assert (Hfit : fits 64 addr) by (unfold fits, in_guest in *; lia).
  unfold uffd_fault. wp_run; cbn [id] in *; rewrite page_align_spec in * by done.
  { exfalso. unfold in_guest, PAGE in *. pose proof (Z.div_mod addr 4096). pose proof (Z.mod_pos_bound addr 4096).
    pose proof (Z.div_mod (ram_ s) 4096). apply orb_true_iff in Hb as [Hb|Hb];
    [apply Z.ltb_lt in Hb|apply Z.leb_le in Hb]; lia. }
  clear Hb. set (x0 := addr - ram_ s).
  assert (Hpa : addr / PAGE * PAGE = ram_ s + x0 / PAGE * PAGE)
    by (pose proof (aligned_split (ram_ s) addr Hal); unfold x0; lia).
  rewrite Hpa. replace (ram_ s + x0 / PAGE * PAGE - ram_ s) with (x0 / PAGE * PAGE) by lia.
  assert (Hx0 : 0 <= x0 / PAGE < ram_bytes_ s / PAGE).
  { unfold in_guest, x0, PAGE in *. split; [apply Z.div_pos; lia|].
    apply Z.div_lt_upper_bound; [lia|]. pose proof (Z.div_mod (ram_bytes_ s) 4096). lia. }
  rewrite Z.div_mul by done.
  assert (Hd : uffd_is_dirty (lazy_ s) (snap_total_pages_ (lazy_ s)) (x0 / PAGE) = Ok (marked bm (x0 / PAGE))).
  { unfold uffd_is_dirty. rewrite Hbm, Htot. destruct Hcov as [->|[_ Hcov]]; [done|].
    unfold marked, page_bit.
    destruct (lookup_lt_is_Some_2 bm (Z.to_nat (x0 / PAGE / 8))) as [y Hy].
    { assert (0 <= x0 / PAGE / 8 < Z.of_nat (length bm)); [|lia].
      split; [apply Z.div_pos; lia|apply Z.div_lt_upper_bound; lia]. }
    destruct bm as [|b bm']; [done|]. rewrite (proj2 (Z.ltb_lt _ _)) by lia. by rewrite Hy. }
  assert (Hrest : forall x, x / PAGE = x0 / PAGE ->
    restored src bm (ram_bytes_ s / PAGE) mem_zero x = if marked bm (x0 / PAGE) then src x else 0).
  { intros x Hx. unfold restored. rewrite Hx.
    assert (0 <= x) by (unfold PAGE in *; pose proof (Z.div_mod x 4096); pose proof (Z.mod_pos_bound x 4096); lia).
    rewrite (proj2 (Z.leb_le 0 x)), (proj2 (Z.ltb_lt _ _)) by lia. done. }
  eapply wp_lift; [exact Hd|]. apply wp_bind. destruct (marked bm (x0 / PAGE)) eqn:Em.
  - rewrite Hsrc. wp_use uffd_copy_served; [done..|]. cbv beta. intros o s' [-> Hs']. by wp_run.
  - wp_use uffd_zeropage_served; [done..|]. cbv beta. intros o s' [-> Hs']. by wp_run.
Qed.

(** Every page that is in the mapping holds what it should, every other one is
    as it was. *)
Definition paged (target m0 : mem) (s : Vmm) : Prop :=
  forall x, ram_mem_ s x = if populated (trace_ s) (ram_ s + x / PAGE * PAGE) then target x else m0 x.

Lemma served_paged target m0 x0 s s' :
  served target x0 s s' -> paged target m0 s -> paged target m0 s'.
Proof.
  intros (_ & Er & _ & Hpop & Hm) Hp x. rewrite Hpop, Er, (Hm x).
  destruct (Z.eqb_spec (ram_ s + x0 / PAGE * PAGE) (ram_ s + x / PAGE * PAGE)) as [E|E].
  - rewrite orb_true_r. destruct (populated (trace_ s) _) eqn:Ep.
    + rewrite E in Ep. by rewrite (Hp x), Ep.
    + unfold serve. rewrite bool_decide_true; [done|]. unfold PAGE in *. lia.
  - rewrite orb_false_r. destruct (populated (trace_ s) (ram_ s + x0 / PAGE * PAGE)) eqn:Ep; [apply Hp|].
    unfold serve. rewrite bool_decide_false; [apply Hp|]. unfold PAGE in *. congruence.
Qed.

Lemma uffd_faults_ok src bm addrs m0 s :
  uffd_kernel -> lazy_set_up src bm s -> has_bitmap bm s -> Forall (in_guest s) addrs ->
  let target := restored src bm (ram_bytes_ s / PAGE) mem_zero in
  paged target m0 s ->
  wp (for_each addrs (fun a => uffd_fault 1 a ;; skip)) (fun _ s' =>
    paged target m0 s' /\ ram_ s' = ram_ s /\
    forall a, populated (trace_ s') a = populated (trace_ s) a ||
      existsb (fun addr => ram_ s + (addr - ram_ s) / PAGE * PAGE =? a) addrs) s.
Proof.
  intros Hk Hr Hbm Hin target Hp. revert Hin. subst target.
  revert s Hr Hbm Hp. induction addrs as [|a addrs IH]; intros s Hr Hbm Hp Hin.
  { wp_run. split_and!; try done. intros a. by rewrite orb_false_r. }
  apply Forall_cons in Hin as [Ha Hin]. cbn [for_each]. wp_run.
  wp_use (uffd_fault_ok src bm s a 1 Hk Hr (or_intror Hbm) Ha); [lia|].
  intros o s1 [_ Hs]. wp_run. pose proof (served_paged _ _ _ _ _ Hs Hp) as Hp1.
  destruct Hs as (E1 & E2 & E3 & Hpop & _). destruct Hr, Hbm as [Hne Hcov].
  eapply wp_mono; [apply IH|].
  - split; by rewrite ?E1, ?E2, ?E3.
  - split; [done|]. by rewrite E3.
  - by rewrite E3.
  - unfold in_guest in *. by rewrite E2, E3.
  - cbv beta. rewrite E2, E3. intros _ s2 (Hp2 & Er2 & Hpop2). split_and!; try done.
    intros b. rewrite Hpop2, Hpop. cbn [existsb]. by rewrite orb_assoc.
Qed.

(** C9: serving page faults on demand gives the guest the memory the eager copy
    would have given it, for a snapshot that has its bitmap and a mapping none of
    whose pages is there yet: after any faults, in any order and with repeats,
    every page that faulted holds the snapshot's page if the bitmap marks it and
    zeros if not, and no other page has changed.  The kernel is taken to put a
    missing page into the mapping and to refuse one that is there with EEXIST. *)
Theorem demand_paging_refines_copy src bm addrs s :
  uffd_kernel -> lazy_set_up src bm s -> has_bitmap bm s ->
  (forall a, populated (trace_ s) a = false) -> Forall (in_guest s) addrs ->
  wp (for_each addrs (fun a => uffd_fault 1 a ;; skip)) (fun _ s' =>
    forall x, ram_mem_ s' x =
      if bool_decide (Exists (fun a => x / PAGE = (a - ram_ s) / PAGE) addrs)
      then restored src bm (ram_bytes_ s / PAGE) mem_zero x else ram_mem_ s x) s.
Proof.
  intros Hk Hr Hbm Hnone Hin.
  eapply wp_mono; [apply (uffd_faults_ok src bm addrs (ram_mem_ s) s Hk Hr Hbm Hin)|].
  { intros x. by rewrite Hnone. }
  cbv beta. intros _ s' (Hp & Er & Hpop) x. rewrite (Hp x), Hpop, Hnone, Er. cbn [orb].
  assert (existsb (fun addr => ram_ s + (addr - ram_ s) / PAGE * PAGE =? ram_ s + x / PAGE * PAGE) addrs =
    bool_decide (Exists (fun a => x / PAGE = (a - ram_ s) / PAGE) addrs)) as ->; [|by case_bool_decide].
  apply Bool.eq_iff_eq_true. rewrite bool_decide_eq_true, existsb_exists, Exists_exists.
  setoid_rewrite list_elem_of_In. setoid_rewrite Z.eqb_eq.
  split; intros (a & Ha & E); exists a; (split; [done|]); unfold PAGE in *; lia.
Qed.

(** but a snapshot without a bitmap (a header with [bitmap_bytes == 0],
    which the file format allows and the eager restore handles by scanning) is
    served as all zeros, whatever its RAM holds. *)
Theorem demand_paging_without_bitmap src addr s :
  uffd_kernel -> lazy_set_up src [] s -> populated (trace_ s) (ram_ s + (addr - ram_ s) / PAGE * PAGE) = false ->
  in_guest s addr ->
  wp (uffd_fault 1 addr) (fun _ s' =>
    forall x, x / PAGE = (addr - ram_ s) / PAGE -> ram_mem_ s' x = 0) s.
Proof.
  intros Hk Hr Hn Hin. wp_use (uffd_fault_ok src [] s addr 1 Hk Hr (or_introl eq_refl) Hin); [lia|].
  intros o s' (_ & _ & _ & _ & _ & Hm) x Hx. rewrite (Hm x), Hn. unfold serve. rewrite bool_decide_true by done.
  unfold restored. by rewrite andb_false_r.
Qed.
End facts.
