(* ===== verification/Restore.v ===== *)
(** * Restoring a snapshot

    [Vmm::restore_snapshot] and [Vmm::restore_snapshot_file] of
    src/src/vmm.cpp: guest RAM (copied eagerly by several threads, or left to
    userfaultfd), the KVM state in its order, the virtio devices, the UART.
    Clock readings that only feed debug output are left out. *)
From S2P Require Import Prelude Memory Codec State Logic VirtioRegs VhostUserProto VirtioFs VirtioNet Snapshot SnapFile CopyWorkers CopyFacts Lazy.
From stdpp Require Import options.

(** [struct kvm_cpuid2] with its entries. *)
Definition cpuid_buffer (entries : list (list Z)) : list Z :=
  le_enc 4 (Z.of_nat (length entries)) ++ zeros 4 ++ mjoin entries.

(** The fields a restored queue takes from the header. *)
Definition load_vq (v : VqState) (q : Virtqueue) : Virtqueue :=
  q <| vq_num := vs_num v |> <| vq_ready := vs_ready v |> <| vq_desc := vs_desc v |>
    <| vq_driver := vs_driver v |> <| vq_device := vs_device v |>.

(** [for (i = 0; i < NUM_QUEUES && i < n; i++)] over the two queues. *)
Fixpoint restore_vqs (n : Z) (vs : list VqState) (qs : list Virtqueue) : list Virtqueue :=
  match vs, qs with
  | v :: vs', q :: qs' => (if 0 <? n then load_vq v q else q) :: restore_vqs (n - 1) vs' qs'
  | _, _ => qs
  end.

(** The ring addresses pre-faulted for a device. *)
Fixpoint ring_gpas (n : Z) (vs : list VqState) : list Z :=
  match vs with
  | v :: vs' =>
    (if (0 <? n) && (0 <? vs_num v) then [vs_desc v; vs_driver v; vs_device v] else []) ++
    ring_gpas (n - 1) vs'
  | [] => []
  end.

(** [(uint64_t)lo | ((uint64_t)hi << 32)]. *)
Definition features_of (d : DevState) : Z := Z.lor (ds_features_lo d) (Z.shiftl (ds_features_hi d) 32).

(** The scan of the restore without a bitmap: pages that are not all zero. *)
Definition copy_nonzero (src : mem) (size : Z) (dst : mem) : mem :=
  foldl (fun m pg => if page_acc src (pg * PAGE) =? 0 then m
                     else mem_set m (pg * PAGE) (mem_get src (pg * PAGE) PAGE))
        dst (seqZ 0 ((size + PAGE - 1) / PAGE)).

Section restore.
  Context {H : Host}.

(** Fill [ram_] from the snapshot by the copy threads; the main thread is one
    of them.  By [parallel_copy_restores_ram] the interleaving does not matter,
    so the result is that of one thread. *)
Definition copy_with_bitmap (snap : Snapshot) : M unit :=
  s ← gets id;
  let total_pages := ram_bytes_ s / PAGE in
  let ctx := {| cc_src := sn_ram snap; cc_src_size := sn_ram_size snap;
                cc_dst_size := ram_bytes_ s; cc_bitmap := sn_dirty_bitmap snap;
                cc_total_pages := total_pages; cc_num_chunks := num_chunks total_pages |} in
  let helpers := replicate (Z.to_nat (num_copy_threads (copy_threads_ s) - 1)) ThCopy in
  for_each helpers (fun t => sys_ (sys_pthread_create t)) ;;
  r ← lift (run_worker (copy_bound total_pages 1) ctx (W_fetch 0)
              {| sh_dst := ram_mem_ s; sh_chunk_idx := 0; sh_total_dirty := 0 |});
  match r with
  | Some sh => modify (fun s => s <| ram_mem_ := sh_dst sh |>)
  | None => skip
  end ;;
  for_each helpers (fun t => sys_ (sys_pthread_join t)).

Definition restore_ram (snap : Snapshot) : M unit :=
  s ← gets id;
  let u := lazy_ s in let h := sn_hdr snap in
  if use_uffd_ u && negb (midway_uffd_ u) && (0 <=? uffd_ u) then
    upd_lazy (fun u => match snap_ram_ u with
      | Some _ => u
      | None => u <| snap_ram_ := Some (sn_ram snap) |>
                  <| snap_bitmap_buf_ := sn_dirty_bitmap snap |>
                  <| snap_total_pages_ := ram_bytes_ s / PAGE |>
      end) ;;
    for_each (ring_gpas (ds_num_vqs (h_fs h)) (ds_vq_state (h_fs h))) prefault_gpa ;;
    for_each (ring_gpas (ds_num_vqs (h_net h)) (ds_vq_state (h_net h))) prefault_gpa ;;
    start_uffd_thread
  else
    match sn_dirty_bitmap snap with
    | [] => modify (fun s => s <| ram_mem_ ::= copy_nonzero (sn_ram snap) (ram_bytes_ s) |>)
    | _ => copy_with_bitmap snap
    end ;;
    when (midway_uffd_ u) (
      ok ← init_uffd;
      when ok start_uffd_thread).

(** [if (ioctl(fd, KVM_SET_.., &obj) < 0) return false;] *)
Definition kvm_set (what : kvm_item) (obj : list Z) : M bool :=
  r ← sys (sys_kvm_set what obj);
  mret (negb (r_ret r <? 0)).

Definition and_then (c k : M bool) : M bool :=
  ok ← c;
  if (ok : bool) then k else mret false.

Definition restore_kvm (snap : Snapshot) : M bool :=
  let h := sn_hdr snap in let k := h_kvm h in
  if Z.of_nat (length (sn_cpuid snap)) <? h_cpuid_nent h then fail_with OutOfBounds else
  let entries := take (Z.to_nat (h_cpuid_nent h)) (sn_cpuid snap) in
  modify (fun s => s <| cpuid_ := entries |>) ;;
  when (0 <? h_tsc_khz h) (sys_ (sys_kvm_set KvmTscKhz (le_enc 8 (h_tsc_khz h)))) ;;
  and_then (kvm_set KvmCpuid2 (cpuid_buffer entries)) (
  and_then (kvm_set KvmMpState (h_mp_state k)) (
  and_then (kvm_set KvmSregs (h_sregs k)) (
  and_then (kvm_set KvmRegs (h_regs k)) (
  and_then (kvm_set KvmXcrs (h_xcrs k)) (
  and_then (kvm_set KvmXsave (sn_xsave snap)) (
  and_then (kvm_set KvmDebugregs (h_debugregs k)) (
  and_then (kvm_set KvmLapic (h_lapic k)) (
  and_then (kvm_set KvmVcpuEvents (h_events k)) (
  (if Z.of_nat (length (sn_msrs snap)) <? h_num_msrs h then fail_with OutOfBounds else
   sys_ (sys_kvm_set KvmMsrs (msrs_buffer (take (Z.to_nat (h_num_msrs h)) (sn_msrs snap))))) ;;
  and_then (kvm_set KvmPicMaster (h_pic_master k)) (
  and_then (kvm_set KvmPicSlave (h_pic_slave k)) (
  and_then (kvm_set KvmIoapic (h_ioapic k)) (
  and_then (kvm_set KvmClock (h_clock k)) (
  kvm_set KvmPit2 (h_pit k)))))))))))))).

(** The device and UART registers. *)
Definition restore_devices (h : SnapshotHeader) : M unit :=
  upd_fs (fun d => d <| vdev_status_ := ds_status (h_fs h) |>
                     <| vdrv_features_ := features_of (h_fs h) |>
                     <| vqs_ ::= restore_vqs (ds_num_vqs (h_fs h)) (ds_vq_state (h_fs h)) |>) ;;
  upd_net (fun d => d <| net_status_ := ds_status (h_net h) |>
                      <| net_drv_features_ := features_of (h_net h) |>
                      <| net_vqs_ ::= restore_vqs (ds_num_vqs (h_net h)) (ds_vq_state (h_net h)) |>) ;;
  s ← gets id;
  when ((0 <=? vu_sock_ (vu_ s)) && has_bits (vdev_status_ (fs_ s)) DRIVER_OK) (
    upd_fs (fun d => d <| virtio_active_ := false |>) ;;
    vu_setup) ;;
  s ← gets id;
  when ((0 <=? tap_fd_ (net_ s)) && has_bits (net_status_ (net_ s)) DRIVER_OK) (
    upd_net (fun d => d <| net_active_ := true |>) ;;
    vhost_net_setup ;; skip) ;;
  upd_uart (fun u => u <| uart_ier_ := 0x0f |> <| uart_lsr_ := 0x60 |>
                       <| uart_lcr_ := 0x03 |> <| uart_mcr_ := 0x0b |>).

Definition restore_snapshot (snap : Snapshot) : M bool :=
  let h := sn_hdr snap in
  ram_mb ← gets ram_mb_;
  if negb (h_magic h =? SNAP_MAGIC) || negb (h_version h =? SNAP_VERSION) ||
     negb (h_ram_mb h =? ram_mb)
  then mret false else
  restore_ram snap ;;
  and_then (restore_kvm snap) (
    restore_devices h ;;
    modify (fun s => s <| ignore_next_signal_ := true |>) ;;
    mret true).

(** The fstat reply carries [st_size]; the mmap reply the bytes of the file. *)
Definition restore_snapshot_file (stack path : list Z) : M bool :=
  r ← sys (sys_open path false);
  let fd := r_ret r in
  if fd <? 0 then mret false else
  st ← sys (sys_fstat fd);
  if r_ret st <? 0 then sys_ (sys_close fd) ;; mret false else
  let size := le_dec (take 8 (r_data st)) in
  m ← sys (sys_mmap fd size);
  if r_ret m =? -1 then sys_ (sys_close fd) ;; mret false else
  let file := resize (Z.to_nat size) 0 (r_data m) in
  o ← lift (parse_snapshot stack (r_ret m) file);
  match o with
  | None => sys_ (sys_munmap (r_ret m) size) ;; sys_ (sys_close fd) ;; mret false
  | Some snap =>
    upd_lazy (fun u => u <| snap_mmap_base_ := r_ret m |> <| snap_mmap_sz_ := size |>
      <| snap_fd_ := fd |> <| snap_ram_ := Some (sn_ram snap) |>
      <| snap_bitmap_buf_ := sn_dirty_bitmap snap |>
      <| snap_total_pages_ := sn_ram_size snap / PAGE |>) ;;
    ok ← restore_snapshot snap;
    u ← gets lazy_;
    when ((negb (use_uffd_ u) && negb (midway_uffd_ u)) || (uffd_ u <? 0)) (
      sys_ (sys_munmap (r_ret m) size) ;;
      sys_ (sys_close fd) ;;
      upd_lazy (fun u => u <| snap_mmap_base_ := 0 |> <| snap_mmap_sz_ := 0 |> <| snap_fd_ := -1 |>)) ;;
    mret ok
  end.
End restore.
