(* ===== verification/RestoreFacts.v ===== *)
(** * A restored machine is the saved one

    Restoring checks the snapshot before touching anything, hands KVM the saved
    state in a fixed order, puts back the virtio registers and, with the RAM
    theorems of the copy threads, yields the machine the snapshot was taken of. *)
From S2P Require Import Prelude Memory Codec State Logic VirtioRegs VhostUserProto VirtioFs VirtioNet Transport Snapshot SnapFile SaveFacts CopyWorkers CopyFacts Lazy Restore.
From stdpp Require Import options.

(** The state handed to KVM, in order. *)
Definition kvm_put (t : trace) : list (kvm_item * list Z) :=
  omap (fun e => match e.1 with sys_kvm_set w obj => Some (w, obj) | _ => None end) t.

Lemma kvm_put_snoc t c r :
  kvm_put (t ++ [(c, r)]) =
  kvm_put t ++ match c with sys_kvm_set w obj => [(w, obj)] | _ => [] end.
Proof. unfold kvm_put. rewrite omap_app. by destruct c. Qed.
Global Arguments kvm_put : simpl never.

(** CPUID before the registers, XCR0 before the extended state, the special
    registers before the general ones, the interrupt chips last but for the
    clock and the timer. *)
Definition restore_order (snap : Snapshot) : list (kvm_item * list Z) :=
  let h := sn_hdr snap in let k := h_kvm h in
  (if 0 <? h_tsc_khz h then [(KvmTscKhz, le_enc 8 (h_tsc_khz h))] else []) ++
  [(KvmCpuid2, cpuid_buffer (sn_cpuid snap)); (KvmMpState, h_mp_state k);
   (KvmSregs, h_sregs k); (KvmRegs, h_regs k); (KvmXcrs, h_xcrs k);
   (KvmXsave, sn_xsave snap); (KvmDebugregs, h_debugregs k); (KvmLapic, h_lapic k);
   (KvmVcpuEvents, h_events k); (KvmMsrs, msrs_buffer (sn_msrs snap));
   (KvmPicMaster, h_pic_master k); (KvmPicSlave, h_pic_slave k); (KvmIoapic, h_ioapic k);
   (KvmClock, h_clock k); (KvmPit2, h_pit k)].

Section facts.
  Context {H : Host}.

(** KVM accepts whatever state it is given. *)
Definition kvm_accepts : Prop := forall t what obj, 0 <= r_ret (reply_of t (sys_kvm_set what obj)).

Lemma wp_and_then_set what obj (k : M bool) (Q : bool -> Vmm -> Prop) s :
  (forall r s', s' = s <| trace_ ::= (fun t => t ++ [(sys_kvm_set what obj, r)]) |> ->
     ~ kvm_accepts -> Q false s') ->
  (forall r s', s' = s <| trace_ ::= (fun t => t ++ [(sys_kvm_set what obj, r)]) |> -> wp k Q s') ->
  wp (and_then (kvm_set what obj) k) Q s.
Proof.
  intros HF HT. unfold and_then, kvm_set. wp_run; destruct (r_ret r <? 0) eqn:E; try done.
  - by apply (HT r).
  - apply (HF r); [done|]. intros Hacc. specialize (Hacc (trace_ s) what obj).
    rewrite Hr in E. apply Z.ltb_lt in E. lia.
Qed.

Lemma and_then_ret (c : M bool) Q s : wp (and_then c (mret true)) Q s -> wp c Q s.
Proof. unfold and_then, wp, mbind, M_bind. destruct (c s) as [[[] ?]|]; done. Qed.

(** A run that only called the host. *)
Definition only_trace (s s' : Vmm) : Prop := exists t, s' = s <| trace_ := t |>.

Lemma only_trace_refl s : only_trace s s.
Proof. exists (trace_ s). by destruct s. Qed.

Lemma only_trace_trans s1 s2 s3 : only_trace s1 s2 -> only_trace s2 s3 -> only_trace s1 s3.
Proof. intros [t2 ->] [t3 ->]. by exists t3. Qed.

Lemma only_trace_upd s f : only_trace s (s <| trace_ ::= f |>).
Proof. exists (f (trace_ s)). by destruct s. Qed.

(** A chain of state ioctls that stops at the first failure. *)
Definition set_chain (l : list (kvm_item * list Z)) (k : M bool) : M bool :=
  foldr (fun p k => and_then (kvm_set p.1 p.2) k) k l.

Lemma set_chain_spec l k (Q : bool -> Vmm -> Prop) s :
  (forall s', only_trace s s' -> ~ kvm_accepts -> Q false s') ->
  (forall s', only_trace s s' -> kvm_put (trace_ s') = kvm_put (trace_ s) ++ l -> wp k Q s') ->
  wp (set_chain l k) Q s.
Proof.
  revert s. induction l as [|[w obj] l IH]; intros s HF HT.
  { apply HT; [apply only_trace_refl|by rewrite app_nil_r]. }
  cbn [set_chain foldr fst snd]. apply wp_and_then_set; intros r s' ->.
  - intros Hn. apply HF; [apply only_trace_upd|done].
  - apply IH.
    + intros s'' Ht Hn. apply HF; [|done]. eapply only_trace_trans; [apply only_trace_upd|done].
    + intros s'' Ht Hp. apply HT; [eapply only_trace_trans; [apply only_trace_upd|done]|].
      rewrite Hp. cbn. by rewrite kvm_put_snoc, <- app_assoc.
Qed.

Lemma restore_kvm_spec snap s :
  h_cpuid_nent (sn_hdr snap) = Z.of_nat (length (sn_cpuid snap)) ->
  h_num_msrs (sn_hdr snap) = Z.of_nat (length (sn_msrs snap)) ->
  wp (restore_kvm snap) (fun ok s' =>
    only_trace (s <| cpuid_ := sn_cpuid snap |>) s' /\
    (ok = true -> kvm_put (trace_ s') = kvm_put (trace_ s) ++ restore_order snap) /\
    (kvm_accepts -> ok = true)) s.
Proof.
  intros Hc Hm. unfold restore_kvm, restore_order. rewrite Hc, Hm, !Nat2Z.id, !firstn_all, !Z.ltb_irrefl.
  set (k := h_kvm _). apply wp_bind, wp_modify. intros s0 Hs0. apply wp_bind.
  apply (wp_mono _ (fun _ s1 => only_trace s0 s1 /\
    kvm_put (trace_ s1) = kvm_put (trace_ s) ++
      if 0 <? h_tsc_khz (sn_hdr snap) then [(KvmTscKhz, le_enc 8 (h_tsc_khz (sn_hdr snap)))] else [])).
  { wp_run; subst; rewrite Hb; (split; [first [apply only_trace_upd|apply only_trace_refl]|]).
    - cbn. by rewrite kvm_put_snoc.
    - by rewrite app_nil_r. }
  intros _ s1 [Ht1 Hp1]. rewrite Hs0 in Ht1. clear Hs0 s0.
  lazymatch goal with |- wp _ ?Q s1 =>
    change (wp (set_chain [(KvmCpuid2, cpuid_buffer (sn_cpuid snap)); (KvmMpState, h_mp_state k);
      (KvmSregs, h_sregs k); (KvmRegs, h_regs k); (KvmXcrs, h_xcrs k); (KvmXsave, sn_xsave snap);
      (KvmDebugregs, h_debugregs k); (KvmLapic, h_lapic k); (KvmVcpuEvents, h_events k)]
      (sys_ (sys_kvm_set KvmMsrs (msrs_buffer (sn_msrs snap))) ;;
       set_chain [(KvmPicMaster, h_pic_master k); (KvmPicSlave, h_pic_slave k); (KvmIoapic, h_ioapic k);
         (KvmClock, h_clock k)] (kvm_set KvmPit2 (h_pit k)))) Q s1) end.
  apply set_chain_spec; intros s2 Ht2.
  { intros Hn. split_and!; [by eapply only_trace_trans|done|done]. }
  intros Hp2. wp_run.
  assert (Ht3 : only_trace (s <| cpuid_ := sn_cpuid snap |>) s0).
  { eapply only_trace_trans; [exact Ht1|]. eapply only_trace_trans; [exact Ht2|].
    subst. apply only_trace_upd. }
  assert (Hp3 : kvm_put (trace_ s0) = kvm_put (trace_ s2) ++ [(KvmMsrs, msrs_buffer (sn_msrs snap))])
    by (subst; cbn; by rewrite kvm_put_snoc).
  clear Hs. apply set_chain_spec; intros s4 Ht4.
  { intros Hn. split_and!; [by eapply only_trace_trans|done|done]. }
  pose proof (only_trace_trans _ _ _ Ht3 Ht4) as Ht4'.
  intros Hp4. apply and_then_ret. apply (set_chain_spec [(KvmPit2, h_pit k)]); intros s5 Ht5.
  { intros Hn. split_and!; [by eapply only_trace_trans|done|done]. }
  intros Hp5. wp_run. split_and!; [by eapply only_trace_trans| |done].
  intros _. rewrite Hp5, Hp4, Hp3, Hp2, Hp1, <- !app_assoc. done.
Qed.

(** ** The devices *)

(** What handing the queues to the backend leaves alone. *)
Definition untouched (s s' : Vmm) : Prop :=
  net_ s' = net_ s /\ ram_mem_ s' = ram_mem_ s /\ ram_bytes_ s' = ram_bytes_ s /\
  uart_ s' = uart_ s /\ con_ s' = con_ s /\ cpuid_ s' = cpuid_ s /\ lazy_ s' = lazy_ s /\
  ignore_next_signal_ s' = ignore_next_signal_ s /\ kvm_put (trace_ s') = kvm_put (trace_ s).

Lemma untouched_refl s : untouched s s.
Proof. done. Qed.

Lemma untouched_trans s1 s2 s3 : untouched s1 s2 -> untouched s2 s3 -> untouched s1 s3.
Proof. unfold untouched. intuition congruence. Qed.

Lemma vu_setup_queue_untouched i q s : wp (vu_setup_queue i q) (fun _ => untouched s) s.
Proof.
  unfold vu_setup_queue. wp_run; [done|..].
  all: repeat first
    [wp_one
    |eapply wp_mono; [apply vu_send_spec; cbn; rewrite ?length_app, ?le_enc_length; cbn; lia|];
     cbv beta; intros ? ? (? & ? & ?)].
  all: unwind; unfold untouched; cbn; rewrite !kvm_put_snoc, !app_nil_r; done.
Qed.

Lemma vu_setup_untouched s :
  length (vqs_ (fs_ s)) = 2%nat -> wp vu_setup (fun _ => untouched s) s.
Proof.
  intros Hl. unfold vu_setup. wp_run; [done|].
  eapply wp_mono; [apply (wp_for_each _ _ (fun s1 => untouched s s1 /\ length (vqs_ (fs_ s1)) = 2%nat));
    [done|]|].
  - intros i s1 Hin [Hu Hl1]. wp_run. destruct (get_at_some (vqs_ (fs_ s1)) (Z.of_nat i)) as (q & Hq & E).
    { rewrite Hl1. set_unfold. lia. }
    rewrite Nat2Z.id in Hq. eapply wp_lift; [exact E|].
    wp_use (wp_and _ _ _ _ (vu_setup_queue_untouched i q s1) (vu_setup_queue_spec i q s1 Hq)).
    intros _ s2 (Hu2 & q' & -> & _). split; [by eapply untouched_trans|]. cbn. by rewrite length_insert.
  - cbv beta. intros _ s1 [Hu _]. unfold start_irq_thread. wp_run; subst; unfold untouched in *; cbn;
      rewrite ?kvm_put_snoc, ?app_nil_r; tauto.
Qed.

Lemma vhost_net_setup_untouched s :
  wp vhost_net_setup (fun _ s' => fs_ s' = fs_ s /\ ram_mem_ s' = ram_mem_ s /\
    kvm_put (trace_ s') = kvm_put (trace_ s)) s.
Proof.
  unfold vhost_net_setup. wp_run; [done|]. unwind. by rewrite !kvm_put_snoc, !app_nil_r.
Qed.

Lemma features_roundtrip f : fits 64 f ->
  Z.lor (u32 (Z.land f 0xFFFFFFFF)) (Z.shiftl (u32 (Z.shiftr f 32)) 32) = f.
Proof.
  intros Hf. assert (Hd : fits 32 (f / 2 ^ 32)).
  { unfold fits in *. split; [apply Z.div_pos; lia|apply Z.div_lt_upper_bound; lia]. }
  rewrite land_lo32, Z.shiftr_div_pow2 by done.
  rewrite !wrap_id; [|done|by apply Z.mod_pos_bound].
  rewrite Z.lor_comm. rewrite Z.shiftl_mul_pow2 by done.
  rewrite <- Z.add_nocarry_lor.
  - pose proof (Z.div_mod f (2 ^ 32)). lia.
  - rewrite <- Z.shiftl_mul_pow2 by done. apply Z.bits_inj'. intros i Hi.
    rewrite Z.land_spec, Z.bits_0. destruct (Z_lt_le_dec i 32).
    + by rewrite Z.shiftl_spec_low.
    + rewrite Z.mod_pow2_bits_high by lia. apply andb_false_r.
Qed.

(** Loading what [DevState_of] saved gives back the register view of the
    queues, whatever eventfds they have now. *)
Lemma restore_vqs_roundtrip qs0 qs :
  length qs0 = 2%nat -> length qs = 2%nat ->
  queue_view <$> restore_vqs 2 (VqState_of <$> qs0) qs = queue_view <$> qs0.
Proof.
  intros H0 H1. destruct qs0 as [|[] [|[] [|]]], qs as [|[] [|[] [|]]]; done.
Qed.

Lemma restore_vqs_ok n vs qs :
  Forall (fun v => c_ok VqState_codec v) vs -> Forall Virtqueue_ok qs ->
  Forall Virtqueue_ok (restore_vqs n vs qs) /\ length (restore_vqs n vs qs) = length qs.
Proof.
  intros Hv. revert n qs. induction Hv as [|v vs Hv _ IH]; intros n qs Hq; [by destruct qs|].
  destruct Hq as [|q qs Hq Hqs]; [done|]. cbn [restore_vqs length].
  destruct (IH (n - 1) qs Hqs) as [IH1 ->]. split; [|done]. constructor; [|done].
  destruct (0 <? n); [|done]. destruct v, q. cbn in Hv. exact Hv.
Qed.

(** The registers a snapshot carries: status, accepted features, queues. *)
Definition saved_regs (t : transport) : Z * Z * list tqueue := (tr_status t, tr_features t, tr_queues t).

Lemma restore_devices_spec s0 s h :
  FsDev_ok (fs_ s0) -> NetDev_ok (net_ s0) -> FsDev_ok (fs_ s) -> NetDev_ok (net_ s) ->
  h_fs h = DevState_of (vdev_status_ (fs_ s0)) (vdrv_features_ (fs_ s0)) NUM_QUEUES (vqs_ (fs_ s0)) ->
  h_net h = DevState_of (net_status_ (net_ s0)) (net_drv_features_ (net_ s0)) NET_NUM_QUEUES
              (net_vqs_ (net_ s0)) ->
  wp (restore_devices h) (fun _ s' =>
    saved_regs (fs_view (fs_ s')) = saved_regs (fs_view (fs_ s0)) /\
    saved_regs (net_view (net_ s')) = saved_regs (net_view (net_ s0)) /\
    ram_mem_ s' = ram_mem_ s /\ kvm_put (trace_ s') = kvm_put (trace_ s)) s.
Proof.
  intros Hf0 Hn0 Hf Hn Ehf Ehn. unfold restore_devices. rewrite Ehf, Ehn. unfold NUM_QUEUES, NET_NUM_QUEUES.
  apply wp_bind. apply (wp_mono _ (fun _ s1 => FsDev_ok (fs_ s1) /\ net_ s1 = net_ s /\
    saved_regs (fs_view (fs_ s1)) = saved_regs (fs_view (fs_ s0)) /\
    ram_mem_ s1 = ram_mem_ s /\ kvm_put (trace_ s1) = kvm_put (trace_ s))).
  { destruct Hf0 as (Hl0 & Hq0 & _ & _ & Hfe0 & Hst0 & _).
    destruct Hf as (Hl & Hq & ? & ? & ? & ? & ? & ? & ?).
    wp_run. unwind. split_and!; try done.
    - destruct (restore_vqs_ok 2 (VqState_of <$> vqs_ (fs_ s0)) (vqs_ (fs_ s))) as [Hvq Hvl]; [|done|].
      { apply Forall_fmap. apply (Forall_impl _ _ _ Hq0). intros q (? & ? & ? & ? & ?). by cbn. }
      unfold FsDev_ok, features_of, DevState_of. cbn. rewrite features_roundtrip by done.
      rewrite Hvl. split_and!; done.
    - unfold saved_regs, fs_view, features_of, DevState_of. cbn.
      rewrite features_roundtrip, restore_vqs_roundtrip by done. done. }
  intros _ s1 (Hf1 & Hn1 & Hv1 & Hr1 & Hp1). clear Hf Hf0 Ehf Ehn.
  apply wp_bind. apply (wp_mono _ (fun _ s2 => FsDev_ok (fs_ s2) /\ NetDev_ok (net_ s2) /\
    saved_regs (fs_view (fs_ s2)) = saved_regs (fs_view (fs_ s0)) /\
    saved_regs (net_view (net_ s2)) = saved_regs (net_view (net_ s0)) /\
    ram_mem_ s2 = ram_mem_ s /\ kvm_put (trace_ s2) = kvm_put (trace_ s))).
  { destruct Hn0 as (Hl0 & Hq0 & _ & _ & Hfe0 & Hst0 & _). rewrite <- Hn1 in Hn.
    destruct Hn as (Hl & Hq & ? & ? & ? & ? & ? & ?).
    wp_run. unwind. split_and!; try done.
    - destruct (restore_vqs_ok 2 (VqState_of <$> net_vqs_ (net_ s0)) (net_vqs_ (net_ s1))) as [Hvq Hvl]; [|done|].
      { apply Forall_fmap. apply (Forall_impl _ _ _ Hq0). intros q (? & ? & ? & ? & ?). by cbn. }
      unfold NetDev_ok, features_of, DevState_of. cbn. rewrite features_roundtrip by done.
      rewrite Hvl. split_and!; done.
    - unfold saved_regs, net_view, features_of, DevState_of. cbn.
      rewrite features_roundtrip, restore_vqs_roundtrip by done. done. }
  intros _ s2 (Hf2 & Hn2 & Hv2 & Hw2 & Hr2 & Hp2). clear Hf1 Hn1 Hv1 Hr1 Hp1 s1.
  apply wp_bind, wp_gets, wp_bind.
  apply (wp_mono _ (fun _ s3 => fs_view (fs_ s3) = fs_view (fs_ s2) /\ untouched s2 s3)).
  { wp_run; [|done]. wp_use (wp_and _ _ _ _ (vu_setup_view s1 ltac:(subst; exact Hf2)) (vu_setup_untouched s1 ltac:(subst; apply Hf2))).
    intros _ s3 ([_ Hv3] & Hu3). rewrite Hv3. subst. done. }
  intros _ s3 (Hv3 & Hu3). apply wp_bind, wp_gets, wp_bind.
  destruct Hu3 as (En & Er & _ & _ & _ & _ & _ & _ & Ek).
  apply (wp_mono _ (fun _ s4 => fs_ s4 = fs_ s3 /\ net_view (net_ s4) = net_view (net_ s2) /\
    ram_mem_ s4 = ram_mem_ s3 /\ kvm_put (trace_ s4) = kvm_put (trace_ s3))).
  { rewrite <- En in Hn2 |- *. wp_run; [|done].
    wp_use (wp_and _ _ _ _ (vhost_net_setup_view s1 ltac:(subst; exact Hn2)) (vhost_net_setup_untouched s1)).
    intros _ s4 ([_ Hv4] & Hu4). wp_run. rewrite Hv4. subst. destruct Hu4 as (? & ? & ?). split_and!; done. }
  intros _ s4 (Ef & Hv4 & Er4 & Ek4). wp_run. subst. cbn.
  by rewrite Ef, Hv3, Hv4, Er4, Er, Ek4, Ek.
Qed.

(** ** Guest RAM, copied eagerly *)

(** A bitmap that covers RAM and leaves out only pages that are all zero. *)
Definition bitmap_sound (bm : list Z) (m : mem) (total : Z) : Prop :=
  total <= 8 * Z.of_nat (length bm) /\
  forall pg, 0 <= pg < total -> page_bit bm pg = Ok false -> page_is_zero m pg.

Lemma in_page x size : 0 <= x < size -> size mod PAGE = 0 -> 0 <= x / PAGE < size / PAGE.
Proof.
  intros Hx Hs. unfold PAGE in *. split; [apply Z.div_pos; lia|].
  apply Z.div_lt_upper_bound; [lia|]. pose proof (Z.div_mod size 4096). lia.
Qed.

Lemma page_offset x : x / PAGE * PAGE + x mod PAGE = x.
Proof. unfold PAGE. pose proof (Z.div_mod x 4096). lia. Qed.

Lemma restored_sound src bm size dst x :
  bitmap_sound bm src (size / PAGE) -> size mod PAGE = 0 -> 0 <= x < size -> dst x = 0 ->
  restored src bm (size / PAGE) dst x = src x.
Proof.
  intros [Hl Hs] Hm Hx Hd. pose proof (in_page x size Hx Hm) as Hp. unfold restored.
  rewrite (proj2 (Z.leb_le _ _)), (proj2 (Z.ltb_lt _ _)) by lia. cbn [andb].
  unfold marked. destruct (page_bit bm (x / PAGE)) as [[]|f] eqn:E; [done| |].
  - rewrite Hd. specialize (Hs _ Hp E (x mod PAGE)). rewrite page_offset in Hs.
    symmetry. apply Hs. by apply Z.mod_pos_bound.
  - exfalso. unfold page_bit in E.
    destruct (lookup_lt_is_Some_2 bm (Z.to_nat (x / PAGE / 8))) as [b Hb]; [|by rewrite Hb in E].
    assert (0 <= x / PAGE / 8 < Z.of_nat (length bm)); [|lia].
    split; [apply Z.div_pos; lia|apply Z.div_lt_upper_bound; lia].
Qed.

Lemma copy_nonzero_at src l m x :
  foldl (fun m pg => if page_acc src (pg * PAGE) =? 0 then m
                     else mem_set m (pg * PAGE) (mem_get src (pg * PAGE) PAGE)) m l x =
  if bool_decide (x / PAGE ∈ l /\ page_dirty src (x / PAGE) = true) then src x else m x.
Proof.
  revert m. induction l as [|pg l IH]; intros m; cbn [foldl].
  { rewrite bool_decide_false; [done|]. intros [Hx _]. by apply not_elem_of_nil in Hx. }
  rewrite IH. clear IH.
  destruct (decide (x / PAGE ∈ l /\ page_dirty src (x / PAGE) = true)) as [Hi|Hi].
  { rewrite !bool_decide_true; [done| |done]. rewrite elem_of_cons. tauto. }
  rewrite (bool_decide_false (x / PAGE ∈ l /\ _)) by done.
  assert (Hstep : (if page_acc src (pg * PAGE) =? 0 then m else mem_set m (pg * PAGE) (mem_get src (pg * PAGE) PAGE)) x =
    if bool_decide (x / PAGE = pg /\ page_dirty src pg = true) then src x else m x).
  { unfold page_dirty. destruct (page_acc src (pg * PAGE) =? 0); [by rewrite bool_decide_false by (by intros [_ [=]])|].
    rewrite mem_set_copy by done. erewrite bool_decide_ext; [done|].
    pose proof (page_range x pg (pg + 1)) as Hpr. replace ((pg + 1 - pg) * PAGE) with PAGE in Hpr by lia. cbn. lia. }
  rewrite Hstep. erewrite bool_decide_ext; [done|]. rewrite elem_of_cons. split.
  - intros [<- ?]. auto.
  - intros [[<-|?] ?]; [done|tauto].
Qed.

Lemma copy_nonzero_ok src size dst x :
  (forall a, 0 <= src a) -> size mod PAGE = 0 -> 0 <= x < size -> dst x = 0 ->
  copy_nonzero src size dst x = src x.
Proof.
  intros Hs Hm Hx Hd. unfold copy_nonzero. rewrite copy_nonzero_at.
  case_bool_decide as Hi; [done|]. rewrite Hd. symmetry.
  destruct (page_dirty src (x / PAGE)) eqn:E.
  - exfalso. apply Hi. split; [|done]. apply elem_of_seqZ. pose proof (in_page x size Hx Hm) as Hp.
    split; [lia|]. unfold PAGE in *. pose proof (Z.div_mod size 4096).
    assert (size / 4096 <= (size + 4096 - 1) / 4096) by (apply Z.div_le_mono; lia). lia.
  - apply page_dirty_spec in E; [|done]. specialize (E (x mod PAGE)). rewrite page_offset in E.
    apply E. by apply Z.mod_pos_bound.
Qed.

(** The bitmap of a memory is sound for any memory equal to it in range. *)
Lemma build_bitmap_sound m m' size :
  0 <= size /\ size mod PAGE = 0 -> (forall a, 0 <= m a) ->
  (forall x, 0 <= x < size -> m' x = m x) ->
  bitmap_sound (build_bitmap m (size / PAGE)).1 m' (size / PAGE).
Proof.
  intros [Hs Hm] Hpos He. pose proof (build_bitmap_ok m (size / PAGE)) as Hb.
  destruct (build_bitmap m (size / PAGE)) as [bm n]. cbn [fst].
  destruct Hb as (Hl & _ & _ & Hp); [apply Z.div_pos; unfold PAGE; lia|]. split.
  - rewrite Hl. pose proof (Z.div_mod (size / PAGE + 7) 8). pose proof (Z.mod_pos_bound (size / PAGE + 7) 8).
    assert (0 <= (size / PAGE + 7) / 8). { apply Z.div_pos; [|lia]. pose proof (Z.div_pos size PAGE). unfold PAGE in *. lia. }
    lia.
  - intros pg Hpg Hb. rewrite Hp in Hb by done. injection Hb as Hb.
    apply page_dirty_spec in Hb; [|done]. intros i Hi. rewrite He; [by apply Hb|].
    unfold PAGE in *. pose proof (Z.div_mod size 4096). lia.
Qed.

Lemma for_each_sys_frame {A} (l : list A) f s :
  (forall x w obj, f x <> sys_kvm_set w obj) ->
  wp (for_each l (fun x => sys_ (f x))) (fun _ s' =>
    only_trace s s' /\ kvm_put (trace_ s') = kvm_put (trace_ s)) s.
Proof.
  intros Hf. apply (wp_for_each _ _ (fun s' => only_trace s s' /\ kvm_put (trace_ s') = kvm_put (trace_ s))).
  { split; [apply only_trace_refl|done]. }
  intros x s' _ [Ht Hp]. wp_run. subst. split.
  - eapply only_trace_trans; [done|]. apply only_trace_upd.
  - cbn. rewrite kvm_put_snoc, Hp. destruct (f x) eqn:E; try apply app_nil_r. by apply Hf in E.
Qed.

Lemma copy_with_bitmap_spec snap s :
  sn_ram_size snap = ram_bytes_ s -> 0 <= ram_bytes_ s < 2 ^ 64 ->
  ram_bytes_ s / PAGE <= 8 * Z.of_nat (length (sn_dirty_bitmap snap)) ->
  wp (copy_with_bitmap snap) (fun _ s' => exists m,
    m ≡ restored (sn_ram snap) (sn_dirty_bitmap snap) (ram_bytes_ s / PAGE) (ram_mem_ s) /\
    only_trace (s <| ram_mem_ := m |>) s' /\ kvm_put (trace_ s') = kvm_put (trace_ s)) s.
Proof.
  intros Hsz Hb Hl. unfold copy_with_bitmap. wp_run. cbn [id].
  wp_use (for_each_sys_frame (A := thread)); [done|]. intros _ s1 [[t1 ->] Hp1]. wp_run.
  set (ctx := {| cc_src := _ |}).
  destruct (run_worker_restores ctx (ram_mem_ s)) as (sh & Hr & Hm).
  { unfold CopyContext_ok, ctx. cbn. unfold PAGE in *. pose proof (Z.div_mod (ram_bytes_ s) 4096).
    pose proof (Z.mod_pos_bound (ram_bytes_ s) 4096). split_and!; try lia. }
  eapply wp_lift; [exact Hr|]. wp_run.
  wp_use (for_each_sys_frame (A := thread)); [done|]. intros _ s2 [Ht2 Hp2].
  exists (sh_dst sh). split; [exact Hm|]. rewrite Hp2. subst. split; [|done].
  destruct Ht2 as [t2 ->]. by exists t2.
Qed.

(** ** The whole restore *)

(** A VMM ready to take over machine [s0]: same size, memory still zero, eager
    restore. *)
Record blank_for (s0 s : Vmm) : Prop := {
  bf_mb : ram_mb_ s = ram_mb_ s0;
  bf_bytes : ram_bytes_ s = ram_bytes_ s0;
  bf_zero : forall x, 0 <= x < ram_bytes_ s0 -> ram_mem_ s x = 0;
  bf_fs : FsDev_ok (fs_ s);
  bf_net : NetDev_ok (net_ s);
  bf_eager : use_uffd_ (lazy_ s) = false /\ midway_uffd_ (lazy_ s) = false;
}.

(** The machine a successful restore leaves. *)
Definition machine_is (s0 : Vmm) (snap : Snapshot) (t0 : trace) (s' : Vmm) : Prop :=
  (forall x, 0 <= x < ram_bytes_ s0 -> ram_mem_ s' x = ram_mem_ s0 x) /\
  saved_regs (fs_view (fs_ s')) = saved_regs (fs_view (fs_ s0)) /\
  saved_regs (net_view (net_ s')) = saved_regs (net_view (net_ s0)) /\
  kvm_put (trace_ s') = kvm_put t0 ++ restore_order snap /\
  ignore_next_signal_ s' = true.

Lemma restore_ram_eager snap s0 s :
  blank_for s0 s -> 0 <= ram_bytes_ s0 < 2 ^ 64 ->
  ram_bytes_ s0 mod PAGE = 0 -> sn_ram_size snap = ram_bytes_ s0 ->
  (sn_dirty_bitmap snap = [] /\ forall a, 0 <= sn_ram snap a) \/
  bitmap_sound (sn_dirty_bitmap snap) (sn_ram snap) (ram_bytes_ s0 / PAGE) ->
  wp (restore_ram snap) (fun _ s' => exists m,
    (forall x, 0 <= x < ram_bytes_ s0 -> m x = sn_ram snap x) /\
    only_trace (s <| ram_mem_ := m |>) s' /\ kvm_put (trace_ s') = kvm_put (trace_ s)) s.
Proof.
  intros [_ Hby Hz _ _ [He Hm]] Hrb Hal Hsz Hbm. unfold restore_ram. wp_run.
  { cbn [id] in Hb. by rewrite He in Hb. }
  cbn [id]. rewrite Hm. clear Hb. destruct (sn_dirty_bitmap snap) as [|b bm] eqn:Eb.
  - wp_run. subst. eexists. split; [|split; [apply only_trace_refl|done]].
    intros x Hx. rewrite Hby. destruct Hbm as [[_ Hpos]|[Hl _]]; [by apply copy_nonzero_ok; auto|].
    exfalso. cbn in Hl. pose proof (in_page x (ram_bytes_ s0) Hx Hal). lia.
  - destruct Hbm as [[Hbm _]|Hbm]; [done|]. rewrite <- Eb in Hbm.
    assert (Hcov : ram_bytes_ s / PAGE <= 8 * Z.of_nat (length (sn_dirty_bitmap snap)))
      by (rewrite Hby; apply Hbm).
    wp_use (copy_with_bitmap_spec snap s); [congruence|by rewrite Hby|done|].
    intros _ s1 (m & Hmm & Ht & Hp). wp_run. exists m. split_and!; [|done|done].
    intros x Hx. rewrite (Hmm x), Hby. apply restored_sound; auto.
Qed.

Lemma restore_snapshot_ok s0 snap s :
  machine_ok s0 -> snapshot_of s0 snap ->
  h_cpuid_nent (sn_hdr snap) = Z.of_nat (length (sn_cpuid snap)) ->
  h_num_msrs (sn_hdr snap) = Z.of_nat (length (sn_msrs snap)) ->
  (sn_dirty_bitmap snap = [] /\ forall a, 0 <= sn_ram snap a) \/
  bitmap_sound (sn_dirty_bitmap snap) (sn_ram snap) (ram_bytes_ s0 / PAGE) ->
  blank_for s0 s -> kvm_accepts ->
  wp (restore_snapshot snap) (fun ok s' => ok = true /\ machine_is s0 snap (trace_ s) s') s.
Proof.
  intros (Hmb & Hrb & _ & _ & _ & Hf0 & Hn0 & _) (Hma & Hve & Hmbs & Hhf & Hhn & _ & _ & Hsz & Hram)
    Hcn Hmn Hbm Hbl Hacc.
  unfold restore_snapshot. rewrite Hma, Hve, Hmbs, !Z.eqb_refl. apply wp_bind, wp_gets.
  rewrite (bf_mb _ _ Hbl), Z.eqb_refl. cbn [negb orb]. apply wp_bind.
  wp_use (restore_ram_eager snap s0 s Hbl); [unfold fits in Hmb; lia| |done|done|].
  { rewrite Hrb. unfold PAGE. replace (ram_mb_ s0 * 1048576) with (ram_mb_ s0 * 256 * 4096) by lia.
    apply Z.mod_mul. lia. }
  intros _ s1 (m & Hm & [t1 ->] & Hp1). unfold and_then. apply wp_bind.
  wp_use (restore_kvm_spec snap); [done|done|]. intros ok s2 ([t2 ->] & Hp2 & Hok).
  specialize (Hok Hacc) as ->. specialize (Hp2 eq_refl). cbn in Hp1, Hp2.
  apply wp_bind. eapply wp_mono; [apply (restore_devices_spec s0); [done|done|apply Hbl|apply Hbl|done|done]|].
  cbv beta.
  intros _ s3 (Hv & Hw & Hr & Hp3). cbn in Hr, Hp3. wp_run. split; [done|]. unwind.
  unfold machine_is. cbn. rewrite Hr, Hp3, Hp2, Hp1. split_and!; try done.
  intros x Hx. rewrite Hm by done. by apply Hram.
Qed.

(** a snapshot is refused before anything is touched unless its magic
    number, its version and its memory size all match: no call to the host, no
    change of state. *)
Theorem restore_rejects_mismatch snap s :
  h_magic (sn_hdr snap) <> SNAP_MAGIC \/ h_version (sn_hdr snap) <> SNAP_VERSION \/
  h_ram_mb (sn_hdr snap) <> ram_mb_ s ->
  restore_snapshot snap s = Ok (false, s).
Proof.
  intros Hm. unfold restore_snapshot, mbind, M_bind, gets.
  destruct (Z.eqb_spec (h_magic (sn_hdr snap)) SNAP_MAGIC), (Z.eqb_spec (h_version (sn_hdr snap)) SNAP_VERSION),
    (Z.eqb_spec (h_ram_mb (sn_hdr snap)) (ram_mb_ s)); try done. tauto.
Qed.

(** C26: restoring hands KVM every piece of state the snapshot holds, each
    exactly once and in an order KVM accepts: TSC frequency and CPUID before
    the registers, XCR0 before the extended state, the interrupt controllers,
    the clock and the timer last.  It reports success only if all of that was
    done. *)
Theorem restore_kvm_order snap s :
  h_cpuid_nent (sn_hdr snap) = Z.of_nat (length (sn_cpuid snap)) ->
  h_num_msrs (sn_hdr snap) = Z.of_nat (length (sn_msrs snap)) ->
  wp (restore_kvm snap) (fun ok s' =>
    (ok = true -> kvm_put (trace_ s') = kvm_put (trace_ s) ++ restore_order snap) /\
    (kvm_accepts -> ok = true)) s.
Proof.
  intros Hc Hm. wp_use (restore_kvm_spec snap s Hc Hm). intros ok s' (_ & Hp & Ha). done.
Qed.

Lemma snapshot_of_eq s0 snap snap' :
  snapshot_of s0 snap -> snapshot_eq snap' snap -> snapshot_of s0 snap'.
Proof.
  intros (? & ? & ? & ? & ? & ? & ? & Hsz & Hr) (Eh & Ex & Ec & Em & Eb & Es & Er).
  unfold snapshot_of. rewrite Eh, Ec, Es. split_and!; try done.
  intros x Hx. rewrite Er by (rewrite Es, Hsz; done). by apply Hr.
Qed.

(** C1: the whole cycle.  A file holding the image of a snapshot of machine
    [s0], with the bitmap that was computed when it was saved, is parsed and
    restored into a blank VMM of the same size: the restore succeeds; guest RAM
    is that of [s0], byte for byte; both virtio devices have the status,
    features and queues they had; and KVM has received the saved vCPU and
    chip state. *)
Theorem snapshot_file_restores_machine s0 snap stack addr s :
  machine_ok s0 -> (forall a, 0 <= ram_mem_ s0 a) -> snapshot_of s0 snap ->
  let image := with_bitmap snap (build_bitmap (ram_mem_ s0) (ram_bytes_ s0 / PAGE)).1 in
  Snapshot_ok image -> Z.of_nat (length stack) = XSAVE_SIZE ->
  blank_for s0 s -> kvm_accepts ->
  exists snap', parse_snapshot stack addr (snapshot_image image) = Ok (Some snap') /\
    snapshot_eq snap' image /\
    wp (restore_snapshot snap') (fun ok s' => ok = true /\ machine_is s0 snap' (trace_ s) s') s.
Proof.
  intros Hok Hpos Hso image Himg Hst Hbl Hacc.
  destruct (parse_image stack addr image Himg Hst) as (snap' & Hp & He).
  exists snap'. split; [done|]. split; [done|].
  assert (Hsi : snapshot_of s0 image) by exact Hso.
  pose proof (snapshot_of_eq s0 image snap' Hsi He) as Hso'.
  pose proof He as (Eh & Ex & Ec & Em & Eb & Es & Er).
  destruct Himg as (_ & _ & _ & Hcn & _ & Hmn & _).
  apply (restore_snapshot_ok s0); try done.
  - by rewrite Eh, Ec.
  - by rewrite Eh, Em.
  - right. rewrite Eb. apply build_bitmap_sound; [|done|apply Hso'].
    destruct Hok as (Hmb & Hrb & _). unfold fits in Hmb. rewrite Hrb. unfold PAGE.
    replace (ram_mb_ s0 * 1048576) with (ram_mb_ s0 * 256 * 4096) by lia. rewrite Z.mod_mul by lia. lia.
Qed.
End facts.
