(* ===== verification/Run.v ===== *)
(** * The run loop

    [Vmm::run] of src/src/vmm.cpp: enter the guest, look at why it came back,
    emulate the access, and say why the loop ends.  The guest is the host's: it
    decides the contents of [struct kvm_run] and what happens to RAM. *)
From S2P Require Import Prelude Memory Codec State Logic Uart VirtioRegs VhostUserProto VirtioFs VirtioNet Snapshot.
From stdpp Require Import options.

Definition MMIO_SIGNAL_GPA : Z := 0xd0000000.
Definition MMIO_SIGNAL_MAGIC : Z := 0x48594C54.
Definition KVM_MP_STATE_HALTED : Z := 3.

(** [regs.rflags & 0x200]; [rflags] is the last member of [struct kvm_regs]. *)
Definition interrupts_enabled (regs : list Z) : bool :=
  has_bits (le_dec (take 8 (drop 136 regs))) 0x200.

Definition is_serial_port (port : Z) : bool := (0x3f8 <=? port) && (port <=? 0x3ff).

Definition in_fs_region (addr : Z) : bool :=
  (VIRTIO_MMIO_GPA <=? addr) && (addr <? VIRTIO_MMIO_GPA + VIRTIO_MMIO_SIZE).
Definition in_net_region (addr : Z) : bool :=
  (VIRTIO_NET_MMIO_GPA <=? addr) && (addr <? VIRTIO_NET_MMIO_GPA + VIRTIO_NET_MMIO_SIZE).

Section run.
  Context {H : Host}.

(** The bytes the loop stores into the shared page for the guest to see: to the
    data area of an I/O exit, or to [mmio.data].  A store past the end of that
    area is a fault. *)
Definition set_io_data (data : list Z) : M unit :=
  e ← gets kvm_run_;
  match e with
  | KVM_EXIT_IO o p sz c old =>
      new ← lift (copy_into old data);
      modify (fun s => s <| kvm_run_ := KVM_EXIT_IO o p sz c new |>)
  | KVM_EXIT_MMIO a l w old =>
      new ← lift (copy_into old data);
      modify (fun s => s <| kvm_run_ := KVM_EXIT_MMIO a l w new |>)
  | _ => fail_with OutOfBounds
  end.

Definition handle_io (is_out : bool) (port size count : Z) (data : list Z) : M unit :=
  if is_out then
    when (is_serial_port port && (size =? 1))
      (match slice 0 count data with
       | Some bs => serial_out_all port bs
       | None => fail_with OutOfBounds
       end)
  else if is_serial_port port then
    u ← gets uart_;
    set_io_data [serial_in port u]
  else set_io_data (zeros (u32 (size * count))).

(** [Some rc] when the access makes [run] return [rc]. *)
Definition handle_mmio (addr len : Z) (is_write : bool) (data : list Z) : M (option Z) :=
  if is_write && (addr =? MMIO_SIGNAL_GPA) then
    let val := le_dec (take (clamp4 len) data) in
    if val =? MMIO_SIGNAL_MAGIC then
      ign ← gets ignore_next_signal_;
      if (ign : bool)
      then modify (fun s => s <| ignore_next_signal_ := false |>) ;; mret None
      else mret (Some 1)
    else mret None
  else if in_fs_region addr then
    let off := addr - VIRTIO_MMIO_GPA in
    (if is_write then virtio_mmio_write off data len
     else bs ← virtio_mmio_read off len; set_io_data bs) ;;
    mret None
  else if in_net_region addr then
    let off := addr - VIRTIO_NET_MMIO_GPA in
    (if is_write then net_mmio_write off data len
     else bs ← net_mmio_read off len; set_io_data bs) ;;
    mret None
  else
    when (negb is_write) (set_io_data (replicate (Z.to_nat len) 0xff)) ;;
    mret None.

Definition handle_exit (e : kvm_exit) : M (option Z) :=
  match e with
  | KVM_EXIT_IO is_out port size count data => handle_io is_out port size count data ;; mret None
  | KVM_EXIT_MMIO addr len is_write data => handle_mmio addr len is_write data
  | KVM_EXIT_HLT =>
      r ← sys (sys_kvm_get KvmRegs (zeros 144));
      mret (if interrupts_enabled (overlay (zeros 144) (r_data r)) then None else Some 0)
  | KVM_EXIT_SHUTDOWN => mret (Some 0)
  | KVM_EXIT_FAIL_ENTRY _ => mret (Some (-1))
  | KVM_EXIT_INTERNAL_ERROR _ _ => mret (Some (-1))
  | KVM_EXIT_OTHER _ => mret None
  end.

(** The guest runs: it may change RAM, and leaves its exit in [kvm_run_]. *)
Definition enter_guest : M reply :=
  r ← sys sys_kvm_run;
  modify (fun s => s <| ram_mem_ ::= guest_mem (trace_ s) |>
                     <| kvm_run_ ::= guest_exit (trace_ s) |>) ;;
  mret r.

(** KVM_RUN was interrupted by a signal: the new value of
    [consecutive_hlt_eintr], or [None] to return 0. *)
Definition on_eintr (hlt : Z) : M (option Z) :=
  r ← sys (sys_kvm_get KvmRegs (zeros 144));
  if interrupts_enabled (overlay (zeros 144) (r_data r)) then mret (Some 0) else
  m ← sys (sys_kvm_get KvmMpState (zeros 4));
  if (r_ret m =? 0) && (le_dec (overlay (zeros 4) (r_data m)) =? KVM_MP_STATE_HALTED) then
    mret (if 2 <=? hlt + 1 then None else Some (hlt + 1))
  else mret (Some 0).

(** The result is [None] when the fuel runs out, else what [run] returns. *)
Fixpoint run_loop (fuel : nat) (consecutive_hlt_eintr : Z) : M (option Z) :=
  match fuel with
  | O => mret None
  | S fuel' =>
    check_virtio_irqs ;;
    r ← enter_guest;
    if r_ret r <? 0 then
      if r_errno r =? EINTR then
        n ← on_eintr consecutive_hlt_eintr;
        match n with
        | None => mret (Some 0)
        | Some n => run_loop fuel' n
        end
      else mret (Some (-1))
    else
      e ← gets kvm_run_;
      rc ← handle_exit e;
      match rc with
      | Some rc => mret (Some rc)
      | None => run_loop fuel' 0
      end
  end.

Definition run (fuel : nat) : M (option Z) := run_loop fuel 0.
End run.
