(* ===== verification/RunFacts.v ===== *)
(** * Properties of the run loop

    Which accesses reach which device, what a guest can make the loop return,
    and that no guest can make the VMM leave its well-formed states or go out of
    bounds, but for one kind of read that is said exactly. *)
From S2P Require Import Prelude Memory Codec State Logic Uart VirtioRegs VhostUserProto VirtioFs VirtioNet Transport DeviceFacts Snapshot RestoreFacts Run.
From stdpp Require Import options.

(** ** Dispatch *)

Section facts.
  Context {H : Host}.

(** an MMIO access is handled by exactly one device.  Accesses to the
    virtio-fs and the virtio-net windows go to that device at the offset into
    its window; a write to the signal register never reaches a device; any
    other read returns all ones and any other write is ignored. *)
Theorem mmio_dispatch s addr len is_write data :
  let other := negb (in_fs_region addr) && negb (in_net_region addr) in
  (is_write = true /\ addr = MMIO_SIGNAL_GPA -> other = true) /\
  (in_fs_region addr = true -> in_net_region addr = false /\
    handle_mmio addr len is_write data s =
      ((if is_write then virtio_mmio_write (addr - VIRTIO_MMIO_GPA) data len
        else bs ← virtio_mmio_read (addr - VIRTIO_MMIO_GPA) len; set_io_data bs) ;; mret None) s) /\
  (in_net_region addr = true -> in_fs_region addr = false /\
    handle_mmio addr len is_write data s =
      ((if is_write then net_mmio_write (addr - VIRTIO_NET_MMIO_GPA) data len
        else bs ← net_mmio_read (addr - VIRTIO_NET_MMIO_GPA) len; set_io_data bs) ;; mret None) s) /\
  (other = true -> addr <> MMIO_SIGNAL_GPA ->
    handle_mmio addr len is_write data s =
      ((if is_write then skip else set_io_data (replicate (Z.to_nat len) 0xff)) ;; mret None) s).
Proof.
  cbv zeta. unfold handle_mmio.
  assert (Hsig : forall b, b && (addr =? MMIO_SIGNAL_GPA) = true -> addr = MMIO_SIGNAL_GPA)
    by (intros b; rewrite andb_true_iff, Z.eqb_eq; tauto).
  destruct (in_fs_region addr) eqn:Ef, (in_net_region addr) eqn:En.
  1: { exfalso. unfold in_fs_region, in_net_region in *. rewrite andb_true_iff, Z.leb_le, Z.ltb_lt in *.
       unfold VIRTIO_MMIO_GPA, VIRTIO_MMIO_SIZE, VIRTIO_NET_MMIO_GPA in *. lia. }
  all: split_and!; try done; try (by intros [_ ->]).
  - intros _. split; [done|]. destruct (is_write && (addr =? MMIO_SIGNAL_GPA)) eqn:E; [|done].
    by rewrite (Hsig _ E) in Ef.
  - intros _. split; [done|]. destruct (is_write && (addr =? MMIO_SIGNAL_GPA)) eqn:E; [|done].
    by rewrite (Hsig _ E) in En.
  - intros _ Hne. destruct (is_write && (addr =? MMIO_SIGNAL_GPA)) eqn:E; [by apply Hsig in E|].
    by destruct is_write.
Qed.

(** A 32-bit write of the magic value to the signal register. *)
Definition signal_write : M (option Z) :=
  handle_mmio MMIO_SIGNAL_GPA 4 true (le_enc 4 MMIO_SIGNAL_MAGIC ++ [0; 0; 0; 0]).

(** the snapshot signal.  In a VM that was booted, the guest's first signal
    makes [run] return 1, so that a snapshot is taken there.  In a VM that was
    restored from that snapshot, the same instruction is executed again: the
    first signal is swallowed and the guest goes on, and only a second one makes
    [run] return 1. *)
Theorem snapshot_signal s :
  (ignore_next_signal_ s = false -> signal_write s = Ok (Some 1, s)) /\
  (ignore_next_signal_ s = true ->
    signal_write s = Ok (None, s <| ignore_next_signal_ := false |>) /\
    (signal_write ;; signal_write) s = Ok (Some 1, s <| ignore_next_signal_ := false |>)).
Proof.
  unfold signal_write, handle_mmio.
  assert (Hv : le_dec (take (clamp4 4) (le_enc 4 MMIO_SIGNAL_MAGIC ++ [0; 0; 0; 0])) = MMIO_SIGNAL_MAGIC)
    by reflexivity.
  rewrite Hv, !Z.eqb_refl. cbn [andb]. unfold mbind, M_bind, gets, modify.
  split; [by intros ->|]. intros ->. done.
Qed.

(** ** Why the loop ends *)

(** The vCPU was found halted with interrupts off after each of the last [n]
    times it was entered, and each time KVM_RUN was interrupted by a signal. *)
Inductive halted_streak : Z -> trace -> Prop :=
| streak_none t : halted_streak 0 t
| streak_more n t irqs r g m :
    halted_streak n t -> Forall (fun e => e.1 <> sys_kvm_run) irqs ->
    r_ret r < 0 -> r_errno r = EINTR ->
    interrupts_enabled (overlay (zeros 144) (r_data g)) = false ->
    r_ret m = 0 -> le_dec (overlay (zeros 4) (r_data m)) = KVM_MP_STATE_HALTED ->
    halted_streak (n + 1) (t ++ irqs ++ [(sys_kvm_run, r);
      (sys_kvm_get KvmRegs (zeros 144), g); (sys_kvm_get KvmMpState (zeros 4), m)]).

(** The trace ends with the return [r] from the guest, then the calls [after]. *)
Definition came_back (s : Vmm) (r : reply) (after : trace) : Prop :=
  exists t, trace_ s = t ++ (sys_kvm_run, r) :: after.

Definition signalled (e : kvm_exit) : Prop := exists len data,
  e = KVM_EXIT_MMIO MMIO_SIGNAL_GPA len true data /\
  le_dec (take (clamp4 len) data) = MMIO_SIGNAL_MAGIC.

(** What a result of [run] says about the state it ended in. *)
Definition run_result (rc : Z) (s : Vmm) : Prop :=
  (rc = 1 /\ ignore_next_signal_ s = false /\ signalled (kvm_run_ s) /\
     exists r, came_back s r [] /\ 0 <= r_ret r) \/
  (rc = 0 /\
     ((exists r, came_back s r [] /\ 0 <= r_ret r /\ kvm_run_ s = KVM_EXIT_SHUTDOWN) \/
      (exists r g, came_back s r [(sys_kvm_get KvmRegs (zeros 144), g)] /\ 0 <= r_ret r /\
         kvm_run_ s = KVM_EXIT_HLT /\ interrupts_enabled (overlay (zeros 144) (r_data g)) = false) \/
      halted_streak 2 (trace_ s))) \/
  (rc = -1 /\ exists r, came_back s r [] /\
     ((r_ret r < 0 /\ r_errno r <> EINTR) \/
      (0 <= r_ret r /\ ((exists why, kvm_run_ s = KVM_EXIT_FAIL_ENTRY why) \/
                       (exists sub data, kvm_run_ s = KVM_EXIT_INTERNAL_ERROR sub data))))).

Lemma poll_call_fds_frame fds need s :
  wp (poll_call_fds fds need) (fun _ s' => exists t, s' = s <| trace_ := trace_ s ++ t |> /\
    Forall (fun e => e.1 <> sys_kvm_run) t) s.
Proof.
  revert need s. induction fds as [|fd fds IH]; intros need s; cbn [poll_call_fds].
  { wp_run. exists []. rewrite app_nil_r. split; [by destruct s|done]. }
  wp_run; [|apply IH]. subst. wp_use IH. cbv beta. intros b s' (t & -> & Ht).
  exists ((sys_read fd 8, reply_of (trace_ s) (sys_read fd 8)) :: t). split; [|by constructor].
  cbn. by rewrite <- app_assoc.
Qed.

Lemma check_virtio_irqs_trace s :
  wp check_virtio_irqs (fun _ s' => exists irqs, trace_ s' = trace_ s ++ irqs /\
    Forall (fun e => e.1 <> sys_kvm_run) irqs) s.
Proof.
  unfold check_virtio_irqs. wp_run; [exists []; by rewrite app_nil_r|].
  wp_use poll_call_fds_frame. cbv beta. intros b s1 (t & -> & Ht). wp_run; subst; cbn; [|by eauto].
  eexists. split; [by rewrite <- app_assoc|]. apply Forall_app_2; [done|]. by constructor.
Qed.

(** What [handle_exit] answers, by the exit. *)
Lemma handle_exit_answer e s rc s' :
  handle_exit e s = Ok (Some rc, s') ->
  (rc = 1 /\ s' = s /\ ignore_next_signal_ s = false /\ signalled e) \/
  (rc = 0 /\ s' = s /\ e = KVM_EXIT_SHUTDOWN) \/
  (rc = 0 /\ e = KVM_EXIT_HLT /\ exists g, interrupts_enabled (overlay (zeros 144) (r_data g)) = false /\
     s' = s <| trace_ ::= (fun t => t ++ [(sys_kvm_get KvmRegs (zeros 144), g)]) |>) \/
  (rc = -1 /\ s' = s /\ ((exists why, e = KVM_EXIT_FAIL_ENTRY why) \/
     (exists sub data, e = KVM_EXIT_INTERNAL_ERROR sub data))).
Proof.
  destruct e as [o p sz c d|a l w d| | | | |]; cbn [handle_exit].
  - unfold mbind, M_bind. by destruct (handle_io _ _ _ _ _ _) as [[]|].
  - intros Hh. left. unfold handle_mmio in Hh.
    destruct (w && (a =? MMIO_SIGNAL_GPA)) eqn:Ew.
    + apply andb_true_iff in Ew as [-> ->%Z.eqb_eq]. destruct (_ =? MMIO_SIGNAL_MAGIC) eqn:Em; [|done].
      unfold mbind, M_bind, gets, modify in Hh. destruct (ignore_next_signal_ s) eqn:Ei; [done|].
      injection Hh as <- <-. split_and!; try done. exists l, d. by rewrite <- Z.eqb_eq.
    + exfalso. revert Hh. unfold mbind, M_bind, mret, M_ret, when.
      destruct (in_fs_region a), (in_net_region a), w; repeat case_match; congruence.
  - unfold mbind, M_bind, sys, mret, M_ret. case_match eqn:E; [done|]. intros [= <- <-].
    right. right. left. split_and!; [done..|]. by eexists.
  - intros [= <- <-]. by right; left.
  - intros [= <- <-]. right. right. right. split_and!; [done..|]. left. by eexists.
  - intros [= <- <-]. right. right. right. split_and!; [done..|]. right. by do 2 eexists.
  - done.
Qed.

Lemma serial_out_frame port b s :
  wp (serial_out port b) (fun _ s' =>
    kvm_run_ s' = kvm_run_ s /\ fs_ s' = fs_ s /\ net_ s' = net_ s) s.
Proof.
  unfold serial_out, serial_newline, ms_since_start. wp_run; unwind; done.
Qed.

Lemma serial_out_all_frame port bs s :
  wp (serial_out_all port bs) (fun _ s' =>
    kvm_run_ s' = kvm_run_ s /\ fs_ s' = fs_ s /\ net_ s' = net_ s) s.
Proof.
  unfold serial_out_all.
  apply (wp_for_each _ _ (fun s' => kvm_run_ s' = kvm_run_ s /\ fs_ s' = fs_ s /\ net_ s' = net_ s)); [done|].
  intros b s' _ (Hk & Hf & Hn). wp_use (serial_out_frame port b s').
  intros _ s'' (-> & -> & ->). done.
Qed.

(** One round of an interrupted KVM_RUN. *)
Lemma on_eintr_streak hlt s n s' t irqs r :
  halted_streak hlt t -> Forall (fun e => e.1 <> sys_kvm_run) irqs -> 0 <= hlt <= 1 ->
  trace_ s = t ++ irqs ++ [(sys_kvm_run, r)] -> r_ret r < 0 -> r_errno r = EINTR ->
  on_eintr hlt s = Ok (n, s') ->
  match n with
  | Some n => 0 <= n <= 1 /\ halted_streak n (trace_ s')
  | None => halted_streak 2 (trace_ s')
  end.
Proof.
  intros Hh Hi Hb Ht Hr He. unfold on_eintr, mbind, M_bind, sys, mret, M_ret.
  case_match eqn:Eg; [intros [= <- <-]; by split; [|constructor]|].
  case_match eqn:Em; [|intros [= <- <-]; by split; [|constructor]].
  apply andb_true_iff in Em as [Em1%Z.eqb_eq Em2%Z.eqb_eq].
  intros [= <- <-]. cbn. rewrite Ht.
  rewrite <- !app_assoc. cbn [app].
  pose proof (streak_more hlt t irqs r _ _ Hh Hi Hr He Eg Em1 Em2) as Hs. cbn in Hs.
  rewrite Ht, <- ?app_assoc in Hs.
  destruct (2 <=? hlt + 1) eqn:E.
  - apply Z.leb_le in E. by replace 2 with (hlt + 1) by lia.
  - apply Z.leb_gt in E. by split; [lia|].
Qed.

Lemma run_loop_result fuel hlt s :
  halted_streak hlt (trace_ s) -> 0 <= hlt <= 1 ->
  wlp (run_loop fuel hlt) (fun o s' => forall rc, o = Some rc -> run_result rc s') s.
Proof.
  revert hlt s. induction fuel as [|fuel IH]; intros hlt s Hs Hb; cbn [run_loop]; [by wp_run|].
  apply wlp_bind. eapply wlp_mono; [apply wp_wlp, check_virtio_irqs_trace|].
  cbv beta. intros _ s1 (irqs & Ht1 & Hirq). unfold enter_guest. wp_run.
  all: assert (Ht2 : trace_ s2 = trace_ s ++ irqs ++ [(sys_kvm_run, r)])
    by (subst; cbn; by rewrite Ht1, <- app_assoc).
  all: assert (Hcb : came_back s2 r []) by (exists (trace_ s ++ irqs); by rewrite Ht2, <- app_assoc).
  - apply wlp_ok. intros n s4 Hn. apply Z.ltb_lt in Hb0. apply Z.eqb_eq in Hb1.
    pose proof (on_eintr_streak _ _ _ _ _ _ _ Hs Hirq Hb Ht2 Hb0 Hb1 Hn) as Hst.
    destruct n as [n|]; [by destruct Hst; apply IH|]. wp_run. intros rc [= <-]. right. left. split; [done|]. by right; right.
  - intros rc [= <-]. right. right. split; [done|]. exists r. split; [done|]. left.
    by rewrite <- Z.ltb_lt, <- Z.eqb_neq.
  - apply wlp_ok. intros [rc|] s4 Hh; [|by apply IH; [constructor|]].
    wp_run. intros rc' [= <-]. apply Z.ltb_ge in Hb0.
    destruct (handle_exit_answer _ _ _ _ Hh) as [(-> & -> & Hi & Hsig)|[(-> & -> & He)|[(-> & He & g & Hg & ->)|(-> & -> & He)]]].
    + left. split_and!; try done. by exists r.
    + right. left. split; [done|]. left. by exists r.
    + right. left. split; [done|]. right. left. exists r, g. split_and!; try done.
      destruct Hcb as [t Ht]. exists t. cbn. by rewrite Ht, <- app_assoc.
    + right. right. split; [done|]. exists r. split; [done|]. by right.
Qed.

(** C35: [run] returns 1, 0 or -1, and each says why the loop ended.  It returns
    1 only right after the guest wrote the magic value to the signal register
    while signals were not being ignored.  It returns 0 only when the guest shut
    down, or halted with interrupts off, or was found halted with interrupts off
    after two interrupted KVM_RUNs in a row; and -1 only when KVM_RUN failed
    other than by a signal, or reported that it could not enter the guest or an
    internal error.  Conversely, the first exit of each of these kinds, and a
    failed KVM_RUN, end the loop there with that code. *)
Theorem run_return_codes fuel s :
  wlp (run fuel) (fun o s' => forall rc, o = Some rc -> run_result rc s') s /\
  (forall r s1, (check_virtio_irqs ;; enter_guest) s = Ok (r, s1) ->
   (r_ret r < 0 -> r_errno r <> EINTR -> run (S fuel) s = Ok (Some (-1), s1)) /\
   (0 <= r_ret r ->
    (signalled (kvm_run_ s1) -> ignore_next_signal_ s1 = false -> run (S fuel) s = Ok (Some 1, s1)) /\
    (kvm_run_ s1 = KVM_EXIT_SHUTDOWN -> run (S fuel) s = Ok (Some 0, s1)) /\
    (forall why, kvm_run_ s1 = KVM_EXIT_FAIL_ENTRY why -> run (S fuel) s = Ok (Some (-1), s1)) /\
    (forall sub data, kvm_run_ s1 = KVM_EXIT_INTERNAL_ERROR sub data ->
       run (S fuel) s = Ok (Some (-1), s1)))).
Proof.
  split; [by apply run_loop_result; [constructor|]|].
  intros r s1 E. unfold run. cbn [run_loop].
  unfold mbind, M_bind in E |- *. destruct (check_virtio_irqs s) as [[[] s0]|]; [|done]. rewrite E.
  split.
  - intros Hr He. by rewrite (proj2 (Z.ltb_lt _ _) Hr), (proj2 (Z.eqb_neq _ _) He).
  - intros Hr. rewrite (proj2 (Z.ltb_ge _ _) Hr). unfold gets. cbv iota beta.
    split_and!; [|by intros ->|by intros why ->|by intros sub data ->]. intros (len & data & -> & Hm) Hi.
    cbn [handle_exit]. unfold handle_mmio. rewrite Hm, !Z.eqb_refl. cbn [andb].
    unfold mbind, M_bind, gets. by rewrite Hi.
Qed.

(** ** What a guest can do to the VMM *)

(** A VMM between two exits. *)
Record vmm_inv (s : Vmm) : Prop := {
  vi_fs : FsDev_ok (fs_ s);
  vi_net : NetDev_ok (net_ s);
  vi_fs_config : length (fs_config_ (fs_ s)) = 40%nat;
  vi_net_config : length (net_config_ (net_ s)) = 12%nat;
  vi_uart : Uart_ok (uart_ s);
  vi_line : (length (serial_line_buf_ (con_ s)) <= 1024)%nat;
}.

(** What KVM promises of [struct kvm_run]: the data area of an I/O exit holds
    [count] items of [size] bytes, that of an MMIO exit is [data[8]] with at most
    8 of its bytes in use, and bytes are bytes. *)
Definition exit_abi (e : kvm_exit) : Prop :=
  match e with
  | KVM_EXIT_IO _ _ size count data =>
      Forall byte_ok data /\ 1 <= size /\ 1 <= count /\ Z.of_nat (length data) = size * count /\
      size * count < 2 ^ 32
  | KVM_EXIT_MMIO _ len _ data => Forall byte_ok data /\ length data = 8%nat /\ 0 <= len <= 8
  | _ => True
  end.

(** A read that begins inside the configuration structure of a device and ends
    past it. *)
Definition overruns (base size addr len : Z) : Prop :=
  let off := addr - base - VIRTIO_MMIO_CONFIG in
  0 <= off < size /\ size < off + Z.min len 4.

Definition config_overrun (e : kvm_exit) : Prop :=
  match e with
  | KVM_EXIT_MMIO addr len false _ =>
      overruns VIRTIO_MMIO_GPA sizeof_VirtioFsConfig addr len \/
      overruns VIRTIO_NET_MMIO_GPA sizeof_VirtioNetConfig addr len
  | _ => False
  end.

(** The program ends in [Q], or faults out of bounds and then [F] holds. *)
Definition ends_or {A} (F : Prop) (c : M A) (Q : A -> Vmm -> Prop) (s : Vmm) : Prop :=
  match c s with Ok (a, s') => Q a s' | Fault f => f = OutOfBounds /\ F end.

Lemma ends_or_wp {A} F (c : M A) Q s : wp c Q s -> ends_or F c Q s.
Proof. unfold wp, ends_or. by destruct (c s) as [[]|]. Qed.

Lemma ends_or_bind {A B} F (c : M A) (k : A -> M B) Q s :
  ends_or F c (fun a s' => ends_or F (k a) Q s') s -> ends_or F (c ≫= k) Q s.
Proof. unfold ends_or, mbind, M_bind. by destruct (c s) as [[]|]. Qed.

Lemma ends_or_mono {A} (F G : Prop) (c : M A) (Q R : A -> Vmm -> Prop) s :
  ends_or F c Q s -> (F -> G) -> (forall a s', Q a s' -> R a s') -> ends_or G c R s.
Proof. unfold ends_or. destruct (c s) as [[]|]; naive_solver. Qed.

(** The parts of the state a device handler leaves alone. *)
Definition same_rest (s s' : Vmm) : Prop :=
  uart_ s' = uart_ s /\ con_ s' = con_ s.

Lemma vu_setup_config s :
  length (vqs_ (fs_ s)) = 2%nat ->
  wp vu_setup (fun _ s' => fs_config_ (fs_ s') = fs_config_ (fs_ s)) s.
Proof.
  intros Hl.
  destruct (decide (virtio_active_ (fs_ s) = true \/ vu_sock_ (vu_ s) < 0)) as [Hn|Hn].
  { unfold wp. by rewrite vu_setup_noop. }
  wp_use (vu_setup_full s); [by destruct (virtio_active_ (fs_ s)); [destruct Hn; left|]|lia|done|].
  by intros _ s' (vqs' & -> & _).
Qed.

Lemma virtio_write_frame off v s :
  length (vqs_ (fs_ s)) = 2%nat ->
  wlp (virtio_write_reg off v) (fun _ s' =>
    same_rest s s' /\ net_ s' = net_ s /\ fs_config_ (fs_ s') = fs_config_ (fs_ s)) s.
Proof.
  intros Hl. unfold virtio_write_reg, upd_selected, virtio_kick.
  destruct (reg_at off) as [r|]; [|by wp_run].
  destruct r; wp_run; try case_match; wp_run.
  all: try lazymatch goal with |- wlp vu_setup _ ?s' =>
    apply wp_wlp; wp_use (wp_and _ _ _ _ (vu_setup_config s' ltac:(subst; cbn; rewrite ?length_fmap; exact Hl)) (vu_setup_untouched s' ltac:(subst; cbn; rewrite ?length_fmap; exact Hl)));
    intros _ s'' (-> & Hn'' & _ & _ & Hu'' & Hc'' & _); unfold same_rest; rewrite Hn'', Hu'', Hc'' end.
  all: unwind; try done.
  all: repeat case_match; done.
Qed.

Lemma net_write_frame off v s :
  wlp (net_write_reg off v) (fun _ s' =>
    same_rest s s' /\ fs_ s' = fs_ s /\ net_config_ (net_ s') = net_config_ (net_ s)) s.
Proof.
  unfold net_write_reg, upd_net_selected, vhost_net_setup.
  destruct (reg_at off) as [r|]; [|by wp_run].
  destruct r; wp_run; unwind; try done.
  repeat case_match; done.
Qed.

Lemma check_virtio_irqs_inv s : vmm_inv s -> wp check_virtio_irqs (fun _ => vmm_inv) s.
Proof.
  intros Hi. unfold check_virtio_irqs. wp_run; [done|].
  wp_use poll_call_fds_frame. cbv beta. intros b s1 (t & -> & _).
  destruct Hi as [Hf Hn Hc Hd Hu Hl]. wp_run; subst; split; try done. cbn.
  destruct Hf as (? & ? & ? & ? & ? & ? & ? & ? & ?). unfold FsDev_ok. cbn.
  split_and!; try done. by apply lor_fits.
Qed.

(** The data area of an exit: what the loop may store to. *)
Definition exit_data (e : kvm_exit) : option (list Z) :=
  match e with
  | KVM_EXIT_IO _ _ _ _ data | KVM_EXIT_MMIO _ _ _ data => Some data
  | _ => None
  end.

Lemma set_io_data_inv bs old s :
  vmm_inv s -> exit_data (kvm_run_ s) = Some old -> (length bs <= length old)%nat ->
  wp (set_io_data bs) (fun _ => vmm_inv) s.
Proof.
  intros [] He Hl. unfold set_io_data. wp_run.
  destruct (kvm_run_ s) as [o p sz c d|a l w d| | | | |]; try done; injection He as ->.
  all: wp_run; (eapply wp_lift; [by apply copy_into_ok|]); wp_run; subst; by split.
Qed.

Lemma serial_out_all_inv port bs s :
  vmm_inv s -> Forall byte_ok bs -> wp (serial_out_all port bs) (fun _ => vmm_inv) s.
Proof.
  intros Hi Hb. unfold serial_out_all. apply (wp_for_each _ _ vmm_inv); [done|].
  intros b s' Hin [Hf Hn Hc Hd Hu Hl]. rewrite Forall_forall in Hb.
  eapply wp_mono; [apply wp_and; [by apply (serial_out_frame port b)|
    by apply (serial_out_keeps_ok s' port b); [| |apply Hb]]|].
  cbv beta. intros _ s'' ((_ & Ef & En) & Hu' & Hl'). split; try done; by rewrite ?Ef, ?En.
Qed.

(** A read of a register window: the 4 bytes at most it gives, or the fault of
    a read past the configuration structure. *)
Lemma config_read_cases config off len :
  VIRTIO_MMIO_CONFIG <= off < VIRTIO_MMIO_CONFIG + Z.of_nat (length config) -> 0 <= len ->
  (exists v, config_read config off len = Ok v) \/
  (config_read config off len = Fault OutOfBounds /\
   Z.of_nat (length config) < off - VIRTIO_MMIO_CONFIG + Z.min len 4).
Proof.
  intros Ho Hl. rewrite config_read_spec by lia. case_bool_decide; [by left; eexists|right].
  split; [done|lia].
Qed.

Lemma virtio_mmio_read_cases off len s :
  FsDev_ok (fs_ s) -> length (fs_config_ (fs_ s)) = 40%nat -> 0 <= len ->
  (exists bs, virtio_mmio_read off len s = Ok (bs, s) /\ Z.of_nat (length bs) <= len) \/
  (virtio_mmio_read off len s = Fault OutOfBounds /\
   VIRTIO_MMIO_CONFIG <= off < VIRTIO_MMIO_CONFIG + 40 /\ 40 < off - VIRTIO_MMIO_CONFIG + Z.min len 4).
Proof.
  intros (Hq & _ & _ & _ & _ & _ & Hsel & _) Hc Hl. unfold virtio_mmio_read.
  assert ((exists v, virtio_mmio_value s off len = Ok v) \/
    (virtio_mmio_value s off len = Fault OutOfBounds /\
     VIRTIO_MMIO_CONFIG <= off < VIRTIO_MMIO_CONFIG + 40 /\ 40 < off - VIRTIO_MMIO_CONFIG + Z.min len 4))
    as [[v ->]|[-> Ho]]; [| |by right].
  - unfold virtio_mmio_value. destruct (reg_at off) as [[]|]; try (by left; eexists); case_match eqn:E;
      try (by left; eexists).
    all: try (apply andb_true_iff in E as [E1%Z.leb_le E2%Z.ltb_lt];
      destruct (config_read_cases (fs_config_ (fs_ s)) off len) as [|[Hf Hov]];
        [rewrite Hc; done|done|by left|right; rewrite Hc in Hov; done]).
    left. apply Z.ltb_lt in E. destruct (get_at_some (vqs_ (fs_ s)) (vqueue_sel_ (fs_ s))) as (q & _ & ->);
      [unfold fits, NUM_QUEUES in *; lia|by eexists].
  - left. eexists. split; [done|]. rewrite length_take, le_enc_length. unfold clamp4.
    destruct (Z.ltb_spec len 4); lia.
Qed.

Lemma net_mmio_read_cases off len s :
  NetDev_ok (net_ s) -> length (net_config_ (net_ s)) = 12%nat -> 0 <= len ->
  (exists bs, net_mmio_read off len s = Ok (bs, s) /\ Z.of_nat (length bs) <= len) \/
  (net_mmio_read off len s = Fault OutOfBounds /\
   VIRTIO_MMIO_CONFIG <= off < VIRTIO_MMIO_CONFIG + 12 /\ 12 < off - VIRTIO_MMIO_CONFIG + Z.min len 4).
Proof.
  intros (Hq & _ & _ & _ & _ & _ & Hsel & _) Hc Hl. unfold net_mmio_read.
  assert ((exists v, net_mmio_value s off len = Ok v) \/
    (net_mmio_value s off len = Fault OutOfBounds /\
     VIRTIO_MMIO_CONFIG <= off < VIRTIO_MMIO_CONFIG + 12 /\ 12 < off - VIRTIO_MMIO_CONFIG + Z.min len 4))
    as [[v ->]|[-> Ho]]; [| |by right].
  - unfold net_mmio_value. destruct (reg_at off) as [[]|]; try (by left; eexists); case_match eqn:E;
      try (by left; eexists).
    all: try (apply andb_true_iff in E as [E1%Z.leb_le E2%Z.ltb_lt];
      destruct (config_read_cases (net_config_ (net_ s)) off len) as [|[Hf Hov]];
        [rewrite Hc; done|done|by left|right; rewrite Hc in Hov; done]).
    left. apply Z.ltb_lt in E. destruct (get_at_some (net_vqs_ (net_ s)) (net_queue_sel_ (net_ s))) as (q & _ & ->);
      [unfold fits, NET_NUM_QUEUES in *; lia|by eexists].
  - left. eexists. split; [done|]. rewrite length_take, le_enc_length. unfold clamp4.
    destruct (Z.ltb_spec len 4); lia.
Qed.

Lemma fs_write_inv off data len s :
  vmm_inv s -> Forall byte_ok data -> wp (virtio_mmio_write off data len) (fun _ => vmm_inv) s.
Proof.
  intros [Hf Hn Hc Hd Hu Hl] Hb.
  eapply wp_mono; [apply wp_wlp_and; [apply (md_write_refines (MmioDevice := fs_mmio) s off data len Hf Hb)|
    apply virtio_write_frame, Hf]|].
  cbv beta. intros _ s' ([Hf' _] & [Eu Ec] & En & Eg). split; try done; by rewrite ?Eu, ?Ec, ?En, ?Eg.
Qed.

Lemma net_write_inv off data len s :
  vmm_inv s -> Forall byte_ok data -> wp (net_mmio_write off data len) (fun _ => vmm_inv) s.
Proof.
  intros [Hf Hn Hc Hd Hu Hl] Hb.
  eapply wp_mono; [apply wp_wlp_and; [apply (md_write_refines (MmioDevice := net_mmio) s off data len Hn Hb)|
    apply net_write_frame]|].
  cbv beta. intros _ s' ([Hf' _] & [Eu Ec] & En & Eg). split; try done; by rewrite ?Eu, ?Ec, ?En, ?Eg.
Qed.

Lemma handle_io_inv o p sz c d s :
  vmm_inv s -> kvm_run_ s = KVM_EXIT_IO o p sz c d -> exit_abi (KVM_EXIT_IO o p sz c d) ->
  wp (handle_io o p sz c d) (fun _ => vmm_inv) s.
Proof.
  intros Hi Hk (Hb & Hsz & Hc & Hl & Hmax). unfold handle_io.
  assert (exit_data (kvm_run_ s) = Some d) as Hd by by rewrite Hk.
  wp_run; try done.
  - apply andb_true_iff in Hb1 as [_ ->%Z.eqb_eq].
    destruct (slice_some 0 c d) as [bs Hs]; [lia..|]. rewrite Hs.
    apply serial_out_all_inv; [done|]. unfold slice in Hs. case_match; [|done]. injection Hs as <-.
    by apply Forall_take, Forall_drop.
  - eapply set_io_data_inv; [done..|]. cbn. nia.
  - eapply set_io_data_inv; [done..|]. unfold zeros. rewrite length_replicate, wrap_id by (unfold fits; nia). lia.
Qed.

(** A read through a device, and the store of what it gives. *)
Lemma device_read_inv F (rd : M (list Z)) d len s :
  vmm_inv s -> exit_data (kvm_run_ s) = Some d -> len <= Z.of_nat (length d) ->
  (exists bs, rd s = Ok (bs, s) /\ Z.of_nat (length bs) <= len) \/ (rd s = Fault OutOfBounds /\ F) ->
  ends_or F ((bs ← rd; set_io_data bs) ;; mret (@None Z)) (fun _ => vmm_inv) s.
Proof.
  intros Hi Hd Hl [(bs & Hr & Hb)|[Hr HF]].
  - apply ends_or_wp. wp_run. apply wp_ok. exists bs, s. split; [done|].
    wp_use set_io_data_inv; [done..|lia|]. cbv beta. intros _ s' Hi'. by wp_run.
  - unfold ends_or, mbind, M_bind. by rewrite Hr.
Qed.

Lemma handle_mmio_inv a l w d s :
  vmm_inv s -> kvm_run_ s = KVM_EXIT_MMIO a l w d -> exit_abi (KVM_EXIT_MMIO a l w d) ->
  ends_or (config_overrun (KVM_EXIT_MMIO a l w d)) (handle_mmio a l w d) (fun _ => vmm_inv) s.
Proof.
  intros Hi Hk (Hb & Hd8 & Hl). unfold handle_mmio.
  assert (exit_data (kvm_run_ s) = Some d) as Hd by by rewrite Hk.
  destruct (w && (a =? MMIO_SIGNAL_GPA)).
  { apply ends_or_wp. wp_run; try done. destruct Hi. subst. by split. }
  destruct (in_fs_region a) eqn:Ef; [|destruct (in_net_region a) eqn:En].
  - destruct w; [apply ends_or_wp; wp_run; wp_use fs_write_inv; [done..|]; cbv beta; intros; by wp_run|].
    apply (device_read_inv _ _ d l); [done..|lia|].
    destruct (virtio_mmio_read_cases (a - VIRTIO_MMIO_GPA) l s) as [|[Hf Hov]];
      [apply Hi|apply Hi|lia|by left|right]. split; [done|]. left. unfold overruns, sizeof_VirtioFsConfig. lia.
  - destruct w; [apply ends_or_wp; wp_run; wp_use net_write_inv; [done..|]; cbv beta; intros; by wp_run|].
    apply (device_read_inv _ _ d l); [done..|lia|].
    destruct (net_mmio_read_cases (a - VIRTIO_NET_MMIO_GPA) l s) as [|[Hf Hov]];
      [apply Hi|apply Hi|lia|by left|right]. split; [done|]. right. unfold overruns, sizeof_VirtioNetConfig. lia.
  - apply ends_or_wp. wp_run; [|done]. wp_use set_io_data_inv; [done..| |].
    + rewrite length_replicate. lia.
    + cbv beta. intros. by wp_run.
Qed.

Lemma handle_exit_inv e s :
  vmm_inv s -> kvm_run_ s = e -> exit_abi e ->
  ends_or (config_overrun e) (handle_exit e) (fun _ => vmm_inv) s.
Proof.
  intros Hi Hk He. destruct e as [o p sz c d|a l w d| | | | |]; cbn [handle_exit].
  2: by apply handle_mmio_inv.
  all: apply ends_or_wp.
  - wp_run. wp_use handle_io_inv; [done..|]. cbv beta. intros. by wp_run.
  - wp_run. destruct Hi. subst. by split.
  - by wp_run.
  - by wp_run.
  - by wp_run.
  - by wp_run.
Qed.

(** The excluded reads do fault. *)
Lemma config_overrun_faults e s :
  vmm_inv s -> exit_abi e -> config_overrun e -> handle_exit e s = Fault OutOfBounds.
Proof.
  intros Hi He Ho. destruct e as [|a l w d| | | | |]; try done. destruct w; [done|].
  destruct He as (_ & _ & Hl). cbn [handle_exit]. unfold handle_mmio. cbn [andb].
  unfold config_overrun, overruns, sizeof_VirtioFsConfig, sizeof_VirtioNetConfig, VIRTIO_MMIO_CONFIG,
    VIRTIO_MMIO_GPA, VIRTIO_NET_MMIO_GPA in Ho.
  assert (forall c off, VIRTIO_MMIO_CONFIG <= off -> Z.of_nat (length c) < off - VIRTIO_MMIO_CONFIG + Z.min l 4 ->
    config_read c off l = Fault OutOfBounds) as Hf.
  { intros c off H1 H2. rewrite config_read_spec, bool_decide_false by lia. done. }
  destruct Hi. destruct Ho as [Ho|Ho].
  - assert (in_fs_region a = true) as ->.
    { unfold in_fs_region, VIRTIO_MMIO_GPA, VIRTIO_MMIO_SIZE. rewrite andb_true_iff, Z.leb_le, Z.ltb_lt. lia. }
    unfold mbind, M_bind, virtio_mmio_read, virtio_mmio_value.
    rewrite reg_at_config by (unfold VIRTIO_MMIO_CONFIG, VIRTIO_MMIO_GPA; lia).
    rewrite (proj2 (Z.leb_le _ _)), (proj2 (Z.ltb_lt _ _)) by
      (unfold VIRTIO_MMIO_CONFIG, VIRTIO_MMIO_GPA, sizeof_VirtioFsConfig; lia).
    cbn [andb]. by rewrite Hf by (rewrite ?vi_fs_config0; unfold VIRTIO_MMIO_CONFIG, VIRTIO_MMIO_GPA; lia).
  - assert (in_fs_region a = false) as ->.
    { unfold in_fs_region, VIRTIO_MMIO_GPA, VIRTIO_MMIO_SIZE. rewrite andb_false_iff, Z.leb_gt, Z.ltb_ge. lia. }
    assert (in_net_region a = true) as ->.
    { unfold in_net_region, VIRTIO_NET_MMIO_GPA, VIRTIO_NET_MMIO_SIZE. rewrite andb_true_iff, Z.leb_le, Z.ltb_lt. lia. }
    unfold mbind, M_bind, net_mmio_read, net_mmio_value.
    rewrite reg_at_config by (unfold VIRTIO_MMIO_CONFIG, VIRTIO_NET_MMIO_GPA; lia).
    rewrite (proj2 (Z.leb_le _ _)), (proj2 (Z.ltb_lt _ _)) by
      (unfold VIRTIO_MMIO_CONFIG, VIRTIO_NET_MMIO_GPA, sizeof_VirtioNetConfig; lia).
    cbn [andb]. by rewrite Hf by (rewrite ?vi_net_config0; unfold VIRTIO_MMIO_CONFIG, VIRTIO_NET_MMIO_GPA; lia).
Qed.

(** C6: memory safety of the run loop, for every guest, with the one exception
    said exactly.  From a well-formed state, whatever exits KVM reports for the
    guest, [run] either comes back with the registers of both devices and of the
    UART within their widths and the console buffer within its 1024 bytes; or it
    went out of bounds, and then the guest made an MMIO read that begins inside
    the configuration structure of a device and ends past it.  Those reads do
    fault, in every well-formed state.  Every queue index, every byte of the
    configuration structures and every store to the shared [kvm_run] page is
    checked in the model. *)
Theorem run_safe fuel hlt s :
  (forall t e, exit_abi (guest_exit t e)) -> vmm_inv s ->
  ends_or (exists t e, config_overrun (guest_exit t e)) (run_loop fuel hlt) (fun _ => vmm_inv) s /\
  (forall e s1, vmm_inv s1 -> exit_abi e -> config_overrun e -> handle_exit e s1 = Fault OutOfBounds).
Proof.
  intros Hg Hi. split; [|by intros; apply config_overrun_faults]. revert hlt s Hi.
  induction fuel as [|fuel IH]; intros hlt s Hi; cbn [run_loop]; [by apply ends_or_wp, wp_ret|].
  apply ends_or_bind, ends_or_wp. wp_use (check_virtio_irqs_inv s Hi). intros _ s1 Hi1.
  apply ends_or_bind, ends_or_wp. unfold enter_guest. wp_run.
  assert (Hi2 : vmm_inv s2) by (destruct Hi1; subst; by split).
  destruct (r_ret r <? 0); [destruct (r_errno r =? EINTR)|].
  - apply ends_or_bind, ends_or_wp. unfold on_eintr. wp_run; cbv beta iota.
    all: try (apply IH; subst; destruct Hi2; by split).
    destruct (2 <=? hlt + 1); [apply ends_or_wp, wp_ret|apply IH]; subst; destruct Hi2; by split.
  - by apply ends_or_wp, wp_ret.
  - apply ends_or_bind, ends_or_wp, wp_gets, ends_or_bind.
    eapply ends_or_mono; [apply handle_exit_inv; [done|done|subst; apply Hg]| |].
    + intros Ho. rewrite Hs0 in Ho. exists (trace_ s0), (kvm_run_ s0). exact Ho.
    + cbv beta. intros [rc|] s4 Hi4; [by apply ends_or_wp, wp_ret|by apply IH].
Qed.
End facts.
