(* ===== verification/NetPath.v ===== *)
(** * The virtio-net packet path

    [net_thread_func] of src/src/virtio.cpp: the thread that moves packets
    between the guest's split virtqueues and the TAP device.  The rings live in
    guest RAM, which the guest may change between any two accesses: every load
    from RAM is preceded by a step of the guest.  Loads and stores outside the
    mapping, and [%] by a zero queue size, are faults. *)
From S2P Require Import Prelude Memory Codec State Logic VirtioRegs VirtioFs VirtioNet.
From stdpp Require Import options.

Definition VRING_DESC_F_NEXT : Z := 1.
Definition VRING_DESC_F_WRITE : Z := 2.
Definition sizeof_VringDesc : Z := 16.
Definition sizeof_VringUsedElem : Z := 8.
Definition sizeof_VirtioNetHdr : Z := 12.
Definition PKT_BUF : Z := 65536.

(** Addresses, relative to guest RAM, of what the thread reads and writes. *)
Definition avail_idx (avail : Z) : Z := avail + 2.
Definition avail_ring (avail i : Z) : Z := avail + 4 + 2 * i.
Definition used_idx (used : Z) : Z := used + 2.
Definition used_ring (used i : Z) : Z := used + 4 + sizeof_VringUsedElem * i.
Definition desc_at (desc i : Z) : Z := desc + sizeof_VringDesc * i.

(** The addresses a thread takes from a queue when it starts. *)
Record rings : Type := { rg_avail : Z; rg_used : Z; rg_desc : Z }.

Section net.
  Context {H : Host}.

(** What [pkt_buf], an array on the thread's stack, held before a packet is
    gathered into it. *)
  Context (stack : mem).

(** One access to guest RAM: the guest moves first. *)
Definition peek (a n : Z) : M (list Z) :=
  modify (fun s => s <| ram_mem_ ::= guest_mem (trace_ s) |>) ;;
  s ← gets id;
  lift (ram_load (ram_bytes_ s) (ram_mem_ s) a n).

Definition load (n : nat) (a : Z) : M Z := bs ← peek a (Z.of_nat n); mret (le_dec bs).

(** [x % q.num], the queue's size being read from the device each time. *)
Definition slot (qi : nat) (x : Z) : M Z :=
  d ← gets net_;
  let num := default 0 (vq_num <$> net_vqs_ d !! qi) in
  if num =? 0 then fail_with DivideByZero else mret (x mod num).

(** [gpa_to_hva(gpa) != nullptr]. *)
Definition gpa_ok (gpa : Z) : M bool := s ← gets id; mret (gpa <? ram_bytes_ s).

(** ** Guest to host *)

(** The descriptor chain: at most 64 descriptors, gathered into [pkt_buf].
    [d->len] is read for each of the two tests, for the copy and for the sum.
    The result is the buffer and [total]. *)
Fixpoint tx_chain (chain : nat) (r : rings) (cur : Z) (buf : mem) (total : Z) : M (mem * Z) :=
  match chain with
  | O => mret (buf, total)
  | S chain' =>
    i ← slot 1 cur;
    let d := desc_at (rg_desc r) i in
    addr ← load 8 d;
    in_ram ← gpa_ok addr;
    len0 ← (if (in_ram : bool) then load 4 (d + 8) else mret 0);
    len1 ← (if 0 <? len0 then load 4 (d + 8) else mret 0);
    p ← (if (0 <? len0) && (total + len1 <? PKT_BUF) then
        len2 ← load 4 (d + 8);
        if PKT_BUF <? total + len2 then fail_with OutOfBounds else
        bs ← peek addr len2;
        len3 ← load 4 (d + 8);
        mret (mem_set buf total bs, total + len3)
      else mret (buf, total));
    flags ← load 2 (d + 12);
    if has_bits flags VRING_DESC_F_NEXT then
      next ← load 2 (d + 14);
      tx_chain chain' r next p.1 p.2
    else mret p
  end.

(** Hand a buffer back: the used element, then the index. *)
Definition push_used (qi : nat) (r : rings) (id len : Z) : M unit :=
  idx ← load 2 (used_idx (rg_used r));
  i ← slot qi idx;
  store (used_ring (rg_used r) i) (le_enc 4 id ++ le_enc 4 len) ;;
  idx ← load 2 (used_idx (rg_used r));
  store (used_idx (rg_used r)) (le_enc 2 (u16 (idx + 1))).

Definition tx_one (r : rings) (tx_last_avail : Z) : M unit :=
  i ← slot 1 tx_last_avail;
  desc_idx ← load 2 (avail_ring (rg_avail r) i);
  p ← tx_chain 64 r desc_idx stack 0;
  d ← gets net_;
  when (sizeof_VirtioNetHdr <? p.2) (
    bs ← lift (ram_load PKT_BUF p.1 sizeof_VirtioNetHdr (p.2 - sizeof_VirtioNetHdr));
    sys_ (sys_write (tap_fd_ d) bs)) ;;
  push_used 1 r desc_idx 0.

(** [while (tx_last_avail != tx_avail->idx)]: the new [tx_last_avail] and
    whether anything was done; [None] is the fuel running out. *)
Fixpoint tx_loop (fuel : nat) (r : rings) (tx_last_avail : Z) (did_work : bool) : M (option (Z * bool)) :=
  idx ← load 2 (avail_idx (rg_avail r));
  if tx_last_avail =? idx then mret (Some (tx_last_avail, did_work)) else
  match fuel with
  | O => mret None
  | S fuel' =>
    tx_one r tx_last_avail ;;
    tx_loop fuel' r (u16 (tx_last_avail + 1)) true
  end.

(** The interrupt after work was done: the line goes low, then high. *)
Definition net_raise_irq : M unit :=
  upd_net (fun d => d <| net_irq_status_ ::= (fun x => Z.lor x 1) |>) ;;
  sys_ (sys_irq_line VIRTIO_NET_MMIO_IRQ 0) ;;
  sys_ (sys_irq_line VIRTIO_NET_MMIO_IRQ 1).

(** ** Host to guest *)

(** Deliver packet [pkt] into the buffer of descriptor [desc_idx]: the length
    reported, or 0 when it does not fit. *)
Definition rx_deliver (r : rings) (desc_idx : Z) (pkt : list Z) : M (option Z) :=
  let nr := Z.of_nat (length pkt) in
  i ← slot 0 desc_idx;
  let d := desc_at (rg_desc r) i in
  addr ← load 8 d;
  ok ← gpa_ok addr;
  flags ← (if (ok : bool) then load 2 (d + 12) else mret 0);
  if negb (ok && has_bits flags VRING_DESC_F_WRITE) then mret None else
  len ← load 4 (d + 8);
  if sizeof_VirtioNetHdr + nr <=? len then
    store addr (replicate (Z.to_nat sizeof_VirtioNetHdr) 0) ;;
    store (addr + sizeof_VirtioNetHdr) pkt ;;
    mret (Some (sizeof_VirtioNetHdr + nr))
  else
  flags ← load 2 (d + 12);
  if has_bits flags VRING_DESC_F_NEXT then
    len ← load 4 (d + 8);
    store addr (replicate (Z.to_nat (Z.min sizeof_VirtioNetHdr len)) 0) ;;
    next ← load 2 (d + 14);
    i2 ← slot 0 next;
    let d2 := desc_at (rg_desc r) i2 in
    addr2 ← load 8 d2;
    ok2 ← gpa_ok addr2;
    len2 ← (if (ok2 : bool) then load 4 (d2 + 8) else mret 0);
    if ok2 && (nr <=? len2) then
      store addr2 pkt ;;
      mret (Some (sizeof_VirtioNetHdr + nr))
    else mret (Some 0)
  else mret (Some 0).

(** [while (rx_last_used != rx_avail->idx)]. *)
Fixpoint rx_loop (fuel : nat) (r : rings) (rx_last_used : Z) (did_work : bool) : M (option (Z * bool)) :=
  idx ← load 2 (avail_idx (rg_avail r));
  if rx_last_used =? idx then mret (Some (rx_last_used, did_work)) else
  match fuel with
  | O => mret None
  | S fuel' =>
    d ← gets net_;
    p ← sys (sys_read (tap_fd_ d) PKT_BUF);
    if r_ret p <=? 0 then mret (Some (rx_last_used, did_work)) else
    let pkt := resize (Z.to_nat (r_ret p)) 0 (r_data p) in
    i ← slot 0 rx_last_used;
    desc_idx ← load 2 (avail_ring (rg_avail r) i);
    total ← rx_deliver r desc_idx pkt;
    match total with
    | Some total =>
      if 0 <? total then
        push_used 0 r desc_idx total ;;
        rx_loop fuel' r (u16 (rx_last_used + 1)) true
      else mret (Some (rx_last_used, did_work))
    | None => mret (Some (rx_last_used, did_work))
    end
  end.

(** ** The thread *)

(** The queue addresses, all of which must lie in RAM. *)
Definition queue_rings (q : Virtqueue) : rings :=
  {| rg_avail := vq_driver q; rg_used := vq_device q; rg_desc := vq_desc q |}.
Definition rings_in_ram (size : Z) (r : rings) : bool :=
  (rg_avail r <? size) && (rg_used r <? size) && (rg_desc r <? size).

(** The wait for the queues; [Some true] to go on, [Some false] to give up. *)
Fixpoint net_wait (fuel : nat) : M (option bool) :=
  d ← gets net_;
  let ready i := negb (default 0 (vq_ready <$> net_vqs_ d !! i) =? 0) in
  if net_active_ d && ready 0%nat && ready 1%nat then mret (Some true) else
  match fuel with
  | O => mret None
  | S fuel' =>
    sys_ (sys_usleep 10000) ;;
    d ← gets net_;
    if tap_fd_ d <? 0 then mret (Some false) else net_wait fuel'
  end.

(** One pass of the main loop: the two indices it ends with. *)
Definition net_pass (fuel : nat) (rx tx : rings) (rx_last_used tx_last_avail : Z) : M (option (Z * Z)) :=
  t ← tx_loop fuel tx tx_last_avail false;
  match t with
  | None => mret None
  | Some (tx_last_avail, tx_work) =>
    when tx_work net_raise_irq ;;
    t ← rx_loop fuel rx rx_last_used false;
    match t with
    | None => mret None
    | Some (rx_last_used, rx_work) =>
      when rx_work net_raise_irq ;;
      when (negb (tx_work || rx_work)) (
        d ← gets net_;
        p ← sys (sys_poll [tap_fd_ d; net_wakeup_fd_ d] 10);
        when (has_bits (nth 1 (r_data p) 0) 1) (sys_ (sys_read (net_wakeup_fd_ d) 8))) ;;
      mret (Some (rx_last_used, tx_last_avail))
    end
  end.

Fixpoint net_main (passes fuel : nat) (rx tx : rings) (rx_last_used tx_last_avail : Z) : M (option unit) :=
  d ← gets net_;
  if net_thread_stop_ d || (tap_fd_ d <? 0) then mret (Some ()) else
  match passes with
  | O => mret None
  | S passes' =>
    o ← net_pass fuel rx tx rx_last_used tx_last_avail;
    match o with
    | None => mret None
    | Some (rx_last_used, tx_last_avail) => net_main passes' fuel rx tx rx_last_used tx_last_avail
    end
  end.

Definition net_thread_func (passes fuel : nat) : M (option unit) :=
  w ← net_wait fuel;
  match w with
  | None => mret None
  | Some false => mret (Some ())
  | Some true =>
    s ← gets id;
    match net_vqs_ (net_ s) with
    | rxq :: txq :: _ =>
      let rx := queue_rings rxq in let tx := queue_rings txq in
      if rings_in_ram (ram_bytes_ s) rx && rings_in_ram (ram_bytes_ s) tx then
        tx_last_avail ← load 2 (used_idx (rg_used tx));
        rx_last_used ← load 2 (used_idx (rg_used rx));
        net_main passes fuel rx tx rx_last_used tx_last_avail
      else mret (Some ())
    | _ => mret (Some ())
    end
  end.
End net.
