(* ===== verification/NetFacts.v ===== *)
(** * Properties of the packet path

    With a guest that leaves the rings alone while they are processed, the
    thread sends exactly the packets the descriptors describe and hands every
    buffer back; chains of any shape end and never overrun the packet buffer.
    What is not checked: the end of a buffer, the queue size, and that the guest
    does not change a length between the test and the copy. *)
From S2P Require Import Prelude Memory Codec State Logic VirtioRegs VirtioFs VirtioNet DeviceFacts CopyFacts NetPath.
From stdpp Require Import options.

(** ** Reading the rings *)

Definition d_addr (m : mem) (d : Z) : Z := rd m 8 d.
Definition d_len (m : mem) (d : Z) : Z := rd m 4 (d + 8).
Definition d_flags (m : mem) (d : Z) : Z := rd m 2 (d + 12).
Definition d_next (m : mem) (d : Z) : Z := rd m 2 (d + 14).

Definition queue_num (s : Vmm) (qi : nat) : Z := default 0 (vq_num <$> net_vqs_ (net_ s) !! qi).

(** A queue whose size is not zero and whose three rings lie inside RAM. *)
Record rings_ok (qi : nat) (r : rings) (s : Vmm) : Prop := {
  ro_num : 0 < queue_num s qi;
  ro_desc : 0 <= rg_desc r /\ desc_at (rg_desc r) (queue_num s qi) <= ram_bytes_ s;
  ro_avail : 0 <= rg_avail r /\ avail_ring (rg_avail r) (queue_num s qi) <= ram_bytes_ s;
  ro_used : 0 <= rg_used r /\ used_ring (rg_used r) (queue_num s qi) <= ram_bytes_ s;
}.

(** Every descriptor of the table that starts in RAM ends in RAM. *)
Definition bufs_in_ram (m : mem) (r : rings) (num size : Z) : Prop :=
  forall i, 0 <= i < num -> let d := desc_at (rg_desc r) i in
    d_addr m d < size -> d_addr m d + d_len m d <= size.

(** ** What a chain describes *)

(** The buffers of the chain that starts at descriptor [cur]. *)
Inductive desc_chain (m : mem) (desc num : Z) : Z -> list (Z * Z) -> Prop :=
| chain_last cur :
    let d := desc_at desc (cur mod num) in
    has_bits (d_flags m d) VRING_DESC_F_NEXT = false ->
    desc_chain m desc num cur [(d_addr m d, d_len m d)]
| chain_next cur l :
    let d := desc_at desc (cur mod num) in
    has_bits (d_flags m d) VRING_DESC_F_NEXT = true ->
    desc_chain m desc num (d_next m d) l ->
    desc_chain m desc num cur ((d_addr m d, d_len m d) :: l).

(** The bytes of the buffers, in order. *)
Definition chain_bytes (m : mem) (bufs : list (Z * Z)) : list Z :=
  mjoin ((fun b => mem_get m b.1 b.2) <$> bufs).

Lemma chain_bytes_cons m b l : chain_bytes m (b :: l) = mem_get m b.1 b.2 ++ chain_bytes m l.
Proof. done. Qed.

(** The bytes [tx_chain] gathers from [cur] with [total] already in the buffer:
    a buffer outside RAM, empty, or too long for the rest is left out. *)
Fixpoint gather (chain : nat) (size : Z) (m : mem) (desc num cur total : Z) : list Z :=
  match chain with
  | O => []
  | S chain' =>
    let d := desc_at desc (cur mod num) in
    let bs := if (d_addr m d <? size) && (0 <? d_len m d) && (total + d_len m d <? PKT_BUF)
              then mem_get m (d_addr m d) (d_len m d) else [] in
    bs ++ (if has_bits (d_flags m d) VRING_DESC_F_NEXT
           then gather chain' size m desc num (d_next m d) (total + Z.of_nat (length bs)) else [])
  end.

Lemma gather_bound chain size m desc num cur total :
  0 <= total < PKT_BUF -> total + Z.of_nat (length (gather chain size m desc num cur total)) < PKT_BUF.
Proof.
  revert cur total. induction chain as [|chain IH]; intros cur total Ht; cbn [gather]; [cbn; lia|].
  set (bs := if _ && _ then _ else _). rewrite length_app.
  assert (Hb : total + Z.of_nat (length bs) < PKT_BUF).
  { unfold bs. case_match eqn:E; [|cbn; lia]. apply andb_true_iff in E as [[_ E1]%andb_true_iff E2].
    apply Z.ltb_lt in E1, E2. rewrite mem_get_length. lia. }
  clearbody bs. destruct (has_bits _ _); [|cbn; lia].
  specialize (IH (d_next m (desc_at desc (cur mod num))) (total + Z.of_nat (length bs)) ltac:(lia)). lia.
Qed.

Lemma gather_chain chain size m desc num cur total bufs :
  desc_chain m desc num cur bufs -> (length bufs <= chain)%nat ->
  Forall (fun b => 0 < b.2 /\ b.1 + b.2 <= size) bufs ->
  total + Z.of_nat (length (chain_bytes m bufs)) < PKT_BUF -> 0 <= total ->
  gather chain size m desc num cur total = chain_bytes m bufs.
Proof.
  intros Hc. revert chain total. induction Hc as [cur d Hf|cur l d Hf Hc IH]; intros chain total Hl Hb Ht H0.
  all: destruct chain as [|chain]; [cbn in Hl; lia|]; cbn [gather]; fold d.
  all: rewrite Forall_cons in Hb; destruct Hb as [[Hpos Hin] Hb]; cbn [fst snd] in Hpos, Hin.
  all: rewrite chain_bytes_cons in Ht |- *; cbn [fst snd] in *.
  all: rewrite length_app, mem_get_length in Ht.
  all: rewrite Hf, (proj2 (Z.ltb_lt (d_addr m d) size)), (proj2 (Z.ltb_lt 0 (d_len m d))),
         (proj2 (Z.ltb_lt (total + d_len m d) PKT_BUF)) by lia; cbn [andb].
  - done.
  - f_equal. apply IH; [cbn in Hl; lia|done| |lia]. rewrite mem_get_length. lia.
Qed.

Section facts.
  Context {H : Host}.

(** A guest that does not touch RAM while the thread works. *)
Definition guest_quiet : Prop := forall t m, guest_mem t m = m.

Lemma peek_quiet a n s :
  guest_quiet -> 0 <= a -> 0 <= n -> a + n <= ram_bytes_ s ->
  peek a n s = Ok (mem_get (ram_mem_ s) a n, s).
Proof.
  intros Hq Ha Hn Hs. unfold peek, mbind, M_bind, modify, gets, lift.
  assert (s <| ram_mem_ ::= guest_mem (trace_ s) |> = s) as ->.
  { destruct s. unfold upd. cbn. by rewrite Hq. }
  cbn [id]. by rewrite ram_load_ok.
Qed.

Lemma wp_peek a n (Q : list Z -> Vmm -> Prop) s :
  guest_quiet -> 0 <= a -> 0 <= n -> a + n <= ram_bytes_ s ->
  Q (mem_get (ram_mem_ s) a n) s -> wp (peek a n) Q s.
Proof. intros. unfold wp. by rewrite peek_quiet. Qed.

Lemma wp_load n a (Q : Z -> Vmm -> Prop) s :
  guest_quiet -> 0 <= a -> a + Z.of_nat n <= ram_bytes_ s ->
  Q (rd (ram_mem_ s) n a) s -> wp (load n a) Q s.
Proof. intros. unfold load. apply wp_bind. apply wp_peek; [done|done|lia|done|]. by wp_run. Qed.

Lemma wp_slot qi x (Q : Z -> Vmm -> Prop) s :
  0 < queue_num s qi -> Q (x mod queue_num s qi) s -> wp (slot qi x) Q s.
Proof.
  intros Hn HQ. unfold slot. wp_run; [|done]. apply Z.eqb_eq in Hb. unfold queue_num in Hn. lia.
Qed.

Lemma desc_in_table r s qi i :
  rings_ok qi r s -> 0 <= i < queue_num s qi ->
  0 <= desc_at (rg_desc r) i /\ desc_at (rg_desc r) i + 16 <= ram_bytes_ s.
Proof.
  intros [_ [Hd0 Hd] _ _] Hi. unfold desc_at, sizeof_VringDesc in *. lia.
Qed.

(** What a chain leaves in the packet buffer: the bytes gathered from it behind
    those that were there. *)
Definition gathered (s : Vmm) (g : list Z) (buf : mem) (total : Z) (p : mem * Z) (s' : Vmm) : Prop :=
  s' = s /\ p.2 = total + Z.of_nat (length g) /\ mem_get p.1 0 p.2 = mem_get buf 0 total ++ g.

(** The end of an iteration, from the buffer and the total a descriptor of bytes
    [bs] leaves: on to the next descriptor, if there is one. *)
Lemma tx_next_ok r s chain d buf total buf' bs :
  guest_quiet -> 0 <= d -> d + 16 <= ram_bytes_ s ->
  (forall cur buf total, 0 <= total < PKT_BUF -> wp (tx_chain chain r cur buf total)
     (gathered s (gather chain (ram_bytes_ s) (ram_mem_ s) (rg_desc r) (queue_num s 1) cur total) buf total) s) ->
  0 <= total + Z.of_nat (length bs) < PKT_BUF ->
  mem_get buf' 0 (total + Z.of_nat (length bs)) = mem_get buf 0 total ++ bs ->
  wp (flags ← load 2 (d + 12);
      if has_bits flags VRING_DESC_F_NEXT then
        next ← load 2 (d + 14); tx_chain chain r next buf' (total + Z.of_nat (length bs))
      else mret (buf', total + Z.of_nat (length bs)))
    (gathered s (bs ++ (if has_bits (d_flags (ram_mem_ s) d) VRING_DESC_F_NEXT
         then gather chain (ram_bytes_ s) (ram_mem_ s) (rg_desc r) (queue_num s 1)
                (d_next (ram_mem_ s) d) (total + Z.of_nat (length bs)) else [])) buf total) s.
Proof.
  intros Hq Hd0 Hd IH Hbs Hbuf. apply wp_bind, wp_load; [done|lia|lia|]. fold (d_flags (ram_mem_ s) d).
  destruct (has_bits (d_flags (ram_mem_ s) d) VRING_DESC_F_NEXT).
  - apply wp_bind, wp_load; [done|lia|lia|]. fold (d_next (ram_mem_ s) d).
    eapply wp_mono; [by apply IH|]. intros p s' (-> & Hp & Hg). unfold gathered.
    rewrite Hg, Hbuf, <- app_assoc, Hp, length_app. split_and!; [done|lia|done].
  - apply wp_ret. unfold gathered. cbn. by rewrite app_nil_r.
Qed.

(** A descriptor that adds nothing to the packet. *)
Ltac skipped Hskip := cbn [app length]; change (Z.of_nat 0) with 0; rewrite Z.add_0_r; exact Hskip.

Lemma tx_chain_ok r s chain cur buf total :
  guest_quiet -> mem_bytes (ram_mem_ s) -> rings_ok 1 r s ->
  bufs_in_ram (ram_mem_ s) r (queue_num s 1) (ram_bytes_ s) -> 0 <= total < PKT_BUF ->
  wp (tx_chain chain r cur buf total) (gathered s
    (gather chain (ram_bytes_ s) (ram_mem_ s) (rg_desc r) (queue_num s 1) cur total) buf total) s.
Proof.
  intros Hq Hm Hr Hb. revert cur buf total. induction chain as [|chain IH]; intros cur buf total Ht.
  { apply wp_ret. unfold gathered. cbn. rewrite app_nil_r. split_and!; [done|lia|done]. }
  cbn [tx_chain gather]. apply wp_bind, wp_slot; [apply Hr|].
  pose proof (Z.mod_pos_bound cur (queue_num s 1) (ro_num _ _ _ Hr)) as Hi.
  set (i := cur mod queue_num s 1) in *.
  destruct (desc_in_table r s 1 i Hr Hi) as [Hd0 Hd1].
  specialize (Hb i Hi). cbv zeta in Hb. set (d := desc_at (rg_desc r) i) in *.
  pose proof (rd_fits (ram_mem_ s) 4 (d + 8) Hm) as Hlf. fold (d_len (ram_mem_ s) d) in Hlf.
  pose proof (rd_fits (ram_mem_ s) 8 d Hm) as Haf. fold (d_addr (ram_mem_ s) d) in Haf.
  unfold fits in Hlf, Haf.
  assert (Hld : forall n a (Q : Z -> Vmm -> Prop), d <= a -> a + Z.of_nat n <= d + 16 ->
    Q (rd (ram_mem_ s) n a) s -> wp (load n a) Q s) by (intros; apply wp_load; [done|lia|lia|done]).
  apply wp_bind, Hld; [lia|lia|]. fold (d_addr (ram_mem_ s) d).
  apply wp_bind. unfold gpa_ok. apply wp_bind, wp_gets, wp_ret. cbn [id].
  pose proof (fun buf' bs => tx_next_ok r s chain d buf total buf' bs Hq Hd0 Hd1 IH) as Hrest.
  pose proof (Hrest buf [] ltac:(cbn; lia)) as Hskip. cbn [length app] in Hskip.
  change (Z.of_nat 0) with 0 in Hskip. rewrite app_nil_r, Z.add_0_r in Hskip. specialize (Hskip eq_refl).
  destruct (d_addr (ram_mem_ s) d <? ram_bytes_ s) eqn:Ea; cbv iota; cbn [andb].
  2: { do 3 apply wp_bind, wp_ret. skipped Hskip. }
  apply wp_bind, Hld; [lia|lia|]. fold (d_len (ram_mem_ s) d). apply wp_bind.
  destruct (0 <? d_len (ram_mem_ s) d) eqn:El; cbv iota; cbn [andb].
  2: { apply wp_ret, wp_bind, wp_ret. skipped Hskip. }
  apply Hld; [lia|lia|]. fold (d_len (ram_mem_ s) d). apply wp_bind.
  apply Z.ltb_lt in Ea, El. specialize (Hb Ea).
  destruct (total + d_len (ram_mem_ s) d <? PKT_BUF) eqn:Et; cbv iota.
  2: { apply wp_ret. skipped Hskip. }
  apply Z.ltb_lt in Et. apply wp_bind, Hld; [lia|lia|]. fold (d_len (ram_mem_ s) d).
  rewrite (proj2 (Z.ltb_ge _ _)) by lia. apply wp_bind, wp_peek; [done|lia|lia|lia|].
  apply wp_bind, Hld; [lia|lia|]. fold (d_len (ram_mem_ s) d). apply wp_ret. cbn [fst snd].
  set (bs := mem_get (ram_mem_ s) (d_addr (ram_mem_ s) d) (d_len (ram_mem_ s) d)).
  assert (Hbl : Z.of_nat (length bs) = d_len (ram_mem_ s) d) by (unfold bs; rewrite mem_get_length; lia).
  rewrite <- Hbl. apply Hrest; [lia|].
  rewrite mem_get_app by lia. f_equal; [apply mem_get_set_disjoint; lia|apply mem_get_set_eq].
Qed.

(** ** Handing buffers back *)

(** RAM after a used element and the index have been written. *)
Definition pushed (m : mem) (used num id len : Z) : mem :=
  let idx := rd m 2 (used_idx used) in
  mem_set (mem_set m (used_ring used (idx mod num)) (le_enc 4 id ++ le_enc 4 len))
          (used_idx used) (le_enc 2 (u16 (idx + 1))).

Lemma push_used_ok qi r id len s :
  guest_quiet -> rings_ok qi r s ->
  wp (push_used qi r id len) (fun _ s' =>
    s' = s <| ram_mem_ := pushed (ram_mem_ s) (rg_used r) (queue_num s qi) id len |>) s.
Proof.
  intros Hq [Hn _ _ [Hu0 Hu]]. unfold push_used.
  assert (Hi : 0 <= rd (ram_mem_ s) 2 (used_idx (rg_used r)) mod queue_num s qi < queue_num s qi)
    by by apply Z.mod_pos_bound.
  unfold used_ring, used_idx, sizeof_VringUsedElem in *.
  apply wp_bind, wp_load; [done|lia|lia|]. apply wp_bind, wp_slot; [done|].
  set (i := rd _ _ _ mod _) in *.
  apply wp_bind, wp_store; [lia|rewrite length_app, !le_enc_length; lia|].
  apply wp_bind, wp_load; [done|lia|cbn -[Z.mul Z.of_nat]; lia|].
  apply wp_store; [lia|rewrite le_enc_length; cbn -[Z.mul Z.of_nat]; lia|].
  cbn. unfold pushed, used_ring, used_idx, sizeof_VringUsedElem. destruct s. cbn. unfold upd. cbn.
  do 4 f_equal. unfold rd. do 2 f_equal. apply mem_get_set_disjoint. lia.
Qed.

Lemma pushed_outside m used num id len x :
  0 < num -> x < used + 2 \/ used + 4 + 8 * num <= x -> pushed m used num id len x = m x.
Proof.
  intros Hn Hx. pose proof (Z.mod_pos_bound (rd m 2 (used_idx used)) num Hn) as Hi.
  unfold pushed, used_ring, used_idx, sizeof_VringUsedElem in *.
  rewrite !mem_set_outside; [done|..]; rewrite ?length_app, ?le_enc_length; lia.
Qed.

Lemma pushed_idx m used num id len :
  0 < num -> rd (pushed m used num id len) 2 (used_idx used) = u16 (rd m 2 (used_idx used) + 1).
Proof.
  intros Hn. unfold rd at 1, pushed.
  change (Z.of_nat 2) with (Z.of_nat (length (le_enc 2 (u16 (rd m 2 (used_idx used) + 1))))).
  rewrite mem_get_set_eq. apply le_dec_enc. by apply wrap_fits.
Qed.

(** The element just pushed is in the slot the old index names. *)
Lemma pushed_elem m used num id len :
  0 < num -> fits 32 id -> fits 32 len ->
  let i := rd m 2 (used_idx used) mod num in
  rd (pushed m used num id len) 4 (used_ring used i) = id /\
  rd (pushed m used num id len) 4 (used_ring used i + 4) = len.
Proof.
  intros Hn Hid Hlen i. pose proof (Z.mod_pos_bound (rd m 2 (used_idx used)) num Hn) as Hi. fold i in Hi.
  assert (He : mem_get (pushed m used num id len) (used_ring used i) 8 = le_enc 4 id ++ le_enc 4 len).
  { unfold pushed. rewrite mem_get_set_disjoint.
    - fold i. change 8 with (Z.of_nat (length (le_enc 4 id ++ le_enc 4 len))).
      apply mem_get_set_eq.
    - rewrite le_enc_length. unfold used_ring, used_idx, sizeof_VringUsedElem. lia. }
  change 8 with (4 + 4) in He. rewrite mem_get_app in He by lia.
  apply app_inj_1 in He as [E1 E2]; [|by rewrite mem_get_length, le_enc_length].
  unfold rd. change (Z.of_nat 4) with 4. rewrite E1, E2. by rewrite !le_dec_enc.
Qed.

(** ** Sending one chain *)

Lemma tx_send_ok r s buf total pkt desc_idx :
  guest_quiet -> rings_ok 1 r s ->
  total = Z.of_nat (length pkt) -> total < PKT_BUF -> mem_get buf 0 total = pkt ->
  wp (d ← gets net_;
      when (sizeof_VirtioNetHdr <? total) (
        bs ← lift (ram_load PKT_BUF buf sizeof_VirtioNetHdr (total - sizeof_VirtioNetHdr));
        sys_ (sys_write (tap_fd_ d) bs)) ;;
      push_used 1 r desc_idx 0) (fun _ s' => exists t,
    s' = s <| trace_ := t |>
           <| ram_mem_ := pushed (ram_mem_ s) (rg_used r) (queue_num s 1) desc_idx 0 |> /\
    written t = written (trace_ s) ++
      (if 12 <? Z.of_nat (length pkt) then [(tap_fd_ (net_ s), drop 12 pkt)] else [])) s.
Proof.
  intros Hq Hr -> Hlt Hbuf. apply wp_bind, wp_gets, wp_bind.
  apply (wp_mono _ (fun _ s2 => exists t, s2 = s <| trace_ := t |> /\ written t = written (trace_ s) ++
      (if 12 <? Z.of_nat (length pkt) then [(tap_fd_ (net_ s), drop 12 pkt)] else []))).
  { unfold sizeof_VirtioNetHdr. destruct (12 <? Z.of_nat (length pkt)) eqn:E; cbn [when].
    - apply Z.ltb_lt in E. apply wp_bind. eapply wp_lift.
      { apply ram_load_ok; unfold PKT_BUF in *; lia. }
      wp_run. subst s0. eexists. split; [reflexivity|]. rewrite written_snoc. do 3 f_equal.
      rewrite <- Hbuf at 2.
      replace (Z.of_nat (length pkt)) with (12 + (Z.of_nat (length pkt) - 12)) at 2 by lia.
      rewrite mem_get_app by lia. rewrite drop_app_length'; [|by rewrite mem_get_length]. done.
    - wp_run. exists (trace_ s). split; [by destruct s|by rewrite app_nil_r]. }
  intros _ s2 (t & -> & Ht). wp_use (push_used_ok 1 r desc_idx 0 (s <| trace_ := t |>) Hq).
  { by destruct Hr. }
  intros _ s3 ->. exists t. done.
Qed.

Lemma tx_one_ok stack r s last desc_idx pkt :
  guest_quiet -> mem_bytes (ram_mem_ s) -> rings_ok 1 r s ->
  bufs_in_ram (ram_mem_ s) r (queue_num s 1) (ram_bytes_ s) ->
  rd (ram_mem_ s) 2 (avail_ring (rg_avail r) (last mod queue_num s 1)) = desc_idx ->
  gather 64 (ram_bytes_ s) (ram_mem_ s) (rg_desc r) (queue_num s 1) desc_idx 0 = pkt ->
  wp (tx_one stack r last) (fun _ s' => exists t,
    s' = s <| trace_ := t |>
           <| ram_mem_ := pushed (ram_mem_ s) (rg_used r) (queue_num s 1) desc_idx 0 |> /\
    written t = written (trace_ s) ++
      (if 12 <? Z.of_nat (length pkt) then [(tap_fd_ (net_ s), drop 12 pkt)] else [])) s.
Proof.
  intros Hq Hm Hr Hb Hd Hp. unfold tx_one.
  pose proof (ro_num _ _ _ Hr) as Hn. pose proof (ro_avail _ _ _ Hr) as [Ha0 Ha].
  pose proof (Z.mod_pos_bound last (queue_num s 1) Hn) as Hi.
  apply wp_bind, wp_slot; [done|]. set (i := last mod queue_num s 1) in *. clearbody i.
  apply wp_bind, wp_load; [done|unfold avail_ring in *; lia|unfold avail_ring in *; lia|].
  rewrite Hd. apply wp_bind.
  pose proof (gather_bound 64 (ram_bytes_ s) (ram_mem_ s) (rg_desc r) (queue_num s 1) desc_idx 0) as Hlt.
  pose proof (tx_chain_ok r s 64 desc_idx stack 0 Hq Hm Hr Hb) as Hc. cbv zeta in Hc.
  rewrite Hp in Hlt, Hc. eapply wp_mono; [apply Hc; done|]. clear Hc.
  intros [buf total] s1 (-> & Htot & Hbuf). cbn [fst snd] in Htot, Hbuf |- *.
  rewrite Z.add_0_l in Htot, Hlt. apply tx_send_ok; try done.
  rewrite Htot. apply Hlt. done.
Qed.

(** C11: a transmitted packet.  For a descriptor chain of at most 64 buffers,
    each inside RAM, of less than 64 KB in total, the TAP device receives in one
    write the concatenation of the buffers without the 12-byte virtio header, and
    the chain is handed back: its head index in the used element the index
    names, length 0, and the used index one further (modulo 2^16). *)
Theorem tx_sends_packet stack r s last bufs :
  guest_quiet -> mem_bytes (ram_mem_ s) -> rings_ok 1 r s ->
  bufs_in_ram (ram_mem_ s) r (queue_num s 1) (ram_bytes_ s) ->
  let m := ram_mem_ s in let num := queue_num s 1 in
  let head := rd m 2 (avail_ring (rg_avail r) (last mod num)) in
  let i := rd m 2 (used_idx (rg_used r)) mod num in
  desc_chain m (rg_desc r) num head bufs -> (length bufs <= 64)%nat ->
  Forall (fun b => 0 < b.2 /\ b.1 + b.2 <= ram_bytes_ s) bufs ->
  12 < Z.of_nat (length (chain_bytes m bufs)) < PKT_BUF ->
  wp (tx_one stack r last) (fun _ s' =>
    written (trace_ s') = written (trace_ s) ++ [(tap_fd_ (net_ s), drop 12 (chain_bytes m bufs))] /\
    rd (ram_mem_ s') 4 (used_ring (rg_used r) i) = head /\
    rd (ram_mem_ s') 4 (used_ring (rg_used r) i + 4) = 0 /\
    rd (ram_mem_ s') 2 (used_idx (rg_used r)) = u16 (rd m 2 (used_idx (rg_used r)) + 1)) s.
Proof.
  intros Hq Hm Hr Hb m num head i Hc Hl Hin Hlen.
  assert (Hg : gather 64 (ram_bytes_ s) m (rg_desc r) num head 0 = chain_bytes m bufs)
    by (apply gather_chain; try done; lia).
  wp_use (tx_one_ok stack r s last head (chain_bytes m bufs) Hq Hm Hr Hb); [done|done|].
  intros _ s' (t & -> & Ht). rewrite (proj2 (Z.ltb_lt _ _)) in Ht by lia.
  pose proof (ro_num _ _ _ Hr) as Hn.
  assert (Hh : fits 32 head). { apply (fits_mono 16); [lia|]. by apply (rd_fits m 2). }
  destruct (pushed_elem m (rg_used r) num head 0 Hn Hh) as [E1 E2]; [done|].
  split_and!; [exact Ht|exact E1|exact E2|]. by apply pushed_idx.
Qed.

(** C14: the shape of a descriptor chain cannot make the transmit path overrun
    its packet buffer or loop.  As long as the rings lie in RAM, every buffer of
    the table that starts in RAM ends in RAM and the guest does not change memory
    meanwhile, any chain, cyclic or endless or with zero or huge lengths, gives at
    most one write, of less than 64 KB minus the header, and is handed back.  (The
    two conditions on the guest are not checked by the code: see
    [tx_buffer_past_ram] and [tx_length_race].) *)
Theorem tx_any_chain_safe stack r s last :
  guest_quiet -> mem_bytes (ram_mem_ s) -> rings_ok 1 r s ->
  bufs_in_ram (ram_mem_ s) r (queue_num s 1) (ram_bytes_ s) ->
  wp (tx_one stack r last) (fun _ s' =>
    (exists pkt, Z.of_nat (length pkt) < PKT_BUF - 12 /\
       (written (trace_ s') = written (trace_ s) \/
        written (trace_ s') = written (trace_ s) ++ [(tap_fd_ (net_ s), pkt)])) /\
    rd (ram_mem_ s') 2 (used_idx (rg_used r)) = u16 (rd (ram_mem_ s) 2 (used_idx (rg_used r)) + 1)) s.
Proof.
  intros Hq Hm Hr Hb.
  set (head := rd (ram_mem_ s) 2 (avail_ring (rg_avail r) (last mod queue_num s 1))).
  destruct (gather 64 (ram_bytes_ s) (ram_mem_ s) (rg_desc r) (queue_num s 1) head 0) as [|b pkt] eqn:Eg.
  - wp_use (tx_one_ok stack r s last head [] Hq Hm Hr Hb); [done|done|].
    intros _ s' (t & -> & Ht). split; [|by apply pushed_idx, Hr].
    exists []. split; [done|]. left. by rewrite app_nil_r in Ht.
  - pose proof (gather_bound 64 (ram_bytes_ s) (ram_mem_ s) (rg_desc r) (queue_num s 1) head 0) as Hlt.
    rewrite Eg in Hlt. specialize (Hlt ltac:(done)).
    wp_use (tx_one_ok stack r s last head (b :: pkt) Hq Hm Hr Hb); [done|done|].
    intros _ s' (t & -> & Ht). split; [|by apply pushed_idx, Hr].
    destruct (12 <? Z.of_nat (length (b :: pkt))) eqn:E.
    + exists (drop 12 (b :: pkt)). apply Z.ltb_lt in E. rewrite length_drop. split; [lia|by right].
    + exists []. split; [done|]. left. by rewrite app_nil_r in Ht.
Qed.

(** ** Draining the transmit queue *)

(** The used ring shares no byte with the other two. *)
Definition rings_disjoint (r : rings) (num : Z) : Prop :=
  let clear a n := a + n <= rg_used r + 2 \/ rg_used r + 4 + 8 * num <= a in
  clear (rg_avail r) (4 + 2 * num) /\ clear (rg_desc r) (16 * num).

Lemma pushed_bytes m used num id len : mem_bytes m -> mem_bytes (pushed m used num id len).
Proof.
  intros Hm. unfold pushed. apply mem_set_bytes; [apply mem_set_bytes; [done|]|apply le_enc_bytes].
  apply Forall_app. split; apply le_enc_bytes.
Qed.

Lemma rd_pushed m used num id len n a :
  0 < num -> a + Z.of_nat n <= used + 2 \/ used + 4 + 8 * num <= a ->
  rd (pushed m used num id len) n a = rd m n a.
Proof.
  intros Hn Ha. unfold rd. f_equal. unfold mem_get. apply list_fmap_ext. intros j x Hx.
  apply lookup_seqZ in Hx as [-> ?]. apply pushed_outside; [done|lia].
Qed.

(** No buffer of the table shares a byte with what the device writes. *)
Definition bufs_apart (m : mem) (r : rings) (num : Z) : Prop :=
  forall i, 0 <= i < num -> let d := desc_at (rg_desc r) i in
    d_addr m d + d_len m d <= rg_used r + 2 \/ rg_used r + 4 + 8 * num <= d_addr m d.

(** The heads of the [n] chains posted from index [last] on. *)
Fixpoint posted (m : mem) (avail num last : Z) (n : nat) : list Z :=
  match n with
  | O => []
  | S n' => rd m 2 (avail_ring avail (last mod num)) :: posted m avail num (u16 (last + 1)) n'
  end.

(** The writes to the TAP device for the chain of head [head]. *)
Definition tx_packet (fd size : Z) (m : mem) (desc num head : Z) : list (Z * list Z) :=
  let pkt := gather 64 size m desc num head 0 in
  if 12 <? Z.of_nat (length pkt) then [(fd, drop 12 pkt)] else [].

Lemma tx_packet_eq fd size m desc num head :
  tx_packet fd size m desc num head =
  if 12 <? Z.of_nat (length (gather 64 size m desc num head 0))
  then [(fd, drop 12 (gather 64 size m desc num head 0))] else [].
Proof. reflexivity. Qed.
Global Arguments tx_packet : simpl never.

(** RAM after the chains of heads [heads] have been handed back, in order. *)
Definition handed_back (used num : Z) (heads : list Z) (m : mem) : mem :=
  foldl (fun m head => pushed m used num head 0) m heads.

Lemma gather_pushed chain size m r num cur total id len :
  0 < num -> rings_disjoint r num -> bufs_apart m r num ->
  gather chain size (pushed m (rg_used r) num id len) (rg_desc r) num cur total =
  gather chain size m (rg_desc r) num cur total.
Proof.
  intros Hn [_ Hdd] Hap. cbn zeta in Hdd. revert cur total.
  induction chain as [|chain IH]; intros cur total; [done|]. cbn [gather].
  pose proof (Z.mod_pos_bound cur num Hn) as Hi. specialize (Hap _ Hi). cbv zeta in Hap.
  set (d := desc_at (rg_desc r) (cur mod num)) in *.
  assert (Hrd : forall n a, d <= a -> a + Z.of_nat n <= d + 16 ->
    rd (pushed m (rg_used r) num id len) n a = rd m n a).
  { intros n a H1 H2. apply rd_pushed; [done|]. unfold d, desc_at, sizeof_VringDesc in *. lia. }
  assert (d_addr (pushed m (rg_used r) num id len) d = d_addr m d) as -> by (apply Hrd; lia).
  assert (d_len (pushed m (rg_used r) num id len) d = d_len m d) as -> by (apply Hrd; lia).
  assert (d_flags (pushed m (rg_used r) num id len) d = d_flags m d) as -> by (apply Hrd; lia).
  assert (d_next (pushed m (rg_used r) num id len) d = d_next m d) as -> by (apply Hrd; lia).
  assert (mem_get (pushed m (rg_used r) num id len) (d_addr m d) (d_len m d) =
    mem_get m (d_addr m d) (d_len m d)) as ->.
  { unfold mem_get. apply list_fmap_ext. intros j x Hx. apply lookup_seqZ in Hx as [-> ?].
    apply pushed_outside; [done|lia]. }
  by rewrite IH.
Qed.

Lemma packets_pushed fd size m r num id len l :
  0 < num -> rings_disjoint r num -> bufs_apart m r num ->
  mjoin (tx_packet fd size (pushed m (rg_used r) num id len) (rg_desc r) num <$> l) =
  mjoin (tx_packet fd size m (rg_desc r) num <$> l).
Proof.
  intros Hn Hd Hap. erewrite list_fmap_ext; [reflexivity|].
  intros i h _. unfold tx_packet. by rewrite gather_pushed.
Qed.

Lemma posted_pushed m r num last n id len :
  0 < num -> rings_disjoint r num ->
  posted (pushed m (rg_used r) num id len) (rg_avail r) num last n = posted m (rg_avail r) num last n.
Proof.
  intros Hn [Hda _]. cbn zeta in Hda. revert last. induction n as [|n IH]; intros last; [done|]. cbn [posted].
  pose proof (Z.mod_pos_bound last num Hn) as Hi. rewrite IH. f_equal. apply rd_pushed; [done|].
  unfold avail_ring. lia.
Qed.

Lemma bufs_apart_pushed m r num id len :
  0 < num -> rings_disjoint r num -> bufs_apart m r num ->
  bufs_apart (pushed m (rg_used r) num id len) r num.
Proof.
  intros Hn [_ Hdd] Hap i Hi. cbn zeta in Hdd. specialize (Hap i Hi). cbv zeta in *. unfold d_addr, d_len in *.
  unfold desc_at, sizeof_VringDesc in *. by rewrite !rd_pushed by lia.
Qed.

Lemma tx_loop_ok stack r n fuel s last w :
  guest_quiet -> mem_bytes (ram_mem_ s) -> rings_ok 1 r s ->
  bufs_in_ram (ram_mem_ s) r (queue_num s 1) (ram_bytes_ s) ->
  rings_disjoint r (queue_num s 1) -> bufs_apart (ram_mem_ s) r (queue_num s 1) ->
  rd (ram_mem_ s) 2 (avail_idx (rg_avail r)) = u16 (last + Z.of_nat n) ->
  fits 16 last -> Z.of_nat n < 2 ^ 16 -> (n <= fuel)%nat ->
  let heads := posted (ram_mem_ s) (rg_avail r) (queue_num s 1) last n in
  wp (tx_loop stack fuel r last w) (fun o s' =>
    o = Some (u16 (last + Z.of_nat n), w || bool_decide (0 < n)%nat) /\
    written (trace_ s') = written (trace_ s) ++
      mjoin (tx_packet (tap_fd_ (net_ s)) (ram_bytes_ s) (ram_mem_ s) (rg_desc r) (queue_num s 1) <$> heads) /\
    ram_mem_ s' = handed_back (rg_used r) (queue_num s 1) heads (ram_mem_ s)) s.
Proof.
  intros Hq. revert n s last w.
  induction fuel as [|fuel IH]; intros n s last w Hm Hr Hb Hdj Hap Hav Hl Hn Hf.
  all: pose proof (ro_avail _ _ _ Hr) as [Ha0 Ha]; pose proof (ro_num _ _ _ Hr) as Hnum.
  all: cbn [tx_loop]; apply wp_bind, wp_load;
    [done|unfold avail_idx; lia|unfold avail_idx, avail_ring in *; lia|]; rewrite Hav.
  all: assert (Hend : n = 0%nat -> last = u16 (last + Z.of_nat n))
    by (intros ->; rewrite Z.add_0_r; symmetry; by apply wrap_id).
  all: destruct n as [|n]; [rewrite <- Hend, Z.eqb_refl by done; wp_run;
    rewrite orb_false_r, app_nil_r; done|try lia].
  clear Hend. assert (Hne : last <> u16 (last + Z.of_nat (S n))).
  { unfold wrap, fits in *. intros E. pose proof (Z.div_mod (last + Z.of_nat (S n)) (2 ^ 16)). lia. }
  rewrite (proj2 (Z.eqb_neq _ _) Hne). apply wp_bind.
  wp_use (tx_one_ok stack r s last _ _ Hq Hm Hr Hb eq_refl eq_refl). cbn [posted].
  intros _ s1 (t & -> & Ht).
  set (head := rd (ram_mem_ s) 2 (avail_ring (rg_avail r) (last mod queue_num s 1))) in *. clearbody head.
  rewrite <- tx_packet_eq in Ht.
  assert (Hwrap : u16 (u16 (last + 1) + Z.of_nat n) = u16 (last + Z.of_nat (S n))).
  { unfold wrap. rewrite Zplus_mod_idemp_l. f_equal. lia. }
  pose proof Hdj as [Hda Hdd]. cbn zeta in Hda, Hdd.
  eapply wp_mono; [apply (IH n)|]; cbn [ram_mem_ ram_bytes_ net_ upd].
  - by apply pushed_bytes.
  - by destruct Hr.
  - intros i Hi. specialize (Hb i Hi). cbv zeta in *. unfold d_addr, d_len in *.
    change (queue_num (s <| trace_ := t |> <| ram_mem_ := _ |>) 1) with (queue_num s 1) in *.
    unfold desc_at, sizeof_VringDesc in *. cbn. rewrite !rd_pushed by lia. exact Hb.
  - done.
  - by apply bufs_apart_pushed.
  - cbn. rewrite rd_pushed by (unfold avail_idx in *; lia). by rewrite Hwrap.
  - by apply wrap_fits.
  - lia.
  - lia.
  - cbv beta. change (queue_num (s <| trace_ := t |> <| ram_mem_ := _ |>) 1) with (queue_num s 1).
    cbn [ram_mem_ ram_bytes_ net_ trace_ upd]. intros o s' (-> & Hw & Hu). rewrite Hwrap, Hu, Hw.
    rewrite posted_pushed by done.
    split_and!; [rewrite (bool_decide_true (0 < S n)%nat) by lia; by rewrite orb_true_r| |done].
    rewrite Ht, <- app_assoc.
    lazymatch goal with |- _ = _ ++ mjoin (?f <$> ?h :: ?l) => change (mjoin (f <$> h :: l)) with (f h ++ mjoin (f <$> l)) end.
    rewrite packets_pushed by done. reflexivity.
Qed.

Lemma handed_back_idx used num heads m used0 :
  0 < num -> rd m 2 (used_idx used) = u16 used0 ->
  rd (handed_back used num heads m) 2 (used_idx used) = u16 (used0 + Z.of_nat (length heads)).
Proof.
  intros Hn. revert m used0. induction heads as [|h heads IH]; intros m used0 Hu.
  { cbn. by rewrite Z.add_0_r. }
  change (handed_back used num (h :: heads) m) with (handed_back used num heads (pushed m used num h 0)).
  rewrite (IH _ (used0 + 1)).
  - f_equal. cbn [length]. lia.
  - rewrite pushed_idx, Hu by done. unfold wrap. by rewrite Zplus_mod_idemp_l.
Qed.

Lemma posted_length m avail num last n : length (posted m avail num last n) = n.
Proof. revert last. induction n as [|n IH]; intros last; [done|]. cbn. by rewrite IH. Qed.

(** C12: the transmit loop drains the queue.  With [n] chains posted (the
    driver's index [n] ahead of the device's, modulo 2^16), rings and buffers that
    do not overlap the used ring, and a guest that leaves them alone meanwhile,
    the loop ends and has caught up with the driver's index; the TAP device has
    received, in the order of the available ring, the packet of each of the [n]
    heads posted there, and nothing else; and the used ring has been given those
    heads in that order, one element and one step of the index for each, no other
    byte of RAM having changed. *)
Theorem tx_drains_queue stack r n fuel s last used0 :
  guest_quiet -> mem_bytes (ram_mem_ s) -> rings_ok 1 r s ->
  bufs_in_ram (ram_mem_ s) r (queue_num s 1) (ram_bytes_ s) ->
  rings_disjoint r (queue_num s 1) -> bufs_apart (ram_mem_ s) r (queue_num s 1) ->
  rd (ram_mem_ s) 2 (avail_idx (rg_avail r)) = u16 (last + Z.of_nat n) ->
  rd (ram_mem_ s) 2 (used_idx (rg_used r)) = u16 used0 ->
  fits 16 last -> Z.of_nat n < 2 ^ 16 -> (n <= fuel)%nat ->
  let heads := posted (ram_mem_ s) (rg_avail r) (queue_num s 1) last n in
  wp (tx_loop stack fuel r last false) (fun o s' =>
    o = Some (u16 (last + Z.of_nat n), bool_decide (0 < n)%nat) /\
    written (trace_ s') = written (trace_ s) ++
      mjoin (tx_packet (tap_fd_ (net_ s)) (ram_bytes_ s) (ram_mem_ s) (rg_desc r) (queue_num s 1) <$> heads) /\
    ram_mem_ s' = handed_back (rg_used r) (queue_num s 1) heads (ram_mem_ s) /\
    rd (ram_mem_ s') 2 (used_idx (rg_used r)) = u16 (used0 + Z.of_nat n)) s.
Proof.
  intros Hq Hm Hr Hb Hdj Hap Hav Hus Hl Hn Hf heads.
  eapply wp_mono; [by apply (tx_loop_ok stack r n fuel s last false)|].
  cbv beta. fold heads. intros o s' (-> & Hw & Hu). split_and!; [done|exact Hw|exact Hu|].
  rewrite Hu, (handed_back_idx _ _ _ _ used0); [|apply Hr|done]. unfold heads. by rewrite posted_length.
Qed.

(** ** Receiving *)


(** ** What is not checked *)

(** a guest that leaves the queue size at zero makes the thread divide by
    zero on its first buffer. *)
Theorem zero_queue_size_divides stack r s last :
  queue_num s 1 = 0 -> tx_one stack r last s = Fault DivideByZero.
Proof.
  intros Hn. unfold tx_one, slot, mbind, M_bind, gets. fold (queue_num s 1). by rewrite Hn.
Qed.

Lemma bind_ok {A B} (c : M A) (k : A -> M B) s a s' : c s = Ok (a, s') -> (c ≫= k) s = k a s'.
Proof. intros E. unfold mbind, M_bind. by rewrite E. Qed.

Lemma bind_fault {A B} (c : M A) (k : A -> M B) s f : c s = Fault f -> (c ≫= k) s = Fault f.
Proof. intros E. unfold mbind, M_bind. by rewrite E. Qed.

Lemma load_quiet n a s :
  guest_quiet -> 0 <= a -> a + Z.of_nat n <= ram_bytes_ s ->
  load n a s = Ok (rd (ram_mem_ s) n a, s).
Proof.
  intros Hq Ha Hs. unfold load.
  rewrite (bind_ok _ _ _ _ _ (peek_quiet a (Z.of_nat n) s Hq Ha ltac:(lia) Hs)). done.
Qed.

Lemma slot_ok qi x s : 0 < queue_num s qi -> slot qi x s = Ok (x mod queue_num s qi, s).
Proof.
  intros Hn. unfold slot, mbind, M_bind, gets. fold (queue_num s qi).
  destruct (Z.eqb_spec (queue_num s qi) 0); [lia|done].
Qed.

Lemma peek_past_ram a n s :
  guest_quiet -> ram_bytes_ s < a + n -> peek a n s = Fault OutOfBounds.
Proof.
  intros Hq Hs. unfold peek, mbind, M_bind, modify, gets, lift.
  assert (s <| ram_mem_ ::= guest_mem (trace_ s) |> = s) as ->.
  { destruct s. unfold upd. cbn. by rewrite Hq. }
  cbn [id]. by rewrite ram_load_fault.
Qed.

(** only the start of a buffer is checked against RAM.  A descriptor that
    starts inside RAM and ends past it makes the transmit path read host memory
    behind the guest's. *)
Theorem tx_buffer_past_ram stack r s last :
  guest_quiet -> mem_bytes (ram_mem_ s) -> rings_ok 1 r s ->
  let m := ram_mem_ s in
  let head := rd m 2 (avail_ring (rg_avail r) (last mod queue_num s 1)) in
  let d := desc_at (rg_desc r) (head mod queue_num s 1) in
  d_addr m d < ram_bytes_ s < d_addr m d + d_len m d -> d_len m d < PKT_BUF ->
  tx_one stack r last s = Fault OutOfBounds.
Proof.
  intros Hq Hm Hr m head d Ha Hl. pose proof (ro_num _ _ _ Hr) as Hn.
  pose proof (ro_avail _ _ _ Hr) as [Ha0 Hav].
  pose proof (Z.mod_pos_bound last (queue_num s 1) Hn) as Hli.
  pose proof (Z.mod_pos_bound head (queue_num s 1) Hn) as Hhi.
  destruct (desc_in_table r s 1 _ Hr Hhi) as [Hd0 Hd1]. fold d in Hd0, Hd1.
  unfold tx_one. rewrite (bind_ok _ _ _ _ _ (slot_ok 1 last s Hn)).
  set (i := last mod queue_num s 1) in *.
  rewrite (bind_ok _ _ _ _ _ (load_quiet 2 (avail_ring (rg_avail r) i) s Hq ltac:(unfold avail_ring in *; lia) ltac:(unfold avail_ring in *; lia))).
  apply bind_fault. change (rd (ram_mem_ s) 2 (avail_ring (rg_avail r) i)) with head.
  change 64%nat with (S 63). cbn [tx_chain]. generalize (tx_chain 63). intros tx_chain63.
  rewrite (bind_ok _ _ _ _ _ (slot_ok 1 head s Hn)). fold d. cbv zeta. clearbody d.
  assert (Hld : forall n a, d <= a -> a + Z.of_nat n <= d + 16 -> load n a s = Ok (rd m n a, s))
    by (intros; apply load_quiet; [done|lia|lia]).
  rewrite (bind_ok _ _ _ _ _ (Hld 8%nat d ltac:(lia) ltac:(lia))). fold (d_addr m d).
  assert (Hg : gpa_ok (d_addr m d) s = Ok (true, s)).
  { unfold gpa_ok, mbind, M_bind, gets. cbn [id]. by rewrite (proj2 (Z.ltb_lt _ _)) by lia. }
  rewrite (bind_ok _ _ _ _ _ Hg). pose proof (Hld 4%nat (d + 8) ltac:(lia) ltac:(lia)) as Hlen.
  fold (d_len m d) in Hlen. pose proof (rd_fits m 8 d Hm) as Haf. fold (d_addr m d) in Haf.
  unfold fits in Haf.
  rewrite (bind_ok _ _ _ _ _ Hlen), (proj2 (Z.ltb_lt 0 (d_len m d))) by lia.
  rewrite (bind_ok _ _ _ _ _ Hlen), (proj2 (Z.ltb_lt (0 + d_len m d) PKT_BUF)) by lia. cbn [andb].
  apply bind_fault. rewrite (bind_ok _ _ _ _ _ Hlen), (proj2 (Z.ltb_ge PKT_BUF (0 + d_len m d))) by lia.
  apply bind_fault. apply peek_past_ram; [done|lia].
Qed.
End facts.

(** ** A length that changes under the thread *)

(** A transmit queue of one descriptor, whose buffer is the start of 128 KB of
    RAM and whose length is 16 bytes ... *)
Definition race_rings : rings := {| rg_avail := 0x2000; rg_used := 0x3000; rg_desc := 0x1000 |}.
Definition race_mem : mem := mem_set mem_zero 0x1008 (le_enc 4 16).
Definition race_state : Vmm :=
  (Vmm_new 0) <| ram_bytes_ := 0x20000 |> <| ram_mem_ := race_mem |>
    <| net_ ::= (fun d => d <| net_vqs_ := [Virtqueue_init <| vq_num := 1 |>;
                                           Virtqueue_init <| vq_num := 1 |>] |>) |>.

(** ... or 16 + 65536 bytes: the guest flips the third byte of the length. *)
Definition race_flip (m : mem) : mem := fun a => if a =? 0x100a then 1 - m a else m a.
Definition race_host : Host := {|
  reply_of _ _ := {| r_ret := 0; r_errno := 0; r_data := [] |};
  guest_exit _ e := e;
  guest_mem _ m := race_flip m
|}.

(** the length of a buffer is read from guest memory once to be checked and
    again to be copied.  A guest that flips it in between, always describing a
    buffer inside RAM, makes the transmit path write past its packet buffer. *)
Theorem tx_length_race :
  (forall m, m = race_mem \/ m = race_flip race_mem ->
     bufs_in_ram m race_rings (queue_num race_state 1) (ram_bytes_ race_state)) /\
  tx_one (H := race_host) mem_zero race_rings 0 race_state = Fault OutOfBounds.
Proof.
  split; [|reflexivity]. intros m Hm i Hi. change (queue_num race_state 1) with 1 in Hi.
  assert (i = 0) as -> by lia. destruct Hm as [-> | ->]; vm_compute; congruence.
Qed.
