(* ===== verification/BiosRom.v ===== *)
(** * The BIOS image

    [bios_rom] of src/src/bios_rom.h and the entry offsets of
    src/src/bios_offsets.h: the real-mode code the VMM installs for the kernel's
    setup code to call. *)
From S2P Require Import Prelude.
From stdpp Require Import options.

Definition BIOS_OFFSET__bios_int10 : Z := 0x40.
Definition BIOS_OFFSET__bios_int10_end : Z := 0x7f.
Definition BIOS_OFFSET__bios_int15 : Z := 0x80.
Definition BIOS_OFFSET__bios_int15_end : Z := 0xb8.
Definition BIOS_OFFSET__bios_intfake : Z := 0x30.

Definition bios_rom : list Z :=
  [0x66; 0x57; 0x66; 0x56; 0x66; 0x53; 0x66; 0x89; 0xc3; 0x66; 0x89; 0xc8;
   0x67; 0x66; 0x8b; 0x4c; 0x24; 0x14; 0x67; 0x66; 0x8b; 0x74; 0x24; 0x10;
   0x66; 0x89; 0xd7; 0x1e; 0x06; 0x8e; 0xd8; 0x8e; 0xc3; 0xf3; 0xa4; 0x07;
   0x1f; 0x66; 0x5b; 0x66; 0x5e; 0x66; 0x5f; 0x66; 0xc3; 0x66; 0x90; 0x90;
   0x67; 0x66; 0x83; 0x4c; 0x24; 0x04; 0x01; 0xcf; 0x90; 0x2e; 0x8d; 0xb4;
   0x00; 0x00; 0x89; 0xf6; 0x66; 0x0f; 0xa0; 0x66; 0x06; 0x66; 0x1e; 0x66;
   0x57; 0x66; 0x56; 0x66; 0x55; 0x66; 0x54; 0x66; 0x52; 0x66; 0x51; 0x66;
   0x53; 0x66; 0x50; 0x66; 0x89; 0xe0; 0x66; 0xe8; 0x0c; 0x01; 0x00; 0x00;
   0x66; 0x58; 0x66; 0x5b; 0x66; 0x59; 0x66; 0x5a; 0x66; 0x5c; 0x66; 0x5d;
   0x66; 0x5e; 0x66; 0x5f; 0x66; 0x1f; 0x66; 0x07; 0x66; 0x0f; 0xa1; 0x67;
   0x66; 0x83; 0x64; 0x24; 0x04; 0xfe; 0xcf; 0x90; 0x66; 0x0f; 0xa0; 0x66;
   0x06; 0x66; 0x1e; 0x66; 0x57; 0x66; 0x56; 0x66; 0x55; 0x66; 0x54; 0x66;
   0x52; 0x66; 0x51; 0x66; 0x53; 0x66; 0x50; 0x66; 0x89; 0xe0; 0x66; 0xe8;
   0xf8; 0x01; 0x00; 0x00; 0x66; 0x58; 0x66; 0x5b; 0x66; 0x59; 0x66; 0x5a;
   0x66; 0x5c; 0x66; 0x5d; 0x66; 0x5e; 0x66; 0x5f; 0x66; 0x1f; 0x66; 0x07;
   0x66; 0x0f; 0xa1; 0xcf; 0x00; 0x00; 0x00; 0x00; 0x00; 0x00; 0x00; 0x00;
   0x00; 0x00; 0x00; 0x00; 0x66; 0x55; 0x66; 0x57; 0x66; 0x56; 0x66; 0x53;
   0x66; 0x52; 0x66; 0x89; 0xc7; 0x66; 0xb8; 0xc0; 0x9f; 0xff; 0xff; 0x8e;
   0xe0; 0x67; 0x66; 0x8b; 0x6f; 0x04; 0x64; 0x67; 0x66; 0x8b; 0x0d; 0x00;
   0x00; 0x00; 0x00; 0x66; 0x39; 0xcd; 0x73; 0x4c; 0x8e; 0xe0; 0x67; 0x66;
   0x8d; 0x5c; 0xad; 0x00; 0x67; 0x66; 0x8b; 0x47; 0x1c; 0x67; 0x66; 0x8d;
   0x70; 0x14; 0x66; 0xba; 0x00; 0x04; 0x00; 0x00; 0x66; 0x29; 0xc2; 0x67;
   0x66; 0x8d; 0x9c; 0x9a; 0x04; 0xfc; 0xff; 0xff; 0x67; 0x66; 0x89; 0x2c;
   0x24; 0x8d; 0x74; 0x00; 0x67; 0x66; 0x8d; 0x14; 0x03; 0x66; 0x0f; 0xb7;
   0xd2; 0x66; 0x89; 0xc5; 0x66; 0x40; 0x64; 0x67; 0x8a; 0x12; 0x67; 0x88;
   0x55; 0x00; 0x66; 0x39; 0xc6; 0x75; 0xe5; 0x67; 0x66; 0x8b; 0x2c; 0x24;
   0x67; 0x66; 0xc7; 0x07; 0x50; 0x41; 0x4d; 0x53; 0x67; 0x66; 0xc7; 0x47;
   0x08; 0x14; 0x00; 0x00; 0x00; 0x66; 0x45; 0x67; 0x66; 0x83; 0x67; 0x30;
   0xfe; 0x66; 0x39; 0xcd; 0x72; 0x03; 0x66; 0x31; 0xed; 0x67; 0x66; 0x89;
   0x6f; 0x04; 0x66; 0x58; 0x66; 0x5b; 0x66; 0x5e; 0x66; 0x5f; 0x66; 0x5d;
   0x66; 0xc3; 0x66; 0x90; 0x66; 0x57; 0x66; 0x53; 0x66; 0x81; 0xec; 0x04;
   0x01; 0x00; 0x00; 0x66; 0x89; 0xc3; 0x67; 0x66; 0x8b; 0x00; 0x66; 0x0f;
   0xb6; 0xd4; 0x66; 0x83; 0xfa; 0x0e; 0x74; 0x2c; 0x66; 0x83; 0xfa; 0x4f;
   0x75; 0x16; 0x66; 0x25; 0xff; 0x00; 0x00; 0x00; 0x0f; 0x84; 0x88; 0x00;
   0x66; 0x48; 0x74; 0x2c; 0x67; 0x66; 0xc7; 0x03; 0x4f; 0x00; 0x00; 0x00;
   0x66; 0x81; 0xc4; 0x04; 0x01; 0x00; 0x00; 0x66; 0x5b; 0x66; 0x5f; 0x66;
   0xc3; 0x8d; 0x74; 0x00; 0x66; 0xba; 0xf8; 0x03; 0x00; 0x00; 0xee; 0x66;
   0x81; 0xc4; 0x04; 0x01; 0x00; 0x00; 0x66; 0x5b; 0x66; 0x5f; 0x66; 0xc3;
   0x67; 0x66; 0x8b; 0x53; 0x1c; 0x66; 0xb9; 0x40; 0x00; 0x00; 0x00; 0x66;
   0x31; 0xc0; 0x66; 0x89; 0xd7; 0x66; 0xf3; 0xab; 0x67; 0xc7; 0x02; 0xd9;
   0x00; 0x67; 0x66; 0xc7; 0x42; 0x11; 0x0a; 0x80; 0x02; 0xe0; 0x67; 0x66;
   0xc7; 0x42; 0x15; 0x01; 0x00; 0x00; 0x01; 0x67; 0x66; 0xc7; 0x42; 0x19;
   0x20; 0x00; 0x06; 0x00; 0x67; 0x66; 0xc7; 0x42; 0x1f; 0x08; 0x00; 0x08;
   0x08; 0x67; 0x66; 0xc7; 0x42; 0x23; 0x08; 0x10; 0x08; 0x18; 0x67; 0xc6;
   0x42; 0x2b; 0xd0; 0x67; 0x66; 0xc7; 0x03; 0x4f; 0x00; 0x00; 0x00; 0xeb;
   0x87; 0x8d; 0x74; 0x00; 0x67; 0x66; 0x8b; 0x53; 0x1c; 0x67; 0x66; 0x8d;
   0x7c; 0x24; 0x06; 0x66; 0xb9; 0xfa; 0x00; 0x00; 0x00; 0x66; 0x31; 0xc0;
   0xf3; 0xaa; 0x67; 0x66; 0xc7; 0x04; 0x24; 0x56; 0x45; 0x53; 0x41; 0x67;
   0xc7; 0x44; 0x24; 0x04; 0x02; 0x01; 0x67; 0xc7; 0x44; 0x24; 0x08; 0x00;
   0xc0; 0x67; 0x66; 0xc7; 0x44; 0x24; 0x0a; 0x10; 0x00; 0x00; 0x00; 0x67;
   0xc7; 0x44; 0x24; 0x10; 0x01; 0xc0; 0x67; 0xc7; 0x44; 0x24; 0x12; 0x12;
   0x00; 0x67; 0x66; 0x0f; 0xb7; 0x4b; 0x20; 0x67; 0x66; 0x0f; 0xb7; 0x43;
   0x24; 0x66; 0x83; 0xec; 0x08; 0x66; 0x68; 0x00; 0x01; 0x00; 0x00; 0x67;
   0x66; 0x8d; 0x7c; 0x24; 0x0c; 0x66; 0x57; 0x66; 0xe8; 0x77; 0xfd; 0xff;
   0xff; 0x66; 0x89; 0xfc; 0x67; 0x66; 0xc7; 0x03; 0x4f; 0x00; 0x00; 0x00;
   0xe9; 0x0d; 0xff; 0x90; 0x67; 0x66; 0x81; 0x38; 0x20; 0xe8; 0x00; 0x00;
   0x74; 0x0a; 0x67; 0x66; 0x83; 0x48; 0x30; 0x01; 0x66; 0xc3; 0x89; 0xf6;
   0xe9; 0x15; 0xfe].

Definition bios_rom_size : Z := 687.

Lemma bios_rom_length : Z.of_nat (length bios_rom) = bios_rom_size.
Proof. reflexivity. Qed.

(** [&bios_rom[first]], [last - first] bytes. *)
Definition bios_code (first last : Z) : list Z :=
  take (Z.to_nat (last - first)) (drop (Z.to_nat first) bios_rom).
