(* ===== verification/Boot.v ===== *)
(** * Bringing up a machine

    [Vmm::init] and what it calls, the BIOS tables, the kernel and initrd
    loaders and the initial register state: [query_msr_list], [init],
    [set_memslot], [read_file], [setup_bios], [install_irq], [setup_e820],
    [setup_vga_rom], [load_bzimage], [load_initrd], [setup_cpu] of
    src/src/vmm.cpp, with the constants of src/src/boot.hpp.  Guest RAM is
    written through [gpa_ptr], so a store outside it is a fault, as is reading
    past the end of a file's buffer. *)
From S2P Require Import Prelude Memory Codec State Logic BiosRom VirtioRegs Snapshot CopyWorkers Lazy Restore.
From stdpp Require Import options.

Definition BZ_DEFAULT_SETUP_SECTS : Z := 4.
Definition BZ_KERNEL_START : Z := 0x100000.
Definition BOOT_CMDLINE_OFFSET : Z := 0x20000.
Definition BOOT_LOADER_SELECTOR : Z := 0x1000.
Definition BOOT_LOADER_SP : Z := 0x8000.
Definition REAL_MODE_IVT_BEGIN : Z := 0.
Definition BDA_START : Z := 0x400.
Definition BDA_END : Z := 0x4ff.
Definition EBDA_START : Z := 0x9fc00.
Definition EBDA_END : Z := 0x9ffff.
Definition E820_MAP_START : Z := EBDA_START.
Definition VGA_RAM_BEGIN : Z := 0xa0000.
Definition VGA_ROM_BEGIN : Z := 0xc0000.
Definition VGA_ROM_OEM_STRING : Z := VGA_ROM_BEGIN.
Definition VGA_ROM_OEM_STRING_SIZE : Z := 16.
Definition VGA_ROM_MODES : Z := VGA_ROM_BEGIN + VGA_ROM_OEM_STRING_SIZE.
Definition VGA_ROM_END : Z := 0xc7fff.
Definition MB_BIOS_BEGIN : Z := 0xf0000.
Definition MB_BIOS_END : Z := 0xfffff.
Definition MB_BIOS_SIZE : Z := MB_BIOS_END - MB_BIOS_BEGIN + 1.
Definition REAL_INTR_VECTORS : Z := 256.
Definition E820_RAM : Z := 1.
Definition E820_RESERVED : Z := 2.
Definition MAX_MSRS : Z := 256.

(** Where the setup code and the boot parameters are loaded. *)
Definition BOOT_LOADER_ADDR : Z := BOOT_LOADER_SELECTOR * 16.

(** ** Opening KVM *)

Section init.
  Context {H : Host}.

Definition query_msr_list : M bool :=
  let list := le_enc 4 MAX_MSRS ++ zeros (4 * MAX_MSRS) in
  r ← sys (sys_kvm_msr_index_list list);
  if r_ret r <? 0 then mret false else
  let list := overlay list (r_data r) in
  let nmsrs := le_dec (take 4 list) in
  let num := if MAX_MSRS <? nmsrs then MAX_MSRS else nmsrs in
  modify (fun s => s <| msr_list_ := array_get (cint 4) (Z.to_nat num) (drop 4 list) |>) ;;
  mret true.

Definition set_memslot (slot gpa hva len : Z) : M bool :=
  r ← sys (sys_memory_region slot gpa hva len);
  mret (negb (r_ret r <? 0)).

(** [if (ioctl(..) < 0) return false;] *)
Definition sys_ok (c : syscall) : M bool :=
  r ← sys c;
  mret (negb (r_ret r <? 0)).

(** The VM with its interrupt chips. *)
Definition init_vm : M bool :=
  r ← sys (sys_open (bytes "/dev/kvm") true);
  modify (fun s => s <| kvm_fd_ := r_ret r |>) ;;
  if r_ret r <? 0 then mret false else
  v ← sys sys_kvm_api_version;
  if negb (r_ret v =? 12) then mret false else
  and_then query_msr_list (
  r ← sys sys_kvm_create_vm;
  modify (fun s => s <| vm_fd_ := r_ret r |>) ;;
  if r_ret r <? 0 then mret false else
  and_then (sys_ok sys_kvm_create_irqchip) (
  sys_ok sys_kvm_create_pit2)).

(** The memfd behind guest RAM, of huge pages if asked for and available. *)
Definition open_memfd : M unit :=
  huge ← gets use_hugetlb_;
  when huge (
    r ← sys (sys_memfd_create true);
    modify (fun s => s <| ram_memfd_ := r_ret r |>) ;;
    when (r_ret r <? 0) (modify (fun s => s <| use_hugetlb_ := false |>))) ;;
  fd ← gets ram_memfd_;
  when (fd <? 0) (
    r ← sys (sys_memfd_create false);
    modify (fun s => s <| ram_memfd_ := r_ret r |>)).

(** Demand paging if asked for, falling back to copying; then the memory slot. *)
Definition register_ram (addr len : Z) : M bool :=
  u ← gets lazy_;
  when (use_uffd_ u && negb (midway_uffd_ u)) (
    ok ← init_uffd;
    when (negb ok) (upd_lazy (fun u => u <| use_uffd_ := false |>))) ;;
  set_memslot 0 0 addr len.

(** Guest RAM.  The bytes of the mapping are in the reply of mmap. *)
Definition init_ram (zero_ram : bool) : M bool :=
  open_memfd ;;
  s ← gets id;
  if ram_memfd_ s <? 0 then mret false else
  and_then (sys_ok (sys_ftruncate (ram_memfd_ s) (ram_bytes_ s))) (
  m ← sys (sys_mmap (ram_memfd_ s) (ram_bytes_ s));
  modify (fun s => s <| ram_ := r_ret m |>) ;;
  if r_ret m =? -1 then mret false else
  modify (fun s => s <| ram_mem_ := mem_of (r_data m) |>) ;;
  when zero_ram (store 0 (replicate (Z.to_nat (ram_bytes_ s)) 0)) ;;
  register_ram (r_ret m) (ram_bytes_ s)).

Definition CPUID_NENT : Z := 256.

(** The vCPU, its shared page and the CPUID entries KVM supports: [nent] is
    rewritten by the call, to at most the number of entries there is room for. *)
Definition init_vcpu : M bool :=
  r ← sys sys_kvm_create_vcpu;
  modify (fun s => s <| vcpu_fd_ := r_ret r |>) ;;
  if r_ret r <? 0 then mret false else
  z ← sys sys_kvm_vcpu_mmap_size;
  modify (fun s => s <| run_mmap_sz_ := u64 (r_ret z) |>) ;;
  p ← sys (sys_mmap (r_ret r) (u64 (r_ret z)));
  modify (fun s => s <| kvm_run_addr_ := r_ret p |>) ;;
  if r_ret p =? -1 then mret false else
  let cpuid := cpuid_buffer (replicate (Z.to_nat CPUID_NENT) (zeros sizeof_cpuid_entry)) in
  modify (fun s => s <| cpuid_ := replicate (Z.to_nat CPUID_NENT) (zeros sizeof_cpuid_entry) |>) ;;
  c ← sys (sys_kvm_supported_cpuid cpuid);
  if r_ret c <? 0 then mret false else
  let cpuid := overlay cpuid (r_data c) in
  let nent := le_dec (take 4 cpuid) in
  modify (fun s => s <| cpuid_ := array_get (craw (Z.to_nat sizeof_cpuid_entry)) (Z.to_nat nent) (drop 8 cpuid) |>) ;;
  mret true.

Definition init (zero_ram : bool) : M bool :=
  and_then init_vm (and_then (init_ram zero_ram) init_vcpu).

(** [read_file]: the buffer, or [None] for a result of -1.  [read] may return
    less than the size asked for. *)
Definition read_file (path : list Z) : M (option (list Z)) :=
  r ← sys (sys_open path false);
  let fd := r_ret r in
  if fd <? 0 then mret None else
  st ← sys (sys_fstat fd);
  if r_ret st <? 0 then sys_ (sys_close fd) ;; mret None else
  let size := le_dec (take 8 (r_data st)) in
  n ← sys (sys_read fd size);
  sys_ (sys_close fd) ;;
  if u64 (r_ret n) =? size then mret (Some (resize (Z.to_nat size) 0 (r_data n))) else mret None.
End init.

(** ** BIOS tables *)

Record e820entry : Type := { e820_addr : Z; e820_size : Z; e820_type : Z }.

Definition e820entry_codec : codec e820entry.
Proof.
  refine (cvia (cint 8 ⊗ cint 8 ⊗ cint 4)
    (fun e => (e820_addr e, (e820_size e, e820_type e)))
    (fun '(a, (b, c)) => {| e820_addr := a; e820_size := b; e820_type := c |}) _).
  abstract (by intros []).
Defined.

Definition sizeof_e820entry : Z := 20.

(** The entries [setup_e820] writes for a guest with [ram_bytes] of RAM. *)
Definition e820_entries (ram_bytes : Z) : list e820entry :=
  [{| e820_addr := REAL_MODE_IVT_BEGIN; e820_size := EBDA_START - REAL_MODE_IVT_BEGIN;
      e820_type := E820_RAM |};
   {| e820_addr := EBDA_START; e820_size := VGA_RAM_BEGIN - EBDA_START;
      e820_type := E820_RESERVED |};
   {| e820_addr := MB_BIOS_BEGIN; e820_size := MB_BIOS_SIZE; e820_type := E820_RESERVED |};
   {| e820_addr := BZ_KERNEL_START; e820_size := u64 (ram_bytes - BZ_KERNEL_START);
      e820_type := E820_RAM |}].

(** [struct e820map]: the count, then the entries. *)
Definition setup_e820 : M unit :=
  ram_bytes ← gets ram_bytes_;
  let m := e820_entries ram_bytes in
  for_each (imap pair m) (fun e =>
    store (E820_MAP_START + 4 + sizeof_e820entry * Z.of_nat e.1) (c_put e820entry_codec e.2)) ;;
  store E820_MAP_START (le_enc 4 (Z.of_nat (length m))).

Definition setup_vga_rom : M unit :=
  store VGA_ROM_OEM_STRING (zeros VGA_ROM_OEM_STRING_SIZE) ;;
  store VGA_ROM_OEM_STRING (resize (Z.to_nat VGA_ROM_OEM_STRING_SIZE) 0 (bytes "KVM VESA")) ;;
  store VGA_ROM_MODES (le_enc 2 0x0112) ;;
  store (VGA_ROM_MODES + 2) (le_enc 2 0xffff).

(** An interrupt vector is a pair of offset and segment. *)
Definition install_irq (vec addr : Z) (code : list Z) : M unit :=
  store addr code ;;
  modify (fun s => s <| ivt_ ::= <[Z.to_nat vec := (u16 (addr - MB_BIOS_BEGIN), u16 (MB_BIOS_BEGIN / 16))]> |>).

Definition ivt_bytes (ivt : list (Z * Z)) : list Z :=
  mjoin ((fun d => le_enc 2 d.1 ++ le_enc 2 d.2) <$> ivt).

Definition setup_bios : M bool :=
  store BDA_START (zeros (BDA_END - BDA_START + 1)) ;;
  store EBDA_START (zeros (EBDA_END - EBDA_START + 1)) ;;
  store MB_BIOS_BEGIN (zeros MB_BIOS_SIZE) ;;
  store VGA_ROM_BEGIN (zeros (VGA_ROM_END - VGA_ROM_BEGIN + 1)) ;;
  store MB_BIOS_BEGIN bios_rom ;;
  setup_e820 ;;
  setup_vga_rom ;;
  modify (fun s => s <| ivt_ := replicate (Z.to_nat REAL_INTR_VECTORS)
                                  (BIOS_OFFSET__bios_intfake, u16 (MB_BIOS_BEGIN / 16)) |>) ;;
  install_irq 0x10 (MB_BIOS_BEGIN + BIOS_OFFSET__bios_int10)
    (bios_code BIOS_OFFSET__bios_int10 BIOS_OFFSET__bios_int10_end) ;;
  install_irq 0x15 (MB_BIOS_BEGIN + BIOS_OFFSET__bios_int15)
    (bios_code BIOS_OFFSET__bios_int15 BIOS_OFFSET__bios_int15_end) ;;
  ivt ← gets ivt_;
  store REAL_MODE_IVT_BEGIN (ivt_bytes ivt) ;;
  mret true.

(** ** The kernel and the initrd *)

(** Offsets of members of [struct boot_params] (the setup header starts at
    0x1f1) and its size. *)
Definition sizeof_boot_params : Z := 4096.
Definition hdr_setup_sects : Z := 0x1f1.
Definition hdr_vid_mode : Z := 0x1fa.
Definition hdr_header : Z := 0x202.
Definition hdr_type_of_loader : Z := 0x210.
Definition hdr_loadflags : Z := 0x211.
Definition hdr_ramdisk_image : Z := 0x218.
Definition hdr_ramdisk_size : Z := 0x21c.
Definition hdr_heap_end_ptr : Z := 0x224.
Definition hdr_cmd_line_ptr : Z := 0x228.
Definition hdr_cmdline_size : Z := 0x238.
Definition BZ_HEADER_MAGIC : Z := 0x53726448.
Definition KASLR_FLAG : Z := 0x02.
Definition CAN_USE_HEAP : Z := 0x80.

(** Member of [n] bytes at [off] of the boot parameters at the start of a file. *)
Definition bp_field (file : list Z) (off : Z) (n : nat) : Z :=
  le_dec (take n (drop (Z.to_nat off) file)).

Definition setup_size (file : list Z) : Z :=
  let ss := bp_field file hdr_setup_sects 1 in
  ((if ss =? 0 then BZ_DEFAULT_SETUP_SECTS else ss) + 1) * 512.

(** The room for the command line. *)
Definition cmdline_room (file : list Z) : Z :=
  let n := bp_field file hdr_cmdline_size 4 in
  let cm := if n =? 0 then 1024 else n in
  if 4096 <? cm then 4096 else cm.

(** [kb->hdr.f = v]. *)
Definition set_hdr (off : Z) (n : nat) (v : Z) : M unit := store (BOOT_LOADER_ADDR + off) (le_enc n v).

(** The header fields the loader fills in for the kernel's setup code. *)
Definition patch_header : M unit :=
  set_hdr hdr_cmd_line_ptr 4 BOOT_CMDLINE_OFFSET ;;
  set_hdr hdr_type_of_loader 1 0xff ;;
  set_hdr hdr_heap_end_ptr 2 0xfe00 ;;
  f ← fetch (BOOT_LOADER_ADDR + hdr_loadflags) 1;
  set_hdr hdr_loadflags 1 (Z.land (le_dec f) (bnot 8 KASLR_FLAG)) ;;
  f ← fetch (BOOT_LOADER_ADDR + hdr_loadflags) 1;
  set_hdr hdr_loadflags 1 (Z.lor (le_dec f) CAN_USE_HEAP) ;;
  set_hdr hdr_vid_mode 2 0.

Section load.
  Context {H : Host}.

Definition load_bzimage (path : list Z) : M bool :=
  file ← read_file path;
  match file with
  | None => mret false
  | Some buf =>
    let len := Z.of_nat (length buf) in
    if len <? sizeof_boot_params then fail_with OutOfBounds else
    if negb (bp_field buf hdr_header 4 =? BZ_HEADER_MAGIC) then mret false else
    let setup_sz := setup_size buf in
    if len <? setup_sz then fail_with OutOfBounds else
    store BOOT_LOADER_ADDR (take (Z.to_nat setup_sz) buf) ;;
    store BZ_KERNEL_START (drop (Z.to_nat setup_sz) buf) ;;
    let cm := cmdline_room buf in
    cmdline ← gets cmdline_;
    store BOOT_CMDLINE_OFFSET (zeros cm) ;;
    store BOOT_CMDLINE_OFFSET (resize (Z.to_nat (cm - 1)) 0 (c_str cmdline)) ;;
    patch_header ;;
    mret true
  end.

(** [(ram_bytes_ - len) & ~0xfffff] in 64 bits. *)
Definition initrd_addr (ram_bytes len : Z) : Z := Z.land (u64 (ram_bytes - len)) (bnot 64 0xfffff).

Definition load_initrd (path : list Z) : M bool :=
  file ← read_file path;
  match file with
  | None => mret false
  | Some buf =>
    let len := Z.of_nat (length buf) in
    ram_bytes ← gets ram_bytes_;
    let addr := initrd_addr ram_bytes len in
    store addr buf ;;
    set_hdr hdr_ramdisk_image 4 (u32 addr) ;;
    set_hdr hdr_ramdisk_size 4 (u32 len) ;;
    mret true
  end.
End load.

(** ** The first instruction *)

(** [struct kvm_segment], [struct kvm_dtable], [struct kvm_sregs] as the kernel
    lays them out. *)
Record kvm_segment : Type := {
  sg_base : Z; sg_limit : Z; sg_selector : Z; sg_type : Z; sg_present : Z; sg_dpl : Z;
  sg_db : Z; sg_s : Z; sg_l : Z; sg_g : Z; sg_avl : Z; sg_unusable : Z; sg_padding : Z
}.
#[export] Instance kvm_segment_eta : Eta kvm_segment := fun g =>
  {| sg_base := sg_base g; sg_limit := sg_limit g; sg_selector := sg_selector g;
     sg_type := sg_type g; sg_present := sg_present g; sg_dpl := sg_dpl g; sg_db := sg_db g;
     sg_s := sg_s g; sg_l := sg_l g; sg_g := sg_g g; sg_avl := sg_avl g;
     sg_unusable := sg_unusable g; sg_padding := sg_padding g |}.

Definition kvm_segment_codec : codec kvm_segment.
Proof.
  refine (cvia (cint 8 ⊗ cint 4 ⊗ cint 2 ⊗ cint 1 ⊗ cint 1 ⊗ cint 1 ⊗ cint 1 ⊗ cint 1 ⊗
                cint 1 ⊗ cint 1 ⊗ cint 1 ⊗ cint 1 ⊗ cint 1)
    (fun g => (sg_base g, (sg_limit g, (sg_selector g, (sg_type g, (sg_present g, (sg_dpl g,
       (sg_db g, (sg_s g, (sg_l g, (sg_g g, (sg_avl g, (sg_unusable g, sg_padding g)))))))))))))
    (fun '(a, (b, (c, (d, (e, (f, (g, (h, (i, (j, (k, (l, m)))))))))))) =>
       {| sg_base := a; sg_limit := b; sg_selector := c; sg_type := d; sg_present := e;
          sg_dpl := f; sg_db := g; sg_s := h; sg_l := i; sg_g := j; sg_avl := k;
          sg_unusable := l; sg_padding := m |}) _).
  abstract (by intros []).
Defined.

Record kvm_dtable : Type := { dt_base : Z; dt_limit : Z; dt_padding : list Z }.
#[export] Instance kvm_dtable_eta : Eta kvm_dtable := fun t =>
  {| dt_base := dt_base t; dt_limit := dt_limit t; dt_padding := dt_padding t |}.

Definition kvm_dtable_codec : codec kvm_dtable.
Proof.
  refine (cvia (cint 8 ⊗ cint 2 ⊗ craw 6) (fun t => (dt_base t, (dt_limit t, dt_padding t)))
    (fun '(a, (b, c)) => {| dt_base := a; dt_limit := b; dt_padding := c |}) _).
  abstract (by intros []).
Defined.

Record kvm_sregs : Type := {
  sr_cs : kvm_segment; sr_ds : kvm_segment; sr_es : kvm_segment; sr_fs : kvm_segment;
  sr_gs : kvm_segment; sr_ss : kvm_segment; sr_tr_ldt : list Z;
  sr_gdt : kvm_dtable; sr_idt : kvm_dtable;
  sr_cr0 : Z; sr_cr2 : Z; sr_cr3 : Z; sr_cr4 : Z; sr_cr8 : Z; sr_efer : Z;
  sr_rest : list Z (* apic_base, interrupt_bitmap *)
}.
#[export] Instance kvm_sregs_eta : Eta kvm_sregs := fun r =>
  {| sr_cs := sr_cs r; sr_ds := sr_ds r; sr_es := sr_es r; sr_fs := sr_fs r; sr_gs := sr_gs r;
     sr_ss := sr_ss r; sr_tr_ldt := sr_tr_ldt r; sr_gdt := sr_gdt r; sr_idt := sr_idt r;
     sr_cr0 := sr_cr0 r; sr_cr2 := sr_cr2 r; sr_cr3 := sr_cr3 r; sr_cr4 := sr_cr4 r;
     sr_cr8 := sr_cr8 r; sr_efer := sr_efer r; sr_rest := sr_rest r |}.

Definition kvm_sregs_codec : codec kvm_sregs.
Proof.
  refine (cvia (carray 6 kvm_segment_codec ⊗ craw 48 ⊗ kvm_dtable_codec ⊗ kvm_dtable_codec ⊗
                cint 8 ⊗ cint 8 ⊗ cint 8 ⊗ cint 8 ⊗ cint 8 ⊗ cint 8 ⊗ craw 40)
    (fun r => ([sr_cs r; sr_ds r; sr_es r; sr_fs r; sr_gs r; sr_ss r], (sr_tr_ldt r, (sr_gdt r,
       (sr_idt r, (sr_cr0 r, (sr_cr2 r, (sr_cr3 r, (sr_cr4 r, (sr_cr8 r, (sr_efer r, sr_rest r)))))))))))
    (fun '(segs, (a, (b, (c, (d, (e, (f, (g, (h, (i, j)))))))))) =>
       let seg k := nth k segs (c_get kvm_segment_codec []) in
       {| sr_cs := seg 0%nat; sr_ds := seg 1%nat; sr_es := seg 2%nat; sr_fs := seg 3%nat;
          sr_gs := seg 4%nat; sr_ss := seg 5%nat; sr_tr_ldt := a; sr_gdt := b; sr_idt := c;
          sr_cr0 := d; sr_cr2 := e; sr_cr3 := f; sr_cr4 := g; sr_cr8 := h; sr_efer := i;
          sr_rest := j |}) _).
  abstract (by intros []).
Defined.

(** The assignments to [sregs], in order. *)
Definition real_mode_sregs (r : kvm_sregs) : kvm_sregs :=
  let cs := (sr_cs r) <| sg_base := BOOT_LOADER_SELECTOR * 16 |>
              <| sg_selector := BOOT_LOADER_SELECTOR |> <| sg_limit := 0xffff |>
              <| sg_type := 0xb |> <| sg_present := 1 |> <| sg_dpl := 0 |> <| sg_db := 0 |>
              <| sg_l := 0 |> <| sg_g := 0 |> <| sg_s := 1 |> in
  let data := cs <| sg_type := 0x3 |> <| sg_db := 1 |> in
  r <| sr_cs := cs |> <| sr_ds := data |> <| sr_es := data |> <| sr_fs := data |>
    <| sr_gs := data |> <| sr_ss := (data <| sg_base := sg_selector data * 16 |>) |>
    <| sr_idt ::= (fun t => t <| dt_limit := 0xffff |> <| dt_base := 0 |>) |>
    <| sr_gdt ::= (fun t => t <| dt_limit := 0xffff |> <| dt_base := 0 |>) |>
    <| sr_cr0 := 0x10 |> <| sr_cr3 := 0 |> <| sr_cr4 := 0 |> <| sr_efer := 0 |>.

(** [struct kvm_regs], 18 64-bit registers: rsp is the seventh, rip and rflags
    the last two. *)
Definition boot_regs : list Z :=
  zeros 48 ++ le_enc 8 BOOT_LOADER_SP ++ zeros 72 ++ le_enc 8 0x0200 ++ le_enc 8 0x2.

Section cpu.
  Context {H : Host}.

(** [stack] is what the uninitialised [sregs] held. *)
Definition setup_cpu (stack : list Z) : M bool :=
  g ← sys (sys_kvm_get KvmSregs stack);
  let sregs := real_mode_sregs (c_get kvm_sregs_codec (overlay stack (r_data g))) in
  and_then (kvm_set KvmSregs (c_put kvm_sregs_codec sregs)) (
  and_then (kvm_set KvmRegs boot_regs) (
  cpuid ← gets cpuid_;
  kvm_set KvmCpuid2 (cpuid_buffer cpuid))).
(** The part of [main] that fills a new machine for [boot]. *)
Definition prepare_guest (stack kernel initrd : list Z) : M bool :=
  and_then setup_bios (
  and_then (load_bzimage kernel) (
  and_then (load_initrd initrd) (
  setup_cpu stack))).
End cpu.
