(* ===== verification/BootFacts.v ===== *)
(** * What the guest finds when it starts

    The BIOS tables, the kernel, the command line and the initrd are all in
    guest RAM, none overwriting another, and the first instruction is the entry
    of the kernel's setup code. *)
From Stdlib Require Import Sorted.
From S2P Require Import Prelude Memory Codec State Logic BiosRom VirtioRegs Snapshot SaveFacts Lazy Restore RestoreFacts Boot.
From stdpp Require Import options.

(** ** Stores one after the other *)

(** The state after stores to RAM and to the vector table, in one layer. *)
Definition boot_st (s : Vmm) (m : mem) (ivt : list (Z * Z)) : Vmm :=
  s <| ram_mem_ := m |> <| ivt_ := ivt |>.

Lemma boot_st_id s : boot_st s (ram_mem_ s) (ivt_ s) = s.
Proof. by destruct s. Qed.

Lemma wp_boot_store s m iv a bs (Q : unit -> Vmm -> Prop) :
  0 <= a -> a + Z.of_nat (length bs) <= ram_bytes_ s ->
  Q () (boot_st s (mem_set m a bs) iv) -> wp (store a bs) Q (boot_st s m iv).
Proof. intros Ha Hs HQ. apply wp_store; done. Qed.

Lemma wp_boot_fetch s m iv a n (Q : list Z -> Vmm -> Prop) :
  0 <= a -> 0 <= n -> a + n <= ram_bytes_ s ->
  Q (mem_get m a n) (boot_st s m iv) -> wp (fetch a n) Q (boot_st s m iv).
Proof.
  intros Ha Hn Hs HQ. unfold fetch. wp_run. eapply wp_lift; [by apply ram_load_ok|]. done.
Qed.

(** A store inside a region that leaves the region's bytes as they are. *)
Lemma mem_get_set_patch m a n b c :
  a <= b -> b + Z.of_nat (length c) <= a + n ->
  take (length c) (drop (Z.to_nat (b - a)) (mem_get m a n)) = c ->
  mem_get (mem_set m b c) a n = mem_get m a n.
Proof.
  intros Ha Hb Hc. rewrite mem_set_same; [done|].
  rewrite <- Hc at 2. unfold mem_get. rewrite <- fmap_drop, <- fmap_take.
  apply list_eq. intros i. rewrite !list_lookup_fmap.
  destruct (decide (i < length c)%nat) as [Hi|Hi].
  - rewrite lookup_take_lt, lookup_drop, !lookup_seqZ_lt by lia. cbn. do 2 f_equal. lia.
  - rewrite lookup_take_ge by lia. rewrite lookup_seqZ_ge by lia. done.
Qed.

(** ** The E820 map *)

Definition e820_map (m : mem) : list e820entry :=
  let n := rd m 4 E820_MAP_START in
  array_get e820entry_codec (Z.to_nat n) (mem_get m (E820_MAP_START + 4) (sizeof_e820entry * n)).

Definition e820_bytes (ram_bytes : Z) : list Z :=
  mjoin (c_put e820entry_codec <$> e820_entries ram_bytes).

Definition e820_mem (ram_bytes : Z) (m : mem) : mem :=
  mem_set (foldl (fun m e => mem_set m (E820_MAP_START + 4 + sizeof_e820entry * Z.of_nat e.1) (c_put e820entry_codec e.2))
                 m (imap pair (e820_entries ram_bytes)))
          E820_MAP_START (le_enc 4 4).

Lemma e820_mem_eq rb m :
  e820_mem rb m ≡ mem_set (mem_set m (E820_MAP_START + 4) (e820_bytes rb)) E820_MAP_START (le_enc 4 4).
Proof.
  unfold e820_mem. apply mem_set_proper; [|done|done]. cbn [e820_entries imap foldl fst snd compose].
  unfold e820_bytes, e820_entries. cbn [fmap list_fmap mjoin list_join].
  rewrite app_nil_r. rewrite <- !mem_set_app. reflexivity.
Qed.

Lemma e820entry_length e : length (c_put e820entry_codec e) = 20%nat.
Proof. reflexivity. Qed.

Lemma e820_bytes_length rb : length (e820_bytes rb) = 80%nat.
Proof. reflexivity. Qed.

Lemma e820_mem_map rb m : BZ_KERNEL_START <= rb < 2 ^ 64 -> e820_map (e820_mem rb m) = e820_entries rb.
Proof.
  intros Hrb. unfold e820_map, rd. rewrite !e820_mem_eq.
  change (Z.of_nat 4) with (Z.of_nat (length (le_enc 4 4))) at 1. rewrite mem_get_set_eq.
  change (le_dec (le_enc 4 4)) with 4. rewrite mem_get_set_disjoint by (rewrite le_enc_length; lia).
  change (sizeof_e820entry * 4) with (Z.of_nat (length (e820_bytes rb))).
  rewrite mem_get_set_eq. unfold e820_bytes.
  rewrite <- (app_nil_r (mjoin _)). change (Z.to_nat 4) with (length (e820_entries rb)).
  apply array_get_put. unfold e820_entries. unfold BZ_KERNEL_START in *.
  rewrite !Forall_cons. cbn. rewrite wrap_id by (unfold fits; lia).
  unfold fits, EBDA_START, MB_BIOS_SIZE, VGA_RAM_BEGIN, E820_RAM, E820_RESERVED, REAL_MODE_IVT_BEGIN, MB_BIOS_BEGIN, MB_BIOS_END.
  split_and!; try lia; done.
Qed.

Lemma e820_mem_frame rb m b n :
  b + n <= E820_MAP_START \/ E820_MAP_START + 84 <= b ->
  mem_get (e820_mem rb m) b n = mem_get m b n.
Proof.
  intros Hb. rewrite e820_mem_eq, !mem_get_set_disjoint; [done|..];
    rewrite ?e820_bytes_length, ?le_enc_length; lia.
Qed.

Lemma setup_e820_spec s m iv (Q : unit -> Vmm -> Prop) :
  BZ_KERNEL_START <= ram_bytes_ s -> Q () (boot_st s (e820_mem (ram_bytes_ s) m) iv) ->
  wp setup_e820 Q (boot_st s m iv).
Proof.
  unfold BZ_KERNEL_START. intros Hs HQ. unfold setup_e820. wp_run. change (ram_bytes_ (boot_st s m iv)) with (ram_bytes_ s).
  cbn [imap e820_entries compose for_each fst snd]. unfold E820_MAP_START, EBDA_START, sizeof_e820entry.
  wp_run. do 4 (apply wp_boot_store; [lia|rewrite e820entry_length; lia|]; wp_run).
  apply wp_boot_store; [lia|rewrite le_enc_length; lia|]. exact HQ.
Qed.

(** ** The other tables *)

Definition vga_mem (m : mem) : mem :=
  mem_set (mem_set (mem_set (mem_set m VGA_ROM_OEM_STRING (zeros VGA_ROM_OEM_STRING_SIZE))
    VGA_ROM_OEM_STRING (resize (Z.to_nat VGA_ROM_OEM_STRING_SIZE) 0 (bytes "KVM VESA")))
    VGA_ROM_MODES (le_enc 2 0x0112)) (VGA_ROM_MODES + 2) (le_enc 2 0xffff).

Lemma setup_vga_rom_spec s m iv (Q : unit -> Vmm -> Prop) :
  BZ_KERNEL_START <= ram_bytes_ s -> Q () (boot_st s (vga_mem m) iv) ->
  wp setup_vga_rom Q (boot_st s m iv).
Proof.
  unfold BZ_KERNEL_START. intros Hs HQ. unfold setup_vga_rom. wp_run.
  do 3 (apply wp_boot_store; [done|etrans; [|exact Hs]; done|]; wp_run).
  apply wp_boot_store; [done|etrans; [|exact Hs]; done|]. exact HQ.
Qed.

Lemma vga_mem_frame m b n :
  b + n <= VGA_ROM_BEGIN \/ VGA_ROM_BEGIN + 20 <= b -> mem_get (vga_mem m) b n = mem_get m b n.
Proof.
  intros Hb. unfold vga_mem, VGA_ROM_MODES, VGA_ROM_OEM_STRING, VGA_ROM_OEM_STRING_SIZE.
  rewrite !mem_get_set_disjoint; [done|..]; rewrite ?le_enc_length, ?length_resize, ?zeros_length; lia.
Qed.

(** The vectors after [setup_bios]. *)
Definition bios_ivt : list (Z * Z) :=
  let fake := (BIOS_OFFSET__bios_intfake, 0xf000) in
  <[0x15%nat := (BIOS_OFFSET__bios_int15, 0xf000)]>
    (<[0x10%nat := (BIOS_OFFSET__bios_int10, 0xf000)]> (replicate 256 fake)).

Definition bios_mem (ram_bytes : Z) (m : mem) : mem :=
  let m := mem_set m BDA_START (zeros 0x100) in
  let m := mem_set m EBDA_START (zeros 0x400) in
  let m := mem_set m MB_BIOS_BEGIN (zeros 0x10000) in
  let m := mem_set m VGA_ROM_BEGIN (zeros 0x8000) in
  let m := vga_mem (e820_mem ram_bytes (mem_set m MB_BIOS_BEGIN bios_rom)) in
  let m := mem_set m (MB_BIOS_BEGIN + 0x40) (bios_code 0x40 0x7f) in
  let m := mem_set m (MB_BIOS_BEGIN + 0x80) (bios_code 0x80 0xb8) in
  mem_set m 0 (ivt_bytes bios_ivt).

Lemma ivt_bytes_length : length (ivt_bytes bios_ivt) = 1024%nat.
Proof. vm_compute. reflexivity. Qed.

Lemma setup_bios_spec s m iv (Q : bool -> Vmm -> Prop) :
  BZ_KERNEL_START <= ram_bytes_ s -> Q true (boot_st s (bios_mem (ram_bytes_ s) m) bios_ivt) ->
  wp setup_bios Q (boot_st s m iv).
Proof.
  intros Hs HQ. pose proof Hs as Hs'. unfold BZ_KERNEL_START in Hs'. unfold setup_bios, install_irq. wp_run.
  do 4 (apply wp_boot_store; [done|rewrite zeros_length by done; etrans; [|exact Hs]; done|]; wp_run).
  apply wp_boot_store; [done|etrans; [|exact Hs]; done|]. wp_run.
  apply setup_e820_spec; [done|]. wp_run. apply setup_vga_rom_spec; [done|].
  wp_run.
  assert (Hiv : forall s m iv f, (boot_st s m iv) <| ivt_ ::= f |> = boot_st s m (f iv)) by done.
  do 2 (match goal with E : ?x = _ |- wp _ _ ?x => rewrite Hiv in E; subst x end;
        apply wp_boot_store; [done|etrans; [|exact Hs]; done|]; wp_run).
  match goal with E : ?x = upd ivt_ _ _ |- _ => rewrite Hiv in E; subst x end.
  match goal with |- context [ivt_bytes (ivt_ (boot_st _ _ ?i))] => change i with bios_ivt end.
  change (ivt_ (boot_st s ?m ?i)) with i.
  apply wp_boot_store; [done|rewrite ivt_bytes_length; unfold REAL_MODE_IVT_BEGIN; lia|]. wp_run. exact HQ.
Qed.

(** Start a run of stores. *)
Lemma wp_boot_start {A} (c : M A) (Q : A -> Vmm -> Prop) s :
  wp c Q (boot_st s (ram_mem_ s) (ivt_ s)) -> wp c Q s.
Proof. by rewrite boot_st_id. Qed.

(** The address an interrupt vector points to. *)
Definition vector (m : mem) (v : Z) : Z := rd m 2 (4 * v) + 16 * rd m 2 (4 * v + 2).

Definition bios_handler (v : Z) : Z :=
  MB_BIOS_BEGIN + (if v =? 0x10 then BIOS_OFFSET__bios_int10
                   else if v =? 0x15 then BIOS_OFFSET__bios_int15 else BIOS_OFFSET__bios_intfake).

(** The tables as the guest reads them, in a guest of [ram_bytes] of RAM. *)
Record bios_ready (ram_bytes : Z) (m : mem) : Prop := {
  br_e820 : e820_map m = e820_entries ram_bytes;
  br_ivt : forall v, 0 <= v < 256 -> vector m v = bios_handler v;
  br_rom : mem_get m MB_BIOS_BEGIN bios_rom_size = bios_rom;
}.

Lemma bios_mem_frame rb m b n :
  BZ_KERNEL_START <= b \/ 0x500 <= b /\ b + n <= EBDA_START ->
  mem_get (bios_mem rb m) b n = mem_get m b n.
Proof.
  unfold BZ_KERNEL_START, EBDA_START. intros Hb. unfold bios_mem.
  rewrite mem_get_set_disjoint by (rewrite ivt_bytes_length; lia).
  rewrite !mem_get_set_disjoint by (change (length (bios_code 0x40 0x7f)) with 63%nat;
    change (length (bios_code 0x80 0xb8)) with 56%nat; unfold MB_BIOS_BEGIN; lia).
  rewrite vga_mem_frame, e820_mem_frame by (unfold VGA_ROM_BEGIN, E820_MAP_START, EBDA_START; lia).
  unfold BDA_START, VGA_ROM_BEGIN, MB_BIOS_BEGIN, EBDA_START.
  rewrite mem_get_set_disjoint by (rewrite bios_rom_length; unfold bios_rom_size; lia).
  rewrite !mem_get_set_disjoint by (rewrite zeros_length by done; lia). done.
Qed.

Lemma bios_ivt_handlers :
  (fun ivt => forallb (fun v =>
     le_dec (take 2 (drop (Z.to_nat (4 * v - 0)) ivt)) +
     16 * le_dec (take 2 (drop (Z.to_nat (4 * v + 2 - 0)) ivt)) =? bios_handler v)
     (seqZ 0 256)) (ivt_bytes bios_ivt) = true.
Proof. vm_compute. reflexivity. Qed.

Lemma bios_mem_ready rb m : BZ_KERNEL_START <= rb < 2 ^ 64 -> bios_ready rb (bios_mem rb m).
Proof.
  intros Hrb. unfold bios_mem. cbv zeta.
  set (m0 := mem_set _ MB_BIOS_BEGIN bios_rom). generalize (eq_refl m0). unfold m0 at 1. intros Em0. clearbody m0.
  assert (Hrom : mem_get (vga_mem (e820_mem rb m0)) MB_BIOS_BEGIN bios_rom_size = bios_rom).
  { rewrite vga_mem_frame, e820_mem_frame by (right; done).
    rewrite <- Em0, <- bios_rom_length. apply mem_get_set_eq. }
  assert (Hcode : forall first last m', 0 <= first <= last -> last <= bios_rom_size ->
    mem_get m' MB_BIOS_BEGIN bios_rom_size = bios_rom ->
    mem_get (mem_set m' (MB_BIOS_BEGIN + first) (bios_code first last)) MB_BIOS_BEGIN bios_rom_size = bios_rom).
  { intros first last m' Hf Hl Hm. assert (Hlen : length (bios_code first last) = Z.to_nat (last - first)).
    { unfold bios_code. rewrite length_take, length_drop. pose proof bios_rom_length. lia. }
    rewrite mem_get_set_patch; [done|lia|rewrite Hlen; lia|]. rewrite Hm, Hlen.
    replace (MB_BIOS_BEGIN + first - MB_BIOS_BEGIN) with first by lia. done. }
  split.
  - assert (He : e820_map (e820_mem rb m0) = e820_entries rb) by by apply e820_mem_map.
    unfold e820_map, rd in *.
    assert (Hfr : forall b n, E820_MAP_START <= b -> b + n <= VGA_ROM_BEGIN ->
      mem_get (mem_set (mem_set (mem_set (vga_mem (e820_mem rb m0)) (MB_BIOS_BEGIN + 0x40) (bios_code 0x40 0x7f)) (MB_BIOS_BEGIN + 0x80)
        (bios_code 0x80 0xb8)) 0 (ivt_bytes bios_ivt)) b n = mem_get (e820_mem rb m0) b n).
    { unfold E820_MAP_START, EBDA_START, VGA_ROM_BEGIN. intros b n Hb1 Hb2.
      rewrite mem_get_set_disjoint by (rewrite ivt_bytes_length; lia).
      rewrite !mem_get_set_disjoint by (left; unfold MB_BIOS_BEGIN; lia). apply vga_mem_frame. left. exact Hb2. }
    assert (Hn : le_dec (mem_get (e820_mem rb m0) E820_MAP_START (Z.of_nat 4)) = 4).
    { rewrite e820_mem_eq. change (Z.of_nat 4) with (Z.of_nat (length (le_enc 4 4))) at 1. by rewrite mem_get_set_eq. }
    rewrite (Hfr E820_MAP_START) by done. rewrite Hn in He |- *. rewrite Hfr by done. exact He.
  - intros v Hv. unfold vector, rd. rewrite !mem_get_set_sub by (rewrite ?ivt_bytes_length; lia).
    pose proof bios_ivt_handlers as Hall. rewrite forallb_forall in Hall.
    apply Z.eqb_eq, (Hall v), list_elem_of_In, elem_of_seqZ. lia.
  - rewrite mem_get_set_disjoint by (rewrite ivt_bytes_length; unfold MB_BIOS_BEGIN; lia).
    apply (Hcode 0x80 0xb8); [lia|unfold bios_rom_size; lia|].
    apply (Hcode 0x40 0x7f); [lia|unfold bios_rom_size; lia|exact Hrom].
Qed.

(** A memory map a kernel can use: entries in order, none overlapping the next,
    and every range called RAM inside guest RAM. *)
Definition e820_sound (ram_bytes : Z) (l : list e820entry) : Prop :=
  StronglySorted (fun a b => e820_addr a + e820_size a <= e820_addr b) l /\
  Forall (fun e => e820_type e = E820_RAM -> e820_addr e + e820_size e <= ram_bytes) l.

(** after [setup_bios] the guest finds the E820 map [e820_entries] at the
    address its BIOS reads it from, in order, without overlaps and with RAM
    ranges inside guest RAM; each of the 256 interrupt vectors points to the
    handler installed for it (video and memory services, a return stub for the
    rest) in an intact copy of the ROM; and nothing from 1 MB up was touched. *)
Theorem bios_tables_installed s :
  BZ_KERNEL_START <= ram_bytes_ s < 2 ^ 64 ->
  wp setup_bios (fun ok s' =>
    ok = true /\ bios_ready (ram_bytes_ s) (ram_mem_ s') /\
    e820_sound (ram_bytes_ s) (e820_map (ram_mem_ s')) /\
    forall x, BZ_KERNEL_START <= x -> ram_mem_ s' x = ram_mem_ s x) s.
Proof.
  intros Hs. apply wp_boot_start, setup_bios_spec; [lia|].
  change (ram_mem_ (boot_st s ?m ?i)) with m. pose proof (bios_mem_ready (ram_bytes_ s) (ram_mem_ s) Hs) as Hr.
  split_and!; [done|done| |].
  - rewrite (br_e820 _ _ Hr). unfold e820_sound, e820_entries.
    rewrite wrap_id by (unfold fits, BZ_KERNEL_START in *; lia).
    split; [repeat constructor; done|]. unfold BZ_KERNEL_START in *.
    repeat constructor; cbn; intros; unfold EBDA_START, REAL_MODE_IVT_BEGIN in *; try done; lia.
  - intros x Hx. pose proof (bios_mem_frame (ram_bytes_ s) (ram_mem_ s) x 1 ltac:(by left)) as Hf.
    rewrite !mem_get_1 in Hf. by injection Hf.
Qed.

(** ** Loading *)

(** Arithmetic on the addresses of the boot protocol. *)
Ltac boot_lia :=
  unfold BOOT_LOADER_ADDR, BOOT_LOADER_SELECTOR, BZ_KERNEL_START, BOOT_CMDLINE_OFFSET,
    hdr_setup_sects, hdr_vid_mode, hdr_header, hdr_type_of_loader, hdr_loadflags, hdr_ramdisk_image,
    hdr_ramdisk_size, hdr_heap_end_ptr, hdr_cmd_line_ptr, hdr_cmdline_size, E820_MAP_START,
    EBDA_START, MB_BIOS_BEGIN, bios_rom_size, sizeof_boot_params in *; lia.

(** A member of the boot parameters in guest RAM. *)
Definition boot_hdr (m : mem) (off : Z) (n : nat) : Z := rd m n (BOOT_LOADER_ADDR + off).

Definition put_hdr (m : mem) (off : Z) (n : nat) (v : Z) : mem :=
  mem_set m (BOOT_LOADER_ADDR + off) (le_enc n v).

Definition patch_mem (m : mem) : mem :=
  let m := put_hdr m hdr_cmd_line_ptr 4 BOOT_CMDLINE_OFFSET in
  let m := put_hdr m hdr_type_of_loader 1 0xff in
  let m := put_hdr m hdr_heap_end_ptr 2 0xfe00 in
  let m := put_hdr m hdr_loadflags 1 (Z.land (boot_hdr m hdr_loadflags 1) (bnot 8 KASLR_FLAG)) in
  let m := put_hdr m hdr_loadflags 1 (Z.lor (boot_hdr m hdr_loadflags 1) CAN_USE_HEAP) in
  put_hdr m hdr_vid_mode 2 0.

Lemma patch_header_spec s m iv (Q : unit -> Vmm -> Prop) :
  BZ_KERNEL_START <= ram_bytes_ s -> Q () (boot_st s (patch_mem m) iv) ->
  wp patch_header Q (boot_st s m iv).
Proof.
  intros Hs HQ. unfold patch_header, set_hdr. wp_run.
  do 3 (apply wp_boot_store; [boot_lia|rewrite le_enc_length; boot_lia|]; wp_run).
  do 2 (apply wp_boot_fetch; [boot_lia|boot_lia|boot_lia|]; wp_run;
        apply wp_boot_store; [boot_lia|rewrite le_enc_length; boot_lia|]; wp_run).
  apply wp_boot_store; [boot_lia|rewrite le_enc_length; boot_lia|]. exact HQ.
Qed.

Lemma boot_hdr_put_eq m off n v : fits (8 * Z.of_nat n) v -> boot_hdr (put_hdr m off n v) off n = v.
Proof.
  intros Hv. unfold boot_hdr, put_hdr, rd. rewrite <- (le_enc_length n v) at 2.
  rewrite mem_get_set_eq. by apply le_dec_enc.
Qed.

Lemma boot_hdr_put_ne m off n v off' n' :
  off + Z.of_nat n <= off' \/ off' + Z.of_nat n' <= off ->
  boot_hdr (put_hdr m off n v) off' n' = boot_hdr m off' n'.
Proof.
  intros Ho. unfold boot_hdr, put_hdr, rd. rewrite mem_get_set_disjoint; [done|].
  rewrite le_enc_length. lia.
Qed.

(** Bytes of the setup header the loader fills in. *)
Definition patched (x : Z) : bool :=
  existsb (fun r => (r.1 <=? x) && (x <? r.1 + r.2))
    [(hdr_vid_mode, 2); (hdr_type_of_loader, 2); (hdr_ramdisk_image, 8); (hdr_heap_end_ptr, 2);
     (hdr_cmd_line_ptr, 4)].

Lemma mem_get_ext m m' a n :
  (forall x, a <= x < a + n -> m x = m' x) -> mem_get m a n = mem_get m' a n.
Proof.
  intros Hx. unfold mem_get. apply list_fmap_ext. intros i x Hi. apply lookup_seqZ in Hi. apply Hx. lia.
Qed.

(** A bzImage that fits below the command line and in RAM. *)
Record bzimage_ok (img : list Z) (ram_bytes : Z) : Prop := {
  bz_bytes : Forall byte_ok img;
  bz_len : sizeof_boot_params <= Z.of_nat (length img);
  bz_magic : bp_field img hdr_header 4 = BZ_HEADER_MAGIC;
  bz_setup : setup_size img <= Z.of_nat (length img) /\ setup_size img <= BOOT_CMDLINE_OFFSET - BOOT_LOADER_ADDR;
  bz_fits : BZ_KERNEL_START + (Z.of_nat (length img) - setup_size img) <= ram_bytes;
}.

(** The kernel as the guest's setup code finds it. *)
Record kernel_loaded (img cmdline : list Z) (m : mem) : Prop := {
  kl_code : mem_get m BZ_KERNEL_START (Z.of_nat (length img) - setup_size img) = drop (Z.to_nat (setup_size img)) img;
  kl_setup : forall x, 0 <= x < setup_size img -> patched x = false ->
    m (BOOT_LOADER_ADDR + x) = nth (Z.to_nat x) img 0;
  kl_cmdline : mem_get m BOOT_CMDLINE_OFFSET (cmdline_room img) =
    resize (Z.to_nat (cmdline_room img - 1)) 0 (c_str cmdline) ++ [0];
  kl_cmd_line_ptr : boot_hdr m hdr_cmd_line_ptr 4 = BOOT_CMDLINE_OFFSET;
  kl_type_of_loader : boot_hdr m hdr_type_of_loader 1 = 0xff;
  kl_heap_end : boot_hdr m hdr_heap_end_ptr 2 = 0xfe00;
  kl_vid_mode : boot_hdr m hdr_vid_mode 2 = 0;
  kl_loadflags : boot_hdr m hdr_loadflags 1 =
    Z.lor (Z.land (bp_field img hdr_loadflags 1) (bnot 8 KASLR_FLAG)) CAN_USE_HEAP;
}.

Lemma bp_field_fits img off n : Forall byte_ok img -> fits (8 * Z.of_nat n) (bp_field img off n).
Proof.
  intros Hb. unfold bp_field. eapply fits_mono; [|apply le_dec_fits; by apply Forall_take, Forall_drop].
  rewrite length_take. lia.
Qed.

Lemma setup_size_bounds img : Forall byte_ok img -> 1024 <= setup_size img.
Proof.
  intros Hb. pose proof (bp_field_fits img hdr_setup_sects 1 Hb) as [H0 _]. unfold setup_size.
  cbv zeta. destruct (Z.eqb_spec (bp_field img hdr_setup_sects 1) 0); unfold BZ_DEFAULT_SETUP_SECTS; lia.
Qed.

Lemma cmdline_room_bounds img : Forall byte_ok img -> 1 <= cmdline_room img <= 4096.
Proof.
  intros Hb. pose proof (bp_field_fits img hdr_cmdline_size 4 Hb) as [H0 _]. unfold cmdline_room.
  cbv zeta. destruct (Z.eqb_spec (bp_field img hdr_cmdline_size 4) 0), (Z.ltb_spec 4096 1024),
    (Z.ltb_spec 4096 (bp_field img hdr_cmdline_size 4)); lia.
Qed.

Definition loaded_mem (img cmdline : list Z) (m : mem) : mem :=
  let m := mem_set m BOOT_LOADER_ADDR (take (Z.to_nat (setup_size img)) img) in
  let m := mem_set m BZ_KERNEL_START (drop (Z.to_nat (setup_size img)) img) in
  let m := mem_set m BOOT_CMDLINE_OFFSET (zeros (cmdline_room img)) in
  mem_set m BOOT_CMDLINE_OFFSET (resize (Z.to_nat (cmdline_room img - 1)) 0 (c_str cmdline)).

(** What patching the header leaves alone. *)
Lemma patch_mem_outside m x :
  (x < BOOT_LOADER_ADDR \/ patched (x - BOOT_LOADER_ADDR) = false) -> patch_mem m x = m x.
Proof.
  intros Hx. unfold patch_mem, put_hdr. cbv zeta.
  assert (Ho : forall off n, (off, n) ∈ [(hdr_vid_mode, 2); (hdr_type_of_loader, 1); (hdr_loadflags, 1); (hdr_heap_end_ptr, 2); (hdr_cmd_line_ptr, 4)] ->
    x < BOOT_LOADER_ADDR + off \/ BOOT_LOADER_ADDR + off + n <= x).
  { intros off n Hin. destruct Hx as [Hx|Hx].
    - left. repeat (apply elem_of_cons in Hin as [[= -> ->]|Hin]; [boot_lia|]). by apply elem_of_nil in Hin.
    - unfold patched in Hx. cbn [existsb fst snd] in Hx.
      repeat (apply orb_false_iff in Hx as [?%andb_false_iff Hx]).
      repeat match goal with Hd : _ \/ _ |- _ => rewrite Z.leb_gt, Z.ltb_ge in Hd end.
      repeat (apply elem_of_cons in Hin as [[= -> ->]|Hin]; [boot_lia|]). by apply elem_of_nil in Hin. }
  rewrite !mem_set_outside; [done|..]; rewrite le_enc_length; apply Ho; set_solver.
Qed.

Lemma patched_far y : 0x230 <= y -> patched y = false.
Proof.
  intros Hy. unfold patched. cbn [existsb fst snd].
  repeat (apply orb_false_iff; split; [apply andb_false_iff; right; apply Z.ltb_ge; boot_lia|]). done.
Qed.

Lemma patch_mem_far m a n : BOOT_LOADER_ADDR + 0x230 <= a -> mem_get (patch_mem m) a n = mem_get m a n.
Proof. intros Ha. apply mem_get_ext. intros x Hx. apply patch_mem_outside. right. apply patched_far. lia. Qed.

Lemma patch_mem_fields m :
  fits 8 (boot_hdr m hdr_loadflags 1) ->
  boot_hdr (patch_mem m) hdr_cmd_line_ptr 4 = BOOT_CMDLINE_OFFSET /\
  boot_hdr (patch_mem m) hdr_type_of_loader 1 = 0xff /\
  boot_hdr (patch_mem m) hdr_heap_end_ptr 2 = 0xfe00 /\
  boot_hdr (patch_mem m) hdr_vid_mode 2 = 0 /\
  boot_hdr (patch_mem m) hdr_loadflags 1 =
    Z.lor (Z.land (boot_hdr m hdr_loadflags 1) (bnot 8 KASLR_FLAG)) CAN_USE_HEAP.
Proof.
  intros Hf.
  assert (Hl : fits 8 (Z.land (boot_hdr m hdr_loadflags 1) (bnot 8 KASLR_FLAG))) by by apply land_fits_l.
  assert (Hl2 : fits 8 (Z.lor (Z.land (boot_hdr m hdr_loadflags 1) (bnot 8 KASLR_FLAG)) CAN_USE_HEAP))
    by by apply lor_fits.
  unfold patch_mem. cbv zeta.
  rewrite !(boot_hdr_put_ne _ _ _ _ hdr_loadflags) by boot_lia.
  rewrite (boot_hdr_put_eq _ hdr_loadflags) by exact Hl.
  rewrite !(boot_hdr_put_ne _ _ _ _ hdr_loadflags), (boot_hdr_put_eq _ hdr_loadflags) by (exact Hl2 || boot_lia).
  split_and!.
  - rewrite !boot_hdr_put_ne by boot_lia. by rewrite boot_hdr_put_eq.
  - rewrite !boot_hdr_put_ne by boot_lia. by rewrite boot_hdr_put_eq.
  - rewrite !boot_hdr_put_ne by boot_lia. by rewrite boot_hdr_put_eq.
  - by rewrite boot_hdr_put_eq.
  - done.
Qed.

Section loaded.
  Context (img cmdline : list Z) (m : mem) (ram_bytes : Z).
  Hypothesis (Hok : bzimage_ok img ram_bytes).

Let k : Z := setup_size img.

Lemma loaded_below x :
  BOOT_LOADER_ADDR <= x < BOOT_LOADER_ADDR + k -> loaded_mem img cmdline m x = nth (Z.to_nat (x - BOOT_LOADER_ADDR)) img 0.
Proof using Hok.
  intros Hx. destruct Hok as [Hb _ _ [Hk1 Hk2] _]. fold k in Hk1, Hk2.
  pose proof (cmdline_room_bounds img Hb). unfold loaded_mem. fold k.
  rewrite mem_set_outside by (rewrite length_resize; boot_lia).
  rewrite mem_set_outside by (rewrite zeros_length; boot_lia).
  rewrite mem_set_outside by boot_lia.
  rewrite mem_set_inside by (rewrite length_take; lia).
  rewrite nth_firstn. destruct (Nat.ltb_spec (Z.to_nat (x - BOOT_LOADER_ADDR)) (Z.to_nat k)); [done|lia].
Qed.

Lemma loaded_flags : boot_hdr (loaded_mem img cmdline m) hdr_loadflags 1 = bp_field img hdr_loadflags 1.
Proof using Hok.
  pose proof Hok as [Hb Hlen _ [Hk1 Hk2] _]. fold k in Hk1, Hk2.
  pose proof (setup_size_bounds img Hb) as Hs. fold k in Hs.
  unfold boot_hdr, rd, bp_field. f_equal.
  change (Z.of_nat 1) with 1. rewrite mem_get_1, loaded_below by boot_lia.
  replace (BOOT_LOADER_ADDR + hdr_loadflags - BOOT_LOADER_ADDR) with hdr_loadflags by lia.
  rewrite <- (take_drop (Z.to_nat hdr_loadflags) img) at 1.
  destruct (drop (Z.to_nat hdr_loadflags) img) as [|b l] eqn:E.
  - apply (f_equal length) in E. rewrite length_drop in E. cbn in E. boot_lia.
  - rewrite app_nth2 by (rewrite length_take; lia). rewrite length_take. cbn.
    replace (_ - _)%nat with 0%nat by boot_lia. done.
Qed.

Lemma loaded_kernel : kernel_loaded img cmdline (patch_mem (loaded_mem img cmdline m)).
Proof using Hok.
  pose proof Hok as [Hb Hlen _ [Hk1 Hk2] _]. fold k in Hk1, Hk2.
  pose proof (cmdline_room_bounds img Hb) as Hr. pose proof (setup_size_bounds img Hb) as Hs. fold k in Hs.
  destruct (patch_mem_fields (loaded_mem img cmdline m)) as (F1 & F2 & F3 & F4 & F5).
  { rewrite loaded_flags. by apply (bp_field_fits img hdr_loadflags 1). }
  split; try done.
  - rewrite patch_mem_far by boot_lia. unfold loaded_mem. fold k.
    rewrite mem_get_set_disjoint by (rewrite length_resize; boot_lia).
    rewrite mem_get_set_disjoint by (rewrite zeros_length; boot_lia).
    replace (Z.of_nat (length img) - k) with (Z.of_nat (length (drop (Z.to_nat k) img))) by (rewrite length_drop; lia).
    apply mem_get_set_eq.
  - intros x Hx Hp. fold k in Hx. rewrite patch_mem_outside by (right; by replace (BOOT_LOADER_ADDR + x - BOOT_LOADER_ADDR) with x by lia).
    rewrite loaded_below by lia. f_equal. lia.
  - rewrite patch_mem_far by boot_lia. unfold loaded_mem.
    etrans; [apply (f_equal (mem_get _ _)); by rewrite <- (Z.sub_add 1 (cmdline_room img))|].
    rewrite mem_get_app by lia. f_equal.
    + set (c := resize _ _ _). replace (cmdline_room img - 1) with (Z.of_nat (length c))
        by (unfold c; rewrite length_resize; lia). apply mem_get_set_eq.
    + rewrite mem_get_set_disjoint by (rewrite length_resize; lia).
      rewrite mem_get_1, mem_set_inside by (rewrite zeros_length; lia). unfold zeros.
      f_equal. apply nth_lookup_Some, lookup_replicate_2. lia.
  - by rewrite F5, loaded_flags.
Qed.
End loaded.

(** The initrd as the kernel finds it: where the header says it is, 1 MB
    aligned, as high in RAM as that allows. *)
Definition initrd_loaded (initrd : list Z) (ram_bytes : Z) (m : mem) : Prop :=
  let a := boot_hdr m hdr_ramdisk_image 4 in let len := Z.of_nat (length initrd) in
  boot_hdr m hdr_ramdisk_size 4 = len /\ mem_get m a len = initrd /\
  a mod 0x100000 = 0 /\ a + len <= ram_bytes < a + len + 0x100000.

Lemma initrd_addr_spec rb len :
  0 <= len <= rb -> rb < 2 ^ 64 -> initrd_addr rb len = (rb - len) / 0x100000 * 0x100000.
Proof.
  intros Hl Hr. unfold initrd_addr. rewrite wrap_id by (unfold fits; lia).
  rewrite land_bnot_ldiff by (done || unfold fits; lia). change 0xfffff with (Z.ones 20).
  rewrite Z.ldiff_ones_r by done. rewrite Z.shiftl_mul_pow2, Z.shiftr_div_pow2 by done. done.
Qed.

Definition initrd_mem (initrd : list Z) (ram_bytes : Z) (m : mem) : mem :=
  let a := initrd_addr ram_bytes (Z.of_nat (length initrd)) in
  put_hdr (put_hdr (mem_set m a initrd) hdr_ramdisk_image 4 (u32 a))
    hdr_ramdisk_size 4 (u32 (Z.of_nat (length initrd))).

Section initrd.
  Context (initrd : list Z) (rb : Z) (m : mem).
  Hypothesis (Hlen : 0 <= Z.of_nat (length initrd) <= rb) (Hrb : rb <= 2 ^ 32)
    (Hlow : BZ_KERNEL_START <= initrd_addr rb (Z.of_nat (length initrd))).

Let a : Z := initrd_addr rb (Z.of_nat (length initrd)).

Lemma initrd_addr_bounds : a mod 0x100000 = 0 /\ a + Z.of_nat (length initrd) <= rb < a + Z.of_nat (length initrd) + 0x100000.
Proof using Hlen Hrb.
  unfold a. rewrite initrd_addr_spec by lia. rewrite Z.mod_mul by lia. split; [done|].
  pose proof (Z.div_mod (rb - Z.of_nat (length initrd)) 0x100000).
  pose proof (Z.mod_pos_bound (rb - Z.of_nat (length initrd)) 0x100000). lia.
Qed.

Lemma initrd_mem_loaded : (0 < length initrd)%nat -> initrd_loaded initrd rb (initrd_mem initrd rb m).
Proof using Hlen Hrb Hlow.
  intros Hpos. destruct initrd_addr_bounds as [Ha1 Ha2]. unfold initrd_loaded, initrd_mem. fold a in Hlow |- *.
  rewrite !wrap_id by (unfold fits; boot_lia).
  rewrite (boot_hdr_put_ne _ hdr_ramdisk_size _ _ hdr_ramdisk_image) by boot_lia.
  rewrite !boot_hdr_put_eq by (unfold fits; boot_lia).
  split_and!; try lia; try done. unfold put_hdr.
  rewrite !mem_get_set_disjoint by (rewrite le_enc_length; boot_lia). apply mem_get_set_eq.
Qed.

(** What loading the initrd leaves alone: everything below it but two fields of
    the boot header. *)
Lemma initrd_mem_outside x :
  x < a -> (x < BOOT_LOADER_ADDR + hdr_ramdisk_image \/ BOOT_LOADER_ADDR + hdr_ramdisk_image + 8 <= x) ->
  initrd_mem initrd rb m x = m x.
Proof using.
  intros Hx Hf. unfold initrd_mem, put_hdr. fold a.
  rewrite mem_set_outside by (rewrite le_enc_length; boot_lia).
  rewrite mem_set_outside by (rewrite le_enc_length; boot_lia).
  apply mem_set_outside. left. exact Hx.
Qed.
End initrd.

(** Memories that agree where it matters. *)
Lemma bios_ready_ext rb m m' :
  (forall x, 0 <= x < 0x400 \/ E820_MAP_START <= x < BZ_KERNEL_START -> m' x = m x) ->
  bios_ready rb m -> bios_ready rb m'.
Proof.
  intros Hx [He Hv Hr]. assert (Hg : forall a n, 0 <= a /\ a + n <= 0x400 \/ E820_MAP_START <= a /\ a + n <= BZ_KERNEL_START ->
    mem_get m' a n = mem_get m a n) by (intros a n Ha; apply mem_get_ext; intros x Hi; apply Hx; lia).
  split.
  - unfold e820_map, rd in *. rewrite (Hg E820_MAP_START) by boot_lia.
    assert (Hn : le_dec (mem_get m E820_MAP_START (Z.of_nat 4)) <= 4).
    { apply (f_equal length) in He. rewrite array_get_length in He. cbn in He. lia. }
    rewrite Hg; [done|]. unfold sizeof_e820entry. boot_lia.
  - intros v Hi. rewrite <- Hv by done. unfold vector, rd. rewrite !Hg by lia. done.
  - rewrite Hg; [done|]. boot_lia.
Qed.

Lemma kernel_loaded_ext img cmdline m m' a :
  Forall byte_ok img -> setup_size img <= BOOT_CMDLINE_OFFSET - BOOT_LOADER_ADDR ->
  BZ_KERNEL_START + (Z.of_nat (length img) - setup_size img) <= a -> BZ_KERNEL_START <= a ->
  (forall x, x < a -> x < BOOT_LOADER_ADDR + hdr_ramdisk_image \/ BOOT_LOADER_ADDR + hdr_ramdisk_image + 8 <= x -> m' x = m x) ->
  kernel_loaded img cmdline m -> kernel_loaded img cmdline m'.
Proof.
  intros Hb Hs Hk Ha Hx [K1 K2 K3 K4 K5 K6 K7 K8].
  pose proof (cmdline_room_bounds img Hb). pose proof (setup_size_bounds img Hb).
  assert (Hg : forall b n, b + n <= a ->
    b + n <= BOOT_LOADER_ADDR + hdr_ramdisk_image \/ BOOT_LOADER_ADDR + hdr_ramdisk_image + 8 <= b ->
    mem_get m' b n = mem_get m b n) by (intros b n H1 H2; apply mem_get_ext; intros x Hi; apply Hx; lia).
  unfold boot_hdr, rd in *.
  split; unfold boot_hdr, rd; try (rewrite Hg; [done|boot_lia|boot_lia]).
  intros x Hi Hp. rewrite Hx; [by apply K2|boot_lia|]. unfold patched in Hp. cbn [existsb fst snd] in Hp.
  repeat (apply orb_false_iff in Hp as [?%andb_false_iff Hp]).
  repeat match goal with Hd : _ \/ _ |- _ => rewrite Z.leb_gt, Z.ltb_ge in Hd end. boot_lia.
Qed.

(** ** The whole of it *)

Section boot.
  Context {H : Host}.

(** The host has a file of that content under that name. *)
Definition serves_file (path content : list Z) : Prop :=
  let len := Z.of_nat (length content) in
  fits 64 len /\ exists fd, 0 <= fd /\
  (forall t, r_ret (reply_of t (sys_open path false)) = fd) /\
  (forall t, r_ret (reply_of t (sys_fstat fd)) = 0 /\ take 8 (r_data (reply_of t (sys_fstat fd))) = le_enc 8 len) /\
  (forall t, r_ret (reply_of t (sys_read fd len)) = len /\ r_data (reply_of t (sys_read fd len)) = content).

Lemma read_file_spec path content s (Q : option (list Z) -> Vmm -> Prop) :
  serves_file path content -> (forall t, Q (Some content) (s <| trace_ := t |>)) -> wp (read_file path) Q s.
Proof.
  intros (Hfit & fd & Hfd & Ho & Hst & Hrd) HQ. unfold read_file. wp_run.
  all: assert (Efd : r_ret r = fd) by (rewrite Hr; apply Ho); rewrite Efd in *.
  1: { apply Z.ltb_lt in Hb. lia. }
  1: { rewrite Hr0 in Hb0. by rewrite (proj1 (Hst _)) in Hb0. }
  all: assert (Esz : le_dec (take 8 (r_data r0)) = Z.of_nat (length content))
    by (rewrite Hr0, (proj2 (Hst _)); by apply le_dec_enc).
  all: rewrite Esz in *.
  all: assert (Ert : r_ret r1 = Z.of_nat (length content)) by (rewrite Hr1; apply Hrd).
  all: assert (Eda : r_data r1 = content) by (rewrite Hr1; apply Hrd).
  - rewrite Eda, Nat2Z.id, resize_all_alt by done. unwind. apply HQ.
  - by rewrite Ert, wrap_id, Z.eqb_refl in Hb1.
Qed.

Lemma load_bzimage_spec path img s m iv (Q : bool -> Vmm -> Prop) :
  serves_file path img -> bzimage_ok img (ram_bytes_ s) ->
  (forall t, Q true (boot_st (s <| trace_ := t |>) (patch_mem (loaded_mem img (cmdline_ s) m)) iv)) ->
  wp (load_bzimage path) Q (boot_st s m iv).
Proof.
  intros Hf Hok HQ. pose proof Hok as [Hb Hl Hmg [Hk1 Hk2] Hfit].
  pose proof (setup_size_bounds img Hb). pose proof (cmdline_room_bounds img Hb).
  unfold load_bzimage. wp_run. apply (read_file_spec path img); [done|]. intros t. specialize (HQ t).
  change (boot_st s m iv) <| trace_ := t |> with (boot_st (s <| trace_ := t |>) m iv).
  change (ram_bytes_ s) with (ram_bytes_ (s <| trace_ := t |>)) in Hfit.
  change (cmdline_ s) with (cmdline_ (s <| trace_ := t |>)) in HQ.
  generalize dependent (s <| trace_ := t |>). clear s Hok t. intros s HQ Hfit.
  rewrite (proj2 (Z.ltb_ge _ _)) by lia. rewrite Hmg, Z.eqb_refl. cbn [negb].
  rewrite (proj2 (Z.ltb_ge _ _)) by lia. wp_run.
  apply wp_boot_store; [boot_lia|rewrite length_take; boot_lia|]. wp_run.
  apply wp_boot_store; [boot_lia|rewrite length_drop; boot_lia|]. wp_run.
  apply wp_boot_store; [boot_lia|rewrite zeros_length; boot_lia|]. wp_run.
  apply wp_boot_store; [boot_lia|rewrite length_resize; boot_lia|]. wp_run.
  apply patch_header_spec; [boot_lia|]. wp_run. exact HQ.
Qed.

Lemma load_initrd_spec path initrd s m iv (Q : bool -> Vmm -> Prop) :
  serves_file path initrd -> Z.of_nat (length initrd) <= ram_bytes_ s <= 2 ^ 32 ->
  BZ_KERNEL_START <= ram_bytes_ s ->
  (forall t, Q true (boot_st (s <| trace_ := t |>) (initrd_mem initrd (ram_bytes_ s) m) iv)) ->
  wp (load_initrd path) Q (boot_st s m iv).
Proof.
  intros Hf Hl Hk HQ. destruct (initrd_addr_bounds initrd (ram_bytes_ s)) as [Ha1 Ha2]; [lia|lia|].
  assert (Ha0 : 0 <= initrd_addr (ram_bytes_ s) (Z.of_nat (length initrd))).
  { rewrite initrd_addr_spec by lia. pose proof (Z.div_pos (ram_bytes_ s - Z.of_nat (length initrd)) 0x100000). lia. }
  unfold load_initrd. wp_run. apply (read_file_spec path initrd); [done|]. intros t. specialize (HQ t).
  change (boot_st s m iv) <| trace_ := t |> with (boot_st (s <| trace_ := t |>) m iv).
  change (ram_bytes_ s) with (ram_bytes_ (s <| trace_ := t |>)) in *.
  generalize dependent (s <| trace_ := t |>). clear s t. intros s Hl Hk HQ Ha1 Ha2 Ha0.
  wp_run. change (ram_bytes_ (boot_st s m iv)) with (ram_bytes_ s).
  apply wp_boot_store; [lia|lia|]. unfold set_hdr. wp_run.
  apply wp_boot_store; [boot_lia|rewrite le_enc_length; boot_lia|]. wp_run.
  apply wp_boot_store; [boot_lia|rewrite le_enc_length; boot_lia|]. wp_run. exact HQ.
Qed.

(** ** The initial registers *)

(** Members of [struct kvm_regs]. *)
Definition reg_rip (regs : list Z) : Z := le_dec (take 8 (drop 128 regs)).
Definition reg_rsp (regs : list Z) : Z := le_dec (take 8 (drop 48 regs)).
Definition reg_rflags (regs : list Z) : Z := le_dec (take 8 (drop 136 regs)).

(** A vCPU about to execute the first instruction of the kernel's setup code in
    real mode, interrupts off, with a stack in the same segment. *)
Definition at_setup_entry (sregs : kvm_sregs) (regs : list Z) : Prop :=
  length regs = 144%nat /\
  sg_base (sr_cs sregs) = sg_selector (sr_cs sregs) * 16 /\
  sg_base (sr_cs sregs) + reg_rip regs = BOOT_LOADER_ADDR + 0x200 /\
  sg_base (sr_ss sregs) + reg_rsp regs = BOOT_LOADER_ADDR + BOOT_LOADER_SP /\
  Forall (fun g => sg_base g = BOOT_LOADER_ADDR) [sr_ds sregs; sr_es sregs; sr_fs sregs; sr_gs sregs; sr_ss sregs] /\
  Z.testbit (sr_cr0 sregs) 0 = false /\ sr_efer sregs = 0 /\ Z.testbit (reg_rflags regs) 9 = false.

Lemma setup_cpu_spec stack s :
  wp (setup_cpu stack) (fun ok s' =>
    only_trace s s' /\ (kvm_accepts -> ok = true) /\
    (kvm_accepts -> exists sregs regs, at_setup_entry sregs regs /\
       kvm_put (trace_ s') = kvm_put (trace_ s) ++
         [(KvmSregs, c_put kvm_sregs_codec sregs); (KvmRegs, regs); (KvmCpuid2, cpuid_buffer (cpuid_ s))])) s.
Proof.
  unfold setup_cpu. wp_run. set (sregs := real_mode_sregs _).
  apply (set_chain_spec [(KvmSregs, c_put kvm_sregs_codec sregs); (KvmRegs, boot_regs)]).
  - intros s' Ht Hn. split; [|done].
    eapply only_trace_trans; [|exact Ht]. subst. apply only_trace_upd.
  - intros s' Ht Hp. unfold kvm_set. wp_run. split; [|split].
    + eapply only_trace_trans; [|eapply only_trace_trans; [exact Ht|]]; subst; apply only_trace_upd.
    + intros Hacc. specialize (Hacc (trace_ s') KvmCpuid2 (cpuid_buffer (cpuid_ s'))). rewrite Hr0.
      destruct (Z.ltb_spec (r_ret (reply_of (trace_ s') (sys_kvm_set KvmCpuid2 (cpuid_buffer (cpuid_ s'))))) 0); [lia|done].
    + intros _. exists sregs, boot_regs. split.
      { unfold at_setup_entry. split_and!; try reflexivity. repeat constructor. }
      destruct Ht as [t ->]. subst. cbn in Hp |- *. rewrite kvm_put_snoc, Hp, kvm_put_snoc, app_nil_r.
      by rewrite <- app_assoc.
Qed.

(** C10: booting.  With a bzImage and an initrd that fit in guest RAM without
    meeting, [setup_bios], [load_bzimage], [load_initrd] and [setup_cpu] succeed
    and leave a machine the kernel can start on: the BIOS tables are all intact;
    the kernel is at 1 MB; the setup code is as in the file except for the
    header fields the boot protocol asks the loader to fill in; the command line
    is NUL-terminated where the header points; the initrd is whole, 1 MB aligned
    and where the header says; and the vCPU is about to run the setup code's
    first instruction. *)
Theorem guest_prepared stack kernel_path initrd_path img initrd s :
  serves_file kernel_path img -> serves_file initrd_path initrd ->
  bzimage_ok img (ram_bytes_ s) -> (0 < length initrd)%nat ->
  Z.of_nat (length initrd) <= ram_bytes_ s <= 2 ^ 32 ->
  BZ_KERNEL_START + (Z.of_nat (length img) - setup_size img) <=
    initrd_addr (ram_bytes_ s) (Z.of_nat (length initrd)) ->
  kvm_accepts ->
  wp (prepare_guest stack kernel_path initrd_path) (fun ok s' => let m := ram_mem_ s' in
    ok = true /\ bios_ready (ram_bytes_ s) m /\ kernel_loaded img (cmdline_ s) m /\
    initrd_loaded initrd (ram_bytes_ s) m /\
    exists sregs regs rest, at_setup_entry sregs regs /\
      kvm_put (trace_ s') = rest ++
        [(KvmSregs, c_put kvm_sregs_codec sregs); (KvmRegs, regs); (KvmCpuid2, cpuid_buffer (cpuid_ s))]) s.
Proof.
  intros Hk Hi Hok Hpos Hl Hgap Hacc. pose proof Hok as [Hb _ _ [Hk1 Hk2] Hfit].
  pose proof (setup_size_bounds img Hb) as Hs1.
  assert (Hlow : BZ_KERNEL_START <= initrd_addr (ram_bytes_ s) (Z.of_nat (length initrd))) by lia.
  assert (Hrb : BZ_KERNEL_START <= ram_bytes_ s < 2 ^ 64) by lia.
  unfold prepare_guest, and_then. apply wp_boot_start. wp_run.
  apply setup_bios_spec; [lia|]. wp_run. apply (load_bzimage_spec kernel_path img); [done|done|]. intros t1. wp_run.
  apply (load_initrd_spec initrd_path initrd); [done|exact Hl|apply Hrb|]. intros t2. wp_run.
  set (m1 := patch_mem _). set (m2 := initrd_mem _ _ _).
  change (initrd_mem initrd (ram_bytes_ s) m1) with m2.
  eapply wp_mono; [apply setup_cpu_spec|]. cbv beta.
  intros ok s' ([t3 ->] & Hret & Hput). specialize (Hret Hacc). destruct (Hput Hacc) as (sregs & regs & Hent & Hp).
  cbv zeta. match goal with |- context [bios_ready _ ?m] => change m with m2 end. split; [done|].
  assert (Hx : forall x, x < initrd_addr (ram_bytes_ s) (Z.of_nat (length initrd)) ->
    x < BOOT_LOADER_ADDR + hdr_ramdisk_image \/ BOOT_LOADER_ADDR + hdr_ramdisk_image + 8 <= x -> m2 x = m1 x).
  { intros x. apply initrd_mem_outside. }
  split_and!.
  - apply (bios_ready_ext _ (bios_mem (ram_bytes_ s) (ram_mem_ s))); [|by apply bios_mem_ready].
    intros x Hxr. rewrite Hx by boot_lia. unfold m1. rewrite patch_mem_outside.
    2: { destruct Hxr; [left; boot_lia|right; apply patched_far; boot_lia]. }
    pose proof (cmdline_room_bounds img Hb). unfold loaded_mem.
    rewrite mem_set_outside by (rewrite length_resize; boot_lia).
    rewrite mem_set_outside by (rewrite zeros_length; boot_lia).
    rewrite mem_set_outside by boot_lia.
    rewrite mem_set_outside by (rewrite length_take; boot_lia). done.
  - eapply (kernel_loaded_ext img _ m1 m2); [done|done|exact Hgap|done|exact Hx|].
    by apply (loaded_kernel img _ _ (ram_bytes_ s)).
  - apply (initrd_mem_loaded initrd (ram_bytes_ s) m1); [lia|lia|done|done].
  - exists sregs, regs. eexists. split; [done|]. exact Hp.
Qed.
End boot.

(** ** Opening the machine *)

(** The calls that build a VM, by what they are. *)
Inductive vm_call : Type :=
| VmApi | VmMsrList | VmCreate | VmIrqchip | VmPit | VmMemory (slot gpa hva len : Z) | VmVcpu | VmCpuid.

Definition vm_calls (t : trace) : list vm_call :=
  omap (fun e => match e.1 with
    | sys_kvm_api_version => Some VmApi
    | sys_kvm_msr_index_list _ => Some VmMsrList
    | sys_kvm_create_vm => Some VmCreate
    | sys_kvm_create_irqchip => Some VmIrqchip
    | sys_kvm_create_pit2 => Some VmPit
    | sys_memory_region slot gpa hva len => Some (VmMemory slot gpa hva len)
    | sys_kvm_create_vcpu => Some VmVcpu
    | sys_kvm_supported_cpuid _ => Some VmCpuid
    | _ => None end) t.

Lemma vm_calls_snoc t c r :
  vm_calls (t ++ [(c, r)]) = vm_calls t ++ vm_calls [(c, r)].
Proof. apply omap_app. Qed.

Section opening.
  Context {H : Host}.

Ltac vm_calls_tac :=
  unwind; rewrite ?vm_calls_snoc;
  repeat match goal with |- context [vm_calls [(?c, ?r)]] =>
    let v := eval cbn in (vm_calls [(c, r)]) in change (vm_calls [(c, r)]) with v end;
  rewrite ?app_nil_r, <- ?app_assoc.

Lemma msr_count_bound n : (Z.to_nat (if (MAX_MSRS <? n)%Z then MAX_MSRS else n) <= 256)%nat.
Proof. destruct (Z.ltb_spec MAX_MSRS n); unfold MAX_MSRS in *; lia. Qed.

Lemma init_vm_spec s :
  wp init_vm (fun ok s' =>
    (ram_bytes_ s' = ram_bytes_ s /\ lazy_ s' = lazy_ s /\ ram_memfd_ s' = ram_memfd_ s) /\
    (ok = true -> 0 <= kvm_fd_ s' /\ 0 <= vm_fd_ s' /\ (length (msr_list_ s') <= 256)%nat /\
      vm_calls (trace_ s') = vm_calls (trace_ s) ++ [VmApi; VmMsrList; VmCreate; VmIrqchip; VmPit])) s.
Proof.
  unfold init_vm, query_msr_list, and_then, sys_ok. wp_run.
  all: try (unwind; split; [done|intros [=]]; fail).
  all: try (exfalso; discriminate).
  unwind. split; [done|]. intros _. apply Z.ltb_ge in Hb, Hb2.
  split_and!; [done|done|rewrite array_get_length; apply msr_count_bound|].
  vm_calls_tac. done.
Qed.

(** What a step of [init] leaves to the others. *)
Definition keeps_vm (s s' : Vmm) : Prop :=
  ram_bytes_ s' = ram_bytes_ s /\ kvm_fd_ s' = kvm_fd_ s /\ vm_fd_ s' = vm_fd_ s /\ msr_list_ s' = msr_list_ s.

Lemma init_uffd_spec s :
  wp init_uffd (fun ok s' => keeps_vm s s' /\ ram_ s' = ram_ s /\ ram_mem_ s' = ram_mem_ s /\
    ram_memfd_ s' = ram_memfd_ s /\ midway_uffd_ (lazy_ s') = midway_uffd_ (lazy_ s) /\
    (ok = true -> 0 <= uffd_ (lazy_ s')) /\ vm_calls (trace_ s') = vm_calls (trace_ s)) s.
Proof.
  unfold init_uffd. wp_run; unwind; unfold keeps_vm; rewrite ?vm_calls_snoc, ?app_nil_r;
    split_and!; try done. intros _. by apply Z.ltb_ge.
Qed.

Lemma open_memfd_spec s :
  wp open_memfd (fun _ s' => keeps_vm s s' /\ vm_calls (trace_ s') = vm_calls (trace_ s)) s.
Proof.
  unfold open_memfd, keeps_vm. wp_run; unwind; rewrite ?vm_calls_snoc, ?app_nil_r; done.
Qed.

Lemma register_ram_spec addr len s :
  wp (register_ram addr len) (fun ok s' => keeps_vm s s' /\ ram_ s' = ram_ s /\
    ram_mem_ s' = ram_mem_ s /\ ram_memfd_ s' = ram_memfd_ s /\
    (use_uffd_ (lazy_ s') && negb (midway_uffd_ (lazy_ s')) = true -> 0 <= uffd_ (lazy_ s')) /\
    vm_calls (trace_ s') = vm_calls (trace_ s) ++ [VmMemory 0 0 addr len]) s.
Proof.
  unfold register_ram, set_memslot. wp_run.
  - eapply wp_mono; [apply init_uffd_spec|]. cbv beta.
    intros ok s1 (Hk & E1 & E2 & E3 & E4 & Hu & Hv). unfold keeps_vm in *. wp_run; unwind.
    all: rewrite vm_calls_snoc, Hv; split_and!; try done; try apply Hk.
    intros _. apply Hu. by destruct ok.
  - unwind. unfold keeps_vm. rewrite vm_calls_snoc. split_and!; try done. intros E. by rewrite E in Hb.
Qed.

Lemma init_ram_spec zero_ram s :
  0 <= ram_bytes_ s ->
  wp (init_ram zero_ram) (fun ok s' => keeps_vm s s' /\
    (ok = true -> 0 <= ram_memfd_ s' /\ ram_ s' <> -1 /\
      (zero_ram = true -> forall x, 0 <= x < ram_bytes_ s -> ram_mem_ s' x = 0) /\
      (use_uffd_ (lazy_ s') && negb (midway_uffd_ (lazy_ s')) = true -> 0 <= uffd_ (lazy_ s')) /\
      vm_calls (trace_ s') = vm_calls (trace_ s) ++ [VmMemory 0 0 (ram_ s') (ram_bytes_ s)])) s.
Proof.
  intros Hs. unfold init_ram. apply wp_bind. wp_use (open_memfd_spec s). intros _ s2 [Hk Hv].
  apply wp_bind, wp_gets. cbn [id]. apply wp_if; intros Hfd; [by wp_run|]. apply Z.ltb_ge in Hfd.
  assert (Hrb : ram_bytes_ s2 = ram_bytes_ s) by apply Hk. rewrite Hrb, <- Hv. clear Hv.
  unfold and_then, sys_ok. apply wp_bind, wp_bind, wp_sys. intros r s3 _ ->. apply wp_ret.
  apply wp_if; intros _; [|by wp_run]. apply wp_bind, wp_sys. intros r1 s4 _ ->.
  apply wp_bind, wp_modify. intros s5 ->. apply wp_if; intros Hm; [by wp_run|]. apply Z.eqb_neq in Hm.
  apply wp_bind, wp_modify. intros s6 Hs6. apply wp_bind.
  eapply (wp_mono _ (fun _ s' => keeps_vm s s' /\ ram_ s' = r_ret r1 /\ ram_memfd_ s' = ram_memfd_ s2 /\
    vm_calls (trace_ s') = vm_calls (trace_ s2) /\
    (zero_ram = true -> forall x, 0 <= x < ram_bytes_ s -> ram_mem_ s' x = 0))).
  - assert (Hk6 : keeps_vm s s6 /\ ram_ s6 = r_ret r1 /\ ram_memfd_ s6 = ram_memfd_ s2 /\
      vm_calls (trace_ s6) = vm_calls (trace_ s2)).
    { unwind. rewrite !vm_calls_snoc, !app_nil_r. done. }
    destruct Hk6 as (Hk6 & E1 & E2 & E3). clear Hs6. unfold when. apply wp_if; intros Hz.
    + apply wp_store; [lia|rewrite length_replicate, (proj1 Hk6); lia|]. split_and!; try done.
      intros _ x Hx. cbn. rewrite mem_set_inside by (rewrite length_replicate; lia).
      apply nth_lookup_Some, lookup_replicate_2. lia.
    + apply wp_skip. split_and!; try done. by rewrite Hz.
  - cbv beta. intros _ s7 (Hk7 & E1 & E2 & E3 & Hz). wp_use (register_ram_spec (r_ret r1) (ram_bytes_ s) s7).
    intros ok s8 (Hk8 & F1 & F2 & F3 & Hu & Hv). split.
    { unfold keeps_vm in *. destruct_and!. split_and!; congruence. }
    intros _. rewrite F3, E2, F1, E1, F2, Hv, E3. done.
Qed.

Lemma init_vcpu_spec s :
  wp init_vcpu (fun ok s' =>
    (kvm_fd_ s' = kvm_fd_ s /\ vm_fd_ s' = vm_fd_ s /\ msr_list_ s' = msr_list_ s /\
     ram_ s' = ram_ s /\ ram_mem_ s' = ram_mem_ s /\ ram_memfd_ s' = ram_memfd_ s /\ lazy_ s' = lazy_ s) /\
    (ok = true -> 0 <= vcpu_fd_ s' /\ kvm_run_addr_ s' <> -1 /\
       vm_calls (trace_ s') = vm_calls (trace_ s) ++ [VmVcpu; VmCpuid])) s.
Proof.
  unfold init_vcpu. wp_run; unwind; split; try done. intros _.
  apply Z.ltb_ge in Hb. apply Z.eqb_neq in Hb0. split_and!; [done|done|]. vm_calls_tac. done.
Qed.

(** A host that grants every request, with the KVM version the VMM wants. *)
Definition host_grants : Prop :=
  forall t c, match c with
              | sys_kvm_api_version => r_ret (reply_of t c) = 12
              | _ => 0 <= r_ret (reply_of t c)
              end.

Ltac granted Hh :=
  exfalso;
  match goal with
  | Hr : ?r = reply_of ?t ?c, Hb : context [r_ret ?r] |- _ =>
    let Hg := fresh "Hg" in
    pose proof (Hh t c) as Hg; cbv iota in Hg; rewrite <- Hr in Hg;
    first [apply Z.ltb_lt in Hb; lia | apply Z.eqb_eq in Hb; lia
          | apply negb_true_iff, Z.eqb_neq in Hb; lia | apply negb_false_iff, Z.ltb_lt in Hb; lia]
  end.

Lemma init_vm_granted s : host_grants -> wp init_vm (fun ok _ => ok = true) s.
Proof.
  intros Hh. unfold init_vm, query_msr_list, and_then, sys_ok. wp_run; try discriminate; try (granted Hh).
  apply negb_true_iff, Z.ltb_ge. rewrite Hr4. apply (Hh _ sys_kvm_create_pit2).
Qed.

Lemma open_memfd_granted s :
  host_grants -> wp open_memfd (fun _ s' => ram_bytes_ s' = ram_bytes_ s /\ 0 <= ram_memfd_ s') s.
Proof.
  intros Hh. unfold open_memfd. wp_run; try (granted Hh).
  all: try (match goal with Hb : (_ <? 0) = false |- _ => apply Z.ltb_ge in Hb end; unwind; done).
  all: split; [by unwind|]; subst; cbn; apply (Hh _ (sys_memfd_create false)).
Qed.

Lemma register_ram_granted addr len s :
  host_grants -> wp (register_ram addr len) (fun ok _ => ok = true) s.
Proof.
  intros Hh. unfold register_ram, set_memslot. wp_run.
  - wp_use init_uffd_spec. intros ok s1 _. wp_run; apply negb_true_iff, Z.ltb_ge; rewrite Hr;
      apply (Hh _ (sys_memory_region 0 0 addr len)).
  - apply negb_true_iff, Z.ltb_ge. rewrite Hr. apply (Hh _ (sys_memory_region 0 0 addr len)).
Qed.

Lemma init_ram_granted zero_ram s :
  host_grants -> 0 <= ram_bytes_ s -> wp (init_ram zero_ram) (fun ok _ => ok = true) s.
Proof.
  intros Hh Hs. unfold init_ram. apply wp_bind. wp_use (open_memfd_granted s Hh). intros _ s2 [Hrb Hfd].
  apply wp_bind, wp_gets. cbn [id]. rewrite (proj2 (Z.ltb_ge _ _) Hfd), Hrb.
  unfold and_then, sys_ok. wp_run; try (granted Hh).
  - apply wp_store; [lia|subst; cbn; rewrite length_replicate; lia|].
    wp_use register_ram_granted; [done|]. done.
  - wp_use register_ram_granted; [done|]. done.
Qed.

Lemma init_vcpu_granted s : host_grants -> wp init_vcpu (fun ok _ => ok = true) s.
Proof. intros Hh. unfold init_vcpu. wp_run; try (granted Hh). done. Qed.

(** C36: on a host that grants every request [init] succeeds, and whenever it
    returns true the machine is whole: every descriptor is open
    and RAM and the shared page are mapped; the VM was built in the order KVM
    needs (interrupt chips before the vCPU), with one memory slot that maps the
    whole of guest RAM at address 0; at most 256 MSRs are listed; RAM is zero if
    that was asked for; and if demand paging is still enabled its descriptor is
    open, otherwise the restore falls back to copying. *)
Theorem init_whole_machine zero_ram s :
  0 <= ram_bytes_ s ->
  wp (init zero_ram) (fun ok s' => (host_grants -> ok = true) /\ (ok = true ->
    Forall (Z.le 0) [kvm_fd_ s'; vm_fd_ s'; vcpu_fd_ s'; ram_memfd_ s'] /\
    ram_ s' <> -1 /\ kvm_run_addr_ s' <> -1 /\ (length (msr_list_ s') <= 256)%nat /\
    (zero_ram = true -> forall x, 0 <= x < ram_bytes_ s -> ram_mem_ s' x = 0) /\
    (use_uffd_ (lazy_ s') && negb (midway_uffd_ (lazy_ s')) = true -> 0 <= uffd_ (lazy_ s')) /\
    vm_calls (trace_ s') = vm_calls (trace_ s) ++
      [VmApi; VmMsrList; VmCreate; VmIrqchip; VmPit; VmMemory 0 0 (ram_ s') (ram_bytes_ s); VmVcpu; VmCpuid])) s.
Proof.
  intros Hs. unfold init, and_then. apply wp_bind.
  wp_use (wp_imp host_grants _ _ _ _ (init_vm_spec s)
    ((init_vm_granted s))).
  intros ok s1 [[(E1 & E2 & E3) Hv] Hg1]. apply wp_if; intros ->; [|wp_run; split; [done|intros [=]]]. apply wp_bind.
  wp_use (wp_imp host_grants _ _ _ _ (init_ram_spec zero_ram s1 ltac:(lia))
    ((fun Hh => init_ram_granted zero_ram s1 Hh ltac:(lia)))).
  intros ok s2 [[Hk Hr] Hg2]. apply wp_if; intros ->; [|wp_run; split; [done|intros [=]]].
  wp_use (wp_imp host_grants _ _ _ _ (init_vcpu_spec s2)
    ((init_vcpu_granted s2))).
  intros ok s3 [[(F1 & F2 & F3 & F4 & F5 & F6 & F7) Hc] Hg3]. split; [done|]. intros ->.
  destruct (Hv eq_refl) as (K1 & K2 & K3 & K4), (Hr eq_refl) as (R1 & R2 & R3 & R4 & R5),
    (Hc eq_refl) as (V1 & V2 & V3). destruct Hk as (G1 & G2 & G3 & G4).
  rewrite F1, F2, F3, F4, F5, F6, F7, V3, R5, K4, G2, G3, G4 in *. rewrite E1 in *.
  rewrite <- !app_assoc. split_and!; try done. by repeat constructor.
Qed.
End opening.
