(* ===== verification/Config.v ===== *)
(** * The configuration file

    The JSON subset reader and the file it writes into the share:
    [skip_ws], [parse_string], [parse_mac], [parse_config],
    [write_config_to_share] of src/src/vmm.cpp and [struct VmConfig] of
    src/src/vmm.hpp.  A [const char *] into the 8192-byte buffer is the rest of
    the buffer from there on, so that reading past the buffer is a fault; a
    character array of the configuration is the string it holds. *)
From S2P Require Import Prelude Memory Codec State Logic Snapshot.
From stdpp Require Import options.

Definition QUOTE : Z := 34.
Definition BACKSLASH : Z := 92.
Definition COLON : Z := 58.
Definition COMMA : Z := 44.
Definition LBRACE : Z := 123.
Definition RBRACE : Z := 125.

Record VmConfig : Type := {
  cfg_rootfs : list Z;
  cfg_entrypoint : list Z;
  cfg_hostname : list Z;
  cfg_tap : list Z;
  cfg_ip : list Z;
  cfg_gateway : list Z;
  cfg_mac : list Z;
  cfg_has_net : bool;
  cfg_env : list (list Z * list Z);   (* the first num_env of the 32 *)
}.
#[export] Instance VmConfig_eta : Eta VmConfig := fun c =>
  {| cfg_rootfs := cfg_rootfs c; cfg_entrypoint := cfg_entrypoint c; cfg_hostname := cfg_hostname c;
     cfg_tap := cfg_tap c; cfg_ip := cfg_ip c; cfg_gateway := cfg_gateway c; cfg_mac := cfg_mac c;
     cfg_has_net := cfg_has_net c; cfg_env := cfg_env c |}.

Definition VmConfig_init : VmConfig :=
  {| cfg_rootfs := []; cfg_entrypoint := []; cfg_hostname := []; cfg_tap := []; cfg_ip := [];
     cfg_gateway := []; cfg_mac := replicate 6 0; cfg_has_net := false; cfg_env := [] |}.

Definition SIZE_rootfs : Z := 4096.
Definition SIZE_entrypoint : Z := 256.
Definition SIZE_hostname : Z := 64.
Definition SIZE_tap : Z := 16.
Definition SIZE_ip : Z := 32.
Definition SIZE_gateway : Z := 32.
Definition SIZE_env_key : Z := 64.
Definition SIZE_env_val : Z := 256.
Definition MAX_ENV : Z := 32.

(** ** Strings *)

(** [*p]. *)
Definition deref (p : list Z) : result Z :=
  match p with c :: _ => Ok c | [] => Fault OutOfBounds end.

Definition is_ws (c : Z) : bool := (c =? 32) || (c =? 9) || (c =? 10) || (c =? 13).

Fixpoint skip_ws (p : list Z) : result (list Z) :=
  match p with
  | [] => Fault OutOfBounds
  | c :: p' => if negb (c =? 0) && is_ws c then skip_ws p' else Ok p
  end.

(** The loop of [parse_string] with room for [room] more characters: what it
    stores and where it stops. *)
Fixpoint string_body (room : nat) (p : list Z) : result (list Z * list Z) :=
  c ← deref p;
  if (c =? 0) || (c =? QUOTE) then Ok ([], p) else
  match room with
  | O => Ok ([], p)
  | S room' =>
    let p1 := tail p in
    '(x, p2) ← (if c =? BACKSLASH then
                  d ← deref p1;
                  if d =? 0 then Ok (c, p1) else Ok (d, tail p1)
                else Ok (c, p1));
    '(out, p3) ← string_body room' p2;
    Ok (x :: out, p3)
  end.

(** [None] is a [nullptr] result, which leaves the output array as it was. *)
Definition parse_string (p : list Z) (maxlen : Z) : result (option (list Z * list Z)) :=
  p ← skip_ws p;
  c ← deref p;
  if negb (c =? QUOTE) then Ok None else
  '(out, p) ← string_body (Z.to_nat (maxlen - 1)) (tail p);
  c ← deref p;
  Ok (Some (out, if c =? QUOTE then tail p else p)).

(** [strstr] and [strchr] stop at the terminator. *)
Fixpoint strstr (p needle : list Z) : option (list Z) :=
  if starts_with needle p then Some p else
  match p with
  | [] => None
  | c :: p' => if c =? 0 then None else strstr p' needle
  end.

(** The number of characters before the first [c], if it is in the string. *)
Fixpoint strchr (p : list Z) (c : Z) : option Z :=
  match p with
  | [] => None
  | d :: p' => if d =? c then Some 0 else if d =? 0 then None else Z.succ <$> strchr p' c
  end.

(** ** Numbers, as [sscanf] reads them *)

Definition digit_val (base c : Z) : option Z :=
  let v := if (48 <=? c) && (c <=? 57) then c - 48
           else if (97 <=? c) && (c <=? 102) then c - 87
           else if (65 <=? c) && (c <=? 70) then c - 55 else 99 in
  if v <? base then Some v else None.

(** The digits of a number: its value (saturating at 64 bits) and the rest. *)
Fixpoint scan_digits (base : Z) (p : list Z) (acc : Z) : Z * list Z :=
  match p with
  | [] => (acc, p)
  | c :: p' => match digit_val base c with
               | Some v => scan_digits base p' (Z.min (acc * base + v) (2 ^ 64 - 1))
               | None => (acc, p)
               end
  end.

Definition is_space (c : Z) : bool := is_ws c || (c =? 11) || (c =? 12).

Fixpoint skip_space (p : list Z) : list Z :=
  match p with
  | c :: p' => if is_space c then skip_space p' else p
  | [] => p
  end.

(** An optional sign. *)
Definition scan_sign (p : list Z) : bool * list Z :=
  match p with
  | c :: p' => if c =? 43 then (false, p') else if c =? 45 then (true, p') else (false, p)
  | [] => (false, p)
  end.

(** [0x] before hexadecimal digits. *)
Definition skip_0x (base : Z) (p : list Z) : list Z :=
  match p with
  | c :: x :: p' => if (base =? 16) && (c =? 48) && ((x =? 120) || (x =? 88)) then p' else p
  | _ => p
  end.

(** [%x] (base 16) or [%u] (base 10): leading white space, a sign, [0x], at
    least one digit. *)
Definition scan_uint (base : Z) (p : list Z) : option (Z * list Z) :=
  let '(neg, p) := scan_sign (skip_space p) in
  let p := skip_0x base p in
  match p with
  | c :: _ => match digit_val base c with
              | Some _ => let '(v, rest) := scan_digits base p 0 in
                          Some (u32 (if (neg : bool) then - v else v), rest)
              | None => None end
  | [] => None
  end.

(** A number, then for each separator that character and another number: what
    was converted when all of it was. *)
Fixpoint scan_fmt (base : Z) (seps : list Z) (p : list Z) : option (list Z) :=
  match scan_uint base p with
  | None => None
  | Some (v, p) =>
    match seps with
    | [] => Some [v]
    | sep :: seps' =>
      match p with
      | c :: p' => if c =? sep then (fun l => v :: l) <$> scan_fmt base seps' p' else None
      | [] => None
      end
    end
  end.

Definition parse_mac (s : list Z) : option (list Z) :=
  fmap (M := list) u8 <$> scan_fmt 16 (replicate 5 COLON) s.

(** ** The configuration *)

Definition needle (key : string) : list Z := QUOTE :: bytes key ++ [QUOTE].

(** [find_val]: the string the array holds afterwards. *)
Definition find_val (buf : list Z) (key : string) (old : list Z) (maxlen : Z) : result (list Z) :=
  match strstr buf (needle key) with
  | None => Ok old
  | Some p =>
    p ← skip_ws (drop (length (needle key)) p);
    c ← deref p;
    if negb (c =? COLON) then Ok old else
    p ← skip_ws (tail p);
    o ← parse_string p maxlen;
    Ok (match o with Some (out, _) => out | None => old end)
  end.

(** [find_net_val]: the colon is optional. *)
Definition find_net_val (buf : list Z) (key : string) (old : list Z) (maxlen : Z) : result (list Z) :=
  match strstr buf (needle key) with
  | None => Ok old
  | Some p =>
    p ← skip_ws (drop (length (needle key)) p);
    c ← deref p;
    p ← (if c =? COLON then skip_ws (tail p) else Ok p);
    o ← parse_string p maxlen;
    Ok (match o with Some (out, _) => out | None => old end)
  end.

(** The start of the object after a key: just past the brace. *)
Definition find_object (buf : list Z) (key : string) : result (option (list Z)) :=
  match strstr buf (needle key) with
  | None => Ok None
  | Some p =>
    p ← skip_ws (drop (length (needle key)) p);
    c ← deref p;
    p ← (if c =? COLON then skip_ws (tail p) else Ok p);
    c ← deref p;
    Ok (if c =? LBRACE then Some p else None)
  end.

(** The [net] object: [tail_len] bytes of the file are left at [p]. *)
Definition parse_net (p : list Z) (tail_len : Z) (cfg : VmConfig) : result VmConfig :=
  let cfg := cfg <| cfg_has_net := true |> in
  let block_len := default tail_len (strchr p RBRACE) + 1 in
  if block_len <? 2048 then
    let net_block := take (Z.to_nat block_len) p ++ [0] in
    tap ← find_net_val net_block "tap" (cfg_tap cfg) SIZE_tap;
    ip ← find_net_val net_block "ip" (cfg_ip cfg) SIZE_ip;
    gw ← find_net_val net_block "gateway" (cfg_gateway cfg) SIZE_gateway;
    mac_str ← find_net_val net_block "mac" [] 32;
    let mac := match mac_str with [] => None | _ => parse_mac mac_str end in
    Ok (cfg <| cfg_tap := tap |> <| cfg_ip := ip |> <| cfg_gateway := gw |>
            <| cfg_mac := default (cfg_mac cfg) mac |>)
  else Ok cfg.

(** The loop over the [env] object; [None] is the fuel running out. *)
Fixpoint parse_env (fuel : nat) (p : list Z) (env : list (list Z * list Z)) : result (option (list (list Z * list Z))) :=
  c ← deref p;
  if (c =? 0) || (c =? RBRACE) || (MAX_ENV <=? Z.of_nat (length env)) then Ok (Some env) else
  match fuel with
  | O => Ok None
  | S fuel' =>
    p ← skip_ws p;
    c ← deref p;
    if c =? QUOTE then
      k ← parse_string p SIZE_env_key;
      match k with
      | None => Ok (Some env)
      | Some (key, p) =>
        p ← skip_ws p;
        c ← deref p;
        p ← (if c =? COLON then skip_ws (tail p) else Ok p);
        v ← parse_string p SIZE_env_val;
        match v with
        | None => Ok (Some env)
        | Some (val, p) =>
          p ← skip_ws p;
          c ← deref p;
          parse_env fuel' (if c =? COMMA then tail p else p) (env ++ [(key, val)])
        end
      end
    else parse_env fuel' (tail p) env
  end.

(** The body of [parse_config] on the buffer: the [n] bytes read, the
    terminator, and what the array held beyond it. *)
Definition parse_config_buf (n : Z) (buf : list Z) (cfg : VmConfig) : result (option VmConfig) :=
  rootfs ← find_val buf "rootfs" (cfg_rootfs cfg) SIZE_rootfs;
  entrypoint ← find_val buf "entrypoint" (cfg_entrypoint cfg) SIZE_entrypoint;
  hostname ← find_val buf "hostname" (cfg_hostname cfg) SIZE_hostname;
  let cfg := cfg <| cfg_rootfs := rootfs |> <| cfg_entrypoint := entrypoint |> <| cfg_hostname := hostname |> in
  net ← find_object buf "net";
  cfg ← match net with
        | None => Ok cfg
        | Some p => parse_net p (n - Z.of_nat (length buf - length p)) cfg
        end;
  env ← find_object buf "env";
  match env with
  | None => Ok (Some cfg)
  | Some p =>
    o ← parse_env (length buf) (tail p) (cfg_env cfg);
    Ok (match o with Some e => Some (cfg <| cfg_env := e |>) | None => None end)
  end.

Definition CONFIG_BUF : Z := 8192.

Section config.
  Context {H : Host}.

(** [stack] is what the uninitialised [buf] held. *)
Definition parse_config (stack path : list Z) (cfg : VmConfig) : M (option VmConfig) :=
  r ← sys (sys_open path false);
  if r_ret r <? 0 then mret None else
  f ← sys (sys_read (r_ret r) (CONFIG_BUF - 1));
  sys_ (sys_close (r_ret r)) ;;
  let data := take (Z.to_nat (Z.min (r_ret f) (CONFIG_BUF - 1))) (r_data f) in
  lift (parse_config_buf (Z.of_nat (length data)) (overlay stack (data ++ [0])) cfg).
End config.

(** ** The files in the share *)

(** [%02x]. *)
Definition fmt_02x (z : Z) : list Z := [digit (z / 16); digit (z mod 16)].

Fixpoint join (sep : list Z) (l : list (list Z)) : list Z :=
  match l with
  | [] => []
  | [x] => x
  | x :: l' => x ++ sep ++ join sep l'
  end.

Definition fmt_mac (mac : list Z) : list Z := join [COLON] (fmt_02x <$> mac).

Definition NL : list Z := [10].

(** A line written if the string is not empty. *)
Definition config_line (label : string) (v : list Z) : list Z :=
  match v with [] => [] | _ => bytes label ++ v ++ NL end.

Definition env_lines (e : list Z * list Z) : list Z :=
  bytes "export " ++ e.1 ++ bytes "=" ++ [QUOTE] ++ e.2 ++ [QUOTE] ++ NL ++
  bytes "ENV_" ++ e.1 ++ bytes "=" ++ [QUOTE] ++ e.2 ++ [QUOTE] ++ NL.

(** What is printed into [.vmconfig]. *)
Definition config_text (cfg : VmConfig) : list Z :=
  config_line "HOSTNAME=" (cfg_hostname cfg) ++
  config_line "NET_IP=" (cfg_ip cfg) ++
  config_line "NET_GW=" (cfg_gateway cfg) ++
  (if cfg_has_net cfg then bytes "NET_MAC=" ++ fmt_mac (cfg_mac cfg) ++ NL else []) ++
  mjoin (env_lines <$> cfg_env cfg).

Definition PATH_MAX : Z := 4096.

(** [snprintf(path, sizeof(path), "%s/name", share_dir)]. *)
Definition share_path (share_dir : list Z) (name : string) : list Z :=
  take (Z.to_nat (PATH_MAX - 1)) (share_dir ++ bytes name).

Section share.
  Context {H : Host}.

(** [share_dir] is [None] for a null pointer; the buffered writes of the second
    file reach it in one piece. *)
Definition write_config_to_share (share_dir : option (list Z)) (cfg : VmConfig) : M unit :=
  match share_dir with
  | None => skip
  | Some dir =>
    match cfg_entrypoint cfg with
    | [] => skip
    | entrypoint =>
      r ← sys (sys_open (share_path dir "/.entrypoint") true);
      when (0 <=? r_ret r) (
        sys_ (sys_write (r_ret r) entrypoint) ;;
        sys_ (sys_write (r_ret r) NL) ;;
        sys_ (sys_close (r_ret r)))
    end ;;
    r ← sys (sys_open (share_path dir "/.vmconfig") true);
    when (0 <=? r_ret r) (
      sys_ (sys_write (r_ret r) (config_text cfg)) ;;
      sys_ (sys_close (r_ret r)))
  end.
End share.
