(* ===== verification/ConfigFacts.v ===== *)
(** * Properties of the configuration reader

    Quoted strings are read back as they were written, every field stays within
    its array whatever the file holds, and the loop over the environment ends. *)
From S2P Require Import Prelude Memory Codec State Logic Snapshot Config.
From stdpp Require Import options.

(** ** Writing JSON strings *)

Definition esc (c : Z) : list Z :=
  if (c =? QUOTE) || (c =? BACKSLASH) then [BACKSLASH; c] else [c].

Definition json_quote (s : list Z) : list Z := QUOTE :: mjoin (esc <$> s) ++ [QUOTE].

Definition no_nul (s : list Z) : Prop := Forall (fun c => c <> 0) s.
Definition blank (s : list Z) : Prop := Forall (fun c => is_ws c = true) s.

Lemma is_ws_nonzero c : is_ws c = true -> c <> 0.
Proof. by intros E ->. Qed.

Lemma skip_ws_blank ws p c p' :
  blank ws -> p = c :: p' -> is_ws c = false -> skip_ws (ws ++ p) = Ok p.
Proof.
  intros Hw -> Hc. induction Hw as [|w ws Hw' _ IH]; cbn.
  - by rewrite Hc, andb_false_r.
  - rewrite Hw'. destruct (Z.eqb_spec w 0) as [->|]; [done|]. exact IH.
Qed.

(** The loop of [parse_string] reads an escaped string to its closing quote. *)
Lemma string_body_quoted s : forall room rest,
  no_nul s -> (length s <= room)%nat ->
  string_body room (mjoin (esc <$> s) ++ QUOTE :: rest) = Ok (s, QUOTE :: rest).
Proof.
  induction s as [|c s IH]; intros room rest Hn Hl.
  { by destruct room. }
  unfold no_nul in Hn. rewrite Forall_cons in Hn. destruct Hn as [Hc Hn]. destruct room as [|room]; [cbn in Hl; lia|].
  rewrite fmap_cons. change (mjoin (esc c :: ?l)) with (esc c ++ mjoin l). rewrite <- app_assoc.
  specialize (IH room rest Hn ltac:(cbn in Hl; lia)). unfold esc at 1.
  destruct (Z.eqb_spec c QUOTE) as [->|Hq]; [|destruct (Z.eqb_spec c BACKSLASH) as [->|Hb]]; cbn [orb app].
  - cbn [string_body deref mbind result_bind tail]. change (BACKSLASH =? 0) with false. change (BACKSLASH =? QUOTE) with false.
    change (BACKSLASH =? BACKSLASH) with true. change (QUOTE =? 0) with false. cbn [orb]. cbn [mbind result_bind].
    by rewrite IH.
  - cbn [string_body deref mbind result_bind tail]. change (BACKSLASH =? 0) with false. change (BACKSLASH =? QUOTE) with false.
    change (BACKSLASH =? BACKSLASH) with true. cbn [orb]. cbn [mbind result_bind].
    by rewrite IH.
  - cbn [string_body deref mbind result_bind tail].
    rewrite (proj2 (Z.eqb_neq c 0)), (proj2 (Z.eqb_neq c QUOTE)), (proj2 (Z.eqb_neq c BACKSLASH)) by done.
    cbn [orb mbind result_bind]. by rewrite IH.
Qed.

Lemma parse_string_quoted ws s rest maxlen :
  blank ws -> no_nul s -> Z.of_nat (length s) < maxlen ->
  parse_string (ws ++ json_quote s ++ rest) maxlen = Ok (Some (s, rest)).
Proof.
  intros Hw Hn Hl. unfold parse_string, json_quote. cbn [app].
  rewrite (skip_ws_blank ws _ QUOTE _ Hw eq_refl) by done.
  cbn [mbind result_bind deref tail]. change (QUOTE =? QUOTE) with true. cbn [negb].
  rewrite <- app_assoc. cbn [app]. rewrite string_body_quoted by (done || lia). done.
Qed.

Lemma parse_string_here s rest maxlen :
  no_nul s -> Z.of_nat (length s) < maxlen ->
  parse_string (json_quote s ++ rest) maxlen = Ok (Some (s, rest)).
Proof. intros. apply (parse_string_quoted []); [constructor|done|done]. Qed.

(** ** Looking up a key *)

Lemma starts_with_app p t : starts_with p (p ++ t) = true.
Proof. apply starts_with_spec. by exists t. Qed.

Lemma strstr_first nd pre rest :
  nd <> [] -> no_nul pre -> contains nd (pre ++ removelast nd) = false ->
  strstr (pre ++ nd ++ rest) nd = Some (nd ++ rest).
Proof.
  intros Hnd Hn. induction Hn as [|c pre Hc Hn IH]; intros Hno.
  { cbn [app]. pose proof (starts_with_app nd rest) as E. destruct (nd ++ rest); cbn [strstr]; by rewrite E. }
  cbn [app strstr]. destruct (starts_with nd (c :: pre ++ nd ++ rest)) eqn:E.
  - exfalso. apply starts_with_spec in E as [t Et].
    assert (Hl : (1 <= length nd)%nat) by (destruct nd; cbn; [done|lia]).
    assert (Hr : nd = removelast nd ++ [List.last nd 0]) by (by apply app_removelast_last).
    assert (Hrl : (length nd = length (removelast nd) + 1)%nat) by (rewrite Hr at 1; by rewrite length_app).
    assert (Hc' : contains nd ((c :: pre) ++ removelast nd) = true); [|congruence].
    apply contains_spec. exists [], (drop (length nd) ((c :: pre) ++ removelast nd)). cbn [app].
    rewrite <- (take_drop (length nd) (c :: pre ++ removelast nd)) at 1. f_equal.
    assert (E1 : c :: pre ++ nd ++ rest = (c :: pre ++ removelast nd) ++ List.last nd 0 :: rest).
    { rewrite Hr at 1. cbn [app]. by rewrite <- !app_assoc. }
    apply (f_equal (take (length nd))) in Et. rewrite take_app_length, E1 in Et.
    rewrite take_app_le in Et by (cbn; rewrite length_app; lia). exact Et.
  - rewrite (proj2 (Z.eqb_neq c 0) Hc). apply IH.
    destruct (contains nd (pre ++ removelast nd)) eqn:E2; [|done].
    apply contains_spec in E2 as (t & u & E2). rewrite <- Hno. symmetry. apply contains_spec.
    exists (c :: t), u. cbn. by rewrite E2.
Qed.

Lemma quote_head s rest : exists p, json_quote s ++ rest = QUOTE :: p.
Proof. unfold json_quote. cbn. eauto. Qed.

Lemma needle_nonempty key : needle key <> [].
Proof. done. Qed.

(** a string field is read as it was written.  Wherever ["key": "value"]
    stands in the file, with any white space around the colon and any characters
    in the value (quotes and backslashes escaped), and provided the quoted key
    does not occur before it, the value found is exactly the one written, if it
    fits its array. *)
Theorem config_field_found pre key ws1 ws2 v rest old maxlen :
  no_nul pre -> contains (needle key) (pre ++ removelast (needle key)) = false ->
  blank ws1 -> blank ws2 -> no_nul v -> Z.of_nat (length v) < maxlen ->
  find_val (pre ++ needle key ++ ws1 ++ [COLON] ++ ws2 ++ json_quote v ++ rest) key old maxlen = Ok v.
Proof.
  intros Hp Hno Hw1 Hw2 Hv Hl. unfold find_val.
  rewrite strstr_first by (done || apply needle_nonempty). rewrite drop_app_length.
  cbn [app]. rewrite (skip_ws_blank ws1 _ COLON _ Hw1 eq_refl) by done.
  cbn [mbind result_bind deref tail]. change (COLON =? COLON) with true. cbn [negb].
  destruct (quote_head v rest) as [p Ep]. rewrite (skip_ws_blank ws2 _ QUOTE p Hw2 Ep) by done.
  cbn [mbind result_bind].
  by rewrite parse_string_here.
Qed.

(** ** The environment *)

Definition env_entry (e : list Z * list Z) : list Z := json_quote e.1 ++ COLON :: json_quote e.2.

(** [{"K": "V", ..}] from after the opening brace. *)
Definition env_text (l : list (list Z * list Z)) : list Z := join [COMMA] (env_entry <$> l) ++ [RBRACE].

Definition env_ok (e : list Z * list Z) : Prop :=
  no_nul e.1 /\ Z.of_nat (length e.1) < SIZE_env_key /\ no_nul e.2 /\ Z.of_nat (length e.2) < SIZE_env_val.

Lemma env_text_cons e l : exists sep, env_text (e :: l) = env_entry e ++ sep ++ env_text l /\
  sep = match l with [] => [] | _ => [COMMA] end.
Proof. destruct l; eexists; (split; [|reflexivity]); unfold env_text; cbn; rewrite <- ?app_assoc; done. Qed.

Lemma parse_env_text l : forall fuel acc rest,
  Forall env_ok l -> (length l <= fuel)%nat -> Z.of_nat (length acc + length l) <= MAX_ENV ->
  parse_env fuel (env_text l ++ rest) acc = Ok (Some (acc ++ l)).
Proof.
  induction l as [|[k v] l IH]; intros fuel acc rest Hok Hf Hm.
  { cbn. rewrite app_nil_r. by destruct fuel. }
  rewrite Forall_cons in Hok. destruct Hok as [(Hk1 & Hk2 & Hv1 & Hv2) Hok]. cbn [fst snd] in *.
  destruct fuel as [|fuel]; [cbn in Hf; lia|].
  destruct (env_text_cons (k, v) l) as (sep & -> & Hsep). unfold env_entry. cbn [fst snd].
  repeat (rewrite <- app_assoc || cbn [app]).
  destruct (quote_head k (COLON :: json_quote v ++ sep ++ env_text l ++ rest)) as [p Ep].
  cbn [parse_env]. rewrite Ep. cbn [deref mbind result_bind]. change (QUOTE =? 0) with false.
  change (QUOTE =? RBRACE) with false. cbn [orb].
  rewrite (proj2 (Z.leb_gt MAX_ENV (Z.of_nat (length acc)))) by (cbn in Hm; lia).
  change (skip_ws (QUOTE :: p)) with (Ok (QUOTE :: p)). cbn [deref mbind result_bind].
  change (QUOTE =? QUOTE) with true. cbv iota. rewrite <- Ep.
  rewrite (parse_string_here k _ SIZE_env_key) by done. cbn [mbind result_bind].
  change (skip_ws (COLON :: ?q)) with (Ok (COLON :: q)). cbn [deref mbind result_bind tail].
  change (COLON =? COLON) with true. cbv iota.
  destruct (quote_head v (sep ++ env_text l ++ rest)) as [p2 Ep2]. rewrite Ep2.
  change (skip_ws (QUOTE :: p2)) with (Ok (QUOTE :: p2)). cbn [mbind result_bind]. rewrite <- Ep2.
  rewrite (parse_string_here v _ SIZE_env_val) by done. cbn [mbind result_bind].
  assert (Hnext : exists p3, skip_ws (sep ++ env_text l ++ rest) = Ok (sep ++ env_text l ++ rest) /\
    deref (sep ++ env_text l ++ rest) = Ok p3 /\
    (if p3 =? COMMA then tail (sep ++ env_text l ++ rest) else sep ++ env_text l ++ rest) = env_text l ++ rest).
  { subst sep. destruct l as [|e l]; [by exists RBRACE|by exists COMMA]. }
  destruct Hnext as (p3 & -> & Hd & Hn). cbn [mbind result_bind]. rewrite Hd. cbn [mbind result_bind]. rewrite Hn.
  rewrite IH; [by rewrite <- app_assoc|done|cbn in Hf; lia|]. rewrite length_app. cbn in Hm |- *. lia.
Qed.

(** an environment object is read back exactly, in order: up to 32 pairs
    whose names and values fit their arrays, whatever characters they hold and
    whatever follows the object. *)
Theorem env_object_roundtrip l rest :
  Forall env_ok l -> Z.of_nat (length l) <= MAX_ENV ->
  parse_env (length (env_text l ++ rest)) (env_text l ++ rest) [] = Ok (Some l).
Proof.
  intros Hok Hl. apply (parse_env_text l _ []); [done| |cbn; lia].
  rewrite length_app. assert (Hlen : (length l <= length (env_text l))%nat); [|lia].
  clear. unfold env_text. rewrite length_app. cbn. assert (forall l, (length l <= length (join [COMMA] (env_entry <$> l)) + 1)%nat) as Ha; [|apply Ha].
  intros l'. induction l' as [|e [|e' l'] IH]; cbn in *; [lia|lia|]. rewrite !length_app. cbn in *. lia.
Qed.

(** ** Bounds *)

Lemma bind_inv {A B} (r : result A) (k : A -> result B) b :
  (r ≫= k) = Ok b -> exists a, r = Ok a /\ k a = Ok b.
Proof. destruct r; cbn; [eauto|done]. Qed.

(** Take apart a run that ended well. *)
Ltac ok_inv :=
  repeat match goal with
  | Hx : (_ ≫= _) = Ok _ |- _ =>
      let a := fresh "a" in let Ha := fresh "Ha" in apply bind_inv in Hx as (a & Ha & Hx)
  | Hx : (let '(_, _) := ?p in _) = Ok _ |- _ => destruct p
  | Hx : Ok _ = Ok _ |- _ => injection Hx as Hx; subst
  | Hx : Fault _ = Ok _ |- _ => discriminate Hx
  end.

Lemma skip_ws_shorter p p' : skip_ws p = Ok p' -> (length p' <= length p)%nat.
Proof.
  induction p as [|c p IH]; cbn; [done|]. destruct (_ && _).
  - intros E. specialize (IH E). lia.
  - by intros [= <-].
Qed.

Lemma deref_nonempty p c : deref p = Ok c -> (length (tail p) < length p)%nat.
Proof. destruct p; cbn; [done|lia]. Qed.

Lemma tail_shorter {A} (p : list A) : (length (tail p) <= length p)%nat.
Proof. destruct p; cbn; lia. Qed.

Lemma string_body_bounds room : forall p out p',
  string_body room p = Ok (out, p') -> (length out <= room)%nat /\ (length p' <= length p)%nat.
Proof.
  induction room as [|room IH]; intros p out p' Hs; cbn [string_body] in Hs; ok_inv.
  - destruct (_ || _); injection Hs as <- <-; cbn; lia.
  - destruct (_ || _).
    { injection Hs as <- <-. cbn. lia. }
    ok_inv. apply IH in Ha1. pose proof (deref_nonempty _ _ Ha).
    assert (length l <= length (tail p))%nat.
    { destruct (_ =? BACKSLASH); ok_inv; [|lia].
      destruct (_ =? 0); ok_inv; [lia|apply tail_shorter]. }
    cbn. lia.
Qed.

Lemma parse_string_bounds p maxlen out p' :
  1 <= maxlen -> parse_string p maxlen = Ok (Some (out, p')) ->
  Z.of_nat (length out) < maxlen /\ (length p' < length p)%nat.
Proof.
  intros Hm Hs. unfold parse_string in Hs. ok_inv. destruct (negb _); [done|]. ok_inv.
  apply skip_ws_shorter in Ha. pose proof (deref_nonempty _ _ Ha0). apply string_body_bounds in Ha1 as [H1 H2].
  split; [lia|]. pose proof (tail_shorter l0). case_match; lia.
Qed.

(** A value read into an array, or left as it was. *)
Lemma parsed_value_bound p maxlen old o :
  1 <= maxlen -> Z.of_nat (length old) < maxlen -> parse_string p maxlen = Ok o ->
  Z.of_nat (length (match o with Some (out, _) => out | None => old end)) < maxlen.
Proof.
  intros Hm Hold Hp. destruct o as [[out p']|]; [|done]. by apply parse_string_bounds in Hp as [? _].
Qed.

Lemma find_val_bound buf key old maxlen v :
  1 <= maxlen -> Z.of_nat (length old) < maxlen -> find_val buf key old maxlen = Ok v ->
  Z.of_nat (length v) < maxlen.
Proof.
  intros Hm Hold Hf. unfold find_val in Hf. destruct (strstr _ _); ok_inv; [|done].
  destruct (negb _); ok_inv; [done|]. by eapply parsed_value_bound.
Qed.

Lemma find_net_val_bound buf key old maxlen v :
  1 <= maxlen -> Z.of_nat (length old) < maxlen -> find_net_val buf key old maxlen = Ok v ->
  Z.of_nat (length v) < maxlen.
Proof.
  intros Hm Hold Hf. unfold find_net_val in Hf. destruct (strstr _ _); ok_inv; [|done].
  by eapply parsed_value_bound.
Qed.

Lemma scan_fmt_length base seps p l : scan_fmt base seps p = Some l -> length l = S (length seps).
Proof.
  revert p l. induction seps as [|sep seps IH]; intros p l; cbn; destruct (scan_uint _ _) as [[v p']|]; try done.
  - by intros [= <-].
  - destruct p' as [|c p']; [done|]. destruct (_ =? _); [|done].
    destruct (scan_fmt base seps p') as [l'|] eqn:E; [|done]. intros [= <-]. cbn. by rewrite (IH _ _ E).
Qed.

Lemma parse_mac_length s m : parse_mac s = Some m -> length m = 6%nat.
Proof.
  unfold parse_mac. destruct (scan_fmt _ _ _) as [l|] eqn:E; [|done]. intros [= <-].
  rewrite length_fmap. by apply scan_fmt_length in E.
Qed.

(** Every string shorter than its array (so that its terminator fits), at most
    32 variables, a 6-byte address. *)
Record cfg_ok (c : VmConfig) : Prop := {
  co_rootfs : Z.of_nat (length (cfg_rootfs c)) < SIZE_rootfs;
  co_entrypoint : Z.of_nat (length (cfg_entrypoint c)) < SIZE_entrypoint;
  co_hostname : Z.of_nat (length (cfg_hostname c)) < SIZE_hostname;
  co_tap : Z.of_nat (length (cfg_tap c)) < SIZE_tap;
  co_ip : Z.of_nat (length (cfg_ip c)) < SIZE_ip;
  co_gateway : Z.of_nat (length (cfg_gateway c)) < SIZE_gateway;
  co_mac : length (cfg_mac c) = 6%nat;
  co_num_env : Z.of_nat (length (cfg_env c)) <= MAX_ENV;
  co_env : Forall (fun e => Z.of_nat (length e.1) < SIZE_env_key /\ Z.of_nat (length e.2) < SIZE_env_val) (cfg_env c);
}.

Lemma parse_net_ok p n c c' : cfg_ok c -> parse_net p n c = Ok c' -> cfg_ok c'.
Proof.
  intros [] Hp. unfold parse_net in Hp. destruct (_ <? 2048); ok_inv; [|by split].
  split; cbn -[parse_mac]; try assumption.
  - apply find_net_val_bound in Ha; [exact Ha|unfold SIZE_tap; lia|assumption].
  - apply find_net_val_bound in Ha0; [exact Ha0|unfold SIZE_ip; lia|assumption].
  - apply find_net_val_bound in Ha1; [exact Ha1|unfold SIZE_gateway; lia|assumption].
  - destruct a2 as [|x a2]; [assumption|].
    destruct (parse_mac (x :: a2)) as [l|] eqn:E; [|assumption]. by apply parse_mac_length in E.
Qed.

(** The loop over the environment ends within its fuel, and what it collects
    fits. *)
Lemma parse_env_ok fuel : forall p env o,
  Z.of_nat (length env) <= MAX_ENV ->
  Forall (fun e => Z.of_nat (length e.1) < SIZE_env_key /\ Z.of_nat (length e.2) < SIZE_env_val) env ->
  (length p <= fuel)%nat -> parse_env fuel p env = Ok o ->
  exists env', o = Some env' /\ Z.of_nat (length env') <= MAX_ENV /\
    Forall (fun e => Z.of_nat (length e.1) < SIZE_env_key /\ Z.of_nat (length e.2) < SIZE_env_val) env'.
Proof.
  induction fuel as [|fuel IH]; intros p env o Hl Hall Hf Hp; cbn [parse_env] in Hp; ok_inv.
  all: pose proof (deref_nonempty _ _ Ha) as Hne.
  { destruct p; cbn in *; lia. }
  destruct (_ || _ || _) eqn:Ec; [injection Hp as <-; by exists env|].
  apply orb_false_iff in Ec as [_ Ec%Z.leb_gt]. ok_inv. apply skip_ws_shorter in Ha0.
  destruct (a1 =? QUOTE).
  - ok_inv. destruct a2 as [[key p1]|]; [|injection Hp as <-; by exists env]. ok_inv.
    destruct a5 as [[val p2]|]; [|injection Hp as <-; by exists env]. ok_inv.
    apply parse_string_bounds in Ha2 as [Hk Hp1]; [|done]. apply parse_string_bounds in Ha6 as [Hv Hp2]; [|done].
    apply skip_ws_shorter in Ha3, Ha7.
    assert (length a4 <= length a2)%nat.
    { destruct (_ =? COLON); [apply skip_ws_shorter in Ha5; pose proof (tail_shorter a2); lia|by injection Ha5 as <-]. }
    apply IH in Hp; [done| | |].
    + rewrite length_app. cbn. unfold MAX_ENV in *. lia.
    + apply Forall_app_2; [done|]. by constructor.
    + pose proof (tail_shorter a5). destruct (_ =? COMMA); lia.
  - apply IH in Hp; [done|done|done|]. pose proof (deref_nonempty _ _ Ha1). lia.
Qed.

Lemma find_object_shorter buf key p : find_object buf key = Ok (Some p) -> (length p <= length buf)%nat.
Proof.
  intros Hf. unfold find_object in Hf. destruct (strstr buf (needle key)) as [q|] eqn:E; [|done]. ok_inv.
  assert (Hq : (length q <= length buf)%nat).
  { clear -E. revert E. induction buf as [|c buf IH]; cbn [strstr].
    - destruct (starts_with _ _); [by intros [= <-]|done].
    - destruct (starts_with _ _); [by intros [= <-]|]. destruct (c =? 0); [done|]. intros E%IH. cbn. lia. }
  apply skip_ws_shorter in Ha. rewrite length_drop in Ha.
  assert (length a1 <= length a)%nat.
  { destruct (_ =? COLON); [apply skip_ws_shorter in Ha1; pose proof (tail_shorter a); lia|by injection Ha1 as <-]. }
  destruct (_ =? LBRACE); [|done]. injection Hf as <-. lia.
Qed.

(** C38: whatever the file holds, if the reader does not run off its buffer it
    returns, and the configuration it returns is well formed: every string fits
    its array with its terminator, there are at most 32 environment variables,
    and the MAC address has 6 bytes. *)
Theorem config_well_formed n buf c o :
  cfg_ok c -> parse_config_buf n buf c = Ok o -> exists c', o = Some c' /\ cfg_ok c'.
Proof.
  intros Hc Hp. unfold parse_config_buf in Hp. ok_inv.
  assert (Hc1 : cfg_ok (c <| cfg_rootfs := a |> <| cfg_entrypoint := a0 |> <| cfg_hostname := a1 |>)).
  { destruct Hc. split; cbn; try assumption.
    - apply find_val_bound in Ha; [exact Ha|unfold SIZE_rootfs; lia|assumption].
    - apply find_val_bound in Ha0; [exact Ha0|unfold SIZE_entrypoint; lia|assumption].
    - apply find_val_bound in Ha1; [exact Ha1|unfold SIZE_hostname; lia|assumption]. }
  assert (Hc2 : cfg_ok a3). { destruct a2; [by eapply parse_net_ok|by injection Ha3 as <-]. }
  destruct a4 as [p|]; [|injection Hp as <-; by eexists]. ok_inv. destruct Hc2.
  apply find_object_shorter in Ha4. apply parse_env_ok in Ha5 as (env' & -> & He1 & He2); [|done|done|].
  - eexists. split; [done|]. by split.
  - pose proof (tail_shorter p). lia.
Qed.

(** ** Addresses *)

Lemma scan_byte b r c :
  0 <= b < 256 -> c = COLON -> scan_uint 16 (fmt_02x b ++ c :: r) = Some (b, c :: r).
Proof.
  intros Hb ->. assert (Hall : Forall (fun b => scan_uint 16 (fmt_02x b ++ COLON :: r) = Some (b, COLON :: r)) (seqZ 0 256)).
  { cbn [seqZ seq fmap list_fmap Z.to_nat]. repeat (constructor; [reflexivity|]). constructor. }
  rewrite Forall_forall in Hall. apply Hall, elem_of_seqZ. lia.
Qed.

Lemma scan_last_byte b : 0 <= b < 256 -> scan_uint 16 (fmt_02x b) = Some (b, []).
Proof.
  intros Hb. assert (Hall : Forall (fun b => scan_uint 16 (fmt_02x b) = Some (b, [])) (seqZ 0 256)).
  { cbn [seqZ seq fmap list_fmap Z.to_nat]. repeat (constructor; [reflexivity|]). constructor. }
  rewrite Forall_forall in Hall. apply Hall, elem_of_seqZ. lia.
Qed.

Lemma scan_mac mac : mac <> [] -> Forall byte_ok mac ->
  scan_fmt 16 (replicate (length mac - 1) COLON) (fmt_mac mac) = Some mac.
Proof.
  intros Hne Hb. induction Hb as [|b mac Hb Hmac IH]; [done|]. unfold byte_ok, fits in Hb. change (2 ^ 8) with 256 in Hb.
  destruct mac as [|b' mac].
  - unfold fmt_mac. cbn [fmap list_fmap join length Nat.sub replicate scan_fmt]. by rewrite scan_last_byte.
  - specialize (IH ltac:(done)). unfold fmt_mac in *.
    change (join [COLON] (fmt_02x <$> b :: b' :: mac)) with (fmt_02x b ++ COLON :: join [COLON] (fmt_02x <$> b' :: mac)).
    cbn [length Nat.sub] in *. rewrite Nat.sub_0_r in IH. cbn [replicate scan_fmt].
    rewrite scan_byte by done. change (COLON =? COLON) with true. cbv iota. by rewrite IH.
Qed.

(** a MAC address written into [.vmconfig] (six two-digit hexadecimal bytes
    with colons) is an address [parse_mac] reads back as the same six bytes. *)
Theorem mac_roundtrip mac :
  length mac = 6%nat -> Forall byte_ok mac -> parse_mac (fmt_mac mac) = Some mac.
Proof.
  intros Hl Hb. unfold parse_mac. pose proof (scan_mac mac ltac:(by destruct mac) Hb) as Hs.
  rewrite Hl in Hs. cbn [Nat.sub] in Hs. rewrite Hs. cbn. f_equal.
  clear -Hb. induction Hb as [|b l Hb _ IH]; [done|]. cbn. by rewrite wrap_id, IH.
Qed.

(** ** What the reader gets wrong *)

(** [{"env": { }, "hostname": "x"}]. *)
Definition blank_env_file : list Z :=
  LBRACE :: needle "env" ++ [COLON; 32; LBRACE; 32; RBRACE; COMMA; 32] ++
  needle "hostname" ++ [COLON; 32] ++ json_quote (bytes "x") ++ [RBRACE].

(** [{"env": { ], with nothing after the blank. *)
Definition cut_env_file : list Z := LBRACE :: needle "env" ++ [COLON; 32; LBRACE; 32].

(** After skipping blanks the loop over [env] does not look for the closing brace
    or the terminator again.  An empty object written with a blank inside makes
    it step over the brace and take the rest of the file for environment
    variables; a file that ends in blanks after the opening brace makes it step
    over the terminator: what it finds there is what the stack held, and without
    luck it runs off the buffer. *)
Theorem env_skips_closing_brace :
  (exists c, parse_config_buf (Z.of_nat (length blank_env_file)) (blank_env_file ++ [0]) VmConfig_init = Ok (Some c) /\
     cfg_env c = [(bytes "hostname", bytes "x")]) /\
  parse_config_buf (Z.of_nat (length cut_env_file)) (cut_env_file ++ [0]) VmConfig_init = Fault OutOfBounds.
Proof. split; [eexists; split; vm_compute; reflexivity|vm_compute; reflexivity]. Qed.
