(* ===== verification/Cleanup.v ===== *)
(** * Tearing a machine down

    [Vmm::cleanup] of src/src/vmm.cpp, the body of the destructor: stop the
    threads, then give back every descriptor, mapping and process. *)
From S2P Require Import Prelude Memory Codec State Logic RestoreFacts.
From stdpp Require Import options.

Section cleanup.
  Context {H : Host}.

(** [uint64_t one = 1; write(fd, &one, 8)] on an eventfd. *)
Definition wake (fd : Z) : M unit := sys_ (sys_write fd (le_enc 8 1)).

Definition close_vqs (vqs : list Virtqueue) : M unit :=
  for_each vqs (fun q => close_if_open (vq_kick_fd q) ;; close_if_open (vq_call_fd q)).

(** The network thread, then the descriptors of the network device. *)
Definition cleanup_net : M unit :=
  upd_net (fun d => d <| net_thread_stop_ := true |>) ;;
  d ← gets net_;
  when (0 <=? net_wakeup_fd_ d) (
    wake (net_wakeup_fd_ d) ;;
    when (net_thread_running_ d) (
      sys_ (sys_pthread_join ThNet) ;;
      upd_net (fun d => d <| net_thread_running_ := false |>)) ;;
    sys_ (sys_close (net_wakeup_fd_ d)) ;;
    upd_net (fun d => d <| net_wakeup_fd_ := -1 |>)) ;;
  close_if_open (vhost_fd_ d) ;;
  close_if_open (tap_fd_ d) ;;
  close_vqs (net_vqs_ d).

Definition cleanup_irq : M unit :=
  v ← gets vu_;
  when (irq_thread_running_ v) (
    upd_vu (fun v => v <| irq_thread_running_ := false |>) ;;
    when (0 <=? irq_wakeup_fd_ v) (wake (irq_wakeup_fd_ v)) ;;
    sys_ (sys_pthread_join ThIrq)) ;;
  close_if_open (irq_wakeup_fd_ v).

Definition cleanup_uffd : M unit :=
  u ← gets lazy_;
  when (uffd_running_ u) (
    upd_lazy (fun u => u <| uffd_running_ := false |>) ;;
    when (0 <=? uffd_wakeup_fd_ u) (wake (uffd_wakeup_fd_ u)) ;;
    sys_ (sys_pthread_join ThUffd)) ;;
  when (0 <=? uffd_wakeup_fd_ u) (
    sys_ (sys_close (uffd_wakeup_fd_ u)) ;;
    upd_lazy (fun u => u <| uffd_wakeup_fd_ := -1 |>)) ;;
  when (0 <=? uffd_ u) (
    sys_ (sys_close (uffd_ u)) ;;
    upd_lazy (fun u => u <| uffd_ := -1 |>)).

Definition cleanup_snap : M unit :=
  u ← gets lazy_;
  when (negb (snap_mmap_base_ u =? 0) && (0 <? snap_mmap_sz_ u)) (
    sys_ (sys_munmap (snap_mmap_base_ u) (snap_mmap_sz_ u)) ;;
    upd_lazy (fun u => u <| snap_mmap_base_ := 0 |> <| snap_mmap_sz_ := 0 |>)) ;;
  when (0 <=? snap_fd_ u) (
    sys_ (sys_close (snap_fd_ u)) ;;
    upd_lazy (fun u => u <| snap_fd_ := -1 |>)).

(** The VM itself, the vhost-user connection and the virtiofsd process. *)
Definition cleanup_vm : M unit :=
  s ← gets id;
  when (negb (kvm_run_addr_ s =? 0)) (sys_ (sys_munmap (kvm_run_addr_ s) (run_mmap_sz_ s))) ;;
  close_if_open (vcpu_fd_ s) ;;
  close_if_open (vm_fd_ s) ;;
  close_if_open (kvm_fd_ s) ;;
  when (negb (ram_ s =? 0) && negb (ram_ s =? -1)) (sys_ (sys_munmap (ram_ s) (ram_bytes_ s))) ;;
  close_if_open (ram_memfd_ s) ;;
  close_if_open (vu_sock_ (vu_ s)) ;;
  close_if_open (vu_backend_sock_ (vu_ s)) ;;
  close_vqs (vqs_ (fs_ s)) ;;
  when (0 <? virtiofsd_pid_ (vu_ s)) (
    sys_ (sys_kill (virtiofsd_pid_ (vu_ s))) ;;
    sys_ (sys_waitpid (virtiofsd_pid_ (vu_ s)))).

Definition cleanup : M unit :=
  cleanup_net ;;
  cleanup_irq ;;
  cleanup_uffd ;;
  cleanup_snap ;;
  cleanup_vm ;;
  modify (fun s => s <| kvm_run_addr_ := 0 |> <| vcpu_fd_ := -1 |> <| vm_fd_ := -1 |> <| kvm_fd_ := -1 |>
    <| ram_ := 0 |> <| ram_memfd_ := -1 |> <| cpuid_ := [] |>) ;;
  upd_net (fun d => d <| tap_fd_ := -1 |> <| vhost_fd_ := -1 |>) ;;
  upd_vu (fun v => v <| vu_sock_ := -1 |> <| vu_backend_sock_ := -1 |> <| virtiofsd_pid_ := -1 |>).
End cleanup.

(** ** What is given back *)

Definition closed (t : trace) : list Z :=
  omap (fun e => match e.1 with sys_close fd => Some fd | _ => None end) t.
Definition joined (t : trace) : list thread :=
  omap (fun e => match e.1 with sys_pthread_join th => Some th | _ => None end) t.
Definition unmapped (t : trace) : list (Z * Z) :=
  omap (fun e => match e.1 with sys_munmap a n => Some (a, n) | _ => None end) t.
Definition reaped (t : trace) : list Z :=
  omap (fun e => match e.1 with sys_waitpid pid => Some pid | _ => None end) t.

Definition vq_fds (vqs : list Virtqueue) : list Z := mjoin ((fun q => [vq_kick_fd q; vq_call_fd q]) <$> vqs).

(** The descriptors a machine owns, open or not. *)
Definition owned_fds (s : Vmm) : list Z :=
  [net_wakeup_fd_ (net_ s); vhost_fd_ (net_ s); tap_fd_ (net_ s)] ++ vq_fds (net_vqs_ (net_ s)) ++
  [irq_wakeup_fd_ (vu_ s); uffd_wakeup_fd_ (lazy_ s); uffd_ (lazy_ s); snap_fd_ (lazy_ s);
   vcpu_fd_ s; vm_fd_ s; kvm_fd_ s; ram_memfd_ s; vu_sock_ (vu_ s); vu_backend_sock_ (vu_ s)] ++
  vq_fds (vqs_ (fs_ s)).

Definition open_fds (l : list Z) : list Z := filter (Z.le 0) l.

Lemma open_fds_cons fd l : open_fds (fd :: l) = (if 0 <=? fd then [fd] else []) ++ open_fds l.
Proof.
  unfold open_fds. rewrite filter_cons. destruct (decide (0 <= fd)), (Z.leb_spec 0 fd); try lia; done.
Qed.

Lemma open_fds_app l1 l2 : open_fds (l1 ++ l2) = open_fds l1 ++ open_fds l2.
Proof. apply filter_app. Qed.
Global Arguments open_fds : simpl never.

(** A run that appended calls to the trace, seen through the four views. *)
Definition emits (s s' : Vmm) (cl : list Z) (jo : list thread) (un : list (Z * Z)) (re : list Z) : Prop :=
  exists t, trace_ s' = trace_ s ++ t /\ closed t = cl /\ joined t = jo /\ unmapped t = un /\ reaped t = re.

Lemma emits_refl s : emits s s [] [] [] [].
Proof. exists []. by rewrite app_nil_r. Qed.

Lemma emits_trans s1 s2 s3 c1 j1 u1 r1 c2 j2 u2 r2 :
  emits s1 s2 c1 j1 u1 r1 -> emits s2 s3 c2 j2 u2 r2 ->
  emits s1 s3 (c1 ++ c2) (j1 ++ j2) (u1 ++ u2) (r1 ++ r2).
Proof.
  intros (t1 & E1 & <- & <- & <- & <-) (t2 & E2 & <- & <- & <- & <-). exists (t1 ++ t2).
  unfold closed, joined, unmapped, reaped. rewrite E2, E1, app_assoc, !omap_app. done.
Qed.

Lemma emits_conv s s' c j u r c' j' u' r' :
  emits s s' c j u r -> c = c' -> j = j' -> u = u' -> r = r' -> emits s s' c' j' u' r'.
Proof. by intros ? <- <- <- <-. Qed.

Lemma emits_same s s' : trace_ s' = trace_ s -> emits s s' [] [] [] [].
Proof. intros E. exists []. by rewrite app_nil_r. Qed.

Section facts.
  Context {H : Host}.

(** A call whose effect on the views is known, then the rest. *)
Lemma wp_call c s (Q : unit -> Vmm -> Prop) :
  (forall t, (exists r, t = [(c, r)]) -> Q () (s <| trace_ ::= (fun t0 => t0 ++ t) |>)) -> wp (sys_ c) Q s.
Proof. intros HQ. wp_run. unwind. apply HQ. by eexists. Qed.

Lemma close_if_open_spec fd s :
  wp (close_if_open fd) (fun _ s' => only_trace s s' /\ emits s s' (open_fds [fd]) [] [] []) s.
Proof.
  unfold close_if_open. rewrite open_fds_cons. unfold when. apply wp_if; intros ->; rewrite app_nil_r.
  - apply wp_call. intros t [r ->]. split; [apply only_trace_upd|]. by exists [(sys_close fd, r)].
  - apply wp_skip. split; [apply only_trace_refl|apply emits_refl].
Qed.

Lemma close_vqs_spec vqs s :
  wp (close_vqs vqs) (fun _ s' => only_trace s s' /\ emits s s' (open_fds (vq_fds vqs)) [] [] []) s.
Proof.
  revert s. unfold close_vqs. induction vqs as [|q vqs IH]; intros s.
  { apply wp_skip. split; [apply only_trace_refl|apply emits_refl]. }
  cbn [for_each]. apply wp_bind, wp_bind. wp_use close_if_open_spec. intros _ s1 [Ht1 He1].
  wp_use close_if_open_spec. intros _ s2 [Ht2 He2]. wp_use IH. intros _ s3 [Ht3 He3].
  split; [by eapply only_trace_trans; [|eapply only_trace_trans]|].
  change (vq_fds (q :: vqs)) with ([vq_kick_fd q] ++ [vq_call_fd q] ++ vq_fds vqs). rewrite !open_fds_app.
  exact (emits_trans _ _ _ _ _ _ _ _ _ _ _ He1 (emits_trans _ _ _ _ _ _ _ _ _ _ _ He2 He3)).
Qed.

(** Calls of no interest to the views. *)
Definition quiet (c : syscall) : Prop :=
  match c with sys_close _ | sys_pthread_join _ | sys_munmap _ _ | sys_waitpid _ => False | _ => True end.

(** Reads off what a run of plain calls emitted. *)
Ltac emit_tac :=
  unwind; first [by apply emits_same|
    unfold emits; cbn; repeat rewrite <- app_assoc; eexists; (split; [reflexivity|]); split_and!; reflexivity].

(** Put together what successive steps emitted. *)
Ltac emits_chain He := eapply emits_conv; [exact He|..]; rewrite ?open_fds_app, ?open_fds_cons, ?app_nil_r, <- ?app_assoc; reflexivity.

Definition running (b : bool) (th : thread) : list thread := if b then [th] else [].

Lemma cleanup_net_spec s :
  wp cleanup_net (fun _ s' =>
    (exists d t, s' = s <| net_ := d |> <| trace_ := t |> /\ net_thread_stop_ d = true) /\
    emits s s' (open_fds ([net_wakeup_fd_ (net_ s); vhost_fd_ (net_ s); tap_fd_ (net_ s)] ++ vq_fds (net_vqs_ (net_ s))))
      (running ((0 <=? net_wakeup_fd_ (net_ s)) && net_thread_running_ (net_ s)) ThNet) [] []) s.
Proof.
  unfold cleanup_net. apply wp_bind. unfold upd_net at 1. apply wp_modify. intros s0 Hs0. cbv beta in Hs0.
  apply wp_bind, wp_gets, wp_bind.
  apply (wp_mono _ (fun _ s1 => (exists d t, s1 = s <| net_ := d |> <| trace_ := t |> /\ net_thread_stop_ d = true) /\
    emits s s1 (open_fds [net_wakeup_fd_ (net_ s)])
      (running ((0 <=? net_wakeup_fd_ (net_ s)) && net_thread_running_ (net_ s)) ThNet) [] [])).
  { rewrite open_fds_cons, app_nil_r. unfold wake. wp_run; subst s0; cbn in *.
    all: rewrite ?Hb, ?Hb0; cbn [andb running].
    all: split; [unwind; do 2 eexists; (split; [reflexivity|]); reflexivity|emit_tac]. }
  intros _ s1 [(d & t & E1 & Hd) He1]. apply wp_bind. wp_use close_if_open_spec. intros _ s2 [[t2 ->] He2].
  apply wp_bind. wp_use close_if_open_spec. intros _ s3 [[t3 ->] He3]. wp_use close_vqs_spec. intros _ s4 [[t4 ->] He4].
  split; [subst s1; do 2 eexists; by (split; [reflexivity|])|]. subst s0. cbn [net_ upd] in *.
  emits_chain (emits_trans _ _ _ _ _ _ _ _ _ _ _ He1 (emits_trans _ _ _ _ _ _ _ _ _ _ _ He2
    (emits_trans _ _ _ _ _ _ _ _ _ _ _ He3 He4))).
Qed.

Lemma cleanup_irq_spec s :
  wp cleanup_irq (fun _ s' =>
    (exists v t, s' = s <| vu_ := v |> <| trace_ := t |> /\ irq_thread_running_ v = false /\
       vu_sock_ v = vu_sock_ (vu_ s) /\ vu_backend_sock_ v = vu_backend_sock_ (vu_ s) /\
       virtiofsd_pid_ v = virtiofsd_pid_ (vu_ s)) /\
    emits s s' (open_fds [irq_wakeup_fd_ (vu_ s)]) (running (irq_thread_running_ (vu_ s)) ThIrq) [] []) s.
Proof.
  rewrite open_fds_cons. unfold cleanup_irq, wake. wp_run; try congruence; rewrite ?Hb, ?Hb0, ?Hb1; cbn [running].
  all: split; [|emit_tac].
  all: unwind; destruct s as [? ? ? ? ? ? ? ? ? ? ? ? ? ? ? ? ? ? []]; cbn in *; do 2 eexists; (split; [reflexivity|]); cbn.
  all: done.
Qed.

(** Only the demand-paging state and the trace differ. *)
Definition lazy_only (s s' : Vmm) (P : Uffd -> Prop) : Prop :=
  exists u t, s' = s <| lazy_ := u |> <| trace_ := t |> /\ P u.

Lemma lazy_only_trans s1 s2 s3 P Q :
  lazy_only s1 s2 P -> lazy_only s2 s3 Q -> lazy_only s1 s3 Q.
Proof. intros (u & t & -> & _) (u' & t' & -> & HQ). by exists u', t'. Qed.

(** [if (fd >= 0) { close(fd); .. }] on a member of that state. *)
Lemma close_lazy_spec fd f s :
  wp (when (0 <=? fd) (sys_ (sys_close fd) ;; upd_lazy f)) (fun _ s' =>
    lazy_only s s' (fun u => u = lazy_ s \/ u = f (lazy_ s)) /\ emits s s' (open_fds [fd]) [] [] []) s.
Proof.
  rewrite open_fds_cons. wp_run; rewrite Hb.
  - split; [|emit_tac]. unwind. exists (f (lazy_ s)). eexists. split; [reflexivity|by right].
  - split; [|apply emits_refl]. exists (lazy_ s), (trace_ s). split; [by destruct s|by left].
Qed.

Lemma stop_uffd_spec s :
  wp (when (uffd_running_ (lazy_ s)) (
        upd_lazy (fun u => u <| uffd_running_ := false |>) ;;
        when (0 <=? uffd_wakeup_fd_ (lazy_ s)) (wake (uffd_wakeup_fd_ (lazy_ s))) ;;
        sys_ (sys_pthread_join ThUffd))) (fun _ s' =>
    lazy_only s s' (fun u => u = (lazy_ s) <| uffd_running_ := false |>) /\
    emits s s' [] (running (uffd_running_ (lazy_ s)) ThUffd) [] []) s.
Proof.
  unfold wake. wp_run; rewrite Hb; cbn [running].
  1-2: split; [|emit_tac]; unwind; eexists _, _; by split; [reflexivity|].
  split; [|apply emits_refl]. exists (lazy_ s), (trace_ s). split; [by destruct s|].
  destruct s as [? ? ? ? ? ? ? ? ? ? ? ? ? ? ? ? ? ? ? []]. cbn in *. by subst.
Qed.

Lemma cleanup_uffd_spec s :
  wp cleanup_uffd (fun _ s' =>
    lazy_only s s' (fun u => uffd_running_ u = false /\
       snap_mmap_base_ u = snap_mmap_base_ (lazy_ s) /\ snap_mmap_sz_ u = snap_mmap_sz_ (lazy_ s) /\
       snap_fd_ u = snap_fd_ (lazy_ s)) /\
    emits s s' (open_fds [uffd_wakeup_fd_ (lazy_ s); uffd_ (lazy_ s)])
      (running (uffd_running_ (lazy_ s)) ThUffd) [] []) s.
Proof.
  unfold cleanup_uffd. apply wp_bind, wp_gets, wp_bind. wp_use stop_uffd_spec. intros _ s1 [Hl1 He1].
  apply wp_bind. wp_use close_lazy_spec. intros _ s2 [Hl2 He2]. wp_use close_lazy_spec. intros _ s3 [Hl3 He3].
  split.
  - destruct Hl1 as (u1 & t1 & -> & E1), Hl2 as (u2 & t2 & -> & E2), Hl3 as (u3 & t3 & -> & E3).
    exists u3, t3. split; [reflexivity|]. cbn in E2, E3. generalize dependent (lazy_ s). intros u0 E1 _ _ _.
    destruct E2 as [-> | ->], E3 as [-> | ->]; subst; done.
  - emits_chain (emits_trans _ _ _ _ _ _ _ _ _ _ _ He1 (emits_trans _ _ _ _ _ _ _ _ _ _ _ He2 He3)).
Qed.

(** The mapping of a snapshot file kept for demand paging. *)
Definition snap_mapping (u : Uffd) : list (Z * Z) :=
  if negb (snap_mmap_base_ u =? 0) && (0 <? snap_mmap_sz_ u) then [(snap_mmap_base_ u, snap_mmap_sz_ u)] else [].

Lemma cleanup_snap_spec s :
  wp cleanup_snap (fun _ s' =>
    lazy_only s s' (fun _ => True) /\
    emits s s' (open_fds [snap_fd_ (lazy_ s)]) [] (snap_mapping (lazy_ s)) []) s.
Proof.
  unfold cleanup_snap, snap_mapping. apply wp_bind, wp_gets, wp_bind.
  apply (wp_mono _ (fun _ s1 => lazy_only s s1 (fun _ => True) /\ emits s s1 [] []
    (if negb (snap_mmap_base_ (lazy_ s) =? 0) && (0 <? snap_mmap_sz_ (lazy_ s))
     then [(snap_mmap_base_ (lazy_ s), snap_mmap_sz_ (lazy_ s))] else []) [])).
  { wp_run; rewrite Hb; split; try emit_tac; unwind; destruct s; by eexists _, _. }
  intros _ s1 [Hl1 He1]. wp_use close_lazy_spec. intros _ s2 [Hl2 He2]. split.
  - destruct (lazy_only_trans _ _ _ _ _ Hl1 Hl2) as (u & t & -> & _). by eexists _, _.
  - emits_chain (emits_trans _ _ _ _ _ _ _ _ _ _ _ He1 He2).
Qed.

Definition vm_mappings (s : Vmm) : list (Z * Z) :=
  (if negb (kvm_run_addr_ s =? 0) then [(kvm_run_addr_ s, run_mmap_sz_ s)] else []) ++
  (if negb (ram_ s =? 0) && negb (ram_ s =? -1) then [(ram_ s, ram_bytes_ s)] else []).

Lemma unmap_if_spec (b : bool) a n s :
  wp (when b (sys_ (sys_munmap a n))) (fun _ s' => only_trace s s' /\
    emits s s' [] [] (if b then [(a, n)] else []) []) s.
Proof.
  unfold when. apply wp_if; intros ->.
  - apply wp_call. intros t [r ->]. split; [apply only_trace_upd|]. by exists [(sys_munmap a n, r)].
  - apply wp_skip. split; [apply only_trace_refl|apply emits_refl].
Qed.

Lemma reap_if_spec pid s :
  wp (when (0 <? pid) (sys_ (sys_kill pid) ;; sys_ (sys_waitpid pid))) (fun _ s' => only_trace s s' /\
    emits s s' [] [] [] (if 0 <? pid then [pid] else [])) s.
Proof.
  unfold when. apply wp_if; intros ->.
  - apply wp_bind, wp_call. intros t [r ->]. apply wp_call. intros t [r2 ->].
    split; [eapply only_trace_trans; apply only_trace_upd|].
    exists [(sys_kill pid, r); (sys_waitpid pid, r2)]. cbn. by rewrite <- app_assoc.
  - apply wp_skip. split; [apply only_trace_refl|apply emits_refl].
Qed.

(** Go through a step that only calls the host. *)
Ltac step_spec L := apply wp_bind; wp_use L;
  let s' := fresh "s" in let Ht := fresh "Ht" in let He := fresh "He" in
  intros _ s' [[? ->] He].

Lemma cleanup_vm_spec s :
  wp cleanup_vm (fun _ s' => only_trace s s' /\
    emits s s' (open_fds ([vcpu_fd_ s; vm_fd_ s; kvm_fd_ s; ram_memfd_ s; vu_sock_ (vu_ s); vu_backend_sock_ (vu_ s)] ++
                          vq_fds (vqs_ (fs_ s))))
      [] (vm_mappings s) (if 0 <? virtiofsd_pid_ (vu_ s) then [virtiofsd_pid_ (vu_ s)] else [])) s.
Proof.
  unfold cleanup_vm. apply wp_bind, wp_gets. cbn [id].
  step_spec unmap_if_spec. do 3 step_spec close_if_open_spec. step_spec unmap_if_spec.
  do 3 step_spec close_if_open_spec. step_spec close_vqs_spec.
  wp_use reap_if_spec. intros _ s' [[? ->] Hlast].
  split; [by eexists|]. unfold vm_mappings.
  emits_chain (emits_trans _ _ _ _ _ _ _ _ _ _ _ He (emits_trans _ _ _ _ _ _ _ _ _ _ _ He0
    (emits_trans _ _ _ _ _ _ _ _ _ _ _ He1 (emits_trans _ _ _ _ _ _ _ _ _ _ _ He2
    (emits_trans _ _ _ _ _ _ _ _ _ _ _ He3 (emits_trans _ _ _ _ _ _ _ _ _ _ _ He4
    (emits_trans _ _ _ _ _ _ _ _ _ _ _ He5 (emits_trans _ _ _ _ _ _ _ _ _ _ _ He6
    (emits_trans _ _ _ _ _ _ _ _ _ _ _ He7 Hlast))))))))).
Qed.

(** C40: tearing down gives everything back, once and in a safe order.  The calls
    made fall into two parts.  In the first, the running interrupt and paging
    threads are stopped and joined, and so is a running network thread if its
    wake-up descriptor could be created ([net_wakeup_fd_] not negative; if not, the
    code does not join it, and it outlives the RAM it uses); nothing is unmapped.
    In the second, the snapshot file, the shared vCPU page and guest RAM are
    unmapped and no thread is joined any more.  Over both
    parts the descriptors closed are exactly the open ones the machine owns, each
    once for each owner, and the virtiofsd process is waited for. *)
Theorem cleanup_gives_everything_back s :
  wp cleanup (fun _ s' => exists t1 t2, trace_ s' = trace_ s ++ t1 ++ t2 /\
    closed (t1 ++ t2) = open_fds (owned_fds s) /\
    joined t1 = running ((0 <=? net_wakeup_fd_ (net_ s)) && net_thread_running_ (net_ s)) ThNet ++
                running (irq_thread_running_ (vu_ s)) ThIrq ++ running (uffd_running_ (lazy_ s)) ThUffd /\
    unmapped t1 = [] /\ joined t2 = [] /\
    unmapped t2 = snap_mapping (lazy_ s) ++ vm_mappings s /\
    reaped (t1 ++ t2) = (if 0 <? virtiofsd_pid_ (vu_ s) then [virtiofsd_pid_ (vu_ s)] else []) /\
    Forall (fun fd => fd = -1) [kvm_fd_ s'; vm_fd_ s'; vcpu_fd_ s'; ram_memfd_ s'; tap_fd_ (net_ s');
      vhost_fd_ (net_ s'); vu_sock_ (vu_ s'); vu_backend_sock_ (vu_ s'); virtiofsd_pid_ (vu_ s')] /\
    ram_ s' = 0 /\ kvm_run_addr_ s' = 0) s.
Proof.
  unfold cleanup. apply wp_bind. wp_use cleanup_net_spec. intros _ s1 [(d1 & t1 & -> & _) He1].
  apply wp_bind. wp_use cleanup_irq_spec. intros _ s2 [(v2 & t2 & -> & _ & V1 & V2 & V3) He2].
  apply wp_bind. wp_use cleanup_uffd_spec. intros _ s3 [(u3 & t3 & -> & _ & U1 & U2 & U3) He3].
  apply wp_bind. wp_use cleanup_snap_spec. intros _ s4 [(u4 & t4 & -> & _) He4].
  apply wp_bind. wp_use cleanup_vm_spec. intros _ s5 [[t5 ->] He5].
  pose proof (emits_trans _ _ _ _ _ _ _ _ _ _ _ He1 (emits_trans _ _ _ _ _ _ _ _ _ _ _ He2 He3)) as (ta & Ea & A1 & A2 & A3 & A4).
  pose proof (emits_trans _ _ _ _ _ _ _ _ _ _ _ He4 He5) as (tb & Eb & B1 & B2 & B3 & B4).
  clear He1 He2 He3 He4 He5. cbn in Ea, Eb, A1, A2, A3, A4, B1, B2, B3, B4, V1, V2, V3, U1, U2, U3.
  wp_run. exists ta, tb. subst. cbn. rewrite <- app_assoc. split; [done|].
  unfold closed, reaped in *. rewrite !omap_app, A1, A4, B1, B4, A2, A3, B2, B3.
  unfold snap_mapping, vm_mappings, owned_fds. cbn. rewrite U1, U2, U3, V1, V2, V3.
  repeat rewrite ?open_fds_app, ?open_fds_cons. rewrite ?app_nil_r, <- ?app_assoc.
  split_and!; try done. by repeat constructor.
Qed.
End facts.
