(* ===== verification/Cli.v ===== *)
(** * The command line

    [find_arg], [has_flag], [main] with its three commands, of src/src/vmm.cpp,
    and [Vmm::start_virtiofsd] of src/src/virtio.cpp.  An argument is its bytes
    without the terminator.  A run that never comes back, because a loop has
    used up its fuel or because this process was replaced by [exec], is [None].
    Messages, and clock readings that only feed them, are left out. *)
From S2P Require Import Prelude Memory Codec State Logic Uart VirtioRegs VhostUserProto VirtioFs VirtioNet Snapshot SnapFile CopyWorkers Lazy Restore Run Boot Config Cleanup.
From stdpp Require Import options.

(** ** Arguments *)

(** The word after the first [flag], both after the program's name. *)
Fixpoint find_word (args : list (list Z)) (flag : list Z) : option (list Z) :=
  match args with
  | a :: ((b :: _) as args') => if decide (a = flag) then Some b else find_word args' flag
  | _ => None
  end.

Definition find_arg (argv : list (list Z)) (flag : string) : option (list Z) :=
  find_word (tail argv) (bytes flag).

Definition has_flag (argv : list (list Z)) (flag : string) : bool :=
  existsb (fun a => bool_decide (a = bytes flag)) (tail argv).

(** [atoi]: white space, a sign, digits; the value as a 32-bit [int]. *)
Definition atoi (s : list Z) : Z :=
  let '(neg, p) := scan_sign (skip_space s) in
  let v := (scan_digits 10 p 0).1 in
  let v := if (neg : bool) then - Z.min v (2 ^ 63) else Z.min v (2 ^ 63 - 1) in
  (v + 2 ^ 31) mod 2 ^ 32 - 2 ^ 31.

(** [(size_t)atoi(s)]. *)
Definition size_of_arg (s : list Z) : Z := u64 (atoi s).

(** ** Launching virtiofsd *)

(** [bind] through a result that may not come. *)
Definition bind_opt {A B} (c : M (option A)) (k : A -> M (option B)) : M (option B) :=
  o ← c;
  match o with
  | None => mret None
  | Some a => k a
  end.

Definition fmt_d (z : Z) : list Z := if z <? 0 then 45 :: fmt_u (- z) else fmt_u z.

Section commands.
  Context {H : Host}.

Definition sock_path (pid : Z) : list Z :=
  bytes "/tmp/vmtainer-vhost-" ++ fmt_d pid ++ bytes ".sock".

Definition start_virtiofsd (fuel : nat) (shared_dir : list Z) : M (option bool) :=
  p ← sys sys_getpid;
  let path := sock_path (r_ret p) in
  sys_ (sys_unlink path) ;;
  sys_ (sys_unlink (path ++ bytes ".pid")) ;;
  f ← sys sys_fork;
  upd_vu (fun v => v <| virtiofsd_pid_ := r_ret f |>) ;;
  if r_ret f <? 0 then mret (Some false) else
  if r_ret f =? 0 then
    s ← gets id;
    close_if_open (kvm_fd_ s) ;;
    close_if_open (vm_fd_ s) ;;
    close_if_open (vcpu_fd_ s) ;;
    close_if_open (ram_memfd_ s) ;;
    sys_ (sys_exec_virtiofsd path shared_dir) ;;
    sys_ (sys_exit 1) ;;
    mret None
  else
  bind_opt (vu_connect fuel) (fun ok =>
  if negb ok then mret (Some false) else
  ok ← vu_early_init;
  if negb ok then mret (Some false) else
  setup_virtio_fs false ;;
  mret (Some true)).

(** ** Commands *)

(** [Vmm vmm(ram_mb); ..]: the destructor runs on every way out. *)
Definition with_vmm (ram_mb : Z) (body : M (option Z)) : M (option Z) :=
  modify (fun s => (Vmm_new ram_mb) <| trace_ := trace_ s |>) ;;
  bind_opt body (fun rc => cleanup ;; mret (Some rc)).

(** [if (!..) return 1;] *)
Definition or_fail (c : M bool) (k : M (option Z)) : M (option Z) :=
  ok ← c;
  if (ok : bool) then k else mret (Some 1).

Definition exit_code (rc : Z) : Z := if 0 <=? rc then 0 else 1.

Definition default_mac : list Z := [0x52; 0x54; 0x00; 0x12; 0x34; 0x56].

(** The share, if there is one, and what is done with it. *)
Definition with_share (fuel : nat) (share_dir : option (list Z)) (after : M unit) (k : M (option Z)) : M (option Z) :=
  match share_dir with
  | None => k
  | Some dir =>
    bind_opt (start_virtiofsd fuel dir) (fun ok =>
      if negb ok then mret (Some 1) else after ;; k)
  end.

(** [boot]; [stack] is what the uninitialised registers of [setup_cpu] held. *)
Definition boot_run (fuel : nat) (snap_path : option (list Z)) : M (option Z) :=
  bind_opt (run fuel) (fun rc =>
  if rc =? 1 then
    match snap_path with
    | Some path =>
      bind_opt (save_snapshot_file fuel path) (fun ok =>
      if negb ok then mret (Some 1) else
      bind_opt (run fuel) (fun rc => mret (Some (exit_code rc))))
    | None => bind_opt (run fuel) (fun rc => mret (Some (exit_code rc)))
    end
  else mret (Some (exit_code rc))).

Definition boot_cmd (fuel : nat) (stack : list Z) (argv : list (list Z)) : M (option Z) :=
  match argv with
  | _ :: _ :: kernel :: initrd :: _ =>
    let ram_mb := match find_arg argv "--ram" with Some s => size_of_arg s | None => 64 end in
    with_vmm ram_mb (
      or_fail (init false) (
      with_share fuel (find_arg argv "--share") skip (
      setup_virtio_fs true ;;
      setup_virtio_net default_mac true ;;
      or_fail (prepare_guest stack kernel initrd) (
      boot_run fuel (find_arg argv "--snapshot")))))
  | _ => mret (Some 1)
  end.

(** The configuration of [restore] and [clone]; [None] is a [return 1]. *)
Definition read_config (buf : list Z) (argv : list (list Z)) : M (option VmConfig) :=
  match find_arg argv "--config" with
  | Some path => parse_config buf path VmConfig_init
  | None =>
    mret (Some (match find_arg argv "--entrypoint" with
                | Some e => VmConfig_init <| cfg_entrypoint := take (Z.to_nat (SIZE_entrypoint - 1)) e |>
                | None => VmConfig_init end))
  end.

Definition share_of (argv : list (list Z)) (cfg : VmConfig) : option (list Z) :=
  match find_arg argv "--share", cfg_rootfs cfg with
  | Some d, _ => Some d
  | None, [] => None
  | None, d => Some d
  end.

(** The memory size a snapshot was taken with, 64 if its header cannot be read. *)
Definition snapshot_ram_mb (path : list Z) : M Z :=
  r ← sys (sys_open path false);
  if r_ret r <? 0 then mret 64 else
  h ← sys (sys_read (r_ret r) sizeof_SnapshotHeader);
  sys_ (sys_close (r_ret r)) ;;
  let hdr := c_get SnapshotHeader_codec (r_data h) in
  mret (if (r_ret h =? sizeof_SnapshotHeader) && (h_magic hdr =? SNAP_MAGIC) then h_ram_mb hdr else 64).

(** [set_copy_threads], [set_hugetlb], [set_uffd], [set_midway_uffd] from the
    options of [restore]. *)
Definition restore_options (argv : list (list Z)) (s : Vmm) : Vmm :=
  let midway := has_flag argv "--midway-uffd" in
  let eager := has_flag argv "--no-uffd" in
  s <| copy_threads_ ::= (fun n => match find_arg argv "--copy-threads" with
                                   | Some c => if 0 <? atoi c then atoi c else 1
                                   | None => n end) |>
    <| use_hugetlb_ ::= (fun b => b || has_flag argv "--hugetlb") |>
    <| lazy_ ::= (fun u => u <| midway_uffd_ := midway |> <| use_uffd_ := negb midway && negb eager |>) |>.

(** [cfg.has_net && cfg.mac[0]]. *)
Definition restore_mac (cfg : VmConfig) : list Z :=
  if cfg_has_net cfg && negb (nth 0 (cfg_mac cfg) 0 =? 0) then cfg_mac cfg else default_mac.

(** The TAP device of the configuration, if it names one. *)
Definition connect_config_tap (cfg : VmConfig) : M bool :=
  if cfg_has_net cfg then
    match cfg_tap cfg with
    | [] => mret true
    | tap => connect_tap tap
    end
  else mret true.

(** [restore]: [buf] and [xsave] are what the uninitialised arrays held. *)
Definition restore_cmd (fuel : nat) (buf xsave : list Z) (argv : list (list Z)) : M (option Z) :=
  match argv with
  | _ :: _ :: snap_path :: _ =>
    cfg ← read_config buf argv;
    match cfg with
    | None => mret (Some 1)
    | Some cfg =>
      let share_dir := share_of argv cfg in
      write_config_to_share share_dir cfg ;;
      t0 ← sys sys_clock_gettime;
      ram_mb ← snapshot_ram_mb snap_path;
      with_vmm ram_mb (
        upd_con (fun c => c <| t_cmd_start_ := timespec_of t0 |> <| timing_entrypoint_ := true |>) ;;
        modify (restore_options argv) ;;
        or_fail (init false) (
        with_share fuel share_dir (setup_virtio_fs false ;; skip) (
        setup_virtio_net (restore_mac cfg) false ;;
        or_fail (connect_config_tap cfg) (
        or_fail (restore_snapshot_file xsave snap_path) (
        t ← sys sys_clock_gettime;
        upd_con (fun c => c <| t_vcpu_start_ := timespec_of t |>) ;;
        bind_opt (run fuel) (fun rc => mret (Some (exit_code rc))))))))
    end
  | _ => mret (Some 1)
  end.

(** ** Clones *)

(** The bytes a [read] delivered. *)
Definition got (r : reply) : list Z := take (Z.to_nat (r_ret r)) (r_data r).

(** [while (rd < size) { n = read(..); if (n <= 0) break; rd += n; }] *)
Fixpoint read_ram (fuel : nat) (fd : Z) (m : mem) (rd size : Z) : M (option mem) :=
  if rd <? size then
    match fuel with
    | O => mret None
    | S fuel' =>
      r ← sys (sys_read fd (size - rd));
      if r_ret r <=? 0 then mret (Some m)
      else read_ram fuel' fd (mem_set m rd (got r)) (rd + r_ret r) size
    end
  else mret (Some m).

(** The snapshot all clones start from: [Some None] is a [return 1].  Only the
    header's length is checked; [xsave] is what the array held before. *)
Definition read_golden (fuel : nat) (xsave path : list Z) : M (option (option Snapshot)) :=
  r ← sys (sys_open path false);
  let fd := r_ret r in
  if fd <? 0 then mret (Some None) else
  h ← sys (sys_read fd sizeof_SnapshotHeader);
  if negb (r_ret h =? sizeof_SnapshotHeader) then sys_ (sys_close fd) ;; mret (Some None) else
  let hdr := c_get SnapshotHeader_codec (r_data h) in
  x ← sys (sys_read fd (h_xsave_size hdr));
  if XSAVE_SIZE <? Z.of_nat (length (got x)) then fail_with OutOfBounds else
  let nent := Z.to_nat (h_cpuid_nent hdr) in
  c ← sys (sys_read fd (h_cpuid_nent hdr * sizeof_cpuid_entry));
  let cpuid := overlay (zeros (h_cpuid_nent hdr * sizeof_cpuid_entry)) (got c) in
  let nmsr := Z.to_nat (h_num_msrs hdr) in
  m ← sys (sys_read fd (h_num_msrs hdr * sizeof_msr_entry));
  let msrs := overlay (zeros (h_num_msrs hdr * sizeof_msr_entry)) (got m) in
  bm ← (if 0 <? h_bitmap_bytes hdr then
          b ← sys (sys_read fd (h_bitmap_bytes hdr));
          mret (overlay (zeros (h_bitmap_bytes hdr)) (got b))
        else mret []);
  let size := u64 (h_ram_mb hdr * 1048576) in
  a ← sys (sys_mmap_anon size);
  bind_opt (read_ram fuel fd mem_zero 0 size) (fun ram =>
  sys_ (sys_close fd) ;;
  mret (Some (Some {|
    sn_hdr := hdr; sn_xsave := overlay xsave (got x);
    sn_cpuid := array_get (craw (Z.to_nat sizeof_cpuid_entry)) nent cpuid;
    sn_msrs := array_get (craw (Z.to_nat sizeof_msr_entry)) nmsr msrs;
    sn_ram := ram; sn_ram_addr := r_ret a; sn_ram_size := size;
    sn_dirty_bitmap := bm |}))).

(** What distinguishes clone [i]: its MAC address, its TAP device, its address
    in [a.b.c.d/prefix]. *)
Definition clone_mac (cfg : VmConfig) (i : Z) : list Z :=
  if cfg_has_net cfg then take 5 (cfg_mac cfg) ++ [u8 (nth 5 (cfg_mac cfg) 0 + i)] else default_mac.

Definition clone_tap (i : Z) : list Z := take (Z.to_nat (SIZE_tap - 1)) (bytes "tap" ++ fmt_d i).

Definition DOT : Z := 46.
Definition SLASH : Z := 47.

Definition clone_ip (ip : list Z) (i : Z) : list Z :=
  match scan_fmt 10 [DOT; DOT; DOT; SLASH] ip with
  | Some [a; b; c; d; prefix] =>
    take (Z.to_nat (SIZE_ip - 1))
      (fmt_u a ++ [DOT] ++ fmt_u b ++ [DOT] ++ fmt_u c ++ [DOT] ++ fmt_u (u32 (d + i)) ++ [SLASH] ++ fmt_u prefix)
  | _ => ip
  end.

Definition clone_config (cfg : VmConfig) (i : Z) : VmConfig :=
  cfg <| cfg_tap := clone_tap i |> <| cfg_mac := clone_mac cfg i |> <| cfg_ip := clone_ip (cfg_ip cfg) i |>.

(** A child process, up to its [_exit]: no destructor runs. *)
Definition clone_child (fuel : nat) (golden : Snapshot) (cfg : VmConfig) (share_dir : option (list Z)) (i : Z) : M (option Z) :=
  modify (fun s => (Vmm_new (h_ram_mb (sn_hdr golden))) <| trace_ := trace_ s |>) ;;
  or_fail (init false) (
  with_share fuel share_dir (setup_virtio_fs false ;; skip) (
  when (cfg_has_net cfg) (
    when (match share_dir with Some _ => true | None => false end)
      (write_config_to_share share_dir (clone_config cfg i)) ;;
    connect_tap (clone_tap i) ;; skip) ;;
  setup_virtio_net (clone_mac cfg i) false ;;
  or_fail (restore_snapshot golden) (
  bind_opt (run fuel) (fun rc => mret (Some (exit_code rc)))))).

(** [for (i = 0; i < count; i++)]: forks, in the parent until one fails, in a
    child to its end. *)
Fixpoint clone_loop (fuel : nat) (golden : Snapshot) (cfg : VmConfig) (share_dir : option (list Z))
    (ids : list Z) (k : M (option Z)) : M (option Z) :=
  match ids with
  | [] => k
  | i :: ids' =>
    f ← sys sys_fork;
    if r_ret f <? 0 then mret (Some 1) else
    if r_ret f =? 0 then
      bind_opt (clone_child fuel golden cfg share_dir i) (fun code => sys_ (sys_exit code) ;; mret None)
    else clone_loop fuel golden cfg share_dir ids' k
  end.

Definition clone_cmd (fuel : nat) (buf xsave : list Z) (argv : list (list Z)) : M (option Z) :=
  match argv with
  | _ :: _ :: snap_path :: count :: _ =>
    let ids := seqZ 0 (atoi count) in
    cfg ← read_config buf argv;
    match cfg with
    | None => mret (Some 1)
    | Some cfg =>
      let share_dir := share_of argv cfg in
      write_config_to_share share_dir cfg ;;
      bind_opt (read_golden fuel xsave snap_path) (fun g =>
      match g with
      | None => mret (Some 1)
      | Some golden =>
        clone_loop fuel golden cfg share_dir ids (
          for_each ids (fun _ => sys_ sys_wait) ;;
          sys_ (sys_munmap (sn_ram_addr golden) (sn_ram_size golden)) ;;
          mret (Some 0))
      end)
    end
  | _ => mret (Some 1)
  end.

(** ** main *)

Definition main (fuel : nat) (sregs buf xsave : list Z) (argv : list (list Z)) : M (option Z) :=
  match argv with
  | _ :: cmd :: _ =>
    if decide (cmd = bytes "boot") then boot_cmd fuel sregs argv
    else if decide (cmd = bytes "restore") then restore_cmd fuel buf xsave argv
    else if decide (cmd = bytes "clone") then clone_cmd fuel buf xsave argv
    else mret (Some 1)
  | _ => mret (Some 1)
  end.
End commands.
