(* ===== verification/CliFacts.v ===== *)
(** * Properties of the command line

    Options are found where they are, every command ends with status 0 or 1,
    clones can be told apart on the network, and a clone starts from the very
    snapshot a restore would. *)
From S2P Require Import Prelude Memory Codec State Logic Uart VirtioRegs VhostUserProto VirtioFs VirtioNet Transport Snapshot SnapFile CopyWorkers Lazy Restore RestoreFacts Run Boot Config ConfigFacts Cleanup Cli.
From stdpp Require Import options.

(** ** Options *)

Lemma find_word_spec args flag v :
  find_word args flag = Some v <->
  exists pre post, args = pre ++ flag :: v :: post /\ flag ∉ pre.
Proof.
  induction args as [|a [|b args] IH].
  - split; [done|]. intros (pre & post & E & _). by destruct pre.
  - split; [done|]. intros (pre & post & E & _). by destruct pre as [|? []].
  - cbn [find_word]. destruct (decide (a = flag)) as [->|Hne].
    + split.
      * intros [= <-]. exists [], args. split; [done|]. apply not_elem_of_nil.
      * intros ([|x pre] & post & E & Hn); [by injection E as -> _|].
        injection E as -> E. exfalso. apply Hn. by left.
    + rewrite IH. split.
      * intros (pre & post & E & Hn). exists (a :: pre), post. rewrite E. split; [done|].
        rewrite not_elem_of_cons. split; [by intros ->|done].
      * intros ([|x pre] & post & E & Hn); [by injection E|].
        injection E as -> E. rewrite not_elem_of_cons in Hn. exists pre, post. split; [done|apply Hn].
Qed.

(** an option's value is the word right after its first occurrence among the
    arguments; an option given last, without a value, is not found. *)
Theorem find_arg_first prog args flag v :
  find_arg (prog :: args) flag = Some v <->
  exists pre post, args = pre ++ bytes flag :: v :: post /\ bytes flag ∉ pre.
Proof. apply find_word_spec. Qed.

(** ** Numbers *)

Definition digits10 (l : list Z) : Prop := Forall (fun c => 48 <= c <= 57) l.

Lemma digit_val_10 c : 48 <= c <= 57 -> digit_val 10 c = Some (c - 48).
Proof.
  intros Hc. unfold digit_val. rewrite (proj2 (Z.leb_le 48 c)), (proj2 (Z.leb_le c 57)) by lia. cbn [andb].
  by rewrite (proj2 (Z.ltb_lt (c - 48) 10)) by lia.
Qed.

Lemma digit_10 d : 0 <= d < 10 -> digit d = 48 + d.
Proof. intros Hd. unfold digit. by rewrite (proj2 (Z.ltb_lt d 10)) by lia. Qed.

(** Reading digits is Horner's rule, as long as the value fits 64 bits. *)
Definition horner (acc : Z) (l : list Z) : Z := foldl (fun a c => a * 10 + (c - 48)) acc l.

Lemma horner_grows l : forall acc, digits10 l -> 0 <= acc -> acc <= horner acc l.
Proof.
  induction l as [|c l IH]; intros acc Hl Ha; cbn; [lia|].
  unfold digits10 in Hl. rewrite Forall_cons in Hl. destruct Hl as [Hc Hl].
  specialize (IH (acc * 10 + (c - 48)) Hl ltac:(lia)). unfold horner in *. lia.
Qed.

Lemma scan_digits_horner l rest acc :
  digits10 l -> 0 <= acc -> horner acc l < 2 ^ 64 ->
  match rest with c :: _ => digit_val 10 c = None | [] => True end ->
  scan_digits 10 (l ++ rest) acc = (horner acc l, rest).
Proof.
  revert acc. induction l as [|c l IH]; intros acc Hl Ha Hb Hr.
  - cbn. destruct rest as [|c rest]; cbn; [done|]. by rewrite Hr.
  - unfold digits10 in Hl. rewrite Forall_cons in Hl. destruct Hl as [Hc Hl]. cbn [app scan_digits].
    rewrite digit_val_10 by done. cbn in Hb. fold (horner (acc * 10 + (c - 48)) l) in Hb.
    pose proof (horner_grows l (acc * 10 + (c - 48)) Hl ltac:(lia)).
    rewrite Z.min_l by lia. apply IH; [done|lia|done|done].
Qed.

Lemma fmt_digits_S fuel z acc :
  fmt_digits (S fuel) 10 z acc =
  if z / 10 =? 0 then digit (z mod 10) :: acc else fmt_digits fuel 10 (z / 10) (digit (z mod 10) :: acc).
Proof. reflexivity. Qed.

Lemma fmt_digits_spec fuel : forall z acc,
  0 <= z < 10 ^ Z.of_nat fuel -> digits10 acc -> (0 < fuel)%nat ->
  digits10 (fmt_digits fuel 10 z acc) /\
  horner 0 (fmt_digits fuel 10 z acc) = horner z acc /\
  exists c l, fmt_digits fuel 10 z acc = c :: l.
Proof.
  induction fuel as [|fuel IH]; intros z acc Hz Hacc Hf; [lia|]. rewrite fmt_digits_S.
  pose proof (Z.mod_pos_bound z 10 ltac:(lia)) as Hm. pose proof (Z.div_mod z 10) as Hdm.
  assert (Hacc' : digits10 (digit (z mod 10) :: acc)).
  { constructor; [rewrite digit_10 by lia; lia|done]. }
  assert (Hh : forall q, horner q (digit (z mod 10) :: acc) = horner (q * 10 + z mod 10) acc).
  { intros q. cbn. rewrite digit_10 by lia. f_equal. lia. }
  destruct (Z.eqb_spec (z / 10) 0) as [E|E].
  - split; [done|]. split; [|by do 2 eexists]. rewrite Hh. f_equal. lia.
  - destruct fuel as [|fuel].
    { exfalso. apply E. apply Z.div_small. cbn in Hz. lia. }
    destruct (IH (z / 10) (digit (z mod 10) :: acc)) as (H1 & H3 & H4); [|done|lia|].
    { split; [apply Z.div_pos; lia|]. apply Z.div_lt_upper_bound; [lia|].
      replace (Z.of_nat (S (S fuel))) with (1 + Z.of_nat (S fuel)) in Hz by lia.
      rewrite Z.pow_add_r in Hz by lia. lia. }
    split; [done|]. split; [|done].
    rewrite H3, Hh. f_equal. lia.
Qed.

Lemma fmt_u_digits z : 0 <= z < 2 ^ 64 ->
  digits10 (fmt_u z) /\ horner 0 (fmt_u z) = z /\ exists c l, fmt_u z = c :: l.
Proof.
  intros Hz. assert (Hlt : 2 ^ 64 < 10 ^ Z.of_nat 70) by (vm_compute; reflexivity).
  exact (fmt_digits_spec 70 z [] ltac:(lia) ltac:(constructor) ltac:(lia)).
Qed.

(** [%u] and [sscanf]'s [%u] are inverse on 32-bit numbers. *)
Lemma scan_uint_fmt_u z rest :
  fits 32 z -> match rest with c :: _ => digit_val 10 c = None | [] => True end ->
  scan_uint 10 (fmt_u z ++ rest) = Some (z, rest).
Proof.
  intros Hz Hr. unfold fits in Hz. destruct (fmt_u_digits z ltac:(lia)) as (Hd & Hh & c & l & E).
  pose proof (scan_digits_horner (fmt_u z) rest 0 Hd ltac:(lia) ltac:(lia) Hr) as Hs. rewrite Hh in Hs.
  rewrite E in *. unfold digits10 in Hd. rewrite Forall_cons in Hd. destruct Hd as [Hc _]. unfold scan_uint.
  assert (Hsp : skip_space ((c :: l) ++ rest) = (c :: l) ++ rest).
  { cbn. unfold is_space, is_ws. rewrite !(proj2 (Z.eqb_neq c _)) by lia. done. }
  rewrite Hsp. cbn [app scan_sign] in *. rewrite !(proj2 (Z.eqb_neq c _)) by lia.
  assert (H0x : skip_0x 10 (c :: l ++ rest) = c :: l ++ rest) by by destruct l, rest.
  rewrite H0x, digit_val_10 by done. rewrite Hs. by rewrite wrap_id.
Qed.

(** ** Clones on the network *)

Lemma fmt_d_nonneg z : 0 <= z -> fmt_d z = fmt_u z.
Proof. intros Hz. unfold fmt_d. by rewrite (proj2 (Z.ltb_ge z 0)). Qed.

Lemma fmt_u_inj x y : fits 32 x -> fits 32 y -> fmt_u x = fmt_u y -> x = y.
Proof.
  intros Hx Hy E. pose proof (scan_uint_fmt_u x [] Hx I) as E1. pose proof (scan_uint_fmt_u y [] Hy I) as E2.
  rewrite E in E1. rewrite E1 in E2. by injection E2.
Qed.

(** The number of digits of a number below a power of ten. *)
Lemma fmt_digits_length fuel : forall z acc k,
  0 <= z < 10 ^ Z.of_nat k -> (0 < k <= fuel)%nat ->
  (length (fmt_digits fuel 10 z acc) <= k + length acc)%nat.
Proof.
  induction fuel as [|fuel IH]; intros z acc k Hz Hk; [lia|]. rewrite fmt_digits_S.
  destruct (Z.eqb_spec (z / 10) 0) as [E|E]; [cbn; lia|].
  destruct k as [|[|k]]; [lia| |].
  { exfalso. apply E, Z.div_small. cbn in Hz. lia. }
  specialize (IH (z / 10) (digit (z mod 10) :: acc) (S k)). cbn in IH |- *. etrans; [apply IH|lia]; [|lia].
  split; [apply Z.div_pos; lia|]. apply Z.div_lt_upper_bound; [lia|].
  replace (Z.of_nat (S (S k))) with (1 + Z.of_nat (S k)) in Hz by lia. rewrite Z.pow_add_r in Hz by lia. lia.
Qed.

Lemma fmt_u_length z k : 0 <= z < 10 ^ Z.of_nat k -> (0 < k <= 70)%nat -> (length (fmt_u z) <= k)%nat.
Proof. intros Hz Hk. pose proof (fmt_digits_length 70 z [] k Hz Hk) as Hl. cbn in Hl. unfold fmt_u. lia. Qed.

(** clones can be told apart.  Of the first 256 clones of a networked
    configuration no two share a MAC address, and no two clones at all share the
    name of a TAP device; the MAC addresses differ only in their last byte. *)
Theorem clones_distinct cfg i j :
  cfg_has_net cfg = true -> length (cfg_mac cfg) = 6%nat -> i <> j ->
  (0 <= i < 256 -> 0 <= j < 256 ->
     clone_mac cfg i <> clone_mac cfg j /\ take 5 (clone_mac cfg i) = take 5 (clone_mac cfg j)) /\
  (0 <= i < 2 ^ 31 -> 0 <= j < 2 ^ 31 -> clone_tap i <> clone_tap j).
Proof.
  intros Hn Hl Hij. split.
  - intros Hi Hj. unfold clone_mac. rewrite Hn. split.
    + intros E. apply app_inv_head in E. injection E as E. unfold wrap in E.
      set (b := nth 5 (cfg_mac cfg) 0) in E. change (2 ^ 8) with 256 in E.
      pose proof (Z.div_mod (b + i) 256). pose proof (Z.div_mod (b + j) 256). lia.
    + rewrite !take_app_le by (rewrite length_take; lia). done.
  - intros Hi Hj. unfold clone_tap. rewrite !fmt_d_nonneg by lia.
    assert (Hlen : forall z, 0 <= z < 2 ^ 31 -> (length (bytes "tap" ++ fmt_u z) <= Z.to_nat (SIZE_tap - 1))%nat).
    { intros z Hz. rewrite length_app. pose proof (fmt_u_length z 10 ltac:(cbn; lia) ltac:(lia)).
      change (length (bytes "tap")) with 3%nat. unfold SIZE_tap. lia. }
    rewrite !take_ge by auto. intros E%app_inv_head. apply Hij, fmt_u_inj; unfold fits; [lia|lia|done].
Qed.

(** Beyond 256 clones the last byte wraps around. *)
Theorem clone_mac_wraps cfg i : clone_mac cfg (i + 256) = clone_mac cfg i.
Proof.
  unfold clone_mac. destruct (cfg_has_net cfg); [|done]. do 2 f_equal. unfold wrap.
  rewrite Z.add_assoc. change 256 with (1 * 2 ^ 8) at 1. apply Z.mod_add. lia.
Qed.

(** a clone's address is the configured one, moved by its number: reading
    the address written for clone [i] gives the four parts and the prefix of the
    configured address with [i] added to the last part. *)
Theorem clone_ip_shifted ip i a b c d prefix :
  scan_fmt 10 [DOT; DOT; DOT; SLASH] ip = Some [a; b; c; d; prefix] ->
  Forall (fun x => 0 <= x < 1000) [a; b; c; prefix] -> 0 <= d + i < 2 ^ 32 ->
  scan_fmt 10 [DOT; DOT; DOT; SLASH] (clone_ip ip i) = Some [a; b; c; d + i; prefix].
Proof.
  intros Hs Hb Hd. unfold clone_ip. rewrite Hs. rewrite !Forall_cons in Hb. destruct Hb as (Ha & Hb & Hc & Hp & _).
  rewrite wrap_id by done.
  assert (H3 : forall x, 0 <= x < 1000 -> fits 32 x /\ (length (fmt_u x) <= 3)%nat).
  { intros x Hx. split; [unfold fits; lia|]. apply (fmt_u_length x 3); [cbn; lia|lia]. }
  destruct (H3 a Ha), (H3 b Hb), (H3 c Hc), (H3 prefix Hp).
  pose proof (fmt_u_length (d + i) 10 ltac:(cbn; lia) ltac:(lia)).
  rewrite take_ge by (unfold SIZE_ip; rewrite !length_app; cbn [length]; lia).
  cbn [app scan_fmt]. rewrite scan_uint_fmt_u by done. change (DOT =? DOT) with true. cbv iota.
  rewrite scan_uint_fmt_u by done. change (DOT =? DOT) with true. cbv iota.
  rewrite scan_uint_fmt_u by done. change (DOT =? DOT) with true. cbv iota.
  rewrite scan_uint_fmt_u by (done || unfold fits; lia). change (SLASH =? SLASH) with true. cbv iota.
  rewrite <- (app_nil_r (fmt_u prefix)), scan_uint_fmt_u by done. done.
Qed.

(** ** Exit status *)

(** Not in conflict with a status of 0 or 1. *)
Definition status_ok (o : option Z) : Prop := forall rc, o = Some rc -> rc = 0 \/ rc = 1.

Lemma status_some rc : rc = 0 \/ rc = 1 -> status_ok (Some rc).
Proof. by intros Hrc ? [= <-]. Qed.

Lemma status_exit_code rc : status_ok (Some (exit_code rc)).
Proof. apply status_some. unfold exit_code. destruct (0 <=? rc); auto. Qed.

Section facts.
  Context {H : Host}.

(** A program all of whose results are good statuses. *)
Definition good (c : M (option Z)) : Prop := forall s, wlp c (fun o _ => status_ok o) s.

Lemma good_ret o : status_ok o -> good (mret o).
Proof. by intros Ho s. Qed.

Lemma good_bind {A} (c : M A) (k : A -> M (option Z)) : (forall a, good (k a)) -> good (c ≫= k).
Proof.
  intros Hk s. apply wlp_bind, wlp_ok. intros a s' _. apply Hk.
Qed.

Lemma good_bind_opt {A} (c : M (option A)) (k : A -> M (option Z)) : (forall a, good (k a)) -> good (bind_opt c k).
Proof. intros Hk. apply good_bind. intros [a|]; [apply Hk|by apply good_ret]. Qed.

Lemma good_or_fail c k : good k -> good (or_fail c k).
Proof. intros Hk. apply good_bind. intros [|]; [done|]. apply good_ret, status_some. auto. Qed.

Lemma good_fault f : good (fail_with f).
Proof. by intros s. Qed.

Lemma good_with_share fuel dir after k : good k -> good (with_share fuel dir after k).
Proof.
  intros Hk. destruct dir as [d|]; [|done]. apply good_bind_opt. intros [|]; cbn.
  - by apply good_bind.
  - apply good_ret, status_some. auto.
Qed.

Lemma good_with_vmm mb (body : M (option Z)) : good body -> good (with_vmm mb body).
Proof.
  intros Hb. apply good_bind. intros _ s. apply wlp_bind. eapply wlp_mono; [apply Hb|].
  cbv beta. intros [rc|] s' Hrc; [|done]. apply wlp_bind, wlp_ok. intros _ s'' _. exact Hrc.
Qed.

Lemma good_run fuel : good (bind_opt (run fuel) (fun rc => mret (Some (exit_code rc)))).
Proof. apply good_bind_opt. intros rc. apply good_ret, status_exit_code. Qed.

Lemma good_clone_loop fuel golden cfg share ids k : good k -> good (clone_loop fuel golden cfg share ids k).
Proof.
  intros Hk. induction ids as [|i ids IH]; [done|]. cbn [clone_loop]. apply good_bind. intros f.
  destruct (r_ret f <? 0); [apply good_ret, status_some; auto|].
  destruct (r_ret f =? 0); [|done]. apply good_bind_opt. intros code. apply good_bind. intros _. by apply good_ret.
Qed.

Lemma good_boot_cmd fuel stack argv : good (boot_cmd fuel stack argv).
Proof.
  assert (H1 : good (mret (Some 1))) by (apply good_ret, status_some; auto).
  destruct argv as [|a [|b [|kernel [|initrd argv]]]]; try done. cbn [boot_cmd].
  apply good_with_vmm, good_or_fail, good_with_share. apply good_bind. intros _. apply good_bind. intros _.
  apply good_or_fail, good_bind_opt. intros rc. destruct (rc =? 1); [|apply good_ret, status_exit_code].
  destruct (find_arg _ "--snapshot"); [|apply good_run]. apply good_bind_opt. intros [|]; [apply good_run|done].
Qed.

Lemma good_restore_cmd fuel buf xsave argv : good (restore_cmd fuel buf xsave argv).
Proof.
  assert (H1 : good (mret (Some 1))) by (apply good_ret, status_some; auto).
  destruct argv as [|a [|b [|path argv]]]; try done. cbn [restore_cmd]. apply good_bind. intros [cfg|]; [|done].
  do 3 (apply good_bind; intros ?). apply good_with_vmm. do 2 (apply good_bind; intros ?).
  apply good_or_fail, good_with_share, good_bind. intros _. apply good_or_fail, good_or_fail.
  do 2 (apply good_bind; intros ?). apply good_run.
Qed.

Lemma good_clone_cmd fuel buf xsave argv : good (clone_cmd fuel buf xsave argv).
Proof.
  assert (H1 : good (mret (Some 1))) by (apply good_ret, status_some; auto).
  destruct argv as [|a [|b [|path [|count argv]]]]; try done. cbn [clone_cmd]. apply good_bind. intros [cfg|]; [|done].
  apply good_bind. intros _. apply good_bind_opt. intros [golden|]; [|done].
  apply good_clone_loop. do 2 (apply good_bind; intros ?). apply good_ret, status_some. auto.
Qed.

(** whatever the arguments, the files and the guest, a command that ends
    with a status ends with 0 or 1. *)
Theorem main_exit_status fuel sregs buf xsave argv s :
  wlp (main fuel sregs buf xsave argv) (fun o _ => forall rc, o = Some rc -> rc = 0 \/ rc = 1) s.
Proof.
  assert (H1 : good (mret (Some 1))) by (apply good_ret, status_some; auto).
  revert s. change (good (main fuel sregs buf xsave argv)). unfold main.
  destruct argv as [|prog [|cmd argv]]; [done|done|].
  repeat case_decide; [apply good_boot_cmd|apply good_restore_cmd|apply good_clone_cmd|done].
Qed.

(** ** The snapshot of the clones *)

(** How far a descriptor has been read. *)
Definition read_pos (fd : Z) (t : trace) : Z :=
  foldr Z.add 0 ((fun e => match e.1 with
    | sys_read fd' _ => if fd' =? fd then Z.max 0 (r_ret e.2) else 0
    | _ => 0 end) <$> t).

Lemma read_pos_app fd t1 t2 : read_pos fd (t1 ++ t2) = read_pos fd t1 + read_pos fd t2.
Proof. unfold read_pos. rewrite fmap_app. induction (_ <$> t1) as [|x l IH]; cbn; [done|]. rewrite IH. lia. Qed.

Global Arguments read_pos : simpl never.

(** Reads of [fd] deliver the file from where the last one ended. *)
Definition serves_stream (fd : Z) (file : list Z) : Prop :=
  forall t n, let r := reply_of t (sys_read fd n) in
    r_data r = take (Z.to_nat n) (drop (Z.to_nat (read_pos fd t)) file) /\
    r_ret r = Z.of_nat (length (r_data r)).

Lemma wp_stream fd pre chunk rest n s (Q : reply -> Vmm -> Prop) :
  serves_stream fd (pre ++ chunk ++ rest) -> read_pos fd (trace_ s) = Z.of_nat (length pre) ->
  n = Z.of_nat (length chunk) ->
  (forall r s', r_data r = chunk -> got r = chunk -> r_ret r = n ->
     read_pos fd (trace_ s') = Z.of_nat (length (pre ++ chunk)) -> Q r s') ->
  wp (sys (sys_read fd n)) Q s.
Proof.
  intros Hs Hp -> HQ. apply wp_sys. intros r s' Hr ->.
  destruct (Hs (trace_ s) (Z.of_nat (length chunk))) as [Hd Hret]. rewrite <- Hr in Hd, Hret.
  rewrite Hp, !Nat2Z.id, drop_app_length, take_app_length in Hd. rewrite Hd in Hret.
  apply HQ; [done| |done|].
  - unfold got. rewrite Hret, Nat2Z.id, Hd. apply firstn_all.
  - cbn. rewrite read_pos_app, Hp. unfold read_pos. cbn. rewrite Z.eqb_refl, Hret, length_app. lia.
Qed.

Lemma pos_snoc fd t c r :
  (match c with sys_read fd' _ => fd' <> fd | _ => True end) -> read_pos fd (t ++ [(c, r)]) = read_pos fd t.
Proof.
  intros Hc. rewrite read_pos_app. assert (E : read_pos fd [(c, r)] = 0); [|lia].
  unfold read_pos. cbn. destruct c; try done. by rewrite (proj2 (Z.eqb_neq _ _) Hc).
Qed.

Lemma read_ram_stream fuel fd pre ram size s :
  serves_stream fd (pre ++ mem_get ram 0 size) -> read_pos fd (trace_ s) = Z.of_nat (length pre) ->
  0 <= size -> (0 < fuel)%nat ->
  wp (read_ram fuel fd mem_zero 0 size) (fun o _ =>
    exists m, o = Some m /\ forall x, 0 <= x < size -> m x = ram x) s.
Proof.
  intros Hs Hp H0 Hf. destruct fuel as [|fuel]; [lia|]. cbn [read_ram].
  destruct (Z.ltb_spec 0 size) as [Hlt|Hge].
  - apply wp_bind. rewrite <- (app_nil_r (mem_get ram 0 size)) in Hs.
    apply (wp_stream fd pre (mem_get ram 0 size) []); [done|done|rewrite mem_get_length; lia|].
    intros r s' _ Hg Hr _. rewrite Hr, Hg. destruct (Z.leb_spec (size - 0) 0); [lia|].
    replace (0 + (size - 0)) with size by lia.
    assert (E : read_ram fuel fd (mem_set mem_zero 0 (mem_get ram 0 size)) size size =
      mret (Some (mem_set mem_zero 0 (mem_get ram 0 size)))).
    { destruct fuel; cbn [read_ram]; by rewrite (proj2 (Z.ltb_ge size size)). }
    rewrite E. apply wp_ret. eexists. split; [done|]. intros x Hx.
    rewrite mem_set_inside by (rewrite mem_get_length; lia). apply nth_lookup_Some.
    rewrite mem_get_lookup by lia. do 2 f_equal. lia.
  - apply wp_ret. eexists. split; [done|]. lia.
Qed.

Lemma snapshot_eq_sym a b : snapshot_eq a b -> snapshot_eq b a.
Proof.
  intros (E1 & E2 & E3 & E4 & E5 & E6 & E7). unfold snapshot_eq. rewrite <- E6. split_and!; try done.
  intros x Hx. symmetry. by apply E7.
Qed.

Lemma snapshot_eq_trans a b c : snapshot_eq a b -> snapshot_eq b c -> snapshot_eq a c.
Proof.
  intros (E1 & E2 & E3 & E4 & E5 & E6 & E7) (F1 & F2 & F3 & F4 & F5 & F6 & F7). unfold snapshot_eq.
  split_and!; try congruence. intros x Hx. rewrite E7 by done. apply F7. by rewrite <- E6.
Qed.

Lemma read_golden_stream fuel xsave path fd snap s :
  Snapshot_ok snap -> h_ram_mb (sn_hdr snap) * 1048576 < 2 ^ 64 -> Z.of_nat (length xsave) = XSAVE_SIZE ->
  (forall t, r_ret (reply_of t (sys_open path false)) = fd) -> 0 <= fd ->
  serves_stream fd (snapshot_image snap) -> read_pos fd (trace_ s) = 0 -> (0 < fuel)%nat ->
  wp (read_golden fuel xsave path) (fun o _ => exists g, o = Some (Some g) /\ snapshot_eq g snap) s.
Proof.
  intros (Hh & Hxs & Hxl & Hcn & Hce & Hmn & Hme & Hbn & Hrs) Hmb Hst Ho Hfd Hstr Hp Hf.
  destruct (craw_array 40 _ Hce) as [Hcg Hcl]. destruct (craw_array 16 _ Hme) as [Hmg Hml].
  unfold read_golden. apply wp_bind, wp_sys. intros r s1 Hr ->. rewrite Hr, Ho.
  rewrite (proj2 (Z.ltb_ge fd 0)) by done. cbv zeta.
  set (h := sn_hdr snap) in *. set (s1 := s <| trace_ ::= _ |>).
  assert (Hr0 : 0 <= h_ram_mb h) by (destruct Hh as (_ & _ & [Hr0 _] & _); exact Hr0).
  assert (Hp1 : read_pos fd (trace_ s1) = 0) by (cbn; by rewrite pos_snoc).
  clearbody s1. unfold snapshot_image in Hstr. fold h in Hstr.
  set (hb := c_put SnapshotHeader_codec h) in *. set (cb := mjoin (sn_cpuid snap)) in *.
  set (mb := mjoin (sn_msrs snap)) in *. set (rb := mem_get _ _ _) in *.
  assert (Hhb : Z.of_nat (length hb) = sizeof_SnapshotHeader).
  { unfold sizeof_SnapshotHeader, hb. by rewrite c_put_length. }
  assert (Hhg : c_get SnapshotHeader_codec hb = h) by by apply c_get_exact.
  clearbody hb cb mb.
  apply wp_bind, (wp_stream fd [] hb (sn_xsave snap ++ cb ++ mb ++ sn_dirty_bitmap snap ++ rb)); [done|done|done|].
  intros rh s2 Dh _ Rh Hp2. rewrite Rh, Z.eqb_refl. cbn [negb]. rewrite Dh, Hhg.
  apply wp_bind, (wp_stream fd hb (sn_xsave snap) (cb ++ mb ++ sn_dirty_bitmap snap ++ rb)); [done|done|congruence|].
  intros rx s3 _ Gx _ Hp3. rewrite Gx, (proj2 (Z.ltb_ge XSAVE_SIZE _)) by lia.
  apply wp_bind, (wp_stream fd (hb ++ sn_xsave snap) cb (mb ++ sn_dirty_bitmap snap ++ rb));
    [by rewrite <- app_assoc|done|rewrite Hcn, Hcl; unfold sizeof_cpuid_entry; lia|].
  intros rc s4 _ Gc _ Hp4. rewrite Gc.
  apply wp_bind, (wp_stream fd ((hb ++ sn_xsave snap) ++ cb) mb (sn_dirty_bitmap snap ++ rb));
    [by rewrite <- !app_assoc|done|rewrite Hmn, Hml; unfold sizeof_msr_entry; lia|].
  intros rm s5 _ Gm _ Hp5. rewrite Gm. apply wp_bind.
  eapply (wp_mono _ (fun bm s6 => bm = sn_dirty_bitmap snap /\
    read_pos fd (trace_ s6) = Z.of_nat (length ((((hb ++ sn_xsave snap) ++ cb) ++ mb) ++ sn_dirty_bitmap snap)))).
  { destruct (Z.ltb_spec 0 (h_bitmap_bytes h)) as [Hb|Hb].
    - apply wp_bind, (wp_stream fd (((hb ++ sn_xsave snap) ++ cb) ++ mb) (sn_dirty_bitmap snap) rb);
        [by rewrite <- !app_assoc|done|done|].
      intros rb' s6 _ Gb _ Hp6. apply wp_ret. split; [|done]. rewrite Gb. apply overlay_full.
      unfold zeros. rewrite length_replicate. lia.
    - apply wp_ret. destruct (sn_dirty_bitmap snap); [|cbn in Hbn; lia]. by rewrite app_nil_r. }
  cbv beta. intros bm s6 [-> Hp6]. apply wp_bind, wp_sys. intros ra s7 _ ->.
  rewrite wrap_id by (unfold fits; lia). rewrite <- Hrs.
  apply wp_bind. eapply wp_mono;
    [apply (read_ram_stream _ fd ((((hb ++ sn_xsave snap) ++ cb) ++ mb) ++ sn_dirty_bitmap snap) (sn_ram snap))|].
  { fold rb. by rewrite <- !app_assoc. }
  { cbn. by rewrite pos_snoc. }
  { rewrite Hrs. lia. }
  { done. }
  cbv beta. intros o s8 (m & -> & Hm). wp_run. eexists. split; [done|].
  unfold snapshot_eq. cbn [sn_hdr sn_xsave sn_cpuid sn_msrs sn_dirty_bitmap sn_ram_size sn_ram].
  split_and!; try done.
  - apply overlay_full. lia.
  - rewrite Hcn, Nat2Z.id, overlay_full; [done|]. unfold zeros. rewrite length_replicate, Hcl. unfold sizeof_cpuid_entry. lia.
  - rewrite Hmn, Nat2Z.id, overlay_full; [done|]. unfold zeros. rewrite length_replicate, Hml. unfold sizeof_msr_entry. lia.
Qed.

End facts.
