(* ===== verification/GuestInit.v ===== *)
(** * The guest's init

    src/initrd_src/init.c, the program the VMM boots: it signals the snapshot,
    mounts the share, reads the two files [write_config_to_share] left there,
    sets up host name, network and environment, and runs the entrypoint.

    It is a program of its own, so it has its own state and its own calls; the
    guest kernel is the parameter [GuestHost].  As for the VMM, every call and
    its reply goes to a trace, and an access outside an array is a [Fault]. *)
From S2P Require Import Prelude Memory State Config Cli.
From stdpp Require Import options.

Definition VMM_MMIO_GPA : Z := 0xd0000000.
Definition VMM_MMIO_MAGIC : Z := 0x48594C54.

(** [0755], [0777], [0666] and [MS_BIND]. *)
Definition M755 : Z := 493.
Definition M777 : Z := 511.
Definition M666 : Z := 438.
Definition MS_BIND : Z := 4096.

(** ** Calls *)

Inductive guest_call : Type :=
| G_mkdir (path : list Z) (mode : Z)
| G_mount (source target : list Z) (fstype : option (list Z)) (flags : Z)
| G_open (path : list Z)
| G_close (fd : Z)
| G_dup2 (fd fd' : Z)
| G_read (fd count : Z)
| G_write (fd : Z) (buf : list Z)
| G_mmap (fd len off : Z)
| G_munmap (addr len : Z)
| G_store32 (addr v : Z)                     (* a volatile store *)
| G_clock_gettime
| G_reboot_halt
| G_reboot_off
| G_sethostname (name : list Z)
| G_socket
| G_get_flags (sock : Z)                     (* SIOCGIFFLAGS on eth0 *)
| G_set_flags (sock flags : Z)               (* SIOCSIFFLAGS *)
| G_set_addr (sock : Z) (addr : list Z)      (* SIOCSIFADDR *)
| G_set_netmask (sock : Z) (addr : list Z)   (* SIOCSIFNETMASK *)
| G_add_route (sock : Z) (gw : list Z)       (* SIOCADDRT, the default route *)
| G_chmod (path : list Z) (mode : Z)
| G_fork
| G_chroot (path : list Z)
| G_chdir (path : list Z)
| G_execve (path : list Z) (argv : list (list Z)) (env : list (list Z * list Z))
| G_waitpid (pid : Z)
| G_sync.

Definition gtrace : Type := list (guest_call * reply).

Class GuestHost : Type := { greply_of : gtrace -> guest_call -> reply }.

(** [environ] as names and values. *)
Abbreviation environ := (list (list Z * list Z)).

Record Guest : Type := { kmsg_fd : Z; genv : environ; g_trace : gtrace }.
#[export] Instance Guest_eta : Eta Guest := fun g =>
  {| kmsg_fd := kmsg_fd g; genv := genv g; g_trace := g_trace g |}.

Definition Guest_start (env0 : environ) : Guest := {| kmsg_fd := -1; genv := env0; g_trace := [] |}.

Definition G (A : Type) : Type := Guest -> result (A * Guest).

#[export] Instance G_ret : MRet G := fun _ a g => Ok (a, g).
#[export] Instance G_bind : MBind G := fun _ _ k c g =>
  match c g with Ok (a, g') => k a g' | Fault f => Fault f end.

Definition g_gets {A} (f : Guest -> A) : G A := fun g => Ok (f g, g).
Definition g_modify (f : Guest -> Guest) : G unit := fun g => Ok ((), f g).
Definition g_fail {A} (f : fault) : G A := fun _ => Fault f.
Definition g_skip : G unit := mret ().
Definition g_when (b : bool) (c : G unit) : G unit := if b then c else g_skip.

Fixpoint g_each {A} (l : list A) (body : A -> G unit) : G unit :=
  match l with
  | [] => g_skip
  | x :: l' => body x ;; g_each l' body
  end.

(** ** The C library *)

(** [snprintf(out, cap, "%s", s)]: the string left in [out]. *)
Definition cut (cap : Z) (s : list Z) : list Z := take (Z.to_nat (cap - 1)) s.

(** Successive calls of [strtok]. *)
Fixpoint strtok_from (delims tok s : list Z) : list (list Z) :=
  let emit := match tok with [] => [] | _ => [tok] end in
  match s with
  | [] => emit
  | c :: s' => if bool_decide (c ∈ delims) then emit ++ strtok_from delims [] s'
               else strtok_from delims (tok ++ [c]) s'
  end.
Definition strtok_all (delims s : list Z) : list (list Z) := strtok_from delims [] s.

Definition EQUALS : Z := 61.

(** [setenv]: a name that is empty or contains [=] is refused. *)
Definition setenv (name val : list Z) (overwrite : bool) (env : environ) : environ :=
  if bool_decide (name = []) || bool_decide (EQUALS ∈ name) then env else
  match list_find (fun e => e.1 = name) env with
  | Some (i, _) => if overwrite then <[i := (name, val)]> env else env
  | None => env ++ [(name, val)]
  end.

Definition getenv (name : list Z) (env : environ) : option (list Z) :=
  (fun p => p.2.2) <$> list_find (fun e => e.1 = name) env.

(** [inet_ntop] of the four bytes of an IPv4 address. *)
Definition inet_ntop (a : list Z) : list Z := join [46] (fmt_u <$> a).

(** One octet of [inet_pton]: one to three decimal digits, no leading zero, at
    most 255. *)
Fixpoint pton_octet (seen : bool) (acc : Z) (p : list Z) : option (Z * list Z) :=
  match p with
  | c :: p' =>
    match digit_val 10 c with
    | Some v =>
      if seen && (acc =? 0) then None
      else if 255 <? acc * 10 + v then None else pton_octet true (acc * 10 + v) p'
    | None => if seen then Some (acc, p) else None
    end
  | [] => if seen then Some (acc, []) else None
  end.

Fixpoint pton_from (n : nat) (p : list Z) : option (list Z) :=
  match pton_octet false 0 p with
  | None => None
  | Some (v, p') =>
    match n with
    | O => match p' with [] => Some [v] | _ => None end
    | S n' => match p' with
              | c :: p'' => if c =? 46 then cons v <$> pton_from n' p'' else None
              | [] => None
              end
    end
  end.
Definition inet_pton (s : list Z) : option (list Z) := pton_from 3 s.

(** ** Reading the configuration *)

(** The local variables [hostname], [net_ip], [net_gw] and the environment. *)
Record GuestConfig : Type := {
  gc_hostname : list Z; gc_net_ip : list Z; gc_net_gw : list Z; gc_env : environ
}.
#[export] Instance GuestConfig_eta : Eta GuestConfig := fun c =>
  {| gc_hostname := gc_hostname c; gc_net_ip := gc_net_ip c; gc_net_gw := gc_net_gw c; gc_env := gc_env c |}.

Definition SIZE_guest_hostname : Z := 256.
Definition SIZE_guest_net : Z := 64.
Definition SIZE_cbuf : Z := 2048.

(** [while ( *p == ' ' || *p == '\t') p++;] *)
Fixpoint skip_blanks (p : list Z) : list Z :=
  match p with
  | c :: p' => if (c =? 32) || (c =? 9) then skip_blanks p' else p
  | [] => []
  end.

(** A value between two equal quotes loses them. *)
Definition unquote (val : list Z) : list Z :=
  match val with
  | q :: (_ :: _) as v => if ((q =? QUOTE) || (q =? 39)) && bool_decide (last v = Some q) then removelast v else val
  | _ => val
  end.

(** What the file says of [key]. *)
Definition config_entry (key val : list Z) (g : GuestConfig) : GuestConfig :=
  if bool_decide (key = bytes "HOSTNAME") then g <| gc_hostname := cut SIZE_guest_hostname val |>
  else if bool_decide (key = bytes "NET_IP") then g <| gc_net_ip := cut SIZE_guest_net val |>
  else if bool_decide (key = bytes "NET_GW") then g <| gc_net_gw := cut SIZE_guest_net val |>
  else
    let g := g <| gc_env ::= setenv key val true |> in
    if starts_with (bytes "ENV_") key then g <| gc_env ::= setenv (drop 4 key) val true |> else g.

Definition vmconfig_line (g : GuestConfig) (line : list Z) : GuestConfig :=
  match skip_blanks line with
  | [] => g
  | c :: p' =>
    if c =? 35 then g else
    let p := c :: p' in
    let p := if starts_with (bytes "export ") p then drop 7 p else p in
    match strchr p EQUALS with
    | None => g
    | Some n => config_entry (take (Z.to_nat n) p) (unquote (drop (S (Z.to_nat n)) p)) g
    end
  end.

(** The buffer [cbuf] after the bytes [data] were read into it. *)
Definition vmconfig (data : list Z) (g : GuestConfig) : GuestConfig :=
  foldl vmconfig_line g (strtok_all [13; 10] (c_str data)).

(** [strchr(entrypoint, '\n')] and [strchr(entrypoint, '\r')], cut there. *)
Definition cut_at (c : Z) (s : list Z) : list Z :=
  match strchr s c with Some n => take (Z.to_nat n) s | None => s end.
Definition entrypoint_of (data : list Z) : list Z := cut_at 13 (cut_at 10 (c_str data)).

(** ** Network *)

(** [prefix_to_mask]. *)
Definition mask_of (prefix : Z) : Z :=
  let p := if prefix <? 0 then 0 else prefix in
  let p := if 32 <? p then 32 else p in
  if p =? 0 then 0 else u32 (Z.shiftl 0xFFFFFFFF (32 - p)).
Definition htonl (v : Z) : list Z := rev (le_enc 4 v).
Definition prefix_to_mask (prefix : Z) : list Z := inet_ntop (htonl (mask_of prefix)).

Section init.
  Context {H : GuestHost}.

(** How [printf] shows the milliseconds between two clock readings. *)
  Context (fmt_ms : Z * Z -> Z * Z -> list Z).

Definition gsys (c : guest_call) : G reply := fun g =>
  let r := greply_of (g_trace g) c in
  Ok (r, g <| g_trace ::= (fun t => t ++ [(c, r)]) |>).
Definition gsys_ (c : guest_call) : G unit := gsys c ;; g_skip.

(** [write(kmsg_fd, buf, len)] with [len] the length [snprintf] wanted, which is
    more than [buf] holds for a long message. *)
Definition log_msg (msg : list Z) : G unit :=
  fd ← g_gets kmsg_fd;
  g_when (0 <=? fd) (
    let full := msg ++ [10] in
    let len := Z.of_nat (length full) in
    if 1024 <? len then g_fail OutOfBounds
    else gsys_ (G_write fd (take (Z.to_nat len) (cut 1024 full ++ [0])))).

Definition setup_network (ip_cidr gw_str : list Z) : G unit :=
  match ip_cidr with
  | [] => g_skip
  | _ =>
    let ip_str := cut SIZE_guest_net ip_cidr in
    let '(ip_str, mask_str) :=
      match strchr ip_str 47 with
      | Some n => (take (Z.to_nat n) ip_str, prefix_to_mask (atoi (drop (S (Z.to_nat n)) ip_str)))
      | None => (ip_str, bytes "255.255.255.0")
      end in
    s ← gsys G_socket;
    let sock := r_ret s in
    if sock <? 0 then g_skip else
    f ← gsys (G_get_flags sock);
    g_when (0 <=? r_ret f) (gsys_ (G_set_flags sock (Z.lor (le_dec (take 2 (r_data f))) 0x41))) ;;
    match inet_pton ip_str with Some a => gsys_ (G_set_addr sock a) | None => g_skip end ;;
    match inet_pton mask_str with Some a => gsys_ (G_set_netmask sock a) | None => g_skip end ;;
    match gw_str with
    | [] => g_skip
    | _ => match inet_pton gw_str with Some a => gsys_ (G_add_route sock a) | None => g_skip end
    end ;;
    gsys_ (G_close sock)
  end.

(** Steps 1 of [main]: directories, mounts, log and console. *)
Definition early_mounts : G unit :=
  g_each [("/proc"%string, M755); ("/sys"%string, M755); ("/dev"%string, M755); ("/tmp"%string, M777); ("/mnt"%string, M755); ("/share"%string, M755)]
    (fun d => gsys_ (G_mkdir (bytes d.1) d.2)) ;;
  g_each [("devtmpfs", "/dev"); ("proc", "/proc"); ("sysfs", "/sys")]%string
    (fun m => gsys_ (G_mount (bytes m.1) (bytes m.2) (Some (bytes m.1)) 0)).

Definition open_log : G unit :=
  r ← gsys (G_open (bytes "/dev/kmsg"));
  g_modify (fun g => g <| kmsg_fd := r_ret r |>) ;;
  log_msg (bytes "VMTAINER: init starting").

Definition rebind_stdio : G unit :=
  r ← gsys (G_open (bytes "/dev/console"));
  let con := r_ret r in
  g_when (0 <=? con) (
    g_each [0; 1; 2] (fun fd => g_when (negb (con =? fd)) (gsys_ (G_dup2 con fd))) ;;
    g_when (2 <? con) (gsys_ (G_close con))).

(** Step 2: the store the VMM traps. *)
Definition signal_snapshot : G unit :=
  r ← gsys (G_open (bytes "/dev/mem"));
  g_when (0 <=? r_ret r) (
    m ← gsys (G_mmap (r_ret r) 4096 VMM_MMIO_GPA);
    g_when (negb (r_ret m =? -1)) (
      log_msg (bytes "VMTAINER: signalling snapshot") ;;
      gsys_ (G_store32 (r_ret m) VMM_MMIO_MAGIC) ;;
      gsys_ (G_munmap (r_ret m) 4096)) ;;
    gsys_ (G_close (r_ret r))).

(** [read] of at most [cap - 1] bytes of a file: the bytes, none on failure. *)
Definition read_small (path : list Z) (cap : Z) : G (list Z) :=
  r ← gsys (G_open path);
  if r_ret r <? 0 then mret [] else
  d ← gsys (G_read (r_ret r) (cap - 1));
  gsys_ (G_close (r_ret r)) ;;
  mret (if 0 <? r_ret d then take (Z.to_nat (Z.min (r_ret d) (cap - 1))) (r_data d) else []).

(** Step 4. *)
Definition read_entrypoint : G (list Z) :=
  d ← read_small (bytes "/share/.entrypoint") 1024;
  mret (entrypoint_of d).

(** Step 5, with the defaults that follow it. *)
Definition read_vmconfig : G GuestConfig :=
  d ← read_small (bytes "/share/.vmconfig") SIZE_cbuf;
  env ← g_gets genv;
  let c := vmconfig d {| gc_hostname := []; gc_net_ip := []; gc_net_gw := []; gc_env := env |} in
  let env := setenv (bytes "TERM") (bytes "xterm") false
    (setenv (bytes "HOME") (bytes "/root") false
      (setenv (bytes "PATH") (bytes "/usr/local/sbin:/usr/local/bin:/usr/sbin:/usr/bin:/sbin:/bin") false
        (gc_env c))) in
  g_modify (fun g => g <| genv := env |>) ;;
  mret (c <| gc_env := env |>).

(** Step 6. *)
Definition set_hostname (hostname : list Z) : G unit :=
  match hostname with
  | [] => g_skip
  | _ =>
    gsys_ (G_sethostname hostname) ;;
    r ← gsys (G_open (bytes "/proc/sys/kernel/hostname"));
    g_when (0 <=? r_ret r) (
      gsys_ (G_write (r_ret r) hostname) ;;
      gsys_ (G_close (r_ret r)))
  end.

(** Step 8. *)
Definition prepare_share : G unit :=
  g_each [("/share/proc"%string, M755); ("/share/sys"%string, M755); ("/share/dev"%string, M755); ("/share/tmp"%string, M777);
          ("/share/dev/pts"%string, M755); ("/share/dev/shm"%string, M777)]
    (fun d => gsys_ (G_mkdir (bytes d.1) d.2)) ;;
  g_each [("/proc", "/share/proc"); ("/sys", "/share/sys"); ("/dev", "/share/dev")]%string
    (fun m => gsys_ (G_mount (bytes m.1) (bytes m.2) None MS_BIND)) ;;
  gsys_ (G_mount (bytes "devpts") (bytes "/share/dev/pts") (Some (bytes "devpts")) 0) ;;
  g_each ["/share/dev/null"; "/share/dev/zero"; "/share/dev/console"; "/share/dev/tty";
          "/share/dev/ttyS0"; "/share/dev/urandom"]%string
    (fun p => gsys_ (G_chmod (bytes p) M666)).

(** How the program ends: [return], [_exit], another program in its place, or
    the loop of [cli; hlt] at the end of [main]. *)
Inductive outcome : Type :=
| Returned (rc : Z)
| Exited (code : Z)
| Execed (path : list Z) (argv : list (list Z))
| Parked.

Definition clock : G (Z * Z) :=
  r ← gsys G_clock_gettime;
  mret (match r_data r with sec :: nsec :: _ => (sec, nsec) | _ => (0, 0) end).

Definition ep_argv (entrypoint : list Z) : list (list Z) :=
  take 63 (strtok_all (bytes " " ++ [9; 13; 10]) (cut 1024 entrypoint)).

(** The child: a shell, or the entrypoint itself where there is no shell. *)
Definition run_child (entrypoint : list Z) : G outcome :=
  r ← gsys (G_chroot (bytes "/share"));
  if negb (r_ret r =? 0) then mret (Exited 1) else
  r ← gsys (G_chdir (bytes "/"));
  if negb (r_ret r =? 0) then mret (Exited 1) else
  env ← g_gets genv;
  let argv := [bytes "/bin/sh"; bytes "-c"; cut 1200 (bytes "exec " ++ entrypoint)] in
  r ← gsys (G_execve (bytes "/bin/sh") argv env);
  if 0 <=? r_ret r then mret (Execed (bytes "/bin/sh") argv) else
  match ep_argv entrypoint with
  | [] => mret (Exited 127)
  | path :: args =>
    r ← gsys (G_execve path (path :: args) env);
    if 0 <=? r_ret r then mret (Execed path (path :: args)) else mret (Exited 127)
  end.

(** [WIFEXITED(status) ? WEXITSTATUS(status) : 1]. *)
Definition exit_status (status : Z) : Z :=
  if Z.land status 0x7f =? 0 then Z.land (Z.shiftr status 8) 0xff else 1.

Definition run_entrypoint (entrypoint : list Z) (tr0 tr1 tr2 tr3 : Z * Z) : G outcome :=
  log_msg (cut 1100 (bytes "VMTAINER: running entrypoint: " ++ entrypoint ++
    bytes " [guest: mount=" ++ fmt_ms tr0 tr1 ++ bytes "ms cfg=" ++ fmt_ms tr1 tr2 ++
    bytes "ms prep=" ++ fmt_ms tr2 tr3 ++ bytes "ms]")) ;;
  p ← gsys G_fork;
  if r_ret p <? 0 then gsys_ G_reboot_halt ;; mret (Returned 1) else
  if r_ret p =? 0 then run_child entrypoint else
  w ← gsys (G_waitpid (r_ret p));
  log_msg (cut 64 (bytes "VMTAINER: entrypoint exited (" ++ fmt_d (exit_status (le_dec (take 4 (r_data w)))) ++ bytes ")")) ;;
  gsys_ G_sync ;;
  gsys_ G_reboot_off ;;
  mret Parked.

Definition init_main : G outcome :=
  early_mounts ;;
  open_log ;;
  rebind_stdio ;;
  signal_snapshot ;;
  tr0 ← clock;
  m ← gsys (G_mount (bytes "myfs") (bytes "/share") (Some (bytes "virtiofs")) 0);
  if negb (r_ret m =? 0) then
    log_msg (bytes "VMTAINER: mount failed") ;; gsys_ G_reboot_halt ;; mret (Returned 1)
  else
  tr1 ← clock;
  entrypoint ← read_entrypoint;
  c ← read_vmconfig;
  set_hostname (gc_hostname c) ;;
  match gc_net_ip c with [] => g_skip | ip => setup_network ip (gc_net_gw c) end ;;
  tr2 ← clock;
  match entrypoint with
  | [] => log_msg (bytes "VMTAINER: no entrypoint, halting") ;; gsys_ G_reboot_halt ;; mret (Returned 0)
  | _ =>
    prepare_share ;;
    tr3 ← clock;
    run_entrypoint entrypoint tr0 tr1 tr2 tr3
  end.
End init.
