(* ===== verification/GuestFacts.v ===== *)
(** * What the guest makes of the share

    The configuration the VMM writes is the configuration the guest reads: host
    name, addresses and environment arrive as they were given; the network is
    set up with the address and the netmask of the prefix; and the entrypoint is
    run.  Above the text formats, an environment is seen through [getenv]. *)
From S2P Require Import Prelude Memory State Logic Config ConfigFacts Cli CliFacts GuestInit.
From stdpp Require Import options.

(** A closed decidable fact. *)
Ltac decided := refine (bool_decide_unpack _ _); vm_compute; exact I.

(** ** Tokens *)

Lemma strtok_from_app delims tok line d rest :
  Forall (fun c => c ∉ delims) line -> d ∈ delims -> tok ++ line <> [] ->
  strtok_from delims tok (line ++ d :: rest) = (tok ++ line) :: strtok_all delims rest.
Proof.
  intros Hl Hd. revert tok. induction Hl as [|c line Hc _ IH]; intros tok Hne; cbn [app strtok_from].
  - rewrite bool_decide_eq_true_2 by done. rewrite app_nil_r in *. by destruct tok.
  - rewrite bool_decide_eq_false_2 by done. rewrite IH; [by rewrite <- app_assoc|].
    rewrite <- app_assoc. by destruct tok.
Qed.

Lemma strtok_line delims line d rest :
  Forall (fun c => c ∉ delims) line -> d ∈ delims -> line <> [] ->
  strtok_all delims (line ++ d :: rest) = line :: strtok_all delims rest.
Proof. apply (strtok_from_app delims []). Qed.

(** ** Plain text *)

(** Characters that end neither a string nor a line. *)
Definition plain_char (c : Z) : Prop := c <> 0 /\ c <> 10 /\ c <> 13.
Definition plain (s : list Z) : Prop := Forall plain_char s.

Lemma plain_no_nul s : plain s -> no_nul s.
Proof. intros Hs. eapply Forall_impl; [exact Hs|]. by intros c (? & _). Qed.

Lemma plain_token s : plain s -> Forall (fun c => c ∉ [13; 10]) s.
Proof.
  intros Hs. eapply Forall_impl; [exact Hs|]. intros c (_ & H1 & H2).
  rewrite !not_elem_of_cons. split_and!; [done|done|apply not_elem_of_nil].
Qed.

Lemma digits10_plain s : digits10 s -> plain s.
Proof. intros Hs. eapply Forall_impl; [exact Hs|]. unfold plain_char. lia. Qed.

Lemma digit_plain d : 0 <= d < 16 -> plain_char (digit d).
Proof. intros Hd. unfold plain_char, digit. destruct (d <? 10); lia. Qed.

Lemma fmt_mac_plain mac : Forall byte_ok mac -> plain (fmt_mac mac).
Proof.
  intros Hm. unfold fmt_mac. induction Hm as [|b mac Hb Hm IH]; [constructor|].
  assert (H2 : plain (fmt_02x b)).
  { unfold byte_ok, fits in Hb. constructor; [|constructor; [|constructor]]; apply digit_plain.
    - split; [apply Z.div_pos; lia|apply Z.div_lt_upper_bound; lia].
    - apply Z.mod_pos_bound. lia. }
  rewrite fmap_cons. destruct (fmt_02x <$> mac) as [|l ls]; [exact H2|].
  change (plain (fmt_02x b ++ COLON :: join [COLON] (l :: ls))). apply Forall_app. split; [done|].
  constructor; [|exact IH]. unfold plain_char, COLON. lia.
Qed.

Lemma strchr_first key c rest :
  no_nul key -> c ∉ key -> c <> 0 -> strchr (key ++ c :: rest) c = Some (Z.of_nat (length key)).
Proof.
  intros Hk Hc H0. induction Hk as [|d key Hd _ IH]; cbn.
  - by rewrite Z.eqb_refl.
  - apply not_elem_of_cons in Hc as [Hne Hc]. rewrite (proj2 (Z.eqb_neq d c)) by done.
    rewrite (proj2 (Z.eqb_neq d 0)) by done. rewrite IH by done. cbn. f_equal. lia.
Qed.

Lemma strchr_none s c : no_nul s -> c ∉ s -> strchr s c = None.
Proof.
  induction 1 as [|d s Hd _ IH]; intros Hc; cbn; [done|].
  apply not_elem_of_cons in Hc as [Hne Hc]. rewrite (proj2 (Z.eqb_neq d c)) by done.
  rewrite (proj2 (Z.eqb_neq d 0)) by done. by rewrite IH.
Qed.

(** ** The environment *)

Definition name_ok (name : list Z) : Prop := name <> [] /\ EQUALS ∉ name.

Lemma setenv_valid name val b env : name_ok name ->
  setenv name val b env =
  match list_find (fun e => e.1 = name) env with
  | Some (i, _) => if b then <[i := (name, val)]> env else env
  | None => env ++ [(name, val)]
  end.
Proof.
  intros [H1 H2]. unfold setenv. by rewrite !bool_decide_eq_false_2.
Qed.

Lemma getenv_cons name e env :
  getenv name (e :: env) = if bool_decide (e.1 = name) then Some e.2 else getenv name env.
Proof.
  unfold getenv. cbn. destruct (decide (e.1 = name)) as [E|E].
  - by rewrite bool_decide_eq_true_2.
  - rewrite bool_decide_eq_false_2 by done. by destruct (list_find _ env) as [[]|].
Qed.

Global Arguments getenv : simpl never.
Global Arguments setenv : simpl never.

Lemma getenv_setenv name name' val b env : name_ok name' ->
  getenv name (setenv name' val b env) =
  if bool_decide (name' = name) then
    (if b then Some val else Some (default val (getenv name env)))
  else getenv name env.
Proof.
  intros Hn. induction env as [|e env IH].
  - rewrite setenv_valid by done. cbn [list_find app]. rewrite getenv_cons. cbn [fst snd].
    case_bool_decide; [by destruct b|done].
  - rewrite setenv_valid in IH |- * by done. rewrite (getenv_cons name e env). cbn [list_find].
    destruct (decide (e.1 = name')) as [E|E].
    + destruct b; cbn; rewrite getenv_cons; cbn; rewrite ?E; case_bool_decide; done.
    + destruct (list_find _ env) as [[i x]|]; cbn [fmap option_fmap option_map prod_map fst snd].
      * destruct b; [change (<[S i:=(name', val)]> (e :: env)) with (e :: <[i:=(name', val)]> env)|];
          rewrite getenv_cons, IH; repeat case_bool_decide; try done; congruence.
      * change ((e :: env) ++ [(name', val)]) with (e :: (env ++ [(name', val)])).
        rewrite getenv_cons, IH. repeat case_bool_decide; try done; congruence.
Qed.

(** ** Lines *)

Lemma vmconfig_assign g key val :
  match key with [] => False | c :: _ => c <> 32 /\ c <> 9 /\ c <> 35 end ->
  no_nul key -> EQUALS ∉ key -> starts_with (bytes "export ") (key ++ EQUALS :: val) = false ->
  vmconfig_line g (key ++ EQUALS :: val) = config_entry key (unquote val) g.
Proof.
  intros Hh Hn He Hx. destruct key as [|c key]; [done|]. destruct Hh as (H1 & H2 & H3).
  unfold vmconfig_line. cbn [app skip_blanks].
  rewrite (proj2 (Z.eqb_neq c 32)), (proj2 (Z.eqb_neq c 9)) by done. cbn [orb].
  rewrite (proj2 (Z.eqb_neq c 35)) by done. change (c :: key ++ EQUALS :: val) with ((c :: key) ++ EQUALS :: val).
  rewrite Hx, strchr_first by done. rewrite Nat2Z.id, take_app_length, drop_app_ge by lia.
  by replace (S (length (c :: key)) - length (c :: key))%nat with 1%nat by lia.
Qed.

Lemma vmconfig_export g key val :
  no_nul key -> EQUALS ∉ key ->
  vmconfig_line g (bytes "export " ++ key ++ EQUALS :: val) = config_entry key (unquote val) g.
Proof.
  intros Hn He. set (rest := key ++ EQUALS :: val).
  assert (E : vmconfig_line g (bytes "export " ++ rest) =
    match strchr rest EQUALS with
    | None => g
    | Some n => config_entry (take (Z.to_nat n) rest) (unquote (drop (S (Z.to_nat n)) rest)) g
    end) by by destruct rest.
  rewrite E. unfold rest. rewrite strchr_first by done.
  rewrite Nat2Z.id, take_app_length, drop_app_ge by lia.
  by replace (S (length key) - length key)%nat with 1%nat by lia.
Qed.

Lemma unquote_quoted v : unquote (QUOTE :: v ++ [QUOTE]) = v.
Proof.
  unfold unquote. destruct (v ++ [QUOTE]) as [|c l] eqn:E; [by destruct v|].
  rewrite <- E, last_snoc, bool_decide_eq_true_2 by done. cbn. apply removelast_last.
Qed.

(** ** The file as lines *)

Definition label_line (label : string) (v : list Z) : list (list Z) :=
  match v with [] => [] | _ => [bytes label ++ v] end.

Definition env_line_pair (e : list Z * list Z) : list (list Z) :=
  [bytes "export " ++ e.1 ++ EQUALS :: QUOTE :: e.2 ++ [QUOTE];
   (bytes "ENV_" ++ e.1) ++ EQUALS :: QUOTE :: e.2 ++ [QUOTE]].

Definition config_lines (cfg : VmConfig) : list (list Z) :=
  label_line "HOSTNAME=" (cfg_hostname cfg) ++ label_line "NET_IP=" (cfg_ip cfg) ++
  label_line "NET_GW=" (cfg_gateway cfg) ++
  (if cfg_has_net cfg then [bytes "NET_MAC=" ++ fmt_mac (cfg_mac cfg)] else []) ++
  mjoin (env_line_pair <$> cfg_env cfg).

Definition unlines (ls : list (list Z)) : list Z := mjoin ((fun l => l ++ NL) <$> ls).

Lemma unlines_app l1 l2 : unlines (l1 ++ l2) = unlines l1 ++ unlines l2.
Proof. unfold unlines. by rewrite fmap_app, join_app. Qed.

Lemma config_text_lines cfg : config_text cfg = unlines (config_lines cfg).
Proof.
  unfold config_text, config_lines. rewrite !unlines_app.
  assert (Hl : forall label v, config_line label v = unlines (label_line label v)).
  { intros label [|c v]; [done|]. unfold unlines, config_line, label_line. cbn.
    by rewrite app_nil_r, <- app_assoc. }
  rewrite !Hl. repeat f_equal.
  - destruct (cfg_has_net cfg); [|done]. unfold unlines. cbn. by rewrite app_nil_r.
  - induction (cfg_env cfg) as [|e l IH]; [done|].
    change (env_lines e ++ mjoin (env_lines <$> l) =
      unlines (env_line_pair e ++ mjoin (env_line_pair <$> l))).
    rewrite IH, unlines_app. f_equal. unfold env_lines, unlines, env_line_pair. cbn.
    rewrite app_nil_r, <- !app_assoc. cbn. by rewrite <- !app_assoc.
Qed.

Lemma strtok_lines ls :
  Forall plain ls -> Forall (fun l => l <> []) ls -> strtok_all [13; 10] (unlines ls) = ls.
Proof.
  induction 1 as [|l ls Hl _ IH]; intros Hne; [done|]. apply Forall_cons in Hne as [Hn Hne].
  change (unlines (l :: ls)) with ((l ++ NL) ++ unlines ls). rewrite <- app_assoc. cbn [NL app].
  rewrite strtok_line; [by rewrite IH|by apply plain_token|set_solver|done].
Qed.

Lemma unlines_no_nul ls : Forall plain ls -> no_nul (unlines ls).
Proof.
  induction 1 as [|l ls Hl _ IH]; [constructor|].
  change (unlines (l :: ls)) with ((l ++ NL) ++ unlines ls).
  apply Forall_app. split; [|exact IH]. apply Forall_app. split; [by apply plain_no_nul|].
  by repeat constructor.
Qed.

(** ** Configurations that reach the guest *)

(** A variable that the file format carries: its name is not one of the three
    the guest takes for itself, and does not look like the copy under [ENV_]. *)
Record env_entry_ok (e : list Z * list Z) : Prop := {
  ee_name : name_ok e.1;
  ee_plain : plain e.1 /\ plain e.2;
  ee_prefix : starts_with (bytes "ENV_") e.1 = false;
  ee_free : e.1 ∉ [bytes "HOSTNAME"; bytes "NET_IP"; bytes "NET_GW"];
}.

(** A value written without quotes that does not look quoted, within the
    guest's buffer. *)
Definition bare_ok (cap : Z) (v : list Z) : Prop :=
  plain v /\ unquote v = v /\ Z.of_nat (length v) < cap.

Record shareable (cfg : VmConfig) : Prop := {
  sh_hostname : bare_ok SIZE_guest_hostname (cfg_hostname cfg);
  sh_ip : bare_ok SIZE_guest_net (cfg_ip cfg);
  sh_gateway : bare_ok SIZE_guest_net (cfg_gateway cfg);
  sh_mac : Forall byte_ok (cfg_mac cfg);
  sh_env : Forall env_entry_ok (cfg_env cfg);
  sh_names : NoDup (cfg_env cfg).*1;
  sh_size : Z.of_nat (length (config_text cfg)) < SIZE_cbuf;
}.

Lemma bytes_plain (s : string) : forallb (fun c => negb (c =? 0) && negb (c =? 10) && negb (c =? 13)) (bytes s) = true -> plain (bytes s).
Proof.
  intros Hs. apply Forall_forall. intros c Hc. rewrite forallb_forall in Hs.
  specialize (Hs c (proj1 (list_elem_of_In _ _) Hc)). unfold plain_char.
  rewrite !andb_true_iff, !negb_true_iff, !Z.eqb_neq in Hs. tauto.
Qed.

Lemma label_line_plain label v : plain (bytes label) -> plain v -> Forall plain (label_line label v).
Proof. intros Hl Hv. destruct v; constructor; [|constructor]. by apply Forall_app. Qed.

Lemma env_pair_plain e : plain e.1 -> plain e.2 -> Forall plain (env_line_pair e).
Proof.
  intros H1 H2. assert (Hq : plain (EQUALS :: QUOTE :: e.2 ++ [QUOTE])).
  { constructor; [by unfold plain_char, EQUALS|]. constructor; [by unfold plain_char, QUOTE|].
    apply Forall_app. split; [done|]. constructor; [by unfold plain_char, QUOTE|constructor]. }
  constructor; [|constructor; [|constructor]]; repeat (apply Forall_app; split); try done;
    apply (bytes_plain "export ") || apply (bytes_plain "ENV_"); reflexivity.
Qed.

Lemma config_lines_plain cfg : shareable cfg -> Forall plain (config_lines cfg).
Proof.
  intros [(Hh & _) (Hi & _) (Hg & _) Hm He _ _]. unfold config_lines.
  repeat (apply Forall_app; split); try (apply label_line_plain; [by apply bytes_plain|done]).
  - destruct (cfg_has_net cfg); constructor; [|constructor].
    apply Forall_app. split; [by apply bytes_plain|by apply fmt_mac_plain].
  - clear -He. induction He as [|e l He _ IH]; [constructor|].
    change (mjoin (env_line_pair <$> (e :: l))) with (env_line_pair e ++ mjoin (env_line_pair <$> l)).
    apply Forall_app. split; [|exact IH]. destruct He as [_ [? ?] _ _]. by apply env_pair_plain.
Qed.

Lemma config_lines_nonempty cfg : Forall (fun l => l <> []) (config_lines cfg).
Proof.
  assert (Hl : forall c s v, Forall (fun l : list Z => l <> []) (label_line (String c s) v)).
  { intros c s [|x v]; constructor; [done|constructor]. }
  unfold config_lines. repeat (apply Forall_app; split); try apply Hl.
  - destruct (cfg_has_net cfg); constructor; [done|constructor].
  - induction (cfg_env cfg) as [|e l IH]; [constructor|].
    change (mjoin (env_line_pair <$> (e :: l))) with (env_line_pair e ++ mjoin (env_line_pair <$> l)).
    apply Forall_app. split; [|exact IH]. by repeat constructor.
Qed.

Lemma vmconfig_as_lines cfg g :
  shareable cfg -> vmconfig (config_text cfg) g = foldl vmconfig_line g (config_lines cfg).
Proof.
  intros Hs. unfold vmconfig. rewrite config_text_lines.
  rewrite c_str_no_nul by (apply unlines_no_nul; by apply config_lines_plain).
  by rewrite strtok_lines by (by apply config_lines_plain || apply config_lines_nonempty).
Qed.

(** ** What the lines do *)

Lemma cut_id cap v : Z.of_nat (length v) < cap -> cut cap v = v.
Proof. intros Hv. unfold cut. apply take_ge. lia. Qed.

Lemma label_assign (name : string) v g :
  plain (bytes name) -> EQUALS ∉ bytes name ->
  match bytes name with [] => False | c :: _ => c <> 32 /\ c <> 9 /\ c <> 35 /\ c <> 101 end ->
  unquote v = v ->
  vmconfig_line g (bytes (name ++ "=") ++ v) = config_entry (bytes name) v g.
Proof.
  intros Hp He Hh Hv.
  assert (E : bytes (name ++ "=") = bytes name ++ [EQUALS]).
  { unfold bytes. clear. induction name as [|c name IH]; [done|]. cbn. by rewrite IH. }
  rewrite E, <- app_assoc. cbn [app]. rewrite vmconfig_assign; [by rewrite Hv|..].
  - destruct (bytes name); [done|]. tauto.
  - by apply plain_no_nul.
  - done.
  - destruct (bytes name) as [|c l]; [done|]. destruct Hh as (_ & _ & _ & Hc).
    destruct (starts_with _ _) eqn:Es; [|done]. apply starts_with_spec in Es as [t Et].
    by injection Et.
Qed.

Lemma hostname_fold v g :
  bare_ok SIZE_guest_hostname v -> gc_hostname g = [] ->
  foldl vmconfig_line g (label_line "HOSTNAME=" v) = g <| gc_hostname := v |>.
Proof.
  intros (Hp & Hu & Hl) Hg. destruct v as [|c v]; [by destruct g; cbn in *; subst|].
  cbn [label_line foldl]. rewrite (label_assign "HOSTNAME") by (by apply bytes_plain || by decided || done).
  unfold config_entry. rewrite bool_decide_eq_true_2 by done. by rewrite cut_id.
Qed.

Lemma ip_fold v g :
  bare_ok SIZE_guest_net v -> gc_net_ip g = [] ->
  foldl vmconfig_line g (label_line "NET_IP=" v) = g <| gc_net_ip := v |>.
Proof.
  intros (Hp & Hu & Hl) Hg. destruct v as [|c v]; [by destruct g; cbn in *; subst|].
  cbn [label_line foldl]. rewrite (label_assign "NET_IP") by (by apply bytes_plain || by decided || done).
  unfold config_entry. rewrite bool_decide_eq_false_2, bool_decide_eq_true_2 by done. by rewrite cut_id.
Qed.

Lemma gw_fold v g :
  bare_ok SIZE_guest_net v -> gc_net_gw g = [] ->
  foldl vmconfig_line g (label_line "NET_GW=" v) = g <| gc_net_gw := v |>.
Proof.
  intros (Hp & Hu & Hl) Hg. destruct v as [|c v]; [by destruct g; cbn in *; subst|].
  cbn [label_line foldl]. rewrite (label_assign "NET_GW") by (by apply bytes_plain || by decided || done).
  unfold config_entry. rewrite 2!bool_decide_eq_false_2, bool_decide_eq_true_2 by done. by rewrite cut_id.
Qed.

Lemma config_entry_env key val g :
  key ∉ [bytes "HOSTNAME"; bytes "NET_IP"; bytes "NET_GW"] ->
  config_entry key val g = g <| gc_env ::= (fun env =>
    let env := setenv key val true env in
    if starts_with (bytes "ENV_") key then setenv (drop 4 key) val true env else env) |>.
Proof.
  rewrite !not_elem_of_cons. intros (H1 & H2 & H3 & _). unfold config_entry.
  rewrite !bool_decide_eq_false_2 by done. cbv zeta. by destruct (starts_with _ key).
Qed.

(** One variable: under its name, under [ENV_] and its name, and again. *)
Definition put_var (e : list Z * list Z) (env : environ) : environ :=
  setenv e.1 e.2 true (setenv (bytes "ENV_" ++ e.1) e.2 true (setenv e.1 e.2 true env)).

Lemma env_pair_fold e g :
  env_entry_ok e -> foldl vmconfig_line g (env_line_pair e) = g <| gc_env ::= put_var e |>.
Proof.
  intros [[Hn He] [Hp1 Hp2] Hx Hf]. cbn [env_line_pair foldl].
  assert (Hv : (bytes "ENV_" ++ e.1) ∉ [bytes "HOSTNAME"; bytes "NET_IP"; bytes "NET_GW"])
    by (rewrite !not_elem_of_cons; split_and!; try discriminate; apply not_elem_of_nil).
  assert (Hq : plain (bytes "ENV_" ++ e.1)).
  { apply Forall_app. split; [by apply bytes_plain|done]. }
  rewrite vmconfig_export by (done || by apply plain_no_nul).
  change (QUOTE :: e.2 ++ [QUOTE]) with (QUOTE :: (e.2 ++ [QUOTE])).
  rewrite unquote_quoted, config_entry_env, Hx by done.
  rewrite vmconfig_assign; [|done|by apply plain_no_nul| |done].
  - rewrite unquote_quoted, config_entry_env, starts_with_app by done. by destruct g.
  - rewrite elem_of_app. intros [Hin|Hin]; [|done]. revert Hin. by decided.
Qed.

Lemma env_prefix_name n : name_ok n -> name_ok (bytes "ENV_" ++ n).
Proof.
  intros [H1 H2]. split; [done|]. rewrite elem_of_app. intros [Hin|Hin]; [|done].
  revert Hin. by decided.
Qed.

Lemma getenv_put_var e n env :
  env_entry_ok e -> starts_with (bytes "ENV_") n = false ->
  getenv n (put_var e env) = if bool_decide (e.1 = n) then Some e.2 else getenv n env.
Proof.
  intros [Hn _ _ _] Hx. unfold put_var. pose proof (env_prefix_name _ Hn).
  rewrite !getenv_setenv by done. repeat case_bool_decide; try done.
  subst n. by rewrite starts_with_app in Hx.
Qed.

(** All of them: each variable has its value, other names theirs. *)
Lemma env_fold l g :
  Forall env_entry_ok l -> NoDup l.*1 ->
  exists env, foldl vmconfig_line g (mjoin (env_line_pair <$> l)) = g <| gc_env := env |> /\
    Forall (fun e => getenv e.1 env = Some e.2) l /\
    forall n, n ∉ l.*1 -> starts_with (bytes "ENV_") n = false -> getenv n env = getenv n (gc_env g).
Proof.
  intros Hl. revert g. induction Hl as [|e l He Hl IH]; intros g Hd.
  { exists (gc_env g). split; [by destruct g|]. by split. }
  rewrite fmap_cons in Hd. apply NoDup_cons in Hd as [Hni Hd].
  change (mjoin (env_line_pair <$> (e :: l))) with (env_line_pair e ++ mjoin (env_line_pair <$> l)).
  rewrite foldl_app, env_pair_fold by done.
  destruct (IH (g <| gc_env ::= put_var e |>) Hd) as (env & E & Hall & Hoth).
  exists env. split; [rewrite E; by destruct g|]. split.
  - constructor; [|done]. rewrite Hoth by (done || apply He). cbn.
    rewrite getenv_put_var by (done || apply He). by rewrite bool_decide_eq_true_2.
  - intros n Hn Hx. rewrite fmap_cons, not_elem_of_cons in Hn. destruct Hn as [Hne Hn].
    rewrite Hoth by done. cbn. rewrite getenv_put_var by done. by rewrite bool_decide_eq_false_2.
Qed.

Definition config_start (env : environ) : GuestConfig :=
  {| gc_hostname := []; gc_net_ip := []; gc_net_gw := []; gc_env := env |}.

(** The text of a configuration, read by the guest. *)
Lemma vmconfig_reads cfg env :
  shareable cfg ->
  exists env', vmconfig (config_text cfg) (config_start env) =
      {| gc_hostname := cfg_hostname cfg; gc_net_ip := cfg_ip cfg; gc_net_gw := cfg_gateway cfg; gc_env := env' |} /\
    Forall (fun e => getenv e.1 env' = Some e.2) (cfg_env cfg).
Proof.
  intros Hs. rewrite vmconfig_as_lines by done. destruct Hs as [Hh Hi Hg Hm He Hd _].
  unfold config_lines. rewrite !foldl_app, hostname_fold, ip_fold, gw_fold by done.
  set (g := foldl _ _ (if cfg_has_net cfg then _ else _)).
  assert (Hgm : exists env1, g = {| gc_hostname := cfg_hostname cfg; gc_net_ip := cfg_ip cfg;
    gc_net_gw := cfg_gateway cfg; gc_env := env1 |}).
  { unfold g. destruct (cfg_has_net cfg); [|by eexists]. cbn [foldl].
    assert (Hu : unquote (fmt_mac (cfg_mac cfg)) = fmt_mac (cfg_mac cfg)).
    { destruct (cfg_mac cfg) as [|b mac]; [done|]. apply Forall_cons in Hm as [Hb _]. unfold fmt_mac.
      rewrite fmap_cons. destruct (join _ _) as [|q [|c v]] eqn:E; [done..|]. cbn [unquote].
      assert (q = digit (b / 16)) as ->.
      { destruct (fmt_02x <$> mac); cbn in E; by injection E. }
      unfold digit. destruct (b / 16 <? 10) eqn:Eb; [apply Z.ltb_lt in Eb|apply Z.ltb_ge in Eb];
        unfold byte_ok, fits in Hb; assert (0 <= b / 16) by (apply Z.div_pos; lia);
        rewrite !(proj2 (Z.eqb_neq _ _)) by (unfold QUOTE; lia); done. }
    rewrite (label_assign "NET_MAC") by (by apply bytes_plain || by decided || done).
    rewrite config_entry_env; [by eexists|]. rewrite !not_elem_of_cons.
    split_and!; try discriminate; apply not_elem_of_nil. }
  destruct Hgm as [env1 ->]. destruct (env_fold (cfg_env cfg) {| gc_hostname := cfg_hostname cfg;
    gc_net_ip := cfg_ip cfg; gc_net_gw := cfg_gateway cfg; gc_env := env1 |} He Hd) as (env2 & -> & Hall & _).
  exists env2. by split.
Qed.
