(* ===== verification/GuestRunFacts.v ===== *)
(** * What the guest's init does

    A small program logic for the guest, and on it: the files of the share are
    read back as the configuration the VMM wrote; the interface gets the address
    and the netmask it names; the entrypoint is run in the share with the
    environment of the configuration, after the snapshot was signalled. *)
From stdpp Require Import gmap.
From S2P Require Import Prelude Memory State Logic Run Config ConfigFacts Cli CliFacts GuestInit GuestFacts.
From stdpp Require Import options.
Local Open Scope Z_scope.

(** ** Logic *)

Definition gwp {A} (c : G A) (Q : A -> Guest -> Prop) (g : Guest) : Prop :=
  match c g with Ok (a, g') => Q a g' | Fault _ => False end.

Section rules.
  Context {H : GuestHost}.

Lemma gwp_ok {A} (c : G A) Q g : gwp c Q g -> exists a g', c g = Ok (a, g') /\ Q a g'.
Proof. unfold gwp. destruct (c g) as [[a g']|]; [by eauto|done]. Qed.

Lemma gwp_mono {A} (c : G A) (Q R : A -> Guest -> Prop) g :
  gwp c Q g -> (forall a g', Q a g' -> R a g') -> gwp c R g.
Proof. unfold gwp. destruct (c g) as [[]|]; naive_solver. Qed.

Lemma gwp_bind {A B} (c : G A) (k : A -> G B) Q g :
  gwp c (fun a g' => gwp (k a) Q g') g -> gwp (c ≫= k) Q g.
Proof. unfold gwp, mbind, G_bind. by destruct (c g) as [[]|]. Qed.

Lemma gwp_ret {A} (a : A) (Q : A -> Guest -> Prop) g : Q a g -> gwp (mret a) Q g.
Proof. done. Qed.

Lemma gwp_gets {A} (f : Guest -> A) (Q : A -> Guest -> Prop) g : Q (f g) g -> gwp (g_gets f) Q g.
Proof. done. Qed.

Lemma gwp_modify f (Q : () -> Guest -> Prop) g : Q () (f g) -> gwp (g_modify f) Q g.
Proof. done. Qed.

Lemma gwp_gsys c (Q : reply -> Guest -> Prop) g :
  (forall r g', r = greply_of (g_trace g) c -> g' = g <| g_trace ::= (fun t => t ++ [(c, r)]) |> -> Q r g') ->
  gwp (gsys c) Q g.
Proof. intros HQ. by apply HQ. Qed.

(** ** What most of init leaves alone *)

(** The environment stays, and calls are made. *)
Definition calls (g g' : Guest) : Prop :=
  genv g' = genv g /\ exists t, g_trace g' = g_trace g ++ t.

Lemma calls_refl g : calls g g.
Proof. split; [done|]. exists []. by rewrite app_nil_r. Qed.

Lemma calls_trans g1 g2 g3 : calls g1 g2 -> calls g2 g3 -> calls g1 g3.
Proof.
  intros (E1 & t1 & T1) (E2 & t2 & T2). split; [congruence|].
  exists (t1 ++ t2). by rewrite T2, T1, app_assoc.
Qed.

Lemma calls_snoc g e : calls g (g <| g_trace ::= (fun t => t ++ [e]) |>).
Proof. split; [done|]. by exists [e]. Qed.

(** A program that only makes calls. *)
Definition quiet {A} (c : G A) : Prop := forall g, gwp c (fun _ g' => calls g g') g.

Lemma quiet_ret {A} (a : A) : quiet (mret a).
Proof. intros g. apply gwp_ret, calls_refl. Qed.

Lemma quiet_bind {A B} (c : G A) (k : A -> G B) : quiet c -> (forall a, quiet (k a)) -> quiet (c ≫= k).
Proof.
  intros Hc Hk g. apply gwp_bind. eapply gwp_mono; [apply Hc|]. cbn. intros a g' Hg.
  eapply gwp_mono; [apply Hk|]. cbn. intros b g'' Hg'. by eapply calls_trans.
Qed.

(** Past a program that only makes calls. *)
Lemma gwp_quiet {A B} (c : G A) (k : A -> G B) (Q : B -> Guest -> Prop) g :
  quiet c -> (forall a g', calls g g' -> gwp (k a) Q g') -> gwp (c ≫= k) Q g.
Proof. intros Hc Hk. apply gwp_bind. eapply gwp_mono; [apply Hc|]. cbn beta. eauto. Qed.

Lemma quiet_gets {A} (f : Guest -> A) : quiet (g_gets f).
Proof. intros g. apply gwp_gets, calls_refl. Qed.

Lemma quiet_gsys c : quiet (gsys c).
Proof. intros g. apply gwp_gsys. intros r g' _ ->. apply calls_snoc. Qed.

Lemma quiet_gsys_ c : quiet (gsys_ c).
Proof. apply quiet_bind; [apply quiet_gsys|]. intros _. apply quiet_ret. Qed.

Lemma quiet_skip : quiet g_skip.
Proof. apply quiet_ret. Qed.

Lemma quiet_when b c : quiet c -> quiet (g_when b c).
Proof. intros Hc. destruct b; [exact Hc|apply quiet_skip]. Qed.

Lemma quiet_each {A} (l : list A) body : (forall x, quiet (body x)) -> quiet (g_each l body).
Proof.
  intros Hb. induction l as [|x l IH]; [apply quiet_skip|]. apply quiet_bind; [apply Hb|]. by intros _.
Qed.

(** A message that fits its buffer. *)
Lemma quiet_log_msg msg : (length msg < 1024)%nat -> quiet (log_msg msg).
Proof.
  intros Hm. unfold log_msg. apply quiet_bind; [apply quiet_gets|]. intros fd. apply quiet_when.
  rewrite length_app. cbn [length]. rewrite (proj2 (Z.ltb_ge 1024 _)) by lia. apply quiet_gsys_.
Qed.
End rules.

(** One rule of the logic, chosen by the program's head. *)
Ltac gwp_one :=
  lazymatch goal with
  | |- gwp (mbind _ _) _ _ => apply gwp_bind
  | |- gwp (mret _) _ _ => apply gwp_ret
  | |- gwp g_skip _ _ => apply gwp_ret
  | |- gwp (g_gets _) _ _ => apply gwp_gets
  | |- gwp (gsys _) _ _ => apply gwp_gsys;
      let r := fresh "r" in let g' := fresh "g" in
      let Hr := fresh "Hr" in let Hg := fresh "Hg" in intros r g' Hr Hg
  | |- gwp (gsys_ _) _ _ => unfold gsys_
  | |- gwp (g_when ?b _) _ _ => unfold g_when
  | |- gwp (if ?b then _ else _) _ _ => let E := fresh "Hb" in destruct b eqn:E
  end; cbv beta.
Ltac gwp_run := repeat gwp_one.

Lemma traced g e : g_trace (g <| g_trace ::= (fun t => t ++ [e]) |>) = g_trace g ++ [e].
Proof. reflexivity. Qed.

(** The trace of the last state, call by call. *)
Ltac gtrace :=
  repeat match goal with
  | Hg : ?g' = _ <| g_trace ::= _ |> |- context [g_trace ?g'] => rewrite Hg, traced
  end.

Create HintDb quiet.
#[export] Hint Resolve quiet_ret quiet_gets quiet_gsys quiet_gsys_ quiet_skip quiet_when quiet_each : quiet.

Ltac quiet_step :=
  lazymatch goal with
  | |- quiet (mbind _ _) => apply quiet_bind; [|intros ?]
  | |- quiet (if ?b then _ else _) => destruct b
  | |- quiet (match ?x with _ => _ end) => destruct x
  | |- quiet (g_when _ _) => apply quiet_when
  | |- quiet (g_each _ _) => apply quiet_each; intros ?
  | |- quiet (log_msg _) => apply quiet_log_msg; vm_compute; lia
  | |- quiet _ => solve [eauto with quiet]
  end.
Ltac quiet := repeat quiet_step.

Section parts.
  Context {H : GuestHost}.

Lemma setup_network_quiet ip gw : quiet (setup_network ip gw).
Proof. unfold setup_network. quiet. Qed.

Lemma early_mounts_quiet : quiet early_mounts.
Proof. unfold early_mounts. quiet. Qed.

Lemma open_log_quiet : quiet open_log.
Proof.
  intros g. unfold open_log. apply gwp_bind, gwp_gsys. intros r g1 _ ->. apply gwp_bind, gwp_modify.
  eapply gwp_mono; [apply quiet_log_msg; vm_compute; lia|]. cbn beta. intros _ g2 Hg.
  eapply calls_trans; [apply calls_snoc|]. exact Hg.
Qed.

Lemma rebind_stdio_quiet : quiet rebind_stdio.
Proof. unfold rebind_stdio. quiet. Qed.

Lemma signal_snapshot_quiet : quiet signal_snapshot.
Proof. unfold signal_snapshot. quiet. Qed.

Lemma set_hostname_quiet name : quiet (set_hostname name).
Proof. unfold set_hostname. quiet. Qed.

Lemma prepare_share_quiet : quiet prepare_share.
Proof. unfold prepare_share. quiet. Qed.

Lemma clock_quiet : quiet clock.
Proof. unfold clock. quiet. Qed.

Lemma read_small_quiet path cap : quiet (read_small path cap).
Proof. unfold read_small. quiet. Qed.
End parts.

(** ** Reading the share *)

Section share.
  Context {H : GuestHost}.

(** The guest kernel has [data] under [path]: the file opens, and the first
    [read] of it gets as much as the buffer takes. *)
Definition serves (path data : list Z) : Prop :=
  forall t, let o := greply_of t (G_open path) in
    0 <= r_ret o /\
    forall n, 0 <= n -> let r := greply_of (t ++ [(G_open path, o)]) (G_read (r_ret o) n) in
      r_ret r = Z.min n (Z.of_nat (length data)) /\ r_data r = take (Z.to_nat n) data.

Lemma read_small_serves path data cap g :
  serves path data -> Z.of_nat (length data) < cap ->
  gwp (read_small path cap) (fun d g' => d = data /\ calls g g') g.
Proof.
  intros Hs Hl. unfold read_small. destruct (Hs (g_trace g)) as [Ho Hr].
  apply gwp_bind, gwp_gsys. intros o g1 -> Hg1. rewrite (proj2 (Z.ltb_ge _ 0)) by lia.
  apply gwp_bind, gwp_gsys. intros r g2 Hr2 Hg2.
  assert (Hd : r_ret r = Z.of_nat (length data) /\ r_data r = data).
  { rewrite Hr2, Hg1. destruct (Hr (cap - 1) ltac:(lia)) as [R1 R2].
    cbn [g_trace] in *. split; [etransitivity; [exact R1|lia]|].
    etransitivity; [exact R2|]. apply take_ge. lia. }
  destruct Hd as [R1 R2]. apply gwp_bind. eapply gwp_mono; [apply quiet_gsys_|].
  cbn beta. intros _ g3 Hg3. apply gwp_ret. split.
  - rewrite R1, R2. destruct (0 <? _) eqn:E; [rewrite take_ge by lia; done|].
    apply Z.ltb_ge in E. by destruct data; cbn in *; [|lia].
  - eapply calls_trans; [|exact Hg3]. rewrite Hg2, Hg1. eapply calls_trans; apply calls_snoc.
Qed.

Lemma cut_at_line c s rest : plain s -> c = 10 \/ c = 13 -> cut_at c (s ++ c :: rest) = s.
Proof.
  intros Hs Hc. unfold cut_at. rewrite strchr_first; [|by apply plain_no_nul| |lia].
  - by rewrite Nat2Z.id, take_app_length.
  - intros Hin. eapply Forall_forall in Hs; [|exact Hin]. unfold plain_char in Hs. lia.
Qed.

Lemma entrypoint_of_line ep : plain ep -> entrypoint_of (ep ++ NL) = ep.
Proof.
  intros Hp. unfold entrypoint_of. rewrite c_str_no_nul.
  - unfold NL. rewrite cut_at_line by (done || lia). unfold cut_at. rewrite strchr_none; [done|by apply plain_no_nul|].
    intros Hin. eapply Forall_forall in Hp; [|exact Hin]. unfold plain_char in Hp. lia.
  - apply Forall_app. split; [by apply plain_no_nul|]. by repeat constructor.
Qed.

Lemma read_entrypoint_line ep g :
  serves (bytes "/share/.entrypoint") (ep ++ NL) -> plain ep -> (length ep <= 1022)%nat ->
  gwp read_entrypoint (fun e g' => e = ep /\ calls g g') g.
Proof.
  intros Hs Hp Hl. unfold read_entrypoint. apply gwp_bind.
  eapply gwp_mono; [apply read_small_serves; [exact Hs|rewrite length_app; cbn; lia]|].
  cbn beta. intros d g' [-> Hg]. apply gwp_ret. by rewrite entrypoint_of_line.
Qed.

(** The variables init adds where the configuration has none. *)
Definition default_names : list (list Z) := [bytes "PATH"; bytes "HOME"; bytes "TERM"].

(** A name that [getenv] finds keeps its value when a default is added. *)
Lemma getenv_default n v m w env :
  name_ok m -> getenv n env = Some v -> getenv n (setenv m w false env) = Some v.
Proof. intros Hm Hn. rewrite getenv_setenv, Hn by done. by case_bool_decide. Qed.

Lemma getenv_default_own m w env : name_ok m -> is_Some (getenv m (setenv m w false env)).
Proof. intros Hm. rewrite getenv_setenv by done. rewrite bool_decide_eq_true_2 by done. by eexists. Qed.

Lemma getenv_default_kept n m w env :
  name_ok m -> is_Some (getenv n env) -> is_Some (getenv n (setenv m w false env)).
Proof. intros Hm [v Hv]. eexists. by apply getenv_default. Qed.

(** The environment and the settings of [cfg]. *)
Definition has_config (cfg : VmConfig) (c : GuestConfig) : Prop :=
  gc_hostname c = cfg_hostname cfg /\ gc_net_ip c = cfg_ip cfg /\ gc_net_gw c = cfg_gateway cfg /\
  Forall (fun e => getenv e.1 (gc_env c) = Some e.2) (cfg_env cfg) /\
  Forall (fun n => is_Some (getenv n (gc_env c))) default_names.

Lemma read_vmconfig_text cfg g :
  serves (bytes "/share/.vmconfig") (config_text cfg) -> shareable cfg ->
  gwp read_vmconfig (fun c g' => has_config cfg c /\ genv g' = gc_env c /\
    exists t, g_trace g' = g_trace g ++ t) g.
Proof.
  intros Hs Hc. unfold read_vmconfig. apply gwp_bind.
  eapply gwp_mono; [apply read_small_serves; [exact Hs|exact (sh_size _ Hc)]|].
  cbn beta. intros d g1 [-> (He & Ht)]. apply gwp_bind, gwp_gets. cbv zeta.
  destruct (vmconfig_reads cfg (genv g1) Hc) as (env & E & Hall). unfold config_start in E. rewrite E.
  apply gwp_bind, gwp_modify, gwp_ret. split; [|done].
  assert (H1 : name_ok (bytes "PATH")) by (split; [done|by decided]).
  assert (H2 : name_ok (bytes "HOME")) by (split; [done|by decided]).
  assert (H3 : name_ok (bytes "TERM")) by (split; [done|by decided]).
  split_and!; [done..| |].
  - eapply Forall_impl; [exact Hall|]. cbn. intros e Hv. by repeat (apply getenv_default; [done|]).
  - repeat constructor; cbn.
    + do 2 (apply getenv_default_kept; [done|]). by apply getenv_default_own.
    + apply getenv_default_kept; [done|]. by apply getenv_default_own.
    + by apply getenv_default_own.
Qed.
End share.

(** ** The files the VMM leaves *)

(** The files behind a trace: which path a descriptor was opened for writing
    on, and what each such file holds. *)
Definition file_step (st : gmap Z (list Z) * gmap (list Z) (list Z)) (e : syscall * reply) :
    gmap Z (list Z) * gmap (list Z) (list Z) :=
  match e.1 with
  | sys_open p true => if 0 <=? r_ret e.2 then (<[r_ret e.2 := p]> st.1, <[p := []]> st.2) else st
  | sys_write fd bs =>
    match st.1 !! fd with
    | Some p => (st.1, alter (fun old => old ++ take (Z.to_nat (r_ret e.2)) bs) p st.2)
    | None => st
    end
  | sys_close fd => (delete fd st.1, st.2)
  | _ => st
  end.
Definition share_files (t : trace) : gmap (list Z) (list Z) := (foldl file_step (∅, ∅) t).2.

(** A host where files open for writing and a [write] is not cut short. *)
Definition host_stores {H : Host} : Prop :=
  (forall t p, 0 <= r_ret (reply_of t (sys_open p true))) /\
  forall t fd bs, r_ret (reply_of t (sys_write fd bs)) = Z.of_nat (length bs).

Section write.
  Context {H : Host}.

(** One file, opened and written piece by piece. *)
Lemma file_step_open st p r :
  0 <= r_ret r -> file_step st (sys_open p true, r) = (<[r_ret r := p]> st.1, <[p := []]> st.2).
Proof. intros Hr. unfold file_step. cbn. by rewrite (proj2 (Z.leb_le 0 _)). Qed.

Lemma file_step_write st fd p old bs r :
  st.1 !! fd = Some p -> st.2 !! p = Some old -> r_ret r = Z.of_nat (length bs) ->
  file_step st (sys_write fd bs, r) = (st.1, <[p := old ++ bs]> st.2).
Proof.
  intros Hf Hp Hr. unfold file_step. cbn. rewrite Hf, Hr, take_ge by lia. f_equal.
  apply map_eq. intros q. destruct (decide (q = p)) as [->|Hq].
  - rewrite lookup_alter_eq, lookup_insert_eq, Hp. done.
  - by rewrite lookup_alter_ne, lookup_insert_ne by done.
Qed.

Lemma share_path_whole dir name :
  (length dir + length (bytes name) < 4096)%nat -> share_path dir name = dir ++ bytes name.
Proof. intros Hl. apply take_ge. rewrite length_app. unfold PATH_MAX. lia. Qed.

Lemma files_snoc t e : foldl file_step (∅, ∅) (t ++ [e]) = file_step (foldl file_step (∅, ∅) t) e.
Proof. by rewrite foldl_app. Qed.

Lemma write_config_files s dir cfg :
  host_stores -> (length dir <= 4000)%nat -> cfg_entrypoint cfg <> [] ->
  wp (write_config_to_share (Some dir) cfg) (fun _ s' =>
    share_files (trace_ s') !! (dir ++ bytes "/.entrypoint") = Some (cfg_entrypoint cfg ++ NL) /\
    share_files (trace_ s') !! (dir ++ bytes "/.vmconfig") = Some (config_text cfg)) s.
Proof.
  intros [Ho Hw] Hl He. unfold write_config_to_share.
  assert (L1 : length (bytes "/.entrypoint") = 12%nat) by reflexivity.
  assert (L2 : length (bytes "/.vmconfig") = 10%nat) by reflexivity.
  rewrite !share_path_whole by lia. destruct (cfg_entrypoint cfg) as [|c ep] eqn:Ep; [done|].
  set (p1 := dir ++ bytes "/.entrypoint"). set (p2 := dir ++ bytes "/.vmconfig").
  assert (Hne : p1 <> p2) by (intros E; by apply app_inv_head in E).
  assert (Hc : forall t p r, r = reply_of t (sys_open p true) -> (0 <=? r_ret r) = false -> False)
    by (intros t p r -> Hb; pose proof (Ho t p); lia).
  wp_run; try by exfalso; eauto.
  assert (Et : trace_ s6 = ((((((trace_ s ++ [(sys_open p1 true, r)]) ++ [(sys_write (r_ret r) (c :: ep), r0)]) ++
    [(sys_write (r_ret r) NL, r1)]) ++ [(sys_close (r_ret r), r2)]) ++ [(sys_open p2 true, r3)]) ++
    [(sys_write (r_ret r3) (config_text cfg), r4)]) ++ [(sys_close (r_ret r3), r5)])
    by (rewrite Hs5, Hs4, Hs3, Hs2, Hs1, Hs0, Hs; reflexivity).
  assert (W0 := Hw (trace_ s0) (r_ret r) (c :: ep)). assert (W1 := Hw (trace_ s1) (r_ret r) NL).
  assert (W4 := Hw (trace_ s4) (r_ret r3) (config_text cfg)). rewrite <- Hr0 in W0. rewrite <- Hr1 in W1.
  rewrite <- Hr4 in W4. apply Z.leb_le in Hb, Hb0. unfold share_files. rewrite Et, !files_snoc.
  destruct (foldl _ _ (trace_ s)) as [fds fs]. rewrite (file_step_open _ p1) by done.
  rewrite (file_step_write _ _ p1 [] (c :: ep) r0) by (cbn [fst snd]; rewrite ?lookup_insert_eq; done).
  rewrite (file_step_write _ _ p1 (c :: ep) NL r1) by (cbn [fst snd]; rewrite ?lookup_insert_eq; done).
  change (file_step (?a, ?b) (sys_close ?d, _)) with (delete d a, b).
  rewrite (file_step_open _ p2) by done.
  rewrite (file_step_write _ _ p2 [] (config_text cfg) r4) by (cbn [fst snd]; rewrite ?lookup_insert_eq; done).
  change (file_step (?a, ?b) (sys_close ?d, _)) with (delete d a, b). cbn [snd].
  rewrite !lookup_insert_eq, !lookup_insert_ne, lookup_insert_eq by done. done.
Qed.
End write.

(** ** The network *)

(** An octet is read back as it is printed, whatever follows it. *)
Lemma pton_octet_fmt a rest :
  byte_ok a -> match rest with [] => True | c :: _ => digit_val 10 c = None end ->
  pton_octet false 0 (fmt_u a ++ rest) = Some (a, rest).
Proof.
  intros Ha Hr.
  assert (Hall : Forall (fun a => pton_octet false 0 (fmt_u a ++ rest) = Some (a, rest)) (seqZ 0 256)).
  { destruct rest as [|c rest].
    - apply Forall_forall. intros x Hx. rewrite app_nil_r. revert x Hx. apply Forall_forall.
      apply (bool_decide_unpack _). vm_compute. exact I.
    - vm_compute seqZ. repeat (constructor; [cbn [app]; vm_compute fmt_u; cbn; rewrite Hr; reflexivity|]). constructor. }
  apply (proj1 (Forall_forall _ _) Hall). apply elem_of_seqZ. unfold byte_ok, fits in Ha. lia.
Qed.

Lemma ntop_dots a b c d :
  inet_ntop [a; b; c; d] = fmt_u a ++ 46 :: fmt_u b ++ 46 :: fmt_u c ++ 46 :: fmt_u d.
Proof. reflexivity. Qed.

Lemma pton_ntop a b c d :
  Forall byte_ok [a; b; c; d] -> inet_pton (inet_ntop [a; b; c; d]) = Some [a; b; c; d].
Proof.
  rewrite !Forall_cons. intros (Ha & Hb & Hc & Hd & _). rewrite ntop_dots. unfold inet_pton.
  cbn [pton_from]. do 3 (rewrite pton_octet_fmt by done; cbn [Z.eqb Pos.eqb]).
  rewrite <- (app_nil_r (fmt_u d)), pton_octet_fmt by done. done.
Qed.

(** The netmask of [p] leading ones. *)
Lemma prefix_mask p : 0 <= p <= 32 ->
  inet_pton (prefix_to_mask p) = Some (htonl (2 ^ 32 - 2 ^ (32 - p))).
Proof.
  intros Hp. assert (Hall : Forall (fun p => inet_pton (prefix_to_mask p) = Some (htonl (2 ^ 32 - 2 ^ (32 - p)))) (seqZ 0 33)).
  { apply (bool_decide_unpack _). vm_compute. exact I. }
  apply (proj1 (Forall_forall _ _) Hall). apply elem_of_seqZ. lia.
Qed.

Lemma atoi_prefix p : 0 <= p <= 32 -> atoi (fmt_u p) = p /\ (length (fmt_u p) <= 2)%nat.
Proof.
  intros Hp. assert (Hall : Forall (fun p => atoi (fmt_u p) = p /\ (length (fmt_u p) <= 2)%nat) (seqZ 0 33)).
  { apply (bool_decide_unpack _). vm_compute. exact I. }
  apply (proj1 (Forall_forall _ _) Hall). apply elem_of_seqZ. lia.
Qed.

Lemma octet_text a : byte_ok a -> no_nul (fmt_u a) /\ (47 ∉ fmt_u a) /\ (length (fmt_u a) <= 3)%nat.
Proof.
  unfold byte_ok, fits. intros Ha. destruct (fmt_u_digits a ltac:(lia)) as (Hd & _).
  split_and!; [| |apply fmt_u_length; lia].
  - eapply Forall_impl; [exact Hd|]. cbn. lia.
  - intros Hin. eapply Forall_forall in Hd; [|exact Hin]. lia.
Qed.

Lemma ntop_text a b c d : Forall byte_ok [a; b; c; d] ->
  no_nul (inet_ntop [a; b; c; d]) /\ (47 ∉ inet_ntop [a; b; c; d]) /\ (0 < length (inet_ntop [a; b; c; d]) <= 15)%nat.
Proof.
  rewrite !Forall_cons. intros (Ha & Hb & Hc & Hd & _).
  destruct (octet_text a Ha) as (N1 & S1 & L1), (octet_text b Hb) as (N2 & S2 & L2).
  destruct (octet_text c Hc) as (N3 & S3 & L3), (octet_text d Hd) as (N4 & S4 & L4).
  rewrite ntop_dots. split_and!.
  - repeat (apply Forall_app; split; [done|]; apply Forall_cons; split; [done|]). done.
  - repeat (rewrite elem_of_app, elem_of_cons). intuition discriminate.
  - rewrite length_app. cbn [length]. lia.
  - rewrite !length_app. cbn [length]. rewrite !length_app. cbn [length]. rewrite !length_app. cbn [length]. lia.
Qed.

(** The address of an interface as the configuration spells it. *)
Definition cidr (ip : list Z) (prefix : option Z) : list Z :=
  inet_ntop ip ++ match prefix with Some p => 47 :: fmt_u p | None => [] end.

(** The netmask it means; a class C network where it has no prefix. *)
Definition netmask (prefix : option Z) : list Z :=
  match prefix with Some p => htonl (2 ^ 32 - 2 ^ (32 - p)) | None => [255; 255; 255; 0] end.

(** The calls that configure addresses and routes. *)
Definition net_ioctls (t : gtrace) : list guest_call :=
  omap (fun e => match e.1 with
    | G_set_addr _ _ | G_set_netmask _ _ | G_add_route _ _ | G_set_flags _ _ => Some e.1
    | _ => None end) t.

Lemma net_ioctls_snoc t c r : net_ioctls (t ++ [(c, r)]) = net_ioctls t ++ net_ioctls [(c, r)].
Proof. unfold net_ioctls. by rewrite omap_app. Qed.

Section network.
  Context {H : GuestHost}.

Lemma cidr_parts ip prefix :
  length ip = 4%nat -> Forall byte_ok ip -> match prefix with Some p => 0 <= p <= 32 | None => True end ->
  exists c l, cidr ip prefix = c :: l /\
  let t := cut SIZE_guest_net (cidr ip prefix) in
  match strchr t 47 with
  | Some n => (take (Z.to_nat n) t, prefix_to_mask (atoi (drop (S (Z.to_nat n)) t)))
  | None => (t, bytes "255.255.255.0")
  end = (inet_ntop ip, match prefix with Some p => prefix_to_mask p | None => bytes "255.255.255.0" end).
Proof.
  destruct ip as [|a [|b [|c [|d [|? ?]]]]]; try done. intros _ Hb Hp.
  destruct (ntop_text a b c d Hb) as (Hn & Hs & Hl).
  assert (Hc : cut SIZE_guest_net (cidr [a; b; c; d] prefix) = cidr [a; b; c; d] prefix).
  { apply cut_id. unfold cidr, SIZE_guest_net. rewrite length_app. destruct prefix as [p|]; cbn [length]; [|lia].
    pose proof (proj2 (atoi_prefix p Hp)). lia. }
  rewrite Hc. unfold cidr. destruct (inet_ntop _) as [|x l] eqn:E; [cbn in Hl; lia|]. rewrite <- E in *.
  exists x, (l ++ match prefix with Some p => 47 :: fmt_u p | None => [] end). split; [by rewrite E|].
  cbv zeta. destruct prefix as [p|].
  - rewrite strchr_first by done. rewrite Nat2Z.id, take_app_length, drop_app_ge by lia.
    replace (S _ - _)%nat with 1%nat by lia.
    change (drop 1 (47 :: fmt_u p)) with (fmt_u p). by rewrite (proj1 (atoi_prefix p Hp)).
  - rewrite app_nil_r, strchr_none by done. done.
Qed.

(** C24: the guest's network is the configured one.  Given an address with or
    without a prefix length and a gateway or none, in the text form of the
    configuration file, setup_network sets exactly that address on the
    interface, the netmask of that many leading ones (255.255.255.0 without a
    prefix), and the default route through the gateway if there is one, after it
    brought the interface up, and closes its socket. *)
Theorem guest_network ip prefix gw g :
  length ip = 4%nat -> Forall byte_ok ip ->
  match prefix with Some p => 0 <= p <= 32 | None => True end ->
  match gw with Some a => length a = 4%nat /\ Forall byte_ok a | None => True end ->
  let s := greply_of (g_trace g) G_socket in let sock := r_ret s in
  let f := greply_of (g_trace g ++ [(G_socket, s)]) (G_get_flags sock) in
  0 <= sock ->
  gwp (setup_network (cidr ip prefix) (match gw with Some a => inet_ntop a | None => [] end)) (fun _ g' =>
    net_ioctls (g_trace g') = net_ioctls (g_trace g) ++
      (if 0 <=? r_ret f then [G_set_flags sock (Z.lor (le_dec (take 2 (r_data f))) 0x41)] else []) ++
      [G_set_addr sock ip; G_set_netmask sock (netmask prefix)] ++
      match gw with Some a => [G_add_route sock a] | None => [] end /\
    exists r, last (g_trace g') = Some (G_close sock, r)) g.
Proof.
  intros L4 Hip Hp Hgw s sock f Hsock. destruct (cidr_parts ip prefix L4 Hip Hp) as (c & l & Ec & Et).
  unfold setup_network. rewrite Ec at 1. cbv zeta in Et. rewrite Et.
  assert (Hpi : inet_pton (inet_ntop ip) = Some ip).
  { destruct ip as [|? [|? [|? [|? [|? ?]]]]]; try done. by apply pton_ntop. }
  assert (Hpm : inet_pton (match prefix with Some p => prefix_to_mask p | None => bytes "255.255.255.0" end) =
    Some (netmask prefix)).
  { destruct prefix; [by apply prefix_mask|reflexivity]. }
  rewrite Hpi, Hpm.
  set (text := match gw with Some a => inet_ntop a | None => [] end).
  assert (Egw : forall so, match text with [] => g_skip
    | _ => match inet_pton text with Some a => gsys_ (G_add_route so a) | None => g_skip end end =
    match gw with Some a => gsys_ (G_add_route so a) | None => g_skip end).
  { intros so. unfold text. destruct gw as [a|]; [|done]. destruct Hgw as [La Ha].
    destruct a as [|? [|? [|? [|? [|? ?]]]]]; try done. rewrite pton_ntop by done.
    destruct (ntop_text _ _ _ _ Ha) as (_ & _ & Hl). clear -Hl. by destruct (inet_ntop _); [cbn in Hl; lia|]. }
  apply gwp_bind, gwp_gsys. intros r g1 Hr Hg1. rewrite Egw.
  assert (Es : r_ret r = sock) by (by rewrite Hr). rewrite Es, (proj2 (Z.ltb_ge sock 0)) by lia.
  assert (Ef : greply_of (g_trace g1) (G_get_flags sock) = f) by (by rewrite Hg1, traced, Hr).
  apply gwp_bind, gwp_gsys. rewrite Ef. clearbody f sock. intros f' g2 -> Hg2. clear Ef Egw Et text Hpi Hpm.
  destruct gw as [a|]; gwp_run; gtrace; rewrite last_snoc; rewrite !net_ioctls_snoc, <- !app_assoc;
    (split; [reflexivity|by eexists]).
Qed.
End network.

(** ** The whole of init *)

Section main.
  Context {H : GuestHost}.

Definition mount_share : guest_call := G_mount (bytes "myfs") (bytes "/share") (Some (bytes "virtiofs")) 0.

(** A guest kernel with [/dev/mem] and a share that mounts. *)
Definition kernel_ready : Prop :=
  (forall t, 0 <= r_ret (greply_of t (G_open (bytes "/dev/mem")))) /\
  (forall t fd len off, r_ret (greply_of t (G_mmap fd len off)) <> -1) /\
  (forall t, r_ret (greply_of t mount_share) = 0).

(** The share as the VMM left it. *)
Definition share_has (cfg : VmConfig) : Prop :=
  serves (bytes "/share/.entrypoint") (cfg_entrypoint cfg ++ NL) /\
  serves (bytes "/share/.vmconfig") (config_text cfg).

(** The snapshot was asked for: the page the VMM traps was mapped, and the value
    it waits for stored there. *)
Definition signalled (g g' : Guest) : Prop :=
  exists t fd m r, g_trace g' = g_trace g ++ t /\
    (G_mmap fd 4096 MMIO_SIGNAL_GPA, m) ∈ t /\ (G_store32 (r_ret m) MMIO_SIGNAL_MAGIC, r) ∈ t.

Lemma signalled_calls g1 g2 g3 : signalled g1 g2 -> calls g2 g3 -> signalled g1 g3.
Proof.
  intros (t & fd & m & r & E & Hm & Hs) (_ & t' & E'). exists (t ++ t'), fd, m, r.
  rewrite !elem_of_app. split; [by rewrite E', E, app_assoc|]. tauto.
Qed.

Lemma calls_signalled g1 g2 g3 : calls g1 g2 -> signalled g2 g3 -> signalled g1 g3.
Proof.
  intros (_ & t & E) (t' & fd & m & r & E' & Hm & Hs). exists (t ++ t'), fd, m, r.
  rewrite !elem_of_app. split; [by rewrite E', E, app_assoc|]. tauto.
Qed.

Lemma signal_snapshot_spec g :
  kernel_ready -> gwp signal_snapshot (fun _ g' => signalled g g' /\ genv g' = genv g) g.
Proof.
  intros (Ho & Hm & _). unfold signal_snapshot. apply gwp_bind, gwp_gsys. intros r g1 Hr Hg1.
  unfold g_when. rewrite (proj2 (Z.leb_le 0 (r_ret r))) by (by rewrite Hr).
  do 2 apply gwp_bind. apply gwp_gsys. intros m g2 Hm2 Hg2.
  rewrite (proj2 (Z.eqb_neq (r_ret m) (-1))) by (by rewrite Hm2). cbn [negb].
  apply gwp_quiet; [apply quiet_log_msg; vm_compute; lia|]. intros _ g3 C3.
  apply gwp_bind. unfold gsys_ at 1. apply gwp_bind, gwp_gsys. intros r4 g4 Hr4 Hg4. apply gwp_ret.
  eapply gwp_mono; [apply quiet_gsys_|]. cbn beta. intros _ g5 C5.
  eapply gwp_mono; [apply quiet_gsys_|]. cbn beta. intros _ g6 C6.
  pose proof (calls_trans _ _ _ C5 C6) as C46. destruct C3 as (En & t3 & E3). split.
  - eapply calls_signalled; [rewrite Hg1 in Hg2; apply calls_snoc|]. eapply signalled_calls; [|exact C46].
    exists ([(G_mmap (r_ret r) 4096 VMM_MMIO_GPA, m)] ++ t3 ++ [(G_store32 (r_ret m) VMM_MMIO_MAGIC, r4)]),
      (r_ret r), m, r4. rewrite !elem_of_app, !list_elem_of_singleton. split; [|tauto].
    rewrite Hg4, traced, E3, Hg2, traced, Hg1, <- !app_assoc. done.
  - destruct C46 as [-> _]. rewrite Hg4. cbn. rewrite En, Hg2, Hg1. done.
Qed.

  Context (fmt_ms : Z * Z -> Z * Z -> list Z).

(** Up to the log line before the [fork]: the snapshot was signalled before the
    share was mounted, and the environment is that of the configuration. *)
Definition prepared (cfg : VmConfig) (g g' : Guest) : Prop :=
  (exists g1 r t, signalled g g1 /\ g_trace g' = g_trace g1 ++ (mount_share, r) :: t) /\
  Forall (fun e => getenv e.1 (genv g') = Some e.2) (cfg_env cfg) /\
  Forall (fun n => is_Some (getenv n (genv g'))) default_names.

Lemma prepared_calls cfg g g1 g2 : prepared cfg g g1 -> calls g1 g2 -> prepared cfg g g2.
Proof.
  intros ((g0 & r & t & Hs & E) & Hv & Hn) (He & t' & E'). unfold prepared. rewrite He.
  split; [|done]. exists g0, r, (t ++ t'). split; [done|]. by rewrite E', E, <- app_assoc.
Qed.

Lemma init_until_run cfg (Q : outcome -> Guest -> Prop) g :
  kernel_ready -> share_has cfg -> shareable cfg ->
  cfg_entrypoint cfg <> [] -> plain (cfg_entrypoint cfg) -> (length (cfg_entrypoint cfg) <= 1022)%nat ->
  (forall g' t0 t1 t2 t3, prepared cfg g g' ->
    gwp (run_entrypoint fmt_ms (cfg_entrypoint cfg) t0 t1 t2 t3) Q g') ->
  gwp (init_main fmt_ms) Q g.
Proof.
  intros Hk [Hep Hcfg] Hsh Hne Hpl Hlen Hrun. unfold init_main.
  apply gwp_quiet; [apply early_mounts_quiet|]. intros _ g1 C1.
  apply gwp_quiet; [apply open_log_quiet|]. intros _ g2 C2.
  apply gwp_quiet; [apply rebind_stdio_quiet|]. intros _ g3 C3.
  apply gwp_bind. eapply gwp_mono; [by apply signal_snapshot_spec|]. cbn beta. intros _ g4 [S4 _].
  apply gwp_quiet; [apply clock_quiet|]. intros t0 g5 C5.
  assert (S5 : signalled g g5).
  { eapply signalled_calls; [|exact C5]. eapply calls_signalled; [|exact S4].
    eapply calls_trans; [exact C1|]. by eapply calls_trans. }
  apply gwp_bind, gwp_gsys. intros m g6 Hm Hg6.
  assert (Em : r_ret m = 0) by (rewrite Hm; apply Hk). rewrite Em. cbn [Z.eqb negb].
  apply gwp_quiet; [apply clock_quiet|]. intros t1 g7 C7.
  apply gwp_bind. eapply gwp_mono; [by apply (read_entrypoint_line (cfg_entrypoint cfg))|].
  cbn beta. intros e g8 [-> C8].
  apply gwp_bind. eapply gwp_mono; [by apply (read_vmconfig_text cfg)|].
  cbn beta. intros c g9 ((_ & _ & _ & Hv & Hn) & He & t & Ht). rewrite <- He in Hv, Hn.
  assert (P9 : prepared cfg g g9).
  { split; [|done]. destruct (calls_trans _ _ _ C7 C8) as (_ & t' & E8). exists g5, m, (t' ++ t).
    split; [exact S5|]. rewrite Ht, E8, Hg6, traced, <- !app_assoc. done. }
  apply gwp_quiet; [apply set_hostname_quiet|]. intros _ g10 C10.
  apply gwp_quiet; [destruct (gc_net_ip c); [apply quiet_skip|apply setup_network_quiet]|]. intros _ g11 C11.
  apply gwp_quiet; [apply clock_quiet|]. intros t2 g12 C12.
  destruct (cfg_entrypoint cfg) as [|x ep]; [done|].
  apply gwp_quiet; [apply prepare_share_quiet|]. intros _ g13 C13.
  apply gwp_quiet; [apply clock_quiet|]. intros t3 g14 C14. apply Hrun.
  eapply prepared_calls; [exact P9|].
  exact (calls_trans _ _ _ C10 (calls_trans _ _ _ C11 (calls_trans _ _ _ C12 (calls_trans _ _ _ C13 C14)))).
Qed.

(** The log line of an entrypoint the VMM's configuration can hold. *)
Lemma run_message_fits ep t0 t1 t2 t3 :
  (forall a b, length (fmt_ms a b) <= 32)%nat -> (length ep <= 255)%nat ->
  (length (cut 1100 (bytes "VMTAINER: running entrypoint: " ++ ep ++
    bytes " [guest: mount=" ++ fmt_ms t0 t1 ++ bytes "ms cfg=" ++ fmt_ms t1 t2 ++
    bytes "ms prep=" ++ fmt_ms t2 t3 ++ bytes "ms]")) < 1024)%nat.
Proof.
  intros Hf He. pose proof (Hf t0 t1). pose proof (Hf t1 t2). pose proof (Hf t2 t3).
  unfold cut. rewrite length_take, !length_app.
  repeat match goal with |- context [length (bytes ?s)] =>
    let n := eval vm_compute in (length (bytes s)) in change (length (bytes s)) with n end.
  lia.
Qed.


(** init outlives the container.  In the process that forked, init waits
    for the entrypoint, syncs and powers the machine off, and is then parked in
    its halt loop: the configured machine ends when its entrypoint does. *)
Theorem init_powers_off cfg pid g :
  (forall a b, length (fmt_ms a b) <= 32)%nat ->
  kernel_ready -> share_has cfg -> shareable cfg ->
  cfg_entrypoint cfg <> [] -> plain (cfg_entrypoint cfg) -> (length (cfg_entrypoint cfg) <= 255)%nat ->
  0 < pid -> (forall t, r_ret (greply_of t G_fork) = pid) ->
  gwp (init_main fmt_ms) (fun o g' =>
    o = Parked /\ prepared cfg g g' /\
    exists t r r1 t1 r2 r3, g_trace g' = t ++ (G_fork, r) :: (G_waitpid pid, r1) :: t1 ++
      [(G_sync, r2); (G_reboot_off, r3)]) g.
Proof.
  intros Hf Hk Hsh Hs Hne Hpl Hlen Hpid Hfork.
  apply (init_until_run cfg); try done; [lia|]. intros g0 t0 t1 t2 t3 P0. unfold run_entrypoint.
  apply gwp_quiet; [by apply quiet_log_msg, run_message_fits|]. intros _ g1 C1.
  apply gwp_bind, gwp_gsys. intros p g2 Hp Hg2.
  assert (Ep : r_ret p = pid) by (rewrite Hp; apply Hfork). rewrite Ep.
  rewrite (proj2 (Z.ltb_ge pid 0)), (proj2 (Z.eqb_neq pid 0)) by lia.
  apply gwp_bind, gwp_gsys. intros w g3 _ Hg3.
  apply gwp_quiet; [apply quiet_log_msg; unfold cut; rewrite length_take; lia|]. intros _ g4 C4.
  unfold gsys_. gwp_run.
  assert (C : calls g0 g6).
  { eapply calls_trans; [exact C1|]. eapply calls_trans; [|eapply calls_trans; [exact C4|]].
    - rewrite Hg3, Hg2. eapply calls_trans; apply calls_snoc.
    - rewrite Hg0, Hg. eapply calls_trans; apply calls_snoc. }
  split; [done|]. split; [by eapply prepared_calls|].
  destruct C4 as (_ & t & Et). exists (g_trace g1), p, w, t, r, r0.
  rewrite Hg0, traced, Hg, traced, Et, Hg3, traced, Hg2, traced, <- !app_assoc. done.
Qed.
End main.

(** C23: a configuration that can be shared ([shareable]: names and values
    on one line each, host name and addresses unquoted and no longer than the
    guest has room for, every variable once and none whose name the guest takes
    for a setting of its own, HOSTNAME, NET_IP, NET_GW or a name that begins with
    ENV_, and a text of fewer than 2048 bytes, which is as much as the guest reads) and whose entrypoint is one plain line of at most
    1022 bytes reaches the guest.  After the VMM wrote it into the share, on a
    host where files can be written, a guest that finds those files in its share
    reads back the entrypoint, the host name, the address and the gateway, and
    ends up with an environment in which every configured variable has its value;
    the defaults init adds never replace one.  A configuration outside [shareable]
    can lose variables or settings. *)
Theorem config_reaches_guest {H : Host} {K : GuestHost} s dir cfg g :
  host_stores -> (length dir <= 4000)%nat ->
  shareable cfg -> cfg_entrypoint cfg <> [] -> plain (cfg_entrypoint cfg) ->
  (length (cfg_entrypoint cfg) <= 1022)%nat ->
  wp (write_config_to_share (Some dir) cfg) (fun _ s' =>
    (forall name data, name ∈ ["/.entrypoint"; "/.vmconfig"]%string ->
       share_files (trace_ s') !! (dir ++ bytes name) = Some data ->
       serves (bytes ("/share" ++ name)) data) ->
    gwp (ep ← read_entrypoint; c ← read_vmconfig; mret (ep, c)) (fun o g' =>
      o.1 = cfg_entrypoint cfg /\ has_config cfg o.2 /\ genv g' = gc_env o.2) g) s.
Proof.
  intros Hst Hd Hsh Hne Hpl Hl. eapply wp_mono; [by apply (write_config_files s dir cfg)|].
  cbn beta. intros _ s' [F1 F2] Hserve.
  apply gwp_bind. eapply gwp_mono; [apply (read_entrypoint_line (cfg_entrypoint cfg)); [|done..]|].
  { exact (Hserve "/.entrypoint"%string _ ltac:(by left) F1). }
  cbn beta. intros e g1 [-> _]. apply gwp_bind.
  eapply gwp_mono; [apply (read_vmconfig_text cfg); [|done]|].
  { exact (Hserve "/.vmconfig"%string _ ltac:(by right; left) F2). }
  cbn beta. intros c g2 (Hc & He & _). by apply gwp_ret.
Qed.

(** An entrypoint near the size of its buffer makes the log line longer than
    [log_msg]'s buffer, and [write] is given the untruncated length. *)
Lemma long_entrypoint_overruns {K : GuestHost} fmt_ms g ep t0 t1 t2 t3 :
  0 <= kmsg_fd g -> (994 <= length ep)%nat ->
  run_entrypoint fmt_ms ep t0 t1 t2 t3 g = Fault OutOfBounds.
Proof.
  intros Hk Hl. unfold run_entrypoint. set (msg := cut 1100 _).
  assert (Hm : (1024 <= length msg)%nat).
  { unfold msg, cut. rewrite length_take, !length_app.
    change (length (bytes "VMTAINER: running entrypoint: ")) with 30%nat. lia. }
  clearbody msg. unfold mbind, G_bind, log_msg, g_gets, g_when. cbn.
  unfold mbind, G_bind. cbn. rewrite (proj2 (Z.leb_le 0 _)) by done.
  rewrite (proj2 (Z.ltb_lt 1024 _)) by (rewrite length_app; cbn [length]; lia). done.
Qed.
