(* ===== verification/SnapDev.v ===== *)
(** * The resident-snapshot device

    src/kmod/vmtainer_snap.c: a character device that gives every open file one
    buffer of kernel memory and maps it into the process.  Each operation runs
    under the file's mutex, so it is one step of the module's state.

    The kernel's allocators and its page-mapping function are the parameter
    [SnapKernel]; what the module relies on is named in [SnapKernel_ok].  Log
    messages are left out. *)
From stdpp Require Import gmap.
From S2P Require Import Prelude Memory Snapshot.
From stdpp Require Import relations options.
Local Open Scope Z_scope.

Definition EFAULT : Z := 14.
Definition EINVAL : Z := 22.
Definition ENOMEM : Z := 12.
Definition ENOTTY : Z := 25.

(** ** State *)

(** [struct vmtainer_snap_ctx]; a null [buf] is [None]. *)
Record vmtainer_snap_ctx : Type := { ctx_buf : option Z; ctx_size : Z }.
#[export] Instance vmtainer_snap_ctx_eta : Eta vmtainer_snap_ctx := fun c =>
  {| ctx_buf := ctx_buf c; ctx_size := ctx_size c |}.

(** The contexts behind [private_data] of the open files; the live vmalloc
    areas by address, with their size and contents; the mappings made, each with
    its area and length. *)
Record SnapMod : Type := {
  sm_files : gmap Z vmtainer_snap_ctx;
  sm_areas : gmap Z (Z * mem);
  sm_maps : list (Z * Z * Z)
}.
#[export] Instance SnapMod_eta : Eta SnapMod := fun s =>
  {| sm_files := sm_files s; sm_areas := sm_areas s; sm_maps := sm_maps s |}.

Definition SnapMod_start : SnapMod := {| sm_files := ∅; sm_areas := ∅; sm_maps := [] |}.

(** The kernel: whether [kzalloc] succeeds, the address and old contents
    [vmalloc_user] returns, and what [remap_vmalloc_range] returns. *)
Class SnapKernel : Type := {
  kzalloc_ok : SnapMod -> bool;
  vmalloc_user : SnapMod -> Z -> option (Z * mem);
  remap_vmalloc_range : SnapMod -> Z -> Z -> Z
}.

(** [vmalloc_user] hands out memory that is not in use; [remap_vmalloc_range]
    returns 0 or a negative error. *)
Class SnapKernel_ok (K : SnapKernel) : Prop := {
  vmalloc_fresh s size a m : vmalloc_user s size = Some (a, m) -> sm_areas s !! a = None;
  remap_result s a len : remap_vmalloc_range s a len <= 0
}.

(** ** Operations *)

(** [PAGE_ALIGN] on 64 bits. *)
Definition PAGE_ALIGN (x : Z) : Z := Z.land (u64 (x + 4095)) (u64 (Z.lnot 4095)).

Section module.
  Context {K : SnapKernel}.

Definition vmtainer_snap_open (filp : Z) (s : SnapMod) : Z * SnapMod :=
  if kzalloc_ok s then (0, s <| sm_files ::= <[filp := {| ctx_buf := None; ctx_size := 0 |}]> |>)
  else (- ENOMEM, s).

(** [vfree(ctx->buf)] and the two fields reset. *)
Definition free_buf (filp : Z) (ctx : vmtainer_snap_ctx) (s : SnapMod) : SnapMod :=
  match ctx_buf ctx with
  | Some a => s <| sm_areas ::= delete a |> <| sm_files ::= <[filp := {| ctx_buf := None; ctx_size := 0 |}]> |>
  | None => s
  end.

Definition vmtainer_snap_release (filp : Z) (s : SnapMod) : Z * SnapMod :=
  match sm_files s !! filp with
  | None => (0, s)
  | Some ctx => (0, (free_buf filp ctx s) <| sm_files ::= delete filp |>)
  end.

(** VMTAINER_SNAP_ALLOC; [req] is what [copy_from_user] copied, if it could. *)
Definition snap_alloc (filp : Z) (req : option Z) (s : SnapMod) : Z * SnapMod :=
  match sm_files s !! filp with
  | None => (- EINVAL, s)
  | Some ctx =>
    match req with
    | None => (- EFAULT, s)
    | Some req_size =>
      if req_size =? 0 then (- EINVAL, s) else
      let aligned_size := PAGE_ALIGN req_size in
      if aligned_size =? 0 then (- EINVAL, s) else
      let s := free_buf filp ctx s in
      match vmalloc_user s aligned_size with
      | None => (- ENOMEM, s)
      | Some (a, m) =>
        (0, s <| sm_areas ::= <[a := (aligned_size, mem_set m 0 (replicate (Z.to_nat aligned_size) 0))]> |>
              <| sm_files ::= <[filp := {| ctx_buf := Some a; ctx_size := aligned_size |}]> |>)
      end
    end
  end.

(** VMTAINER_SNAP_INFO: the structure copied out, if the copy succeeds. *)
Definition snap_info (filp : Z) (writable : bool) (s : SnapMod) : Z * option (Z * Z) :=
  match sm_files s !! filp with
  | None => (- EINVAL, None)
  | Some ctx => if writable then (0, Some (ctx_size ctx, 0)) else (- EFAULT, None)
  end.

(** [ioctl] by command; a command the device does not know changes nothing. *)
Inductive snap_cmd : Type :=
| VMTAINER_SNAP_ALLOC (req : option Z)
| VMTAINER_SNAP_INFO (writable : bool)
| SNAP_OTHER.

Definition vmtainer_snap_ioctl (filp : Z) (cmd : snap_cmd) (s : SnapMod) : Z * SnapMod :=
  match sm_files s !! filp with
  | None => (- EINVAL, s)
  | Some _ =>
    match cmd with
    | VMTAINER_SNAP_ALLOC req => snap_alloc filp req s
    | VMTAINER_SNAP_INFO w => ((snap_info filp w s).1, s)
    | SNAP_OTHER => (- ENOTTY, s)
    end
  end.

Definition vmtainer_snap_mmap (filp vm_pgoff vm_start vm_end : Z) (s : SnapMod) : Z * SnapMod :=
  match sm_files s !! filp with
  | None => (- EINVAL, s)
  | Some ctx =>
    if negb (vm_pgoff =? 0) then (- EINVAL, s) else
    let wanted := u64 (vm_end - vm_start) in
    match ctx_buf ctx with
    | None => (- EINVAL, s)
    | Some a =>
      if ctx_size ctx <? wanted then (- EINVAL, s) else
      let ret := remap_vmalloc_range s a wanted in
      if negb (ret =? 0) then (ret, s)
      else (0, s <| sm_maps ::= (fun l => l ++ [(filp, a, wanted)]) |>)
    end
  end.

(** ** The module as a transition system *)

(** An [unsigned long] read from user space. *)
Definition cmd_ok (cmd : snap_cmd) : Prop :=
  match cmd with VMTAINER_SNAP_ALLOC (Some req) => fits 64 req | _ => True end.

(** What processes do with the device; a file is opened under a pointer that is
    not in use. *)
Inductive snap_step : SnapMod -> SnapMod -> Prop :=
| step_open s f ret s' :
    sm_files s !! f = None -> vmtainer_snap_open f s = (ret, s') -> snap_step s s'
| step_release s f ret s' : vmtainer_snap_release f s = (ret, s') -> snap_step s s'
| step_ioctl s f cmd ret s' : cmd_ok cmd -> vmtainer_snap_ioctl f cmd s = (ret, s') -> snap_step s s'
| step_mmap s f pgoff vstart vend ret s' :
    vmtainer_snap_mmap f pgoff vstart vend s = (ret, s') -> snap_step s s'.
End module.

(** ** The buffers *)

(** The buffer of an open file: page-sized, and a live area of that size. *)
Definition owns (s : SnapMod) (f a : Z) : Prop :=
  exists ctx m, sm_files s !! f = Some ctx /\ ctx_buf ctx = Some a /\
    0 < ctx_size ctx < 2 ^ 64 /\ ctx_size ctx mod 4096 = 0 /\ sm_areas s !! a = Some (ctx_size ctx, m).

Record snap_inv (s : SnapMod) : Prop := {
  inv_buf f ctx a : sm_files s !! f = Some ctx -> ctx_buf ctx = Some a -> owns s f a;
  inv_empty f ctx : sm_files s !! f = Some ctx -> ctx_buf ctx = None -> ctx_size ctx = 0;
  inv_one f g a : owns s f a -> owns s g a -> f = g;
  inv_live a : is_Some (sm_areas s !! a) -> exists f, owns s f a
}.

Lemma PAGE_ALIGN_eq x : 0 <= x < 2 ^ 64 -> PAGE_ALIGN x = (x + 4095) mod 2 ^ 64 / 4096 * 4096.
Proof.
  intros Hx. unfold PAGE_ALIGN, u64. set (y := (x + 4095) mod 2 ^ 64).
  assert (Hy : 0 <= y < 2 ^ 64) by (apply Z.mod_pos_bound; lia).
  assert (E : Z.land y (Z.lnot 4095 mod 2 ^ 64) = Z.shiftl (Z.shiftr y 12) 12).
  { apply Z.bits_inj'. intros n Hn. rewrite Z.land_spec, Z.shiftl_spec by lia.
    change 4095 with (Z.ones 12). destruct (decide (n < 64)) as [Hl|Hl].
    - rewrite Z.mod_pow2_bits_low, Z.lnot_spec by lia. destruct (decide (n < 12)).
      + rewrite Z.ones_spec_low, (Z.testbit_neg_r _ (n - 12)) by lia. apply andb_false_r.
      + rewrite Z.ones_spec_high, Z.shiftr_spec by lia. replace (n - 12 + 12) with n by lia. apply andb_true_r.
    - rewrite Z.mod_pow2_bits_high, andb_false_r, Z.shiftr_spec by lia. replace (n - 12 + 12) with n by lia.
      symmetry. unfold y. apply Z.mod_pow2_bits_high. lia. }
  rewrite E, Z.shiftl_mul_pow2, Z.shiftr_div_pow2 by lia. done.
Qed.

(** The smallest number of whole pages that holds [x] bytes; 0 if that does not
    fit 64 bits. *)
Lemma PAGE_ALIGN_spec x : 0 < x < 2 ^ 64 ->
  (x <= 2 ^ 64 - 4096 -> x <= PAGE_ALIGN x < x + 4096 /\ PAGE_ALIGN x < 2 ^ 64 /\ PAGE_ALIGN x mod 4096 = 0) /\
  (2 ^ 64 - 4096 < x -> PAGE_ALIGN x = 0).
Proof.
  intros Hx. rewrite PAGE_ALIGN_eq by lia. split; intros Hb.
  - rewrite Z.mod_small by lia. pose proof (Z_div_mod_eq_full (x + 4095) 4096).
    pose proof (Z.mod_pos_bound (x + 4095) 4096). rewrite Z_mod_mult. lia.
  - replace (x + 4095) with (x + 4095 - 2 ^ 64 + 1 * 2 ^ 64) by lia.
    rewrite Z_mod_plus_full, Z.mod_small by lia. by rewrite Z.div_small by lia.
Qed.

Definition empty_ctx : vmtainer_snap_ctx := {| ctx_buf := None; ctx_size := 0 |}.

(** An open file with no buffer owns nothing, and nobody's ownership changes
    when such files come and go. *)
Lemma owns_files s s' f b :
  sm_areas s' = sm_areas s -> sm_files s' !! f = sm_files s !! f -> owns s' f b <-> owns s f b.
Proof. intros Ha Hf. unfold owns. by rewrite Ha, Hf. Qed.

Lemma owns_empty s f b : sm_files s !! f = Some empty_ctx -> ~ owns s f b.
Proof. intros Hf (ctx & m & Hc & Hb & _). rewrite Hf in Hc. by injection Hc as <-. Qed.

Lemma owns_closed s f b : sm_files s !! f = None -> ~ owns s f b.
Proof. intros Hf (ctx & m & Hc & _). by rewrite Hf in Hc. Qed.

(** The invariant, from what a step does to ownership. *)
Lemma snap_inv_intro s :
  (forall f ctx, sm_files s !! f = Some ctx -> ctx = empty_ctx \/ exists a, ctx_buf ctx = Some a /\ owns s f a) ->
  (forall f g a, owns s f a -> owns s g a -> f = g) ->
  (forall a, is_Some (sm_areas s !! a) -> exists f, owns s f a) -> snap_inv s.
Proof.
  intros H1 H2 H3. split; [| |exact H2|exact H3].
  - intros f ctx a Hf Hb. destruct (H1 _ _ Hf) as [->|(a' & Hb' & Ho)]; [done|]. by simplify_eq.
  - intros f ctx Hf Hb. destruct (H1 _ _ Hf) as [->|(a' & Hb' & _)]; [done|]. by simplify_eq.
Qed.

Lemma snap_inv_start : snap_inv SnapMod_start.
Proof.
  assert (N : forall f b, ~ owns SnapMod_start f b) by (intros f b; by apply owns_closed).
  split; [intros f ctx a Hf|intros f ctx Hf|intros f g a Hf|intros a [x Hf]];
    first [by apply N in Hf|cbn in Hf; by rewrite lookup_empty in Hf].
Qed.

Lemma snap_inv_file s f ctx :
  snap_inv s -> sm_files s !! f = Some ctx -> ctx = empty_ctx \/ exists a, ctx_buf ctx = Some a /\ owns s f a.
Proof.
  intros Hi Hf. destruct ctx as [[a|] n].
  - right. exists a. split; [done|]. by eapply inv_buf.
  - left. assert (n = 0) as -> by (by apply (inv_empty _ Hi _ _ Hf)). done.
Qed.

(** A file whose buffer is none of the live areas, or that is closed or has no
    buffer, may be replaced by one without a buffer, or removed. *)
Lemma snap_inv_idle s s' f :
  snap_inv s -> (forall b, ~ owns s f b) -> sm_areas s' = sm_areas s ->
  (sm_files s' !! f = Some empty_ctx \/ sm_files s' !! f = None) ->
  (forall g, g <> f -> sm_files s' !! g = sm_files s !! g) -> snap_inv s'.
Proof.
  intros Hi Hn Ha Hf Ho.
  assert (E : forall g b, g <> f -> owns s' g b <-> owns s g b) by (intros g b Hg; apply owns_files; auto).
  assert (N : forall b, ~ owns s' f b).
  { intros b. destruct Hf as [Hf|Hf]; [by apply owns_empty|by apply owns_closed]. }
  apply snap_inv_intro.
  - intros g ctx Hg. destruct (decide (g = f)) as [->|Hne].
    + destruct Hf as [Hf|Hf]; rewrite Hf in Hg; [|done]. injection Hg as <-. by left.
    + rewrite Ho in Hg by done. destruct (snap_inv_file _ _ _ Hi Hg) as [->|(a & Hb & Hw)]; [by left|].
      right. exists a. split; [done|]. by apply E.
  - intros g h a Hg Hh. destruct (decide (g = f)) as [->|Hgf]; [by destruct (N a)|].
    destruct (decide (h = f)) as [->|Hhf]; [by destruct (N a)|].
    apply E in Hg, Hh; [|done..]. by apply (inv_one _ Hi g h a).
  - intros a Hl. rewrite Ha in Hl. destruct (inv_live _ Hi a Hl) as [g Hg]. exists g.
    apply E; [|done]. intros ->. by destruct (Hn a).
Qed.

(** Freeing the buffer of a file leaves it empty and keeps the invariant. *)
Lemma free_buf_spec s f ctx :
  snap_inv s -> sm_files s !! f = Some ctx ->
  snap_inv (free_buf f ctx s) /\ sm_files (free_buf f ctx s) !! f = Some empty_ctx /\
  sm_maps (free_buf f ctx s) = sm_maps s /\
  (forall g, g <> f -> sm_files (free_buf f ctx s) !! g = sm_files s !! g) /\
  (forall g a, g <> f -> owns s g a -> sm_areas (free_buf f ctx s) !! a = sm_areas s !! a).
Proof.
  intros Hi Hf. destruct (snap_inv_file _ _ _ Hi Hf) as [->|(a & Hb & Hw)]; [done|].
  unfold free_buf. rewrite Hb. set (s' := s <| sm_areas ::= _ |> <| sm_files ::= _ |>).
  assert (F : sm_files s' !! f = Some empty_ctx) by apply lookup_insert_eq.
  assert (O : forall g, g <> f -> sm_files s' !! g = sm_files s !! g) by (intros g Hg; by apply lookup_insert_ne).
  assert (A : forall b, b <> a -> sm_areas s' !! b = sm_areas s !! b) by (intros b Hne; by apply lookup_delete_ne).
  assert (A0 : sm_areas s' !! a = None) by apply lookup_delete_eq.
  assert (E : forall g b, g <> f -> owns s g b -> owns s' g b).
  { intros g b Hg (c & m & H1 & H2 & H3). exists c, m. rewrite O by done. split; [done|]. split; [done|].
    rewrite A; [done|]. intros ->. apply Hg. apply (inv_one _ Hi g f a); [|done]. by exists c, m. }
  assert (E' : forall g b, owns s' g b -> g <> f /\ owns s g b).
  { intros g b Hg. destruct (decide (g = f)) as [->|Hne]; [by apply owns_empty in Hg|]. split; [done|].
    destruct Hg as (c & m & H1 & H2 & H3 & H4 & H5). exists c, m. rewrite <- O by done.
    do 4 (split; [done|]). destruct (decide (b = a)) as [->|Hb']; [by rewrite A0 in H5|]. by rewrite <- A. }
  split; [|split_and!; [done..|]].
  - apply snap_inv_intro.
    + intros g c Hg. destruct (decide (g = f)) as [->|Hne]; [rewrite F in Hg; injection Hg as <-; by left|].
      rewrite O in Hg by done. destruct (snap_inv_file _ _ _ Hi Hg) as [->|(b & Hb1 & Hb2)]; [by left|].
      right. exists b. auto.
    + intros g h b [_ Hg]%E' [_ Hh]%E'. by apply (inv_one _ Hi g h b).
    + intros b Hl. destruct (decide (b = a)) as [->|Hne]; [rewrite A0 in Hl; by destruct Hl|].
      rewrite A in Hl by done. destruct (inv_live _ Hi b Hl) as [g Hg]. exists g. apply E; [|done].
      intros ->. destruct Hg as (c & m & H1 & H2 & _). rewrite Hf in H1. injection H1 as <-. congruence.
  - intros g b Hg (c & m & H1 & H2 & H3). apply A. intros ->. apply Hg.
    apply (inv_one _ Hi g f a); [|done]. by exists c, m.
Qed.

(** A fresh area given to an empty file. *)
Lemma give_buf_inv s f a n m :
  snap_inv s -> sm_files s !! f = Some empty_ctx -> sm_areas s !! a = None ->
  0 < n < 2 ^ 64 -> n mod 4096 = 0 ->
  snap_inv (s <| sm_areas ::= <[a := (n, m)]> |>
              <| sm_files ::= <[f := {| ctx_buf := Some a; ctx_size := n |}]> |>).
Proof.
  intros Hi Hf Ha Hn Hm. set (s' := s <| sm_areas ::= _ |> <| sm_files ::= _ |>).
  assert (F : sm_files s' !! f = Some {| ctx_buf := Some a; ctx_size := n |}) by apply lookup_insert_eq.
  assert (O : forall g, g <> f -> sm_files s' !! g = sm_files s !! g) by (intros g Hg; by apply lookup_insert_ne).
  assert (A : forall b, b <> a -> sm_areas s' !! b = sm_areas s !! b) by (intros b Hne; by apply lookup_insert_ne).
  assert (A1 : sm_areas s' !! a = Some (n, m)) by apply lookup_insert_eq.
  assert (W : owns s' f a) by (by exists {| ctx_buf := Some a; ctx_size := n |}, m).
  assert (E : forall g b, g <> f -> owns s' g b <-> owns s g b).
  { intros g b Hg. unfold owns. rewrite O by done. split; intros (c & x & H1 & H2 & H3 & H4 & H5); exists c, x.
    - do 4 (split; [done|]). destruct (decide (b = a)) as [->|Hb]; [|by rewrite <- A].
      destruct (inv_buf _ Hi _ _ _ H1 H2) as (c' & x' & _ & _ & _ & _ & H5'). congruence.
    - do 4 (split; [done|]). rewrite A; [done|]. intros ->. congruence. }
  assert (D : forall g b, owns s' g b -> (g = f /\ b = a) \/ (g <> f /\ b <> a /\ owns s g b)).
  { intros g b Hg. destruct (decide (g = f)) as [->|Hne].
    - left. split; [done|]. destruct Hg as (c & x & H1 & H2 & _). rewrite F in H1. injection H1 as <-. by injection H2.
    - right. apply E in Hg; [|done]. split_and!; [done| |done]. intros ->.
      destruct Hg as (c & x & _ & _ & _ & _ & H5). congruence. }
  apply snap_inv_intro.
  - intros g c Hg. destruct (decide (g = f)) as [->|Hne].
    + rewrite F in Hg. injection Hg as <-. right. by exists a.
    + rewrite O in Hg by done. destruct (snap_inv_file _ _ _ Hi Hg) as [->|(b & Hb1 & Hb2)]; [by left|].
      right. exists b. split; [done|]. by apply E.
  - intros g h b Hg%D Hh%D. destruct Hg as [[-> ->]|(_ & Hb & Hg)], Hh as [[-> ?]|(_ & Hb' & Hh)]; try done.
    by apply (inv_one _ Hi g h b).
  - intros b Hl. destruct (decide (b = a)) as [->|Hne]; [by exists f|]. rewrite A in Hl by done.
    destruct (inv_live _ Hi b Hl) as [g Hg]. exists g. apply E; [|done]. intros ->. by apply owns_empty in Hg.
Qed.

Section device.
  Context {K : SnapKernel} {HK : SnapKernel_ok K}.

Lemma snap_alloc_inv s f req :
  snap_inv s -> cmd_ok (VMTAINER_SNAP_ALLOC req) -> snap_inv (snap_alloc f req s).2.
Proof using HK.
  intros Hi Hc. unfold snap_alloc. destruct (sm_files s !! f) as [ctx|] eqn:Hf; [|done].
  destruct req as [n|]; [|done]. destruct (n =? 0) eqn:E0; [done|]. cbv zeta.
  destruct (PAGE_ALIGN n =? 0) eqn:E1; [done|]. apply Z.eqb_neq in E0, E1.
  destruct (free_buf_spec s f ctx Hi Hf) as (Hi' & Hf' & _).
  destruct (vmalloc_user _ _) as [[a m]|] eqn:Ev; [|done].
  unfold cmd_ok, fits in Hc. destruct (PAGE_ALIGN_spec n ltac:(lia)) as [H1 H2].
  assert (n <= 2 ^ 64 - 4096) as Hn by (destruct (Z.le_gt_cases n (2 ^ 64 - 4096)); [done|]; by rewrite H2 in E1 by lia).
  destruct (H1 Hn) as (? & ? & ?). apply give_buf_inv; try done; [by eapply vmalloc_fresh|lia].
Qed.

Lemma snap_step_inv s s' : snap_step s s' -> snap_inv s -> snap_inv s'.
Proof using HK.
  destruct 1 as [s f ret s' Hf E|s f ret s' E|s f cmd ret s' Hc E|s f pg v0 v1 ret s' E]; intros Hi.
  - unfold vmtainer_snap_open in E. destruct (kzalloc_ok s); injection E as _ <-; [|done].
    apply (snap_inv_idle s _ f Hi); [by intros b; apply owns_closed|done| |].
    + left. apply lookup_insert_eq.
    + intros g Hg. by apply lookup_insert_ne.
  - unfold vmtainer_snap_release in E. destruct (sm_files s !! f) as [ctx|] eqn:Hf; injection E as _ <-; [|done].
    destruct (free_buf_spec s f ctx Hi Hf) as (Hi' & Hf' & _).
    apply (snap_inv_idle _ _ f Hi'); [by intros b; apply owns_empty|done| |].
    + right. apply lookup_delete_eq.
    + intros g Hg. by apply lookup_delete_ne.
  - unfold vmtainer_snap_ioctl in E. destruct (sm_files s !! f) eqn:Hf; [|by injection E as _ <-].
    destruct cmd as [req|w|]; [|by injection E as _ <-..].
    apply (f_equal snd) in E. cbn [snd] in E. rewrite <- E. by apply snap_alloc_inv.
  - assert (Hm : sm_files s' = sm_files s /\ sm_areas s' = sm_areas s).
    { unfold vmtainer_snap_mmap in E. repeat (case_match; simplify_eq/=; try done). }
    destruct Hm as [Hm1 Hm2]. destruct Hi as [I1 I2 I3 I4].
    split; unfold owns in *; rewrite ?Hm1, ?Hm2; assumption.
Qed.

(** C32: the device neither leaks nor shares memory.  Whatever sequence of opens,
    ioctls, mmaps and closes processes perform, every buffer is a live area of a
    positive whole number of pages whose size is the one recorded, no two files
    have the same buffer, every live area belongs to an open file, and so none is
    left when all files are closed. *)
Theorem snap_device_invariant s :
  rtc snap_step SnapMod_start s ->
  snap_inv s /\ (sm_files s = ∅ -> sm_areas s = ∅).
Proof using HK.
  intros Hr. assert (Hi : snap_inv s).
  { remember SnapMod_start as s0 eqn:E0. assert (H0 : snap_inv s0) by (rewrite E0; exact snap_inv_start).
    clear E0. induction Hr as [|x y z Hs _ IH]; [done|]. apply IH. by eapply snap_step_inv. }
  split; [exact Hi|]. intros He. apply map_eq. intros a. rewrite lookup_empty.
  destruct (sm_areas s !! a) as [x|] eqn:Ea; [|done]. destruct (inv_live _ Hi a) as [f Hf]; [by rewrite Ea|].
  apply owns_closed in Hf; [done|]. by rewrite He, lookup_empty.
Qed.

(** C33: allocating, asking and mapping, on an open file, by the outcome of each
    call the module makes.  A request that cannot be read from the process gives
    EFAULT, one for no bytes or for more than fit into whole pages EINVAL, and both
    change nothing.  Any other request frees the file's old buffer and asks
    [vmalloc_user] for the smallest whole number of pages: if it has no memory the
    request gives ENOMEM and the file is left without a buffer; if it returns an
    area, the request gives 0, the file has that area, zeroed, as its buffer and
    INFO reports its size.  In both cases no other file's buffer changed.  A
    mapping of the new buffer reaches the kernel exactly if it starts at offset
    0 and is not longer than the buffer; a shorter one is accepted as well,
    although the comment in [vmtainer_snap_mmap] says that only the whole buffer
    can be mapped. *)
Theorem snap_alloc_spec s f ctx req :
  snap_inv s -> sm_files s !! f = Some ctx -> (forall n, req = Some n -> fits 64 n) ->
  let '(ret, s') := vmtainer_snap_ioctl f (VMTAINER_SNAP_ALLOC req) s in
  match req with
  | None => ret = - EFAULT /\ s' = s
  | Some n =>
    (n = 0 \/ 2 ^ 64 - 4096 < n -> ret = - EINVAL /\ s' = s) /\
    (0 < n <= 2 ^ 64 - 4096 -> exists size, n <= size < n + 4096 /\ size mod 4096 = 0 /\
      (forall g a, g <> f -> owns s g a -> sm_areas s' !! a = sm_areas s !! a) /\
      match vmalloc_user (free_buf f ctx s) size with
      | None => ret = - ENOMEM /\ s' = free_buf f ctx s /\ sm_files s' !! f = Some empty_ctx
      | Some (a, _) =>
        ret = 0 /\ sm_files s' !! f = Some {| ctx_buf := Some a; ctx_size := size |} /\
        (exists m, sm_areas s' !! a = Some (size, m) /\ forall x, 0 <= x < size -> m x = 0) /\
        snap_info f true s' = (0, Some (size, 0)) /\
        (forall off vstart vend, off <> 0 -> vmtainer_snap_mmap f off vstart vend s' = (- EINVAL, s')) /\
        forall vstart vend, 0 <= vend - vstart < 2 ^ 64 ->
          vmtainer_snap_mmap f 0 vstart vend s' =
            if size <? vend - vstart then (- EINVAL, s') else
            let r := remap_vmalloc_range s' a (vend - vstart) in
            if negb (r =? 0) then (r, s') else (0, s' <| sm_maps ::= (fun l => l ++ [(f, a, vend - vstart)]) |>)
      end)
  end.
Proof using HK.
  intros Hi Hf Hq. unfold vmtainer_snap_ioctl. rewrite Hf. unfold snap_alloc. rewrite Hf.
  destruct req as [n0|]; [|done]. specialize (Hq n0 eq_refl). unfold fits in Hq.
  destruct (decide (n0 = 0)) as [->|Hr0]; [cbn; split; [done|lia]|].
  rewrite (proj2 (Z.eqb_neq n0 0)) by done. cbv zeta. destruct (PAGE_ALIGN_spec n0 ltac:(lia)) as [H1 H2].
  destruct (decide (2 ^ 64 - 4096 < n0)) as [Hb|Hb]; [rewrite H2 by done; cbn; split; [done|lia]|].
  destruct (H1 ltac:(lia)) as (Hs & Hs64 & Hm). rewrite (proj2 (Z.eqb_neq (PAGE_ALIGN n0) 0)) by lia.
  set (n := PAGE_ALIGN n0) in *. clearbody n.
  destruct (free_buf_spec s f ctx Hi Hf) as (Hi' & Hf' & _ & _ & Ho).
  destruct (vmalloc_user (free_buf f ctx s) n) as [[a m]|] eqn:Ev.
  2: { split; [lia|]. intros _. exists n. rewrite Ev. split; [exact Hs|]. by split_and!. }
  pose proof (vmalloc_fresh _ _ _ _ Ev) as Hfr. set (m0 := mem_set m 0 _).
  set (s'' := (free_buf f ctx s) <| sm_areas ::= _ |> <| sm_files ::= _ |>). split; [lia|]. intros _. exists n. rewrite Ev.
  assert (F : sm_files s'' !! f = Some {| ctx_buf := Some a; ctx_size := n |}) by apply lookup_insert_eq.
  split; [lia|]. split; [done|]. split.
  { intros g b Hg Hw. rewrite <- (Ho g b Hg Hw). apply lookup_insert_ne. intros <-.
    pose proof Hw as (c & x & _ & _ & _ & _ & Hx). rewrite <- (Ho g a Hg Hw) in Hx. congruence. }
  split; [done|]. split; [exact F|]. split_and!.
  - exists m0. split; [apply lookup_insert_eq|]. intros x Hx. unfold m0.
    rewrite mem_set_inside by (rewrite length_replicate; lia). apply nth_lookup_Some. rewrite lookup_replicate. lia.
  - unfold snap_info. by rewrite F.
  - intros off v0 v1 Hoff. unfold vmtainer_snap_mmap. rewrite F, (proj2 (Z.eqb_neq off 0)) by done. done.
  - intros v0 v1 Hv. unfold vmtainer_snap_mmap. rewrite F. cbn [ctx_buf ctx_size Z.eqb negb].
    unfold u64. by rewrite Z.mod_small by lia.
Qed.
End device.
