(* ===== verification/SnapBench.v ===== *)
(** * The restore benchmark

    src/kmod/snap_bench.c: loads a snapshot file into the resident-snapshot
    device, finds the bitmap and the RAM in it by fixed header offsets, and times
    restoring the marked pages from the device, from a mapped file and from a
    buffer the file was read into.

    The operating system is the parameter [BenchHost].  A buffer or mapping is a
    memory with its size; an access outside it is a fault, and so is one to a page
    of a mapping that the file no longer reaches.  A program ends with a
    value, by [exit], in a fault, or, where a loop has used up its fuel, not at
    all ([Spins]).  Printing is left out, but for the statistics. *)
From S2P Require Import Prelude Memory Codec State Snapshot.
From stdpp Require Import options.

Definition PAGE_SZ : Z := 4096.

(** Header field offsets. *)
Definition OFF_MAGIC : Z := 0.
Definition OFF_VERSION : Z := 8.
Definition OFF_RAM_MB : Z := 12.
Definition OFF_CPUID_NENT : Z := 3812.
Definition OFF_NUM_MSRS : Z := 3816.
Definition OFF_XSAVE_SIZE : Z := 3820.
Definition OFF_BM_BYTES : Z := 3992.
Definition HDR_SIZE : Z := 4000.
Definition SIZEOF_CPUID_ENTRY : Z := 40.
Definition SIZEOF_MSR_ENTRY : Z := 16.

Record snap_layout : Type := {
  total_size : Z; page_size : Z; bitmap_offset : Z; bitmap_size : Z; ram_offset : Z; ram_size : Z
}.

(** A mapped object. *)
Record region : Type := { rg_mem : mem; rg_size : Z }.

(** ** Finding the sections *)

Definition load (base : region) (a : Z) (n : nat) : result Z := ram_load_le (rg_size base) (rg_mem base) a n.

(** [parse_snapshot]: [None] is [-1].  [HDR_SIZE + xsave_size] is a 32-bit sum. *)
Definition bench_parse_snapshot (base : region) (file_size : Z) : result (option snap_layout) :=
  if file_size <? HDR_SIZE then Ok None else
  magic ← load base OFF_MAGIC 8;
  version ← load base OFF_VERSION 4;
  ram_mb ← load base OFF_RAM_MB 4;
  cpuid_nent ← load base OFF_CPUID_NENT 4;
  num_msrs ← load base OFF_NUM_MSRS 4;
  xsave_size ← load base OFF_XSAVE_SIZE 4;
  bm_bytes ← load base OFF_BM_BYTES 4;
  if negb (magic =? SNAP_MAGIC) then Ok None else
  let bm_off := u64 (u64 (u32 (HDR_SIZE + xsave_size) + u64 (cpuid_nent * SIZEOF_CPUID_ENTRY)) +
                     u64 (num_msrs * SIZEOF_MSR_ENTRY)) in
  let ram_off := u64 (bm_off + bm_bytes) in
  let rsize := u64 (u64 (ram_mb * 1024) * 1024) in
  if file_size <? u64 (ram_off + rsize) then Ok None else
  Ok (Some {| total_size := file_size; page_size := PAGE_SZ; bitmap_offset := bm_off;
              bitmap_size := bm_bytes; ram_offset := ram_off; ram_size := rsize |}).

(** ** Restoring *)

(** The pages of the loop of [sparse_restore], from a [base] in which the bitmap
    is at [bm] and the RAM at [ram]. *)
Fixpoint sparse_pages (base : region) (bm ram : Z) (dest_size psize : Z) (pgs : list Z) (dest : mem) : result mem :=
  match pgs with
  | [] => Ok dest
  | i :: pgs' =>
    b ← load base (bm + i / 8) 1;
    if has_bits b (Z.shiftl 1 (i mod 8)) then
      bs ← ram_load (rg_size base) (rg_mem base) (ram + i * psize) psize;
      dest ← ram_store dest_size dest (i * psize) bs;
      sparse_pages base bm ram dest_size psize pgs' dest
    else sparse_pages base bm ram dest_size psize pgs' dest
  end.

Definition sparse_restore (base : region) (l : snap_layout) (dest_size : Z) (dest : mem) : result mem :=
  let pages := ram_size l / page_size l in
  let max_pages := u64 (bitmap_size l * 8) in
  let pages := if max_pages <? pages then max_pages else pages in
  sparse_pages base (bitmap_offset l) (ram_offset l) dest_size (page_size l) (seqZ 0 pages) dest.

(** ** The program *)

Inductive bench_call : Type :=
| B_stat (path : list Z)
| B_open (path : list Z)
| B_close (fd : Z)
| B_snap_alloc (fd size : Z)
| B_snap_info (fd : Z)
| B_mmap (fd len : Z)                  (* [-1]: anonymous *)
| B_munmap (len : Z)
| B_read (fd count : Z)
| B_memfd_create
| B_ftruncate (fd len : Z)
| B_madvise_dontneed (len : Z)
| B_fadvise_dontneed (fd : Z)
| B_calloc (n : Z)
| B_clock
| B_stats (label : string) (mn mx sum : Z) (n : Z).

Definition btrace : Type := list (bench_call * reply).

Class BenchHost : Type := { breply_of : btrace -> bench_call -> reply }.

(** The guest RAM restored into, and the calls made. *)
Record Bench : Type := { b_ram : mem; b_trace : btrace }.
#[export] Instance Bench_eta : Eta Bench := fun s => {| b_ram := b_ram s; b_trace := b_trace s |}.

Inductive bres (A : Type) : Type :=
| Done (a : A) (s : Bench)
| Exit (code : Z) (s : Bench)
| Fails (f : fault)
| Spins.
Global Arguments Done {A} _ _.
Global Arguments Exit {A} _ _.
Global Arguments Fails {A} _.
Global Arguments Spins {A}.

Definition B (A : Type) : Type := Bench -> bres A.
#[export] Instance B_ret : MRet B := fun _ a s => Done a s.
#[export] Instance B_bind : MBind B := fun _ _ k c s =>
  match c s with
  | Done a s' => k a s'
  | Exit code s' => Exit code s'
  | Fails f => Fails f
  | Spins => Spins
  end.

Definition b_pure {A} (r : result A) : B A := fun s =>
  match r with Ok a => Done a s | Fault f => Fails f end.

Definition spins {A} : B A := fun _ => Spins.

(** [die] and [exit(EXIT_FAILURE)]. *)
Definition die {A} : B A := fun s => Exit 1 s.

Definition get_ram : B mem := fun s => Done (b_ram s) s.
Definition set_ram (m : mem) : B unit := fun s => Done () (s <| b_ram := m |>).

Section bench.
  Context {H : BenchHost}.

Definition bsys (c : bench_call) : B reply := fun s =>
  let r := breply_of (b_trace s) c in Done r (s <| b_trace ::= (fun t => t ++ [(c, r)]) |>).
Definition bsys_ (c : bench_call) : B unit := bsys c ;; mret ().

(** A call that must not fail. *)
Definition must (c : bench_call) : B reply :=
  r ← bsys c; if r_ret r <? 0 then die else mret r.

Definition ns_now : B Z :=
  r ← must B_clock;
  mret (match r_data r with sec :: nsec :: _ => u64 (u64 (u64 sec * 1000000000) + u64 nsec) | _ => 0 end).

(** The loop of [print_stats]. *)
Definition stats (t0 : Z) (times : list Z) : Z * Z * Z :=
  foldl (fun '(mn, mx, sum) t =>
    (if t <? mn then t else mn, if mx <? t then t else mx, u64 (sum + t))) (t0, t0, 0) times.

Definition print_stats (label : string) (times : list Z) : B unit :=
  match times with
  | [] => b_pure (Fault OutOfBounds)
  | t0 :: _ =>
    let '(mn, mx, sum) := stats t0 times in
    bsys_ (B_stats label mn mx sum (Z.of_nat (length times)))
  end.

Definition alloc_guest_ram (size : Z) : B unit :=
  fd ← must B_memfd_create;
  must (B_ftruncate (r_ret fd) size) ;;
  p ← bsys (B_mmap (r_ret fd) size);
  if r_ret p =? -1 then die else
  bsys_ (B_close (r_ret fd)) ;;
  set_ram mem_zero.

(** The mapping is shared, so its pages come back with the contents they had. *)
Definition reset_guest_ram (size : Z) : B unit := must (B_madvise_dontneed size) ;; mret ().

(** The loops of [copy_all] and [read_all] into a buffer of [size] bytes, from
    offset [d]; [None] where the file ends early or a [read] fails.  The bytes a
    [read] stores must lie in the buffer. *)
Fixpoint read_loop (fuel : nat) (fd size : Z) (buf : mem) (d left : Z) : B (option mem) :=
  if 0 <? left then
    match fuel with
    | O => spins
    | S fuel' =>
      r ← bsys (B_read fd left);
      if r_ret r <? 0 then
        if r_errno r =? EINTR then read_loop fuel' fd size buf d left else mret None
      else if r_ret r =? 0 then mret None
      else
        buf ← b_pure (ram_store size buf d (resize (Z.to_nat (r_ret r)) 0 (r_data r)));
        read_loop fuel' fd size buf (d + r_ret r) (left - r_ret r)
    end
  else mret (Some buf).

Definition or_die (c : B (option mem)) : B mem :=
  o ← c; match o with Some m => mret m | None => die end.

(** [dst] and [buf] with the size of the object they are. *)
Definition copy_all (fuel : nat) (fd : Z) (dst : region) (len : Z) : B mem :=
  or_die (read_loop fuel fd (rg_size dst) (rg_mem dst) 0 len).
Definition read_all (fuel : nat) (fd : Z) (buf : region) (len : Z) : B (option mem) :=
  read_loop fuel fd (rg_size buf) (rg_mem buf) 0 len.

(** One iteration: reset, and the time of a restore. *)
Definition bench_pass (base : region) (l : snap_layout) : B Z :=
  reset_guest_ram (ram_size l) ;;
  t0 ← ns_now;
  dest ← get_ram;
  dest ← b_pure (sparse_restore base l (ram_size l) dest);
  set_ram dest ;;
  t1 ← ns_now;
  mret (u64 (t1 - t0)).

Fixpoint iterate (n : nat) (pass : B Z) : B (list Z) :=
  match n with
  | O => mret []
  | S n' => t ← pass; ts ← iterate n' pass; mret (t :: ts)
  end.

(** [calloc] of the array of times. *)
Definition with_times (iterations : nat) (c : B (list Z)) (label : string) : B unit :=
  p ← bsys (B_calloc (Z.of_nat iterations));
  if r_ret p =? 0 then die else
  ts ← c;
  print_stats label ts.

Definition bench_kmod (l : snap_layout) (kmod_base : region) (iterations : nat) : B unit :=
  with_times iterations (iterate iterations (bench_pass kmod_base l)) "kmod mmap (warm)".

(** [mmap] of the file: the reply's data are the contents it has then.  Of a file
    that has become shorter than [file_size] only the pages up to its last one can
    be read: an access behind them is a SIGBUS, here a fault. *)
Definition mapped_size (file_size : Z) (contents : list Z) : Z :=
  Z.min file_size ((Z.of_nat (length contents) + 4095) / 4096 * 4096).

Definition map_file (fd file_size : Z) : B region :=
  p ← bsys (B_mmap fd file_size);
  if r_ret p =? -1 then die
  else mret {| rg_mem := mem_of (r_data p); rg_size := mapped_size file_size (r_data p) |}.

Definition bench_file_mmap (path : list Z) (file_size : Z) (l : snap_layout) (iterations : nat) (cold : bool) : B unit :=
  if cold then
    with_times iterations (iterate iterations (
      fd ← must (B_open path);
      bsys_ (B_fadvise_dontneed (r_ret fd)) ;;
      src ← map_file (r_ret fd) file_size;
      t ← bench_pass src l;
      bsys_ (B_munmap file_size) ;;
      bsys_ (B_close (r_ret fd)) ;;
      mret t)) "file mmap (cold)"
  else
    with_times iterations (
      fd ← must (B_open path);
      src ← map_file (r_ret fd) file_size;
      ts ← iterate iterations (bench_pass src l);
      bsys_ (B_munmap file_size) ;;
      bsys_ (B_close (r_ret fd)) ;;
      mret ts) "file mmap (warm)".

(** An anonymous buffer. *)
Definition map_anon (len : Z) : B region :=
  p ← bsys (B_mmap (-1) len);
  if r_ret p =? -1 then die else mret {| rg_mem := mem_zero; rg_size := len |}.

Definition bench_file_read (fuel : nat) (path : list Z) (file_size : Z) (l : snap_layout) (iterations : nat)
    (cold : bool) : B unit :=
  if cold then
    with_times iterations (iterate iterations (
      fd ← must (B_open path);
      bsys_ (B_fadvise_dontneed (r_ret fd)) ;;
      buf ← map_anon file_size;
      m ← or_die (read_all fuel (r_ret fd) buf file_size);
      bsys_ (B_close (r_ret fd)) ;;
      t ← bench_pass {| rg_mem := m; rg_size := file_size |} l;
      bsys_ (B_munmap file_size) ;;
      mret t)) "file read (cold)"
  else
    with_times iterations (
      buf ← map_anon file_size;
      fd ← must (B_open path);
      m ← or_die (read_all fuel (r_ret fd) buf file_size);
      bsys_ (B_close (r_ret fd)) ;;
      ts ← iterate iterations (bench_pass {| rg_mem := m; rg_size := file_size |} l);
      bsys_ (B_munmap file_size) ;;
      mret ts) "file read (warm)".

Definition iterations : nat := 10.

(** What [main] returns. *)
Definition bench_main (fuel : nat) (argv : list (list Z)) : B Z :=
  match argv with
  | _ :: snap_path :: _ =>
    st ← must (B_stat snap_path);
    let file_size := u64 (hd 0 (r_data st)) in
    dev ← must (B_open (bytes "/dev/vmtainer_snap"));
    must (B_snap_alloc (r_ret dev) file_size) ;;
    info ← must (B_snap_info (r_ret dev));
    let size := hd 0 (r_data info) in
    p ← bsys (B_mmap (r_ret dev) size);
    if r_ret p =? -1 then die else
    fd ← must (B_open snap_path);
    t0 ← ns_now;
    m ← copy_all fuel (r_ret fd) {| rg_mem := mem_of (r_data p); rg_size := size |} file_size;
    t1 ← ns_now;
    bsys_ (B_close (r_ret fd)) ;;
    let kmod_base := {| rg_mem := m; rg_size := size |} in
    lo ← b_pure (bench_parse_snapshot kmod_base file_size);
    match lo with
    | None => mret 1
    | Some l =>
      if ram_size l =? 0 then mret 1 else
      alloc_guest_ram (ram_size l) ;;
      bench_kmod l kmod_base iterations ;;
      bench_file_mmap snap_path file_size l iterations false ;;
      bench_file_mmap snap_path file_size l iterations true ;;
      bench_file_read fuel snap_path file_size l iterations false ;;
      bench_file_read fuel snap_path file_size l iterations true ;;
      bsys_ (B_munmap size) ;;
      bsys_ (B_close (r_ret dev)) ;;
      bsys_ (B_munmap (ram_size l)) ;;
      mret 0
    end
  | _ => mret 1
  end.
End bench.
