(* ===== verification/SnapToolFacts.v ===== *)
(** * The benchmark restores the VMM's snapshots

    The fixed offsets of snap_bench.c are those of the VMM's header, so it finds
    the bitmap and the RAM of every snapshot file; what it restores is what the
    VMM's copy threads restore; and no contents of a file make it access memory
    outside its mappings, as long as the file is not truncated meanwhile. *)
From S2P Require Import Prelude Memory Codec State Snapshot SnapFile CopyWorkers CopyFacts RestoreFacts SnapBench.
From stdpp Require Import options.

(** ** Fields at fixed offsets *)

Lemma mem_get_slice m f off n :
  mem_get m 0 (Z.of_nat (length f)) = f -> 0 <= off -> 0 <= n -> off + n <= Z.of_nat (length f) ->
  mem_get m off n = take (Z.to_nat n) (drop (Z.to_nat off) f).
Proof.
  intros Hf Ho Hn Hl. apply list_eq_same_length with (Z.to_nat n);
    [rewrite length_take, length_drop; lia|by rewrite mem_get_length|].
  intros i x y Hi Hx Hy. rewrite mem_get_lookup in Hx by lia. injection Hx as <-.
  rewrite lookup_take_lt, lookup_drop in Hy by lia. rewrite <- Hf, mem_get_lookup in Hy by lia.
  injection Hy as <-. f_equal. lia.
Qed.

(** The fields the benchmark reads, as fields of the structure. *)
Lemma header_fields l :
  let h := c_get SnapshotHeader_codec l in
  h_magic h = le_dec (take 8 (drop (Z.to_nat OFF_MAGIC) l)) /\
  h_ram_mb h = le_dec (take 4 (drop (Z.to_nat OFF_RAM_MB) l)) /\
  h_cpuid_nent h = le_dec (take 4 (drop (Z.to_nat OFF_CPUID_NENT) l)) /\
  h_num_msrs h = le_dec (take 4 (drop (Z.to_nat OFF_NUM_MSRS) l)) /\
  h_xsave_size h = le_dec (take 4 (drop (Z.to_nat OFF_XSAVE_SIZE) l)) /\
  h_bitmap_bytes h = le_dec (take 4 (drop (Z.to_nat OFF_BM_BYTES) l)).
Proof.
  unfold SnapshotHeader_codec, KvmState_codec, DevState_codec, VqState_codec.
  cbn [c_get cvia cpair cint craw carray c_size h_magic h_ram_mb h_cpuid_nent h_num_msrs h_xsave_size h_bitmap_bytes].
  rewrite !drop_drop. split_and!; do 3 f_equal.
Qed.

Lemma load_ok base a n :
  0 <= a -> a + Z.of_nat n <= rg_size base ->
  load base a n = Ok (le_dec (mem_get (rg_mem base) a (Z.of_nat n))).
Proof. intros Ha Hn. unfold load, ram_load_le. by rewrite ram_load_ok by lia. Qed.

(** What the parser makes of a file mapped at [base], by the header's fields. *)
Definition layout_of (h : SnapshotHeader) (file_size : Z) : snap_layout :=
  let bm := u32 (HDR_SIZE + h_xsave_size h) + h_cpuid_nent h * 40 + h_num_msrs h * 16 in
  {| total_size := file_size; page_size := PAGE_SZ; bitmap_offset := bm; bitmap_size := h_bitmap_bytes h;
     ram_offset := bm + h_bitmap_bytes h; ram_size := h_ram_mb h * 1048576 |}.

Lemma le_dec_4 (l : list Z) : Forall byte_ok l -> fits 32 (le_dec (take 4 l)).
Proof.
  intros Hl. pose proof (le_dec_fits (take 4 l) ltac:(by apply Forall_take)) as Hf.
  unfold fits in *. pose proof (length_take l 4).
  assert (2 ^ (8 * Z.of_nat (length (take 4 l))) <= 2 ^ 32) by (apply Z.pow_le_mono_r; lia). lia.
Qed.

Lemma u64_id x : 0 <= x < 2 ^ 64 -> u64 x = x.
Proof. apply Z.mod_small. Qed.

Lemma bench_parse_eq base f :
  mem_get (rg_mem base) 0 (Z.of_nat (length f)) = f -> Z.of_nat (length f) <= rg_size base ->
  Forall byte_ok f ->
  let h := c_get SnapshotHeader_codec f in let l := layout_of h (Z.of_nat (length f)) in
  bench_parse_snapshot base (Z.of_nat (length f)) =
    Ok (if Z.of_nat (length f) <? HDR_SIZE then None
        else if negb (h_magic h =? SNAP_MAGIC) then None
        else if Z.of_nat (length f) <? ram_offset l + ram_size l then None else Some l).
Proof.
  intros Hf Hl Hb h l. unfold bench_parse_snapshot. destruct (Z.of_nat (length f) <? HDR_SIZE) eqn:E; [done|].
  apply Z.ltb_ge in E. unfold HDR_SIZE in E.
  destruct (header_fields f) as (F1 & F2 & F3 & F4 & F5 & F6). fold h in F1, F2, F3, F4, F5, F6.
  assert (L : forall off n, 0 <= off -> off + Z.of_nat n <= 4000 ->
    load base off n = Ok (le_dec (take n (drop (Z.to_nat off) f)))).
  { intros off n H1 H2. rewrite load_ok by lia. rewrite (mem_get_slice _ f) by (done || lia). by rewrite Nat2Z.id. }
  rewrite !L by (unfold OFF_MAGIC, OFF_VERSION, OFF_RAM_MB, OFF_CPUID_NENT, OFF_NUM_MSRS, OFF_XSAVE_SIZE, OFF_BM_BYTES; lia).
  cbn [mbind result_bind]. rewrite <- F1, <- F2, <- F3, <- F4, <- F5, <- F6.
  destruct (negb (h_magic h =? SNAP_MAGIC)); [done|].
  assert (B : forall k, fits 32 (le_dec (take 4 (drop k f)))) by (intros k; by apply le_dec_4, Forall_drop).
  pose proof (B (Z.to_nat OFF_RAM_MB)) as B2. pose proof (B (Z.to_nat OFF_CPUID_NENT)) as B3.
  pose proof (B (Z.to_nat OFF_NUM_MSRS)) as B4. pose proof (B (Z.to_nat OFF_BM_BYTES)) as B6.
  rewrite <- F2 in B2. rewrite <- F3 in B3. rewrite <- F4 in B4. rewrite <- F6 in B6. unfold fits in *.
  unfold l, layout_of. cbv zeta. cbn [ram_offset ram_size].
  assert (B5 : 0 <= u32 (HDR_SIZE + h_xsave_size h) < 2 ^ 32) by (apply Z.mod_pos_bound; lia).
  unfold SIZEOF_CPUID_ENTRY, SIZEOF_MSR_ENTRY.
  set (x := u32 (HDR_SIZE + h_xsave_size h)) in *. clearbody x.
  rewrite (u64_id (h_cpuid_nent h * 40)), (u64_id (h_num_msrs h * 16)), (u64_id (x + _)) by lia.
  rewrite (u64_id (x + _ + _)), (u64_id (x + _ + _ + _)), (u64_id (h_ram_mb h * 1024)) by lia.
  rewrite (u64_id (h_ram_mb h * 1024 * 1024)), (u64_id (_ + h_ram_mb h * 1024 * 1024)) by lia.
  replace (h_ram_mb h * 1024 * 1024) with (h_ram_mb h * 1048576) by lia.
  by destruct (_ <? _).
Qed.

(** ** The pages restored *)

(** The source RAM and the bitmap the layout points to. *)
Definition layout_ram (base : region) (l : snap_layout) : mem := fun a => rg_mem base (ram_offset l + a).
Definition layout_bitmap (base : region) (l : snap_layout) : list Z :=
  mem_get (rg_mem base) (bitmap_offset l) (bitmap_size l).

Lemma mem_set_copy_at m src off a n x :
  0 <= n -> mem_set m a (mem_get src (off + a) n) x =
    if bool_decide (a <= x < a + n) then src (off + x) else m x.
Proof.
  intros Hn. rewrite <- (mem_set_copy m (fun y => src (off + y)) a n x Hn). f_equal.
  unfold mem_get. apply list_fmap_ext. intros i y _. f_equal. lia.
Qed.

Lemma sparse_pages_spec base l dsize pgs dest :
  page_size l = PAGE_SZ ->
  Forall (fun i => 0 <= i /\ i / 8 < bitmap_size l /\ (i + 1) * 4096 <= dsize /\
    0 <= bitmap_offset l /\ bitmap_offset l + bitmap_size l <= rg_size base /\
    0 <= ram_offset l /\ ram_offset l + (i + 1) * 4096 <= rg_size base) pgs ->
  exists dest', sparse_pages base (bitmap_offset l) (ram_offset l) dsize (page_size l) pgs dest = Ok dest' /\
    forall a, dest' a = if bool_decide (a / PAGE ∈ pgs) && marked (layout_bitmap base l) (a / PAGE)
                        then layout_ram base l a else dest a.
Proof.
  intros Hps Hp. rewrite Hps. unfold PAGE_SZ. revert dest.
  induction Hp as [|i pgs (H0 & H8 & Hd & Hb0 & Hb & Hr0 & Hr) Hp IH]; intros dest.
  { exists dest. split; [done|]. intros a. by rewrite bool_decide_eq_false_2 by apply not_elem_of_nil. }
  cbn [sparse_pages]. assert (0 <= i / 8) by (apply Z.div_pos; lia).
  rewrite load_ok by (cbn; lia). cbn [mbind result_bind].
  assert (Hm : marked (layout_bitmap base l) i =
    has_bits (le_dec (mem_get (rg_mem base) (bitmap_offset l + i / 8) (Z.of_nat 1))) (Z.shiftl 1 (i mod 8))).
  { unfold marked, page_bit, layout_bitmap. rewrite mem_get_lookup by lia. rewrite land_7, Z2Nat.id by lia.
    do 2 f_equal. change (Z.of_nat 1) with 1. rewrite mem_get_1. unfold le_dec. lia. }
  rewrite <- Hm. destruct (marked _ i) eqn:E.
  - rewrite ram_load_ok by lia. cbn [mbind result_bind].
    rewrite ram_store_ok by (rewrite ?mem_get_length; lia). cbn [mbind result_bind].
    destruct (IH (mem_set dest (i * 4096) (mem_get (rg_mem base) (ram_offset l + i * 4096) 4096))) as (d & Ed & Hda).
    exists d. split; [exact Ed|]. intros a. rewrite Hda, mem_set_copy_at by lia.
    assert (Hpg : i * 4096 <= a < i * 4096 + 4096 <-> a / PAGE = i).
    { pose proof (page_range a i (i + 1)). unfold PAGE in *. lia. }
    destruct (decide (a / PAGE = i)) as [Ha|Ha].
    + rewrite (bool_decide_eq_true_2 (a / PAGE ∈ i :: pgs)) by (rewrite Ha; by left).
      rewrite (bool_decide_eq_true_2 (i * 4096 <= a < _)) by tauto. rewrite Ha, E. cbn [andb].
      by destruct (bool_decide _).
    + rewrite (bool_decide_eq_false_2 (i * 4096 <= a < _)) by tauto.
      rewrite (bool_decide_ext (a / PAGE ∈ i :: pgs) (a / PAGE ∈ pgs)); [done|]. rewrite elem_of_cons. tauto.
  - destruct (IH dest) as (d & Ed & Hda). exists d. split; [exact Ed|]. intros a. rewrite Hda.
    destruct (decide (a / PAGE = i)) as [Ha|Ha].
    + rewrite Ha, E. by rewrite !andb_false_r.
    + rewrite (bool_decide_ext (a / PAGE ∈ i :: pgs) (a / PAGE ∈ pgs)); [done|]. rewrite elem_of_cons. tauto.
Qed.

(** A layout whose sections lie inside the region. *)
Definition layout_inside (base : region) (l : snap_layout) : Prop :=
  page_size l = PAGE_SZ /\ 0 <= bitmap_offset l /\ fits 32 (bitmap_size l) /\ 0 <= ram_size l /\
  bitmap_offset l + bitmap_size l <= ram_offset l /\ ram_offset l + ram_size l <= rg_size base.

Lemma sparse_restore_spec base l dest :
  layout_inside base l ->
  exists dest', sparse_restore base l (ram_size l) dest = Ok dest' /\
    dest' ≡ restored (layout_ram base l) (layout_bitmap base l)
              (Z.min (ram_size l / PAGE) (bitmap_size l * 8)) dest.
Proof.
  intros (Hp & Hb0 & Hb32 & Hr0 & Hb & Hr). unfold fits in Hb32. unfold sparse_restore.
  rewrite u64_id by lia. cbv zeta.
  assert (Hq : ram_size l / page_size l = ram_size l / PAGE_SZ) by (by rewrite Hp). rewrite !Hq.
  assert (Hmin : (if bitmap_size l * 8 <? ram_size l / PAGE_SZ then bitmap_size l * 8 else ram_size l / PAGE_SZ) =
    Z.min (ram_size l / PAGE) (bitmap_size l * 8)).
  { unfold PAGE_SZ, PAGE. destruct (Z.ltb_spec (bitmap_size l * 8) (ram_size l / 4096)); lia. }
  rewrite Hmin. set (n := Z.min _ _).
  destruct (sparse_pages_spec base l (ram_size l) (seqZ 0 n) dest Hp) as (d & Ed & Hd).
  { apply Forall_forall. intros i Hi%elem_of_seqZ. unfold n, PAGE in Hi.
    pose proof (Z.div_mod (ram_size l) 4096). pose proof (Z.mod_pos_bound (ram_size l) 4096).
    split_and!; try lia. apply Z.div_lt_upper_bound; lia. }
  exists d. split; [exact Ed|]. intros a. rewrite Hd. unfold restored.
  rewrite (bool_decide_ext _ (0 <= a / PAGE < n)) by (rewrite elem_of_seqZ; lia).
  assert (Ha : 0 <= a / PAGE <-> 0 <= a).
  { unfold PAGE. pose proof (Z.div_mod a 4096). pose proof (Z.mod_pos_bound a 4096). lia. }
  replace (bool_decide (0 <= a / PAGE < n)) with ((0 <=? a) && (a / PAGE <? n)); [done|].
  apply eq_true_iff_eq. rewrite andb_true_iff, Z.leb_le, Z.ltb_lt, bool_decide_eq_true. tauto.
Qed.

Lemma layout_of_inside base f :
  mem_get (rg_mem base) 0 (Z.of_nat (length f)) = f -> Z.of_nat (length f) <= rg_size base -> Forall byte_ok f ->
  let h := c_get SnapshotHeader_codec f in let l := layout_of h (Z.of_nat (length f)) in
  ram_offset l + ram_size l <= Z.of_nat (length f) -> layout_inside base l.
Proof.
  intros Hf Hl Hb h l Hr. destruct (header_fields f) as (_ & F2 & F3 & F4 & _ & F6). fold h in F2, F3, F4, F6.
  assert (B : forall k, fits 32 (le_dec (take 4 (drop k f)))) by (intros k; by apply le_dec_4, Forall_drop).
  pose proof (B (Z.to_nat OFF_RAM_MB)) as B2. pose proof (B (Z.to_nat OFF_CPUID_NENT)) as B3.
  pose proof (B (Z.to_nat OFF_NUM_MSRS)) as B4. pose proof (B (Z.to_nat OFF_BM_BYTES)) as B6.
  rewrite <- F2 in B2. rewrite <- F3 in B3. rewrite <- F4 in B4. rewrite <- F6 in B6.
  unfold layout_inside. unfold l, layout_of in *. cbv zeta in *.
  cbn [page_size bitmap_offset bitmap_size ram_offset ram_size] in *.
  assert (0 <= u32 (HDR_SIZE + h_xsave_size h) < 2 ^ 32) by (apply Z.mod_pos_bound; lia).
  split; [done|]. split; [unfold fits in *; lia|]. split; [exact B6|]. unfold fits in *. lia.
Qed.

(** The sections of a snapshot image, by the layout of its header. *)
Lemma image_sections snap base :
  Snapshot_ok snap ->
  let f := snapshot_image snap in let l := layout_of (sn_hdr snap) (Z.of_nat (length f)) in
  mem_get (rg_mem base) 0 (Z.of_nat (length f)) = f ->
  ram_offset l + ram_size l = Z.of_nat (length f) /\ ram_size l = sn_ram_size snap /\
  layout_bitmap base l = sn_dirty_bitmap snap /\ bitmap_size l = Z.of_nat (length (sn_dirty_bitmap snap)) /\
  forall a, 0 <= a < sn_ram_size snap -> layout_ram base l a = sn_ram snap a.
Proof.
  intros (Hh & Hxs & Hxl & Hcn & Hce & Hmn & Hme & Hbn & Hrs) f l Hf.
  destruct (craw_array 40 _ Hce) as [_ Hcl]. destruct (craw_array 16 _ Hme) as [_ Hml].
  pose proof (c_put_length SnapshotHeader_codec _ Hh) as Hpl. change (c_size SnapshotHeader_codec) with 4000%nat in Hpl.
  assert (Hr0 : 0 <= sn_ram_size snap).
  { destruct Hh as (_ & _ & [Hmb _] & _). cbn in Hmb. lia. }
  set (pre := c_put SnapshotHeader_codec (sn_hdr snap) ++ sn_xsave snap ++ mjoin (sn_cpuid snap) ++ mjoin (sn_msrs snap)).
  assert (Hpre : length pre = Z.to_nat (bitmap_offset l)).
  { unfold pre, l, layout_of. cbn [bitmap_offset]. rewrite !length_app, Hpl, Hcl, Hml, Hxs, Hcn, Hmn.
    change (u32 (HDR_SIZE + XSAVE_SIZE)) with 12192. unfold XSAVE_SIZE in Hxl. lia. }
  assert (Hoff : bitmap_offset l = Z.of_nat (length pre)).
  { rewrite Hpre. unfold l, layout_of. cbn [bitmap_offset]. rewrite Hxs, Hcn, Hmn.
    change (u32 (HDR_SIZE + XSAVE_SIZE)) with 12192. lia. }
  assert (Hbs : bitmap_size l = Z.of_nat (length (sn_dirty_bitmap snap))) by exact Hbn.
  assert (Hro : ram_offset l = bitmap_offset l + bitmap_size l) by reflexivity.
  assert (Hrz : ram_size l = sn_ram_size snap) by (rewrite Hrs; reflexivity).
  assert (Ef : f = pre ++ sn_dirty_bitmap snap ++ mem_get (sn_ram snap) 0 (sn_ram_size snap)).
  { unfold f, snapshot_image, pre. by rewrite <- !app_assoc. }
  clearbody l f pre. clear Hh Hxs Hxl Hcn Hce Hmn Hme Hbn Hrs Hcl Hml Hpl.
  set (bm := sn_dirty_bitmap snap) in *. set (rsz := sn_ram_size snap) in *. clearbody bm rsz.
  assert (Hlen : Z.of_nat (length f) = bitmap_offset l + bitmap_size l + rsz).
  { rewrite Ef, !length_app, mem_get_length. lia. }
  split_and!; [lia|done| |done|].
  - unfold layout_bitmap. rewrite (mem_get_slice _ f) by (done || lia).
    rewrite <- Hpre, Ef, drop_app_length, take_app_length' by lia. done.
  - intros a Ha. unfold layout_ram.
    assert (Hg : mem_get (rg_mem base) (ram_offset l) rsz = mem_get (sn_ram snap) 0 rsz).
    { rewrite (mem_get_slice _ f) by (done || lia).
      rewrite Ef, app_assoc, drop_app_length' by (rewrite length_app; lia).
      apply take_ge. rewrite mem_get_length. lia. }
    apply (f_equal (fun l => l !! Z.to_nat a)) in Hg. rewrite !mem_get_lookup in Hg by lia.
    injection Hg as Hg. rewrite Z2Nat.id in Hg by lia. exact Hg.
Qed.


(** ** The whole benchmark *)

(** Run from [s], [c] ends without a fault, either by [exit(EXIT_FAILURE)] or
    with a value for which [Q] holds. *)
Definition bwp {A} (c : B A) (Q : A -> Bench -> Prop) (s : Bench) : Prop :=
  match c s with Done a s' => Q a s' | Exit code _ => code = 1 | Fails _ | Spins => False end.

Lemma bwp_mono {A} (c : B A) (Q R : A -> Bench -> Prop) s :
  bwp c Q s -> (forall a s', Q a s' -> R a s') -> bwp c R s.
Proof. unfold bwp. destruct (c s); naive_solver. Qed.

Lemma bwp_bind {A C} (c : B A) (k : A -> B C) Q s :
  bwp c (fun a s' => bwp (k a) Q s') s -> bwp (c ≫= k) Q s.
Proof. unfold bwp, mbind, B_bind. by destruct (c s). Qed.

(** A program that ends so from every state, and its value. *)
Definition sound {A} (c : B A) (P : A -> Prop) : Prop := forall s, bwp c (fun a _ => P a) s.

Lemma sound_ret {A} (a : A) (P : A -> Prop) : P a -> sound (mret a) P.
Proof. by intros ? ?. Qed.

Lemma sound_bind {A C} (c : B A) (k : A -> B C) P R :
  sound c P -> (forall a, P a -> sound (k a) R) -> sound (c ≫= k) R.
Proof. intros Hc Hk s. apply bwp_bind. eapply bwp_mono; [apply Hc|]. cbn. intros a s' Ha. by apply Hk. Qed.

Lemma sound_die {A} (P : A -> Prop) : sound die P.
Proof. by intros ?. Qed.

Lemma sound_pure {A} (r : result A) (P : A -> Prop) : (exists a, r = Ok a /\ P a) -> sound (b_pure r) P.
Proof. intros (a & -> & Ha) s. exact Ha. Qed.

Lemma sound_weaken {A} (c : B A) (P R : A -> Prop) : sound c P -> (forall a, P a -> R a) -> sound c R.
Proof. intros Hc HPR s. eapply bwp_mono; [apply Hc|]. cbn. auto. Qed.

Lemma mem_of_bytes l : Forall byte_ok l -> mem_bytes (mem_of l).
Proof.
  intros Hl a. unfold mem_of. destruct (a <? 0); [by unfold byte_ok, fits; lia|].
  destruct (nth_in_or_default (Z.to_nat a) l 0) as [Hi|E]; [|rewrite E; unfold byte_ok, fits; lia].
  rewrite Forall_forall in Hl. apply Hl. by apply list_elem_of_In.
Qed.

Section programs.
  Context {H : BenchHost}.

(** What is read and mapped are bytes; [read] stores at most the number of bytes
    it was asked for. *)
Hypothesis host_bytes : forall t fd n,
  Forall byte_ok (r_data (breply_of t (B_read fd n))) /\ Forall byte_ok (r_data (breply_of t (B_mmap fd n))).
Hypothesis host_read : forall t fd n, r_ret (breply_of t (B_read fd n)) <= n.

(** The snapshot file is not truncated while the program runs: when it is mapped
    it still has the bytes it had for [stat]. *)
Hypothesis host_file_stays : forall t fd n, 0 <= fd -> n <= Z.of_nat (length (r_data (breply_of t (B_mmap fd n)))).

(** No signal interrupts a [read]. *)
Hypothesis host_uninterrupted : forall t fd n, r_errno (breply_of t (B_read fd n)) <> EINTR.

Lemma sound_bsys c : sound (bsys c) (fun r => exists t, r = breply_of t c).
Proof using. intros s. cbn. by eexists. Qed.

Lemma sound_bsys_ c : sound (bsys_ c) (fun _ => True).
Proof using. by intros s. Qed.

Lemma sound_must c : sound (must c) (fun r => 0 <= r_ret r /\ exists t, r = breply_of t c).
Proof using.
  eapply sound_bind; [apply sound_bsys|]. intros r [t ->]. destruct (Z.ltb_spec (r_ret (breply_of t c)) 0); [apply sound_die|].
  apply sound_ret. split; [done|]. by exists t.
Qed.

Lemma sound_ns_now : sound ns_now (fun _ => True).
Proof using. eapply sound_bind; [apply sound_must|]. intros r _. by apply sound_ret. Qed.

Lemma sound_read_loop fuel fd size : forall buf d left,
  mem_bytes buf -> left <= Z.of_nat fuel -> 0 <= d -> d + left <= size ->
  sound (read_loop fuel fd size buf d left) (fun o => forall m, o = Some m -> mem_bytes m).
Proof using host_bytes host_read host_uninterrupted.
  induction fuel as [|fuel IH]; intros buf d left Hb Hl Hd Hsz; cbn [read_loop].
  - rewrite (proj2 (Z.ltb_ge 0 left)) by lia. apply sound_ret. by intros m [= <-].
  - destruct (0 <? left); [|apply sound_ret; by intros m [= <-]].
    eapply sound_bind; [apply sound_bsys|]. intros r [t ->].
    rewrite (proj2 (Z.eqb_neq _ EINTR)) by apply host_uninterrupted.
    pose proof (host_read t fd left) as Hrd. set (rr := breply_of t (B_read fd left)) in *.
    destruct (Z.ltb_spec (r_ret rr) 0); [by apply sound_ret|].
    destruct (Z.eqb_spec (r_ret rr) 0); [by apply sound_ret|].
    set (bs := resize _ _ _). assert (Hbs : Z.of_nat (length bs) = r_ret rr) by (unfold bs; rewrite length_resize; lia).
    eapply (sound_bind _ _ mem_bytes); [|intros m Hm; apply IH; [done|lia..]].
    apply sound_pure. eexists. split; [apply ram_store_ok; lia|]. apply mem_set_bytes; [done|].
    apply Forall_resize; [unfold byte_ok, fits; lia|apply host_bytes].
Qed.

Lemma sound_or_die c P :
  sound c (fun o => forall m, o = Some m -> P m) -> sound (or_die c) P.
Proof using.
  intros Hc. eapply sound_bind; [exact Hc|]. intros [m|] Hm; [by apply sound_ret, Hm|apply sound_die].
Qed.

Lemma sound_pass base l : layout_inside base l -> sound (bench_pass base l) (fun _ => True).
Proof using.
  intros Hl. eapply sound_bind; [eapply sound_bind; [apply sound_must|]; intros _ _; by apply (sound_ret () (fun _ => True))|].
  intros _ _. eapply sound_bind; [apply sound_ns_now|]. intros t0 _.
  eapply (sound_bind get_ram _ (fun _ => True)); [by intros s|]. intros dest _.
  eapply (sound_bind _ _ (fun _ => True)).
  { apply sound_pure. destruct (sparse_restore_spec base l dest Hl) as (d & Ed & _). by exists d. }
  intros d _. eapply (sound_bind _ _ (fun _ => True)); [by intros s|]. intros _ _.
  eapply sound_bind; [apply sound_ns_now|]. intros t1 _. by apply sound_ret.
Qed.

Lemma sound_iterate n pass : sound pass (fun _ => True) -> sound (iterate n pass) (fun ts => length ts = n).
Proof using.
  intros Hp. induction n as [|n IH]; cbn [iterate]; [by apply sound_ret|].
  eapply sound_bind; [exact Hp|]. intros t _. eapply sound_bind; [exact IH|]. intros ts Hts.
  apply sound_ret. cbn in Hts |- *. by rewrite Hts.
Qed.

Lemma sound_with_times n c label :
  (0 < n)%nat -> sound c (fun ts => length ts = n) -> sound (with_times n c label) (fun _ => True).
Proof using.
  intros Hn Hc. eapply sound_bind; [apply sound_bsys|]. intros p _. destruct (_ =? 0); [apply sound_die|].
  eapply sound_bind; [exact Hc|]. intros ts Hts. unfold print_stats. destruct ts as [|t ts]; [cbn in Hts; lia|].
  destruct (stats t (t :: ts)) as [[mn mx] sum]. apply sound_bsys_.
Qed.

(** Past a call whose reply does not matter here. *)
Lemma sound_call {A C} (c : B A) (k : A -> B C) R P :
  sound c P -> (forall a, sound (k a) R) -> sound (c ≫= k) R.
Proof using. intros Hc Hk. eapply sound_bind; [exact Hc|]. auto. Qed.

Ltac sound_step :=
  lazymatch goal with
  | |- sound (mbind _ (bsys_ _)) _ => eapply sound_call; [apply sound_bsys_|intros ?]
  | |- sound (mbind _ (must _)) _ => eapply sound_call; [apply sound_must|intros ?]
  end.

Lemma sound_map_file fd size : 0 <= fd -> sound (map_file fd size) (fun r => rg_size r = size).
Proof using host_file_stays.
  intros Hfd. eapply sound_bind; [apply sound_bsys|]. intros p [t ->]. destruct (_ =? -1); [apply sound_die|].
  apply sound_ret. cbn. unfold mapped_size. specialize (host_file_stays t fd size Hfd).
  set (n := Z.of_nat _) in *. pose proof (Z.div_mod (n + 4095) 4096). pose proof (Z.mod_pos_bound (n + 4095) 4096). lia.
Qed.

Lemma sound_map_anon size : sound (map_anon size) (fun r => mem_bytes (rg_mem r) /\ rg_size r = size).
Proof using.
  eapply sound_call; [apply sound_bsys|]. intros p. destruct (_ =? -1); [apply sound_die|].
  apply sound_ret. split; [apply mem_zero_bytes|done].
Qed.

(** A layout fits every region of the file's size. *)
Lemma layout_inside_size b1 b2 l : layout_inside b1 l -> rg_size b1 <= rg_size b2 -> layout_inside b2 l.
Proof using. unfold layout_inside. intros. intuition lia. Qed.

Lemma sound_file_mmap path size l n cold base :
  (0 < n)%nat -> layout_inside base l -> rg_size base = size ->
  sound (bench_file_mmap path size l n cold) (fun _ => True).
Proof using host_file_stays.
  intros Hn Hl Hs.
  assert (Hp : forall r, rg_size r = size -> sound (bench_pass r l) (fun _ => True))
    by (intros r Hr; apply sound_pass, (layout_inside_size base); [done|lia]).
  unfold bench_file_mmap. destruct cold; apply sound_with_times; [done| |done|].
  - apply sound_iterate. eapply sound_bind; [apply sound_must|]. intros fd [Hfd _]. sound_step.
    eapply sound_bind; [by apply sound_map_file|]. intros r Hr.
    eapply sound_call; [by apply Hp|]. intros t. do 2 sound_step. by apply sound_ret.
  - eapply sound_bind; [apply sound_must|]. intros fd [Hfd _].
    eapply sound_bind; [by apply sound_map_file|]. intros r Hr.
    eapply sound_bind; [by apply sound_iterate, Hp|]. intros ts Hts. do 2 sound_step. by apply sound_ret.
Qed.

Lemma sound_file_read fuel path size l n cold base :
  (0 < n)%nat -> size <= Z.of_nat fuel -> layout_inside base l -> rg_size base = size ->
  sound (bench_file_read fuel path size l n cold) (fun _ => True).
Proof using host_bytes host_read host_uninterrupted.
  intros Hn Hfu Hl Hs.
  assert (Hp : forall m, sound (bench_pass {| rg_mem := m; rg_size := size |} l) (fun _ => True))
    by (intros m; apply sound_pass, (layout_inside_size base); [done|cbn; lia]).
  assert (Hr : forall fd buf, mem_bytes (rg_mem buf) /\ rg_size buf = size ->
    sound (or_die (read_all fuel fd buf size)) mem_bytes)
    by (intros fd buf [Hb Hbs]; apply sound_or_die, sound_read_loop; [done|done|lia|lia]).
  unfold bench_file_read. destruct cold; apply sound_with_times; [done| |done|].
  - apply sound_iterate. do 2 sound_step. eapply sound_bind; [apply sound_map_anon|]. intros buf Hb.
    eapply sound_call; [by apply Hr|]. intros m. sound_step.
    eapply sound_call; [by apply Hp|]. intros t. sound_step. by apply sound_ret.
  - eapply sound_bind; [apply sound_map_anon|]. intros buf Hb. sound_step.
    eapply sound_call; [by apply Hr|]. intros m. sound_step.
    eapply sound_bind; [by apply sound_iterate, Hp|]. intros ts Hts. sound_step. by apply sound_ret.
Qed.

(** What the parser accepts from a region that holds at least the file. *)
Lemma parse_inside m dsize size :
  mem_bytes m -> 0 <= size <= dsize ->
  exists o, bench_parse_snapshot {| rg_mem := m; rg_size := dsize |} size = Ok o /\
    forall l, o = Some l -> layout_inside {| rg_mem := m; rg_size := size |} l.
Proof using.
  intros Hm Hs. set (base := {| rg_mem := m; rg_size := dsize |}). set (small := {| rg_mem := m; rg_size := size |}).
  assert (Hf : Z.of_nat (length (mem_get m 0 size)) = size) by (rewrite mem_get_length; lia).
  pose proof (mem_get_bytes m 0 size Hm) as Hb.
  pose proof (bench_parse_eq base (mem_get m 0 size)) as Hp.
  pose proof (layout_of_inside small (mem_get m 0 size)) as Hi. cbv zeta in Hp, Hi. rewrite Hf in Hp, Hi.
  specialize (Hp eq_refl ltac:(cbn; lia) Hb). specialize (Hi eq_refl ltac:(cbn; lia) Hb).
  revert Hp Hi. generalize (c_get SnapshotHeader_codec (mem_get m 0 size)). intros h.
  set (l0 := layout_of h size). clearbody l0. intros -> Hi. eexists. split; [reflexivity|]. intros l El.
  destruct (size <? HDR_SIZE); [done|]. destruct (negb _); [done|].
  destruct (Z.ltb_spec size (ram_offset l0 + ram_size l0)) as [|Hr]; [done|]. injection El as <-. by apply Hi.
Qed.

(** The device reports at least the size it was just asked to allocate. *)
Hypothesis device_info : forall t fd n r,
  0 <= r_ret r -> n <= hd 0 (r_data (breply_of (t ++ [(B_snap_alloc fd n, r)]) (B_snap_info fd))).

Lemma sound_alloc_info {C} fd n (k : reply -> B C) R :
  (forall info, n <= hd 0 (r_data info) -> sound (k info) R) ->
  sound (must (B_snap_alloc fd n) ;; info ← must (B_snap_info fd); k info) R.
Proof using device_info.
  intros Hk s. apply bwp_bind. unfold must at 1. apply bwp_bind.
  set (r := breply_of (b_trace s) (B_snap_alloc fd n)).
  change (bwp (bsys (B_snap_alloc fd n)) ?Q s) with (Q r (s <| b_trace ::= (fun t => t ++ [(B_snap_alloc fd n, r)]) |>)).
  cbv beta. destruct (Z.ltb_spec (r_ret r) 0) as [|Hr]; [done|]. set (s1 := s <| b_trace ::= _ |>).
  change (bwp (mret r) ?Q s1) with (Q r s1). cbv beta. apply bwp_bind. unfold must. apply bwp_bind.
  set (i := breply_of (b_trace s1) (B_snap_info fd)).
  change (bwp (bsys (B_snap_info fd)) ?Q s1) with (Q i (s1 <| b_trace ::= (fun t => t ++ [(B_snap_info fd, i)]) |>)).
  cbv beta. destruct (r_ret i <? 0); [done|]. apply Hk. by apply device_info.
Qed.

Lemma sound_alloc_guest_ram size : sound (alloc_guest_ram size) (fun _ => True).
Proof using.
  unfold alloc_guest_ram. do 2 sound_step. eapply sound_call; [apply sound_bsys|]. intros p.
  destruct (_ =? -1); [apply sound_die|]. sound_step. by intros s.
Qed.

(** C34: the benchmark as a whole.  On any operating system whose device reports
    at least the size it was asked for, whose [read] stores at most the bytes it
    was asked for and is not interrupted by signals (no EINTR), and for a snapshot
    file that is not truncated while the program runs (nothing guards the mappings
    of the file against that), whatever the arguments and the contents of the file,
    even contents that change between two passes, the program ends: the loops that
    read the file stay inside their buffers, no pass of any of the five benchmarks
    reads outside a mapping or writes outside guest RAM, and the exit status is 0
    or 1.  One unit of fuel per byte of the file is enough for the loops that read
    it. *)
Theorem bench_main_safe fuel argv s :
  (forall t p, u64 (hd 0 (r_data (breply_of t (B_stat p)))) <= Z.of_nat fuel) ->
  match bench_main fuel argv s with
  | Done rc _ => rc = 0 \/ rc = 1
  | Exit code _ => code = 1
  | Fails _ | Spins => False
  end.
Proof using host_bytes host_read host_file_stays host_uninterrupted device_info.
  intros Hfuel. enough (Hs : sound (bench_main fuel argv) (fun rc => rc = 0 \/ rc = 1)) by exact (Hs s).
  unfold bench_main. destruct argv as [|a0 [|path argv]]; [apply sound_ret; by right..|].
  eapply sound_bind; [apply sound_must|]. intros st [_ [t ->]]. specialize (Hfuel t path). cbv zeta.
  set (size := u64 _) in *. assert (Hs0 : 0 <= size) by (apply Z.mod_pos_bound; lia). clearbody size.
  sound_step. apply sound_alloc_info. intros info Hinfo. set (dsize := hd 0 (r_data info)) in *. clearbody dsize.
  eapply sound_bind; [apply sound_bsys|]. intros p [tp ->]. destruct (_ =? -1); [apply sound_die|].
  sound_step. eapply sound_call; [apply sound_ns_now|]. intros t0.
  eapply sound_bind.
  { apply sound_or_die, sound_read_loop; [|exact Hfuel|lia|cbn; lia]. apply mem_of_bytes, host_bytes. }
  intros m Hm. eapply sound_call; [apply sound_ns_now|]. intros t1. sound_step.
  destruct (parse_inside m dsize size Hm ltac:(lia)) as (o & Eo & Hl).
  eapply (sound_bind _ _ (eq o)); [apply sound_pure; by exists o|]. intros ? <-.
  destruct o as [l|]; [|apply sound_ret; by right]. specialize (Hl l eq_refl).
  destruct (_ =? 0); [apply sound_ret; by right|].
  eapply sound_call; [apply sound_alloc_guest_ram|]. intros _.
  eapply sound_call.
  { apply sound_with_times; [unfold iterations; lia|]. apply sound_iterate, sound_pass.
    eapply layout_inside_size; [exact Hl|]. cbn. lia. }
  intros _. do 2 (eapply sound_call; [by eapply sound_file_mmap; [unfold iterations; lia|exact Hl|]|intros _]).
  do 2 (eapply sound_call; [by eapply sound_file_read; [unfold iterations; lia|exact Hfuel|exact Hl|]|intros _]).
  do 3 sound_step. apply sound_ret. by left.
Qed.
End programs.
