(* ===== verification/ExVmm.v ===== *)
(** * The example monitor: state, calls and logic

    docs/example-vmm is a second, smaller monitor in C that shows the KVM
    interface with several vCPUs, an IDE disk and a virtio block device.  This
    file has its [struct vmm] and [struct vcpu] (vmm.h), the monad [X] of its
    functions, the calls they make and the rules to reason about them; the parts
    of the program are in ExIde.v, ExBlk.v, ExIo.v, ExAcpi.v, ExBios.v,
    ExKernel.v and ExMain.v.

    As for the main monitor, the kernel, KVM and the guest are a function from
    the calls made so far to the next reply. *)
From S2P Require Import Prelude Memory Codec State Snapshot.
From stdpp Require Import options.

(** ** State *)

(** The 16550 registers. *)
Record ExUart : Type := {
  uart_lcr : Z; uart_dll : Z; uart_dlh : Z; uart_ier : Z; uart_fcr : Z;
  uart_mcr : Z; uart_msr : Z; uart_scr : Z; uart_lsr : Z
}.
#[export] Instance ExUart_eta : Eta ExUart := fun u =>
  {| uart_lcr := uart_lcr u; uart_dll := uart_dll u; uart_dlh := uart_dlh u; uart_ier := uart_ier u;
     uart_fcr := uart_fcr u; uart_mcr := uart_mcr u; uart_msr := uart_msr u; uart_scr := uart_scr u;
     uart_lsr := uart_lsr u |}.

(** The primary ATA controller.  [ide_cur_lba] is the member [ide_lba] and
    [ide_command_reg] the member [ide_command], both of which are also names of
    functions; [ide_data] has 256 words. *)
Record ExIde : Type := {
  ide_status : Z; ide_error : Z; ide_nsect : Z; ide_lba_low : Z; ide_lba_mid : Z; ide_lba_high : Z;
  ide_drive_head : Z; ide_command_reg : Z; ide_control : Z; ide_cur_lba : Z;
  ide_data : list Z; ide_data_pos : Z; ide_data_len : Z
}.
#[export] Instance ExIde_eta : Eta ExIde := fun d =>
  {| ide_status := ide_status d; ide_error := ide_error d; ide_nsect := ide_nsect d;
     ide_lba_low := ide_lba_low d; ide_lba_mid := ide_lba_mid d; ide_lba_high := ide_lba_high d;
     ide_drive_head := ide_drive_head d; ide_command_reg := ide_command_reg d;
     ide_control := ide_control d; ide_cur_lba := ide_cur_lba d; ide_data := ide_data d;
     ide_data_pos := ide_data_pos d; ide_data_len := ide_data_len d |}.

(** The virtio block device behind its legacy MMIO registers. *)
Record ExVio : Type := {
  vio_status : Z; vio_isr : Z; vio_queue_sel : Z; vio_guest_page_size : Z; vio_queue_num : Z;
  vio_queue_align : Z; vio_queue_desc : Z; vio_queue_avail : Z; vio_queue_used : Z;
  vio_queue_pfn : Z; vio_used_idx : Z; vio_notify : Z; vio_config : list Z
}.
#[export] Instance ExVio_eta : Eta ExVio := fun v =>
  {| vio_status := vio_status v; vio_isr := vio_isr v; vio_queue_sel := vio_queue_sel v;
     vio_guest_page_size := vio_guest_page_size v; vio_queue_num := vio_queue_num v;
     vio_queue_align := vio_queue_align v; vio_queue_desc := vio_queue_desc v;
     vio_queue_avail := vio_queue_avail v; vio_queue_used := vio_queue_used v;
     vio_queue_pfn := vio_queue_pfn v; vio_used_idx := vio_used_idx v; vio_notify := vio_notify v;
     vio_config := vio_config v |}.

(** [struct vcpu]: [vc_self] is its address, [vc_run] is the address of the mapped [struct kvm_run] and
    [vc_exit] what KVM left there.  The back-pointer to the machine is implied. *)
Record Vcpu : Type := {
  vc_self : Z; vc_id : Z; vc_fd : Z; vc_run : Z; vc_exit : kvm_exit; vc_mmap_size : Z; vc_thread : Z;
  vc_running : bool; vc_is_bsp : bool
}.
#[export] Instance Vcpu_eta : Eta Vcpu := fun v =>
  {| vc_self := vc_self v; vc_id := vc_id v; vc_fd := vc_fd v; vc_run := vc_run v; vc_exit := vc_exit v;
     vc_mmap_size := vc_mmap_size v; vc_thread := vc_thread v; vc_running := vc_running v;
     vc_is_bsp := vc_is_bsp v |}.

(** ** Calls *)

(** Structures moved to and from KVM are their bytes. *)
Inductive xcall : Type :=
| x_calloc (n : Z)                                  (* calloc and malloc *)
| x_free (p : Z)
| x_open (path : list Z) (write : bool)
| x_close (fd : Z)
| x_lseek_end (fd : Z)
| x_fstat (fd : Z)
| x_read (fd count : Z)
| x_pread (fd count off : Z)
| x_pwrite (fd : Z) (buf : list Z) (off : Z)
| x_mmap_ram (len : Z)                              (* shared anonymous memory *)
| x_mmap_run (fd len : Z)
| x_munmap (addr len : Z)
| x_kvm_api_version (fd : Z)
| x_kvm_user_memory (fd : Z)                        (* KVM_CHECK_EXTENSION *)
| x_kvm_create_vm (fd : Z)
| x_kvm_create_irqchip (fd : Z)
| x_kvm_create_pit2 (fd : Z)
| x_memory_region (fd slot flags gpa size hva : Z)
| x_kvm_create_vcpu (fd id : Z)
| x_kvm_vcpu_mmap_size (fd : Z)
| x_kvm_supported_cpuid (fd : Z) (buf : list Z)
| x_kvm_set_cpuid2 (fd : Z) (buf : list Z)
| x_kvm_get (fd : Z) (what : kvm_item) (buf : list Z)
| x_kvm_set (fd : Z) (what : kvm_item) (buf : list Z)
| x_kvm_run (fd : Z)
| x_irq_line (fd irq level : Z)
| x_putchar (c : Z)                                 (* to stdout *)
| x_fputc_err (c : Z)                               (* to stderr *)
| x_mutex_init | x_mutex_lock | x_mutex_unlock | x_mutex_destroy
| x_pthread_create (vcpu : Z)
| x_pthread_join (vcpu : Z)
| x_exit (code : Z).

Definition xtrace : Type := list (xcall * reply).

Class XHost : Type := {
  xreply_of : xtrace -> xcall -> reply;
  (* what the guest does to [kvm_run] of a vCPU during KVM_RUN, and to its RAM *)
  xguest_exit : xtrace -> Z -> kvm_exit -> kvm_exit;
  xguest_mem : xtrace -> mem -> mem
}.

(** ** [struct vmm] *)

(** [x_mem] is the host address of guest RAM (0 for a null pointer, -1 for
    MAP_FAILED) and [x_ram] its contents; [x_self] is the address of the
    structure, [x_vcpu_array] that of the array [vcpus]; [x_debug] is the global
    [g_debug]. *)
Record ExVmm : Type := {
  x_self : Z;
  kvm_fd : Z; vm_fd : Z; mem_size : Z; x_mem : Z; x_ram : mem;
  nr_vcpus : Z; x_vcpu_array : Z; vcpus : list (option Vcpu);
  x_uart : ExUart;
  disk_fd : Z; disk_size : Z; disk_num_sectors : Z;
  x_ide : ExIde;
  x_vio : ExVio;
  x_debug : bool;
  x_trace : xtrace
}.
#[export] Instance ExVmm_eta : Eta ExVmm := fun s =>
  {| x_self := x_self s; kvm_fd := kvm_fd s; vm_fd := vm_fd s; mem_size := mem_size s; x_mem := x_mem s;
     x_ram := x_ram s; nr_vcpus := nr_vcpus s; x_vcpu_array := x_vcpu_array s; vcpus := vcpus s;
     x_uart := x_uart s; disk_fd := disk_fd s; disk_size := disk_size s;
     disk_num_sectors := disk_num_sectors s; x_ide := x_ide s; x_vio := x_vio s;
     x_debug := x_debug s; x_trace := x_trace s |}.

(** ** Programs *)

Definition X (A : Type) : Type := ExVmm -> result (A * ExVmm).

#[export] Instance X_ret : MRet X := fun _ a s => Ok (a, s).
#[export] Instance X_bind : MBind X := fun _ _ k c s =>
  match c s with Ok (a, s') => k a s' | Fault f => Fault f end.

Definition xgets {A} (f : ExVmm -> A) : X A := fun s => Ok (f s, s).
Definition xmodify (f : ExVmm -> ExVmm) : X unit := fun s => Ok ((), f s).
Definition xfail {A} (f : fault) : X A := fun _ => Fault f.
Definition xlift {A} (r : result A) : X A := fun s => r ≫= fun a => Ok (a, s).
Definition xskip : X unit := mret ().
Definition xwhen (b : bool) (c : X unit) : X unit := if b then c else xskip.

Fixpoint xfor {A} (l : list A) (body : A -> X unit) : X unit :=
  match l with
  | [] => xskip
  | x :: l' => body x ;; xfor l' body
  end.

Section calls.
  Context {H : XHost}.

Definition xsys (c : xcall) : X reply := fun s =>
  let r := xreply_of (x_trace s) c in
  Ok (r, s <| x_trace ::= (fun t => t ++ [(c, r)]) |>).

Definition xsys_ (c : xcall) : X unit := xsys c ;; xskip.

(** The other vCPUs run while a handler works: a step of the guest. *)
Definition xguest : X unit := xmodify (fun s => s <| x_ram ::= xguest_mem (x_trace s) |>).
End calls.

(** Stores and loads through [vmm->mem]. *)
Definition xstore (a : Z) (bs : list Z) : X unit :=
  s ← xgets id;
  m ← xlift (ram_store (mem_size s) (x_ram s) a bs);
  xmodify (fun s => s <| x_ram := m |>).

Definition xfetch (a n : Z) : X (list Z) :=
  s ← xgets id;
  xlift (ram_load (mem_size s) (x_ram s) a n).

Definition xupd_uart (f : ExUart -> ExUart) : X unit := xmodify (fun s => s <| x_uart ::= f |>).
Definition xupd_ide (f : ExIde -> ExIde) : X unit := xmodify (fun s => s <| x_ide ::= f |>).
Definition xupd_vio (f : ExVio -> ExVio) : X unit := xmodify (fun s => s <| x_vio ::= f |>).

(** ** The logic

    [xwp c Q s]: from [s], program [c] ends without a fault in a result and a
    state that satisfy [Q]. *)
Definition xwp {A} (c : X A) (Q : A -> ExVmm -> Prop) (s : ExVmm) : Prop :=
  match c s with Ok (a, s') => Q a s' | Fault _ => False end.

Section rules.
  Context {H : XHost}.

Lemma xwp_ok {A} (c : X A) Q s : xwp c Q s <-> exists a s', c s = Ok (a, s') /\ Q a s'.
Proof.
  unfold xwp. destruct (c s) as [[a s']|f]; [|naive_solver].
  split; [by eauto|]. by intros (? & ? & [= -> ->] & ?).
Qed.

Lemma xwp_mono {A} (c : X A) (Q R : A -> ExVmm -> Prop) s :
  xwp c Q s -> (forall a s', Q a s' -> R a s') -> xwp c R s.
Proof. unfold xwp. destruct (c s) as [[]|]; naive_solver. Qed.

Lemma xwp_and {A} (c : X A) (Q R : A -> ExVmm -> Prop) s :
  xwp c Q s -> xwp c R s -> xwp c (fun a s' => Q a s' /\ R a s') s.
Proof. unfold xwp. destruct (c s) as [[]|]; naive_solver. Qed.

Lemma xwp_bind {A B} (c : X A) (k : A -> X B) Q s :
  xwp c (fun a s' => xwp (k a) Q s') s -> xwp (c ≫= k) Q s.
Proof. unfold xwp, mbind, X_bind. by destruct (c s) as [[]|]. Qed.

Lemma xwp_bind_inv {A B} (c : X A) (k : A -> X B) Q s :
  xwp (c ≫= k) Q s -> xwp c (fun a s' => xwp (k a) Q s') s.
Proof. unfold xwp, mbind, X_bind. by destruct (c s) as [[]|]. Qed.

Lemma xwp_ret {A} (a : A) (Q : A -> ExVmm -> Prop) s : Q a s -> xwp (mret a) Q s.
Proof. done. Qed.
Lemma xwp_skip (Q : () -> ExVmm -> Prop) s : Q () s -> xwp xskip Q s.
Proof. done. Qed.
Lemma xwp_gets {A} (f : ExVmm -> A) (Q : A -> ExVmm -> Prop) s : Q (f s) s -> xwp (xgets f) Q s.
Proof. done. Qed.
Lemma xwp_modify f (Q : () -> ExVmm -> Prop) s : Q () (f s) -> xwp (xmodify f) Q s.
Proof. done. Qed.
Lemma xwp_lift {A} (r : result A) (Q : A -> ExVmm -> Prop) s a : r = Ok a -> Q a s -> xwp (xlift r) Q s.
Proof. by intros ->. Qed.

Lemma xwp_sys c (Q : reply -> ExVmm -> Prop) s :
  (forall r, r = xreply_of (x_trace s) c -> Q r (s <| x_trace ::= (fun t => t ++ [(c, r)]) |>)) ->
  xwp (xsys c) Q s.
Proof. intros HQ. by apply HQ. Qed.

Lemma xwp_if {A} (b : bool) (c1 c2 : X A) Q s :
  (b = true -> xwp c1 Q s) -> (b = false -> xwp c2 Q s) -> xwp (if b then c1 else c2) Q s.
Proof. destruct b; auto. Qed.

Lemma xwp_store a bs (Q : () -> ExVmm -> Prop) s :
  0 <= a -> a + Z.of_nat (length bs) <= mem_size s ->
  Q () (s <| x_ram := mem_set (x_ram s) a bs |>) -> xwp (xstore a bs) Q s.
Proof.
  intros Ha Hs HQ. unfold xwp, xstore, xgets, xlift, xmodify, mbind, X_bind, id.
  by rewrite ram_store_ok.
Qed.

Lemma xwp_fetch a n (Q : list Z -> ExVmm -> Prop) s :
  0 <= a -> 0 <= n -> a + n <= mem_size s -> Q (mem_get (x_ram s) a n) s -> xwp (xfetch a n) Q s.
Proof.
  intros Ha Hn Hs HQ. unfold xwp, xfetch, xgets, xlift, mbind, X_bind, id. by rewrite ram_load_ok.
Qed.

(** A loop keeps what its body keeps. *)
Lemma xwp_for {A} (l : list A) (body : A -> X unit) (I : ExVmm -> Prop) s :
  I s -> (forall x s', x ∈ l -> I s' -> xwp (body x) (fun _ => I) s') -> xwp (xfor l body) (fun _ => I) s.
Proof.
  revert s. induction l as [|x l IH]; intros s HI Hb; [done|].
  cbn [xfor]. apply xwp_bind. eapply xwp_mono; [apply Hb; [set_solver|done]|].
  cbn. intros _ s' HI'. apply IH; [done|]. set_solver.
Qed.

Lemma xfor_app {A} (l1 l2 : list A) (body : A -> X unit) Q s :
  xwp (xfor l1 body ;; xfor l2 body) Q s -> xwp (xfor (l1 ++ l2) body) Q s.
Proof.
  revert s. induction l1 as [|x l1 IH]; intros s Hw; [exact Hw|].
  cbn [app xfor] in *. apply xwp_bind_inv, xwp_bind_inv in Hw. apply xwp_bind.
  eapply xwp_mono; [exact Hw|]. cbn. intros _ s' Hr. apply IH. by apply xwp_bind.
Qed.
End rules.

(** One rule, chosen by the program's head; the state stays a term, so that what
    is asked of it is found by reduction. *)
Ltac xwp_one :=
  lazymatch goal with
  | |- xwp (mbind _ _) _ _ => apply xwp_bind
  | |- xwp (mret _) _ _ => apply xwp_ret
  | |- xwp xskip _ _ => apply xwp_skip
  | |- xwp (xgets _) _ _ => apply xwp_gets
  | |- xwp (xmodify _) _ _ => apply xwp_modify
  | |- xwp (xsys _) _ _ => apply xwp_sys; let r := fresh "r" in let Hr := fresh "Hr" in intros r Hr
  | |- xwp (xsys_ _) _ _ => unfold xsys_
  | |- xwp (xwhen _ _) _ _ => unfold xwhen
  | |- xwp (xupd_uart _) _ _ => unfold xupd_uart
  | |- xwp (xupd_ide _) _ _ => unfold xupd_ide
  | |- xwp (xupd_vio _) _ _ => unfold xupd_vio
  | |- xwp xguest _ _ => unfold xguest
  | |- xwp (if _ then _ else _) _ _ => apply xwp_if; let Hb := fresh "Hb" in intros Hb
  | |- xwp (let _ := _ in _) _ _ => cbv zeta
  end; cbv beta.

Ltac xwp_run := repeat xwp_one.

Tactic Notation "xwp_use" constr(L) := eapply xwp_mono; [eapply L|]; cbv beta.

(** A host that answers every call the same way and whose guest never runs. *)
Definition const_xhost (ret : Z) : XHost := {|
  xreply_of _ _ := {| r_ret := ret; r_errno := 0; r_data := [] |};
  xguest_exit _ _ e := e;
  xguest_mem _ m := m
|}.
