(* ===== verification/ExFrame.v ===== *)
(** * Tables in guest RAM

    What the parts of the example monitor that prepare guest RAM share: the
    8-bit checksum of a byte range, and specifications of stores that say which
    range they leave everything outside of alone. *)
From S2P Require Import Prelude Memory Codec State Snapshot ExVmm.
From stdpp Require Import options.

(** ** Checksums *)

(** [uint8_t sum = 0; sum += data[i]]. *)
Definition sum8 (bs : list Z) : Z := foldl (fun s b => u8 (s + b)) 0 bs.

Definition sum_all (bs : list Z) : Z := foldr Z.add 0 bs.

Lemma sum_all_app l1 l2 : sum_all (l1 ++ l2) = sum_all l1 + sum_all l2.
Proof. induction l1 as [|x l1 IH]; [done|]. change (sum_all ((x :: l1) ++ l2)) with (x + sum_all (l1 ++ l2)).
  rewrite IH. change (sum_all (x :: l1)) with (x + sum_all l1). lia.
Qed.

Lemma sum8_mod bs : sum8 bs = sum_all bs mod 256.
Proof.
  assert (G : forall acc, 0 <= acc < 256 -> foldl (fun s b => u8 (s + b)) acc bs = (acc + sum_all bs) mod 256).
  { induction bs as [|x bs IH]; intros acc Ha; cbn [foldl].
    - change (sum_all []) with 0. by rewrite Z.add_0_r, Z.mod_small.
    - rewrite IH by (apply Z.mod_pos_bound; lia). unfold wrap. change (2 ^ 8) with 256.
      rewrite Zplus_mod_idemp_l. f_equal. change (sum_all (x :: bs)) with (x + sum_all bs). lia. }
  unfold sum8. by rewrite G.
Qed.
Global Arguments sum8 : simpl never.

(** The negated sum, stored where a zero was, makes the range sum to zero. *)
Lemma checksum_zero m a len off :
  0 <= off < len ->
  let m0 := mem_set m (a + off) [0] in
  sum8 (mem_get (mem_set m0 (a + off) [u8 (- sum8 (mem_get m0 a len))]) a len) = 0.
Proof.
  intros Ho m0.
  assert (S : forall c m1, mem_get (mem_set m1 (a + off) [c]) a len =
    mem_get m1 a off ++ [c] ++ mem_get m1 (a + off + 1) (len - off - 1)).
  { intros c m1. replace len with (off + (1 + (len - off - 1))) at 1 by lia.
    rewrite (mem_get_app _ a off), (mem_get_app _ (a + off) 1) by lia.
    rewrite (mem_get_set_disjoint _ _ _ a off), (mem_get_set_disjoint _ _ _ (a + off + 1)) by (cbn; lia).
    rewrite mem_get_1, mem_set_inside by (cbn; lia).
    by rewrite Z.sub_diag. }
  assert (E0 : mem_get m0 a off = mem_get m a off) by (apply mem_get_set_disjoint; lia).
  assert (E1 : mem_get m0 (a + off + 1) (len - off - 1) = mem_get m (a + off + 1) (len - off - 1))
    by (apply mem_get_set_disjoint; cbn; lia).
  unfold m0 at 2. rewrite !S, E0, E1. rewrite !sum8_mod, !sum_all_app.
  set (x := sum_all _). set (y := sum_all (mem_get m (a + off + 1) _)). change (sum_all [?c]) with (c + 0).
  unfold wrap. change (2 ^ 8) with 256. rewrite Z.add_0_r.
  replace (sum_all [0]) with 0 by done. rewrite (Z.add_comm _ y), Z.add_assoc, Zplus_mod_idemp_r.
  replace (x + (0 + y)) with (x + y) by lia.
  replace (x + y + - ((x + y) mod 256)) with ((x + y) / 256 * 256).
  - apply Z_mod_mult.
  - pose proof (Z.div_mod (x + y) 256). lia.
Qed.

(** ** Stores and what they leave alone *)

Definition disj (a n b k : Z) : Prop := a + n <= b \/ b + k <= a.

(** Only guest RAM changes, and only the [n] bytes at [a]. *)
Definition wrote (a n : Z) (s s' : ExVmm) : Prop :=
  exists m, s' = s <| x_ram := m |> /\ forall x, x < a \/ a + n <= x -> m x = x_ram s x.

Lemma wrote_refl a n s : wrote a n s s.
Proof. exists (x_ram s). split; [by destruct s|done]. Qed.

Lemma wrote_trans a n s1 s2 s3 : wrote a n s1 s2 -> wrote a n s2 s3 -> wrote a n s1 s3.
Proof.
  intros (m & -> & Hm) (m' & -> & Hm'). exists m'. split; [done|]. intros x Hx. rewrite Hm' by done. by apply Hm.
Qed.

Lemma wrote_widen a n b k s s' : wrote a n s s' -> b <= a -> a + n <= b + k -> wrote b k s s'.
Proof. intros (m & -> & Hm) ? ?. exists m. split; [done|]. intros x Hx. apply Hm. lia. Qed.

Lemma wrote_get a n s s' b k :
  wrote a n s s' -> disj b k a n -> mem_get (x_ram s') b k = mem_get (x_ram s) b k.
Proof.
  intros (m & -> & Hm) Hd. unfold mem_get. apply list_fmap_ext. intros i x Hx.
  apply lookup_seqZ in Hx as [-> ?]. cbn. apply Hm. unfold disj in Hd. lia.
Qed.

Lemma wrote_size a n s s' : wrote a n s s' -> mem_size s' = mem_size s.
Proof. by intros (m & -> & _). Qed.

(** Nothing but the trace and guest RAM changes. *)
Definition moved (s s' : ExVmm) : Prop := s' = s <| x_trace := x_trace s' |> <| x_ram := x_ram s' |>.

#[export] Instance moved_preorder : PreOrder moved.
Proof. split; [by intros []|]. unfold moved. intros s1 s2 s3 -> ->. done. Qed.

Lemma moved_size s s' : moved s s' -> mem_size s' = mem_size s.
Proof. by intros ->. Qed.

Lemma wrote_moved a n s s' : wrote a n s s' -> moved s s'.
Proof. intros (m & -> & _). by destruct s. Qed.

(** Specifications in continuation form: the rest of the program runs in any
    state that differs as described. *)
Lemma store_step n a bs Q s :
  Z.of_nat (length bs) = n -> 0 <= a -> a + n <= mem_size s ->
  (forall s', wrote a n s s' -> mem_get (x_ram s') a n = bs -> Q () s') -> xwp (xstore a bs) Q s.
Proof.
  intros <- Ha Hs HQ. apply xwp_store; [done..|]. apply HQ.
  - eexists. split; [done|]. intros x Hx. apply mem_set_outside. lia.
  - apply mem_get_set_eq.
Qed.

(** Adjacent ranges, and a part of a range. *)
Lemma get_cat m a b n1 n2 n l1 l2 :
  b = a + n1 -> n = n1 + n2 -> 0 <= n1 -> 0 <= n2 ->
  mem_get m a n1 = l1 -> mem_get m b n2 = l2 -> mem_get m a n = l1 ++ l2.
Proof. intros -> -> ? ? <- <-. by apply mem_get_app. Qed.

Lemma get_part m a n l b k :
  mem_get m a n = l -> a <= b -> 0 <= k -> b + k <= a + n ->
  mem_get m b k = take (Z.to_nat k) (drop (Z.to_nat (b - a)) l).
Proof.
  intros <- ? ? ?. replace (mem_get m a n) with (mem_get m a ((b - a) + (n - (b - a)))) by (f_equal; lia).
  rewrite mem_get_app by lia.
  rewrite drop_app_length' by (rewrite mem_get_length; lia).
  replace (n - (b - a)) with (k + (n - (b - a) - k)) by lia. replace (a + (b - a)) with b by lia.
  rewrite (mem_get_app m b k) by lia. rewrite take_app_length' by (rewrite mem_get_length; lia). done.
Qed.

Lemma rd_enc m (k : nat) a v :
  mem_get m a (Z.of_nat k) = le_enc k v -> fits (8 * Z.of_nat k) v -> rd m k a = v.
Proof. intros E Hv. unfold rd. by rewrite E, le_dec_enc. Qed.

Lemma mem_get_at m a n l (i : nat) :
  mem_get m a n = l -> Z.of_nat i < n -> m (a + Z.of_nat i) = nth i l 0.
Proof. intros <- Hi. symmetry. apply nth_lookup_Some. by apply mem_get_lookup. Qed.

(** An entry after the entries before it, for a table written in a loop. *)
Lemma get_entries (entry : Z -> list Z) m a w i l :
  0 <= w -> 0 <= i -> mem_get m a (i * w) = mjoin (entry <$> seqZ 0 i) -> mem_get m (a + i * w) w = l -> l = entry i ->
  mem_get m a ((i + 1) * w) = mjoin (entry <$> seqZ 0 (i + 1)).
Proof.
  intros Hw Hi E1 E2 ->. replace ((i + 1) * w) with (i * w + w) by lia. rewrite mem_get_app, E1, E2 by nia.
  rewrite (seqZ_app 0 i 1), fmap_app, join_app by lia. f_equal. change (seqZ (0 + i) 1) with [Z.of_nat 0 + (0 + i)]. cbn [fmap list_fmap]. change (mjoin [?x]) with (x ++ []). by rewrite app_nil_r.
Qed.

(** A loop that counts. *)
Lemma xfor_seqZ (body : Z -> X unit) (I : Z -> ExVmm -> Prop) n s :
  0 <= n -> I 0 s -> (forall i s, 0 <= i < n -> I i s -> xwp (body i) (fun _ => I (i + 1)) s) ->
  xwp (xfor (seqZ 0 n) body) (fun _ => I n) s.
Proof.
  intros Hn HI Hb. assert (G : forall k m s, 0 <= m -> m + Z.of_nat k = n -> I m s ->
    xwp (xfor (seqZ m (Z.of_nat k)) body) (fun _ => I n) s).
  { intros k. induction k as [|k IH]; intros m s' Hm Hk HI'.
    - cbn. by replace n with m by lia.
    - rewrite seqZ_cons by lia. cbn [xfor]. apply xwp_bind. eapply xwp_mono; [apply Hb; [lia|done]|].
      cbv beta. intros [] s2 H2. replace (Z.pred (Z.of_nat (S k))) with (Z.of_nat k) by lia.
      apply IH; [lia|lia|]. by replace (Z.succ m) with (m + 1) by lia. }
  replace n with (Z.of_nat (Z.to_nat n)) at 1 by lia. apply G; [lia|lia|done].
Qed.

(** Carry what is known of the bytes of [s] over to [s'], and forget the rest. *)
Ltac frame W :=
  lazymatch type of W with
  | wrote _ _ ?s ?s' =>
    repeat match goal with
    | E : context [mem_get (x_ram s) ?b ?k] |- _ =>
      first [rewrite <- (wrote_get _ _ s s' b k W) in E by (unfold disj; cbn [length] in *; lia) | clear E]
    end
  end.

(** The next store of a program: [W] says what it leaves alone, [E] what it
    wrote; what was known of the bytes elsewhere is carried over. *)
Ltac put W E :=
  lazymatch goal with |- xwp (mbind _ _) _ _ => apply xwp_bind | _ => idtac end;
  lazymatch goal with
  | |- xwp (xstore ?a ?bs) _ ?s =>
    let n := eval vm_compute in (Z.of_nat (length bs)) in
    apply (store_step n a bs); [reflexivity|lia|lia|];
    let s' := fresh "s" in intros s' W E; frame W; pose proof (wrote_size _ _ _ _ W)
  end.

(** A sequence of stores inside a range writes only that range. *)
Ltac wrote_chain :=
  lazymatch goal with
  | |- wrote _ _ ?s ?s => apply wrote_refl
  | W : wrote _ _ ?s _ |- wrote _ _ ?s _ =>
    eapply wrote_trans; [eapply wrote_widen; [exact W|lia|lia]|]; wrote_chain
  end.

(** The next chunk of a range whose chunks are known. *)
Ltac glue E :=
  lazymatch type of E with
  | mem_get ?m ?x ?k = ?l =>
    lazymatch goal with
    | |- mem_get m ?a ?k' = _ =>
      replace a with x by lia;
      first [exact E | let n2 := eval vm_compute in (k' - k) in
                       apply (get_cat m x (x + k) k n2 k' l); [reflexivity|reflexivity|lia|lia|exact E|]]
    end
  end.

(** A loop that writes a table of entries of [w] bytes, one per turn. *)
Lemma table_loop (body : Z -> X unit) (entry : Z -> list Z) a w n Q s :
  0 <= a -> 0 <= w -> 0 <= n -> a + n * w <= mem_size s ->
  (forall i s (Q : () -> ExVmm -> Prop), 0 <= i < n -> a + n * w <= mem_size s ->
     (forall s', wrote (a + i * w) w s s' -> mem_get (x_ram s') (a + i * w) w = entry i -> Q () s') -> xwp (body i) Q s) ->
  (forall s', wrote a (n * w) s s' -> mem_get (x_ram s') a (n * w) = mjoin (entry <$> seqZ 0 n) -> Q () s') ->
  xwp (xfor (seqZ 0 n) body) Q s.
Proof.
  intros Ha Hw Hn Hs Hb HQ. eapply xwp_mono.
  - apply (xfor_seqZ _ (fun k s' => wrote a (n * w) s s' /\
      mem_get (x_ram s') a (k * w) = mjoin (entry <$> seqZ 0 k))); [done|split; [apply wrote_refl|done]|].
    intros i s' Hi [W HI]. apply Hb; [done|by rewrite (wrote_size _ _ _ _ W)|]. intros s'' W' E.
    rewrite <- (wrote_get _ _ _ _ _ _ W') in HI by (unfold disj; nia). split.
    + eapply wrote_trans; [exact W|]. eapply wrote_widen; [exact W'|nia..].
    + eapply get_entries; [done|lia|exact HI|exact E|done].
  - cbv beta. intros [] s' [W HI]. by apply HQ.
Qed.

Ltac moved_chain :=
  lazymatch goal with
  | |- moved ?s ?s => reflexivity
  | W : wrote _ _ ?s ?s1 |- moved ?s _ => transitivity s1; [exact (wrote_moved _ _ _ _ W)|moved_chain]
  | M : moved ?s ?s1 |- moved ?s _ => transitivity s1; [exact M|moved_chain]
  end.
