(* ===== verification/ExIde.v ===== *)
(** * The example monitor's IDE disk

    The primary ATA controller of docs/example-vmm/vmm.c at ports 0x1f0-0x1f7
    and 0x3f6: [ide_lba], [ide_load_sector], [ide_store_sector],
    [ide_identify], [ide_command], [ide_data_in], [ide_data_out], [ide_in],
    [ide_out].  The disk image is a file of the host; what its contents are
    after a trace of calls is [disk_after], and [DiskFile] says that reads
    return those contents.

    Proved here: the driver's PIO sequences read and write whole runs of
    sectors, what was written is read back, no port access of a driver that
    stays on the disk leaves the sector buffer, and a read that runs off the end
    of the disk does. *)
From S2P Require Import Prelude Memory Codec State Snapshot SnapFile SaveFacts ExVmm.
From stdpp Require Import options.

(** ** Operations *)

Definition sector_words : codec (list Z) := carray 256 (cint 2).

Section ide.
  Context {H : XHost}.

Definition ide_lba (d : ExIde) : Z :=
  Z.lor (Z.lor (Z.lor (Z.shiftl (Z.land (ide_drive_head d) 0x0f) 24) (Z.shiftl (ide_lba_high d) 16))
           (Z.shiftl (ide_lba_mid d) 8)) (ide_lba_low d).

(** The sector is outside the image, or there is no image. *)
Definition off_disk (s : ExVmm) (lba : Z) : bool := (disk_size s <? lba * 512 + 512) || (disk_fd s <? 0).

(** What [pread64] leaves in the 512 bytes: the bytes read, and zeros after them. *)
Definition sector_read (old : list Z) (r : reply) : list Z :=
  let n := if r_ret r <? 0 then 0 else r_ret r in
  let got := overlay old (take (Z.to_nat n) (r_data r)) in
  if n <? 512 then take (Z.to_nat n) got ++ zeros (512 - n) else got.

Definition ide_load_sector (lba : Z) : X unit :=
  s ← xgets id;
  if off_disk s lba then xupd_ide (fun d => d <| ide_data := zeros 256 |>) else
  r ← xsys (x_pread (disk_fd s) 512 (lba * 512));
  xupd_ide (fun d =>
    d <| ide_data := c_get sector_words (sector_read (c_put sector_words (ide_data d)) r) |>
      <| ide_data_pos := 0 |> <| ide_data_len := 256 |>).

Definition ide_store_sector (lba : Z) : X unit :=
  s ← xgets id;
  if disk_fd s <? 0 then xskip else
  if disk_size s <? lba * 512 + 512 then xskip else
  xsys_ (x_pwrite (disk_fd s) (c_put sector_words (ide_data (x_ide s))) (lba * 512)).

Definition identify_words (sectors : Z) : list Z :=
  <[61%nat := u16 (Z.shiftr sectors 16)]> (<[60%nat := Z.land sectors 0xffff]>
    (<[49%nat := 0x0200]> (<[0%nat := 0x0040]> (zeros 256)))).

Definition ide_identify : X unit :=
  s ← xgets id;
  xupd_ide (fun d => d <| ide_data := identify_words (disk_num_sectors s) |>
    <| ide_data_pos := 0 |> <| ide_data_len := 256 |> <| ide_status := 0x58 |> <| ide_error := 0 |>).

(** READ SECTORS and WRITE SECTORS start alike: a count of 0 becomes 1 and the
    address registers are latched. *)
Definition ide_start (d : ExIde) : ExIde :=
  d <| ide_nsect := if ide_nsect d =? 0 then 1 else ide_nsect d |> <| ide_cur_lba := ide_lba d |>.

Definition ide_command (cmd : Z) : X unit :=
  if cmd =? 0x20 then
    xupd_ide ide_start ;;
    d ← xgets x_ide;
    ide_load_sector (ide_cur_lba d) ;;
    xupd_ide (fun d => d <| ide_status := 0x58 |> <| ide_error := 0 |>)
  else if cmd =? 0x30 then
    xupd_ide (fun d => (ide_start d) <| ide_data_pos := 0 |> <| ide_data_len := 256 |>
                         <| ide_status := 0x58 |> <| ide_error := 0 |>)
  else if cmd =? 0xec then ide_identify
  else if (cmd =? 0x08) || (cmd =? 0xef) || (cmd =? 0x00) || (cmd =? 0x70) then
    xupd_ide (fun d => d <| ide_status := 0x50 |> <| ide_error := 0 |>)
  else xupd_ide (fun d => d <| ide_status := 0x51 |> <| ide_error := 0x04 |>).

(** [return vmm->ide_data[vmm->ide_data_pos++]]. *)
Definition ide_next_word : X Z :=
  d ← xgets x_ide;
  match ide_data d !! Z.to_nat (ide_data_pos d) with
  | None => xfail OutOfBounds
  | Some w => xupd_ide (fun d => d <| ide_data_pos ::= Z.succ |>) ;; mret w
  end.

Definition ide_data_in : X Z :=
  d ← xgets x_ide;
  if ide_data_pos d <? ide_data_len d then ide_next_word else
  if ide_nsect d =? 0 then mret 0 else
  xupd_ide (fun d => d <| ide_nsect ::= Z.pred |>) ;;
  if ide_nsect d - 1 =? 0 then
    xupd_ide (fun d => d <| ide_status := 0x50 |> <| ide_data_len := 0 |>) ;; mret 0
  else
    xupd_ide (fun d => d <| ide_cur_lba ::= (fun l => u32 (l + 1)) |>) ;;
    d ← xgets x_ide;
    ide_load_sector (ide_cur_lba d) ;;
    ide_next_word.

(** The whole sector has arrived: it goes to the disk if a command asked for it. *)
Definition ide_sector_full : X unit :=
  d ← xgets x_ide;
  if ide_nsect d =? 0 then xupd_ide (fun d => d <| ide_status := 0x50 |> <| ide_data_len := 0 |>) else
  ide_store_sector (ide_cur_lba d) ;;
  xupd_ide (fun d => d <| ide_nsect ::= Z.pred |>) ;;
  if ide_nsect d - 1 =? 0 then xupd_ide (fun d => d <| ide_status := 0x50 |> <| ide_data_len := 0 |>) else
  xupd_ide (fun d => d <| ide_cur_lba ::= (fun l => u32 (l + 1)) |> <| ide_data_pos := 0 |>
                       <| ide_data_len := 256 |> <| ide_status := 0x58 |>).

(** [vmm->ide_data[vmm->ide_data_pos++] = data]. *)
Definition ide_put_word (data : Z) : X unit :=
  d ← xgets x_ide;
  match update_at (fun _ => data) (ide_data_pos d) (ide_data d) with
  | Fault f => xfail f
  | Ok words => xupd_ide (fun d => d <| ide_data := words |> <| ide_data_pos ::= Z.succ |>)
  end.

Definition ide_data_out (data : Z) : X unit :=
  d ← xgets x_ide;
  xwhen (ide_data_pos d <? 256) (ide_put_word data) ;;
  d ← xgets x_ide;
  xwhen (ide_data_pos d =? 256) ide_sector_full.

(** The bytes [ide_in] stores at [data]: two for a word access to the data
    register, one otherwise. *)
Definition ide_in (port size : Z) : X (list Z) :=
  if (port =? 0x1f0) && (size =? 2) then
    val ← ide_data_in;
    mret [Z.land val 0xff; Z.shiftr val 8]
  else
    d ← xgets x_ide;
    mret [if port =? 0x1f1 then ide_error d
          else if port =? 0x1f2 then ide_nsect d
          else if port =? 0x1f3 then ide_lba_low d
          else if port =? 0x1f4 then ide_lba_mid d
          else if port =? 0x1f5 then ide_lba_high d
          else if port =? 0x1f6 then ide_drive_head d
          else if port =? 0x1f7 then ide_status d
          else if port =? 0x3f6 then ide_status d
          else 0xff].

Definition ide_out (port size : Z) (data : list Z) : X unit :=
  if (port =? 0x1f0) && (size =? 2) then
    match data with
    | b0 :: b1 :: _ => ide_data_out (Z.lor b0 (Z.shiftl b1 8))
    | _ => xfail OutOfBounds
    end
  else
  let data_0 (f : Z -> X unit) := match data with b :: _ => f b | [] => xfail OutOfBounds end in
  if port =? 0x1f2 then data_0 (fun b => xupd_ide (fun d => d <| ide_nsect := b |>))
  else if port =? 0x1f3 then data_0 (fun b => xupd_ide (fun d => d <| ide_lba_low := b |>))
  else if port =? 0x1f4 then data_0 (fun b => xupd_ide (fun d => d <| ide_lba_mid := b |>))
  else if port =? 0x1f5 then data_0 (fun b => xupd_ide (fun d => d <| ide_lba_high := b |>))
  else if port =? 0x1f6 then data_0 (fun b => xupd_ide (fun d => d <| ide_drive_head := b |>))
  else if port =? 0x1f7 then data_0 ide_command
  else if port =? 0x3f6 then data_0 (fun b => xupd_ide (fun d => d <| ide_control := b |>))
  else xskip.

(** ** A driver *)

(** The address and count registers, LBA mode, as a driver programs them. *)
Definition drv_select (lba n : Z) : X unit :=
  ide_out 0x1f2 1 [u8 n] ;;
  ide_out 0x1f3 1 [u8 lba] ;;
  ide_out 0x1f4 1 [u8 (lba / 2 ^ 8)] ;;
  ide_out 0x1f5 1 [u8 (lba / 2 ^ 16)] ;;
  ide_out 0x1f6 1 [Z.lor 0xe0 (lba / 2 ^ 24)].

(** [insw] and [outsw] on the data register. *)
Fixpoint drv_insw (k : nat) : X (list Z) :=
  match k with
  | O => mret []
  | S k' => b ← ide_in 0x1f0 2; rest ← drv_insw k'; mret (b ++ rest)
  end.

Definition drv_outsw (ws : list Z) : X unit := xfor ws (fun w => ide_out 0x1f0 2 (le_enc 2 w)).

Definition drv_read (lba n : Z) : X (list Z) :=
  drv_select lba n ;; ide_out 0x1f7 1 [0x20] ;; drv_insw (256 * Z.to_nat n).

Definition drv_write (lba n : Z) (ws : list Z) : X unit :=
  drv_select lba n ;; ide_out 0x1f7 1 [0x30] ;; drv_outsw ws.
End ide.

(** ** The disk *)

(** The contents of the file behind [fd] after the calls of a trace. *)
Definition disk_after (fd : Z) (img : mem) (t : xtrace) : mem :=
  foldl (fun m e => match e.1 with
    | x_pwrite f bs off => if f =? fd then mem_set m off (take (Z.to_nat (r_ret e.2)) bs) else m
    | _ => m end) img t.

(** [fd] is a regular file that had [size] bytes [img] at the start: reads inside
    it return its contents, writes inside it are carried out. *)
Class DiskFile (H : XHost) (fd size : Z) (img : mem) : Prop := {
  disk_pread t n off : 0 <= off -> 0 <= n -> off + n <= size ->
    xreply_of t (x_pread fd n off) = {| r_ret := n; r_errno := 0; r_data := mem_get (disk_after fd img t) off n |};
  disk_pwrite t bs off : 0 <= off -> off + Z.of_nat (length bs) <= size ->
    r_ret (xreply_of t (x_pwrite fd bs off)) = Z.of_nat (length bs)
}.

Lemma disk_after_snoc fd img t e :
  disk_after fd img (t ++ [e]) =
  match e.1 with
  | x_pwrite f bs off => if f =? fd then mem_set (disk_after fd img t) off (take (Z.to_nat (r_ret e.2)) bs)
                         else disk_after fd img t
  | _ => disk_after fd img t end.
Proof. unfold disk_after. by rewrite foldl_app. Qed.
Global Arguments disk_after : simpl never.

(** ** The sector buffer *)

Lemma array_put_get (k : nat) bs :
  length bs = (2 * k)%nat -> Forall byte_ok bs -> mjoin (le_enc 2 <$> array_get (cint 2) k bs) = bs.
Proof.
  revert bs. induction k as [|k IH]; intros bs Hl Hb; [by destruct bs|].
  destruct bs as [|a [|b bs]]; [cbn in Hl; lia..|]. cbn [length] in Hl.
  inversion Hb as [|? ? Ha Hb1]; subst. inversion Hb1 as [|? ? Hb2 Hb3]; subst.
  cbn [array_get]. change (drop (c_size (cint 2)) (a :: b :: bs)) with bs.
  rewrite fmap_cons. change (mjoin (?x :: ?l)) with (x ++ mjoin l). rewrite IH by (done || lia).
  change (c_get (cint 2) (a :: b :: bs)) with (le_dec [a; b]).
  pose proof (le_enc_dec [a; b]) as E. cbn [length] in E. rewrite E by (by eauto using Forall_cons_2, Forall_nil_2). done.
Qed.

Lemma array_get_fits k bs : Forall byte_ok bs -> Forall (fits 16) (array_get (cint 2) k bs).
Proof.
  revert bs. induction k as [|k IH]; intros bs Hb; [constructor|]. cbn [array_get]. constructor.
  - change (c_get (cint 2) bs) with (le_dec (take 2 bs)).
    pose proof (le_dec_fits (take 2 bs) (Forall_take _ _ _ Hb)) as Hf.
    eapply fits_mono; [|exact Hf]. rewrite length_take. lia.
  - apply IH. by apply Forall_drop.
Qed.

(** The two bytes of a word, as [ide_in] stores them. *)
Lemma word_bytes w : fits 16 w -> [Z.land w 0xff; Z.shiftr w 8] = le_enc 2 w.
Proof.
  intros [H0 H1]. change 0xff with (Z.ones 8). rewrite Z.land_ones, Z.shiftr_div_pow2 by lia.
  change (le_enc 2 w) with [u8 w; u8 (w / 256)]. unfold wrap. change (2 ^ 8) with 256 in *. change (2 ^ 16) with 65536 in H1.
  rewrite (Z.mod_small (w / 256)); [done|]. split; [apply Z.div_pos; lia|apply Z.div_lt_upper_bound; lia].
Qed.

(** A driver's word arrives as it was sent. *)
Lemma word_of_bytes w : fits 16 w -> exists b0 b1, le_enc 2 w = [b0; b1] /\ Z.lor b0 (Z.shiftl b1 8) = w.
Proof.
  intros Hw. exists (u8 w), (u8 (w / 256)). split; [done|]. unfold wrap. destruct Hw as [H0 H1].
  change (2 ^ 8) with 256. change (2 ^ 16) with 65536 in H1.
  rewrite (Z.mod_small (w / 256)) by (split; [apply Z.div_pos; lia|apply Z.div_lt_upper_bound; lia]).
  change 256 with (2 ^ 8). rewrite <- Z.land_ones, <- Z.shiftr_div_pow2 by lia.
  apply Z.bits_inj'. intros n Hn. rewrite Z.lor_spec, Z.land_spec, Z.shiftl_spec by done.
  destruct (decide (n < 8)).
  - rewrite Z.ones_spec_low, (Z.testbit_neg_r _ (n - 8)) by lia. by rewrite andb_true_r, orb_false_r.
  - rewrite Z.ones_spec_high, andb_false_r by lia. rewrite Z.shiftr_spec by lia. cbn. f_equal. lia.
Qed.

(** The words of a sector of the disk. *)
Definition disk_sector (m : mem) (lba : Z) : list Z := array_get (cint 2) 256 (mem_get m (lba * 512) 512).

Lemma disk_sector_length m lba : length (disk_sector m lba) = 256%nat.
Proof. apply array_get_length. Qed.

Lemma disk_sector_bytes m lba :
  mem_bytes m -> mjoin (le_enc 2 <$> disk_sector m lba) = mem_get m (lba * 512) 512.
Proof. intros Hm. apply array_put_get; [by rewrite mem_get_length|by apply mem_get_bytes]. Qed.

Lemma words_length ws : length (mjoin (le_enc 2 <$> ws)) = (2 * length ws)%nat.
Proof.
  induction ws as [|w ws IH]; [done|]. rewrite fmap_cons. change (mjoin (?x :: ?l)) with (x ++ mjoin l).
  rewrite length_app, IH, le_enc_length. cbn. lia.
Qed.

Lemma sector_read_full old m a :
  length old = 512%nat ->
  sector_read old {| r_ret := 512; r_errno := 0; r_data := mem_get m a 512 |} = mem_get m a 512.
Proof.
  intros Hl. unfold sector_read. cbn [r_ret r_data]. change (512 <? 0) with false. change (512 <? 512) with false.
  cbv beta iota zeta. rewrite (take_ge (mem_get m a 512)) by (rewrite mem_get_length; lia). apply overlay_full. by rewrite mem_get_length, Hl.
Qed.

Local Arguments array_get : simpl never.

Section disk.
  Context {H : XHost} (fd size : Z) (img : mem) {D : DiskFile H fd size img}.

(** The disk as the machine's calls have left it. *)
Definition disk (s : ExVmm) : mem := disk_after fd img (x_trace s).

(** The image is this machine's, and it holds bytes. *)
Record disk_ready (s : ExVmm) : Prop := {
  dr_fd : disk_fd s = fd; dr_pos : 0 <= fd; dr_size : disk_size s = size; dr_bytes : mem_bytes (disk s)
}.

Lemma set_pos_id s p :
  ide_data_pos (x_ide s) = p -> s = s <| x_ide := (x_ide s) <| ide_data_pos := p |> |>.
Proof. destruct s as [? ? ? ? ? ? ? ? ? ? ? ? ? [] ? ? ?]. cbn. by intros ->. Qed.

(** Words still in the buffer are read out one after the other. *)
Lemma insw_buffer k p s :
  ide_data_pos (x_ide s) = Z.of_nat p -> ide_data_len (x_ide s) = 256 ->
  length (ide_data (x_ide s)) = 256%nat -> Forall (fits 16) (ide_data (x_ide s)) -> (p + k <= 256)%nat ->
  xwp (drv_insw k) (fun bs s' => bs = mjoin (le_enc 2 <$> take k (drop p (ide_data (x_ide s)))) /\
    s' = s <| x_ide := (x_ide s) <| ide_data_pos := Z.of_nat (p + k) |> |>) s.
Proof.
  revert p s. induction k as [|k IH]; intros p s Hp Hl Hd Hf Hk.
  { cbn [drv_insw]. apply xwp_ret. split; [done|]. apply set_pos_id. rewrite Hp. f_equal. lia. }
  destruct (lookup_lt_is_Some_2 (ide_data (x_ide s)) p) as [w Hw]; [lia|].
  cbn [drv_insw]. apply xwp_bind. change (ide_in 0x1f0 2) with (val ← ide_data_in; mret [Z.land val 0xff; Z.shiftr val 8]).
  apply xwp_bind. unfold ide_data_in. xwp_one. xwp_one.
  rewrite Hp, Hl, (proj2 (Z.ltb_lt _ _)) by lia. unfold ide_next_word. xwp_one. xwp_one.
  rewrite Hp, Nat2Z.id, Hw. xwp_run.
  xwp_use (IH (S p)); [cbn; rewrite Hp; lia|done..|lia|].
  intros bs s' [-> ->]. apply xwp_ret. split.
  - rewrite word_bytes by (by eapply Forall_lookup_1).
    cbn. by rewrite (drop_S _ _ _ Hw).
  - by replace (p + S k)%nat with (S p + k)%nat by lia.
Qed.

(** Loading a sector of the disk. *)
Lemma load_sector_spec lba s :
  disk_ready s -> 0 <= lba -> lba * 512 + 512 <= size -> length (ide_data (x_ide s)) = 256%nat ->
  xwp (ide_load_sector lba) (fun _ s' =>
    x_ide s' = (x_ide s) <| ide_data := disk_sector (disk s) lba |> <| ide_data_pos := 0 |> <| ide_data_len := 256 |> /\
    disk s' = disk s /\ disk_ready s') s.
Proof using D.
  intros [Hfd Hfd0 Hsz Hby] Hl Hlba Hd. unfold ide_load_sector. xwp_one. xwp_one.
  unfold off_disk, id. rewrite Hfd, Hsz, (proj2 (Z.ltb_ge _ _)), (proj2 (Z.ltb_ge _ _)) by lia. cbn [orb].
  xwp_run. rewrite disk_pread in Hr by lia. subst r.
  assert (E : forall t', disk_after fd img (x_trace s ++ [(x_pread fd 512 (lba * 512), t')]) = disk s)
    by (intros; apply disk_after_snoc).
  split; [|split; [apply E|split; [done..|]; unfold disk; cbn; by rewrite E]].
  change (x_ide (upd ?f ?g (upd x_trace ?h s))) with (g (x_ide s)). cbv beta.
  change (c_get sector_words) with (array_get (cint 2) 256). change (c_put sector_words) with (fun ws => mjoin (le_enc 2 <$> ws)).
  cbv beta. rewrite sector_read_full; [done|]. by rewrite words_length, Hd.
Qed.

Lemma drv_insw_app j k Q s :
  xwp (drv_insw j) (fun b1 s1 => xwp (drv_insw k) (fun b2 => Q (b1 ++ b2)) s1) s -> xwp (drv_insw (j + k)) Q s.
Proof.
  revert Q s. induction j as [|j IH]; intros Q s Hw; [exact Hw|].
  cbn [drv_insw Nat.add] in *. apply xwp_bind_inv in Hw. apply xwp_bind.
  eapply xwp_mono; [exact Hw|]. cbv beta. intros b s' Hb. apply xwp_bind_inv in Hb. apply xwp_bind.
  apply IH. eapply xwp_mono; [exact Hb|]. cbv beta. intros b1 s1 H1.
  change (xwp (mret (b ++ b1)) ?Q' s1) with (Q' (b ++ b1) s1) in H1. cbv beta in H1.
  eapply xwp_mono; [exact H1|]. cbv beta. intros b2 s2 H2. apply xwp_ret. by rewrite app_assoc.
Qed.

(** The last word of a sector has been read: the next read starts the next one. *)
Lemma insw_reload k Q s :
  ide_data_len (x_ide s) <= ide_data_pos (x_ide s) -> 1 < ide_nsect (x_ide s) ->
  let d := (x_ide s) <| ide_nsect ::= Z.pred |> <| ide_cur_lba ::= (fun l => u32 (l + 1)) |> in
  xwp (ide_load_sector (ide_cur_lba d)) (fun _ s' =>
    ide_data_pos (x_ide s') < ide_data_len (x_ide s') /\ xwp (drv_insw (S k)) Q s') (s <| x_ide := d |>) ->
  xwp (drv_insw (S k)) Q s.
Proof.
  intros Hp Hn d Hw. cbn [drv_insw]. apply xwp_bind.
  change (ide_in 0x1f0 2) with (val ← ide_data_in; mret [Z.land val 0xff; Z.shiftr val 8]). apply xwp_bind.
  unfold ide_data_in. xwp_one. xwp_one. rewrite (proj2 (Z.ltb_ge _ _)), (proj2 (Z.eqb_neq _ _)) by lia. cbv iota.
  do 3 xwp_one. rewrite (proj2 (Z.eqb_neq _ _)) by lia. cbv iota. do 5 xwp_one.
  eapply xwp_mono; [exact Hw|]. cbv beta. intros [] s' [Hp' Hk].
  cbn [drv_insw] in Hk. apply xwp_bind_inv in Hk.
  change (ide_in 0x1f0 2) with (val ← ide_data_in; mret [Z.land val 0xff; Z.shiftr val 8]) in Hk.
  apply xwp_bind_inv in Hk. unfold ide_data_in in Hk. apply xwp_bind_inv in Hk.
  change (xwp (xgets x_ide) ?R s') with (R (x_ide s') s') in Hk. cbv beta in Hk.
  by rewrite (proj2 (Z.ltb_lt _ _)) in Hk.
Qed.

(** A sector has just been loaded, with [j] of them left to be read. *)
Record sector_loaded (lba j : Z) (s : ExVmm) : Prop := {
  sl_disk : disk_ready s;
  sl_data : ide_data (x_ide s) = disk_sector (disk s) lba;
  sl_pos : ide_data_pos (x_ide s) = 0; sl_len : ide_data_len (x_ide s) = 256;
  sl_nsect : ide_nsect (x_ide s) = j; sl_lba : ide_cur_lba (x_ide s) = lba
}.

Lemma read_sectors (j : nat) lba s :
  (1 <= j)%nat -> 0 <= lba -> lba + Z.of_nat j < 2 ^ 32 -> (lba + Z.of_nat j) * 512 <= size ->
  sector_loaded lba (Z.of_nat j) s ->
  xwp (drv_insw (256 * j)) (fun bs s' => bs = mem_get (disk s) (lba * 512) (Z.of_nat j * 512) /\ disk s' = disk s) s.
Proof using D.
  revert lba s. induction j as [|j IH]; intros lba s Hj Hl H32 Hsz [Hr Hd Hp Hlen Hn Hc]; [lia|].
  assert (Hby : mem_bytes (disk s)) by apply Hr.
  replace (256 * S j)%nat with (256 + 256 * j)%nat by lia. apply drv_insw_app.
  xwp_use (insw_buffer 256 0); [done|done|by rewrite Hd, disk_sector_length| |lia|].
  { rewrite Hd. apply array_get_fits. by apply mem_get_bytes. }
  intros b1 s1 [-> ->]. rewrite drop_0, Hd, take_ge, disk_sector_bytes by (rewrite ?disk_sector_length; done).
  destruct (decide (j = 0%nat)) as [->|Hj0]; [by apply xwp_ret; rewrite app_nil_r|].
  replace (256 * j)%nat with (S (256 * j - 1)) by lia.
  apply insw_reload; cbn [x_ide upd rebuild ExVmm_eta ide_data_pos ide_data_len ide_nsect]; [lia..|].
  assert (Hu : u32 (lba + 1) = lba + 1) by (apply wrap_id; unfold fits; lia).
  change (ide_load_sector _) with (ide_load_sector (u32 (ide_cur_lba (x_ide s) + 1))). rewrite Hc, Hu.
  xwp_use load_sector_spec; [by destruct Hr; split|lia|lia|by cbn; rewrite Hd, disk_sector_length|].
  cbn [x_ide]. intros _ s' (Hi & Hdk & Hr').
  assert (Hdk' : disk s' = disk s) by done. clear Hdk.
  split; [rewrite Hi; cbn; lia|]. replace (S (256 * j - 1)) with (256 * j)%nat by lia.
  xwp_use (IH (lba + 1)); [lia|lia|lia|lia| |].
  { split; [done|by rewrite Hi, Hdk'|by rewrite Hi..| |]; rewrite Hi; cbn; [lia|by rewrite Hc]. }
  intros b2 s2 [-> Hd2]. rewrite Hdk' in *. split; [|done].
  replace (Z.of_nat (S j) * 512) with (512 + Z.of_nat j * 512) by lia.
  rewrite (mem_get_app _ _ 512) by lia. do 2 f_equal. lia.
Qed.
End disk.

(** ** Selecting sectors *)

Lemma lor_add k a b : 0 <= k -> a mod 2 ^ k = 0 -> 0 <= b < 2 ^ k -> Z.lor a b = a + b.
Proof.
  intros Hk Ha Hb. symmetry. apply Z.add_nocarry_lor. apply Z.bits_inj'. intros i Hi.
  rewrite Z.land_spec, Z.bits_0. destruct (decide (i < k)).
  - rewrite <- (Z.mod_pow2_bits_low a k i), Ha, Z.bits_0 by lia. done.
  - rewrite (proj2 (proj1 (fits_bits k b Hk) Hb)) by lia. apply andb_false_r.
Qed.

Lemma drive_head_low q : 0 <= q < 16 -> Z.land (Z.lor 0xe0 q) 0x0f = q.
Proof.
  assert (E : Forall (fun q => Z.land (Z.lor 0xe0 q) 0x0f = q) (seqZ 0 16))
    by (refine (bool_decide_unpack _ _); vm_compute; exact I).
  intros Hq. rewrite Forall_forall in E. apply E. apply elem_of_seqZ. lia.
Qed.

(** The registers a driver writes name the sector. *)
Lemma lba_registers lba :
  0 <= lba < 2 ^ 28 ->
  Z.lor (Z.lor (Z.lor (Z.shiftl (Z.land (Z.lor 0xe0 (lba / 2 ^ 24)) 0x0f) 24) (Z.shiftl (u8 (lba / 2 ^ 16)) 16))
           (Z.shiftl (u8 (lba / 2 ^ 8)) 8)) (u8 lba) = lba.
Proof.
  intros Hl. rewrite drive_head_low by (split; [apply Z.div_pos; lia|apply Z.div_lt_upper_bound; lia]).
  rewrite !Z.shiftl_mul_pow2 by lia. unfold wrap.
  change (2 ^ 8) with 256. change (2 ^ 16) with 65536. change (2 ^ 24) with 16777216.
  replace (lba / 16777216) with (lba / 65536 / 256) by (rewrite Z.div_div by lia; done).
  replace (lba / 65536) with (lba / 256 / 256) by (rewrite Z.div_div by lia; done).
  pose proof (Z.div_mod lba 256). set (l0 := lba mod 256) in *. set (q0 := lba / 256) in *.
  pose proof (Z.div_mod q0 256). set (l1 := q0 mod 256) in *. set (q1 := q0 / 256) in *.
  pose proof (Z.div_mod q1 256). set (l2 := q1 mod 256) in *. set (q2 := q1 / 256) in *.
  assert (0 <= l0 < 256 /\ 0 <= l1 < 256 /\ 0 <= l2 < 256) as (? & ? & ?) by (repeat split; apply Z.mod_pos_bound; lia).
  rewrite (lor_add 24 (q2 * _)), (lor_add 16 (_ + _)), (lor_add 8 (_ + _)); try lia.
  - replace (q2 * 16777216 + l2 * 65536 + l1 * 256) with ((q2 * 65536 + l2 * 256 + l1) * 2 ^ 8) by lia. apply Z_mod_mult.
  - replace (q2 * 16777216 + l2 * 65536) with ((q2 * 256 + l2) * 2 ^ 16) by lia. apply Z_mod_mult.
  - apply Z_mod_mult.
Qed.

(** The count and the address are set; nothing else a command uses changes. *)
Lemma drv_select_spec {H : XHost} lba n s :
  0 <= lba < 2 ^ 28 -> 1 <= n <= 255 ->
  xwp (drv_select lba n) (fun _ s' => exists d, s' = s <| x_ide := d |> /\
    ide_nsect d = n /\ ide_lba d = lba /\ ide_data d = ide_data (x_ide s)) s.
Proof.
  intros Hl Hn. unfold drv_select, ide_out. cbn [Z.eqb Pos.eqb andb]. cbv zeta. xwp_run.
  eexists. split; [reflexivity|]. cbn. split; [apply wrap_id; unfold fits; lia|]. split; [|done].
  unfold ide_lba. cbn. by apply lba_registers.
Qed.

Section transfer.
  Context {H : XHost} (fd size : Z) (img : mem) {D : DiskFile H fd size img}.
  Local Abbreviation disk := (disk fd img).
  Local Abbreviation disk_ready := (disk_ready fd size img).

Lemma disk_ready_ide s d : disk_ready s -> disk_ready (s <| x_ide := d |>).
Proof. by intros []. Qed.

(** READ SECTORS returns the bytes of a run of sectors, across the sector
    boundaries at which the controller reloads its buffer. *)
Lemma drv_read_spec lba n s :
  disk_ready s -> length (ide_data (x_ide s)) = 256%nat ->
  0 <= lba < 2 ^ 28 -> 1 <= n <= 255 -> (lba + n) * 512 <= size ->
  xwp (drv_read lba n) (fun bs s' =>
    bs = mem_get (disk s) (lba * 512) (n * 512) /\ disk s' = disk s) s.
Proof using D.
  intros Hr Hd Hl Hn Hsz. unfold drv_read. apply xwp_bind. xwp_use drv_select_spec; [done..|].
  intros [] s1 (d & -> & Hns & Hlba & Hdd). apply xwp_bind.
  change (ide_out 0x1f7 1 [0x20]) with (xupd_ide ide_start ;; d ← xgets x_ide; ide_load_sector (ide_cur_lba d) ;;
    xupd_ide (fun d => d <| ide_status := 0x58 |> <| ide_error := 0 |>)).
  do 6 xwp_one. change (ide_load_sector _) with (ide_load_sector (ide_lba d)). rewrite Hlba.
  xwp_use (load_sector_spec fd size img); [by apply disk_ready_ide, disk_ready_ide|lia|lia|by cbn; rewrite Hdd|].
  intros [] s2 (Hi & Hd2 & Hr2). xwp_run.
  assert (Hd2' : disk s2 = disk s) by done. clear Hd2.
  xwp_use (read_sectors fd size img (Z.to_nat n) lba); [lia..| |].
  - split; [by destruct Hr2; split|cbn; rewrite Hi..]; try done.
    + change (disk (upd x_ide ?f s2)) with (disk s2). by rewrite Hd2'.
    + cbn. rewrite Hns, Z2Nat.id by lia. destruct (Z.eqb_spec n 0); lia.
  - intros bs s3 [-> Hd3]. rewrite Z2Nat.id by lia. change (disk (upd x_ide _ s2)) with (disk s2) in *.
    by rewrite Hd3, Hd2'.
Qed.
(** ** Writing *)

Definition overwrite (p : nat) (ws l : list Z) : list Z := take p l ++ ws ++ drop (p + length ws) l.

Local Arguments overwrite : simpl never.

Lemma overwrite_cons p w ws l :
  (p < length l)%nat -> overwrite (S p) ws (<[p := w]> l) = overwrite p (w :: ws) l.
Proof.
  intros Hp. unfold overwrite. rewrite insert_take_drop by done.
  assert (Ht : length (take p l) = p) by (rewrite length_take; lia).
  rewrite take_app_ge by lia. rewrite Ht. replace (S p - p)%nat with 1%nat by lia. cbn [take].
  rewrite drop_app_ge by lia. rewrite Ht. replace (S p + length ws - p)%nat with (S (length ws)) by lia.
  rewrite take_0. cbn [drop length]. rewrite drop_drop, <- app_assoc. cbn [app].
  by replace (p + S (length ws))%nat with (S p + length ws)%nat by lia.
Qed.

Lemma overwrite_length p ws l : (p + length ws <= length l)%nat -> length (overwrite p ws l) = length l.
Proof. intros Hp. unfold overwrite. rewrite !length_app, length_take, length_drop. lia. Qed.

Lemma xwp_put_word w (Q : () -> ExVmm -> Prop) s :
  0 <= ide_data_pos (x_ide s) < Z.of_nat (length (ide_data (x_ide s))) ->
  Q () (s <| x_ide ::= (fun d => d <| ide_data := <[Z.to_nat (ide_data_pos (x_ide s)) := w]> (ide_data (x_ide s)) |>
                                   <| ide_data_pos ::= Z.succ |>) |>) ->
  xwp (ide_put_word w) Q s.
Proof.
  intros Hp HQ. unfold ide_put_word. do 2 xwp_one.
  destruct (get_at_some (ide_data (x_ide s)) _ Hp) as (x & _ & E). unfold update_at. rewrite E. exact HQ.
Qed.

(** Words before the last of a sector only fill the buffer. *)
Lemma outsw_buffer ws p s :
  ide_data_pos (x_ide s) = Z.of_nat p -> length (ide_data (x_ide s)) = 256%nat -> Forall (fits 16) ws ->
  (p + length ws <= 255)%nat ->
  xwp (drv_outsw ws) (fun _ s' => s' = s <| x_ide := (x_ide s) <| ide_data := overwrite p ws (ide_data (x_ide s)) |>
    <| ide_data_pos := Z.of_nat (p + length ws) |> |>) s.
Proof.
  revert p s. induction ws as [|w ws IH]; intros p s Hp Hd Hf Hl.
  { apply xwp_skip. unfold overwrite. cbn. rewrite Nat.add_0_r, take_drop.
    destruct s as [? ? ? ? ? ? ? ? ? ? ? ? ? [] ? ? ?]. cbn in *. by rewrite Hp. }
  apply Forall_cons in Hf as [Hw Hf]. cbn [length] in Hl.
  destruct (word_of_bytes w Hw) as (b0 & b1 & Eb & Ew).
  unfold drv_outsw. cbn [xfor]. apply xwp_bind. rewrite Eb.
  change (ide_out 0x1f0 2 [b0; b1]) with (ide_data_out (Z.lor b0 (Z.shiftl b1 8))). rewrite Ew.
  unfold ide_data_out. do 3 xwp_one. rewrite Hp, (proj2 (Z.ltb_lt _ _)) by lia. cbn [xwhen].
  apply xwp_put_word; [lia|]. do 2 xwp_one.
  lazymatch goal with |- xwp (xwhen (?a =? 256) _) _ _ => change a with (Z.succ (ide_data_pos (x_ide s))) end.
  rewrite Hp, (proj2 (Z.eqb_neq _ _)) by lia. cbn [xwhen]. apply xwp_skip.
  xwp_use (IH (S p)); [cbn; rewrite Hp; lia|cbn; by rewrite length_insert|done|lia|].
  intros _ s' ->. cbn. rewrite Nat2Z.id, overwrite_cons by lia.
  by replace (p + S (length ws))%nat with (S (p + length ws)) by lia.
Qed.

(** The command is over once its last sector is on the disk. *)
Definition sector_stored (lba j : Z) (s s' : ExVmm) : Prop :=
  if j =? 1 then ide_status (x_ide s') = 0x50 /\ ide_nsect (x_ide s') = 0
  else ide_data_pos (x_ide s') = 0 /\ ide_nsect (x_ide s') = j - 1 /\ ide_cur_lba (x_ide s') = lba + 1.

Lemma sector_full_spec lba j s :
  disk_ready s -> length (ide_data (x_ide s)) = 256%nat -> 1 <= j -> ide_nsect (x_ide s) = j ->
  ide_cur_lba (x_ide s) = lba -> 0 <= lba -> lba + 1 < 2 ^ 32 -> lba * 512 + 512 <= size ->
  xwp ide_sector_full (fun _ s' =>
    disk s' = mem_set (disk s) (lba * 512) (mjoin (le_enc 2 <$> ide_data (x_ide s))) /\ disk_ready s' /\
    length (ide_data (x_ide s')) = 256%nat /\ sector_stored lba j s s') s.
Proof using D.
  intros [Hfd Hfd0 Hds Hby] Hd Hj Hn Hc Hl H32 Hsz. unfold ide_sector_full. xwp_one. xwp_one.
  rewrite Hn, Hc, (proj2 (Z.eqb_neq _ _)) by lia. unfold ide_store_sector. do 3 xwp_one. unfold id.
  rewrite Hfd, Hds, (proj2 (Z.ltb_ge _ _)), (proj2 (Z.ltb_ge _ _)) by lia. do 4 xwp_one.
  assert (E : r_ret r = 512).
  { subst r. change (c_put sector_words (ide_data (x_ide s))) with (mjoin (le_enc 2 <$> ide_data (x_ide s))).
    rewrite disk_pwrite by (rewrite ?words_length, ?Hd; lia). by rewrite words_length, Hd. }
  clear Hr. set (ws := mjoin (le_enc 2 <$> ide_data (x_ide s))).
  set (s1 := s <| x_trace ::= (fun t => t ++ [(x_pwrite fd (c_put sector_words (ide_data (x_ide s))) (lba * 512), r)]) |>).
  assert (Edisk : disk s1 = mem_set (disk s) (lba * 512) ws).
  { unfold disk. change (x_trace s1) with (x_trace s ++ [(x_pwrite fd ws (lba * 512), r)]).
    rewrite disk_after_snoc. cbn. rewrite Z.eqb_refl, E, take_ge; [done|]. subst ws. rewrite words_length, Hd. lia. }
  assert (Hr1 : forall d, disk_ready (s1 <| x_ide := d |>)).
  { intros d. split; [done..|]. change (disk _) with (disk s1). rewrite Edisk. apply mem_set_bytes; [done|].
    subst ws. clear. induction (ide_data (x_ide s)) as [|w l IH]; [constructor|]. rewrite fmap_cons.
    change (mjoin (?x :: ?l)) with (x ++ mjoin l). apply Forall_app. split; [apply le_enc_bytes|done]. }
  unfold sector_stored. destruct (Z.eqb_spec j 1) as [->|Hj1].
  - xwp_run; [|lia]. split; [exact Edisk|]. split; [apply Hr1|]. split; [exact Hd|]. cbn. rewrite Hn. done.
  - xwp_run; [lia|]. split; [exact Edisk|]. split; [apply Hr1|]. split; [exact Hd|]. cbn. rewrite Hn, Hc.
    split; [done|]. split; [lia|]. apply wrap_id. unfold fits. lia.
Qed.

(** The last word of a sector sends it to the disk. *)
Lemma write_sector ws lba j s :
  disk_ready s -> length (ide_data (x_ide s)) = 256%nat -> ide_data_pos (x_ide s) = 0 ->
  1 <= j -> ide_nsect (x_ide s) = j -> ide_cur_lba (x_ide s) = lba -> 0 <= lba -> lba + 1 < 2 ^ 32 ->
  lba * 512 + 512 <= size -> length ws = 256%nat -> Forall (fits 16) ws ->
  xwp (drv_outsw ws) (fun _ s' =>
    disk s' = mem_set (disk s) (lba * 512) (mjoin (le_enc 2 <$> ws)) /\ disk_ready s' /\
    length (ide_data (x_ide s')) = 256%nat /\ sector_stored lba j s s') s.
Proof using D.
  intros Hr Hd Hp Hj Hn Hc Hl H32 Hsz Hw Hf.
  destruct (decide (ws = [])) as [->|Hne]; [done|].
  destruct (exists_last Hne) as (ws' & w & ->). rewrite length_app in Hw. cbn in Hw.
  apply Forall_app in Hf as [Hf' [Hfw _]%Forall_cons].
  unfold drv_outsw. apply xfor_app. apply xwp_bind.
  xwp_use (outsw_buffer ws' 0); [done..|lia|]. intros [] s1 ->. cbn [xfor]. apply xwp_bind.
  destruct (word_of_bytes w Hfw) as (b0 & b1 & Eb & Ew). rewrite Eb.
  change (ide_out 0x1f0 2 [b0; b1]) with (ide_data_out (Z.lor b0 (Z.shiftl b1 8))). rewrite Ew.
  unfold ide_data_out. do 3 xwp_one. assert (Hl255 : (0 + length ws' = 255)%nat) by lia. rewrite Hl255.
  lazymatch goal with |- xwp (xwhen ?b _) _ _ => change b with true end. cbn [xwhen].
  apply xwp_put_word.
  { cbn. rewrite overwrite_length by lia. lia. }
  do 2 xwp_one.
  lazymatch goal with |- xwp (xwhen ?b _) _ _ => change b with true end. cbn [xwhen].
  lazymatch goal with |- xwp _ _ ?t => set (s2 := t) end.
  assert (Ed : ide_data (x_ide s2) = ws' ++ [w]).
  { change (ide_data (x_ide s2)) with (<[255%nat := w]> (overwrite 0 ws' (ide_data (x_ide s)))).
    unfold overwrite. rewrite take_0, app_nil_l, Nat.add_0_l, insert_app_r_alt by lia. f_equal.
    replace (255 - length ws')%nat with 0%nat by lia.
    pose proof (length_drop (ide_data (x_ide s)) (length ws')) as Hlen.
    destruct (drop (length ws') (ide_data (x_ide s))) as [|x [|]]; cbn in Hlen; [lia|done|lia]. }
  xwp_use (sector_full_spec lba j s2); [by apply disk_ready_ide, disk_ready_ide|rewrite Ed, length_app; cbn; lia|done..|].
  rewrite Ed. intros [] s' Hs. exact Hs.
Qed.

Lemma write_sectors (j : nat) ws lba s :
  (1 <= j)%nat -> disk_ready s -> length (ide_data (x_ide s)) = 256%nat -> ide_data_pos (x_ide s) = 0 ->
  ide_nsect (x_ide s) = Z.of_nat j -> ide_cur_lba (x_ide s) = lba -> 0 <= lba ->
  lba + Z.of_nat j < 2 ^ 32 -> (lba + Z.of_nat j) * 512 <= size ->
  length ws = (256 * j)%nat -> Forall (fits 16) ws ->
  xwp (drv_outsw ws) (fun _ s' =>
    disk s' ≡ mem_set (disk s) (lba * 512) (mjoin (le_enc 2 <$> ws)) /\ disk_ready s' /\
    length (ide_data (x_ide s')) = 256%nat /\ ide_status (x_ide s') = 0x50) s.
Proof using D.
  revert ws lba s. induction j as [|j IH]; intros ws lba s Hj Hr Hd Hp Hn Hc Hl H32 Hsz Hw Hf; [lia|].
  rewrite <- (take_drop 256 ws) in Hf |- *. apply Forall_app in Hf as [Hf1 Hf2].
  unfold drv_outsw. apply xfor_app. apply xwp_bind.
  xwp_use (write_sector (take 256 ws) lba (Z.of_nat (S j))); [done..|lia|done|done|lia|lia|lia|rewrite length_take; lia|done|].
  intros [] s1 (Hd1 & Hr1 & Hl1 & Hst). unfold sector_stored in Hst.
  destruct (decide (j = 0%nat)) as [->|Hj0].
  - cbn in Hst. rewrite (nil_length_inv (drop 256 ws)) by (rewrite length_drop; lia). apply xwp_skip.
    rewrite app_nil_r, Hd1. split; [done|]. split; [done|]. split; [done|]. apply Hst.
  - rewrite (proj2 (Z.eqb_neq _ _)) in Hst by lia. destruct Hst as (Hp1 & Hn1 & Hc1).
    xwp_use (IH (drop 256 ws) (lba + 1)); [lia|done|done|done|lia|done|lia..|rewrite length_drop; lia|done|].
    intros [] s2 (Hd2 & Hr2 & Hl2 & Hs2). split; [|done].
    rewrite Hd2, Hd1, fmap_app. replace ((lba + 1) * 512) with (lba * 512 + Z.of_nat (length (mjoin (le_enc 2 <$> take 256 ws)))).
    + rewrite mem_set_app. by rewrite join_app.
    + rewrite words_length, length_take. lia.
Qed.

Lemma drv_write_spec lba n ws s :
  disk_ready s -> length (ide_data (x_ide s)) = 256%nat ->
  0 <= lba < 2 ^ 28 -> 1 <= n <= 255 -> (lba + n) * 512 <= size ->
  Z.of_nat (length ws) = 256 * n -> Forall (fits 16) ws ->
  xwp (drv_write lba n ws) (fun _ s' =>
    disk s' ≡ mem_set (disk s) (lba * 512) (mjoin (le_enc 2 <$> ws)) /\ disk_ready s' /\
    length (ide_data (x_ide s')) = 256%nat /\ ide_status (x_ide s') = 0x50) s.
Proof using D.
  intros Hr Hd Hl Hn Hsz Hw Hf. unfold drv_write. apply xwp_bind. xwp_use drv_select_spec; [done..|].
  intros [] s1 (d & -> & Hns & Hlba & Hdd). apply xwp_bind.
  change (ide_out 0x1f7 1 [0x30]) with (xupd_ide (fun d => (ide_start d) <| ide_data_pos := 0 |>
    <| ide_data_len := 256 |> <| ide_status := 0x58 |> <| ide_error := 0 |>)). do 2 xwp_one.
  xwp_use (write_sectors (Z.to_nat n) ws lba); [lia|by apply disk_ready_ide, disk_ready_ide|by cbn; rewrite Hdd|done| |done|lia..|done|].
  - cbn. rewrite Hns, Z2Nat.id by lia. destruct (Z.eqb_spec n 0); lia.
  - intros [] s2 Hs. exact Hs.
Qed.

(** C16: the controller is a disk.  After a driver's WRITE SECTORS sequence of
    any run of sectors (registers, command, 256 words per sector through the
    data port), a READ SECTORS sequence of any run, the same or another,
    overlapping or not, returns the bytes of the disk image with exactly the
    written run replaced; neither sequence makes an access outside the sector
    buffer. *)
Theorem ide_is_a_disk lba n ws lba' n' s :
  disk_ready s -> length (ide_data (x_ide s)) = 256%nat ->
  0 <= lba < 2 ^ 28 -> 1 <= n <= 255 -> (lba + n) * 512 <= size ->
  Z.of_nat (length ws) = 256 * n -> Forall (fits 16) ws ->
  0 <= lba' < 2 ^ 28 -> 1 <= n' <= 255 -> (lba' + n') * 512 <= size ->
  let disk' := mem_set (disk s) (lba * 512) (mjoin (le_enc 2 <$> ws)) in
  xwp (drv_write lba n ws ;; drv_read lba' n') (fun bs s' =>
    bs = mem_get disk' (lba' * 512) (n' * 512) /\ disk s' ≡ disk') s.
Proof using D.
  intros. apply xwp_bind. xwp_use drv_write_spec; [done..|]. intros [] s1 (Hd1 & Hr1 & Hl1 & _).
  xwp_use drv_read_spec; [done..|]. intros bs s2 [-> Hd2]. rewrite Hd2. split; [|done]. by rewrite Hd1.
Qed.
End transfer.

(** ** Which accesses are safe *)

(** What holds of the controller whatever the guest does. *)
Record ide_wf (d : ExIde) : Prop := {
  iw_data : length (ide_data d) = 256%nat;
  iw_pos : 0 <= ide_data_pos d;
  iw_len : ide_data_len d = 0 \/ ide_data_len d = 256;
  iw_nsect : 0 <= ide_nsect d <= 255
}.

Section safety.
  Context {H : XHost}.

Lemma sector_words_length (bs : list Z) : length (c_get sector_words bs) = 256%nat.
Proof. apply array_get_length. Qed.

Lemma load_sector_wf lba s :
  ide_wf (x_ide s) ->
  xwp (ide_load_sector lba) (fun _ s' => ide_wf (x_ide s') /\
    ide_data_pos (x_ide s') = if off_disk s lba then ide_data_pos (x_ide s) else 0) s.
Proof.
  intros [Hd Hp Hl Hn]. unfold ide_load_sector. xwp_one. xwp_one. unfold id. destruct (off_disk s lba); xwp_run.
  - split; [|done]. by split.
  - split; [|done]. split; [apply sector_words_length|cbn; lia|by right|done].
Qed.

(** The one read that leaves the sector buffer: the buffer is used up, a further
    sector is due, and that sector is off the disk. *)
Definition reads_past_buffer (s : ExVmm) : bool :=
  let d := x_ide s in
  (ide_data_len d <=? ide_data_pos d) && (2 <=? ide_nsect d) && (256 <=? ide_data_pos d) &&
  off_disk s (u32 (ide_cur_lba d + 1)).

Lemma next_word_ok s :
  ide_wf (x_ide s) -> ide_data_pos (x_ide s) < 256 ->
  xwp ide_next_word (fun _ s' => ide_wf (x_ide s')) s.
Proof.
  intros [Hd Hp Hl Hn] Hb. unfold ide_next_word. xwp_one. xwp_one.
  destruct (lookup_lt_is_Some_2 (ide_data (x_ide s)) (Z.to_nat (ide_data_pos (x_ide s)))) as [w ->]; [lia|].
  xwp_run. split; [done|cbn; lia|done..].
Qed.

Lemma next_word_past s :
  ide_wf (x_ide s) -> 256 <= ide_data_pos (x_ide s) -> ide_next_word s = Fault OutOfBounds.
Proof.
  intros [Hd Hp Hl Hn] Hb. unfold ide_next_word, mbind, X_bind, xgets.
  rewrite lookup_ge_None_2 by lia. done.
Qed.

Lemma ide_data_in_safe s :
  ide_wf (x_ide s) ->
  if reads_past_buffer s then ide_data_in s = Fault OutOfBounds
  else xwp ide_data_in (fun _ s' => ide_wf (x_ide s')) s.
Proof.
  intros Hw. destruct Hw as [Hd Hp Hl Hn] eqn:E. clear E. unfold reads_past_buffer.
  destruct (Z.leb_spec (ide_data_len (x_ide s)) (ide_data_pos (x_ide s))) as [Hpl|Hpl]; cbn [andb].
  2: { unfold ide_data_in. xwp_one. xwp_one. rewrite (proj2 (Z.ltb_lt _ _)) by lia. apply next_word_ok; [done|lia]. }
  set (s1 := s <| x_ide := (x_ide s) <| ide_nsect ::= Z.pred |> <| ide_cur_lba ::= (fun l => u32 (l + 1)) |> |>).
  destruct (Z.leb_spec 2 (ide_nsect (x_ide s))) as [Hn2|Hn2]; cbn [andb].
  2: { unfold ide_data_in. xwp_one. xwp_one. rewrite (proj2 (Z.ltb_ge _ _)) by lia. xwp_run; [done|split; cbn; [done|lia|by left|lia]|lia]. }
  assert (Hw1 : ide_wf (x_ide s1)) by (split; cbn; [done|lia|done|lia]).
  assert (Eq : ide_data_in s = (ide_load_sector (u32 (ide_cur_lba (x_ide s) + 1)) ;; ide_next_word) s1).
  { unfold ide_data_in, mbind, X_bind, xgets, xupd_ide, xmodify. rewrite (proj2 (Z.ltb_ge _ _)), (proj2 (Z.eqb_neq _ _)) by lia.
    rewrite (proj2 (Z.eqb_neq _ _)) by lia. done. }
  pose proof (load_sector_wf (u32 (ide_cur_lba (x_ide s) + 1)) s1 Hw1) as HL.
  change (off_disk s1) with (off_disk s) in HL. change (ide_data_pos (x_ide s1)) with (ide_data_pos (x_ide s)) in HL.
  destruct (Z.leb_spec 256 (ide_data_pos (x_ide s))), (off_disk s (u32 (ide_cur_lba (x_ide s) + 1))) eqn:Eo; cbn [andb].
  { rewrite Eq. unfold xwp in HL. unfold mbind, X_bind.
    destruct (ide_load_sector _ s1) as [[[] s2]|]; [|done]. destruct HL as [Hw2 Hp2]. apply next_word_past; [done|lia]. }
  all: unfold xwp; rewrite Eq; apply xwp_bind; eapply xwp_mono; [exact HL|]; cbv beta;
    intros [] s2 [Hw2 Hp2]; apply next_word_ok; [done|lia].
Qed.

Lemma ide_command_wf cmd s :
  ide_wf (x_ide s) -> xwp (ide_command cmd) (fun _ s' => ide_wf (x_ide s')) s.
Proof.
  intros [Hd Hp Hl Hn]. unfold ide_command. xwp_run.
  - xwp_use load_sector_wf.
    + split; cbn; [done..|]. destruct (_ =? 0); lia.
    + intros [] s2 [[] _]. xwp_run. by split.
  - split; cbn; [done|lia|by right|]. destruct (_ =? 0); lia.
  - split; cbn; [done|lia|by right|done].
  - by split.
  - by split.
Qed.

Lemma ide_data_out_wf w s :
  ide_wf (x_ide s) -> xwp (ide_data_out w) (fun _ s' => ide_wf (x_ide s')) s.
Proof.
  intros [Hd Hp Hl Hn]. unfold ide_data_out, ide_sector_full, ide_store_sector. xwp_run.
  all: lazymatch goal with |- xwp (ide_put_word _) _ _ => apply xwp_put_word; [lia|]; xwp_run | _ => idtac end.
  all: rewrite ?Z.eqb_neq in *; (split; cbn in *; rewrite ?length_insert; auto with lia).
Qed.
End safety.

Section claims.
  Context {H : XHost}.

(** C20: whatever ports the guest accesses, in whatever order and with whatever
    data, the controller's invariant holds and its 256-word buffer is respected,
    with one exception that is stated exactly: a read of the data port when the
    buffer is used up, a further sector is due and that sector is not on the
    disk reads outside the buffer. *)
Theorem ide_access_safe port size data s :
  ide_wf (x_ide s) -> 1 <= size <= Z.of_nat (length data) -> Forall byte_ok data ->
  xwp (ide_out port size data) (fun _ s' => ide_wf (x_ide s')) s /\
  (if (port =? 0x1f0) && (size =? 2) && reads_past_buffer s then ide_in port size s = Fault OutOfBounds
   else xwp (ide_in port size) (fun bs s' => ide_wf (x_ide s') /\ Z.of_nat (length bs) <= size) s).
Proof.
  intros Hw Hs Hb. destruct data as [|b0 data]; [cbn in Hs; lia|].
  apply Forall_cons in Hb as [Hb0 Hb]. unfold byte_ok, fits in Hb0. change (2 ^ 8) with 256 in Hb0. split.
  - unfold ide_out. apply xwp_if; intros Hc.
    + apply andb_true_iff in Hc as [_ Hc%Z.eqb_eq]. destruct data as [|b1 data]; [cbn in Hs; lia|].
      by apply ide_data_out_wf.
    + cbv beta iota zeta. repeat (lazymatch goal with |- xwp (if _ then _ else _) _ _ => apply xwp_if; intros _ end);
        first [by apply ide_command_wf|destruct Hw; xwp_run; split; cbn; auto with lia].
  - unfold ide_in. destruct ((port =? 0x1f0) && (size =? 2)) eqn:Hc; cbn [andb].
    + apply andb_true_iff in Hc as [_ Hc%Z.eqb_eq]. pose proof (ide_data_in_safe s Hw) as Hi.
      destruct (reads_past_buffer s); [unfold mbind, X_bind; by rewrite Hi|].
      apply xwp_bind. eapply xwp_mono; [exact Hi|]. cbn. intros val s' Hw'. split; [done|]. cbn. lia.
    + xwp_run. split; [done|]. cbn. lia.
Qed.

(** A read of several sectors that starts on the last one of the disk: after its
    256 words, the next access to the data port is outside the buffer. *)
Theorem ide_read_off_the_end fd size img lba n s :
  DiskFile H fd size img -> disk_ready fd size img s -> ide_wf (x_ide s) ->
  0 <= lba < 2 ^ 28 -> 2 <= n <= 255 -> lba * 512 + 512 <= size < lba * 512 + 1024 ->
  xwp (drv_select lba n ;; ide_out 0x1f7 1 [0x20] ;; drv_insw 256)
    (fun _ s' => ide_in 0x1f0 2 s' = Fault OutOfBounds) s.
Proof.
  intros D Hr Hw Hl Hn Hsz. apply xwp_bind. xwp_use drv_select_spec; [lia..|].
  intros [] s1 (d & -> & Hns & Hlba & Hdd). apply xwp_bind.
  change (ide_out 0x1f7 1 [0x20]) with (xupd_ide ide_start ;; d ← xgets x_ide; ide_load_sector (ide_cur_lba d) ;;
    xupd_ide (fun d => d <| ide_status := 0x58 |> <| ide_error := 0 |>)).
  do 6 xwp_one. change (ide_load_sector _) with (ide_load_sector (ide_lba d)). rewrite Hlba.
  xwp_use (load_sector_spec fd size img);
    [by apply disk_ready_ide, disk_ready_ide|lia|lia|cbn; rewrite Hdd; apply Hw|].
  intros [] s2 (Hi & Hd2 & Hr2). xwp_run.
  xwp_use (insw_buffer 256 0); [by cbn; rewrite Hi|by cbn; rewrite Hi|by cbn; rewrite Hi| |lia|].
  { cbn. rewrite Hi. apply array_get_fits. apply mem_get_bytes. apply Hr. }
  intros bs s3 [_ ->]. change (ide_in 0x1f0 2) with (val ← ide_data_in; mret [Z.land val 0xff; Z.shiftr val 8]).
  assert (Hn2 : ide_nsect (x_ide s2) = n) by (rewrite Hi; cbn; rewrite Hns; destruct (Z.eqb_spec n 0); lia).
  assert (Hc2 : ide_cur_lba (x_ide s2) = lba) by (by rewrite Hi).
  lazymatch goal with |- _ ?t = _ => set (s4 := t) end.
  assert (Hw4 : ide_wf (x_ide s4)) by (split; cbn; rewrite ?Hi; cbn; [apply disk_sector_length|lia|by right|rewrite Hns; destruct (Z.eqb_spec n 0); lia]).
  pose proof (ide_data_in_safe s4 Hw4) as Hs. replace (reads_past_buffer s4) with true in Hs.
  { unfold mbind, X_bind. by rewrite Hs. }
  symmetry. unfold reads_past_buffer. cbn. rewrite Hn2, Hc2. rewrite !andb_true_iff, !Z.leb_le. split; [split; [split|]|].
  - rewrite Hi. cbn. lia.
  - lia.
  - lia.
  - unfold off_disk. cbn. destruct Hr2 as [_ _ -> _]. rewrite (wrap_id 32) by (unfold fits; lia).
    rewrite (proj2 (Z.ltb_lt _ _)) by lia. done.
Qed.
End claims.
