(* ===== verification/ExBlk.v ===== *)
(** * The example monitor's virtio block device

    The legacy virtio-MMIO block device of docs/example-vmm/vmm.c: the guest
    memory accessors ([vio_guest_to_host], [vio_read16], ...), the request queue
    [vio_process_queue] and the registers [virtio_mmio_read] and
    [virtio_mmio_write].  The register handlers hold the device's mutex, but the
    other vCPUs go on: every access to guest RAM is preceded by a step of the
    guest.

    Local variables that the code reads before it has filled them have the
    contents [stack] gives them. *)
From S2P Require Import Prelude Memory Codec State Snapshot ExVmm.
From stdpp Require Import options.

Definition VIO_MMIO_BASE : Z := 0xa0000000.
Definition VIO_MMIO_SIZE : Z := 0x200.
Definition VIO_MMIO_IRQ : Z := 5.

(** Register offsets. *)
Inductive VioReg : Type :=
| VIO_REG_MAGIC | VIO_REG_VERSION | VIO_REG_DEVICE_ID | VIO_REG_VENDOR_ID | VIO_REG_HOST_FEATURES
| VIO_REG_HOST_FEATURES_SEL | VIO_REG_GUEST_FEATURES | VIO_REG_GUEST_FEATURES_SEL
| VIO_REG_GUEST_PAGE_SIZE | VIO_REG_QUEUE_SEL | VIO_REG_QUEUE_NUM_MAX | VIO_REG_QUEUE_NUM
| VIO_REG_QUEUE_ALIGN | VIO_REG_QUEUE_PFN | VIO_REG_QUEUE_NOTIFY | VIO_REG_INTERRUPT_STATUS
| VIO_REG_INTERRUPT_ACK | VIO_REG_STATUS.

Definition vio_reg_offset (r : VioReg) : Z :=
  match r with
  | VIO_REG_MAGIC => 0x000 | VIO_REG_VERSION => 0x004 | VIO_REG_DEVICE_ID => 0x008
  | VIO_REG_VENDOR_ID => 0x00c | VIO_REG_HOST_FEATURES => 0x010 | VIO_REG_HOST_FEATURES_SEL => 0x014
  | VIO_REG_GUEST_FEATURES => 0x020 | VIO_REG_GUEST_FEATURES_SEL => 0x024
  | VIO_REG_GUEST_PAGE_SIZE => 0x028 | VIO_REG_QUEUE_SEL => 0x030 | VIO_REG_QUEUE_NUM_MAX => 0x034
  | VIO_REG_QUEUE_NUM => 0x038 | VIO_REG_QUEUE_ALIGN => 0x03c | VIO_REG_QUEUE_PFN => 0x040
  | VIO_REG_QUEUE_NOTIFY => 0x050 | VIO_REG_INTERRUPT_STATUS => 0x060
  | VIO_REG_INTERRUPT_ACK => 0x064 | VIO_REG_STATUS => 0x070
  end.

Definition VIO_REG_CONFIG : Z := 0x100.

Definition all_vio_regs : list VioReg :=
  [VIO_REG_MAGIC; VIO_REG_VERSION; VIO_REG_DEVICE_ID; VIO_REG_VENDOR_ID; VIO_REG_HOST_FEATURES;
   VIO_REG_HOST_FEATURES_SEL; VIO_REG_GUEST_FEATURES; VIO_REG_GUEST_FEATURES_SEL;
   VIO_REG_GUEST_PAGE_SIZE; VIO_REG_QUEUE_SEL; VIO_REG_QUEUE_NUM_MAX; VIO_REG_QUEUE_NUM;
   VIO_REG_QUEUE_ALIGN; VIO_REG_QUEUE_PFN; VIO_REG_QUEUE_NOTIFY; VIO_REG_INTERRUPT_STATUS;
   VIO_REG_INTERRUPT_ACK; VIO_REG_STATUS].

(** [switch (off)]. *)
Definition vio_reg_at (off : Z) : option VioReg :=
  list_find (fun r => vio_reg_offset r = off) all_vio_regs ≫= fun p => Some p.2.

Definition VIO_BLK_T_IN : Z := 0.
Definition VIO_BLK_T_OUT : Z := 1.

(** [struct vring_desc] and [struct virtio_blk_req], packed, 16 bytes each. *)
Record vring_desc : Type := { vd_addr : Z; vd_len : Z; vd_flags : Z; vd_next : Z }.
Definition vring_desc_codec : codec vring_desc.
Proof.
  refine (cvia (cint 8 ⊗ cint 4 ⊗ cint 2 ⊗ cint 2)
    (fun d => (vd_addr d, (vd_len d, (vd_flags d, vd_next d))))
    (fun '(a, (b, (c, d))) => {| vd_addr := a; vd_len := b; vd_flags := c; vd_next := d |}) _).
  abstract (by intros []).
Defined.

Record virtio_blk_req : Type := { br_type : Z; br_ioprio : Z; br_sector : Z }.
Definition virtio_blk_req_codec : codec virtio_blk_req.
Proof.
  refine (cvia (cint 4 ⊗ cint 4 ⊗ cint 8) (fun r => (br_type r, (br_ioprio r, br_sector r)))
    (fun '(a, (b, c)) => {| br_type := a; br_ioprio := b; br_sector := c |}) _).
  abstract (by intros []).
Defined.

Definition sizeof_vring_desc : Z := 16.
Definition BLK_BUF : Z := 131072.

(** A 64-bit value as the signed offset a file call takes. *)
Definition s64 (z : Z) : Z := let u := u64 z in if u <? 2 ^ 63 then u else u - 2 ^ 64.

Section blk.
  Context {H : XHost}.

(** What the uninitialised locals hold, by the calls made so far: [hdr_desc],
    [req], [d] and [data]. *)
  Context (stack : xtrace -> Z -> mem).

(** ** Guest memory *)

(** A null pointer is [None]; the address is relative to [vmm->mem]. *)
Definition vio_guest_to_host (s : ExVmm) (gpa : Z) : option Z := if mem_size s <=? gpa then None else Some gpa.

Definition vio_inject_irq : X unit :=
  s ← xgets id;
  xsys_ (x_irq_line (vm_fd s) VIO_MMIO_IRQ 1).

(** [vio_read16] and [vio_read32]: only the first byte is checked. *)
Definition vio_read (n : nat) (gpa : Z) : X Z :=
  xguest ;;
  s ← xgets id;
  match vio_guest_to_host s gpa with
  | Some p => bs ← xfetch p (Z.of_nat n); mret (le_dec bs)
  | None => mret 0
  end.

(** [vio_write8], [vio_write16] and [vio_write32]. *)
Definition vio_write (n : nat) (gpa v : Z) : X unit :=
  s ← xgets id;
  match vio_guest_to_host s gpa with
  | Some p => xstore p (le_enc n v)
  | None => xskip
  end.

(** [dst && gpa + len <= vmm->mem_size], the sum in 64 bits. *)
Definition vio_in_guest (s : ExVmm) (gpa len : Z) : bool :=
  match vio_guest_to_host s gpa with Some _ => u64 (gpa + len) <=? mem_size s | None => false end.

(** [memcpy] from the source, which is only read if the guest's side is good. *)
Definition vio_copy_to_guest (gpa len : Z) (src : X (list Z)) : X unit :=
  s ← xgets id;
  xwhen (vio_in_guest s gpa len) (bs ← src; xstore gpa bs).

(** The bytes copied, if they were. *)
Definition vio_copy_from_guest (gpa len : Z) : X (option (list Z)) :=
  xguest ;;
  s ← xgets id;
  if vio_in_guest s gpa len then bs ← xfetch gpa len; mret (Some bs) else mret None.

(** A 16-byte structure copied into local [var]. *)
Definition copy_struct {A} (c : codec A) (var gpa : Z) : X A :=
  t ← xgets x_trace;
  bs ← vio_copy_from_guest gpa 16;
  mret (c_get c (default (mem_get (stack t var) 0 16) bs)).

(** ** The request queue *)

(** A write of [bs] at [data + total], inside the 128 KiB of [data]. *)
Definition buf_write (data : mem) (total : Z) (bs : list Z) : X mem :=
  if BLK_BUF <? total + Z.of_nat (length bs) then xfail OutOfBounds else mret (mem_set data total bs).
Definition buf_read (data : mem) (total n : Z) : X (list Z) :=
  if BLK_BUF <? total + n then xfail OutOfBounds else mret (mem_get data total n).

(** One data segment of [chunk] bytes: the buffer after it. *)
Definition blk_segment (is_in : bool) (off : Z) (d : vring_desc) (data : mem) (total chunk : Z) : X mem :=
  fd ← xgets disk_fd;
  if is_in then
    r ← xsys (x_pread fd chunk (s64 (off + total)));
    data ← buf_write data total (take (Z.to_nat (r_ret r)) (r_data r));
    vio_copy_to_guest (vd_addr d) chunk (buf_read data total chunk) ;;
    mret data
  else
    bs ← vio_copy_from_guest (vd_addr d) chunk;
    data ← (match bs with Some bs => buf_write data total bs | None => mret data end);
    src ← buf_read data total chunk;
    xsys_ (x_pwrite fd src (s64 (off + total))) ;;
    mret data.

(** [while (next < n)]: the status descriptor and [total]; [None] is the fuel
    running out.  [total + chunk] is a 32-bit sum. *)
Fixpoint blk_chain (fuel : nat) (is_in : bool) (desc_gpa n off : Z) (st_desc : vring_desc) (next : Z)
    (data : mem) (total : Z) : X (option (vring_desc * Z)) :=
  if n <=? next then mret (Some (st_desc, total)) else
  match fuel with
  | O => mret None
  | S fuel' =>
    d ← copy_struct vring_desc_codec 2 (u64 (desc_gpa + next * sizeof_vring_desc));
    if negb (has_bits (vd_flags d) 0x01) then mret (Some (d, total)) else
    let chunk := if BLK_BUF <? u32 (total + vd_len d) then BLK_BUF - total else vd_len d in
    data ← blk_segment is_in off d data total chunk;
    blk_chain fuel' is_in desc_gpa n off st_desc (vd_next d) data (u32 (total + chunk))
  end.

(** The status byte, which is always 0, and the used ring. *)
Definition blk_complete (used_gpa n desc_idx : Z) (st_desc : vring_desc) (total : Z) : X unit :=
  vio_write 1 (vd_addr st_desc) 0 ;;
  uidx ← vio_read 2 (u64 (used_gpa + 2));
  let uelem := u64 (used_gpa + 4 + (uidx mod n) * 8) in
  vio_write 4 uelem desc_idx ;;
  vio_write 4 (u64 (uelem + 4)) total ;;
  vio_write 2 (u64 (used_gpa + 2)) (u16 (uidx + 1)) ;;
  xupd_vio (fun v => v <| vio_used_idx ::= (fun i => u16 (i + 1)) |>).

(** One request: [None] when the fuel for its chain ran out.  A request that is
    neither a read nor a write has its header's descriptor as [st_desc]. *)
Definition blk_request (fuel : nat) (desc_gpa used_gpa n desc_idx : Z) : X (option unit) :=
  hdr_desc ← copy_struct vring_desc_codec 0 (u64 (desc_idx * sizeof_vring_desc + desc_gpa));
  req ← copy_struct virtio_blk_req_codec 1 (vd_addr hdr_desc);
  t ← xgets x_trace;
  p ← (if (br_type req =? VIO_BLK_T_IN) || (br_type req =? VIO_BLK_T_OUT) then
         blk_chain fuel (br_type req =? VIO_BLK_T_IN) desc_gpa n (u64 (br_sector req * 512)) hdr_desc
           (vd_next hdr_desc) (stack t 3) 0
       else mret (Some (hdr_desc, 0)));
  match p with
  | None => mret None
  | Some (st_desc, total) => blk_complete used_gpa n desc_idx st_desc total ;; mret (Some ())
  end.

(** [while (vmm->vio_used_idx != avail_idx)]. *)
Fixpoint blk_loop (chain fuel : nat) (desc_gpa avail_gpa used_gpa n avail_idx : Z) : X (option unit) :=
  v ← xgets x_vio;
  if vio_used_idx v =? avail_idx then mret (Some ()) else
  match fuel with
  | O => mret None
  | S fuel' =>
    desc_idx ← vio_read 2 (u64 (avail_gpa + 4 + (vio_used_idx v mod n) * 2));
    r ← blk_request chain desc_gpa used_gpa n desc_idx;
    match r with
    | None => mret None
    | Some _ => blk_loop chain fuel' desc_gpa avail_gpa used_gpa n avail_idx
    end
  end.

(** The rings of a legacy queue: descriptors, available ring, then the used ring
    at the next multiple of the alignment. *)
Definition vio_used_off (n align : Z) : Z :=
  u32 (Z.land (u64 (n * sizeof_vring_desc + u32 (2 * u32 (3 + n)) + align - 1)) (bnot 32 (u32 (align - 1)))).

Definition vio_process_queue (chain fuel : nat) : X (option unit) :=
  v ← xgets x_vio;
  if (vio_queue_num v =? 0) || (vio_queue_pfn v =? 0) then mret (Some ()) else
  let base := u64 (vio_queue_pfn v * vio_guest_page_size v) in
  let n := vio_queue_num v in
  let avail_gpa := u64 (base + n * sizeof_vring_desc) in
  let used_gpa := u64 (base + vio_used_off n (vio_queue_align v)) in
  avail_idx ← vio_read 2 (u64 (avail_gpa + 2));
  r ← blk_loop chain fuel base avail_gpa used_gpa n avail_idx;
  match r with
  | None => mret None
  | Some _ =>
    xupd_vio (fun v => v <| vio_isr ::= (fun i => Z.lor i 1) |>) ;;
    vio_inject_irq ;;
    mret (Some ())
  end.

(** ** Registers *)

(** [for (i = 0; i < len && i < 8; i++) val |= config[base + i] << (i * 8)]. *)
Definition ex_config_read (v : ExVio) (base len : Z) : Z :=
  le_dec (take (Z.to_nat (Z.min len 8)) (drop (Z.to_nat base) (vio_config v))).

Definition ex_virtio_mmio_read (off len : Z) : X Z :=
  xsys_ x_mutex_lock ;;
  v ← xgets x_vio;
  if (VIO_REG_CONFIG <=? off) && (u64 (off - VIO_REG_CONFIG + len) <=? 128) then
    xsys_ x_mutex_unlock ;;
    mret (ex_config_read v (off - VIO_REG_CONFIG) len)
  else
  let val := match vio_reg_at off with
    | Some VIO_REG_MAGIC => 0x74726976
    | Some VIO_REG_VERSION => 1
    | Some VIO_REG_DEVICE_ID => 2
    | Some VIO_REG_VENDOR_ID => 0x554d4551
    | Some VIO_REG_QUEUE_NUM_MAX => 64
    | Some VIO_REG_QUEUE_NUM => vio_queue_num v
    | Some VIO_REG_QUEUE_PFN => vio_queue_pfn v
    | Some VIO_REG_INTERRUPT_STATUS => vio_isr v
    | Some VIO_REG_STATUS => vio_status v
    | _ => 0
    end in
  xsys_ x_mutex_unlock ;;
  mret (if len <? 8 then Z.land val (Z.shiftl 1 (len * 8) - 1) else val).

Definition ex_virtio_mmio_write (chain fuel : nat) (off val : Z) : X (option unit) :=
  xsys_ x_mutex_lock ;;
  r ← (match vio_reg_at off with
    | Some VIO_REG_GUEST_PAGE_SIZE => xupd_vio (fun v => v <| vio_guest_page_size := u32 val |>) ;; mret (Some ())
    | Some VIO_REG_QUEUE_SEL => xupd_vio (fun v => v <| vio_queue_sel := u32 val |>) ;; mret (Some ())
    | Some VIO_REG_QUEUE_NUM => xupd_vio (fun v => v <| vio_queue_num := u32 val |>) ;; mret (Some ())
    | Some VIO_REG_QUEUE_ALIGN =>
      xupd_vio (fun v => v <| vio_queue_align := if u32 val =? 0 then 4096 else u32 val |>) ;; mret (Some ())
    | Some VIO_REG_QUEUE_PFN => xupd_vio (fun v => v <| vio_queue_pfn := u32 val |>) ;; mret (Some ())
    | Some VIO_REG_QUEUE_NOTIFY => if val =? 0 then vio_process_queue chain fuel else mret (Some ())
    | Some VIO_REG_INTERRUPT_ACK =>
      xupd_vio (fun v => v <| vio_isr ::= (fun i => Z.land i (bnot 32 (u32 val))) |>) ;;
      s ← xgets id;
      xwhen (vio_isr (x_vio s) =? 0) (xsys_ (x_irq_line (vm_fd s) VIO_MMIO_IRQ 0)) ;;
      mret (Some ())
    | Some VIO_REG_STATUS =>
      xupd_vio (fun v => if val =? 0 then v <| vio_status := 0 |> <| vio_queue_num := 0 |>
                                           <| vio_queue_pfn := 0 |> <| vio_used_idx := 0 |>
                         else v <| vio_status := u32 val |>) ;;
      mret (Some ())
    | _ => mret (Some ())
    end);
  match r with
  | None => mret None
  | Some _ => xsys_ x_mutex_unlock ;; mret (Some ())
  end.
End blk.
