(* ===== verification/ExBlkFacts.v ===== *)
(** * What the example monitor's block device does

    Requests that a driver lays out in guest RAM are carried out: the data of a
    write request is on the disk, that of a read request in the guest's buffers,
    and the used ring says so.  Then the requests the code does not handle. *)
From S2P Require Import Prelude Memory Codec State Snapshot SnapFile SaveFacts ExVmm ExFrame ExIde ExBlk.
From stdpp Require Import options.

(** ** Requests in guest RAM *)

Definition desc_of (m : mem) (desc i : Z) : vring_desc :=
  c_get vring_desc_codec (mem_get m (desc + i * sizeof_vring_desc) 16).
Definition req_of (m : mem) (a : Z) : virtio_blk_req := c_get virtio_blk_req_codec (mem_get m a 16).

Global Arguments desc_of : simpl never.
Global Arguments req_of : simpl never.

(** The descriptors from index [i] on: the data segments, then the status byte. *)
Fixpoint chain (m : mem) (desc n i : Z) (segs : list (Z * Z)) (st : Z) : Prop :=
  let d := desc_of m desc i in
  match segs with
  | [] => 0 <= i < n /\ has_bits (vd_flags d) 1 = false /\ vd_addr d = st
  | (a, l) :: segs' =>
    0 <= i < n /\ has_bits (vd_flags d) 1 = true /\ vd_addr d = a /\ vd_len d = l /\
    chain m desc n (vd_next d) segs' st
  end.

Fixpoint total_len (segs : list (Z * Z)) : Z :=
  match segs with [] => 0 | s :: segs' => s.2 + total_len segs' end.
Definition seg_gather (m : mem) (segs : list (Z * Z)) : list Z := mjoin ((fun s => mem_get m s.1 s.2) <$> segs).

(** Guest RAM after the bytes of [src] from [off] on are spread over segments. *)
Fixpoint scatter (m src : mem) (off : Z) (segs : list (Z * Z)) : mem :=
  match segs with
  | [] => m
  | (a, l) :: segs' => scatter (mem_set m a (mem_get src off l)) src (off + l) segs'
  end.

Definition segs_in (size : Z) (segs : list (Z * Z)) : Prop :=
  Forall (fun s => 0 <= s.1 < size /\ 0 <= s.2 /\ s.1 + s.2 <= size) segs.

(** The segments avoid a range. *)
Definition segs_apart (segs : list (Z * Z)) (b k : Z) : Prop := Forall (fun s => disj s.1 s.2 b k) segs.

Fixpoint segs_disjoint (segs : list (Z * Z)) : Prop :=
  match segs with [] => True | s :: segs' => segs_apart segs' s.1 s.2 /\ segs_disjoint segs' end.

Lemma total_len_nonneg size segs : segs_in size segs -> 0 <= total_len segs.
Proof. induction 1 as [|[a l] segs (? & ? & ?)]; cbn in *; lia. Qed.

Lemma seg_gather_length size m segs : segs_in size segs -> Z.of_nat (length (seg_gather m segs)) = total_len segs.
Proof.
  induction 1 as [|[a l] segs (? & ? & ?) _ IH]; [done|]. unfold seg_gather in *. rewrite fmap_cons.
  change (mjoin (?x :: ?r)) with (x ++ mjoin r). rewrite length_app, mem_get_length. cbn in *. lia.
Qed.

Lemma scatter_apart m src off segs b k :
  segs_apart segs b k -> Forall (fun s => 0 <= s.2) segs ->
  mem_get (scatter m src off segs) b k = mem_get m b k.
Proof.
  intros Ha Hn. revert m off. induction segs as [|[a l] segs IH]; intros m off; [done|].
  apply Forall_cons in Ha as [Ha Ha']. apply Forall_cons in Hn as [Hn Hn']. cbn [scatter].
  rewrite IH by done. unfold disj in Ha. cbn in *. apply mem_get_set_disjoint. rewrite mem_get_length. lia.
Qed.

Lemma segs_in_nonneg size segs : segs_in size segs -> Forall (fun s => 0 <= s.2) segs.
Proof. intros Hs. eapply Forall_impl; [exact Hs|]. by intros ? (_ & ? & _). Qed.

(** Segments that do not overlap hold what was spread over them. *)
Lemma seg_gather_scatter m src off segs size :
  segs_in size segs -> segs_disjoint segs ->
  seg_gather (scatter m src off segs) segs = mem_get src off (total_len segs).
Proof.
  intros Hin. revert m off. induction Hin as [|[a l] segs (Ha & Hl & Hs) Hin IH]; intros m off Hd; [done|].
  cbn [segs_disjoint] in Hd. destruct Hd as [Hap Hd]. cbn [fst snd] in *.
  unfold seg_gather. rewrite fmap_cons. change (mjoin (?x :: ?r)) with (x ++ mjoin r).
  cbn [scatter fst snd]. fold (seg_gather (scatter (mem_set m a (mem_get src off l)) src (off + l) segs) segs).
  rewrite IH by done. rewrite scatter_apart by (done || by eapply segs_in_nonneg).
  pose proof (mem_get_set_eq m a (mem_get src off l)) as E. rewrite mem_get_length, Z2Nat.id in E by done. rewrite E.
  change (total_len ((a, l) :: segs)) with (l + total_len segs).
  rewrite (mem_get_app src off l) by (done || by eapply total_len_nonneg). done.
Qed.

Lemma scatter_chain m src off segs desc n i segs' st :
  segs_apart segs desc (n * sizeof_vring_desc) -> Forall (fun s => 0 <= s.2) segs -> 0 <= desc ->
  chain m desc n i segs' st -> chain (scatter m src off segs) desc n i segs' st.
Proof.
  intros Ha Hn Hd Hc.
  assert (E : forall i, 0 <= i < n -> desc_of (scatter m src off segs) desc i = desc_of m desc i).
  { intros j Hj. unfold desc_of. f_equal. apply scatter_apart; [|done].
    eapply Forall_impl; [exact Ha|]. unfold disj, sizeof_vring_desc. intros [] ?; cbn in *. lia. }
  revert i Hc. induction segs' as [|[a l] segs' IH]; intros i; cbn [chain].
  - intros (Hi & Hc). by rewrite E.
  - intros (Hi & Hf & Ea & El & Hc). rewrite E by done. auto 6.
Qed.

(** ** Carrying out a request *)

Section request.
  Context {H : XHost} (stack : xtrace -> Z -> mem) (fd size : Z) (img : mem) {D : DiskFile H fd size img}.
  Hypothesis quiet : forall t m, xguest_mem t m = m.
  Local Abbreviation disk := (disk fd img).
  Local Abbreviation disk_ready := (disk_ready fd size img).

Lemma xguest_quiet (Q : () -> ExVmm -> Prop) s : Q () s -> xwp xguest Q s.
Proof using quiet. intros HQ. unfold xguest. apply xwp_modify. destruct s. unfold upd. cbn. by rewrite quiet. Qed.

Lemma in_guest_ok s a l :
  0 <= a -> 0 <= l -> a + l <= mem_size s -> mem_size s < 2 ^ 63 -> a < mem_size s -> vio_in_guest s a l = true.
Proof.
  intros. unfold vio_in_guest, vio_guest_to_host. rewrite (proj2 (Z.leb_gt _ _)) by lia.
  rewrite (wrap_id 64) by (unfold fits; lia). by apply Z.leb_le.
Qed.

Lemma copy_from_spec a l Q s :
  0 <= a -> 0 <= l -> a + l <= mem_size s -> mem_size s < 2 ^ 63 -> a < mem_size s ->
  Q (Some (mem_get (x_ram s) a l)) s -> xwp (vio_copy_from_guest a l) Q s.
Proof using quiet.
  intros. unfold vio_copy_from_guest. apply xwp_bind, xguest_quiet. do 2 xwp_one. unfold id.
  rewrite in_guest_ok by done. apply xwp_bind. by apply xwp_fetch.
Qed.

Lemma copy_struct_spec {A} (c : codec A) var a Q s :
  0 <= a -> a + 16 <= mem_size s -> mem_size s < 2 ^ 63 ->
  Q (c_get c (mem_get (x_ram s) a 16)) s -> xwp (copy_struct stack c var a) Q s.
Proof using quiet.
  intros. unfold copy_struct. do 2 xwp_one. apply xwp_bind. apply copy_from_spec; [lia..|]. by apply xwp_ret.
Qed.

Lemma read_spec (n : nat) a Q s :
  0 <= a -> a + Z.of_nat n <= mem_size s -> a < mem_size s -> Q (rd (x_ram s) n a) s -> xwp (vio_read n a) Q s.
Proof using quiet.
  intros. unfold vio_read, vio_guest_to_host. apply xwp_bind, xguest_quiet. do 2 xwp_one. unfold id.
  rewrite (proj2 (Z.leb_gt _ _)) by lia. apply xwp_bind. apply xwp_fetch; [lia..|]. by apply xwp_ret.
Qed.

Lemma write_spec (n : nat) a v Q s :
  0 <= a -> a + Z.of_nat n <= mem_size s -> a < mem_size s ->
  Q () (s <| x_ram := mem_set (x_ram s) a (le_enc n v) |>) -> xwp (vio_write n a v) Q s.
Proof.
  intros. unfold vio_write, vio_guest_to_host. do 2 xwp_one. unfold id.
  rewrite (proj2 (Z.leb_gt _ _)) by lia. apply xwp_store; [lia|rewrite le_enc_length; lia|done].
Qed.

Lemma s64_small z : 0 <= z < 2 ^ 63 -> s64 z = z.
Proof. intros Hz. unfold s64. rewrite (wrap_id 64) by (unfold fits; lia). by rewrite (proj2 (Z.ltb_lt _ _)) by lia. Qed.

(** A segment of a write request goes from guest RAM to the disk. *)
Lemma segment_out off d data total s :
  let a := vd_addr d in let l := vd_len d in
  disk_ready s -> mem_bytes (x_ram s) -> mem_size s < 2 ^ 63 -> size < 2 ^ 63 -> 0 <= off -> 0 <= total ->
  0 <= a -> 0 <= l -> a + l <= mem_size s -> a < mem_size s -> total + l <= BLK_BUF -> off + total + l <= size ->
  xwp (blk_segment false off d data total l) (fun _ s' =>
    moved s s' /\ x_ram s' = x_ram s /\ disk_ready s' /\
    disk s' = mem_set (disk s) (off + total) (mem_get (x_ram s) a l)) s.
Proof using D quiet.
  intros a l [Hfd Hfd0 Hds Hby] Hm H63 Hs63 Ho Ht Ha Hl Hal Ham Hb Hsz. unfold blk_segment. change (vd_addr d) with a. change (vd_len d) with l. clearbody a l. do 2 xwp_one.
  apply xwp_bind. apply copy_from_spec; [done..|].
  assert (Hlen : Z.of_nat (length (mem_get (x_ram s) a l)) = l) by (rewrite mem_get_length; lia).
  unfold buf_write, buf_read. rewrite Hlen, (proj2 (Z.ltb_ge _ _)) by lia. do 4 xwp_one.
  pose proof (mem_get_set_eq data total (mem_get (x_ram s) a l)) as E. rewrite Hlen in E. rewrite E.
  rewrite s64_small, Hfd by lia. xwp_run.
  assert (Hrr : r_ret r = l) by (subst r; rewrite disk_pwrite by lia; done). clear Hr.
  lazymatch goal with |- moved s ?t /\ _ => set (s2 := t) end.
  assert (Ed : disk s2 = mem_set (disk s) (off + total) (mem_get (x_ram s) a l)).
  { unfold ExIde.disk. change (x_trace s2) with (x_trace s ++ [(x_pwrite fd (mem_get (x_ram s) a l) (off + total), r)]).
    rewrite disk_after_snoc. cbn [fst snd]. rewrite Z.eqb_refl, Hrr, take_ge; [done|]. rewrite mem_get_length. lia. }
  split; [by destruct s|]. split; [done|]. split; [|exact Ed]. split; [done..|]. rewrite Ed.
  apply mem_set_bytes; [done|]. by apply mem_get_bytes.
Qed.

(** A segment of a read request goes from the disk to guest RAM. *)
Lemma segment_in off d data total s :
  let a := vd_addr d in let l := vd_len d in
  disk_ready s -> mem_size s < 2 ^ 63 -> size < 2 ^ 63 -> 0 <= off -> 0 <= total ->
  0 <= a -> 0 <= l -> a + l <= mem_size s -> a < mem_size s -> total + l <= BLK_BUF -> off + total + l <= size ->
  xwp (blk_segment true off d data total l) (fun _ s' =>
    moved s s' /\ x_ram s' = mem_set (x_ram s) a (mem_get (disk s) (off + total) l) /\
    disk_ready s' /\ disk s' = disk s) s.
Proof using D.
  intros a l [Hfd Hfd0 Hds Hby] H63 Hs63 Ho Ht Ha Hl Hal Ham Hb Hsz. unfold blk_segment. change (vd_addr d) with a. change (vd_len d) with l. clearbody a l. do 4 xwp_one.
  rewrite s64_small, Hfd in Hr |- * by lia. rewrite disk_pread in Hr by lia. subst r.
  cbn [r_ret r_data].
  assert (Hlen : Z.of_nat (length (mem_get (disk s) (off + total) l)) = l) by (rewrite mem_get_length; lia).
  rewrite take_ge by (rewrite mem_get_length; lia). fold (disk s).
  unfold buf_write, buf_read, vio_copy_to_guest. rewrite Hlen, (proj2 (Z.ltb_ge _ _)) by lia. do 5 xwp_one. unfold id.
  rewrite in_guest_ok by done. cbn [xwhen]. do 2 xwp_one.
  pose proof (mem_get_set_eq data total (mem_get (disk s) (off + total) l)) as E. rewrite Hlen in E. rewrite E.
  apply xwp_store; [done|rewrite Hlen; done|]. xwp_one.
  lazymatch goal with |- moved s ?t /\ _ => set (s2 := t) end.
  assert (Ed : disk s2 = disk s) by apply disk_after_snoc.
  split; [by destruct s|]. split; [done|]. split; [|done]. split; [done..|]. by rewrite Ed.
Qed.

(** One turn of the loop over a chain: what the code reads and computes. *)
Lemma chain_turn fuel is_in desc n off st0 i data total Q s :
  let d := desc_of (x_ram s) desc i in
  0 <= desc -> desc + n * sizeof_vring_desc <= mem_size s -> mem_size s < 2 ^ 63 -> 0 <= i < n ->
  (if has_bits (vd_flags d) 1 then
     0 <= total /\ 0 <= vd_len d /\ total + vd_len d <= BLK_BUF /\
     xwp (blk_segment is_in off d data total (vd_len d)) (fun data' s' =>
       xwp (blk_chain stack fuel is_in desc n off st0 (vd_next d) data' (total + vd_len d)) Q s') s
   else Q (Some (d, total)) s) ->
  xwp (blk_chain stack (S fuel) is_in desc n off st0 i data total) Q s.
Proof using quiet.
  intros d Hd Hn H63 Hi HQ. unfold sizeof_vring_desc in *. cbn [blk_chain]. rewrite (proj2 (Z.leb_gt _ _)) by lia.
  apply xwp_bind. unfold sizeof_vring_desc. rewrite (wrap_id 64) by (unfold fits; lia).
  apply copy_struct_spec; [lia..|]. fold sizeof_vring_desc. change (c_get vring_desc_codec _) with d.
  destruct (has_bits (vd_flags d) 1); cbn [negb]; [|by apply xwp_ret].
  destruct HQ as (Ht & Hl & Hb & HQ).
  assert (E : u32 (total + vd_len d) = total + vd_len d) by (apply wrap_id; unfold fits, BLK_BUF in *; lia).
  cbv zeta. rewrite !E, (proj2 (Z.ltb_ge _ _)) by lia. rewrite E. apply xwp_bind. exact HQ.
Qed.

Lemma chain_out segs st fuel off st0 desc n i data total s :
  disk_ready s -> mem_bytes (x_ram s) -> mem_size s < 2 ^ 63 -> size < 2 ^ 63 -> 0 <= off -> 0 <= total ->
  0 <= desc -> desc + n * sizeof_vring_desc <= mem_size s -> chain (x_ram s) desc n i segs st ->
  segs_in (mem_size s) segs -> total + total_len segs <= BLK_BUF -> off + total + total_len segs <= size ->
  (length segs < fuel)%nat ->
  xwp (blk_chain stack fuel false desc n off st0 i data total) (fun r s' =>
    (exists d, r = Some (d, total + total_len segs) /\ vd_addr d = st) /\ moved s s' /\ x_ram s' = x_ram s /\
    disk_ready s' /\ disk s' ≡ mem_set (disk s) (off + total) (seg_gather (x_ram s) segs)) s.
Proof using D quiet.
  intros Hr Hm H63 Hs63 Ho Ht Hd Hn Hc. revert fuel data total s Hr Hm H63 Ht Hn Hc.
  induction segs as [|[a l] segs IH] in i |- *; intros fuel data total s Hr Hm H63 Ht Hn Hc Hin Hb Hsz Hf;
    (destruct fuel as [|fuel]; [cbn in Hf; lia|]).
  - cbn [chain] in Hc. destruct Hc as (Hi & Hfl & Hst). apply chain_turn; [done..|]. rewrite Hfl. cbn [total_len]. rewrite Z.add_0_r.
    split; [by eauto|]. split; [done|]. split; [done|]. split; [done|].
    intros x. rewrite mem_set_outside; [done|]. cbn. lia.
  - cbn [chain] in Hc. destruct Hc as (Hi & Hfl & Ea & El & Hc'). apply Forall_cons in Hin as [(Ha & Hl & Hal) Hin].
    cbn [fst snd total_len] in *. pose proof (total_len_nonneg _ _ Hin).
    apply chain_turn; [done..|]. rewrite Hfl, El. split; [lia|]. split; [lia|]. split; [lia|]. rewrite <- El.
    xwp_use segment_out; rewrite ?Ea, ?El; try (done || lia). intros data' s1 (Hmv & Hram & Hr1 & Hd1).
    rewrite <- Hram in Hc' |- *. rewrite <- (moved_size _ _ Hmv) in Hin, Hn, H63.
    xwp_use IH; [done|by rewrite Hram|done|lia|done|exact Hc'|done|lia|lia|cbn in Hf; lia|].
    intros r s2 ((d & -> & Hda) & Hmv2 & Hram2 & Hr2 & Hd2). split; [exists d; split; [|done]; by rewrite ?El, Z.add_assoc|].
    split; [by etrans|]. split; [done|]. split; [done|]. rewrite Hd2, Hd1, Hram.
    unfold seg_gather. rewrite fmap_cons. change (mjoin (?x :: ?r)) with (x ++ mjoin r). rewrite <- mem_set_app. cbn [fst snd].
    rewrite mem_get_length, Z2Nat.id by lia. by rewrite Z.add_assoc.
Qed.

Lemma chain_in segs st fuel off st0 desc n i data total s :
  disk_ready s -> mem_size s < 2 ^ 63 -> size < 2 ^ 63 -> 0 <= off -> 0 <= total ->
  0 <= desc -> desc + n * sizeof_vring_desc <= mem_size s -> chain (x_ram s) desc n i segs st ->
  segs_in (mem_size s) segs -> segs_apart segs desc (n * sizeof_vring_desc) ->
  total + total_len segs <= BLK_BUF -> off + total + total_len segs <= size -> (length segs < fuel)%nat ->
  xwp (blk_chain stack fuel true desc n off st0 i data total) (fun r s' =>
    (exists d, r = Some (d, total + total_len segs) /\ vd_addr d = st) /\ moved s s' /\
    x_ram s' = scatter (x_ram s) (disk s) (off + total) segs /\ disk_ready s' /\ disk s' = disk s) s.
Proof using D quiet.
  intros Hr H63 Hs63 Ho Ht Hd Hn Hc. revert fuel data total s Hr H63 Ht Hn Hc.
  induction segs as [|[a l] segs IH] in i |- *; intros fuel data total s Hr H63 Ht Hn Hc Hin Hap Hb Hsz Hf;
    (destruct fuel as [|fuel]; [cbn in Hf; lia|]).
  - cbn [chain] in Hc. destruct Hc as (Hi & Hfl & Hst). apply chain_turn; [done..|]. rewrite Hfl. cbn [total_len]. rewrite Z.add_0_r.
    split; [by eauto|]. done.
  - cbn [chain] in Hc. destruct Hc as (Hi & Hfl & Ea & El & Hc'). apply Forall_cons in Hin as [(Ha & Hl & Hal) Hin].
    apply Forall_cons in Hap as [Hap1 Hap]. cbn [fst snd total_len] in *. pose proof (total_len_nonneg _ _ Hin).
    apply chain_turn; [done..|]. rewrite Hfl, El. split; [lia|]. split; [lia|]. split; [lia|]. rewrite <- El.
    xwp_use segment_in; rewrite ?Ea, ?El; try (done || lia). intros data' s1 (Hmv & Hram & Hr1 & Hd1).
    apply (scatter_chain _ (disk s) (off + total) [(a, l)]) in Hc';
      [|by constructor|by constructor|done].
    cbn [scatter] in Hc'. rewrite <- Hram in Hc'. rewrite <- (moved_size _ _ Hmv) in Hin, Hn, H63.
    xwp_use IH; [done|done|lia|done|exact Hc'|done|done|lia|lia|cbn in Hf; lia|].
    intros r s2 ((d & -> & Hda) & Hmv2 & Hram2 & Hr2 & Hd2). split; [exists d; split; [|done]; by rewrite ?El, Z.add_assoc|].
    split; [by etrans|]. rewrite Hram2, Hram, Hd1 in *. split; [by rewrite Z.add_assoc|done].
Qed.

(** A used element and the new index. *)
Definition used_push (m : mem) (used n id total : Z) : mem :=
  let uidx := rd m 2 (used + 2) in
  let e := used + 4 + (uidx mod n) * 8 in
  mem_set (mem_set (mem_set m e (le_enc 4 id)) (e + 4) (le_enc 4 total)) (used + 2) (le_enc 2 (u16 (uidx + 1))).

Definition bump (v : ExVio) : ExVio := v <| vio_used_idx ::= (fun i => u16 (i + 1)) |>.

Lemma complete_spec used n id d total s :
  0 <= vd_addr d < mem_size s -> 0 < n -> 0 <= used -> used + 4 + 8 * n <= mem_size s -> mem_size s < 2 ^ 63 ->
  xwp (blk_complete used n id d total) (fun _ s' =>
    s' = s <| x_ram := used_push (mem_set (x_ram s) (vd_addr d) [0]) used n id total |> <| x_vio ::= bump |>) s.
Proof using quiet.
  intros Hd Hn Hu Hus H63. unfold blk_complete. apply xwp_bind, write_spec; [lia..|].
  apply xwp_bind. rewrite (wrap_id 64 (used + 2)) by (unfold fits; lia). apply read_spec; [cbn; lia..|].
  change (le_enc 1 0) with [0]. cbn [x_ram upd]. change (x_ram (upd x_ram ?f s)) with (f (x_ram s)). cbv beta.
  set (m1 := mem_set (x_ram s) (vd_addr d) [0]). pose proof (Z.mod_pos_bound (rd m1 2 (used + 2)) n Hn) as Hb.
  set (uidx := rd m1 2 (used + 2)) in *. rewrite !(wrap_id 64 (used + 4 + _)) by (unfold fits; lia). cbv zeta.
  apply xwp_bind, write_spec; [cbn; lia..|]. rewrite (wrap_id 64) by (unfold fits; lia).
  apply xwp_bind, write_spec; [cbn; lia..|]. apply xwp_bind, write_spec; [cbn; lia..|]. by xwp_run.
Qed.

(** A request in guest RAM. *)
Definition request (m : mem) (desc n head : Z) (is_in : bool) (sector : Z) (segs : list (Z * Z)) (st : Z) : Prop :=
  let h := desc_of m desc head in
  let req := req_of m (vd_addr h) in
  br_type req = (if is_in then VIO_BLK_T_IN else VIO_BLK_T_OUT) /\ br_sector req = sector /\
  chain m desc n (vd_next h) segs st.

(** Where the rings, the header, the buffers and the status byte are, and that
    the transfer is on the disk and fits the device's buffer. *)
Record request_fits (s : ExVmm) (desc used n head sector : Z) (segs : list (Z * Z)) (st : Z) : Prop := {
  rf_mem : mem_size s < 2 ^ 63;
  rf_n : 0 < n; rf_head : 0 <= head < n;
  rf_desc : 0 <= desc; rf_desc_in : desc + n * sizeof_vring_desc <= mem_size s;
  rf_used : 0 <= used; rf_used_in : used + 4 + 8 * n <= mem_size s;
  rf_hdr : 0 <= vd_addr (desc_of (x_ram s) desc head);
  rf_hdr_in : vd_addr (desc_of (x_ram s) desc head) + 16 <= mem_size s;
  rf_segs : segs_in (mem_size s) segs; rf_st : 0 <= st < mem_size s;
  rf_buf : total_len segs <= BLK_BUF;
  rf_sector : 0 <= sector; rf_disk : sector * 512 + total_len segs <= size; rf_size : size < 2 ^ 63
}.

(** Guest RAM after the data has moved. *)
Definition transferred (is_in : bool) (s : ExVmm) (sector : Z) (segs : list (Z * Z)) : mem :=
  if is_in then scatter (x_ram s) (disk s) (sector * 512) segs else x_ram s.

Lemma request_spec fuel desc used n head is_in sector segs st s :
  disk_ready s -> mem_bytes (x_ram s) -> request (x_ram s) desc n head is_in sector segs st ->
  request_fits s desc used n head sector segs st ->
  (is_in = true -> segs_apart segs desc (n * sizeof_vring_desc)) -> (length segs < fuel)%nat ->
  xwp (blk_request stack fuel desc used n head) (fun r s' =>
    r = Some () /\ disk_ready s' /\ mem_size s' = mem_size s /\ vm_fd s' = vm_fd s /\ x_vio s' = bump (x_vio s) /\
    x_ram s' = used_push (mem_set (transferred is_in s sector segs) st [0]) used n head (total_len segs) /\
    disk s' ≡ (if is_in then disk s else mem_set (disk s) (sector * 512) (seg_gather (x_ram s) segs))) s.
Proof using D quiet.
  intros Hr Hm (Hty & Hse & Hc) [] Hap Hf. unfold sizeof_vring_desc in *. unfold blk_request.
  rewrite (wrap_id 64) by (unfold sizeof_vring_desc, fits; lia). apply xwp_bind.
  apply copy_struct_spec; [unfold sizeof_vring_desc; lia..|]. rewrite (Z.add_comm (head * _)).
  change (c_get vring_desc_codec _) with (desc_of (x_ram s) desc head). apply xwp_bind. apply copy_struct_spec; [lia..|].
  change (c_get virtio_blk_req_codec _) with (req_of (x_ram s) (vd_addr (desc_of (x_ram s) desc head))).
  do 2 xwp_one. rewrite Hty, Hse. pose proof (total_len_nonneg _ _ rf_segs0).
  rewrite (wrap_id 64 (sector * 512)) by (unfold fits; lia). apply xwp_bind.
  assert (Hdone : forall d s', moved s s' -> disk_ready s' -> vd_addr d = st -> x_ram s' = transferred is_in s sector segs ->
    disk s' ≡ (if is_in then disk s else mem_set (disk s) (sector * 512) (seg_gather (x_ram s) segs)) ->
    xwp (blk_complete used n head d (total_len segs) ;; mret (Some ())) (fun r s' =>
    r = Some () /\ disk_ready s' /\ mem_size s' = mem_size s /\ vm_fd s' = vm_fd s /\ x_vio s' = bump (x_vio s) /\
    x_ram s' = used_push (mem_set (transferred is_in s sector segs) st [0]) used n head (total_len segs) /\
    disk s' ≡ (if is_in then disk s else mem_set (disk s) (sector * 512) (seg_gather (x_ram s) segs))) s').
  { intros d s' Hmv Hr' Hd Hram Hdk. apply xwp_bind. pose proof (moved_size _ _ Hmv) as Hms.
    xwp_use complete_spec; [lia..|]. intros [] s2 ->. apply xwp_ret. rewrite <- Hram, Hd. split; [done|].
    split; [by destruct Hr'|]. split; [done|]. split; [by rewrite Hmv|]. split; [by rewrite Hmv|]. by split. }
  destruct is_in; cbn [Z.eqb orb VIO_BLK_T_IN VIO_BLK_T_OUT].
  - xwp_use (chain_in segs st); try first [done|lia|exact Hc|by apply Hap|unfold sizeof_vring_desc; lia].
    rewrite Z.add_0_r, Z.add_0_l. intros r s1 ((d & -> & Hd) & Hmv & Hram & Hr1 & Hdk). apply Hdone; try done. by rewrite Hdk.
  - xwp_use (chain_out segs st); try first [done|lia|exact Hc|unfold sizeof_vring_desc; lia].
    rewrite Z.add_0_r, Z.add_0_l. intros r s1 ((d & -> & Hd) & Hmv & Hram & Hr1 & Hdk). by apply Hdone.
Qed.

(** The rings as the device computes them from the driver's registers. *)
Definition q_desc (v : ExVio) : Z := vio_queue_pfn v * vio_guest_page_size v.
Definition q_avail (v : ExVio) : Z := q_desc v + vio_queue_num v * sizeof_vring_desc.
Definition q_used (v : ExVio) : Z := q_desc v + vio_used_off (vio_queue_num v) (vio_queue_align v).

(** The driver has made one request available. *)
Record pending (s : ExVmm) (head : Z) (is_in : bool) (sector : Z) (segs : list (Z * Z)) (st : Z) : Prop := {
  pd_bytes : mem_bytes (x_ram s);
  pd_pfn : vio_queue_pfn (x_vio s) <> 0;
  pd_idx : fits 16 (vio_used_idx (x_vio s));
  pd_avail_in : q_avail (x_vio s) + 4 + 2 * vio_queue_num (x_vio s) <= mem_size s;
  pd_avail : rd (x_ram s) 2 (q_avail (x_vio s) + 2) = u16 (vio_used_idx (x_vio s) + 1);
  pd_head : rd (x_ram s) 2 (q_avail (x_vio s) + 4 + (vio_used_idx (x_vio s) mod vio_queue_num (x_vio s)) * 2) = head;
  pd_request : request (x_ram s) (q_desc (x_vio s)) (vio_queue_num (x_vio s)) head is_in sector segs st;
  pd_fits : request_fits s (q_desc (x_vio s)) (q_used (x_vio s)) (vio_queue_num (x_vio s)) head sector segs st;
  pd_apart : is_in = true -> segs_apart segs (q_desc (x_vio s)) (vio_queue_num (x_vio s) * sizeof_vring_desc)
}.

Lemma process_one chain head is_in sector segs st s :
  disk_ready s -> pending s head is_in sector segs st -> (length segs < chain)%nat ->
  xwp (vio_process_queue stack chain 1) (fun r s' =>
    r = Some () /\ disk_ready s' /\ mem_size s' = mem_size s /\ vm_fd s' = vm_fd s /\
    x_vio s' = (bump (x_vio s)) <| vio_isr := Z.lor (vio_isr (x_vio s)) 1 |> /\
    (exists t r', x_trace s' = t ++ [(x_irq_line (vm_fd s) VIO_MMIO_IRQ 1, r')]) /\
    x_ram s' = used_push (mem_set (transferred is_in s sector segs) st [0]) (q_used (x_vio s))
                 (vio_queue_num (x_vio s)) head (total_len segs) /\
    disk s' ≡ (if is_in then disk s else mem_set (disk s) (sector * 512) (seg_gather (x_ram s) segs))) s.
Proof using D quiet.
  intros Hr [Hby Hpfn Hidx Hain Hav Hhd Hrq Hrf Hap] Hf. pose proof Hrf as [].
  unfold vio_process_queue. do 2 xwp_one. rewrite (proj2 (Z.eqb_neq _ 0)), (proj2 (Z.eqb_neq _ 0)) by lia. cbn [orb].
  cbv zeta. change (vio_queue_pfn (x_vio s) * vio_guest_page_size (x_vio s)) with (q_desc (x_vio s)).
  set (v := x_vio s) in *. set (n := vio_queue_num v) in *. unfold sizeof_vring_desc in *.
  assert (Ea : q_avail v = q_desc v + n * 16) by done.
  assert (Eu : q_used v = q_desc v + vio_used_off n (vio_queue_align v)) by done.
  rewrite !(wrap_id 64 (q_desc v)) by (unfold fits; lia). rewrite <- Eu, <- Ea.
  rewrite !(wrap_id 64 (q_avail v)), !(wrap_id 64 (q_used v)) by (unfold fits; lia).
  rewrite !(wrap_id 64 (q_avail v + 2)) by (unfold fits; lia).
  apply xwp_bind. apply read_spec; [lia..|]. rewrite Hav. apply xwp_bind. cbn [blk_loop]. do 2 xwp_one. fold v.
  assert (Hne : vio_used_idx v <> u16 (vio_used_idx v + 1)).
  { unfold fits in Hidx. unfold wrap. change (2 ^ 16) with 65536 in *. clear -Hidx.
    destruct (decide (vio_used_idx v = 65535)) as [->|]; [done|]. rewrite Z.mod_small; lia. }
  rewrite (proj2 (Z.eqb_neq _ _)) by done. pose proof (Z.mod_pos_bound (vio_used_idx v) n rf_n0).
  rewrite !(wrap_id 64 (q_avail v + 4 + _)) by (unfold fits; lia).
  apply xwp_bind. apply read_spec; [lia..|]. rewrite Hhd. apply xwp_bind.
  xwp_use request_spec; [done..|]. intros r s1 (-> & Hr1 & Hms & Hvm & Hv1 & Hram1 & Hd1). cbv iota.
  do 2 xwp_one. rewrite Hv1. change (vio_used_idx (bump (x_vio s))) with (u16 (vio_used_idx v + 1)). rewrite Z.eqb_refl.
  unfold vio_inject_irq. xwp_run. unfold id. split; [done|].
  lazymatch goal with |- disk_ready ?t /\ _ => set (s2 := t) end.
  assert (Ed : disk s2 = disk s1) by apply disk_after_snoc.
  split; [destruct Hr1; split; [done..|by rewrite Ed]|]. split; [done|]. split; [done|].
  split; [by cbn; rewrite Hv1|]. split; [eexists _, _; cbn; by rewrite Hvm|]. by rewrite Ed.
Qed.

Lemma seg_gather_set m a bs segs :
  segs_apart segs a (Z.of_nat (length bs)) -> seg_gather (mem_set m a bs) segs = seg_gather m segs.
Proof.
  intros Ha. unfold seg_gather. f_equal. apply list_fmap_ext. intros i [b l] Hi. cbn [fst snd].
  apply mem_get_set_disjoint. pose proof (Forall_lookup_1 _ _ _ _ Ha Hi) as Hx. unfold disj in Hx. cbn in Hx. lia.
Qed.

Lemma segs_apart_sub segs a n b k :
  segs_apart segs a n -> a <= b -> 0 <= k -> b + k <= a + n -> segs_apart segs b k.
Proof. intros Ha ? ? ?. eapply Forall_impl; [exact Ha|]. unfold disj. intros [] ?. cbn in *. lia. Qed.

Lemma seg_gather_used_push m used n id total segs :
  0 < n -> segs_apart segs used (4 + 8 * n) -> seg_gather (used_push m used n id total) segs = seg_gather m segs.
Proof.
  intros Hn Ha. unfold used_push. pose proof (Z.mod_pos_bound (rd m 2 (used + 2)) n Hn).
  rewrite !seg_gather_set; [done|..]; rewrite le_enc_length; (eapply segs_apart_sub; [exact Ha|lia..]).
Qed.

Lemma pending_ext s s' head is_in sector segs st :
  x_ram s' = x_ram s -> x_vio s' = x_vio s -> mem_size s' = mem_size s ->
  pending s head is_in sector segs st -> pending s' head is_in sector segs st.
Proof. intros E1 E2 E3 [? ? ? ? ? ? ? [] ?]. split; rewrite ?E1, ?E2, ?E3; try done. by split; rewrite ?E1, ?E3. Qed.

(** The guest writes QUEUE_NOTIFY. *)
Lemma notify_spec chain head is_in sector segs st s :
  disk_ready s -> pending s head is_in sector segs st -> (length segs < chain)%nat ->
  xwp (ex_virtio_mmio_write stack chain 1 0x50 0) (fun r s' =>
    r = Some () /\ disk_ready s' /\ mem_size s' = mem_size s /\ vm_fd s' = vm_fd s /\
    x_vio s' = (bump (x_vio s)) <| vio_isr := Z.lor (vio_isr (x_vio s)) 1 |> /\
    (exists r', (x_irq_line (vm_fd s) VIO_MMIO_IRQ 1, r') ∈ x_trace s') /\
    x_ram s' = used_push (mem_set (transferred is_in s sector segs) st [0]) (q_used (x_vio s))
                 (vio_queue_num (x_vio s)) head (total_len segs) /\
    disk s' ≡ (if is_in then disk s else mem_set (disk s) (sector * 512) (seg_gather (x_ram s) segs))) s.
Proof using D quiet.
  intros Hr Hp Hf. unfold ex_virtio_mmio_write. change (vio_reg_at 0x50) with (Some VIO_REG_QUEUE_NOTIFY).
  change (0 =? 0) with true. cbv iota. do 6 xwp_one.
  lazymatch goal with |- xwp _ _ ?t => set (s0 := t) end.
  assert (E0 : disk s0 = disk s) by apply disk_after_snoc.
  xwp_use process_one; [destruct Hr; split; [done..|by rewrite E0]|by apply (pending_ext s)|done|].
  intros r1 s1 (-> & Hr1 & Hms & Hvm & Hv & (t & r' & Ht) & Hram & Hd). xwp_run.
  lazymatch goal with |- _ /\ disk_ready ?t /\ _ => set (s2 := t) end.
  assert (E2 : disk s2 = disk s1) by apply disk_after_snoc.
  split; [done|]. split; [destruct Hr1; split; [done..|by rewrite E2]|]. split; [done|]. split; [done|]. split; [done|].
  split; [exists r'; cbn; rewrite Ht; set_solver|]. unfold transferred in *. rewrite E0 in *. rewrite E2. done.
Qed.

(** The driver finds its request completed: status 0, and in the used ring, in
    the slot the old index names, the request's head and the number of bytes, the
    index one further.  [m] is RAM before the device worked on it. *)
Definition completed (m m' : mem) (used n head len st : Z) : Prop :=
  let uidx := rd m 2 (used + 2) in
  let e := used + 4 + (uidx mod n) * 8 in
  m' st = 0 /\ rd m' 4 e = head /\ rd m' 4 (e + 4) = len /\ rd m' 2 (used + 2) = u16 (uidx + 1).

Lemma rd_mem_set_disjoint m a bs k b :
  b + Z.of_nat k <= a \/ a + Z.of_nat (length bs) <= b -> rd (mem_set m a bs) k b = rd m k b.
Proof. intros Hd. unfold rd. by rewrite mem_get_set_disjoint by lia. Qed.

Lemma rd_mem_set_eq m a k v : fits (8 * Z.of_nat k) v -> rd (mem_set m a (le_enc k v)) k a = v.
Proof.
  intros Hv. unfold rd. pose proof (mem_get_set_eq m a (le_enc k v)) as E. rewrite le_enc_length in E.
  rewrite E. by apply le_dec_enc.
Qed.

Lemma completed_push m m0 used n head len st :
  0 < n -> fits 32 head -> fits 32 len -> disj st 1 used (4 + 8 * n) ->
  rd m0 2 (used + 2) = rd m 2 (used + 2) ->
  completed m (used_push (mem_set m0 st [0]) used n head len) used n head len st.
Proof.
  intros Hn Hh Hl Hd E0. unfold disj in Hd.
  assert (E1 : rd (mem_set m0 st [0]) 2 (used + 2) = rd m 2 (used + 2)) by (rewrite rd_mem_set_disjoint; [done|cbn; lia]).
  unfold completed, used_push. rewrite E1. set (u := rd m 2 (used + 2)). clearbody u.
  pose proof (Z.mod_pos_bound u n Hn) as Hu. set (e := used + 4 + (u mod n) * 8).
  assert (He : used + 4 <= e /\ e + 8 <= used + 4 + 8 * n) by (unfold e; lia). clearbody e.
  split_and!.
  - rewrite !mem_set_outside by (rewrite le_enc_length; lia). rewrite mem_set_inside by (cbn; lia). by rewrite Z.sub_diag.
  - rewrite rd_mem_set_disjoint by (rewrite le_enc_length; lia). rewrite rd_mem_set_disjoint by (rewrite le_enc_length; lia).
    by apply rd_mem_set_eq.
  - rewrite rd_mem_set_disjoint by (rewrite le_enc_length; lia). by apply rd_mem_set_eq.
  - apply rd_mem_set_eq. by apply wrap_fits.
Qed.

Lemma pending_fits s head is_in sector segs st :
  pending s head is_in sector segs st -> fits 32 head /\ fits 32 (total_len segs).
Proof.
  intros [Hb _ _ _ _ Hh _ [] _]. split.
  - subst head. apply (fits_mono 16); [lia|]. by apply (rd_fits _ 2).
  - pose proof (total_len_nonneg _ _ rf_segs0). unfold fits, BLK_BUF in *. lia.
Qed.

(** C17: the virtio block device is a disk.  A write request (any number of data
    segments, of 128 KiB together at most) that the driver has laid out in a
    ring anywhere in guest RAM and announced by QUEUE_NOTIFY, then a read
    request of any sectors set up in any RAM contents the guest has made
    meanwhile: the segments of the read request end up with the bytes of the
    disk image in which exactly the written range was replaced by the segments
    of the write request.  Both notifications end, without an access outside
    guest RAM or the device's buffer; the driver finds both requests completed,
    with status byte 0, the head and the byte count in the slot of the used ring
    its index named, and the index one further; the interrupt status is set and
    the interrupt raised. *)
Theorem blk_is_a_disk chain head1 sec1 segs1 st1 m2 head2 sec2 segs2 st2 s :
  let v1 := (bump (x_vio s)) <| vio_isr := Z.lor (vio_isr (x_vio s)) 1 |> in
  let disk' := mem_set (disk s) (sec1 * 512) (seg_gather (x_ram s) segs1) in
  let used := q_used (x_vio s) in let n := vio_queue_num (x_vio s) in
  disk_ready s -> pending s head1 false sec1 segs1 st1 ->
  pending (s <| x_ram := m2 |> <| x_vio := v1 |>) head2 true sec2 segs2 st2 ->
  segs_disjoint segs2 -> segs_apart segs2 st2 1 -> segs_apart segs2 used (4 + 8 * n) ->
  disj st1 1 used (4 + 8 * n) -> disj st2 1 used (4 + 8 * n) ->
  (length segs1 < chain)%nat -> (length segs2 < chain)%nat ->
  xwp (r1 ← ex_virtio_mmio_write stack chain 1 0x50 0;
       m1 ← xgets x_ram;
       xmodify (fun s => s <| x_ram := m2 |>) ;;
       r2 ← ex_virtio_mmio_write stack chain 1 0x50 0;
       mret (r1, m1, r2)) (fun '(r1, m1, r2) s' =>
    r1 = Some () /\ r2 = Some () /\
    completed (x_ram s) m1 used n head1 (total_len segs1) st1 /\
    completed m2 (x_ram s') used n head2 (total_len segs2) st2 /\
    seg_gather (x_ram s') segs2 = mem_get disk' (sec2 * 512) (total_len segs2) /\
    disk s' ≡ disk' /\ has_bits (vio_isr (x_vio s')) 1 = true /\
    (exists r', (x_irq_line (vm_fd s) VIO_MMIO_IRQ 1, r') ∈ x_trace s')) s.
Proof using D quiet.
  intros v1 disk' used n Hr Hp1 Hp2 Hdj Hst Hus Hu1 Hu2 Hf1 Hf2. apply xwp_bind. xwp_use notify_spec; [done..|].
  intros r1 s1 (-> & Hr1 & Hms1 & Hvm1 & Hv1 & _ & Hram1 & Hd1). do 5 xwp_one.
  lazymatch goal with |- xwp _ _ ?t => set (s2 := t) end.
  assert (Hp2' : pending s2 head2 true sec2 segs2 st2) by (by apply (pending_ext (s <| x_ram := m2 |> <| x_vio := v1 |>))).
  xwp_use notify_spec; [by destruct Hr1; split|done..|].
  intros r2 s3 (-> & Hr3 & Hms3 & Hvm3 & Hv3 & (r' & Hin) & Hram3 & Hd3). apply xwp_ret.
  change (disk s2) with (disk s1) in *. change (x_vio s2) with (x_vio s1) in *. rewrite Hv1 in *. fold v1 in Hv3, Hram3.
  pose proof (pd_fits _ _ _ _ _ _ Hp1) as F1. pose proof (rf_n _ _ _ _ _ _ _ _ F1) as Hn. fold n in Hn.
  change (q_used v1) with used in Hram3. change (vio_queue_num v1) with n in Hram3.
  destruct (pending_fits _ _ _ _ _ _ Hp1), (pending_fits _ _ _ _ _ _ Hp2').
  split; [done|]. split; [done|]. split.
  { change (x_ram s1) with (x_ram s1). rewrite Hram1. by apply completed_push. }
  assert (Hin2 : segs_in (mem_size s2) segs2) by apply (pd_fits _ _ _ _ _ _ Hp2').
  split.
  { rewrite Hram3. apply completed_push; try done. unfold transferred, rd. f_equal.
    apply scatter_apart; [|by eapply segs_in_nonneg]. eapply segs_apart_sub; [exact Hus|lia..]. }
  split; [|split; [by rewrite Hd3, Hd1|split]].
  - rewrite Hram3, seg_gather_used_push, seg_gather_set by done. unfold transferred. change (disk s2) with (disk s1).
    rewrite (seg_gather_scatter _ _ _ _ (mem_size s2)) by done. by rewrite Hd1.
  - rewrite Hv3. unfold has_bits. cbn. apply negb_true_iff, Z.eqb_neq. intros E.
    apply (f_equal (fun z => Z.testbit z 0)) in E. rewrite Z.land_spec, Z.lor_spec in E. by rewrite orb_true_r in E.
  - exists r'. by rewrite <- Hvm1.
Qed.

(** ** Requests the code does not handle *)

(** A descriptor that names itself as the next one: the loop over the chain never
    ends, whatever the fuel. *)
Theorem blk_cyclic_chain fuel off st0 desc n i data total s :
  let d := desc_of (x_ram s) desc i in
  disk_ready s -> mem_bytes (x_ram s) -> mem_size s < 2 ^ 63 -> size < 2 ^ 63 ->
  0 <= desc -> desc + n * sizeof_vring_desc <= mem_size s -> 0 <= i < n ->
  has_bits (vd_flags d) 1 = true -> vd_next d = i -> vd_len d = 0 -> 0 <= vd_addr d < mem_size s ->
  0 <= off -> 0 <= total <= BLK_BUF -> off + total <= size ->
  xwp (blk_chain stack fuel false desc n off st0 i data total) (fun r _ => r = None) s.
Proof using D quiet.
  intros d Hr Hm H63 Hs63 Hd Hn Hi Hfl Hnx Hln Had Ho Ht Hsz. subst d. revert data s Hr Hm H63 Hn Hfl Hnx Hln Had.
  induction fuel as [|fuel IH]; intros data s Hr Hm H63 Hn Hfl Hnx Hln Had.
  { cbn [blk_chain]. rewrite (proj2 (Z.leb_gt _ _)) by lia. by apply xwp_ret. }
  apply chain_turn; [done..|]. rewrite Hfl. do 3 (split; [rewrite ?Hln; lia|]).
  xwp_use segment_out; rewrite ?Hln; try (done || lia). intros data' s1 (Hmv & Hram & Hr1 & _).
  rewrite Hnx, Z.add_0_r. pose proof (moved_size _ _ Hmv) as Hms. by apply IH; rewrite ?Hram, ?Hms.
Qed.

(** The sum of [total] and a segment's length wraps around in 32 bits: the check
    passes and the device's buffer is overrun. *)
Theorem blk_length_wraps fuel off st0 desc n i data total s :
  let d := desc_of (x_ram s) desc i in
  mem_size s < 2 ^ 32 - BLK_BUF -> 0 <= desc -> desc + n * sizeof_vring_desc <= mem_size s -> 0 <= i < n ->
  has_bits (vd_flags d) 1 = true -> 0 < total <= BLK_BUF -> 2 ^ 32 - total <= vd_len d < 2 ^ 32 ->
  0 <= vd_addr d < 2 ^ 63 ->
  blk_chain stack (S fuel) false desc n off st0 i data total s = Fault OutOfBounds.
Proof using quiet.
  intros d Hms Hd Hn Hi Hfl Ht Hln Had. unfold BLK_BUF in *. cbn [blk_chain]. rewrite (proj2 (Z.leb_gt _ _)) by lia.
  unfold sizeof_vring_desc in *. rewrite (wrap_id 64) by (unfold fits; lia).
  assert (E : copy_struct stack vring_desc_codec 2 (desc + i * 16) s = Ok (d, s)).
  { assert (W : xwp (copy_struct stack vring_desc_codec 2 (desc + i * 16)) (fun a s' => a = d /\ s' = s) s)
      by (apply copy_struct_spec; [lia..|done]).
    unfold xwp in W. destruct (copy_struct _ _ _ _ s) as [[a s']|]; [|done]. by destruct W as [-> ->]. }
  unfold mbind, X_bind. rewrite E, Hfl. cbn [negb].
  assert (Ew : u32 (total + vd_len d) = total + vd_len d - 2 ^ 32).
  { unfold wrap. symmetry. apply (Z.mod_unique_pos _ _ 1); lia. }
  rewrite Ew, (proj2 (Z.ltb_ge _ _)) by (unfold BLK_BUF; lia).
  assert (Es : blk_segment false off d data total (vd_len d) s = Fault OutOfBounds); [|by rewrite Es].
  assert (Ev : vio_in_guest (s <| x_ram ::= xguest_mem (x_trace s) |>) (vd_addr d) (vd_len d) = false).
  { unfold vio_in_guest, vio_guest_to_host. case_match; [|done]. rewrite (wrap_id 64) by (unfold fits; lia).
    apply Z.leb_gt. change (mem_size (upd x_ram _ s)) with (mem_size s). lia. }
  unfold blk_segment, vio_copy_from_guest, xguest, buf_read, mbind, X_bind, xgets, xmodify, id.
  rewrite Ev, (proj2 (Z.ltb_lt _ _)) by (unfold BLK_BUF; lia). done.
Qed.

(** A request of another type, such as a flush: the status byte goes over the
    request's header, not to the chain's status descriptor. *)
Theorem blk_other_request fuel desc used n head s :
  let h := desc_of (x_ram s) desc head in
  br_type (req_of (x_ram s) (vd_addr h)) <> VIO_BLK_T_IN -> br_type (req_of (x_ram s) (vd_addr h)) <> VIO_BLK_T_OUT ->
  mem_size s < 2 ^ 63 -> 0 < n -> 0 <= head < n -> 0 <= desc -> desc + n * sizeof_vring_desc <= mem_size s ->
  0 <= used -> used + 4 + 8 * n <= mem_size s -> 0 <= vd_addr h -> vd_addr h + 16 <= mem_size s ->
  xwp (blk_request stack fuel desc used n head) (fun r s' =>
    r = Some () /\ x_ram s' = used_push (mem_set (x_ram s) (vd_addr h) [0]) used n head 0) s.
Proof using quiet.
  intros h H0 H1 H63 Hn Hh Hd Hdn Hu Hun Ha Ham. unfold blk_request, sizeof_vring_desc in *.
  rewrite (wrap_id 64) by (unfold fits; lia). apply xwp_bind. apply copy_struct_spec; [lia..|].
  rewrite (Z.add_comm (head * _)). change (c_get vring_desc_codec _) with h. apply xwp_bind.
  apply copy_struct_spec; [lia..|]. change (c_get virtio_blk_req_codec _) with (req_of (x_ram s) (vd_addr h)).
  do 2 xwp_one. rewrite (proj2 (Z.eqb_neq _ _) H0), (proj2 (Z.eqb_neq _ _) H1). cbn [orb]. do 2 xwp_one.
  apply xwp_bind. xwp_use complete_spec; [lia..|]. intros [] s' ->. by apply xwp_ret.
Qed.
End request.
