(* ===== verification/ExIo.v ===== *)
(** * The example monitor's exits

    [serial_in], [serial_out], [vmm_handle_io], [vmm_handle_mmio] and the run
    loop [vcpu_thread] of docs/example-vmm/vmm.c.  An exit's data is the list of
    bytes KVM provides; an access past it is a fault. *)
From S2P Require Import Prelude Memory Codec State Snapshot Uart Run ExVmm ExIde ExBlk.
From stdpp Require Import options.

(** ** The serial port *)

Definition ex_dlab (u : ExUart) : bool := has_bits (uart_lcr u) 0x80.

Definition ex_serial_in (port : Z) (u : ExUart) : Z :=
  if port =? 0x3f8 then (if ex_dlab u then uart_dll u else 0)
  else if port =? 0x3f9 then (if ex_dlab u then uart_dlh u else uart_ier u)
  else if port =? 0x3fa then (if has_bits (uart_ier u) 0x02 then 0x02 else 0x01)
  else if port =? 0x3fb then uart_lcr u
  else if port =? 0x3fc then uart_mcr u
  else if port =? 0x3fd then uart_lsr u
  else if port =? 0x3fe then uart_msr u
  else if port =? 0x3ff then uart_scr u
  else 0.

Section io.
  Context {H : XHost}.

Definition ex_serial_out (port data : Z) : X unit :=
  s ← xgets id;
  let u := x_uart s in
  if port =? 0x3f8 then
    if ex_dlab u then xupd_uart (fun u => u <| uart_dll := data |>)
    else
      xsys_ (x_putchar data) ;;
      xwhen (has_bits (uart_ier u) 0x02) (xsys_ (x_irq_line (vm_fd s) 4 1))
  else if port =? 0x3f9 then
    if ex_dlab u then xupd_uart (fun u => u <| uart_dlh := data |>)
    else xupd_uart (fun u => u <| uart_ier := data |>)
  else if port =? 0x3fa then xupd_uart (fun u => u <| uart_fcr := data |>)
  else if port =? 0x3fb then xupd_uart (fun u => u <| uart_lcr := data |>)
  else if port =? 0x3fc then xupd_uart (fun u => u <| uart_mcr := data |>)
  else if port =? 0x3ff then xupd_uart (fun u => u <| uart_scr := data |>)
  else xskip.

(** ** Port accesses *)

Definition is_ide_port (port : Z) : bool :=
  (port =? 0x1f0) || ((0x1f1 <=? port) && (port <=? 0x1f7)) || (port =? 0x3f6).

(** [p + i * size] of the exit's data. *)
Definition io_item (data : list Z) (size i : Z) : X (list Z) :=
  match slice (i * size) size data with Some bs => mret bs | None => xfail OutOfBounds end.

(** One item of an OUT. *)
Definition io_out (port size : Z) (p : list Z) : X unit :=
  if is_serial_port port then xfor p (ex_serial_out port)
  else if is_ide_port port then ide_out port size p
  else if port =? 0xE9 then xfor p (fun b => xsys_ (x_fputc_err b))
  else xskip.

(** A store of [data] to the start of the object [old]. *)
Definition xcopy_into (old data : list Z) : X (list Z) :=
  match copy_into old data with Ok new => mret new | Fault f => xfail f end.

(** One item of an IN: the bytes it has afterwards. *)
Definition io_in (port size : Z) (p : list Z) : X (list Z) :=
  if is_serial_port port then
    u ← xgets x_uart;
    mret (replicate (length p) (ex_serial_in port u))
  else if is_ide_port port then
    bs ← ide_in port size;
    xcopy_into p bs
  else mret (replicate (length p) 0).

Fixpoint io_in_all (port size : Z) (data idxs : list Z) : X (list Z) :=
  match idxs with
  | [] => mret data
  | i :: idxs' =>
    p ← io_item data size i;
    q ← io_in port size p;
    io_in_all port size (overwrite (Z.to_nat (i * size)) q data) idxs'
  end.

(** The exit of vCPU [c]. *)
Definition xvcpu (c : Z) : X Vcpu :=
  s ← xgets id;
  match vcpus s !! Z.to_nat c with Some (Some v) => mret v | _ => xfail NullPointer end.

Definition xupd_vcpu (c : Z) (f : Vcpu -> Vcpu) : X unit :=
  xmodify (fun s => s <| vcpus ::= alter (fmap f) (Z.to_nat c) |>).

Definition vmm_handle_io (c : Z) : X unit :=
  v ← xvcpu c;
  match vc_exit v with
  | KVM_EXIT_IO is_out port size count data =>
    if (is_out : bool) then
      xfor (seqZ 0 count) (fun i => p ← io_item data size i; io_out port size p)
    else
      data' ← io_in_all port size data (seqZ 0 count);
      xupd_vcpu c (fun v => v <| vc_exit := KVM_EXIT_IO is_out port size count data' |>)
  | _ => xskip
  end.

(** ** Memory-mapped accesses *)

  Context (stack : xtrace -> Z -> mem).

Definition in_vio_region (addr : Z) : bool :=
  (VIO_MMIO_BASE <=? addr) && (addr <? VIO_MMIO_BASE + VIO_MMIO_SIZE).

Definition vmm_handle_mmio (chain fuel : nat) (c : Z) : X (option unit) :=
  v ← xvcpu c;
  match vc_exit v with
  | KVM_EXIT_MMIO addr len is_write data =>
    let set_data d := xupd_vcpu c (fun v => v <| vc_exit := KVM_EXIT_MMIO addr len is_write d |>) in
    if in_vio_region addr then
      let off := addr - VIO_MMIO_BASE in
      if (is_write : bool) then
        match slice 0 len data with
        | Some bs => ex_virtio_mmio_write stack chain fuel off (le_dec bs)
        | None => xfail OutOfBounds
        end
      else
        val ← ex_virtio_mmio_read off len;
        new ← xcopy_into data (le_enc (Z.to_nat (Z.min len 8)) val);
        set_data new ;;
        mret (Some ())
    else
      xwhen (negb is_write && (len <=? 8)) (new ← xcopy_into data (zeros len); set_data new) ;;
      mret (Some ())
  | _ => mret (Some ())
  end.

(** ** The run loop *)

Definition KVM_EXIT_IRQ_WINDOW_OPEN : Z := 7.
Definition KVM_EXIT_INTR : Z := 10.

(** KVM_RUN of vCPU [c]: the guest may change RAM, and leaves its exit. *)
Definition xenter (c : Z) : X reply :=
  v ← xvcpu c;
  r ← xsys (x_kvm_run (vc_fd v));
  t ← xgets x_trace;
  xguest ;;
  xupd_vcpu c (fun v => v <| vc_exit ::= xguest_exit t c |>) ;;
  mret r.

(** What is done for an exit; an exit that stops the vCPU clears [running]. *)
Definition xhandle_exit (chain fuel : nat) (c : Z) (e : kvm_exit) : X (option unit) :=
  match e with
  | KVM_EXIT_IO _ _ _ _ _ => vmm_handle_io c ;; mret (Some ())
  | KVM_EXIT_MMIO _ _ _ _ => vmm_handle_mmio chain fuel c
  | KVM_EXIT_OTHER reason =>
    (if (reason =? KVM_EXIT_INTR) || (reason =? KVM_EXIT_IRQ_WINDOW_OPEN) then xskip
     else xupd_vcpu c (fun v => v <| vc_running := false |>)) ;;
    mret (Some ())
  | _ => xupd_vcpu c (fun v => v <| vc_running := false |>) ;; mret (Some ())
  end.

(** One pass of the loop: [Some true] to go on, [None] when a queue was not
    processed within the fuel. *)
Definition vcpu_pass (chain fuel : nat) (c : Z) : X (option bool) :=
  r ← xenter c;
  if r_ret r <? 0 then mret (Some false) else
  v ← xvcpu c;
  h ← xhandle_exit chain fuel c (vc_exit v);
  match h with
  | None => mret None
  | Some _ => v ← xvcpu c; mret (Some (vc_running v))
  end.

Fixpoint vcpu_loop (passes chain fuel : nat) (c : Z) : X (option unit) :=
  match passes with
  | O => mret None
  | S passes' =>
    r ← vcpu_pass chain fuel c;
    match r with
    | None => mret None
    | Some true => vcpu_loop passes' chain fuel c
    | Some false => mret (Some ())
    end
  end.
End io.
