(* ===== verification/ExIoFacts.v ===== *)
(** * The example monitor's serial port, next to the main monitor's *)
From S2P Require Import Prelude Memory Codec State Logic Uart Snapshot Run ExVmm ExIde ExBlk ExIo.
From stdpp Require Import options.

(** An access of the guest to the serial port. *)
Inductive serial_op : Type := SOut (port data : Z) | SIn (port : Z).

Section run.
  Context {H : Host} {XH : XHost}.

(** The values read, for the main monitor and for the example. *)
Fixpoint main_serial (ops : list serial_op) : M (list Z) :=
  match ops with
  | [] => mret []
  | SOut port data :: ops' => serial_out port data ;; main_serial ops'
  | SIn port :: ops' => u ← gets uart_; rest ← main_serial ops'; mret (serial_in port u :: rest)
  end.

Fixpoint ex_serial (ops : list serial_op) : X (list Z) :=
  match ops with
  | [] => mret []
  | SOut port data :: ops' => ex_serial_out port data ;; ex_serial ops'
  | SIn port :: ops' => u ← xgets x_uart; rest ← ex_serial ops'; mret (ex_serial_in port u :: rest)
  end.
End run.

(** The same registers, but for the modem status, which no one writes. *)
Definition same_uart (u : Uart) (v : ExUart) : Prop :=
  uart_ier_ u = uart_ier v /\ uart_lcr_ u = uart_lcr v /\ uart_mcr_ u = uart_mcr v /\ uart_lsr_ u = uart_lsr v /\
  uart_scr_ u = uart_scr v /\ uart_dll_ u = uart_dll v /\ uart_dlh_ u = uart_dlh v /\ uart_fcr_ u = uart_fcr v.

(** The bytes put on standard output one by one. *)
Definition ex_stdout (t : xtrace) : list Z := omap (fun e => match e.1 with x_putchar c => Some c | _ => None end) t.

Lemma ex_stdout_snoc t c r : ex_stdout (t ++ [(c, r)]) = ex_stdout t ++ match c with x_putchar b => [b] | _ => [] end.
Proof. unfold ex_stdout. rewrite omap_app. by destruct c. Qed.
Global Arguments ex_stdout : simpl never.

Lemma console_app buf b1 b2 :
  console buf (b1 ++ b2) = let '(l1, r1) := console buf b1 in let '(l2, r2) := console r1 b2 in (l1 ++ l2, r2).
Proof.
  revert buf. induction b1 as [|b b1 IH]; intros buf; cbn [app console]; [by destruct (console buf b2)|].
  destruct (b =? NEWLINE); rewrite IH; [|done]. destruct (console [] b1) as [l1 r1]. by destruct (console r1 b2).
Qed.

(** The values the two monitors read in a sequence of accesses: the same, but for
    the modem status, which no access changes and each reads as it started with. *)
Fixpoint reads_agree (msr ex_msr : Z) (ops : list serial_op) (rs' rs : list Z) : Prop :=
  match ops, rs', rs with
  | [], [], [] => True
  | SOut _ _ :: ops', _, _ => reads_agree msr ex_msr ops' rs' rs
  | SIn port :: ops', r' :: rs', r :: rs =>
      (if port =? 0x3fe then r' = msr /\ r = ex_msr else r' = r) /\ reads_agree msr ex_msr ops' rs' rs
  | _, _, _ => False
  end.

Lemma serial_in_same u v port : same_uart u v -> 
  if port =? 0x3fe then serial_in port u = uart_msr_ u /\ ex_serial_in port v = uart_msr v
  else serial_in port u = ex_serial_in port v.
Proof.
  intros (E1 & E2 & E3 & E4 & E5 & E6 & E7 & E8). destruct (Z.eqb_spec port 0x3fe) as [->|Hp]; [done|].
  unfold serial_in, ex_serial_in, dlab, ex_dlab.
  rewrite E1, E2, E3, E4, E5, E6, E7. by rewrite (proj2 (Z.eqb_neq port 0x3fe)).
Qed.

Section facts.
  Context {H : Host} {XH : XHost}.

(** One OUT: the main monitor's console gets the bytes the example puts out. *)
Lemma serial_out_same s x port data :
  same_uart (uart_ s) (x_uart x) ->
  xwp (ex_serial_out port data) (fun _ x' => exists sent, ex_stdout (x_trace x') = ex_stdout (x_trace x) ++ sent /\
    uart_msr (x_uart x') = uart_msr (x_uart x) /\
    wp (serial_out port data) (fun _ s' => same_uart (uart_ s') (x_uart x') /\
      uart_msr_ (uart_ s') = uart_msr_ (uart_ s) /\
      let '(ls, rest) := console (serial_line_buf_ (con_ s)) sent in
      stdout_lines (trace_ s') = stdout_lines (trace_ s) ++ ls /\ serial_line_buf_ (con_ s') = rest) s) x.
Proof.
  intros E. pose proof E as (E1 & E2 & E3 & E4 & E5 & E6 & E7 & E8).
  assert (Hx : ex_dlab (x_uart x) = dlab (uart_ s)) by (unfold ex_dlab, dlab; by rewrite E2).
  destruct (decide (port = 0x3f8 /\ dlab (uart_ s) = false)) as [[-> Hd]|Hn].
  - unfold ex_serial_out. xwp_one. xwp_one. cbv zeta. unfold id. rewrite Hx, Hd. cbv iota.
    change (0x3f8 =? 0x3f8) with true. cbv iota.
    assert (G : forall x', x_uart x' = x_uart x -> ex_stdout (x_trace x') = ex_stdout (x_trace x) ++ [data] -> exists sent,
      ex_stdout (x_trace x') = ex_stdout (x_trace x) ++ sent /\
      uart_msr (x_uart x') = uart_msr (x_uart x) /\
      wp (serial_out 0x3f8 data) (fun _ s' => same_uart (uart_ s') (x_uart x') /\
        uart_msr_ (uart_ s') = uart_msr_ (uart_ s) /\
        let '(ls, rest) := console (serial_line_buf_ (con_ s)) sent in
        stdout_lines (trace_ s') = stdout_lines (trace_ s) ++ ls /\ serial_line_buf_ (con_ s') = rest) s).
    { intros x' Ex Ho. exists [data]. split; [done|]. split; [by rewrite Ex|]. wp_use (serial_out_thr s data Hd). intros _ s'. destruct (console _ _) as [ls rest].
      intros (Hu & Ho' & Hb & _). rewrite Hu, Ex. done. }
    xwp_run; apply G; (done || (cbn; by rewrite ?ex_stdout_snoc, ?app_nil_r)).
  - unfold ex_serial_out. xwp_one. xwp_one. cbv zeta. unfold id. rewrite Hx.
    xwp_run; try (by destruct Hn; split; [apply Z.eqb_eq|]); (exists []; split; [by rewrite app_nil_r|split; [done|]]); unfold serial_out; wp_run;
      try congruence; unwind; (split; [unfold same_uart; by split_and!|split; [done|]]; cbn; by rewrite app_nil_r).
Qed.

(** C21: the serial port is the main monitor's, but for one register.  From the
    same registers (the modem status apart), any sequence of accesses by the guest
    reads the same values from both monitors, except that a read of the modem
    status at 0x3fe gives each monitor's own constant (0xb0 and 0xf0 from
    start-up); it leaves the same registers; and what the example puts on standard
    output, byte by byte, is exactly what the main monitor's console gets and
    prints as lines. *)
Theorem ex_serial_like_main ops s x :
  same_uart (uart_ s) (x_uart x) ->
  xwp (ex_serial ops) (fun rs x' => exists sent, ex_stdout (x_trace x') = ex_stdout (x_trace x) ++ sent /\
    wp (main_serial ops) (fun rs' s' =>
      reads_agree (uart_msr_ (uart_ s)) (uart_msr (x_uart x)) ops rs' rs /\ same_uart (uart_ s') (x_uart x') /\
      let '(ls, rest) := console (serial_line_buf_ (con_ s)) sent in
      stdout_lines (trace_ s') = stdout_lines (trace_ s) ++ ls /\ serial_line_buf_ (con_ s') = rest) s) x.
Proof.
  intros E. revert s x E. induction ops as [|op ops IH]; intros s x E.
  { apply xwp_ret. exists []. rewrite app_nil_r. split; [done|]. cbn. by rewrite app_nil_r. }
  destruct op as [port data|port]; cbn [ex_serial main_serial].
  - apply xwp_bind. eapply xwp_mono; [by apply serial_out_same|]. cbv beta. intros [] x1 (b1 & O1 & M1 & W1).
    (* the main monitor's state after the first access *)
    apply wp_ok in W1 as ([] & s1 & R1 & E1 & M1' & C1). eapply xwp_mono; [by apply IH|]. cbv beta. intros rs x2 (b2 & O2 & W2).
    exists (b1 ++ b2). split; [by rewrite O2, O1, app_assoc|]. apply wp_bind. unfold wp at 1. rewrite R1.
    eapply wp_mono; [exact W2|]. cbv beta. rewrite M1, M1'. intros rs' s2 (Hrs & E2 & C2). split; [done|]. split; [done|]. rewrite console_app.
    destruct (console (serial_line_buf_ (con_ s)) b1) as [l1 r1]. destruct C1 as [C1 <-]. destruct (console (serial_line_buf_ (con_ s1)) b2) as [l2 r2].
    destruct C2 as [C2 ->]. by rewrite C2, C1, app_assoc.
  - do 2 xwp_one. apply xwp_bind. eapply xwp_mono; [by apply IH|]. cbv beta. intros rs x1 (b & O & W). apply xwp_ret. exists b.
    split; [done|]. wp_one. wp_one. apply wp_bind. eapply wp_mono; [exact W|]. cbv beta. intros rs' s1 (Hrs & E1 & C1). apply wp_ret.
    split; [|done]. split; [|exact Hrs]. pose proof (serial_in_same _ _ port E) as Hin. by destruct (port =? 0x3fe).
Qed.
End facts.
