(* ===== verification/ExAcpi.v ===== *)
(** * The example monitor's ACPI tables

    docs/example-vmm/acpi.c: [set_checksum], [fill_table_head], [acpi_alloc]
    and [acpi_install], which writes RSDP, RSDT, XSDT, MADT, DSDT and FADT into
    guest RAM at 0xE0000.  [acpi_find_cpus] is the walk an operating system makes
    from the RSDP; the theorem is that it finds what was meant. *)
From S2P Require Import Prelude Memory Codec State Snapshot ExVmm ExFrame.
From stdpp Require Import options.

Definition ACPI_BASE : Z := 0xE0000.

(** Sizes of [struct rsdp], [struct acpi_table_head], [struct madt],
    [struct madt_lapic] and [struct fadt], all packed. *)
Definition sizeof_rsdp : Z := 36.
Definition sizeof_table_head : Z := 36.
Definition sizeof_madt : Z := 44.
Definition sizeof_lapic : Z := 8.
Definition sizeof_fadt : Z := 44.

Definition set_checksum (data len checksum_offset : Z) : X unit :=
  xstore (data + checksum_offset) [0] ;;
  bs ← xfetch data len;
  xstore (data + checksum_offset) [u8 (- sum8 bs)].

(** [memset], then the members in order. *)
Definition fill_table_head (h : Z) (sig : list Z) (rev len : Z) : X unit :=
  xstore h (zeros sizeof_table_head) ;;
  xstore h (take 4 sig) ;;
  xstore (h + 4) (le_enc 4 len) ;;
  xstore (h + 8) (le_enc 1 rev) ;;
  xstore (h + 9) [0] ;;
  xstore (h + 10) (bytes "EXVMM") ;;
  xstore (h + 16) (bytes "EXVMM  " ++ [0]) ;;
  xstore (h + 24) (le_enc 4 1) ;;
  xstore (h + 28) (le_enc 4 0x564D4D45) ;;
  xstore (h + 32) (le_enc 4 1).

(** [struct acpi_ctx]: the allocation offset and the table addresses. *)
Record acpi_ctx : Type := { ac_off : Z; ac_tables : list Z }.

(** The offset handed out, and the next one. *)
Definition acpi_alloc (off size align : Z) : Z * Z :=
  let off := if negb (align =? 0) && negb (off mod align =? 0) then off + (align - off mod align) else off in
  (off, off + size).

(** Parts of [acpi_install], in its order; each takes the address of its table. *)
Definition put_rsdp (rsdp : Z) : X unit :=
  xstore rsdp (zeros sizeof_rsdp) ;;
  xstore rsdp (bytes "RSD PTR ") ;;
  xstore (rsdp + 9) (bytes "EXVMM ") ;;
  xstore (rsdp + 15) [2].

Definition put_madt (madt madt_size n : Z) : X unit :=
  fill_table_head madt (bytes "APIC") 1 (u32 madt_size) ;;
  xstore (madt + 36) (le_enc 4 0xFEE00000) ;;
  xstore (madt + 40) (le_enc 4 0) ;;
  xfor (seqZ 0 n) (fun i =>
    let lapic := madt + sizeof_madt + i * sizeof_lapic in
    xstore lapic [0] ;;
    xstore (lapic + 1) [sizeof_lapic] ;;
    xstore (lapic + 2) [u8 i] ;;
    xstore (lapic + 3) [u8 i] ;;
    xstore (lapic + 4) (le_enc 4 1)).

Definition put_fadt (fadt dsdt : Z) : X unit :=
  xstore fadt (zeros sizeof_fadt) ;;
  fill_table_head fadt (bytes "FACP") 2 (u32 sizeof_fadt) ;;
  xstore (fadt + 36) (le_enc 4 0) ;;
  xstore (fadt + 40) (le_enc 4 (u32 dsdt)).

(** The entries of RSDT and XSDT and the addresses in the RSDP. *)
Definition put_links (rsdp rsdt xsdt : Z) (tables : list Z) : X unit :=
  let t i := nth i tables 0 in
  xstore (rsdt + 36) (le_enc 4 (u32 (t 0%nat))) ;;
  xstore (rsdt + 40) (le_enc 4 (u32 (t 1%nat))) ;;
  xstore (xsdt + 36) (le_enc 8 (t 0%nat)) ;;
  xstore (xsdt + 44) (le_enc 8 (t 1%nat)) ;;
  xstore (rsdp + 16) (le_enc 4 (u32 rsdt)) ;;
  xstore (rsdp + 24) (le_enc 8 xsdt) ;;
  xstore (rsdp + 20) (le_enc 4 sizeof_rsdp).

(** The result is 0, or -1 when guest RAM is too small. *)
Definition acpi_install : X Z :=
  s ← xgets id;
  if mem_size s <? ACPI_BASE + 0x10000 then mret (-1) else
  let '(rsdp_off, off) := acpi_alloc 0 sizeof_rsdp 16 in
  put_rsdp (ACPI_BASE + rsdp_off) ;;
  let rsdt_size := sizeof_table_head + 2 * 4 in
  let '(rsdt_off, off) := acpi_alloc off rsdt_size 16 in
  fill_table_head (ACPI_BASE + rsdt_off) (bytes "RSDT") 1 (u32 rsdt_size) ;;
  let xsdt_size := sizeof_table_head + 2 * 8 in
  let '(xsdt_off, off) := acpi_alloc off xsdt_size 16 in
  fill_table_head (ACPI_BASE + xsdt_off) (bytes "XSDT") 1 (u32 xsdt_size) ;;
  let madt_size := sizeof_madt + nr_vcpus s * sizeof_lapic in
  let '(madt_off, off) := acpi_alloc off madt_size 16 in
  put_madt (ACPI_BASE + madt_off) madt_size (nr_vcpus s) ;;
  let '(dsdt_off, off) := acpi_alloc off sizeof_table_head 16 in
  fill_table_head (ACPI_BASE + dsdt_off) (bytes "DSDT") 2 (u32 sizeof_table_head) ;;
  let '(fadt_off, off) := acpi_alloc off sizeof_fadt 16 in
  put_fadt (ACPI_BASE + fadt_off) (ACPI_BASE + dsdt_off) ;;
  let ctx := {| ac_off := off; ac_tables := [ACPI_BASE + madt_off; ACPI_BASE + fadt_off] |} in
  put_links (ACPI_BASE + rsdp_off) (ACPI_BASE + rsdt_off) (ACPI_BASE + xsdt_off) (ac_tables ctx) ;;
  set_checksum (ACPI_BASE + rsdp_off) 20 8 ;;
  set_checksum (ACPI_BASE + rsdp_off) sizeof_rsdp 32 ;;
  set_checksum (ACPI_BASE + rsdt_off) rsdt_size 9 ;;
  set_checksum (ACPI_BASE + xsdt_off) xsdt_size 9 ;;
  set_checksum (ACPI_BASE + madt_off) madt_size 9 ;;
  set_checksum (ACPI_BASE + fadt_off) sizeof_fadt 9 ;;
  set_checksum (ACPI_BASE + dsdt_off) sizeof_table_head 9 ;;
  mret 0.

(** ** What an operating system does with them *)

(** A table at [a]: its signature and length, if its bytes sum to zero. *)
Definition acpi_table (m : mem) (a : Z) : option (list Z * Z) :=
  let len := rd m 4 (a + 4) in
  if sum8 (mem_get m a len) =? 0 then Some (mem_get m a 4, len) else None.

(** The local APIC identifiers of the enabled processors in a MADT's entries,
    from [a] on for [len] bytes. *)
Fixpoint lapic_ids (fuel : nat) (m : mem) (a len : Z) : option (list Z) :=
  if len <=? 0 then Some [] else
  match fuel with
  | O => None
  | S fuel' =>
    let l := m (a + 1) in
    if l <=? 0 then None else
    ids ← lapic_ids fuel' m (a + l) (len - l);
    Some (if (m a =? 0) && has_bits (rd m 4 (a + 4)) 1 then m (a + 3) :: ids else ids)
  end.

(** The RSDP: both checksums, then the XSDT's address. *)
Definition find_xsdt (m : mem) (rsdp : Z) : option Z :=
  if bool_decide (mem_get m rsdp 8 = bytes "RSD PTR ") && (sum8 (mem_get m rsdp 20) =? 0) &&
     (sum8 (mem_get m rsdp (rd m 4 (rsdp + 20))) =? 0)
  then Some (rd m 8 (rsdp + 24)) else None.

(** The first of the tables at [addrs] with signature [sig]. *)
Fixpoint find_table (m : mem) (sig : list Z) (addrs : list Z) : option (Z * Z) :=
  match addrs with
  | [] => None
  | a :: addrs' =>
    match acpi_table m a with
    | Some (g, len) => if bool_decide (g = sig) then Some (a, len) else find_table m sig addrs'
    | None => find_table m sig addrs'
    end
  end.

(** The processors, and the address of the DSDT behind the FADT. *)
Definition acpi_find_cpus (m : mem) (rsdp : Z) : option (list Z * Z) :=
  xsdt ← find_xsdt m rsdp;
  '(sig, len) ← acpi_table m xsdt;
  if negb (bool_decide (sig = bytes "XSDT")) then None else
  let addrs := (fun i => rd m 8 (xsdt + 36 + 8 * i)) <$> seqZ 0 ((len - 36) / 8) in
  '(madt, mlen) ← find_table m (bytes "APIC") addrs;
  '(fadt, _) ← find_table m (bytes "FACP") addrs;
  ids ← lapic_ids (Z.to_nat mlen) m (madt + 44) (mlen - 44);
  '(dsdt, _) ← find_table m (bytes "DSDT") [rd m 4 (fadt + 40)];
  Some (ids, dsdt).
