(* ===== verification/ExAcpiFacts.v ===== *)
(** * What an operating system finds in the example monitor's ACPI tables *)
From S2P Require Import Prelude Memory Codec State Snapshot ExVmm ExFrame ExAcpi.
From stdpp Require Import options.

Lemma set_checksum_step a len off Q s :
  0 <= a -> 0 <= off < len -> a + len <= mem_size s ->
  (forall s', wrote (a + off) 1 s s' -> sum8 (mem_get (x_ram s') a len) = 0 -> Q () s') ->
  xwp (set_checksum a len off) Q s.
Proof.
  intros Ha Ho Hs HQ. unfold set_checksum. apply xwp_bind, xwp_store; [lia|cbn; lia|].
  apply xwp_bind, xwp_fetch; [cbn; lia..|]. apply xwp_store; [lia|cbn; lia|]. apply HQ.
  - eexists. split; [done|]. intros x Hx. cbn. rewrite !mem_set_outside by (cbn; lia). done.
  - by apply (checksum_zero (x_ram s)).
Qed.

Lemma fill_table_head_step h sig rev len Q s :
  0 <= h -> h + 36 <= mem_size s -> length sig = 4%nat ->
  (forall s', wrote h 36 s s' -> mem_get (x_ram s') h 4 = sig -> mem_get (x_ram s') (h + 4) 4 = le_enc 4 len -> Q () s') ->
  xwp (fill_table_head h sig rev len) Q s.
Proof.
  intros Hh Hs Hl HQ. unfold fill_table_head. rewrite take_ge by lia.
  put W0 E0. apply xwp_bind, (store_step 4); [lia|lia|lia|]. intros s1 W1 Es. pose proof (wrote_size _ _ _ _ W1).
  put W2 El. put W3 E3. put W4 E4. put W5 E5. put W6 E6. put W7 E7. put W8 E8. put W9 E9.
  apply HQ; [wrote_chain|done..].
Qed.

Lemma put_rsdp_step a Q s :
  0 <= a -> a + 36 <= mem_size s ->
  (forall s', wrote a 36 s s' -> mem_get (x_ram s') a 8 = bytes "RSD PTR " -> Q () s') -> xwp (put_rsdp a) Q s.
Proof.
  intros Ha Hs HQ. unfold put_rsdp. put W0 E0. put W1 Es. put W2 E2. put W3 E3. apply HQ; [wrote_chain|done].
Qed.

(** The entry of processor [i]. *)
Definition lapic_entry (i : Z) : list Z := [0; 8; u8 i; u8 i; 1; 0; 0; 0].

Definition lapic_entries (i k : Z) : list Z := mjoin (lapic_entry <$> seqZ i k).

Lemma lapic_step a i Q s :
  0 <= a -> a + 8 <= mem_size s ->
  (forall s', wrote a 8 s s' -> mem_get (x_ram s') a 8 = lapic_entry i -> Q () s') ->
  xwp (xstore a [0] ;; xstore (a + 1) [sizeof_lapic] ;; xstore (a + 2) [u8 i] ;; xstore (a + 3) [u8 i] ;;
       xstore (a + 4) (le_enc 4 1)) Q s.
Proof.
  intros Ha Hs HQ. put W0 E0. put W1 E1. put W2 E2. put W3 E3. put W4 E4. apply HQ; [wrote_chain|].
  change (lapic_entry i) with ([0] ++ [sizeof_lapic] ++ [u8 i] ++ [u8 i] ++ le_enc 4 1). glue E0. glue E1. glue E2. glue E3. glue E4.
Qed.

Lemma put_madt_step a size n Q s :
  0 <= a -> 0 <= n -> size = 44 + n * 8 -> a + size <= mem_size s ->
  (forall s', wrote a size s s' -> mem_get (x_ram s') a 4 = bytes "APIC" ->
     mem_get (x_ram s') (a + 4) 4 = le_enc 4 (u32 size) ->
     mem_get (x_ram s') (a + 44) (n * 8) = lapic_entries 0 n -> Q () s') ->
  xwp (put_madt a size n) Q s.
Proof.
  intros Ha Hn Hsz Hs HQ. unfold put_madt, sizeof_madt, sizeof_lapic. apply xwp_bind.
  apply fill_table_head_step; [lia|lia|done|]. intros s1 W1 Es El. pose proof (wrote_size _ _ _ _ W1).
  put W2 E2. put W3 E3. apply (table_loop _ lapic_entry (a + 44) 8); [lia..| |].
  - intros i s' Q' Hi Hs' HQ'. cbv zeta. by apply (lapic_step (a + 44 + i * 8) i); [lia..|].
  - intros s' W HI. frame W. apply HQ; [wrote_chain|done..].
Qed.

Lemma put_fadt_step a dsdt Q s :
  0 <= a -> a + 44 <= mem_size s ->
  (forall s', wrote a 44 s s' -> mem_get (x_ram s') a 4 = bytes "FACP" ->
     mem_get (x_ram s') (a + 4) 4 = le_enc 4 44 -> mem_get (x_ram s') (a + 40) 4 = le_enc 4 (u32 dsdt) -> Q () s') ->
  xwp (put_fadt a dsdt) Q s.
Proof.
  intros Ha Hs HQ. unfold put_fadt. put W0 E0. apply xwp_bind. apply fill_table_head_step; [lia|lia|done|].
  intros s1 W1 Es El. pose proof (wrote_size _ _ _ _ W1). put W2 E2. put W3 E3. apply HQ; [wrote_chain|done..].
Qed.

(** ** The walk *)

Lemma lapic_ids_spec m k fuel a i :
  (k <= fuel)%nat -> mem_get m a (Z.of_nat k * 8) = lapic_entries i (Z.of_nat k) ->
  lapic_ids fuel m a (Z.of_nat k * 8) = Some (wrap 8 <$> seqZ i (Z.of_nat k)).
Proof.
  revert fuel a i. induction k as [|k IH]; intros fuel a i Hf He.
  { by destruct fuel. }
  destruct fuel as [|fuel]; [lia|]. cbn [lapic_ids]. rewrite (proj2 (Z.leb_gt _ _)) by lia.
  replace (Z.of_nat (S k) * 8) with (8 + Z.of_nat k * 8) in He by lia. rewrite mem_get_app in He by lia.
  unfold lapic_entries in He. rewrite seqZ_cons, fmap_cons in He by lia. replace (Z.pred (Z.of_nat (S k))) with (Z.of_nat k) in He by lia.
  change (mjoin (?x :: ?l)) with (x ++ mjoin l) in He. apply app_inj_1 in He as [E He]; [|by rewrite mem_get_length].
  pose proof (mem_get_at _ _ _ _ 0 E ltac:(lia)) as B0. pose proof (mem_get_at _ _ _ _ 1 E ltac:(lia)) as B1.
  pose proof (mem_get_at _ _ _ _ 3 E ltac:(lia)) as B3. cbn [Z.of_nat lapic_entry nth] in B0, B1, B3.
  rewrite Z.add_0_r in B0. change (Z.of_nat 1) with 1 in B1. change (Z.of_nat 3) with 3 in B3.
  rewrite B0, B1, B3. change (8 <=? 0) with false. cbv iota.
  replace (Z.of_nat (S k) * 8 - 8) with (Z.of_nat k * 8) by lia. rewrite (IH fuel (a + 8) (Z.succ i)); [|lia|done].
  cbn [mbind option_bind]. rewrite (seqZ_cons i) by lia. rewrite fmap_cons.
  assert (Hfl : rd m 4 (a + 4) = 1).
  { apply (rd_enc _ 4); [|done]. change 8 with (4 + 4) in E. rewrite mem_get_app in E by lia.
    apply (f_equal (drop 4)) in E. by rewrite drop_app_length' in E by (by rewrite mem_get_length). }
  rewrite Hfl. by replace (Z.pred (Z.of_nat (S k))) with (Z.of_nat k) by lia.
Qed.

Lemma acpi_table_ok m a sig len :
  mem_get m a 4 = sig -> mem_get m (a + 4) 4 = le_enc 4 len -> fits 32 len -> sum8 (mem_get m a len) = 0 ->
  acpi_table m a = Some (sig, len).
Proof. intros Es El Hf Hz. unfold acpi_table. rewrite (rd_enc _ 4 _ _ El Hf), Hz, Es. done. Qed.

(** What the tables hold once they are written: signatures, lengths, links,
    checksums and the processor entries. *)
Record acpi_layout (m : mem) (n dsdt fadt : Z) : Prop := {
  al_rsdp_sig : mem_get m 0xE0000 8 = bytes "RSD PTR ";
  al_rsdp_sum : sum8 (mem_get m 0xE0000 20) = 0;
  al_rsdp_len : mem_get m 0xE0014 4 = le_enc 4 36;
  al_rsdp_ext : sum8 (mem_get m 0xE0000 36) = 0;
  al_rsdp_xsdt : mem_get m 0xE0018 8 = le_enc 8 0xE0060;
  al_xsdt : acpi_table m 0xE0060 = Some (bytes "XSDT", 52);
  al_xsdt_0 : mem_get m 0xE0084 8 = le_enc 8 0xE00A0;
  al_xsdt_1 : mem_get m 0xE008C 8 = le_enc 8 fadt;
  al_madt : acpi_table m 0xE00A0 = Some (bytes "APIC", 44 + n * 8);
  al_cpus : mem_get m 0xE00CC (n * 8) = lapic_entries 0 n;
  al_fadt : acpi_table m fadt = Some (bytes "FACP", 44);
  al_fadt_dsdt : mem_get m (fadt + 40) 4 = le_enc 4 dsdt;
  al_dsdt : acpi_table m dsdt = Some (bytes "DSDT", 36);
  al_rsdt : acpi_table m 0xE0030 = Some (bytes "RSDT", 44)
}.

Lemma acpi_alloc_16 off size :
  0 <= off -> exists p, acpi_alloc off size 16 = (p, p + size) /\ off <= p < off + 16.
Proof.
  intros Ho. unfold acpi_alloc. cbn [Z.eqb negb andb]. eexists. split; [reflexivity|].
  pose proof (Z.mod_pos_bound off 16). destruct (Z.eqb_spec (off mod 16) 0); cbn; lia.
Qed.

Ltac checksum W E :=
  apply xwp_bind, set_checksum_step; [lia|lia|lia|];
  let s' := fresh "s" in intros s' W E; frame W; pose proof (wrote_size _ _ _ _ W).

Lemma acpi_install_spec s :
  0xF0000 <= mem_size s -> 1 <= nr_vcpus s <= 8152 ->
  xwp acpi_install (fun r s' => r = 0 /\ wrote 0xE0000 0x10000 s s' /\
    exists dsdt fadt, acpi_layout (x_ram s') (nr_vcpus s) dsdt fadt /\
      0xE00CC + nr_vcpus s * 8 <= dsdt /\ dsdt + 36 <= fadt /\ fadt + 44 <= 0xF0000) s.
Proof.
  intros Hs Hn. unfold acpi_install. do 2 xwp_one. unfold id, ACPI_BASE. rewrite (proj2 (Z.ltb_ge _ _)) by lia.
  change (acpi_alloc 0 sizeof_rsdp 16) with (0, 36). apply xwp_bind. apply put_rsdp_step; [lia..|].
  intros s1 W1 Rs. pose proof (wrote_size _ _ _ _ W1). cbv zeta.
  change (acpi_alloc 36 (sizeof_table_head + 2 * 4) 16) with (48, 92). apply xwp_bind.
  apply fill_table_head_step; [lia|lia|done|]. intros s2 W2 Ts Tl. frame W2. pose proof (wrote_size _ _ _ _ W2).
  change (acpi_alloc 92 (sizeof_table_head + 2 * 8) 16) with (96, 148). apply xwp_bind.
  apply fill_table_head_step; [lia|lia|done|]. intros s3 W3 Xs Xl. frame W3. pose proof (wrote_size _ _ _ _ W3).
  unfold sizeof_madt, sizeof_lapic. set (n := nr_vcpus s) in *. set (msz := 44 + n * 8).
  change (acpi_alloc 148 msz 16) with (160, 160 + msz). apply xwp_bind. apply put_madt_step; [lia|lia|done|lia|].
  intros s4 W4 Ms Ml Mi. frame W4. pose proof (wrote_size _ _ _ _ W4).
  destruct (acpi_alloc_16 (160 + msz) sizeof_table_head) as (D & -> & HD); [lia|]. cbv iota beta.
  unfold sizeof_table_head. apply xwp_bind. apply fill_table_head_step; [lia|lia|done|].
  intros s5 W5 Ds Dl. frame W5. pose proof (wrote_size _ _ _ _ W5).
  destruct (acpi_alloc_16 (D + 36) sizeof_fadt) as (F & -> & HF); [lia|]. cbv iota beta.
  apply xwp_bind. apply put_fadt_step; [lia..|]. intros s6 W6 Fs Fl Fd. frame W6. pose proof (wrote_size _ _ _ _ W6).
  apply xwp_bind. unfold put_links. cbn [ac_tables nth]. put V0 K0. put V1 K1. put V2 K2. put V3 K3. put V4 K4. put V5 K5. put V6 K6.
  checksum C0 Y0. unfold sizeof_rsdp. checksum C1 Y1. checksum C2 Y2. checksum C3 Y3. checksum C4 Y4.
  unfold sizeof_fadt. checksum C5 Y5. checksum C6 Y6. apply xwp_ret. split; [done|]. split; [wrote_chain|].
  exists (0xE0000 + D), (0xE0000 + F).
  assert (U : forall x, 0 <= x < 0x100000 -> u32 x = x) by (intros x Hx; apply wrap_id; unfold fits; lia).
  rewrite U in Ml, Fd by lia.
  split; [|lia]. split; try done.
  - by apply acpi_table_ok.
  - apply acpi_table_ok; [done..|unfold fits; lia|done].
  - by apply acpi_table_ok.
  - by apply acpi_table_ok.
  - by apply acpi_table_ok.
Qed.

Lemma find_table_hit m sig len a addrs : acpi_table m a = Some (sig, len) -> find_table m sig (a :: addrs) = Some (a, len).
Proof. intros E. cbn [find_table]. by rewrite E, bool_decide_eq_true_2. Qed.

Lemma find_table_miss m sig g len a addrs :
  acpi_table m a = Some (g, len) -> g <> sig -> find_table m sig (a :: addrs) = find_table m sig addrs.
Proof. intros E Hg. cbn [find_table]. by rewrite E, bool_decide_eq_false_2. Qed.

Lemma find_cpus_ok m n dsdt fadt :
  acpi_layout m n dsdt fadt -> 1 <= n <= 8152 -> 0 <= dsdt < 2 ^ 32 -> 0 <= fadt < 2 ^ 32 ->
  acpi_find_cpus m 0xE0000 = Some (wrap 8 <$> seqZ 0 n, dsdt).
Proof.
  intros [R1 R2 R3 R4 R5 X X0 X1 M C F FD DS _] Hn Hd Hf.
  assert (EX : find_xsdt m 0xE0000 = Some 0xE0060).
  { unfold find_xsdt. change (0xE0000 + 20) with 0xE0014. change (0xE0000 + 24) with 0xE0018.
    rewrite R1, R2, (rd_enc _ 4 _ _ R3), R4, (rd_enc _ 8 _ _ R5) by done. by rewrite bool_decide_eq_true_2. }
  unfold acpi_find_cpus. rewrite EX. cbn [mbind option_bind]. rewrite X. cbn [mbind option_bind].
  rewrite bool_decide_eq_true_2 by done. cbn [negb]. cbv zeta.
  change (seqZ 0 ((52 - 36) / 8)) with [0; 1]. rewrite !fmap_cons, fmap_nil.
  change (0xE0060 + 36 + 8 * 0) with 0xE0084. change (0xE0060 + 36 + 8 * 1) with 0xE008C.
  rewrite (rd_enc _ 8 _ _ X0), (rd_enc _ 8 _ _ X1) by (done || unfold fits; cbn; lia).
  rewrite (find_table_hit _ _ _ _ _ M), (find_table_miss _ _ _ _ _ _ M), (find_table_hit _ _ _ _ _ F) by done.
  cbn [mbind option_bind]. change (0xE00A0 + 44) with 0xE00CC. replace (44 + n * 8 - 44) with (Z.of_nat (Z.to_nat n) * 8) by lia.
  rewrite (lapic_ids_spec m (Z.to_nat n) _ _ 0) by (rewrite ?Z2Nat.id by lia; done || lia).
  cbn [mbind option_bind]. rewrite (rd_enc _ 4 _ _ FD) by (unfold fits; cbn; lia).
  rewrite (find_table_hit _ _ _ _ _ DS). by rewrite Z2Nat.id by lia.
Qed.

(** the ACPI tables the example monitor writes are what an operating system
    needs.  Walking them from the RSDP at 0xE0000 (both RSDP checksums, the
    XSDT, every table by signature and with its checksum verified) finds the
    MADT with one enabled local APIC per vCPU, in order and with the identifier
    of that vCPU, and the DSDT behind the FADT; nothing outside 0xE0000-0xEFFFF
    is written.  With less RAM than that region needs nothing is written at all. *)
Theorem acpi_tables_found s :
  nr_vcpus s <= 8152 -> 1 <= nr_vcpus s ->
  if mem_size s <? 0xF0000 then acpi_install s = Ok (-1, s)
  else xwp acpi_install (fun r s' => r = 0 /\ wrote 0xE0000 0x10000 s s' /\
    exists dsdt, acpi_find_cpus (x_ram s') 0xE0000 = Some (wrap 8 <$> seqZ 0 (nr_vcpus s), dsdt)) s.
Proof.
  intros Hn1 Hn2. destruct (Z.ltb_spec (mem_size s) 0xF0000) as [Hs|Hs].
  - unfold acpi_install, mbind, X_bind, xgets, id. by rewrite (proj2 (Z.ltb_lt _ _)) by (unfold ACPI_BASE; lia).
  - xwp_use acpi_install_spec; [lia..|]. intros r s' (-> & W & dsdt & fadt & L & Hd & Hf & Hb).
    split; [done|]. split; [done|]. exists dsdt. apply (find_cpus_ok _ _ _ fadt); [done|lia..].
Qed.
