(* ===== verification/ExBios.v ===== *)
(** * The example monitor's BIOS area

    docs/example-vmm/bios.c: the BIOS blob at 0xF0000, the E820 map in the EBDA,
    the VGA ROM stub, the interrupt vectors and the MP table with its floating
    pointer; [read_bios_file] and kernel.c's [read_file], which are the same
    function twice.  [mp_find_cpus] is the operating system's walk of the MP
    table. *)
From S2P Require Import Prelude Memory Codec State Snapshot BiosRom VirtioRegs CopyWorkers Lazy Restore Boot ExVmm ExFrame.
From stdpp Require Import options.

(** ** Reading files *)

Section files.
  Context {H : XHost}.

(** [while (off < *out_size)]: [acc] is what has been read.  [None] is the fuel
    running out, which only interrupted calls use up without progress; [Some
    None] is a failed read. *)
Fixpoint file_read_loop (fuel : nat) (fd size : Z) (acc : list Z) : X (option (option (list Z))) :=
  if size <=? Z.of_nat (length acc) then mret (Some (Some acc)) else
  match fuel with
  | O => mret None
  | S fuel' =>
    r ← xsys (x_read fd (size - Z.of_nat (length acc)));
    if r_ret r <? 0 then
      if r_errno r =? EINTR then file_read_loop fuel' fd size acc else mret (Some None)
    else if r_ret r =? 0 then mret (Some (Some acc))
    else file_read_loop fuel' fd size (acc ++ resize (Z.to_nat (r_ret r)) 0 (r_data r))
  end.

(** The heap buffer and its contents, or [None] for a result of -1. *)
Definition read_whole_file (fuel : nat) (path : list Z) : X (option (option (Z * list Z))) :=
  o ← xsys (x_open path false);
  let fd := r_ret o in
  if fd <? 0 then mret (Some None) else
  st ← xsys (x_fstat fd);
  if r_ret st <? 0 then xsys_ (x_close fd) ;; mret (Some None) else
  let size := le_dec (take 8 (r_data st)) in
  p ← xsys (x_calloc size);
  if r_ret p =? 0 then xsys_ (x_close fd) ;; mret (Some None) else
  got ← file_read_loop fuel fd size [];
  match got with
  | None => mret None
  | Some None => xsys_ (x_free (r_ret p)) ;; xsys_ (x_close fd) ;; mret (Some None)
  | Some (Some bs) => xsys_ (x_close fd) ;; mret (Some (Some (r_ret p, bs)))
  end.

Definition read_bios_file := read_whole_file.
End files.

(** ** Tables *)

Definition BIOS_BIN_PATH : list Z := bytes "bios.bin".

Definition ex_e820_entries (mem_size : Z) : list e820entry :=
  [{| e820_addr := REAL_MODE_IVT_BEGIN; e820_size := EBDA_START - REAL_MODE_IVT_BEGIN; e820_type := E820_RAM |};
   {| e820_addr := EBDA_START; e820_size := VGA_RAM_BEGIN - EBDA_START; e820_type := E820_RESERVED |};
   {| e820_addr := VGA_RAM_BEGIN; e820_size := MB_BIOS_BEGIN - VGA_RAM_BEGIN; e820_type := E820_RESERVED |};
   {| e820_addr := MB_BIOS_BEGIN; e820_size := MB_BIOS_SIZE; e820_type := E820_RESERVED |};
   {| e820_addr := 0x100000; e820_size := u64 (mem_size - 0x100000); e820_type := E820_RAM |}].

Definition ex_setup_e820 : X unit :=
  s ← xgets id;
  let m := ex_e820_entries (mem_size s) in
  xfor (imap pair m) (fun e =>
    xstore (E820_MAP_START + 4 + sizeof_e820entry * Z.of_nat e.1) (c_put e820entry_codec e.2)) ;;
  xstore E820_MAP_START (le_enc 4 (Z.of_nat (length m))).

Definition ex_setup_vga_rom : X unit :=
  xstore VGA_ROM_BEGIN (zeros (VGA_ROM_END - VGA_ROM_BEGIN + 1)) ;;
  xstore VGA_ROM_OEM_STRING (resize (Z.to_nat VGA_ROM_OEM_STRING_SIZE) 0 (bytes "KVM VESA")) ;;
  xstore VGA_ROM_MODES (le_enc 2 0x0112) ;;
  xstore (VGA_ROM_MODES + 2) (le_enc 2 0xffff).

(** The vectors as pairs of offset and segment. *)
Definition ex_ivt : list (Z * Z) :=
  let seg := u16 (Z.shiftr MB_BIOS_BEGIN 4) in
  <[0x15%nat := (u16 BIOS_OFFSET__bios_int15, seg)]> (<[0x10%nat := (u16 BIOS_OFFSET__bios_int10, seg)]>
    (replicate (Z.to_nat REAL_INTR_VECTORS) (u16 BIOS_OFFSET__bios_intfake, seg))).

Definition install_ivt : X unit := xstore REAL_MODE_IVT_BEGIN (ivt_bytes ex_ivt).

(** ** The MP table *)

Definition MP_TABLE_BASE : Z := MB_BIOS_BEGIN + 0xd000.
Definition MP_FPTR_ADDR : Z := MP_TABLE_BASE.
Definition MP_TABLE_ADDR : Z := MP_TABLE_BASE + 16.

Definition sizeof_mp_fptr : Z := 16.
Definition sizeof_mp_table_head : Z := 44.
Definition sizeof_mp_cpu : Z := 20.
Definition sizeof_mp_bus : Z := 8.
Definition sizeof_mp_io_apic : Z := 8.
Definition sizeof_mp_irq : Z := 8.

Definition mp_checksum (data len checksum_off : Z) : X Z :=
  xstore (data + checksum_off) [0] ;;
  bs ← xfetch data len;
  mret (u8 (- sum8 bs)).

Definition mp_put_fptr (fptr : Z) : X unit :=
  xstore fptr (zeros sizeof_mp_fptr) ;;
  xstore fptr (bytes "_MP_") ;;
  xstore (fptr + 4) (le_enc 4 (u32 MP_TABLE_ADDR)) ;;
  xstore (fptr + 8) [1] ;;
  xstore (fptr + 9) [4] ;;
  c ← mp_checksum fptr sizeof_mp_fptr 10;
  xstore (fptr + 10) [c].

Definition mp_put_head (head nr_cpus : Z) : X unit :=
  xstore head (zeros sizeof_mp_table_head) ;;
  xstore head (bytes "PCMP") ;;
  xstore (head + 6) [4] ;;
  xstore (head + 8) (bytes "EXVMM   ") ;;
  xstore (head + 16) (bytes "EXAMPLE     ") ;;
  xstore (head + 36) (le_enc 4 0xfee00000) ;;
  xstore (head + 34) (le_enc 2 (u16 (nr_cpus + 1 + 1 + 16))).

Definition mp_put_cpu (cpu i : Z) : X unit :=
  xstore cpu (zeros sizeof_mp_cpu) ;;
  xstore cpu [0] ;;
  xstore (cpu + 1) [u8 i] ;;
  xstore (cpu + 2) [0x14] ;;
  xstore (cpu + 3) [if i =? 0 then 0x03 else 0x01] ;;
  xstore (cpu + 4) (le_enc 4 0) ;;
  xstore (cpu + 8) (le_enc 4 1).

Definition mp_put_bus (bus : Z) : X unit :=
  xstore bus (zeros sizeof_mp_bus) ;;
  xstore bus [1] ;;
  xstore (bus + 1) [0] ;;
  xstore (bus + 2) (bytes "ISA   ").

Definition mp_put_ioapic (ioa nr_cpus : Z) : X unit :=
  xstore ioa (zeros sizeof_mp_io_apic) ;;
  xstore ioa [2] ;;
  xstore (ioa + 1) [u8 (nr_cpus + 1)] ;;
  xstore (ioa + 2) [0x11] ;;
  xstore (ioa + 3) [0x01] ;;
  xstore (ioa + 4) (le_enc 4 0xfec00000).

Definition mp_put_irq (irq nr_cpus i : Z) : X unit :=
  xstore irq (zeros sizeof_mp_irq) ;;
  xstore irq [3] ;;
  xstore (irq + 1) [0] ;;
  xstore (irq + 2) (le_enc 2 0x000f) ;;
  xstore (irq + 4) [0] ;;
  xstore (irq + 5) [u8 i] ;;
  xstore (irq + 6) [u8 (nr_cpus + 1)] ;;
  xstore (irq + 7) [u8 i].

Definition setup_mp_table : X unit :=
  s ← xgets id;
  let nr_cpus := nr_vcpus s in
  let head := MP_TABLE_ADDR in
  mp_put_fptr MP_FPTR_ADDR ;;
  mp_put_head head nr_cpus ;;
  let cpus := head + sizeof_mp_table_head in
  xfor (seqZ 0 nr_cpus) (fun i => mp_put_cpu (cpus + i * sizeof_mp_cpu) i) ;;
  let bus := cpus + nr_cpus * sizeof_mp_cpu in
  mp_put_bus bus ;;
  let ioa := bus + sizeof_mp_bus in
  mp_put_ioapic ioa nr_cpus ;;
  let irqs := ioa + sizeof_mp_io_apic in
  xfor (seqZ 0 16) (fun i => mp_put_irq (irqs + i * sizeof_mp_irq) nr_cpus i) ;;
  let base_table_length := u16 (sizeof_mp_table_head + nr_cpus * sizeof_mp_cpu + sizeof_mp_bus +
                                sizeof_mp_io_apic + 16 * sizeof_mp_irq) in
  xstore (head + 4) (le_enc 2 base_table_length) ;;
  c ← mp_checksum head base_table_length 7;
  xstore (head + 7) [c].

(** ** Everything *)

Section install.
  Context {H : XHost}.

(** [None] when reading the blob ran out of fuel. *)
Definition bios_install (fuel : nat) : X (option unit) :=
  xstore BDA_START (zeros (BDA_END - BDA_START + 1)) ;;
  xstore EBDA_START (zeros (EBDA_END - EBDA_START + 1)) ;;
  xstore MB_BIOS_BEGIN (zeros MB_BIOS_SIZE) ;;
  f ← read_bios_file fuel BIOS_BIN_PATH;
  match f with
  | None => mret None
  | Some f =>
    (match f with
     | None => xskip
     | Some (p, bios) =>
       xstore MB_BIOS_BEGIN (take (Z.to_nat MB_BIOS_SIZE) bios) ;;
       xsys_ (x_free p)
     end) ;;
    ex_setup_e820 ;;
    ex_setup_vga_rom ;;
    install_ivt ;;
    setup_mp_table ;;
    let rv := MB_BIOS_END - 15 in
    xstore rv [0xfa] ;;
    xstore (rv + 1) [0xf4] ;;
    xstore (rv + 2) (replicate 13 0x90) ;;
    mret (Some ())
  end.
End install.

(** ** What an operating system does with the MP table *)

(** [k] entries at [a]: the local APIC identifiers of the enabled processors,
    with whether each is the boot processor, and the address after the last
    entry.  A processor's entry has 20 bytes, the others 8. *)
Fixpoint mp_entries (k : nat) (m : mem) (a : Z) : list (Z * bool) * Z :=
  match k with
  | O => ([], a)
  | S k' =>
    if m a =? 0 then
      let '(ids, e) := mp_entries k' m (a + 20) in
      (if has_bits (m (a + 3)) 1 then (m (a + 1), has_bits (m (a + 3)) 2) :: ids else ids, e)
    else mp_entries k' m (a + 8)
  end.

(** From the floating pointer at [fptr]: both checksums, the signatures, and an
    entry count that ends where the table's length says. *)
Definition mp_find_cpus (m : mem) (fptr : Z) : option (list (Z * bool)) :=
  if negb (bool_decide (mem_get m fptr 4 = bytes "_MP_") && (sum8 (mem_get m fptr (m (fptr + 8) * 16)) =? 0))
  then None else
  let head := rd m 4 (fptr + 4) in
  let len := rd m 2 (head + 4) in
  if negb (bool_decide (mem_get m head 4 = bytes "PCMP") && (sum8 (mem_get m head len) =? 0)) then None else
  let '(ids, e) := mp_entries (Z.to_nat (rd m 2 (head + 34))) m (head + 44) in
  if e =? head + len then Some ids else None.
