(* ===== verification/ExFiles.v ===== *)
(** * Reading whole files

    [read_bios_file] and [read_file] of the example monitor loop over short
    reads.  [XFiles] says what the kernel does with files that are only read:
    opening, sizes, and reads that return some of what is left. *)
From S2P Require Import Prelude Memory Codec State Snapshot BiosRom VirtioRegs CopyWorkers Lazy Restore Boot ExVmm ExFrame ExBios.
From stdpp Require Import options.

(** What descriptor [fd] refers to after a trace: the path it was opened with and
    the bytes read since. *)
Definition fd_step (fd : Z) (st : option (list Z * Z)) (e : xcall * reply) : option (list Z * Z) :=
  match e.1 with
  | x_open path _ => if r_ret e.2 =? fd then Some (path, 0) else st
  | x_close f => if f =? fd then None else st
  | x_read f _ => if (f =? fd) && (0 <? r_ret e.2) then (fun p => (p.1, p.2 + r_ret e.2)) <$> st else st
  | _ => st
  end.
Definition fd_state (fd : Z) (t : xtrace) : option (list Z * Z) := foldl (fd_step fd) None t.

Lemma fd_state_snoc fd t e : fd_state fd (t ++ [e]) = fd_step fd (fd_state fd t) e.
Proof. unfold fd_state. by rewrite foldl_app. Qed.

(** [files] is the file system.  Opening a file that is there gives a descriptor;
    [malloc] succeeds; a read returns at least one byte and at most what was
    asked for and is left, and nothing at the end of the file. *)
Class XFiles (H : XHost) (files : list Z -> option (list Z)) : Prop := {
  xf_size path c : files path = Some c -> Z.of_nat (length c) < 2 ^ 63;
  xf_open t path : match files path with
    | Some _ => 0 <= r_ret (xreply_of t (x_open path false))
    | None => r_ret (xreply_of t (x_open path false)) < 0 end;
  xf_fstat t fd path pos c : fd_state fd t = Some (path, pos) -> files path = Some c ->
    xreply_of t (x_fstat fd) = {| r_ret := 0; r_errno := 0; r_data := le_enc 8 (Z.of_nat (length c)) |};
  xf_malloc t n : r_ret (xreply_of t (x_calloc n)) <> 0;
  xf_read t fd n path pos c : fd_state fd t = Some (path, pos) -> files path = Some c ->
    0 <= pos < Z.of_nat (length c) -> 0 < n ->
    let r := xreply_of t (x_read fd n) in
    0 < r_ret r <= Z.min n (Z.of_nat (length c) - pos) /\
    r_data r = take (Z.to_nat (r_ret r)) (drop (Z.to_nat pos) c)
}.

Section read.
  Context {H : XHost} (files : list Z -> option (list Z)) {F : XFiles H files}.

(** Only the trace differs. *)
Definition calls_only (s s' : ExVmm) : Prop := s' = s <| x_trace := x_trace s' |>.

Lemma calls_only_refl s : calls_only s s.
Proof. by destruct s. Qed.

Lemma file_read_loop_spec fuel fd path c acc s :
  files path = Some c -> fd_state fd (x_trace s) = Some (path, Z.of_nat (length acc)) ->
  acc = take (length acc) c -> (length c - length acc < fuel)%nat ->
  xwp (file_read_loop fuel fd (Z.of_nat (length c)) acc) (fun r s' => r = Some (Some c) /\ calls_only s s') s.
Proof using F.
  intros Hc. revert acc s. induction fuel as [|fuel IH]; intros acc s Hfd Hacc Hf; [lia|].
  cbn [file_read_loop]. assert (Hla : (length acc <= length c)%nat) by (rewrite Hacc, length_take; lia).
  destruct (Z.leb_spec (Z.of_nat (length c)) (Z.of_nat (length acc))).
  { apply xwp_ret. split; [|apply calls_only_refl]. by rewrite Hacc, take_ge by lia. }
  do 2 xwp_one.
  destruct (xf_read _ _ (Z.of_nat (length c) - Z.of_nat (length acc)) _ _ _ Hfd Hc ltac:(lia) ltac:(lia)) as [Hn Hd].
  rewrite <- Hr in Hn, Hd. rewrite (proj2 (Z.ltb_ge _ _)), (proj2 (Z.eqb_neq _ _)) by lia. rewrite Nat2Z.id in Hd.
  assert (Hlen : length (take (Z.to_nat (r_ret r)) (drop (length acc) c)) = Z.to_nat (r_ret r))
    by (rewrite length_take, length_drop; lia).
  rewrite Hd, resize_all_alt by done.
  assert (Happ : length (acc ++ take (Z.to_nat (r_ret r)) (drop (length acc) c)) = (length acc + Z.to_nat (r_ret r))%nat)
    by (rewrite length_app, Hlen; done).
  xwp_use IH.
  - change (x_trace (upd x_trace ?f s)) with (f (x_trace s)). cbv beta. rewrite fd_state_snoc, Hfd. unfold fd_step. cbn [fst snd].
    rewrite Z.eqb_refl, (proj2 (Z.ltb_lt _ _)) by lia. cbn. do 2 f_equal. rewrite Happ. lia.
  - rewrite Happ, <- take_take_drop. by rewrite <- Hacc.
  - rewrite Happ. lia.
  - cbv beta. intros r' s' [-> E]. split; [done|]. unfold calls_only in *. by rewrite E.
Qed.

(** The whole file is read, however short the reads are. *)
Lemma read_whole_file_spec fuel path s :
  (forall c, files path = Some c -> (length c < fuel)%nat) ->
  xwp (read_whole_file fuel path) (fun r s' =>
    (match files path with Some c => exists p, r = Some (Some (p, c)) | None => r = Some None end) /\ calls_only s s') s.
Proof using F.
  intros Hf. unfold read_whole_file. do 2 xwp_one. pose proof (xf_open (x_trace s) path) as Ho. rewrite <- Hr in Ho.
  destruct (files path) as [c|] eqn:Hc.
  2: { rewrite (proj2 (Z.ltb_lt _ _)) by done. apply xwp_ret. split; [done|]. by destruct s. }
  rewrite (proj2 (Z.ltb_ge _ _)) by done. pose proof (xf_size _ _ Hc) as Hsz.
  assert (Hst : fd_state (r_ret r) (x_trace s ++ [(x_open path false, r)]) = Some (path, 0))
    by (rewrite fd_state_snoc; unfold fd_step; cbn; by rewrite Z.eqb_refl).
  do 2 xwp_one. change (x_trace (upd x_trace ?f s)) with (f (x_trace s)) in Hr0. cbv beta in Hr0.
  rewrite (xf_fstat _ _ _ _ _ Hst Hc) in Hr0. subst r0. cbn [r_ret r_data]. change (0 <? 0) with false. cbv iota.
  rewrite take_ge by (by rewrite le_enc_length). rewrite le_dec_enc by (unfold fits; cbn; lia).
  do 2 xwp_one. pose proof (xf_malloc (x_trace s ++ [(x_open path false, r)] ++ [(x_fstat (r_ret r), {| r_ret := 0; r_errno := 0; r_data := le_enc 8 (Z.of_nat (length c)) |})]) (Z.of_nat (length c))) as Hm.
  rewrite app_assoc in Hm. change (xreply_of _ (x_calloc _)) with (xreply_of ((x_trace s ++ [(x_open path false, r)]) ++ [(x_fstat (r_ret r), {| r_ret := 0; r_errno := 0; r_data := le_enc 8 (Z.of_nat (length c)) |})]) (x_calloc (Z.of_nat (length c)))) in Hr0.
  rewrite <- Hr0 in Hm. rewrite (proj2 (Z.eqb_neq _ _)) by done. apply xwp_bind.
  xwp_use (file_read_loop_spec fuel (r_ret r) path c []); [done| |done|cbn; pose proof (Hf c eq_refl); lia|].
  { change (x_trace (upd x_trace ?f ?s0)) with (f (x_trace s0)). cbv beta. rewrite fd_state_snoc.
    change (x_trace (upd x_trace ?f ?s0)) with (f (x_trace s0)). cbv beta. rewrite fd_state_snoc.
    change (x_trace (upd x_trace ?f ?s0)) with (f (x_trace s0)). cbv beta. by rewrite Hst. }
  intros r1 s1 [-> E]. xwp_run. split; [by eexists|]. unfold calls_only in *. by rewrite E.
Qed.
End read.
