(* ===== verification/ExBiosFacts.v ===== *)
(** * What the guest finds in the example monitor's BIOS area *)
From S2P Require Import Prelude Memory Codec State Snapshot BiosRom VirtioRegs CopyWorkers Lazy Restore Boot ExVmm ExFrame ExBios ExFiles.
From stdpp Require Import options.

(** ** The MP table *)

(** [p->checksum = mp_checksum(p, len, offset)]. *)
Lemma mp_checksum_step a len off Q s :
  0 <= a -> 0 <= off < len -> a + len <= mem_size s ->
  (forall s', wrote (a + off) 1 s s' -> sum8 (mem_get (x_ram s') a len) = 0 -> Q () s') ->
  xwp (c ← mp_checksum a len off; xstore (a + off) [c]) Q s.
Proof.
  intros Ha Ho Hs HQ. unfold mp_checksum. apply xwp_bind, xwp_bind, xwp_store; [lia|cbn; lia|].
  apply xwp_bind, xwp_fetch; [cbn; lia..|]. apply xwp_ret. apply xwp_store; [lia|cbn; lia|]. apply HQ.
  - eexists. split; [done|]. intros x Hx. cbn. rewrite !mem_set_outside by (cbn; lia). done.
  - by apply (checksum_zero (x_ram s)).
Qed.

Lemma mp_put_fptr_step a Q s :
  0 <= a -> a + 16 <= mem_size s ->
  (forall s', wrote a 16 s s' -> mem_get (x_ram s') a 4 = bytes "_MP_" ->
     mem_get (x_ram s') (a + 4) 4 = le_enc 4 MP_TABLE_ADDR -> mem_get (x_ram s') (a + 8) 1 = [1] ->
     sum8 (mem_get (x_ram s') a 16) = 0 -> Q () s') -> xwp (mp_put_fptr a) Q s.
Proof.
  intros Ha Hs HQ. unfold mp_put_fptr. put W0 E0. put W1 Es. put W2 Et. put W3 El. put W4 E4.
  apply mp_checksum_step; [lia|unfold sizeof_mp_fptr; lia|unfold sizeof_mp_fptr; lia|].
  intros s5 W5 Hz. frame W5. apply HQ; [wrote_chain|done..].
Qed.

Lemma mp_put_head_step a n Q s :
  0 <= a -> a + 44 <= mem_size s ->
  (forall s', wrote a 44 s s' -> mem_get (x_ram s') a 4 = bytes "PCMP" ->
     mem_get (x_ram s') (a + 34) 2 = le_enc 2 (u16 (n + 18)) -> Q () s') -> xwp (mp_put_head a n) Q s.
Proof.
  intros Ha Hs HQ. unfold mp_put_head. put W0 E0. put W1 Es. put W2 E2. put W3 E3. put W4 E4. put W5 E5. put W6 Ec.
  apply HQ; [wrote_chain|done|]. by replace (n + 18) with (n + 1 + 1 + 16) by lia.
Qed.

Definition mp_cpu_entry (i : Z) : list Z :=
  [0; u8 i; 0x14; if i =? 0 then 3 else 1; 0; 0; 0; 0; 1; 0; 0; 0; 0; 0; 0; 0; 0; 0; 0; 0].

Lemma mp_put_cpu_step a i Q s :
  0 <= a -> a + 20 <= mem_size s ->
  (forall s', wrote a 20 s s' -> mem_get (x_ram s') a 20 = mp_cpu_entry i -> Q () s') -> xwp (mp_put_cpu a i) Q s.
Proof.
  intros Ha Hs HQ. unfold mp_put_cpu. put W0 E0.
  assert (Ez : mem_get (x_ram s0) (a + 12) 8 = zeros 8).
  { rewrite (get_part _ _ _ _ (a + 12) 8 E0) by lia. replace (a + 12 - a) with 12 by lia. done. }
  put W1 E1. put W2 E2. put W3 E3. put W4 E4. put W5 E5. put W6 E6. apply HQ; [wrote_chain|].
  change (mp_cpu_entry i) with ([0] ++ [u8 i] ++ [0x14] ++ [if i =? 0 then 3 else 1] ++ le_enc 4 0 ++ le_enc 4 1 ++ zeros 8).
  glue E1. glue E2. glue E3. glue E4. glue E5. glue E6. glue Ez.
Qed.

Definition mp_irq_entry (n i : Z) : list Z := [3; 0; 0x0f; 0; 0; u8 i; u8 (n + 1); u8 i].

Lemma mp_put_irq_step a n i Q s :
  0 <= a -> a + 8 <= mem_size s ->
  (forall s', wrote a 8 s s' -> mem_get (x_ram s') a 8 = mp_irq_entry n i -> Q () s') -> xwp (mp_put_irq a n i) Q s.
Proof.
  intros Ha Hs HQ. unfold mp_put_irq. put W0 E0. put W1 E1. put W2 E2. put W3 E3. put W4 E4. put W5 E5. put W6 E6. put W7 E7.
  apply HQ; [wrote_chain|].
  change (mp_irq_entry n i) with ([3] ++ [0] ++ le_enc 2 0x0f ++ [0] ++ [u8 i] ++ [u8 (n + 1)] ++ [u8 i]).
  glue E1. glue E2. glue E3. glue E4. glue E5. glue E6. glue E7.
Qed.

Lemma mp_put_bus_step a Q s :
  0 <= a -> a + 8 <= mem_size s ->
  (forall s', wrote a 8 s s' -> mem_get (x_ram s') a 1 = [1] -> Q () s') -> xwp (mp_put_bus a) Q s.
Proof. intros Ha Hs HQ. unfold mp_put_bus. put W0 E0. put W1 E1. put W2 E2. put W3 E3. apply HQ; [wrote_chain|done]. Qed.

Lemma mp_put_ioapic_step a n Q s :
  0 <= a -> a + 8 <= mem_size s ->
  (forall s', wrote a 8 s s' -> mem_get (x_ram s') a 1 = [2] -> Q () s') -> xwp (mp_put_ioapic a n) Q s.
Proof.
  intros Ha Hs HQ. unfold mp_put_ioapic. put W0 E0. put W1 E1. put W2 E2. put W3 E3. put W4 E4. put W5 E5.
  apply HQ; [wrote_chain|done].
Qed.

(** The table as it is in memory, for [n] processors. *)
Record mp_layout (m : mem) (n : Z) : Prop := {
  ml_sig : mem_get m 0xFD000 4 = bytes "_MP_";
  ml_addr : mem_get m 0xFD004 4 = le_enc 4 0xFD010;
  ml_len16 : mem_get m 0xFD008 1 = [1];
  ml_sum : sum8 (mem_get m 0xFD000 16) = 0;
  ml_head : mem_get m 0xFD010 4 = bytes "PCMP";
  ml_len : mem_get m 0xFD014 2 = le_enc 2 (188 + n * 20);
  ml_count : mem_get m 0xFD032 2 = le_enc 2 (n + 18);
  ml_hsum : sum8 (mem_get m 0xFD010 (188 + n * 20)) = 0;
  ml_cpus : mem_get m 0xFD03C (n * 20) = mjoin (mp_cpu_entry <$> seqZ 0 n);
  ml_bus : mem_get m (0xFD03C + n * 20) 1 = [1];
  ml_ioapic : mem_get m (0xFD044 + n * 20) 1 = [2];
  ml_irqs : mem_get m (0xFD04C + n * 20) 128 = mjoin (mp_irq_entry n <$> seqZ 0 16)
}.

Lemma setup_mp_table_step Q s :
  1 <= nr_vcpus s <= 603 -> 0xFFFF0 <= mem_size s ->
  (forall s', wrote 0xFD000 0x2FF0 s s' -> mp_layout (x_ram s') (nr_vcpus s) -> Q () s') -> xwp setup_mp_table Q s.
Proof.
  intros Hn Hs HQ. unfold setup_mp_table. do 2 xwp_one. unfold id. cbv zeta. set (n := nr_vcpus s) in *.
  change MP_FPTR_ADDR with 0xFD000. change MP_TABLE_ADDR with 0xFD010. unfold sizeof_mp_table_head, sizeof_mp_cpu, sizeof_mp_bus, sizeof_mp_io_apic, sizeof_mp_irq.
  apply xwp_bind, mp_put_fptr_step; [lia..|]. intros s1 W1 A1 A2 A3 A4. pose proof (wrote_size _ _ _ _ W1).
  apply xwp_bind, mp_put_head_step; [lia..|]. intros s2 W2 B1 B2. frame W2. pose proof (wrote_size _ _ _ _ W2).
  apply xwp_bind. apply (table_loop _ mp_cpu_entry (0xFD010 + 44) 20); [lia..| |].
  { intros i s' Q' Hi Hs' HQ'. by apply mp_put_cpu_step; [lia..|]. }
  intros s3 W3 C. frame W3. pose proof (wrote_size _ _ _ _ W3).
  apply xwp_bind, mp_put_bus_step; [lia..|]. intros s4 W4 D. frame W4. pose proof (wrote_size _ _ _ _ W4).
  apply xwp_bind, mp_put_ioapic_step; [lia..|]. intros s5 W5 E. frame W5. pose proof (wrote_size _ _ _ _ W5).
  apply xwp_bind. apply (table_loop _ (mp_irq_entry n) (0xFD010 + 44 + n * 20 + 8 + 8) 8); [lia..| |].
  { intros i s' Q' Hi Hs' HQ'. by apply mp_put_irq_step; [lia..|]. }
  intros s6 W6 F. frame W6. pose proof (wrote_size _ _ _ _ W6).
  assert (U : u16 (44 + n * 20 + 8 + 8 + 16 * 8) = 188 + n * 20) by (rewrite wrap_id; [lia|unfold fits; lia]).
  rewrite U. put W7 G. apply mp_checksum_step; [lia..|]. intros s8 W8 Hz. frame W8.
  rewrite (wrap_id 16) in B2 by (unfold fits; lia).
  apply HQ; [wrote_chain|]. split; try done.
  - by replace (0xFD044 + n * 20) with (0xFD010 + 44 + n * 20 + 8) by lia.
  - by replace (0xFD04C + n * 20) with (0xFD010 + 44 + n * 20 + 8 + 8) by lia.
Qed.

(** ** The walk *)

(** The processors: the first one is the boot processor. *)
Lemma mp_entries_cpus m k r a i ids e :
  0 <= i -> mem_get m a (Z.of_nat k * 20) = mjoin (mp_cpu_entry <$> seqZ i (Z.of_nat k)) ->
  mp_entries r m (a + Z.of_nat k * 20) = (ids, e) ->
  mp_entries (k + r) m a = (((fun j => (u8 j, j =? 0)) <$> seqZ i (Z.of_nat k)) ++ ids, e).
Proof.
  revert a i. induction k as [|k IH]; intros a i Hi He Hr.
  { rewrite Z.add_0_r in Hr. exact Hr. }
  replace (Z.of_nat (S k) * 20) with (20 + Z.of_nat k * 20) in He, Hr by lia. rewrite mem_get_app in He by lia.
  rewrite (seqZ_cons i) in He by lia. rewrite fmap_cons in He. rewrite (seqZ_cons i), fmap_cons by lia. replace (Z.pred (Z.of_nat (S k))) with (Z.of_nat k) in He |- * by lia.
  change (mjoin (?x :: ?l)) with (x ++ mjoin l) in He. apply app_inj_1 in He as [E He]; [|by rewrite mem_get_length].
  pose proof (mem_get_at _ _ _ _ 0 E ltac:(lia)) as B0. pose proof (mem_get_at _ _ _ _ 1 E ltac:(lia)) as B1.
  pose proof (mem_get_at _ _ _ _ 3 E ltac:(lia)) as B3. cbn [mp_cpu_entry nth] in B0, B1, B3.
  change (Z.of_nat 0) with 0 in B0. rewrite Z.add_0_r in B0. change (Z.of_nat 1) with 1 in B1. change (Z.of_nat 3) with 3 in B3.
  cbn [Nat.add mp_entries]. rewrite B0, B1, B3. change (0 =? 0) with true. cbv iota.
  rewrite (IH (a + 20) (Z.succ i)); [|lia|done|by rewrite <- Z.add_assoc]. cbv beta iota. by destruct (i =? 0).
Qed.

(** Entries of another type are passed over. *)
Lemma mp_entries_skip k m a ty : m a = ty -> ty <> 0 -> mp_entries (S k) m a = mp_entries k m (a + 8).
Proof. intros E Ht. cbn [mp_entries]. by rewrite E, (proj2 (Z.eqb_neq _ _)). Qed.

Lemma mp_entries_other m k a (ty : Z) (entry : Z -> list Z) i :
  ty <> 0 -> (forall j, length (entry j) = 8%nat /\ nth 0 (entry j) 0 = ty) ->
  mem_get m a (Z.of_nat k * 8) = mjoin (entry <$> seqZ i (Z.of_nat k)) ->
  mp_entries k m a = ([], a + Z.of_nat k * 8).
Proof.
  intros Ht Hl. revert a i. induction k as [|k IH]; intros a i He; [cbn; by rewrite Z.add_0_r|].
  replace (Z.of_nat (S k) * 8) with (8 + Z.of_nat k * 8) in He |- * by lia. rewrite mem_get_app in He by lia.
  rewrite seqZ_cons, fmap_cons in He by lia. replace (Z.pred (Z.of_nat (S k))) with (Z.of_nat k) in He by lia.
  change (mjoin (?x :: ?l)) with (x ++ mjoin l) in He.
  apply app_inj_1 in He as [E He]; [|rewrite mem_get_length; by rewrite (proj1 (Hl i))].
  pose proof (mem_get_at _ _ _ _ 0 E ltac:(lia)) as B0. rewrite (proj2 (Hl i)), Z.add_0_r in B0.
  rewrite (mp_entries_skip _ _ _ ty) by done. rewrite (IH _ _ He). f_equal. lia.
Qed.

Lemma mp_find_cpus_ok m n :
  mp_layout m n -> 1 <= n <= 603 ->
  mp_find_cpus m 0xFD000 = Some ((fun j => (u8 j, j =? 0)) <$> seqZ 0 n).
Proof.
  intros [L1 L2 L3 L4 L5 L6 L7 L8 L9 L10 L11 L12] Hn. unfold mp_find_cpus.
  pose proof (mem_get_at _ _ _ _ 0 L3 ltac:(lia)) as B. cbn [nth] in B. change (0xFD008 + Z.of_nat 0) with 0xFD008 in B.
  change (0xFD000 + 8) with 0xFD008. change (0xFD000 + 4) with 0xFD004. rewrite B. change (1 * 16) with 16.
  rewrite L1, L4, bool_decide_eq_true_2 by done. cbn [andb Z.eqb negb]. cbv zeta.
  rewrite (rd_enc m 4 _ _ L2) by done. change (0xFD010 + 4) with 0xFD014. change (0xFD010 + 34) with 0xFD032. change (0xFD010 + 44) with 0xFD03C.
  rewrite (rd_enc m 2 _ _ L6) by (unfold fits; cbn; lia). rewrite L5, L8, bool_decide_eq_true_2 by done. cbn [andb Z.eqb negb].
  rewrite (rd_enc m 2 _ _ L7) by (unfold fits; cbn; lia). replace (Z.to_nat (n + 18)) with (Z.to_nat n + 18)%nat by lia.
  rewrite (mp_entries_cpus m (Z.to_nat n) 18 0xFD03C 0 [] (0xFD04C + n * 20 + 128)).
  - rewrite Z2Nat.id, app_nil_r by lia. by rewrite (proj2 (Z.eqb_eq _ _)) by lia.
  - lia.
  - by rewrite Z2Nat.id by lia.
  - rewrite Z2Nat.id by lia. rewrite mem_get_1 in L10, L11. injection L10 as L10. injection L11 as L11.
    rewrite (mp_entries_skip 17 m _ 1) by done. replace (0xFD03C + n * 20 + 8) with (0xFD044 + n * 20) by lia.
    rewrite (mp_entries_skip 16 m _ 2) by done. replace (0xFD044 + n * 20 + 8) with (0xFD04C + n * 20) by lia.
    apply (mp_entries_other m 16 _ 3 (mp_irq_entry n) 0); [done|done|exact L12].
Qed.

(** ** The other tables *)

Definition ex_e820_bytes (mem_size : Z) : list Z := mjoin (c_put e820entry_codec <$> ex_e820_entries mem_size).

Lemma setup_e820_step Q s :
  0x100000 <= mem_size s ->
  (forall s', wrote 0x9FC00 104 s s' -> mem_get (x_ram s') 0x9FC00 4 = le_enc 4 5 ->
     mem_get (x_ram s') 0x9FC04 100 = ex_e820_bytes (mem_size s) -> Q () s') -> xwp ex_setup_e820 Q s.
Proof.
  intros Hs HQ. unfold ex_setup_e820. do 2 xwp_one. unfold id. cbv zeta.
  change (imap pair (ex_e820_entries (mem_size s))) with (zip (seq 0 5) (ex_e820_entries (mem_size s))).
  apply xwp_bind. unfold ex_e820_entries at 1. cbn [seq zip_with xfor fst snd]. change E820_MAP_START with 0x9FC00.
  unfold sizeof_e820entry. cbn [Z.of_nat]. put W0 E0. put W1 E1. put W2 E2. put W3 E3. put W4 E4. apply xwp_skip.
  change (length (ex_e820_entries (mem_size s))) with 5%nat. put W5 E5. apply HQ; [wrote_chain|done|].
  unfold ex_e820_bytes, ex_e820_entries. cbn [fmap list_fmap].
  do 5 change (mjoin (?x :: ?l)) with (x ++ mjoin l). change (mjoin []) with (@nil Z). rewrite app_nil_r.
  glue E0. glue E1. glue E2. glue E3. glue E4.
Qed.

Lemma zeros_step a n Q s :
  0 <= a -> 0 <= n -> a + n <= mem_size s ->
  (forall s', wrote a n s s' -> Q () s') -> xwp (xstore a (zeros n)) Q s.
Proof. intros. apply (store_step n); [by apply zeros_length|done..|]. auto. Qed.

Lemma vga_rom_step Q s :
  0x100000 <= mem_size s ->
  (forall s', wrote 0xC0000 0x8000 s s' -> mem_get (x_ram s') 0xC0000 8 = bytes "KVM VESA" ->
     mem_get (x_ram s') 0xC0010 4 = le_enc 2 0x0112 ++ le_enc 2 0xffff -> Q () s') -> xwp ex_setup_vga_rom Q s.
Proof.
  intros Hs HQ. unfold ex_setup_vga_rom. change VGA_ROM_BEGIN with 0xC0000. change VGA_ROM_OEM_STRING with 0xC0000.
  change VGA_ROM_MODES with 0xC0010. change (VGA_ROM_END - 0xC0000 + 1) with 0x8000.
  apply xwp_bind, zeros_step; [lia..|]. intros s1 W1. pose proof (wrote_size _ _ _ _ W1).
  put W2 E2. apply (get_part _ _ _ _ 0xC0000 8) in E2; [|lia..]. put W3 E3. put W4 E4. apply HQ; [wrote_chain|done|].
  glue E3. glue E4.
Qed.

(** The low megabyte after [bios_install]; [blob] is the BIOS image, of which the
    part below the MP table is kept. *)
Record bios_layout (m : mem) (size n : Z) (blob : list Z) : Prop := {
  bl_ivt : mem_get m 0 1024 = ivt_bytes ex_ivt;
  bl_e820_nr : mem_get m 0x9FC00 4 = le_enc 4 5;
  bl_e820 : mem_get m 0x9FC04 100 = ex_e820_bytes size;
  bl_vga : mem_get m 0xC0000 8 = bytes "KVM VESA";
  bl_blob : mem_get m 0xF0000 (Z.min (Z.of_nat (length blob)) 0xD000) = take (Z.to_nat 0xD000) blob;
  bl_mp : mp_layout m n;
  bl_reset : mem_get m 0xFFFF0 15 = [0xfa; 0xf4] ++ replicate 13 0x90
}.

(** [bios_layout] looks at these ranges only. *)
Lemma mp_layout_frame m m' n :
  1 <= n <= 603 -> mem_get m' 0xFD000 0x2FF0 = mem_get m 0xFD000 0x2FF0 -> mp_layout m n -> mp_layout m' n.
Proof.
  intros Hn E [].
  assert (G : forall a k, 0xFD000 <= a -> 0 <= k -> a + k <= 0xFFFF0 -> mem_get m' a k = mem_get m a k).
  { intros a k Ha Hk Hb. rewrite (get_part _ _ _ _ a k E) by lia. by rewrite <- (get_part m 0xFD000 0x2FF0 _ a k eq_refl) by lia. }
  split; rewrite G by lia; done.
Qed.

Section install.
  Context {H : XHost} (files : list Z -> option (list Z)) {F : XFiles H files}.

(** The blob is put at the start of the BIOS area, and the part of it that is not
    overwritten later is there. *)
Lemma blob_step (f : option (Z * list Z)) blob Q s :
  0x100000 <= mem_size s -> blob = default [] (snd <$> f) ->
  (forall s', moved s s' -> mem_size s' = mem_size s ->
     mem_get (x_ram s') 0xF0000 (Z.min (Z.of_nat (length blob)) 0xD000) = take (Z.to_nat 0xD000) blob -> Q () s') ->
  xwp (match f with
       | None => xskip
       | Some (p, bios) => xstore 0xF0000 (take (Z.to_nat 65536) bios) ;; xsys_ (x_free p)
       end) Q s.
Proof.
  intros Hs Hb HQ. destruct f as [[p bios]|]; cbn in Hb; subst blob.
  - apply xwp_bind. eapply store_step; [reflexivity|lia|rewrite length_take; lia|]. intros s1 W E. unfold xsys_.
    do 2 xwp_one. apply HQ; [destruct W as (m & -> & _); by destruct s|by apply wrote_size in W|].
    change (x_ram _) with (x_ram s1).
    set (k := Z.min (Z.of_nat (length bios)) 0xD000).
    rewrite (get_part _ _ _ _ 0xF0000 k E) by (rewrite ?length_take; lia). rewrite Z.sub_diag. cbn [Z.to_nat].
    rewrite drop_0, take_take. destruct (Z.le_ge_cases (Z.of_nat (length bios)) 0xD000).
    + rewrite !take_ge by lia. done.
    + f_equal. lia.
  - apply xwp_skip. apply HQ; [reflexivity|done|done].
Qed.

Lemma bios_install_spec fuel s :
  0x100000 <= mem_size s -> 1 <= nr_vcpus s <= 603 ->
  (forall c, files BIOS_BIN_PATH = Some c -> (length c < fuel)%nat) ->
  xwp (bios_install fuel) (fun r s' => r = Some () /\ moved s s' /\
    bios_layout (x_ram s') (mem_size s) (nr_vcpus s) (default [] (files BIOS_BIN_PATH))) s.
Proof using F.
  intros Hs Hn Hf. unfold bios_install. change BDA_START with 0x400. change EBDA_START with 0x9FC00. change MB_BIOS_BEGIN with 0xF0000.
  change (BDA_END - 0x400 + 1) with 256. change (EBDA_END - 0x9FC00 + 1) with 1024. change MB_BIOS_SIZE with 65536.
  change (MB_BIOS_END - 15) with 0xFFFF0. change REAL_MODE_IVT_BEGIN with 0.
  apply xwp_bind, zeros_step; [lia..|]. intros s1 W1. pose proof (wrote_size _ _ _ _ W1).
  apply xwp_bind, zeros_step; [lia..|]. intros s2 W2. pose proof (wrote_size _ _ _ _ W2).
  apply xwp_bind, zeros_step; [lia..|]. intros s3 W3. pose proof (wrote_size _ _ _ _ W3).
  apply xwp_bind. xwp_use (read_whole_file_spec files fuel BIOS_BIN_PATH); [done|]. intros f s4 [Hfile Hs4].
  assert (M4 : moved s3 s4) by (rewrite Hs4; by destruct s3).
  assert (exists f', f = Some f' /\ default [] (files BIOS_BIN_PATH) = default [] (snd <$> f')) as (f' & -> & Eb).
  { destruct (files BIOS_BIN_PATH) as [c|]; [destruct Hfile as [p ->]; by exists (Some (p, c))|by exists None]. }
  clear Hfile. pose proof (moved_size _ _ M4). apply xwp_bind. apply (blob_step _ (default [] (files BIOS_BIN_PATH))); [lia|done|].
  intros s5 M5 H5 B. set (blob := default [] (files BIOS_BIN_PATH)) in *. clearbody blob. clear Eb Hs4.
  assert (Esz : mem_size s5 = mem_size s) by lia.
  assert (En : nr_vcpus s5 = nr_vcpus s) by (assert (M : moved s s5) by moved_chain; by rewrite M).
  apply xwp_bind, setup_e820_step; [lia|]. rewrite Esz. intros s6 W6 E1 E2. frame W6. pose proof (wrote_size _ _ _ _ W6).
  apply xwp_bind, vga_rom_step; [lia|]. intros s7 W7 V1 V2. frame W7. pose proof (wrote_size _ _ _ _ W7).
  apply xwp_bind. unfold install_ivt. change REAL_MODE_IVT_BEGIN with 0. apply (store_step 1024); [reflexivity|lia|lia|].
  intros s8 W8 I. frame W8. pose proof (wrote_size _ _ _ _ W8).
  assert (En8 : nr_vcpus s8 = nr_vcpus s) by (assert (M : moved s5 s8) by moved_chain; by rewrite M).
  apply xwp_bind, setup_mp_table_step; [rewrite En8; lia|lia|]. rewrite En8. intros s9 W9 L. frame W9. pose proof (wrote_size _ _ _ _ W9).
  pose proof (eq_refl (mem_get (x_ram s9) 0xFD000 0x2FF0)) as LE. remember (x_ram s9) as m9 eqn:Em9 in LE at 2. rewrite <- Em9 in L. clear Em9.
  put Wa R1. put Wb R2. apply xwp_bind. apply (store_step 13); [reflexivity|lia|lia|]. intros s12 Wc R3. frame Wc.
  apply xwp_ret. split; [done|]. split; [moved_chain|]. split; [exact I|exact E1|exact E2|exact V1|exact B| |].
  - by apply (mp_layout_frame m9).
  - glue R1. glue R2. glue R3.
Qed.
End install.
