(* ===== verification/ExKernel.v ===== *)
(** * The example monitor's kernel loader

    docs/example-vmm/kernel.c: [read_file] (in ExBios.v, with its twin),
    [install_cmdline] and [kernel_load].  Offsets of the setup header are those
    of [struct setup_header] in kernel.h, counted from the start of the image. *)
From S2P Require Import Prelude Memory Codec State Snapshot BiosRom VirtioRegs CopyWorkers Lazy Restore Boot ExVmm ExFrame ExBios.
From stdpp Require Import options.

Definition hdr_boot_flag : Z := 0x1fe.
Definition hdr_version : Z := 0x206.
Definition hdr_code32_start : Z := 0x214.
Definition hdr_kernel_alignment : Z := 0x230.

(** [gsh->f = v] and [gsh->f] of the header in guest RAM. *)
Definition gsh_put (off : Z) (n : nat) (v : Z) : X unit := xstore (0x10000 + off) (le_enc n v).
Definition gsh_get (off : Z) (n : nat) : X Z := bs ← xfetch (0x10000 + off) (Z.of_nat n); mret (le_dec bs).

Definition install_cmdline (cmdline : list Z) : X unit :=
  let cmdline_load := 0x20000 in
  let len := Z.of_nat (length cmdline) + 1 in
  let len := if 0x1000 <? len then 0x1000 else len in
  xstore cmdline_load (zeros 0x1000) ;;
  xstore cmdline_load (take (Z.to_nat (len - 1)) cmdline) ;;
  xstore (cmdline_load + len - 1) [0] ;;
  gsh_put hdr_cmd_line_ptr 4 cmdline_load ;;
  gsh_put hdr_cmdline_size 4 (u32 len).

(** The header's checks, in order: what makes the loader give up. *)
Definition kernel_rejected (kbuf : list Z) : bool :=
  let ksize := Z.of_nat (length kbuf) in
  if ksize <? 0x270 then true else
  if negb (bp_field kbuf hdr_boot_flag 2 =? 0xAA55) then true else
  if negb (bool_decide (take 4 (drop (Z.to_nat hdr_header) kbuf) = bytes "HdrS")) then true else
  if bp_field kbuf hdr_version 2 <? 0x0200 then true else
  if ksize <? setup_size kbuf then true else
  ksize - setup_size kbuf =? 0.

Definition initrd_start (mem_size isize : Z) : Z := Z.land (u64 (mem_size - isize)) (bnot 64 0xFFF).

(** The header fields, with the command line between them. *)
Definition fill_setup_header (cmdline : list Z) (initrd_load initrd_size : Z) : X unit :=
  gsh_put hdr_type_of_loader 1 0xFF ;;
  f ← gsh_get hdr_loadflags 1;
  gsh_put hdr_loadflags 1 (Z.lor (Z.land f (bnot 8 0x02)) 0x81) ;;
  gsh_put hdr_code32_start 4 0x100000 ;;
  gsh_put hdr_vid_mode 2 0 ;;
  gsh_put hdr_heap_end_ptr 2 0xfe00 ;;
  a ← gsh_get hdr_kernel_alignment 4;
  xwhen (a =? 0) (gsh_put hdr_kernel_alignment 4 0x1000) ;;
  install_cmdline cmdline ;;
  gsh_put hdr_ramdisk_image 4 initrd_load ;;
  gsh_put hdr_ramdisk_size 4 initrd_size.

Section load.
  Context {H : XHost}.

(** The initrd: its address and size, (0, 0) without one, or [None] for a failure;
    an outer [None] is the fuel for reading running out. *)
Definition place_initrd (fuel : nat) (initrd_path : option (list Z)) (payload_length : Z) : X (option (option (Z * Z))) :=
  match initrd_path with
  | None => mret (Some (Some (0, 0)))
  | Some path =>
    f ← read_whole_file fuel path;
    match f with
    | None => mret None
    | Some None => mret (Some None)
    | Some (Some (ibuf, initrd)) =>
      s ← xgets id;
      let isize := Z.of_nat (length initrd) in
      if mem_size s <? isize then xsys_ (x_free ibuf) ;; mret (Some None) else
      let start := initrd_start (mem_size s) isize in
      let min_start := 0x100000 + payload_length + 0x100000 in
      if (start <? min_start) || (start <? 0x100000) then xsys_ (x_free ibuf) ;; mret (Some None) else
      xstore start initrd ;;
      xsys_ (x_free ibuf) ;;
      mret (Some (Some (u32 start, u32 isize)))
    end
  end.

(** The result is 0 or -1; [None] is the fuel for reading running out. *)
Definition kernel_load (fuel : nat) (kernel_path : list Z) (initrd_path : option (list Z)) (cmdline : list Z) : X (option Z) :=
  f ← read_whole_file fuel kernel_path;
  match f with
  | None => mret None
  | Some None => mret (Some (-1))
  | Some (Some (p, kbuf)) =>
    if kernel_rejected kbuf then xsys_ (x_free p) ;; mret (Some (-1)) else
    let setup_sz := setup_size kbuf in
    let payload_length := Z.of_nat (length kbuf) - setup_sz in
    xstore 0x10000 (take (Z.to_nat setup_sz) kbuf) ;;
    xstore 0x100000 (drop (Z.to_nat setup_sz) kbuf) ;;
    xsys_ (x_free p) ;;
    i ← place_initrd fuel initrd_path payload_length;
    match i with
    | None => mret None
    | Some None => mret (Some (-1))
    | Some (Some (initrd_load, initrd_size)) =>
      fill_setup_header cmdline initrd_load initrd_size ;;
      mret (Some 0)
    end
  end.
End load.
