(* ===== verification/ExKernelFacts.v ===== *)
(** * Where the example monitor's loader puts kernel, initrd and command line *)
From S2P Require Import Prelude Memory Codec State Snapshot BiosRom VirtioRegs CopyWorkers Lazy Restore Boot ExVmm ExFrame ExBios ExFiles ExKernel.
From stdpp Require Import options.

(** The part of a command line that fits. *)
Definition shown (cmdline : list Z) : list Z := take (Z.to_nat 0xFFF) cmdline.

Lemma shown_length cmdline : Z.of_nat (length (shown cmdline)) <= 0xFFF.
Proof. unfold shown. rewrite length_take. lia. Qed.
Local Arguments shown : simpl never.

(** The ranges the loader patches: header fields and command line. *)
Definition hdr_patched (b k : Z) : Prop := disj b k 0x101FA 0x42 /\ disj b k 0x20000 0x1000.
Definition patches (s s' : ExVmm) : Prop :=
  moved s s' /\ forall b k, hdr_patched b k -> mem_get (x_ram s') b k = mem_get (x_ram s) b k.

Lemma patches_wrote a n s s' :
  wrote a n s s' -> (0x101FA <= a /\ a + n <= 0x1023C) \/ (0x20000 <= a /\ a + n <= 0x21000) -> patches s s'.
Proof.
  intros W Ha. split; [by eapply wrote_moved|]. intros b k [H1 H2]. apply (wrote_get _ _ _ _ _ _ W). unfold disj in *. lia.
Qed.

#[export] Instance patches_preorder : PreOrder patches.
Proof.
  split.
  - intros s. split; [reflexivity|done].
  - intros s1 s2 s3 [M1 P1] [M2 P2]. split; [by etrans|]. intros b k Hp. by rewrite P2, P1.
Qed.

Ltac patch_chain :=
  lazymatch goal with
  | |- patches ?s ?s => reflexivity
  | W : wrote _ _ ?s ?s1 |- patches ?s _ => transitivity s1; [apply (patches_wrote _ _ _ _ W); lia|patch_chain]
  | P : patches ?s ?s1 |- patches ?s _ => transitivity s1; [exact P|patch_chain]
  end.

(** What is known of bytes that were not hdr_patched. *)
Ltac frame_patches P :=
  lazymatch type of P with
  | patches ?s ?s' =>
    repeat match goal with
    | E : context [mem_get (x_ram s) ?b ?k] |- _ =>
      first [rewrite <- (proj2 P b k) in E by (unfold hdr_patched, disj; lia) | clear E]
    end
  end.

Lemma install_cmdline_step cmdline Q s :
  0x100000 <= mem_size s ->
  (forall s', (forall b k, disj b k 0x10228 4 -> disj b k 0x10238 4 -> disj b k 0x20000 0x1000 ->
                 mem_get (x_ram s') b k = mem_get (x_ram s) b k) -> patches s s' ->
     mem_get (x_ram s') 0x20000 (Z.of_nat (length (shown cmdline)) + 1) = shown cmdline ++ [0] ->
     mem_get (x_ram s') 0x10228 4 = le_enc 4 0x20000 ->
     mem_get (x_ram s') 0x10238 4 = le_enc 4 (Z.of_nat (length (shown cmdline)) + 1) -> Q () s') ->
  xwp (install_cmdline cmdline) Q s.
Proof.
  intros Hs HQ. unfold install_cmdline. cbv zeta. pose proof (shown_length cmdline) as Hl.
  set (len := if 0x1000 <? Z.of_nat (length cmdline) + 1 then 0x1000 else Z.of_nat (length cmdline) + 1).
  assert (El : len = Z.of_nat (length (shown cmdline)) + 1).
  { unfold len, shown. rewrite length_take. destruct (Z.ltb_spec 0x1000 (Z.of_nat (length cmdline) + 1)); lia. }
  assert (Et : take (Z.to_nat (len - 1)) cmdline = shown cmdline).
  { unfold len, shown. destruct (Z.ltb_spec 0x1000 (Z.of_nat (length cmdline) + 1)); [done|]. by rewrite !take_ge by lia. }
  rewrite Et, (wrap_id 32 len) by (unfold fits; lia). clearbody len. subst len.
  apply xwp_bind, (store_step 0x1000); [by apply zeros_length|lia|lia|]. intros s1 W1 _. pose proof (wrote_size _ _ _ _ W1).
  apply xwp_bind, (store_step (Z.of_nat (length (shown cmdline)))); [done|lia|lia|]. intros s2 W2 E2. pose proof (wrote_size _ _ _ _ W2).
  replace (0x20000 + (Z.of_nat (length (shown cmdline)) + 1) - 1) with (0x20000 + Z.of_nat (length (shown cmdline))) by lia.
  put W3 E3. change (0x10000 + hdr_cmd_line_ptr) with 0x10228. unfold gsh_put. change (0x10000 + hdr_cmd_line_ptr) with 0x10228.
  change (0x10000 + hdr_cmdline_size) with 0x10238. put W4 E4. put W5 E5. apply HQ; [|patch_chain| |done|done].
  - intros b k D1 D2 D3. rewrite (wrote_get _ _ _ _ _ _ W5), (wrote_get _ _ _ _ _ _ W4), (wrote_get _ _ _ _ _ _ W3),
      (wrote_get _ _ _ _ _ _ W2), (wrote_get _ _ _ _ _ _ W1) by (unfold disj in *; lia). done.
  - eapply get_cat; [| | | |exact E2|exact E3]; lia.
Qed.

(** The header and the command line as the kernel's setup code finds them. *)
Record header_filled (m : mem) (f : Z) (cmdline : list Z) (initrd_load initrd_size : Z) : Prop := {
  hf_loader : mem_get m 0x10210 1 = [0xFF];
  hf_flags : mem_get m 0x10211 1 = le_enc 1 (Z.lor (Z.land f (bnot 8 0x02)) 0x81);
  hf_code32 : mem_get m 0x10214 4 = le_enc 4 0x100000;
  hf_image : mem_get m 0x10218 4 = le_enc 4 initrd_load;
  hf_size : mem_get m 0x1021C 4 = le_enc 4 initrd_size;
  hf_heap : mem_get m 0x10224 2 = le_enc 2 0xfe00;
  hf_cmdline_ptr : mem_get m 0x10228 4 = le_enc 4 0x20000;
  hf_cmdline_size : mem_get m 0x10238 4 = le_enc 4 (Z.of_nat (length (shown cmdline)) + 1);
  hf_cmdline : mem_get m 0x20000 (Z.of_nat (length (shown cmdline)) + 1) = shown cmdline ++ [0]
}.

Lemma fill_setup_header_step cmdline il isz Q s :
  0x100000 <= mem_size s ->
  (forall s', patches s s' -> header_filled (x_ram s') (rd (x_ram s) 1 0x10211) cmdline il isz -> Q () s') ->
  xwp (fill_setup_header cmdline il isz) Q s.
Proof.
  intros Hs HQ. unfold fill_setup_header, gsh_put, gsh_get. pose proof (shown_length cmdline).
  change (0x10000 + hdr_type_of_loader) with 0x10210. change (0x10000 + hdr_loadflags) with 0x10211.
  change (0x10000 + hdr_code32_start) with 0x10214. change (0x10000 + hdr_vid_mode) with 0x101FA.
  change (0x10000 + hdr_heap_end_ptr) with 0x10224. change (0x10000 + hdr_kernel_alignment) with 0x10230.
  change (0x10000 + hdr_ramdisk_image) with 0x10218. change (0x10000 + hdr_ramdisk_size) with 0x1021C.
  put W1 E1. apply xwp_bind, xwp_bind, xwp_fetch; [lia..|]. apply xwp_ret.
  rewrite (wrote_get _ _ _ _ _ _ W1) by (unfold disj; lia). fold (rd (x_ram s) 1 0x10211). set (f := rd (x_ram s) 1 0x10211) in *. clearbody f.
  put W2 E2. put W3 E3. put W4 E4. put W5 E5.
  apply xwp_bind, xwp_bind, xwp_fetch; [lia..|]. apply xwp_ret.
  assert (Hrest : forall s', wrote 0x10230 4 s4 s' -> xwp (install_cmdline cmdline ;; xstore 0x10218 (le_enc 4 il) ;; xstore 0x1021C (le_enc 4 isz)) Q s').
  { intros s' W6. frame W6. pose proof (wrote_size _ _ _ _ W6). apply xwp_bind. apply install_cmdline_step; [lia|].
    intros s6 K P C1 C2 C3.
    rewrite <- K in E1, E2, E3, E5 by (unfold disj; lia). pose proof (moved_size _ _ (proj1 P)).
    put W7 E7. put W8 E8. apply HQ; [patch_chain|]. by split. }
  apply xwp_bind. unfold xwhen. apply xwp_if; intros _.
  - apply (store_step 4); [done|lia|lia|]. intros s6 W6 _. by apply Hrest.
  - apply xwp_skip, Hrest, wrote_refl.
Qed.

(** ** The whole loader *)

Lemma initrd_start_spec size len :
  0 <= len <= size -> size < 2 ^ 64 ->
  initrd_start size len = (size - len) / 4096 * 4096 /\ initrd_start size len <= size - len.
Proof.
  intros Hl Hs. assert (E : initrd_start size len = (size - len) / 4096 * 4096).
  { unfold initrd_start. rewrite (wrap_id 64) by (unfold fits; lia). apply page_align_spec. unfold fits. lia. }
  split; [done|]. rewrite E. pose proof (Z.div_mod (size - len) 4096). pose proof (Z.mod_pos_bound (size - len) 4096). lia.
Qed.

(** The initrd, if there is one, ends below the top of RAM, starts on a page and
    leaves a megabyte after the kernel. *)
Definition initrd_ok (size payload : Z) (initrd : option (list Z)) : Prop :=
  match initrd with
  | None => True
  | Some c => Z.of_nat (length c) <= size /\ 0x200000 + payload <= initrd_start size (Z.of_nat (length c))
  end.

Definition initrd_placed (m : mem) (size : Z) (initrd : option (list Z)) (il isz : Z) : Prop :=
  match initrd with
  | None => il = 0 /\ isz = 0
  | Some c => il = initrd_start size (Z.of_nat (length c)) /\ isz = Z.of_nat (length c) /\ mem_get m il isz = c
  end.

(** Kernel, initrd, header and command line in guest RAM. *)
Record kernel_placed (m : mem) (size : Z) (img : list Z) (initrd : option (list Z)) (cmdline : list Z) : Prop := {
  kp_setup_low : mem_get m 0x10000 0x1FA = take (Z.to_nat 0x1FA) img;
  kp_setup_high : mem_get m 0x1023C (setup_size img - 0x23C) = drop (Z.to_nat 0x23C) (take (Z.to_nat (setup_size img)) img);
  kp_payload : mem_get m 0x100000 (Z.of_nat (length img) - setup_size img) = drop (Z.to_nat (setup_size img)) img;
  kp_header : exists il isz, initrd_placed m size initrd il isz /\
    header_filled m (bp_field img hdr_loadflags 1) cmdline il isz
}.

Lemma setup_size_range img : Forall byte_ok img -> 1024 <= setup_size img <= 0x20000.
Proof.
  intros Hb. unfold setup_size, bp_field, BZ_DEFAULT_SETUP_SECTS.
  pose proof (le_dec_fits (take 1 (drop (Z.to_nat hdr_setup_sects) img)) (Forall_take _ _ _ (Forall_drop _ _ _ Hb))) as Hf.
  assert (Hf' : fits 8 (le_dec (take 1 (drop (Z.to_nat hdr_setup_sects) img)))).
  { eapply fits_mono; [|exact Hf]. rewrite length_take. lia. }
  unfold fits in Hf'. change (2 ^ 8) with 256 in Hf'. destruct (Z.eqb_spec (le_dec (take 1 (drop (Z.to_nat hdr_setup_sects) img))) 0); lia.
Qed.

Section load.
  Context {H : XHost} (files : list Z -> option (list Z)) {F : XFiles H files}.

Lemma place_initrd_step fuel path payload Q s :
  let initrd := path ≫= files in
  (forall p, path = Some p -> is_Some (files p)) -> (forall c, initrd = Some c -> (length c < fuel)%nat) ->
  0 <= payload -> mem_size s < 2 ^ 32 -> initrd_ok (mem_size s) payload initrd ->
  (forall il isz s', moved s s' -> initrd_placed (x_ram s') (mem_size s) initrd il isz ->
     (forall b k, b + k <= 0x200000 + payload -> mem_get (x_ram s') b k = mem_get (x_ram s) b k) ->
     Q (Some (Some (il, isz))) s') ->
  xwp (place_initrd fuel path payload) Q s.
Proof using F.
  intros initrd Hpath Hfuel Hp H32 Hok HQ. unfold place_initrd. destruct path as [path|]; cbn in initrd; subst initrd.
  2: { apply xwp_ret, HQ; [reflexivity|done|done]. }
  apply xwp_bind. xwp_use (read_whole_file_spec files fuel path); [done|]. intros f s1 [Hf Hs1].
  destruct (files path) as [c|] eqn:Hc; [|destruct (Hpath path eq_refl); congruence]. destruct Hf as [p ->].
  destruct Hok as [Hlen Hmin]. assert (Em : mem_size s1 = mem_size s) by (by rewrite Hs1).
  destruct (initrd_start_spec (mem_size s) (Z.of_nat (length c))) as [E El]; [lia|lia|].
  pose proof (Z.div_pos (mem_size s - Z.of_nat (length c)) 4096 ltac:(lia) ltac:(lia)) as Hpos.
  do 2 xwp_one. unfold id. rewrite Em. cbv zeta. rewrite (proj2 (Z.ltb_ge _ _)) by lia.
  rewrite (proj2 (Z.ltb_ge _ _)), (proj2 (Z.ltb_ge _ _)) by lia. cbn [orb].
  apply xwp_bind. eapply store_step; [reflexivity|lia|lia|]. intros s2 W2 E2. xwp_run.
  apply HQ.
  - transitivity s1; [by rewrite Hs1; destruct s|]. transitivity s2; [by eapply wrote_moved|]. by destruct s2.
  - cbn [initrd_placed]. rewrite !(wrap_id 32) by (unfold fits; lia). done.
  - intros b k Hb. change (x_ram (upd x_trace ?f s2)) with (x_ram s2). rewrite (wrote_get _ _ _ _ _ _ W2) by (unfold disj; lia). by rewrite Hs1.
Qed.

(** An image the loader takes, its files present, and room for it. *)
Record loadable (size : Z) (kernel : list Z) (initrd : option (list Z)) (img : list Z) : Prop := {
  ld_img : files kernel = Some img;
  ld_initrd : forall p, initrd = Some p -> is_Some (files p);
  ld_bytes : Forall byte_ok img;
  ld_accepted : kernel_rejected img = false;
  ld_setup : setup_size img <= 0x10000;
  ld_payload : 0x100000 + (Z.of_nat (length img) - setup_size img) <= size;
  ld_initrd_ok : initrd_ok size (Z.of_nat (length img) - setup_size img) (initrd ≫= files);
  ld_size : size < 2 ^ 32
}.

Lemma not_rejected img :
  kernel_rejected img = false -> 0x270 <= Z.of_nat (length img) /\ setup_size img < Z.of_nat (length img).
Proof.
  unfold kernel_rejected. destruct (Z.ltb_spec (Z.of_nat (length img)) 0x270); [done|]. intros E.
  do 3 (case_match; [done|]). destruct (Z.ltb_spec (Z.of_nat (length img)) (setup_size img)); [done|].
  apply Z.eqb_neq in E. lia.
Qed.

Lemma kernel_load_spec fuel kernel initrd img cmdline s :
  loadable (mem_size s) kernel initrd img -> (forall p c, files p = Some c -> (length c < fuel)%nat) ->
  xwp (kernel_load fuel kernel initrd cmdline) (fun r s' => r = Some 0 /\ moved s s' /\
    kernel_placed (x_ram s') (mem_size s) img (initrd ≫= files) cmdline /\
    forall b k, disj b k 0x10000 0x11000 -> b + k <= 0x100000 -> mem_get (x_ram s') b k = mem_get (x_ram s) b k) s.
Proof using F.
  intros [Hi Hin Hby Hacc Hss Hpl Hio Hsz] Hf. destruct (not_rejected _ Hacc) as [Hl Hlt].
  pose proof (setup_size_range _ Hby) as Hsr. unfold kernel_load.
  apply xwp_bind. xwp_use (read_whole_file_spec files fuel kernel); [intros c Hc; by eapply Hf|]. rewrite Hi.
  intros f s1 [[p ->] Hs1]. rewrite Hacc. cbv zeta. assert (M1 : moved s s1) by (rewrite Hs1; by destruct s).
  assert (R1 : x_ram s1 = x_ram s) by (by rewrite Hs1). pose proof (moved_size _ _ M1) as Z1. clear Hs1.
  set (ss := setup_size img) in *. set (plen := Z.of_nat (length img) - ss) in *.
  apply xwp_bind, (store_step ss); [rewrite length_take; lia|lia|lia|]. intros s2 W2 E2. pose proof (wrote_size _ _ _ _ W2).
  pose proof (get_part _ _ _ _ 0x10000 0x1FA E2 ltac:(lia) ltac:(lia) ltac:(lia)) as A1.
  pose proof (get_part _ _ _ _ 0x1023C (ss - 0x23C) E2 ltac:(lia) ltac:(lia) ltac:(lia)) as A2.
  pose proof (get_part _ _ _ _ 0x10211 1 E2 ltac:(lia) ltac:(lia) ltac:(lia)) as A3. clear E2.
  apply xwp_bind, (store_step plen); [rewrite length_drop; lia|lia|lia|]. intros s3 W3 B. frame W3. pose proof (wrote_size _ _ _ _ W3).
  apply xwp_bind. unfold xsys_. do 3 xwp_one. lazymatch goal with |- xwp _ _ ?t => set (s4 := t) end.
  change (x_ram s3) with (x_ram s4) in A1, A2, A3, B. apply xwp_bind.
  apply (place_initrd_step fuel initrd plen); [done|intros c Hc; destruct initrd as [q|]; [by eapply Hf|done]|lia|change (mem_size s4) with (mem_size s3); lia| |].
  { change (mem_size s4) with (mem_size s3). by replace (mem_size s3) with (mem_size s) by lia. }
  change (mem_size s4) with (mem_size s3). replace (mem_size s3) with (mem_size s) by lia.
  intros il isz s5 M5 P5 K5. pose proof (moved_size _ _ M5). change (mem_size s4) with (mem_size s3) in *.
  rewrite <- K5 in A1, A2, A3, B by lia. cbv iota. apply xwp_bind, fill_setup_header_step; [lia|].
  intros s6 P6 Hh. apply xwp_ret. split; [done|]. assert (M4 : moved s3 s4) by (by destruct s3). pose proof (proj1 P6) as M6.
  assert (El : rd (x_ram s5) 1 0x10211 = bp_field img hdr_loadflags 1).
  { unfold rd. change (Z.of_nat 1) with 1. rewrite A3. unfold bp_field. f_equal. rewrite !take_drop_commute, take_take. do 2 f_equal. change (Z.to_nat hdr_loadflags) with (Z.to_nat 0x211). lia. }
  rewrite El in Hh. clear A3. frame_patches P6. split; [moved_chain|]. split.
  - split; [rewrite A1, drop_0, take_take; f_equal; lia|etrans; [exact A2|]; apply take_ge; rewrite length_drop, length_take; lia|done|].
    exists il, isz. split; [|done]. destruct (initrd ≫= files) as [c|]; [|done]. destruct P5 as (-> & -> & E), Hio as [Hc Hm].
    split; [done|]. split; [done|]. rewrite (proj2 P6); [done|]. unfold hdr_patched, disj. lia.
  - intros b k Hd Hb. rewrite (proj2 P6), K5 by (unfold hdr_patched, disj in *; lia). change (x_ram s4) with (x_ram s3).
    rewrite (wrote_get _ _ _ _ _ _ W3), (wrote_get _ _ _ _ _ _ W2) by (unfold disj in *; lia). by rewrite R1.
Qed.

(** An image that fails a check, or that is not there, is given up without
    touching guest RAM. *)
Theorem ex_kernel_rejected fuel kernel initrd cmdline s :
  match files kernel with Some img => kernel_rejected img = true /\ (length img < fuel)%nat | None => True end ->
  xwp (kernel_load fuel kernel initrd cmdline) (fun r s' => r = Some (-1) /\ calls_only s s') s.
Proof using F.
  intros Hi. unfold kernel_load. apply xwp_bind.
  xwp_use (read_whole_file_spec files fuel kernel); [intros c Hc; rewrite Hc in Hi; apply Hi|].
  intros f s1 [Hf Hs1]. destruct (files kernel) as [img|]; [|subst f; by apply xwp_ret].
  destruct Hf as [p ->]. destruct Hi as [-> _]. xwp_run. split; [done|]. unfold calls_only in *. by rewrite Hs1.
Qed.

(** The size of the kernel is never compared with that of guest RAM: the copy
    runs past its end. *)
Theorem ex_kernel_overruns fuel kernel initrd img cmdline s :
  files kernel = Some img -> kernel_rejected img = false -> Forall byte_ok img -> (length img < fuel)%nat ->
  0x10000 + setup_size img <= mem_size s -> mem_size s < 0x100000 + (Z.of_nat (length img) - setup_size img) ->
  kernel_load fuel kernel initrd cmdline s = Fault OutOfBounds.
Proof using F.
  intros Hi Hacc Hby Hf Hs Hbig. pose proof (setup_size_range _ Hby). destruct (not_rejected _ Hacc) as [_ Hlt].
  assert (W : xwp (read_whole_file fuel kernel) (fun r s' => (exists p, r = Some (Some (p, img))) /\ calls_only s s') s).
  { eapply xwp_mono; [apply (read_whole_file_spec files fuel kernel); by intros c [= <-]%(eq_trans (eq_sym Hi))|]. cbv beta. by rewrite Hi. }
  apply xwp_ok in W as (r & s1 & E & [p ->] & Hs1). assert (Em : mem_size s1 = mem_size s) by (by rewrite Hs1).
  unfold kernel_load, mbind at 1, X_bind at 1. rewrite E, Hacc. cbv zeta. unfold mbind at 1, X_bind at 1.
  assert (W : xwp (xstore 0x10000 (take (Z.to_nat (setup_size img)) img)) (fun _ s' => mem_size s' = mem_size s) s1).
  { apply (store_step (setup_size img)); [rewrite length_take; lia|lia|lia|]. intros s2 W2 _. by rewrite (wrote_size _ _ _ _ W2). }
  apply xwp_ok in W as ([] & s2 & -> & E2). unfold mbind at 1, X_bind at 1.
  assert (E3 : xstore 0x100000 (drop (Z.to_nat (setup_size img)) img) s2 = Fault OutOfBounds); [|by rewrite E3].
  unfold xstore, xgets, xlift, id, mbind, X_bind. unfold ram_store, in_ram.
  rewrite length_drop, E2, (proj2 (Z.leb_gt (_ + _) _)) by lia. by rewrite !andb_false_r.
Qed.
End load.
