(* ===== verification/ExCpu.v ===== *)
(** * The example monitor's vCPUs

    [vcpu_create], [vcpu_destroy], [vcpu_set_cpuid], [vcpu_init_regs] and
    [vcpu_set_debug_regs] of docs/example-vmm/vmm.c.  [struct kvm_segment] and
    [struct kvm_sregs] are those of Boot.v. *)
From S2P Require Import Prelude Memory Codec State Snapshot BiosRom VirtioRegs CopyWorkers Lazy Restore Boot ExVmm.
From stdpp Require Import options.

(** ** CPUID *)

Record kvm_cpuid_entry2 : Type := {
  ce_function : Z; ce_index : Z; ce_flags : Z; ce_eax : Z; ce_ebx : Z; ce_ecx : Z; ce_edx : Z; ce_padding : list Z
}.
#[export] Instance kvm_cpuid_entry2_eta : Eta kvm_cpuid_entry2 := fun e =>
  {| ce_function := ce_function e; ce_index := ce_index e; ce_flags := ce_flags e; ce_eax := ce_eax e;
     ce_ebx := ce_ebx e; ce_ecx := ce_ecx e; ce_edx := ce_edx e; ce_padding := ce_padding e |}.

Definition kvm_cpuid_entry2_codec : codec kvm_cpuid_entry2.
Proof.
  refine (cvia (cint 4 ⊗ cint 4 ⊗ cint 4 ⊗ cint 4 ⊗ cint 4 ⊗ cint 4 ⊗ cint 4 ⊗ craw 12)
    (fun e => (ce_function e, (ce_index e, (ce_flags e, (ce_eax e, (ce_ebx e, (ce_ecx e, (ce_edx e, ce_padding e))))))))
    (fun '(a, (b, (c, (d, (e, (f, (g, h))))))) =>
       {| ce_function := a; ce_index := b; ce_flags := c; ce_eax := d; ce_ebx := e; ce_ecx := f; ce_edx := g; ce_padding := h |}) _).
  abstract (by intros []).
Defined.

(** The assignments to leaf 1: the initial APIC identifier, no x2APIC, an APIC. *)
Definition fix_leaf (id : Z) (e : kvm_cpuid_entry2) : kvm_cpuid_entry2 :=
  if ce_function e =? 1 then
    e <| ce_ebx ::= (fun b => Z.lor (Z.land b 0x00ffffff) (Z.shiftl (Z.land id 0xff) 24)) |>
      <| ce_ecx ::= (fun c => Z.land c (bnot 32 (Z.shiftl 1 21))) |>
      <| ce_edx ::= (fun d => Z.lor d (Z.shiftl 1 9)) |>
  else e.

(** [struct kvm_cpuid2] with room for 256 entries: the first [nent] of them are
    fixed; more than the buffer has would be outside of it. *)
Definition fix_cpuid (id : Z) (buf : list Z) : result (list Z) :=
  let nent := Z.to_nat (le_dec (take 4 buf)) in
  if (256 <? nent)%nat then Fault OutOfBounds else
  let entries := c_get (carray 256 kvm_cpuid_entry2_codec) (drop 8 buf) in
  Ok (take 8 buf ++ c_put (carray 256 kvm_cpuid_entry2_codec)
        ((fix_leaf id <$> take nent entries) ++ drop nent entries)).

(** ** Registers *)

(** The macro [SET_SEG]. *)
Definition SET_SEG (sel base_addr typ : Z) (g : kvm_segment) : kvm_segment :=
  g <| sg_selector := sel |> <| sg_base := base_addr |> <| sg_limit := 0xFFFF |> <| sg_type := typ |>
    <| sg_s := 1 |> <| sg_dpl := 0 |> <| sg_present := 1 |> <| sg_avl := 0 |> <| sg_l := 0 |>
    <| sg_db := 0 |> <| sg_g := 0 |> <| sg_unusable := 0 |>.

(** [sregs.es = sregs.ds; sregs.fs = sregs.gs = sregs.ds]. *)
Definition copy_ds (r : kvm_sregs) : kvm_sregs :=
  r <| sr_es := sr_ds r |> <| sr_gs := sr_ds r |> <| sr_fs := sr_ds r |>.

Definition set_db (g : kvm_segment) : kvm_segment := g <| sg_db := 1 |>.

(** The assignments to [sregs], in order. *)
Definition ex_sregs (is_bsp : bool) (r : kvm_sregs) : kvm_sregs :=
  let r := r <| sr_cs ::= (if is_bsp then SET_SEG 0x1000 0x10000 0x0B else SET_SEG 0xF000 0xF0000 0x0B) |> in
  let r := copy_ds (r <| sr_ds ::= SET_SEG 0x1000 0x10000 0x03 |>) in
  let r := if is_bsp then r <| sr_ss ::= SET_SEG 0x1000 0x10000 0x03 |>
           else copy_ds (r <| sr_ss ::= SET_SEG 0x0000 0x00000 0x03 |> <| sr_ds ::= SET_SEG 0x0000 0x00000 0x03 |>) in
  r <| sr_fs ::= set_db |> <| sr_es ::= set_db |> <| sr_ds ::= set_db |> <| sr_ss ::= set_db |> <| sr_gs ::= set_db |>
    <| sr_idt ::= (fun t => t <| dt_limit := 0xffff |> <| dt_base := 0 |>) |>
    <| sr_gdt ::= (fun t => t <| dt_limit := 0xffff |> <| dt_base := 0 |>) |>
    <| sr_cr0 := 0x00000010 |> <| sr_cr3 := 0 |> <| sr_cr4 := 0 |> <| sr_efer := 0 |>.

(** [struct kvm_regs] is 18 registers of 8 bytes: rsi is the fifth, rsp the
    seventh, rip and rflags the last two. *)
Definition kvm_regs_codec : codec (list Z) := carray 18 (cint 8).

Definition ex_regs (is_bsp : bool) (regs : list Z) : list Z :=
  <[6%nat := if is_bsp then 0x8000 else 0xF000]> (<[4%nat := 0x0000]>
    (<[16%nat := if is_bsp then 0x0200 else 0xFFF0]> (<[17%nat := 0x2]> regs))).

Definition KVM_MP_STATE_RUNNABLE : Z := 0.
Definition KVM_MP_STATE_INIT_RECEIVED : Z := 2.

Section vcpu.
  Context {H : XHost}.

(** ** Creating and destroying *)

Definition sizeof_vcpu : Z := 56.

Definition vcpu_create (vcpu_id : Z) : X (option Vcpu) :=
  s ← xgets id;
  p ← xsys (x_calloc sizeof_vcpu);
  if r_ret p =? 0 then mret None else
  f ← xsys (x_kvm_create_vcpu (vm_fd s) vcpu_id);
  let fd := r_ret f in
  if fd <? 0 then xsys_ (x_free (r_ret p)) ;; mret None else
  m ← xsys (x_kvm_vcpu_mmap_size (kvm_fd s));
  if r_ret m <? 0 then xsys_ (x_close fd) ;; xsys_ (x_free (r_ret p)) ;; mret None else
  run ← xsys (x_mmap_run fd (r_ret m));
  if r_ret run =? -1 then xsys_ (x_close fd) ;; xsys_ (x_free (r_ret p)) ;; mret None else
  mret (Some {| vc_self := r_ret p; vc_id := vcpu_id; vc_fd := fd; vc_run := r_ret run;
                vc_exit := KVM_EXIT_OTHER 0; vc_mmap_size := r_ret m; vc_thread := 0;
                vc_running := false; vc_is_bsp := vcpu_id =? 0 |}).

Definition vcpu_destroy (vcpu : option Vcpu) : X unit :=
  match vcpu with
  | None => xskip
  | Some v =>
    xwhen (negb (vc_run v =? 0) && negb (vc_run v =? -1)) (xsys_ (x_munmap (vc_run v) (vc_mmap_size v))) ;;
    xwhen (0 <=? vc_fd v) (xsys_ (x_close (vc_fd v))) ;;
    xsys_ (x_free (vc_self v))
  end.

(** ** Initial state: 0, or -1 for a call that failed *)

Definition vcpu_set_cpuid (v : Vcpu) : X Z :=
  s ← xgets id;
  let nent := 256 in
  p ← xsys (x_calloc (8 + nent * sizeof_cpuid_entry));
  if r_ret p =? 0 then mret (-1) else
  let cpuid := le_enc 4 nent ++ zeros (4 + nent * sizeof_cpuid_entry) in
  g ← xsys (x_kvm_supported_cpuid (kvm_fd s) cpuid);
  if r_ret g <? 0 then xsys_ (x_free (r_ret p)) ;; mret (-1) else
  cpuid ← xlift (fix_cpuid (vc_id v) (overlay cpuid (r_data g)));
  r ← xsys (x_kvm_set_cpuid2 (vc_fd v) cpuid);
  xsys_ (x_free (r_ret p)) ;;
  mret (if r_ret r <? 0 then -1 else 0).

(** [locals]: what the uninitialised structures on the stack hold. *)
  Context (locals : xtrace -> kvm_item -> list Z).

(** [ioctl(fd, KVM_GET_.., &x)] with [x] a local; [None] for a failure. *)
Definition xkvm_get (fd : Z) (what : kvm_item) : X (option (list Z)) :=
  t ← xgets x_trace;
  r ← xsys (x_kvm_get fd what (locals t what));
  mret (if r_ret r <? 0 then None else Some (overlay (locals t what) (r_data r))).

Definition vcpu_init_regs (v : Vcpu) : X Z :=
  g ← xkvm_get (vc_fd v) KvmSregs;
  match g with
  | None => mret (-1)
  | Some sregs =>
    g ← xkvm_get (vc_fd v) KvmRegs;
    match g with
    | None => mret (-1)
    | Some regs =>
      let sregs := ex_sregs (vc_is_bsp v) (c_get kvm_sregs_codec sregs) in
      r ← xsys (x_kvm_set (vc_fd v) KvmSregs (c_put kvm_sregs_codec sregs));
      if r_ret r <? 0 then mret (-1) else
      let regs := ex_regs (vc_is_bsp v) (c_get kvm_regs_codec regs) in
      r ← xsys (x_kvm_set (vc_fd v) KvmRegs (c_put kvm_regs_codec regs));
      if r_ret r <? 0 then mret (-1) else
      let mp := if vc_is_bsp v then KVM_MP_STATE_RUNNABLE else KVM_MP_STATE_INIT_RECEIVED in
      r ← xsys (x_kvm_set (vc_fd v) KvmMpState (le_enc 4 mp));
      if r_ret r <? 0 then mret (-1) else
      c ← vcpu_set_cpuid v;
      mret (if c <? 0 then -1 else 0)
    end
  end.

(** [struct kvm_debugregs]: db[4], dr6, dr7, flags and 72 reserved bytes. *)
Definition vcpu_set_debug_regs (v : Vcpu) : X Z :=
  g ← xkvm_get (vc_fd v) KvmDebugregs;
  match g with
  | None => mret (-1)
  | Some _ =>
    debug ← xgets x_debug;
    let dr := if (debug : bool) then le_enc 8 0x10000 ++ zeros 24 ++ le_enc 8 0xFFFF0FF0 ++ le_enc 8 0 ++ zeros 80
              else zeros 128 in
    r ← xsys (x_kvm_set (vc_fd v) KvmDebugregs dr);
    mret (if r_ret r <? 0 then -1 else 0)
  end.
End vcpu.
