(* ===== verification/ExMain.v ===== *)
(** * The example monitor's life cycle

    [vmm_create], [vmm_destroy], [vmm_map_memory], [vmm_load_disk], [vcpu_thread],
    [vmm_run_all], [vmm_wait_all] and [main] of docs/example-vmm/vmm.c.  The
    threads of the vCPUs run in any order: [run_threads] takes the order as a list
    of vCPU numbers, each a turn of that vCPU's thread, which is either its
    start or one pass of its loop. *)
From S2P Require Import Prelude Memory Codec State Snapshot BiosRom VirtioRegs CopyWorkers Lazy Restore Boot Config Cli ExVmm ExFrame ExIde ExBlk ExIo ExAcpi ExBios ExKernel ExCpu.
From stdpp Require Import options.

(** ** The structure *)

Definition ex_uart_zero : ExUart := {|
  uart_lcr := 0; uart_dll := 0; uart_dlh := 0; uart_ier := 0; uart_fcr := 0;
  uart_mcr := 0; uart_msr := 0; uart_scr := 0; uart_lsr := 0 |}.
Definition ex_ide_zero : ExIde := {|
  ide_status := 0; ide_error := 0; ide_nsect := 0; ide_lba_low := 0; ide_lba_mid := 0; ide_lba_high := 0;
  ide_drive_head := 0; ide_command_reg := 0; ide_control := 0; ide_cur_lba := 0;
  ide_data := replicate 256 0; ide_data_pos := 0; ide_data_len := 0 |}.
Definition ex_vio_zero : ExVio := {|
  vio_status := 0; vio_isr := 0; vio_queue_sel := 0; vio_guest_page_size := 0; vio_queue_num := 0;
  vio_queue_align := 0; vio_queue_desc := 0; vio_queue_avail := 0; vio_queue_used := 0;
  vio_queue_pfn := 0; vio_used_idx := 0; vio_notify := 0; vio_config := zeros 128 |}.

(** The structure as [calloc] makes it; without a structure [x_self] is null. *)
Definition ex_vmm_zero (self : Z) (debug : bool) (t : xtrace) : ExVmm := {|
  x_self := self; kvm_fd := 0; vm_fd := 0; mem_size := 0; x_mem := 0; x_ram := fun _ => 0;
  nr_vcpus := 0; x_vcpu_array := 0; vcpus := []; x_uart := ex_uart_zero;
  disk_fd := 0; disk_size := 0; disk_num_sectors := 0; x_ide := ex_ide_zero; x_vio := ex_vio_zero;
  x_debug := debug; x_trace := t |}.

Definition sizeof_vmm : Z := 832.

Section life.
  Context {H : XHost}.

(** [free(vmm)]. *)
Definition free_vmm : X unit :=
  s ← xgets id;
  xsys_ (x_free (x_self s)) ;;
  xmodify (fun s => s <| x_self := 0 |>).

(** [close(vmm->kvm_fd); free(vmm); return NULL], with [vm_fd] before it. *)
Definition close_kvm : X bool :=
  s ← xgets id;
  xsys_ (x_close (kvm_fd s)) ;;
  free_vmm ;;
  mret false.
Definition close_vm : X bool :=
  s ← xgets id;
  xsys_ (x_close (vm_fd s)) ;;
  close_kvm.

(** [vmm_create] once the VM exists: interrupt controllers, timer and the array of
    vCPUs. *)
Definition create_chips (nr : Z) : X bool :=
  s ← xgets id;
  c ← xsys (x_kvm_create_irqchip (vm_fd s));
  if r_ret c <? 0 then close_vm else
  p ← xsys (x_kvm_create_pit2 (vm_fd s));
  if r_ret p <? 0 then close_vm else
  a ← xsys (x_calloc (nr * 8));
  xmodify (fun s => s <| x_vcpu_array := r_ret a |> <| vcpus := replicate (Z.to_nat nr) None |>) ;;
  if r_ret a =? 0 then close_vm else
  xsys_ x_mutex_init ;;
  mret true.

(** [vmm_create] once /dev/kvm is open. *)
Definition create_vm (nr : Z) : X bool :=
  s ← xgets id;
  api ← xsys (x_kvm_api_version (kvm_fd s));
  if r_ret api <? 0 then close_kvm else
  if negb (r_ret api =? 12) then close_kvm else
  have ← xsys (x_kvm_user_memory (kvm_fd s));
  if r_ret have =? 0 then close_kvm else
  v ← xsys (x_kvm_create_vm (kvm_fd s));
  xmodify (fun s => s <| vm_fd := r_ret v |>) ;;
  if r_ret v <? 0 then close_kvm else
  create_chips nr.

(** [false] stands for a null result. *)
Definition vmm_create (size nr : Z) : X bool :=
  p ← xsys (x_calloc sizeof_vmm);
  if r_ret p =? 0 then mret false else
  xmodify (fun s => (ex_vmm_zero (r_ret p) (x_debug s) (x_trace s))
    <| mem_size := size |> <| nr_vcpus := nr |>
    <| x_uart ::= (fun u => u <| uart_lcr := 0x03 |> <| uart_lsr := 0x60 |> <| uart_msr := 0xf0 |> <| uart_dll := 0x01 |>) |>) ;;
  k ← xsys (x_open (bytes "/dev/kvm") true);
  xmodify (fun s => s <| kvm_fd := r_ret k |>) ;;
  if r_ret k <? 0 then free_vmm ;; mret false else
  create_vm nr.

(** The structure exists whenever this is called. *)
Definition vmm_destroy : X unit :=
  s ← xgets id;
  xfor (seqZ 0 (nr_vcpus s)) (fun i =>
    match vcpus s !! Z.to_nat i with
    | None => xfail OutOfBounds
    | Some None => xskip
    | Some (Some v) => vcpu_destroy (Some v)
    end) ;;
  xsys_ (x_free (x_vcpu_array s)) ;;
  xwhen (negb (x_mem s =? 0)) (xsys_ (x_munmap (x_mem s) (mem_size s))) ;;
  xsys_ x_mutex_destroy ;;
  xwhen (0 <=? disk_fd s) (xsys_ (x_close (disk_fd s))) ;;
  xwhen (0 <=? vm_fd s) (xsys_ (x_close (vm_fd s))) ;;
  xwhen (0 <=? kvm_fd s) (xsys_ (x_close (kvm_fd s))) ;;
  free_vmm.

(** New anonymous memory is zero. *)
Definition vmm_map_memory : X Z :=
  s ← xgets id;
  m ← xsys (x_mmap_ram (mem_size s));
  xmodify (fun s => s <| x_mem := r_ret m |> <| x_ram := fun _ => 0 |>) ;;
  if r_ret m =? -1 then mret (-1) else
  r ← xsys (x_memory_region (vm_fd s) 0 0 0 (mem_size s) (r_ret m));
  if r_ret r <? 0 then
    xsys_ (x_munmap (r_ret m) (mem_size s)) ;;
    xmodify (fun s => s <| x_mem := 0 |>) ;;
    mret (-1)
  else mret 0.

(** The device's configuration space for a disk of [n] sectors. *)
Definition ex_blk_config (n : Z) : list Z :=
  overwrite 0x14 (le_enc 4 512) (overwrite 0x0c (le_enc 4 32) (overwrite 0 (le_enc 8 n) (zeros 128))).

Definition attach_disk (fd : Z) : X Z :=
  l ← xsys (x_lseek_end fd);
  let size := r_ret l in
  if size <? 0 then xsys_ (x_close fd) ;; mret (-1) else
  if size <? 512 then xsys_ (x_close fd) ;; mret (-1) else
  let n := u32 (size / 512) in
  xmodify (fun s => s <| disk_fd := fd |> <| disk_size := size |> <| disk_num_sectors := n |>
    <| x_ide ::= (fun d => d <| ide_status := 0x50 |>) |> <| x_vio ::= (fun v => v <| vio_config := ex_blk_config n |>) |>) ;;
  mret 0.

Definition vmm_load_disk (path : list Z) : X Z :=
  o ← xsys (x_open path true);
  if r_ret o <? 0 then
    o ← xsys (x_open path false);
    if r_ret o <? 0 then mret (-1) else attach_disk (r_ret o)
  else attach_disk (r_ret o).

(** ** Threads *)

  Context (locals : xtrace -> kvm_item -> list Z) (stack : xtrace -> Z -> mem).

(** A thread that has not begun, one in its loop, one that has returned. *)
Inductive tstate : Type := Fresh | Looping | Done.

#[export] Instance tstate_eq_dec : EqDecision tstate.
Proof. solve_decision. Defined.

(** A turn of the thread of vCPU [c].  Its start initialises the registers and
    sets [running]; then it makes passes of its loop.  [None] when a queue was
    not processed within the fuel. *)
Definition vcpu_thread_turn (chain fuel : nat) (c : Z) (st : tstate) : X (option tstate) :=
  match st with
  | Fresh =>
    v ← xvcpu c;
    r ← vcpu_init_regs locals v;
    if r <? 0 then mret (Some Done) else
    xupd_vcpu c (fun v => v <| vc_running := true |>) ;;
    mret (Some Looping)
  | Looping =>
    r ← vcpu_pass stack chain fuel c;
    mret ((fun go : bool => if go then Looping else Done) <$> r)
  | Done => mret (Some Done)
  end.

(** A thread on its own, for at most [passes] passes of the loop. *)
Definition vcpu_thread (passes chain fuel : nat) (c : Z) : X (option unit) :=
  v ← xvcpu c;
  r ← vcpu_init_regs locals v;
  if r <? 0 then mret (Some ()) else
  xupd_vcpu c (fun v => v <| vc_running := true |>) ;;
  vcpu_loop stack passes chain fuel c.

(** All threads, in the order [turns]. *)
Fixpoint run_threads (chain fuel : nat) (turns : list Z) (st : list tstate) : X (option (list tstate)) :=
  match turns with
  | [] => mret (Some st)
  | c :: turns' =>
    match st !! Z.to_nat c with
    | None => run_threads chain fuel turns' st
    | Some t =>
      t' ← vcpu_thread_turn chain fuel c t;
      match t' with
      | None => mret None
      | Some t' => run_threads chain fuel turns' (<[Z.to_nat c := t']> st)
      end
    end
  end.

(** ** All vCPUs: [false] when the process has exited with status 1 *)

Fixpoint create_all (ids : list Z) : X bool :=
  match ids with
  | [] => mret true
  | i :: ids' =>
    v ← vcpu_create i;
    xmodify (fun s => s <| vcpus ::= <[Z.to_nat i := v]> |>) ;;
    match v with
    | None => xsys_ (x_exit 1) ;; mret false
    | Some _ => create_all ids'
    end
  end.

(** The thread's identifier is what [pthread_create] stores. *)
Fixpoint start_all (ids : list Z) : X bool :=
  match ids with
  | [] => mret true
  | i :: ids' =>
    r ← xsys (x_pthread_create i);
    if negb (r_ret r =? 0) then xsys_ (x_exit 1) ;; mret false else
    xupd_vcpu i (fun v => v <| vc_thread := le_dec (r_data r) |>) ;;
    start_all ids'
  end.

Definition vmm_run_all : X bool :=
  nr ← xgets nr_vcpus;
  ok ← create_all (seqZ 0 nr);
  if (ok : bool) then start_all (seqZ 0 nr) else mret false.

Definition vmm_wait_all : X unit :=
  s ← xgets id;
  xfor (seqZ 0 (nr_vcpus s)) (fun i =>
    match vcpus s !! Z.to_nat i with
    | None => xfail OutOfBounds
    | Some None => xskip
    | Some (Some _) => xsys_ (x_pthread_join i)
    end).

(** ** The command line *)

Record ex_args : Type := {
  a_kernel : option (list Z); a_initrd : option (list Z); a_disk : option (list Z);
  a_mem_mb : Z; a_nr_vcpus : Z; a_cmdline : list Z; a_debug : bool
}.
#[export] Instance ex_args_eta : Eta ex_args := fun a =>
  {| a_kernel := a_kernel a; a_initrd := a_initrd a; a_disk := a_disk a; a_mem_mb := a_mem_mb a;
     a_nr_vcpus := a_nr_vcpus a; a_cmdline := a_cmdline a; a_debug := a_debug a |}.

(** [snprintf(cmdline_buf, 1024, "%s", s)]. *)
Definition cmdline_buf (s : list Z) : list Z := take 1023 s.

Definition GUEST_CMDLINE_DEFAULT : list Z := bytes "console=ttyS0,115200n8 earlyprintk=serial,0x3f8,115200 nokaslr".

Definition ex_args_default : ex_args := {|
  a_kernel := None; a_initrd := None; a_disk := None; a_mem_mb := 128; a_nr_vcpus := 2;
  a_cmdline := cmdline_buf GUEST_CMDLINE_DEFAULT; a_debug := false |}.

(** The value of the leading digits, however many there are. *)
Fixpoint digits_value (p : list Z) (acc : Z) : Z :=
  match p with
  | [] => acc
  | c :: p' => match digit_val 10 c with Some v => digits_value p' (acc * 10 + v) | None => acc end
  end.

(** [strtoul(s, NULL, 10)]. *)
Definition strtoul10 (s : list Z) : Z :=
  let '(neg, p) := scan_sign (skip_space s) in
  let v := digits_value p 0 in
  if 2 ^ 64 <=? v then 2 ^ 64 - 1 else if (neg : bool) then u64 (- v) else v.

(** The options of "k:i:m:s:c:D:dh": with an argument, or without. *)
Definition set_option (c : Z) (optarg : list Z) (a : ex_args) : option ex_args :=
  if c =? 107 then Some (a <| a_kernel := Some optarg |>)
  else if c =? 105 then Some (a <| a_initrd := Some optarg |>)
  else if c =? 109 then Some (a <| a_mem_mb := strtoul10 optarg |>)
  else if c =? 115 then Some (a <| a_nr_vcpus := if atoi optarg <? 1 then 1 else atoi optarg |>)
  else if c =? 99 then Some (a <| a_cmdline := cmdline_buf optarg |>)
  else if c =? 68 then Some (a <| a_disk := Some optarg |>)
  else None.

Definition set_flag (c : Z) (a : ex_args) : option ex_args :=
  if c =? 100 then Some (a <| a_debug := true |>) else None.

Definition takes_arg (c : Z) : bool := bool_decide (c ∈ bytes "kimscD").

(** The letters of one word: [None] for -h or an unknown letter; otherwise the
    settings, and the letter whose argument is the next word. *)
Fixpoint getopt_word (w : list Z) (a : ex_args) : option (ex_args * option Z) :=
  match w with
  | [] => Some (a, None)
  | c :: w' =>
    if takes_arg c then
      match w' with
      | [] => Some (a, Some c)
      | _ => a' ← set_option c w' a; Some (a', None)
      end
    else a' ← set_flag c a; getopt_word w' a'
  end.

(** GNU [getopt] over the words after the program's name: words that are not
    options are passed over, "--" ends the options.  [None]: usage. *)
Fixpoint getopt_all (args : list (list Z)) (a : ex_args) : option ex_args :=
  match args with
  | [] => Some a
  | w :: args' =>
    match w with
    | 45 :: ((_ :: _) as letters) =>
      if bool_decide (letters = [45]) then Some a else
      '(a', pending) ← getopt_word letters a;
      match pending, args' with
      | None, _ => getopt_all args' a'
      | Some c, optarg :: args'' => a'' ← set_option c optarg a'; getopt_all args'' a''
      | Some _, [] => None
      end
    | _ => getopt_all args' a
    end
  end.

(** ** main: the exit status, [None] while a thread or a read is not done *)

Definition ex_fail : X (option Z) := vmm_destroy ;; mret (Some 1).

(** Everything before the vCPUs: [Some true] when the guest is ready. *)
Definition ex_prepare (fuel : nat) (a : ex_args) (kernel : list Z) : X (option bool) :=
  b ← bios_install fuel;
  match b with
  | None => mret None
  | Some _ =>
    r ← acpi_install;
    if r <? 0 then mret (Some false) else
    k ← kernel_load fuel kernel (a_initrd a) (a_cmdline a);
    mret ((fun r => negb (r <? 0)) <$> k)
  end.

Definition ex_run (chain fuel : nat) (turns : list Z) : X (option Z) :=
  ok ← vmm_run_all;
  if negb ok then mret (Some 1) else
  nr ← xgets nr_vcpus;
  st ← run_threads chain fuel turns (replicate (Z.to_nat nr) Fresh);
  match st with
  | None => mret None
  | Some st =>
    if bool_decide (Forall (fun t => t = Done) st) then
      vmm_wait_all ;;
      vmm_destroy ;;
      mret (Some 0)
    else mret None
  end.

Definition ex_machine (chain fuel : nat) (turns : list Z) (a : ex_args) (kernel : list Z) : X (option Z) :=
  let mem_mb := if a_mem_mb a <? 8 then 8 else a_mem_mb a in
  ok ← vmm_create (u64 (mem_mb * 1024 * 1024)) (a_nr_vcpus a);
  if negb ok then mret (Some 1) else
  r ← vmm_map_memory;
  if r <? 0 then ex_fail else
  r ← (match a_disk a with None => mret 0 | Some path => vmm_load_disk path end);
  if r <? 0 then ex_fail else
  p ← ex_prepare fuel a kernel;
  match p with
  | None => mret None
  | Some false => ex_fail
  | Some true => ex_run chain fuel turns
  end.

Definition usage : X (option Z) := xsys_ (x_exit 1) ;; mret (Some 1).

Definition ex_main (chain fuel : nat) (turns : list Z) (argv : list (list Z)) : X (option Z) :=
  match getopt_all (tail argv) ex_args_default with
  | None => usage
  | Some a =>
    match a_kernel a with
    | None => usage
    | Some kernel =>
      xmodify (fun s => s <| x_debug := a_debug a |>) ;;
      ex_machine chain fuel turns a kernel
    end
  end.
End life.
