(* ===== verification/ExGuestFacts.v ===== *)
(** * The guest the example monitor starts

    [bios_install], [acpi_install] and [kernel_load] one after the other: what
    each writes survives the others; and the registers each vCPU starts with. *)
From S2P Require Import Prelude Memory Codec State Snapshot BiosRom VirtioRegs CopyWorkers Lazy Restore Boot BootFacts SaveFacts ExVmm ExFrame ExAcpi ExAcpiFacts ExBios ExFiles ExBiosFacts ExKernel ExKernelFacts ExCpu ExMain.
From stdpp Require Import options.

(** ** Frames *)

(** Two memories that agree below 1 MB except for the loader's area. *)
Definition low_same (m m' : mem) : Prop :=
  forall b k, disj b k 0x10000 0x11000 -> b + k <= 0x100000 -> mem_get m' b k = mem_get m b k.

Lemma acpi_table_frame m m' a sig len :
  low_same m m' -> 0xE0000 <= a -> 8 <= len -> a + len <= 0x100000 ->
  acpi_table m a = Some (sig, len) -> acpi_table m' a = Some (sig, len).
Proof.
  intros L Ha Hl Hb. unfold acpi_table, rd. rewrite !(L a 4), !(L (a + 4) (Z.of_nat 4)) by (unfold disj; lia).
  destruct (sum8 _ =? 0) eqn:E; [|done]. intros [= <- El]. rewrite El in *. rewrite (L a len) by (unfold disj; lia). by rewrite E.
Qed.

Lemma acpi_layout_frame m m' n dsdt fadt :
  low_same m m' -> 1 <= n <= 8152 -> 0xE0000 <= dsdt -> dsdt + 36 <= 0x100000 -> 0xE0000 <= fadt -> fadt + 44 <= 0x100000 ->
  acpi_layout m n dsdt fadt -> acpi_layout m' n dsdt fadt.
Proof.
  intros L Hn ? ? ? ? []. split; rewrite ?L by (unfold disj; lia); try done; by eapply acpi_table_frame; [exact L|lia|lia|lia|].
Qed.

Lemma bios_layout_frame m m' size n blob :
  1 <= n <= 603 -> (forall b k, disj b k 0x10000 0x11000 -> disj b k 0xE0000 0x10000 -> b + k <= 0x100000 -> mem_get m' b k = mem_get m b k) ->
  bios_layout m size n blob -> bios_layout m' size n blob.
Proof.
  intros Hn L [B1 B2 B3 B4 B5 B6 B7]. assert (G : forall b k l, mem_get m b k = l ->
    disj b k 0x10000 0x11000 -> disj b k 0xE0000 0x10000 -> b + k <= 0x100000 -> mem_get m' b k = l) by (intros; by rewrite L).
  split; [eapply G; [exact B1|..]|eapply G; [exact B2|..]|eapply G; [exact B3|..]|eapply G; [exact B4|..]|eapply G; [exact B5|..]| |
          eapply G; [exact B7|..]]; try (unfold disj; lia).
  apply (mp_layout_frame m); [done| |done]. apply L; unfold disj; lia.
Qed.

(** ** The guest before the first instruction *)

(** What BIOS, operating system and boot loader find in guest RAM, for [n] vCPUs. *)
Record guest_ready (m : mem) (size n : Z) (blob img : list Z) (initrd : option (list Z)) (cmdline : list Z) : Prop := {
  gr_acpi : exists dsdt, acpi_find_cpus m 0xE0000 = Some (wrap 8 <$> seqZ 0 n, dsdt);
  gr_mp : mp_find_cpus m 0xFD000 = Some ((fun j => (u8 j, j =? 0)) <$> seqZ 0 n);
  gr_e820 : e820_map m = ex_e820_entries size;
  gr_bios : bios_layout m size n blob;
  gr_kernel : kernel_placed m size img initrd cmdline
}.

Lemma e820_found m size n blob : 0x100000 <= size < 2 ^ 64 -> bios_layout m size n blob -> e820_map m = ex_e820_entries size.
Proof.
  intros Hs [_ E1 E2 _ _ _ _]. unfold e820_map. change E820_MAP_START with 0x9FC00. rewrite (rd_enc m 4 _ _ E1) by done.
  change (0x9FC00 + 4) with 0x9FC04. change (sizeof_e820entry * 5) with 100. rewrite E2. unfold ex_e820_bytes.
  rewrite <- (app_nil_r (mjoin _)). change (Z.to_nat 5) with (length (ex_e820_entries size)). apply array_get_put.
  unfold ex_e820_entries. rewrite !Forall_cons. cbn. rewrite wrap_id by (unfold fits; lia).
  unfold fits, EBDA_START, MB_BIOS_SIZE, VGA_RAM_BEGIN, E820_RAM, E820_RESERVED, REAL_MODE_IVT_BEGIN, MB_BIOS_BEGIN, MB_BIOS_END.
  split_and!; try lia; done.
Qed.

(** The map is not the main monitor's: it has an entry more, for the range from
    video memory to the BIOS. *)
Theorem ex_e820_differs size : ex_e820_entries size <> e820_entries size.
Proof. discriminate. Qed.

Section prepare.
  Context {H : XHost} (files : list Z -> option (list Z)) {F : XFiles H files}.

(** C15: preparing the guest.  With a bzImage the loader takes, room for it and
    for the initrd, and up to 603 vCPUs, [bios_install], [acpi_install] and
    [kernel_load] succeed, and nothing one of them wrote is overwritten by
    another.  In guest RAM are then: ACPI tables and an MP table that list every
    vCPU once, in order, with the same APIC identifier in both and the first one
    marked as boot processor; an E820 map of five entries; the interrupt
    vectors, the BIOS image below the MP table and the reset vector; and the
    kernel's setup code, the kernel at 1 MB, the command line and the initrd where
    the setup header says. *)
Theorem ex_guest_prepared fuel a kernel img s :
  loadable files (mem_size s) kernel (a_initrd a) img -> 1 <= nr_vcpus s <= 603 ->
  (forall p c, files p = Some c -> (length c < fuel)%nat) ->
  xwp (ex_prepare fuel a kernel) (fun r s' => r = Some true /\ moved s s' /\
    guest_ready (x_ram s') (mem_size s) (nr_vcpus s) (default [] (files BIOS_BIN_PATH)) img (a_initrd a ≫= files) (a_cmdline a)) s.
Proof using F.
  intros L Hn Hf. assert (Hs : 0x100000 <= mem_size s < 2 ^ 32).
  { destruct L. destruct (not_rejected _ ld_accepted). lia. }
  unfold ex_prepare. apply xwp_bind. xwp_use (bios_install_spec files fuel); [lia|lia|intros c; apply Hf|].
  intros b s1 (-> & M1 & B1). pose proof (moved_size _ _ M1) as Z1. assert (N1 : nr_vcpus s1 = nr_vcpus s) by (by rewrite M1).
  apply xwp_bind. xwp_use acpi_install_spec; [lia|lia|]. intros r s2 (-> & W2 & dsdt & fadt & A2 & Hd & Hfd & Hb).
  change (0 <? 0) with false. cbv iota. pose proof (wrote_size _ _ _ _ W2) as Z2.
  apply xwp_bind. xwp_use (kernel_load_spec files fuel kernel (a_initrd a) img (a_cmdline a)); [by rewrite Z2, Z1|done|].
  intros k s3 (-> & M3 & K3 & L3). apply xwp_ret. split; [done|]. split; [moved_chain|]. rewrite Z2, Z1 in K3. rewrite N1 in *.
  assert (B3 : bios_layout (x_ram s3) (mem_size s) (nr_vcpus s) (default [] (files BIOS_BIN_PATH))).
  { apply (bios_layout_frame (x_ram s1)); [lia| |done]. intros b k D1 D2 Hbk. rewrite L3 by done. by apply (wrote_get _ _ _ _ _ _ W2). }
  split; [|apply mp_find_cpus_ok; [apply B3|lia]|eapply e820_found; [|exact B3]; lia|exact B3|exact K3].
  exists dsdt. apply (find_cpus_ok _ _ _ fadt); [|lia..]. by apply (acpi_layout_frame (x_ram s2)); [exact L3|lia..|].
Qed.
End prepare.

(** ** The vCPUs before the first instruction *)

(** A vCPU as it enters the guest, in real mode with interrupts off.  The boot
    processor is at the entry of the setup code with the setup segment in every
    segment register; the others are at the reset vector, waiting for a SIPI. *)
Definition ex_at_start (is_bsp : bool) (sregs : kvm_sregs) (regs : list Z) (mp : Z) : Prop :=
  let base := if is_bsp then 0x10000 else 0 in
  length regs = 18%nat /\
  regs !! 17%nat = Some 2 /\ regs !! 4%nat = Some 0 /\ Z.testbit (sr_cr0 sregs) 0 = false /\ sr_efer sregs = 0 /\
  (exists rip, regs !! 16%nat = Some rip /\ sg_base (sr_cs sregs) + rip = if is_bsp then 0x10200 else 0xFFFF0) /\
  (exists rsp, regs !! 6%nat = Some rsp /\ sg_base (sr_ss sregs) + rsp = if is_bsp then 0x18000 else 0xF000) /\
  Forall (fun g => sg_base g = sg_selector g * 16 /\ sg_limit g = 0xFFFF /\ sg_present g = 1 /\ sg_unusable g = 0)
    [sr_cs sregs; sr_ds sregs; sr_es sregs; sr_fs sregs; sr_gs sregs; sr_ss sregs] /\
  Forall (fun g => sg_base g = base) [sr_ds sregs; sr_es sregs; sr_fs sregs; sr_gs sregs; sr_ss sregs] /\
  mp = if is_bsp then KVM_MP_STATE_RUNNABLE else KVM_MP_STATE_INIT_RECEIVED.

(** The entry of a CPUID leaf for the vCPU with APIC identifier [id]: leaf 1 has
    the identifier, an APIC and no x2APIC; nothing else differs. *)
Definition leaf_for (id : Z) (e e' : kvm_cpuid_entry2) : Prop :=
  if ce_function e =? 1 then
    Z.shiftr (ce_ebx e') 24 = id /\ Z.testbit (ce_ecx e') 21 = false /\ Z.testbit (ce_edx e') 9 = true /\
    Z.land (ce_ebx e') 0xffffff = Z.land (ce_ebx e) 0xffffff /\
    (forall i, i <> 21 -> 0 <= i < 32 -> Z.testbit (ce_ecx e') i = Z.testbit (ce_ecx e) i) /\
    (forall i, i <> 9 -> Z.testbit (ce_edx e') i = Z.testbit (ce_edx e) i) /\
    e' = e <| ce_ebx := ce_ebx e' |> <| ce_ecx := ce_ecx e' |> <| ce_edx := ce_edx e' |>
  else e' = e.

Lemma fix_leaf_spec id e : leaf_for (u8 id) e (fix_leaf id e).
Proof.
  unfold leaf_for, fix_leaf. destruct (Z.eqb_spec (ce_function e) 1) as [E|]; [|done]. destruct e as [f x fl a b c d p]. unfold upd. cbn [ce_function ce_index ce_flags ce_eax ce_ebx ce_ecx ce_edx ce_padding].
  assert (Hid : Z.land id 0xff = u8 id) by (apply (Z.land_ones id 8); lia). rewrite Hid.
  pose proof (wrap_fits 8 id ltac:(lia)) as Hf. set (k := u8 id) in *. clearbody k. split_and!.
  - rewrite Z.shiftr_lor, Z.shiftr_land, Z.shiftr_shiftl_l by lia. change (Z.shiftr 0xffffff 24) with 0.
    rewrite Z.land_0_r, Z.lor_0_l. apply Z.shiftl_0_r.
  - rewrite Z.land_spec. by rewrite andb_comm.
  - rewrite Z.lor_spec. by rewrite orb_comm.
  - rewrite Z.land_lor_distr_l, <- Z.land_assoc, Z.land_diag. apply Z.bits_inj'. intros i Hi.
    rewrite Z.lor_spec, !Z.land_spec, Z.shiftl_spec by done. change 0xffffff with (Z.ones 24).
    destruct (decide (i < 24)); [rewrite (Z.testbit_neg_r k) by lia; by rewrite orb_false_r|].
    rewrite Z.ones_spec_high by lia. by rewrite !andb_false_r.
  - intros i Hi Hr. rewrite Z.land_spec. unfold bnot. rewrite Z.lxor_spec. change (2 ^ 32 - 1) with (Z.ones 32). change (Z.shiftl 1 21) with (2 ^ 21).
    rewrite Z.ones_spec_low, Z.pow2_bits_false by lia. by rewrite andb_true_r.
  - intros i Hi. rewrite Z.lor_spec. change (Z.shiftl 1 9) with (2 ^ 9). rewrite Z.pow2_bits_false by lia. by rewrite orb_false_r.
  - done.
Qed.

Lemma ex_at_start_ok b r regs : length regs = 18%nat ->
  ex_at_start b (ex_sregs b r) (ex_regs b regs) (if b then KVM_MP_STATE_RUNNABLE else KVM_MP_STATE_INIT_RECEIVED).
Proof.
  intros Hl. unfold ex_at_start, ex_regs. destruct r as [[] [] [] [] [] [] tr [] [] ? ? ? ? ? ? ?].
  do 19 (destruct regs as [|? regs]; try done). destruct b; split_and!; try done; try (eexists; split; [reflexivity|done]); by repeat constructor.
Qed.

(** The state given to KVM, call by call. *)
Definition xkvm_sets (t : xtrace) : list (Z * kvm_item * list Z) :=
  omap (fun e => match e.1 with
    | x_kvm_set fd what buf => Some (fd, what, buf)
    | x_kvm_set_cpuid2 fd buf => Some (fd, KvmCpuid2, buf)
    | _ => None end) t.

Lemma xkvm_sets_snoc t c r : xkvm_sets (t ++ [(c, r)]) = xkvm_sets t ++ match c with
    | x_kvm_set fd what buf => [(fd, what, buf)]
    | x_kvm_set_cpuid2 fd buf => [(fd, KvmCpuid2, buf)]
    | _ => [] end.
Proof. unfold xkvm_sets. rewrite omap_app. by destruct c. Qed.
Global Arguments xkvm_sets : simpl never.

(** KVM on a host with memory to spare: calls on a vCPU succeed, and the list of
    supported CPUID leaves fits in the space for 256 of them. *)
Class XKvm (H : XHost) : Prop := {
  xk_get t fd what buf : 0 <= r_ret (xreply_of t (x_kvm_get fd what buf));
  xk_set t fd what buf : 0 <= r_ret (xreply_of t (x_kvm_set fd what buf));
  xk_supported t fd buf : 0 <= r_ret (xreply_of t (x_kvm_supported_cpuid fd buf));
  xk_nent t fd buf : le_dec (take 4 (overlay buf (r_data (xreply_of t (x_kvm_supported_cpuid fd buf))))) <= 256;
  xk_cpuid2 t fd buf : 0 <= r_ret (xreply_of t (x_kvm_set_cpuid2 fd buf));
  xk_calloc t n : r_ret (xreply_of t (x_calloc n)) <> 0
}.

(** What [KVM_GET_SUPPORTED_CPUID] is handed: room for 256 entries. *)
Definition cpuid_room : list Z := le_enc 4 256 ++ zeros (4 + 256 * sizeof_cpuid_entry).

(** KVM answered [g] when it was asked for the CPUID it supports. *)
Definition kvm_offered (kvm : Z) (t : xtrace) (g : reply) : Prop :=
  (x_kvm_supported_cpuid kvm cpuid_room, g) ∈ t.

(** CPUID as given to the vCPU with identifier [id]: KVM's list [sup], its leaves
    adjusted. *)
Definition cpuid_for (id : Z) (sup out : list Z) : Prop :=
  take 8 out = take 8 sup /\
  exists es, out = take 8 sup ++ c_put (carray 256 kvm_cpuid_entry2_codec) es /\
    let es0 := c_get (carray 256 kvm_cpuid_entry2_codec) (drop 8 sup) in
    forall i e e', es0 !! i = Some e -> es !! i = Some e' ->
      if (i <? Z.to_nat (le_dec (take 4 sup)))%nat then leaf_for id e e' else e' = e.

Lemma fix_cpuid_spec id buf :
  le_dec (take 4 buf) <= 256 -> (8 <= length buf)%nat ->
  exists out, fix_cpuid id buf = Ok out /\ cpuid_for (u8 id) buf out.
Proof.
  intros Hn Hl. unfold fix_cpuid. set (n := Z.to_nat (le_dec (take 4 buf))). assert (n <= 256)%nat by lia.
  rewrite (proj2 (Nat.ltb_ge _ _)) by lia. eexists. split; [done|]. split.
  { rewrite take_app_le by (rewrite length_take; lia). by rewrite take_take. }
  eexists. split; [done|]. cbv zeta. set (es := c_get _ _). intros i e e' He He'. fold n.
  destruct (Nat.ltb_spec i n).
  - rewrite lookup_app_l in He' by (rewrite length_fmap, length_take; apply lookup_lt_Some in He; lia).
    rewrite list_lookup_fmap, lookup_take_lt, He in He' by done. injection He' as <-. apply fix_leaf_spec.
  - apply lookup_lt_Some in He as Hlt. rewrite lookup_app_r in He' by (rewrite length_fmap, length_take; lia).
    rewrite length_fmap, length_take, lookup_drop in He'. replace (n + (i - n `min` length es))%nat with i in He' by lia. congruence.
Qed.

Section start.
  Context {H : XHost} {K : XKvm H} (locals : xtrace -> kvm_item -> list Z).

(** Only calls were made, and the trace has grown by them. *)
Definition more_calls (s s' : ExVmm) : Prop := calls_only s s' /\ exists new, x_trace s' = x_trace s ++ new.

Lemma more_calls_trans s1 s2 s3 : more_calls s1 s2 -> more_calls s2 s3 -> more_calls s1 s3.
Proof.
  intros [C1 [n1 T1]] [C2 [n2 T2]]. split; [unfold calls_only in *; by rewrite C2, C1|].
  exists (n1 ++ n2). by rewrite T2, T1, app_assoc.
Qed.

Lemma xkvm_get_step fd what (Q : option (list Z) -> ExVmm -> Prop) s :
  (forall buf s', more_calls s s' -> xkvm_sets (x_trace s') = xkvm_sets (x_trace s) -> Q (Some buf) s') ->
  xwp (xkvm_get locals fd what) Q s.
Proof using K.
  intros HQ. unfold xkvm_get. do 5 xwp_one. pose proof (xk_get (x_trace s) fd what (locals (x_trace s) what)) as Hg. rewrite <- Hr in Hg.
  rewrite (proj2 (Z.ltb_ge _ _)) by done. apply HQ; [split; [by destruct s|by eexists]|].
  change (x_trace (upd x_trace ?f s)) with (f (x_trace s)). cbv beta. rewrite xkvm_sets_snoc. apply app_nil_r.
Qed.

(** A call: only the trace grows, by that call. *)
Lemma sys_step c (Q : reply -> ExVmm -> Prop) s :
  (forall s', more_calls s s' -> x_trace s' = x_trace s ++ [(c, xreply_of (x_trace s) c)] ->
     xkvm_sets (x_trace s') = xkvm_sets (x_trace s) ++ match c with
      | x_kvm_set fd what buf => [(fd, what, buf)] | x_kvm_set_cpuid2 fd buf => [(fd, KvmCpuid2, buf)] | _ => [] end ->
     Q (xreply_of (x_trace s) c) s') -> xwp (xsys c) Q s.
Proof using. clear K. intros HQ. apply xwp_sys. intros r ->. apply HQ; [split; [by destruct s|by eexists]|done|]. apply xkvm_sets_snoc. Qed.

Lemma vcpu_set_cpuid_spec v s :
  xwp (vcpu_set_cpuid v) (fun r s' => r = 0 /\ calls_only s s' /\ exists new g out,
    x_trace s' = x_trace s ++ new /\ kvm_offered (kvm_fd s) new g /\
    cpuid_for (u8 (vc_id v)) (overlay cpuid_room (r_data g)) out /\
    xkvm_sets (x_trace s') = xkvm_sets (x_trace s) ++ [(vc_fd v, KvmCpuid2, out)]) s.
Proof using K.
  unfold vcpu_set_cpuid. xwp_one. xwp_one. cbv zeta.
  apply xwp_bind, sys_step. intros s1 C1 T1 S1. rewrite (proj2 (Z.eqb_neq _ _)) by apply xk_calloc.
  apply xwp_bind, sys_step. intros s2 C2 T2 S2. rewrite (proj2 (Z.ltb_ge _ _)) by apply xk_supported. apply xwp_bind.
  fold cpuid_room in T2, S2 |- *. unfold id in *. set (g := xreply_of _ (x_kvm_supported_cpuid _ _)) in *.
  destruct (fix_cpuid_spec (vc_id v) (overlay cpuid_room (r_data g))) as (out & E & Hout);
    [apply xk_nent|unfold cpuid_room; rewrite overlay_length, length_app, le_enc_length; unfold zeros; rewrite length_replicate; unfold sizeof_cpuid_entry; lia|].
  eapply xwp_lift; [exact E|]. apply xwp_bind, sys_step. intros s3 C3 T3 S3. unfold xsys_. apply xwp_bind, xwp_bind, sys_step.
  intros s4 C4 T4 S4. apply xwp_skip, xwp_ret. rewrite (proj2 (Z.ltb_ge _ _)) by apply xk_cpuid2. split; [done|].
  pose proof (more_calls_trans _ _ _ (more_calls_trans _ _ _ C1 C2) (more_calls_trans _ _ _ C3 C4)) as [C [new T]].
  split; [done|]. exists new, g, out. split; [done|]. split; [|split; [done|by rewrite S4, S3, S2, S1, !app_nil_r]].
  assert (Hin : (x_kvm_supported_cpuid (kvm_fd s) cpuid_room, g) ∈ new); [|done].
  rewrite T4, T3, T2, T1, <- !app_assoc in T. apply (inj (app (x_trace s))) in T as <-. set_solver.
Qed.

(** C19: starting a vCPU, as the code does it.  With a KVM that takes the state,
    [vcpu_init_regs] succeeds and gives KVM exactly the segment registers, the
    general registers, the run state and CPUID, in this order.  The boot processor
    will run the setup code's entry at 0x10200 (not the reset vector, where the
    README and the comment in [main] have it start) with its stack and data in the
    setup segment; every other vCPU waits for a start-up interrupt at 0xF000:0xFFF0
    (the comment above the function says 0xF000:0x0000); all are in real mode with
    interrupts off.  CPUID is what KVM answered in this run when it was asked for
    what it supports, except that the initial APIC identifier of leaf 1 is the
    number the ACPI and MP tables list for this vCPU and that leaf 1 has an APIC
    and no x2APIC. *)
Theorem ex_vcpu_starts v s :
  xwp (vcpu_init_regs locals v) (fun r s' => r = 0 /\ calls_only s s' /\
    exists sregs regs mp new g out,
      x_trace s' = x_trace s ++ new /\ kvm_offered (kvm_fd s) new g /\
      ex_at_start (vc_is_bsp v) sregs regs mp /\
      cpuid_for (u8 (vc_id v)) (overlay cpuid_room (r_data g)) out /\
      xkvm_sets (x_trace s') = xkvm_sets (x_trace s) ++
        [(vc_fd v, KvmSregs, c_put kvm_sregs_codec sregs); (vc_fd v, KvmRegs, c_put kvm_regs_codec regs);
         (vc_fd v, KvmMpState, le_enc 4 mp); (vc_fd v, KvmCpuid2, out)]) s.
Proof using K.
  unfold vcpu_init_regs. apply xwp_bind, xkvm_get_step. intros sr s1 C1 S1. apply xwp_bind, xkvm_get_step. intros rg s2 C2 S2. cbv zeta.
  apply xwp_bind, sys_step. intros s3 C3 _ S3. rewrite (proj2 (Z.ltb_ge _ _)) by apply xk_set.
  apply xwp_bind, sys_step. intros s4 C4 _ S4. rewrite (proj2 (Z.ltb_ge _ _)) by apply xk_set.
  apply xwp_bind, sys_step. intros s5 C5 _ S5. rewrite (proj2 (Z.ltb_ge _ _)) by apply xk_set.
  pose proof (more_calls_trans _ _ _ (more_calls_trans _ _ _ (more_calls_trans _ _ _ C1 C2) (more_calls_trans _ _ _ C3 C4)) C5) as [C [t T]].
  apply xwp_bind. xwp_use vcpu_set_cpuid_spec. intros r s6 (-> & C6 & new & g & out & T6 & Hg & Hc & S6). apply xwp_ret. split; [done|].
  split; [unfold calls_only in *; by rewrite C6, C|].
  exists (ex_sregs (vc_is_bsp v) (c_get kvm_sregs_codec sr)), (ex_regs (vc_is_bsp v) (c_get kvm_regs_codec rg)),
    (if vc_is_bsp v then KVM_MP_STATE_RUNNABLE else KVM_MP_STATE_INIT_RECEIVED), (t ++ new), g, out.
  split; [by rewrite T6, T, app_assoc|]. split.
  { replace (kvm_fd s) with (kvm_fd s5) by (rewrite C; done). unfold kvm_offered in *.
    apply elem_of_app. by right. }
  split; [apply ex_at_start_ok, array_get_length|]. split; [done|]. rewrite S6, S5, S4, S3, S2, S1, <- !app_assoc. done.
Qed.
End start.
