(* ===== verification/ExLedger.v ===== *)
(** * What the example monitor holds

    A ledger of descriptors, heap blocks and mappings, kept along the calls of a
    trace.  Giving back something that is not held spoils the ledger for good.
    Device handlers and the run loop leave it alone; the life cycle balances it. *)
From S2P Require Import Prelude Memory Codec State Snapshot BiosRom VirtioRegs CopyWorkers Lazy Restore Boot Config Cli ExVmm ExFrame ExIde ExBlk ExIo ExAcpi ExBios ExKernel ExCpu ExMain.
From stdpp Require Import countable gmap options.
Local Open Scope Z_scope.

(** ** The ledger *)

Inductive resource : Type := RFd (fd : Z) | RHeap (p : Z) | RMap (a : Z).

#[export] Instance resource_eq_dec : EqDecision resource.
Proof. solve_decision. Defined.
#[export] Instance resource_countable : Countable resource.
Proof.
  refine (inj_countable' (fun r => match r with RFd z => (0%nat, z) | RHeap z => (1%nat, z) | RMap z => (2%nat, z) end)
    (fun p => match p with (0%nat, z) => RFd z | (1%nat, z) => RHeap z | (_, z) => RMap z end) _).
  by intros [].
Defined.

(** What a call obtains, given its result, and what it gives back. *)
Definition obtains (c : xcall) (ret : Z) : option resource :=
  match c with
  | x_calloc _ => if ret =? 0 then None else Some (RHeap ret)
  | x_open _ _ | x_kvm_create_vm _ | x_kvm_create_vcpu _ _ => if ret <? 0 then None else Some (RFd ret)
  | x_mmap_ram _ | x_mmap_run _ _ => if ret =? -1 then None else Some (RMap ret)
  | _ => None
  end.

Definition gives_back (c : xcall) : option resource :=
  match c with
  | x_free p => if p =? 0 then None else Some (RHeap p)
  | x_close fd => Some (RFd fd)
  | x_munmap a _ => Some (RMap a)
  | _ => None
  end.

Definition ledger_step (l : option (gset resource)) (e : xcall * reply) : option (gset resource) :=
  h ← l;
  match gives_back e.1 with
  | Some r => if bool_decide (r ∈ h) then Some (h ∖ {[r]}) else None
  | None => Some (match obtains e.1 (r_ret e.2) with Some r => {[r]} ∪ h | None => h end)
  end.

Definition ledger (t : xtrace) : option (gset resource) := foldl ledger_step (Some ∅) t.

Lemma ledger_snoc t e : ledger (t ++ [e]) = ledger_step (ledger t) e.
Proof. unfold ledger. by rewrite foldl_app. Qed.
Global Arguments ledger : simpl never.

(** A call with neither effect. *)
Definition neutral (c : xcall) : Prop := gives_back c = None /\ forall ret, obtains c ret = None.

Lemma ledger_neutral t c r : neutral c -> ledger (t ++ [(c, r)]) = ledger t.
Proof. intros [E1 E2]. rewrite ledger_snoc. unfold ledger_step. cbn. rewrite E1, E2. by destruct (ledger t). Qed.

(** ** Partial correctness

    The handlers may fault for some guests; [xwlp] speaks of the runs that do
    not. *)
Definition xwlp {A} (c : X A) (Q : A -> ExVmm -> Prop) (s : ExVmm) : Prop :=
  match c s with Ok (a, s') => Q a s' | Fault _ => True end.

Lemma xwlp_mono {A} (c : X A) (Q R : A -> ExVmm -> Prop) s :
  xwlp c Q s -> (forall a s', Q a s' -> R a s') -> xwlp c R s.
Proof. unfold xwlp. destruct (c s) as [[]|]; naive_solver. Qed.

Lemma xwlp_bind {A B} (c : X A) (k : A -> X B) Q s :
  xwlp c (fun a s' => xwlp (k a) Q s') s -> xwlp (c ≫= k) Q s.
Proof. unfold xwlp, mbind, X_bind. by destruct (c s) as [[]|]. Qed.

Lemma xwlp_ret {A} (a : A) (Q : A -> ExVmm -> Prop) s : Q a s -> xwlp (mret a) Q s.
Proof. done. Qed.

(** ** What handlers do not touch *)

(** The members that name what the machine holds. *)
Definition vhandle (v : Vcpu) : Z * Z * Z * Z := (vc_self v, vc_fd v, vc_run v, vc_mmap_size v).
Definition handles (s : ExVmm) : Z * Z * Z * Z * Z * Z * Z * Z * list (option (Z * Z * Z * Z)) :=
  (x_self s, kvm_fd s, vm_fd s, mem_size s, x_mem s, nr_vcpus s, x_vcpu_array s, disk_fd s,
   (fun v : option Vcpu => vhandle <$> v) <$> vcpus s).

(** A program that keeps the ledger and the handles. *)
Definition settled (s s' : ExVmm) : Prop := ledger (x_trace s') = ledger (x_trace s) /\ handles s' = handles s.
Definition idle {A} (c : X A) : Prop := forall s, xwlp c (fun _ s' => settled s s') s.

#[export] Instance settled_preorder : PreOrder settled.
Proof. split; [done|]. intros ? ? ? [] []. split; by etrans. Qed.

Create HintDb idle.

Section idle.
  Context {H : XHost}.

Lemma idle_bind {A B} (c : X A) (k : A -> X B) : idle c -> (forall a, idle (k a)) -> idle (c ≫= k).
Proof.
  intros Hc Hk s. apply xwlp_bind. eapply xwlp_mono; [apply Hc|]. intros a s1 S1.
  eapply xwlp_mono; [apply Hk|]. intros b s2 S2. by transitivity s1.
Qed.

Lemma idle_ret {A} (a : A) : idle (mret a).
Proof. by intros s. Qed.
Lemma idle_skip : idle xskip.
Proof. by intros s. Qed.
Lemma idle_gets {A} (f : ExVmm -> A) : idle (xgets f).
Proof. by intros s. Qed.
Lemma idle_fail {A} f : idle (@xfail A f).
Proof. by intros s. Qed.
Lemma idle_lift {A} (r : result A) : idle (xlift r).
Proof. intros s. by destruct r. Qed.
Lemma idle_sys c : neutral c -> idle (xsys c).
Proof. intros Hc s. split; [by apply ledger_neutral|done]. Qed.
Lemma idle_sys_ c : neutral c -> idle (xsys_ c).
Proof. intros Hc. apply idle_bind; [by apply idle_sys|intros; apply idle_skip]. Qed.
Lemma idle_when b c : idle c -> idle (xwhen b c).
Proof. by destruct b. Qed.
Lemma idle_uart f : idle (xupd_uart f).
Proof. by intros s. Qed.
Lemma idle_ide f : idle (xupd_ide f).
Proof. by intros s. Qed.
Lemma idle_vio f : idle (xupd_vio f).
Proof. by intros s. Qed.
Lemma idle_guest : idle xguest.
Proof. by intros s. Qed.
Lemma idle_if {A} (b : bool) (c1 c2 : X A) : idle c1 -> idle c2 -> idle (if b then c1 else c2).
Proof. by destruct b. Qed.
Lemma idle_for {A} (l : list A) (body : A -> X unit) : (forall x, idle (body x)) -> idle (xfor l body).
Proof. intros Hb. induction l as [|x l IH]; cbn [xfor]; [apply idle_skip|]. apply idle_bind; [done|by intros]. Qed.
Lemma idle_store a bs : idle (xstore a bs).
Proof.
  intros s. unfold xstore, xgets, xlift, xmodify, id, xwlp, mbind, X_bind.
  by destruct (ram_store (mem_size s) (x_ram s) a bs).
Qed.
Lemma idle_fetch a n : idle (xfetch a n).
Proof. apply idle_bind; [apply idle_gets|]. intros. apply idle_lift. Qed.
Lemma idle_vcpu c : idle (xvcpu c).
Proof. apply idle_bind; [apply idle_gets|]. intros s. by repeat case_match; [apply idle_ret|..]. Qed.

(** The members of a vCPU that are not handles. *)
Lemma idle_upd_vcpu c f : (forall v, vhandle (f v) = vhandle v) -> idle (xupd_vcpu c f).
Proof.
  intros Hf s. split; [done|]. unfold handles. cbn. f_equal. apply list_eq. intros i.
  rewrite !list_lookup_fmap, list_lookup_alter. case_decide; [subst i|done].
  destruct (vcpus s !! Z.to_nat c) as [[v|]|]; [|done..]. change (Some (Some (vhandle (f v))) = Some (Some (vhandle v))). by rewrite Hf.
Qed.
End idle.

(** Programs are idle by their structure. *)
Ltac idle_one :=
  lazymatch goal with
  | |- forall _, _ => intro
  | |- idle (mbind _ _) => apply idle_bind
  | |- idle (mret _) => apply idle_ret
  | |- idle xskip => apply idle_skip
  | |- idle (xgets _) => apply idle_gets
  | |- idle (xfail _) => apply idle_fail
  | |- idle (xlift _) => apply idle_lift
  | |- idle (xsys _) => apply idle_sys; done
  | |- idle (xsys_ _) => apply idle_sys_; done
  | |- idle (xwhen _ _) => apply idle_when
  | |- idle (xupd_uart _) => apply idle_uart
  | |- idle (xupd_ide _) => apply idle_ide
  | |- idle (xupd_vio _) => apply idle_vio
  | |- idle (xupd_vcpu _ _) => apply idle_upd_vcpu; done
  | |- idle xguest => apply idle_guest
  | |- idle (xstore _ _) => apply idle_store
  | |- idle (xfetch _ _) => apply idle_fetch
  | |- idle (xvcpu _) => apply idle_vcpu
  | |- idle (xfor _ _) => apply idle_for
  | |- idle (let _ := _ in _) => cbv zeta
  | |- idle (match ?x with _ => _ end) => destruct x
  | |- idle _ => first [solve [eauto with idle nocore] | progress cbv beta]
  end.
Ltac idle_run := repeat idle_one.

Section handlers.
  Context {H : XHost} (stack : xtrace -> Z -> mem).

Lemma idle_ide_load lba : idle (ide_load_sector lba).
Proof. unfold ide_load_sector. idle_run. Qed.
#[local] Hint Resolve idle_ide_load : idle.

Lemma idle_ide_store lba : idle (ide_store_sector lba).
Proof. unfold ide_store_sector. idle_run. Qed.
#[local] Hint Resolve idle_ide_store : idle.

Lemma idle_ide_command c : idle (ide_command c).
Proof. unfold ide_command, ide_identify. idle_run. Qed.
#[local] Hint Resolve idle_ide_command : idle.

Lemma idle_ide_in port size : idle (ide_in port size).
Proof. unfold ide_in, ide_data_in, ide_next_word. idle_run. Qed.
#[local] Hint Resolve idle_ide_in : idle.

Lemma idle_ide_out port size data : idle (ide_out port size data).
Proof. unfold ide_out, ide_data_out, ide_put_word, ide_sector_full. idle_run. Qed.
#[local] Hint Resolve idle_ide_out : idle.

Lemma idle_serial_out port b : idle (ex_serial_out port b).
Proof. unfold ex_serial_out. idle_run. Qed.
#[local] Hint Resolve idle_serial_out : idle.

Lemma idle_copy_into old data : idle (xcopy_into old data).
Proof. unfold xcopy_into. idle_run. Qed.
#[local] Hint Resolve idle_copy_into : idle.

Lemma idle_handle_io c : idle (vmm_handle_io c).
Proof.
  assert (Hin : forall port size p, idle (io_in port size p)) by (intros; unfold io_in; idle_run).
  assert (Hout : forall port size p, idle (io_out port size p)) by (intros; unfold io_out; idle_run).
  assert (Hitem : forall data size i, idle (io_item data size i)) by (intros; unfold io_item; idle_run).
  assert (Hall : forall port size idxs data, idle (io_in_all port size data idxs)).
  { intros port size idxs. induction idxs as [|i idxs IH]; intros data; cbn [io_in_all]; idle_run. }
  unfold vmm_handle_io. idle_run.
Qed.

Lemma idle_vio_read n gpa : idle (vio_read n gpa).
Proof. unfold vio_read. idle_run. Qed.
Lemma idle_vio_write n gpa v : idle (vio_write n gpa v).
Proof. unfold vio_write. idle_run. Qed.
Lemma idle_copy_struct {A} (c : codec A) var gpa : idle (copy_struct stack c var gpa).
Proof. unfold copy_struct, vio_copy_from_guest. idle_run. Qed.
#[local] Hint Resolve idle_vio_read idle_vio_write idle_copy_struct : idle.

Lemma idle_segment is_in off d data total chunk : idle (blk_segment is_in off d data total chunk).
Proof. unfold blk_segment, vio_copy_to_guest, vio_copy_from_guest, buf_write, buf_read. idle_run. Qed.
#[local] Hint Resolve idle_segment : idle.

Lemma idle_chain fuel is_in desc_gpa n off st_desc next data total :
  idle (blk_chain stack fuel is_in desc_gpa n off st_desc next data total).
Proof. revert st_desc next data total. induction fuel as [|fuel IH]; intros; cbn [blk_chain]; idle_run. Qed.
#[local] Hint Resolve idle_chain : idle.

Lemma idle_request fuel desc_gpa used_gpa n idx : idle (blk_request stack fuel desc_gpa used_gpa n idx).
Proof. unfold blk_request, blk_complete. idle_run. Qed.
#[local] Hint Resolve idle_request : idle.

Lemma idle_blk_loop chain fuel desc_gpa avail_gpa used_gpa n avail :
  idle (blk_loop stack chain fuel desc_gpa avail_gpa used_gpa n avail).
Proof. induction fuel as [|fuel IH]; cbn [blk_loop]; idle_run. Qed.
#[local] Hint Resolve idle_blk_loop : idle.

Lemma idle_handle_mmio chain fuel c : idle (vmm_handle_mmio stack chain fuel c).
Proof.
  assert (Hq : idle (vio_process_queue stack chain fuel)) by (unfold vio_process_queue, vio_inject_irq; idle_run).
  assert (Hw : forall off val, idle (ex_virtio_mmio_write stack chain fuel off val)) by (intros; unfold ex_virtio_mmio_write; idle_run).
  assert (Hr : forall off len, idle (ex_virtio_mmio_read off len)) by (intros; unfold ex_virtio_mmio_read; idle_run).
  unfold vmm_handle_mmio. idle_run.
Qed.

Lemma idle_pass chain fuel c : idle (vcpu_pass stack chain fuel c).
Proof. pose proof idle_handle_mmio. pose proof idle_handle_io. unfold vcpu_pass, xenter, xhandle_exit. idle_run. Qed.
End handlers.
#[export] Hint Resolve idle_pass : idle.
