(* ===== verification/ExLifeFacts.v ===== *)
(** * The example monitor gives back what it took *)
From S2P Require Import Prelude Memory Codec State Snapshot BiosRom VirtioRegs CopyWorkers Lazy Restore Boot Config Cli ExVmm ExFrame ExIde ExBlk ExIo ExAcpi ExBios ExKernel ExCpu ExMain ExLedger.
From stdpp Require Import countable gmap options.
Local Open Scope Z_scope.

(** A host that never hands out what is still held; a mapping is never at 0. *)
Class XFresh (H : XHost) : Prop := {
  fresh_new t c r h : ledger t = Some h -> obtains c (r_ret (xreply_of t c)) = Some r -> r ∉ h;
  fresh_map t n : r_ret (xreply_of t (x_mmap_ram n)) <> 0;
  fresh_run t fd n : r_ret (xreply_of t (x_mmap_run fd n)) <> 0
}.

(** Name the current state. *)
Ltac name_state x := lazymatch goal with |- xwlp _ _ ?t => set (x := t) end.

(** ** Borrowing *)

(** Between [t] and [t'] exactly [r] was obtained. *)
Definition borrowed (r : resource) (t t' : xtrace) : Prop :=
  ledger t' = (fun h => {[r]} ∪ h) <$> ledger t /\ forall h, ledger t = Some h -> r ∉ h.

Lemma borrow_back r t t' c rep : borrowed r t t' -> gives_back c = Some r -> ledger (t' ++ [(c, rep)]) = ledger t.
Proof.
  intros [E Hf] Hc. rewrite ledger_snoc. unfold ledger_step. rewrite E. destruct (ledger t) as [h|]; [|done]. cbn. rewrite Hc.
  specialize (Hf h eq_refl). rewrite bool_decide_eq_true_2 by set_solver. f_equal. set_solver.
Qed.

Lemma borrow_frame r t t' t'' : borrowed r t t' -> ledger t'' = ledger t' -> borrowed r t t''.
Proof. intros [E Hf] E2. split; [by rewrite E2|done]. Qed.

(** The first of two things is given back. *)
Lemma borrow_swap r1 r2 t t1 t2 c rep :
  borrowed r1 t t1 -> borrowed r2 t1 t2 -> r1 <> r2 -> gives_back c = Some r1 -> borrowed r2 t (t2 ++ [(c, rep)]).
Proof.
  intros [E1 F1] [E2 F2] Hne Hc. split.
  - rewrite ledger_snoc. unfold ledger_step. rewrite E2, E1. destruct (ledger t) as [h|]; [|done]. cbn. rewrite Hc.
    specialize (F1 h eq_refl). rewrite bool_decide_eq_true_2 by set_solver. f_equal. set_solver.
  - intros h Hh. rewrite E1, Hh in F2. specialize (F2 _ eq_refl). set_solver.
Qed.

Section fresh.
  Context {H : XHost} {Fr : XFresh H}.

Lemma got_borrow t c r : obtains c (r_ret (xreply_of t c)) = Some r -> borrowed r t (t ++ [(c, xreply_of t c)]).
Proof using Fr.
  intros Ho. split; [|by intros h Hh; eapply fresh_new].
  rewrite ledger_snoc. unfold ledger_step. cbn [fst snd]. rewrite Ho. destruct (ledger t) as [h|]; [|done]. cbn. by destruct c.
Qed.

Lemma got_nothing t c rep : obtains c (r_ret rep) = None -> gives_back c = None -> ledger (t ++ [(c, rep)]) = ledger t.
Proof. intros Ho Hg. rewrite ledger_snoc. unfold ledger_step. cbn. rewrite Hg, Ho. by destruct (ledger t). Qed.

(** A call in partial correctness. *)
Lemma xwlp_sys c (Q : reply -> ExVmm -> Prop) s :
  (forall s', x_trace s' = x_trace s ++ [(c, xreply_of (x_trace s) c)] -> handles s' = handles s -> Q (xreply_of (x_trace s) c) s') ->
  xwlp (xsys c) Q s.
Proof using. intros HQ. by apply HQ. Qed.

Lemma idle_use {A} (c : X A) (Q : A -> ExVmm -> Prop) s :
  idle c -> (forall a s', settled s s' -> Q a s') -> xwlp c Q s.
Proof using. intros Hc HQ. eapply xwlp_mono; [apply Hc|]. exact HQ. Qed.

(** [free] of a block that was borrowed. *)
Lemma idle_cpuid v : idle (vcpu_set_cpuid v).
Proof using Fr.
  intros s. unfold vcpu_set_cpuid. cbv zeta. apply xwlp_bind. apply idle_use; [apply idle_gets|]. intros s0 s1 S1.
  apply xwlp_bind, xwlp_sys. intros s2 T2 H2. set (p := r_ret _). 
  destruct (Z.eqb_spec p 0) as [E|E].
  { apply xwlp_ret. etrans; [exact S1|]. split; [|done]. rewrite T2. apply got_nothing; [|done]. cbn. fold p. by rewrite E. }
  assert (B2 : borrowed (RHeap p) (x_trace s1) (x_trace s2)).
  { rewrite T2. apply got_borrow. cbn. fold p. by rewrite (proj2 (Z.eqb_neq _ _)). }
  assert (Hfree : forall s3 (z : Z), borrowed (RHeap p) (x_trace s1) (x_trace s3) -> handles s3 = handles s1 ->
    xwlp (xsys_ (x_free p) ;; mret z) (fun _ s' => settled s s') s3).
  { intros s3 z B3 H3. apply xwlp_bind, xwlp_bind, xwlp_sys. intros s4 T4 H4. apply xwlp_ret, xwlp_ret. etrans; [exact S1|].
    split; [|by rewrite H4]. rewrite T4. apply (borrow_back (RHeap p)); [done|]. cbn. by rewrite (proj2 (Z.eqb_neq _ _)). }
  apply xwlp_bind. apply idle_use; [by apply idle_sys|]. intros g s3 [L3 H3].
  pose proof (borrow_frame _ _ _ _ B2 L3) as B3. destruct (r_ret g <? 0); [apply Hfree; [done|congruence]|].
  apply xwlp_bind, idle_use; [apply idle_lift|]. intros cpuid s4 [L4 H4]. pose proof (borrow_frame _ _ _ _ B3 L4) as B4.
  apply xwlp_bind, idle_use; [by apply idle_sys|]. intros r s5 [L5 H5]. apply Hfree; [by eapply borrow_frame|congruence].
Qed.
End fresh.
#[export] Hint Resolve idle_cpuid : idle.

Section parts.
  Context {H : XHost} {Fr : XFresh H} (locals : xtrace -> kvm_item -> list Z) (stack : xtrace -> Z -> mem).

(** ** The threads *)

Lemma idle_init_regs v : idle (vcpu_init_regs locals v).
Proof using Fr. unfold vcpu_init_regs, xkvm_get. idle_run. Qed.
#[local] Hint Resolve idle_init_regs : idle.

Lemma idle_turn chain fuel c st : idle (vcpu_thread_turn locals stack chain fuel c st).
Proof using Fr. unfold vcpu_thread_turn. idle_run. Qed.
#[local] Hint Resolve idle_turn : idle.

Lemma idle_threads chain fuel turns st : idle (run_threads locals stack chain fuel turns st).
Proof using Fr. revert st. induction turns as [|c turns IH]; intros st; cbn [run_threads]; idle_run. Qed.

(** ** Reading files *)

Lemma idle_read_loop fuel fd size acc : idle (file_read_loop fuel fd size acc).
Proof using. revert acc. induction fuel as [|fuel IH]; intros acc; cbn [file_read_loop]; idle_run. Qed.

(** The buffer, if there is one, is held; the descriptor is not. *)
Lemma read_file_ledger fuel path s :
  xwlp (read_whole_file fuel path) (fun r s' => match r with
    | None => True
    | Some None => settled s s'
    | Some (Some (p, _)) => p <> 0 /\ borrowed (RHeap p) (x_trace s) (x_trace s') /\ handles s' = handles s
    end) s.
Proof using Fr.
  unfold read_whole_file. cbv zeta. apply xwlp_bind, xwlp_sys. intros s1 T1 H1. set (fd := r_ret _).
  destruct (Z.ltb_spec fd 0).
  { apply xwlp_ret. split; [|done]. rewrite T1. apply got_nothing; [|done]. cbn. fold fd. by rewrite (proj2 (Z.ltb_lt _ _)). }
  assert (B1 : borrowed (RFd fd) (x_trace s) (x_trace s1)).
  { rewrite T1. apply got_borrow. cbn. fold fd. by rewrite (proj2 (Z.ltb_ge _ _)). }
  assert (Hclose : forall s2 (z : option (option (Z * list Z))), z = Some None -> borrowed (RFd fd) (x_trace s) (x_trace s2) -> handles s2 = handles s ->
    xwlp (xsys_ (x_close fd) ;; mret z) (fun r s' => match r with
      | None => True | Some None => settled s s'
      | Some (Some (p, _)) => p <> 0 /\ borrowed (RHeap p) (x_trace s) (x_trace s') /\ handles s' = handles s end) s2).
  { intros s2 z -> B2 H2. apply xwlp_bind, xwlp_bind, xwlp_sys. intros s3 T3 H3. apply xwlp_ret, xwlp_ret.
    split; [|congruence]. rewrite T3. by apply (borrow_back (RFd fd)). }
  apply xwlp_bind, idle_use; [by apply idle_sys|]. intros st s2 [L2 H2]. pose proof (borrow_frame _ _ _ _ B1 L2) as B2.
  destruct (r_ret st <? 0); [apply Hclose; [done..|congruence]|].
  apply xwlp_bind, xwlp_sys. intros s3 T3 H3. set (p := r_ret _). destruct (Z.eqb_spec p 0) as [E|E].
  { apply Hclose; [done| |congruence]. eapply borrow_frame; [exact B2|]. rewrite T3. apply got_nothing; [|done]. cbn. fold p. by rewrite E. }
  assert (B3 : borrowed (RHeap p) (x_trace s2) (x_trace s3)).
  { rewrite T3. apply got_borrow. cbn. fold p. by rewrite (proj2 (Z.eqb_neq _ _)). }
  apply xwlp_bind, idle_use; [apply idle_read_loop|]. intros got s4 [L4 H4]. pose proof (borrow_frame _ _ _ _ B3 L4) as B4.
  destruct got as [[bs|]|]; [| |by apply xwlp_ret].
  - apply xwlp_bind, xwlp_bind, xwlp_sys. intros s5 T5 H5. apply xwlp_ret, xwlp_ret. split; [done|]. split; [|congruence].
    rewrite T5. eapply (borrow_swap (RFd fd)); [exact B2|exact B4|done|done].
  - apply xwlp_bind, xwlp_bind, xwlp_sys. intros s5 T5 H5. apply xwlp_ret. apply Hclose; [done| |congruence].
    eapply borrow_frame; [exact B2|]. rewrite T5. apply (borrow_back (RHeap p)); [done|]. cbn. by rewrite (proj2 (Z.eqb_neq _ _)).
Qed.

(** ** Preparing the guest *)

(** A program that keeps the ledger and the handles if it ends. *)
Definition ends {A} (c : X (option A)) : Prop := forall s, xwlp c (fun r s' => is_Some r -> settled s s') s.

Lemma idle_ends {A} (c : X (option A)) : idle c -> ends c.
Proof using. intros Hc s. eapply xwlp_mono; [apply Hc|]. done. Qed.

Lemma ends_after {A B} (c : X A) (k : A -> X (option B)) : idle c -> (forall a, ends (k a)) -> ends (c ≫= k).
Proof using.
  intros Hc Hk s. apply xwlp_bind. apply idle_use; [done|]. intros a s1 S1. eapply xwlp_mono; [apply Hk|].
  cbv beta. intros b s2 S2 Hb. etrans; [exact S1|]. by apply S2.
Qed.

(** Reading a file, then a program that frees the buffer. *)
Lemma ends_read {B} fuel path (k : option (option (Z * list Z)) -> X (option B)) :
  idle (k (Some None)) -> (forall s, k None s = Ok (None, s)) ->
  (forall p bs s s1, p <> 0 -> borrowed (RHeap p) (x_trace s) (x_trace s1) -> handles s1 = handles s ->
     xwlp (k (Some (Some (p, bs)))) (fun r s' => is_Some r -> settled s s') s1) ->
  ends (read_whole_file fuel path ≫= k).
Proof using Fr.
  intros Hn H0 Hk s. apply xwlp_bind. eapply xwlp_mono; [apply read_file_ledger|]. cbv beta. intros [[[p bs]|]|] s1.
  - intros (? & ? & ?). by apply Hk.
  - intros S1. apply idle_use; [done|]. intros b s2 S2 _. by etrans.
  - intros _. unfold xwlp. rewrite H0. by intros [? [=]].
Qed.

(** [free(p)], then the rest. *)
Lemma free_then {B} p (k : X (option B)) s s1 :
  p <> 0 -> borrowed (RHeap p) (x_trace s) (x_trace s1) -> handles s1 = handles s -> ends k ->
  xwlp (xsys_ (x_free p) ;; k) (fun r s' => is_Some r -> settled s s') s1.
Proof using.
  intros Hp Hb Hh Hk. apply xwlp_bind, xwlp_bind, xwlp_sys. intros s2 T2 H2. apply xwlp_ret.
  assert (S2 : settled s s2).
  { split; [|congruence]. rewrite T2. apply (borrow_back (RHeap p)); [done|]. cbn. by rewrite (proj2 (Z.eqb_neq _ _)). }
  eapply xwlp_mono; [apply Hk|]. cbv beta. intros b s3 S3 Hs. etrans; [exact S2|]. by apply S3.
Qed.

Lemma stores_then {B} (c : X unit) (k : X (option B)) s s1 p :
  idle c -> borrowed (RHeap p) (x_trace s) (x_trace s1) -> handles s1 = handles s ->
  (forall s2, borrowed (RHeap p) (x_trace s) (x_trace s2) -> handles s2 = handles s -> xwlp k (fun r s' => is_Some r -> settled s s') s2) ->
  xwlp (c ;; k) (fun r s' => is_Some r -> settled s s') s1.
Proof using.
  intros Hc Hb Hh Hk. apply xwlp_bind, idle_use; [done|]. intros [] s2 [L2 H2]. apply Hk; [by eapply borrow_frame|congruence].
Qed.

Lemma xwlp_assoc {A B C} (c : X A) (k1 : A -> X B) (k2 : B -> X C) Q s :
  xwlp (c ≫= fun a => k1 a ≫= k2) Q s -> xwlp ((c ≫= k1) ≫= k2) Q s.
Proof using. unfold xwlp, mbind, X_bind. by destruct (c s) as [[]|]. Qed.

Lemma ends_bios fuel : ends (bios_install fuel).
Proof using Fr.
  assert (Hmp : idle setup_mp_table) by (unfold setup_mp_table, mp_put_fptr, mp_put_head, mp_put_cpu, mp_put_bus, mp_put_ioapic, mp_put_irq, mp_checksum; idle_run).
  assert (Hm : idle ex_setup_e820) by (unfold ex_setup_e820; idle_run).
  assert (Hv : idle ex_setup_vga_rom) by (unfold ex_setup_vga_rom; idle_run).
  assert (Hi : idle install_ivt) by (unfold install_ivt; idle_run).
  unfold bios_install. do 3 (apply ends_after; [apply idle_store|intros _]).
  apply ends_read; [idle_run|done|]. intros p bs s s1 Hp Hb Hh. apply xwlp_assoc.
  eapply stores_then; [apply idle_store|exact Hb|exact Hh|]. intros s2 B2 H2. apply free_then; [done..|]. apply idle_ends. idle_run.
Qed.

Lemma idle_acpi : idle acpi_install.
Proof using.
  unfold acpi_install, put_rsdp, put_madt, put_fadt, put_links, fill_table_head, set_checksum. idle_run.
Qed.

Lemma ends_place_initrd fuel path payload : ends (place_initrd fuel path payload).
Proof using Fr.
  unfold place_initrd. destruct path as [path|]; [|by apply idle_ends, idle_ret].
  apply ends_read; [apply idle_ret|done|]. intros p bs s s1 Hp Hb Hh. apply xwlp_bind, idle_use; [apply idle_gets|].
  intros s0 s2 [L2 H2]. pose proof (borrow_frame _ _ _ _ Hb L2) as B2. assert (handles s2 = handles s) by congruence. cbv zeta.
  repeat case_match; try (apply free_then; [done..|]; apply idle_ends, idle_ret).
  eapply stores_then; [apply idle_store|done|done|]. intros s3 B3 Hh3. apply free_then; [done..|]. apply idle_ends, idle_ret.
Qed.

Lemma ends_kernel fuel kernel initrd cmdline : ends (kernel_load fuel kernel initrd cmdline).
Proof using Fr.
  assert (Hh : forall il isz, idle (fill_setup_header cmdline il isz)).
  { intros. unfold fill_setup_header, install_cmdline, gsh_put, gsh_get. idle_run. }
  unfold kernel_load. apply ends_read; [apply idle_ret|done|]. intros p bs s s1 Hp Hb Hhd. cbv zeta.
  destruct (kernel_rejected bs); [apply free_then; [done..|]; apply idle_ends, idle_ret|].
  eapply stores_then; [apply idle_store|done|done|]. intros s2 B2 H2.
  eapply stores_then; [apply idle_store|done|done|]. intros s3 B3 H3. apply free_then; [done..|].
  intros s4. apply xwlp_bind. eapply xwlp_mono; [apply ends_place_initrd|]. cbv beta. intros i s5 S5.
  destruct i as [i|]; [specialize (S5 (ex_intro _ i eq_refl))|by apply xwlp_ret; intros [? [=]]].
  destruct i as [[il isz]|]; [|by apply xwlp_ret]. eapply idle_use; [idle_run|]. intros r s6 S6 _. by etrans.
Qed.

Lemma ends_prepare fuel a kernel : ends (ex_prepare fuel a kernel).
Proof using Fr.
  intros s. unfold ex_prepare. apply xwlp_bind. eapply xwlp_mono; [apply ends_bios|]. cbv beta. intros b s1 S1.
  destruct b as [b|]; [specialize (S1 (ex_intro _ b eq_refl))|by apply xwlp_ret; intros [? [=]]].
  apply xwlp_bind, idle_use; [apply idle_acpi|]. intros r s2 S2. assert (S02 : settled s s2) by (by etrans).
  destruct (r <? 0); [by apply xwlp_ret|]. apply xwlp_bind. eapply xwlp_mono; [apply ends_kernel|]. cbv beta. intros k s3 S3.
  apply xwlp_ret. rewrite fmap_is_Some. intros Hk. etrans; [exact S02|by apply S3].
Qed.
End parts.

(** ** The machine's possessions *)

(** Exactly [rs] is held. *)
Definition holds (t : xtrace) (rs : list resource) : Prop := ledger t = Some (list_to_set rs) /\ NoDup rs.

Lemma holds_perm t rs rs' : rs ≡ₚ rs' -> holds t rs -> holds t rs'.
Proof. intros Hp [E Hn]. split; [|by rewrite <- Hp]. rewrite E. f_equal. by apply list_to_set_perm_L. Qed.

Lemma holds_settled s s' rs : settled s s' -> holds (x_trace s) rs -> holds (x_trace s') rs.
Proof. intros [E _] [L Hn]. split; [by rewrite E|done]. Qed.

Definition vcpu_owns (v : option Vcpu) : list resource :=
  match v with Some v => [RMap (vc_run v); RFd (vc_fd v); RHeap (vc_self v)] | None => [] end.

(** What a machine with RAM and a disk has, in the order it is given back. *)
Definition base_owns (s : ExVmm) : list resource := [RFd (vm_fd s); RFd (kvm_fd s); RHeap (x_self s)].
Definition machine_owns (s : ExVmm) : list resource :=
  mjoin (vcpu_owns <$> vcpus s) ++ [RHeap (x_vcpu_array s); RMap (x_mem s); RFd (disk_fd s)] ++ base_owns s.

(** Values that could be results of the calls. *)
Definition vcpu_sane (v : option Vcpu) : Prop :=
  match v with Some v => vc_run v <> 0 /\ vc_run v <> -1 /\ 0 <= vc_fd v /\ vc_self v <> 0 | None => True end.
Record base_sane (s : ExVmm) : Prop := {
  sane_self : x_self s <> 0; sane_kvm : 0 <= kvm_fd s; sane_vm : 0 <= vm_fd s; sane_array : x_vcpu_array s <> 0;
  sane_nr : nr_vcpus s = Z.of_nat (length (vcpus s)); sane_vcpus : Forall vcpu_sane (vcpus s)
}.
Record sane (s : ExVmm) : Prop := { sane_base : base_sane s; sane_mem : x_mem s <> 0; sane_disk : 0 <= disk_fd s }.

Section life.
  Context {H : XHost} {Fr : XFresh H}.

Lemma give_step c r rs (Q : () -> ExVmm -> Prop) s :
  holds (x_trace s) (r :: rs) -> gives_back c = Some r ->
  (forall s', holds (x_trace s') rs -> handles s' = handles s -> Q () s') -> xwlp (xsys_ c) Q s.
Proof using.
  clear Fr. intros [L Hn] Hg HQ. apply xwlp_bind, xwlp_sys. intros s' T Hh. apply xwlp_ret, HQ; [|done]. apply NoDup_cons in Hn as [Hr Hn].
  split; [|done]. rewrite T, ledger_snoc, L. unfold ledger_step. cbn. rewrite Hg.
  rewrite bool_decide_eq_true_2 by set_solver. f_equal. assert (r ∉ (list_to_set rs : gset resource)) by (by rewrite elem_of_list_to_set).
  set_solver.
Qed.

Lemma take_step c rs (Q : reply -> ExVmm -> Prop) s :
  holds (x_trace s) rs -> gives_back c = None ->
  (forall s', let r := xreply_of (x_trace s) c in
     holds (x_trace s') (match obtains c (r_ret r) with Some x => x :: rs | None => rs end) -> handles s' = handles s -> Q r s') ->
  xwlp (xsys c) Q s.
Proof using Fr.
  intros [L Hn] Hg HQ. apply xwlp_sys. intros s' T Hh. apply HQ; [|done]. rewrite T.
  destruct (obtains c (r_ret (xreply_of (x_trace s) c))) as [x|] eqn:Ho.
  - destruct (got_borrow _ _ _ Ho) as [E Hf]. specialize (Hf _ L). split; [rewrite E, L; done|].
    apply NoDup_cons. split; [|done]. by rewrite elem_of_list_to_set in Hf.
  - split; [|done]. by rewrite got_nothing.
Qed.

(** ** Destroying *)

Lemma destroy_vcpu v rs (Q : () -> ExVmm -> Prop) s :
  holds (x_trace s) (vcpu_owns v ++ rs) -> vcpu_sane v ->
  (forall s', holds (x_trace s') rs -> handles s' = handles s -> Q () s') -> xwlp (vcpu_destroy v) Q s.
Proof using.
  intros Hh Hs HQ. destruct v as [v|]; [|by apply HQ]. destruct Hs as (H1 & H2 & H3 & H4). cbn [vcpu_destroy vcpu_owns app] in *.
  rewrite !(proj2 (Z.eqb_neq _ _)), (proj2 (Z.leb_le _ _)) by done. cbn [negb andb xwhen].
  apply xwlp_bind. eapply give_step; [exact Hh|done|]. intros s1 Hs1 E1.
  apply xwlp_bind. eapply give_step; [exact Hs1|done|]. intros s2 Hs2 E2.
  eapply give_step; [exact Hs2|cbn; by rewrite (proj2 (Z.eqb_neq _ _))|]. intros s3 Hs3 E3. apply HQ; [done|congruence].
Qed.

Lemma destroy_vcpus l k i rs s :
  holds (x_trace s) (mjoin (vcpu_owns <$> take k (drop i l)) ++ rs) -> Forall vcpu_sane l ->
  xwlp (xfor (seqZ (Z.of_nat i) (Z.of_nat k)) (fun i =>
    match l !! Z.to_nat i with
    | None => xfail OutOfBounds
    | Some None => xskip
    | Some (Some v) => vcpu_destroy (Some v)
    end)) (fun _ s' => (i + k <= length l)%nat -> holds (x_trace s') rs /\ handles s' = handles s) s.
Proof using.
  intros Hh Hs. revert i s Hh. induction k as [|k IH]; intros i s Hh; [done|].
  rewrite seqZ_cons by lia. cbn [xfor]. rewrite Nat2Z.id. destruct (l !! i) as [v|] eqn:Ev; [|done].
  apply xwlp_bind. rewrite (drop_S l v i Ev) in Hh. cbn [take fmap list_fmap mjoin list_join] in Hh. rewrite <- app_assoc in Hh.
  assert (G : xwlp (vcpu_destroy v) (fun _ s' => xwlp (xfor (seqZ (Z.succ (Z.of_nat i)) (Z.pred (Z.of_nat (S k)))) (fun i =>
    match l !! Z.to_nat i with
    | None => xfail OutOfBounds
    | Some None => xskip
    | Some (Some v) => vcpu_destroy (Some v)
    end)) (fun _ s' => (i + S k <= length l)%nat -> holds (x_trace s') rs /\ handles s' = handles s) s') s).
  { eapply destroy_vcpu; [exact Hh|by eapply Forall_lookup_1|]. intros s1 H1 E1.
    replace (Z.succ (Z.of_nat i)) with (Z.of_nat (S i)) by lia. replace (Z.pred (Z.of_nat (S k))) with (Z.of_nat k) by lia.
    eapply xwlp_mono; [by apply IH|]. cbv beta. intros _ s2 H2 Hl. destruct H2 as [H2 E2]; [lia|]. split; [done|congruence]. }
  destruct v; exact G.
Qed.

Lemma destroy_spec s :
  holds (x_trace s) (machine_owns s) -> sane s -> xwlp vmm_destroy (fun _ s' => holds (x_trace s') []) s.
Proof using.
  intros Hh [[S1 S2 S3 S4 S5 S6] S7 S8]. unfold vmm_destroy. apply xwlp_bind. change (xwlp (xgets id) ?Q s) with (Q s s). cbv beta.
  apply xwlp_bind. rewrite S5. unfold machine_owns in Hh.
  eapply xwlp_mono; [apply (destroy_vcpus (vcpus s) (length (vcpus s)) 0 ([RHeap (x_vcpu_array s); RMap (x_mem s); RFd (disk_fd s)] ++ base_owns s) s); [rewrite drop_0, firstn_all; exact Hh|done]|].
  cbv beta. intros _ s1 H1. destruct H1 as [H1 E1]; [lia|]. unfold base_owns in H1. cbn [app] in H1.
  rewrite !(proj2 (Z.eqb_neq _ _)), !(proj2 (Z.leb_le _ _)) by done. cbn [negb xwhen].
  apply xwlp_bind. eapply give_step; [exact H1|cbn; by rewrite (proj2 (Z.eqb_neq _ _))|]. intros s2 H2 E2.
  apply xwlp_bind. eapply give_step; [exact H2|done|]. intros s3 H3 E3.
  apply xwlp_bind. apply idle_use; [by apply idle_sys_|]. intros [] s4 Q4. pose proof (holds_settled _ _ _ Q4 H3) as H4. destruct Q4 as [_ E4].
  apply xwlp_bind. eapply give_step; [exact H4|done|]. intros s5 H5 E5.
  apply xwlp_bind. eapply give_step; [exact H5|done|]. intros s6 H6 E6.
  apply xwlp_bind. eapply give_step; [exact H6|done|]. intros s7 H7 E7.
  assert (Eself : x_self s7 = x_self s) by (unfold handles in *; congruence).
  unfold free_vmm. apply xwlp_bind. change (xwlp (xgets id) ?Q s7) with (Q s7 s7). cbv beta. rewrite Eself. unfold id.
  apply xwlp_bind. eapply give_step; [exact H7|cbn; by rewrite (proj2 (Z.eqb_neq _ _))|]. intros s8 H8 E8. exact H8.
Qed.

(** ** Creating *)

Lemma free_vmm_spec rs s :
  holds (x_trace s) (RHeap (x_self s) :: rs) -> x_self s <> 0 -> xwlp free_vmm (fun _ s' => holds (x_trace s') rs) s.
Proof using.
  intros Hh Hs. unfold free_vmm. apply xwlp_bind. change (xwlp (xgets id) ?Q s) with (Q s s). cbv beta.
  apply xwlp_bind. eapply give_step; [exact Hh|cbn; by rewrite (proj2 (Z.eqb_neq _ _))|]. by intros s1 H1 E1.
Qed.

Lemma close_kvm_spec s :
  holds (x_trace s) [RFd (kvm_fd s); RHeap (x_self s)] -> x_self s <> 0 ->
  xwlp close_kvm (fun ok s' => ok = false /\ holds (x_trace s') []) s.
Proof using.
  intros Hh Hs. unfold close_kvm. apply xwlp_bind. change (xwlp (xgets id) ?Q s) with (Q s s). cbv beta.
  apply xwlp_bind. eapply give_step; [exact Hh|done|]. intros s1 H1 E1. assert (E : x_self s1 = x_self s) by (unfold handles in E1; congruence).
  apply xwlp_bind. eapply xwlp_mono; [apply (free_vmm_spec []); rewrite E; done|]. cbv beta. intros _ s2 H2. by apply xwlp_ret.
Qed.

Lemma close_vm_spec s :
  holds (x_trace s) (base_owns s) -> x_self s <> 0 -> xwlp close_vm (fun ok s' => ok = false /\ holds (x_trace s') []) s.
Proof using.
  intros Hh Hs. unfold close_vm. apply xwlp_bind. change (xwlp (xgets id) ?Q s) with (Q s s). cbv beta.
  apply xwlp_bind. eapply give_step; [exact Hh|done|]. intros s1 H1 E1. unfold handles in E1.
  apply close_kvm_spec; [|congruence]. by replace (kvm_fd s1) with (kvm_fd s) by congruence; replace (x_self s1) with (x_self s) by congruence.
Qed.

(** What the base of a machine is depends on its handles only. *)
Lemma handles_base s s' : handles s' = handles s ->
  base_owns s' = base_owns s /\ x_self s' = x_self s /\ kvm_fd s' = kvm_fd s /\ vm_fd s' = vm_fd s /\ nr_vcpus s' = nr_vcpus s /\
  x_vcpu_array s' = x_vcpu_array s /\ x_mem s' = x_mem s /\ disk_fd s' = disk_fd s /\ mem_size s' = mem_size s.
Proof using. unfold handles, base_owns. intros E. injection E. intros. split_and!; congruence. Qed.

Lemma vcpus_handles (l l' : list (option Vcpu)) :
  (fun v : option Vcpu => vhandle <$> v) <$> l' = (fun v : option Vcpu => vhandle <$> v) <$> l ->
  mjoin (vcpu_owns <$> l') = mjoin (vcpu_owns <$> l) /\ (Forall vcpu_sane l -> Forall vcpu_sane l') /\ length l' = length l /\
  forall i, l !! i = Some None -> l' !! i = Some None.
Proof using.
  revert l. induction l' as [|v' l' IH]; intros [|v l] E; try done. rewrite !fmap_cons in E. injection E as Ev El.
  destruct (IH l El) as (I1 & I2 & I3 & I4). destruct v as [v|], v' as [v'|]; try done.
  - injection Ev as E1 E2 E3 E4. split_and!; [|intros Hs; apply Forall_cons in Hs as [Hv Hs]; constructor; [cbn in *; congruence|by apply I2]|cbn; congruence|].
    + rewrite !fmap_cons. change (mjoin (?x :: ?l)) with (x ++ mjoin l). rewrite I1. cbn [vcpu_owns]. congruence.
    + intros [|i]; [done|apply I4].
  - split_and!; [rewrite !fmap_cons; change (mjoin (?x :: ?l)) with (x ++ mjoin l); by rewrite I1|intros Hs; apply Forall_cons in Hs as [Hv Hs]; constructor; [done|by apply I2]|cbn; congruence|].
    intros [|i]; [done|apply I4].
Qed.

(** A machine whose vCPUs from [i] on do not exist, and which holds [rs] besides
    its vCPUs, their array and its base. *)
Record machine (rs : list resource) (i : Z) (s : ExVmm) : Prop := {
  mc_holds : holds (x_trace s) (mjoin (vcpu_owns <$> vcpus s) ++ RHeap (x_vcpu_array s) :: rs ++ base_owns s);
  mc_sane : base_sane s;
  mc_none : forall j, i <= j < nr_vcpus s -> vcpus s !! Z.to_nat j = Some None
}.

Lemma machine_stable rs rs' i s s' :
  machine rs i s -> holds (x_trace s') (mjoin (vcpu_owns <$> vcpus s) ++ RHeap (x_vcpu_array s) :: rs' ++ base_owns s) ->
  handles s' = handles s -> machine rs' i s'.
Proof using.
  intros [_ [S1 S2 S3 S4 S5 S6] Hn] Hh E. destruct (handles_base _ _ E) as (B & P & K & V & N & A & _).
  assert (Ev : (fun v : option Vcpu => vhandle <$> v) <$> vcpus s' = (fun v : option Vcpu => vhandle <$> v) <$> vcpus s)
    by (unfold handles in E; congruence).
  destruct (vcpus_handles _ _ Ev) as (V1 & V2 & V3 & V4). split; [by rewrite V1, B, A| |].
  - split; rewrite ?P, ?K, ?V, ?A, ?N, ?V3; auto.
  - intros j Hj. apply V4, Hn. by rewrite <- N.
Qed.

Lemma machine_settled rs i s s' : machine rs i s -> settled s s' -> machine rs i s'.
Proof using. intros M S. eapply machine_stable; [done| |apply S]. eapply holds_settled; [done|apply M]. Qed.

Lemma calm_step c rs (Q : reply -> ExVmm -> Prop) s :
  neutral c -> holds (x_trace s) rs ->
  (forall r s', holds (x_trace s') rs -> handles s' = handles s -> Q r s') -> xwlp (xsys c) Q s.
Proof using.
  intros Hc Hh HQ. apply idle_use; [by apply idle_sys|]. intros r s' S'. apply HQ; [by eapply holds_settled|apply S'].
Qed.

Lemma xwlp_here {B} (k : ExVmm -> X B) (Q : B -> ExVmm -> Prop) s : xwlp (k s) Q s -> xwlp (xgets id ≫= k) Q s.
Proof using. done. Qed.

Lemma xwlp_change {B} f (k : () -> X B) (Q : B -> ExVmm -> Prop) s : xwlp (k ()) Q (f s) -> xwlp (xmodify f ≫= k) Q s.
Proof using. done. Qed.

Lemma create_chips_spec nr s :
  0 <= nr -> nr_vcpus s = nr -> holds (x_trace s) (base_owns s) -> x_self s <> 0 -> 0 <= kvm_fd s -> 0 <= vm_fd s ->
  xwlp (create_chips nr) (fun ok s' => if ok then machine [] 0 s' /\ nr_vcpus s' = nr else holds (x_trace s') []) s.
Proof using Fr.
  intros Hnr Hn Hh Hs Hk Hv. unfold create_chips. apply xwlp_here.
  assert (Hout : forall s', holds (x_trace s') (base_owns s) -> base_owns s' = base_owns s -> x_self s' = x_self s ->
    xwlp close_vm (fun ok s' => if ok then machine [] 0 s' /\ nr_vcpus s' = nr else holds (x_trace s') []) s').
  { intros s' H' Eb Es. eapply xwlp_mono; [apply close_vm_spec; congruence|]. cbv beta. by intros ok s2' [-> ?]. }
  apply xwlp_bind, (calm_step _ (base_owns s)); [done..|]. intros c s1 H1 E1. destruct (handles_base _ _ E1) as (B1 & P1 & _).
  case_match; [by apply Hout|].
  apply xwlp_bind, (calm_step _ (base_owns s)); [done..|]. intros p s2 Hh2 E2. rewrite E1 in E2. destruct (handles_base _ _ E2) as (B2 & P2 & _).
  case_match; [by apply Hout|].
  apply xwlp_bind. eapply take_step; [exact Hh2|done|]. intros s3 v Hh3 E3. rewrite E2 in E3.
  destruct (handles_base _ _ E3) as (B3 & P3 & K3 & V3 & N3 & _). cbn [obtains] in Hh3. set (a := r_ret v) in *. clearbody a. clear v.
  apply xwlp_change. name_state s4. change (x_trace s3) with (x_trace s4) in Hh3. change (base_owns s3) with (base_owns s4) in B3.
  change (x_self s3) with (x_self s4) in P3. change (kvm_fd s3) with (kvm_fd s4) in K3. change (vm_fd s3) with (vm_fd s4) in V3.
  change (nr_vcpus s3) with (nr_vcpus s4) in N3. assert (A4 : x_vcpu_array s4 = a) by done.
  assert (C4 : vcpus s4 = replicate (Z.to_nat nr) None) by done. clearbody s4. clear s3 E3.
  destruct (Z.eqb_spec a 0); [by apply Hout|]. assert (M4 : machine [] 0 s4).
  { split.
    - rewrite C4, A4, B3, fmap_replicate. replace (mjoin (replicate (Z.to_nat nr) (vcpu_owns None))) with (@nil resource); [done|].
      generalize (Z.to_nat nr) as k. induction k; [done|assumption].
    - split; rewrite ?C4, ?length_replicate; [congruence|lia|lia|congruence|lia|by apply Forall_replicate].
    - intros j Hj. rewrite C4. apply lookup_replicate. split; [done|lia]. }
  apply xwlp_bind. apply idle_use; [by apply idle_sys_|]. intros [] s5 S5. apply xwlp_ret.
  split; [by eapply machine_settled|]. destruct (handles_base _ _ (proj2 S5)) as (_ & _ & _ & _ & N5 & _). congruence.
Qed.

Lemma create_vm_spec nr s :
  0 <= nr -> nr_vcpus s = nr -> holds (x_trace s) [RFd (kvm_fd s); RHeap (x_self s)] -> x_self s <> 0 -> 0 <= kvm_fd s ->
  xwlp (create_vm nr) (fun ok s' => if ok then machine [] 0 s' /\ nr_vcpus s' = nr else holds (x_trace s') []) s.
Proof using Fr.
  intros Hnr Hn Hh Hs Hk. unfold create_vm. apply xwlp_here.
  assert (Hout : forall s', holds (x_trace s') [RFd (kvm_fd s); RHeap (x_self s)] -> kvm_fd s' = kvm_fd s -> x_self s' = x_self s ->
    xwlp close_kvm (fun ok s' => if ok then machine [] 0 s' /\ nr_vcpus s' = nr else holds (x_trace s') []) s').
  { intros s' H' Ek Es. eapply xwlp_mono; [apply close_kvm_spec; congruence|]. cbv beta. by intros ok s2' [-> ?]. }
  apply xwlp_bind. eapply calm_step; [done|exact Hh|]. intros api s1 Hh1 E1. destruct (handles_base _ _ E1) as (_ & P1 & K1 & _).
  do 2 (case_match; [by apply Hout|]).
  apply xwlp_bind. eapply calm_step; [done|exact Hh1|]. intros have s2 Hh2 E2. rewrite E1 in E2. destruct (handles_base _ _ E2) as (_ & P2 & K2 & _).
  case_match; [by apply Hout|].
  apply xwlp_bind. eapply take_step; [exact Hh2|done|]. intros s3 v Hh3 E3. rewrite E2 in E3. cbn [obtains] in Hh3.
  destruct (handles_base _ _ E3) as (_ & P3 & K3 & _ & N3 & _). set (fd := r_ret v) in *. clearbody fd. clear v.
  apply xwlp_change. name_state s4. change (x_trace s3) with (x_trace s4) in Hh3. change (x_self s3) with (x_self s4) in P3.
  change (kvm_fd s3) with (kvm_fd s4) in K3. change (nr_vcpus s3) with (nr_vcpus s4) in N3. assert (V4 : vm_fd s4 = fd) by done.
  clearbody s4. destruct (Z.ltb_spec fd 0); [by apply Hout|].
  apply create_chips_spec; [done|congruence| |congruence|lia|lia]. unfold base_owns. by rewrite V4, K3, P3.
Qed.

Lemma vmm_create_spec size nr s :
  0 <= nr -> holds (x_trace s) [] ->
  xwlp (vmm_create size nr) (fun ok s' => if ok then machine [] 0 s' /\ nr_vcpus s' = nr else holds (x_trace s') []) s.
Proof using Fr.
  intros Hnr Hh. unfold vmm_create. apply xwlp_bind. eapply take_step; [exact Hh|done|]. intros s1 v Hh1 E1. cbn [obtains] in Hh1.
  set (p := r_ret v) in *. clearbody p. clear v. destruct (Z.eqb_spec p 0); [by apply xwlp_ret|].
  apply xwlp_change. name_state s2. change (x_trace s1) with (x_trace s2) in Hh1. assert (P2 : x_self s2 = p) by done.
  assert (N2 : nr_vcpus s2 = nr) by done. clearbody s2.
  apply xwlp_bind. eapply take_step; [exact Hh1|done|]. intros s3 v Hh3 E3. cbn [obtains] in Hh3.
  destruct (handles_base _ _ E3) as (_ & P3 & _ & _ & N3 & _). set (fd := r_ret v) in *. clearbody fd. clear v.
  apply xwlp_change. name_state s4. change (x_trace s3) with (x_trace s4) in Hh3. change (x_self s3) with (x_self s4) in P3.
  change (nr_vcpus s3) with (nr_vcpus s4) in N3. assert (K4 : kvm_fd s4 = fd) by done. clearbody s4. destruct (Z.ltb_spec fd 0).
  - apply xwlp_bind. eapply xwlp_mono; [apply (free_vmm_spec []); [by rewrite P3, P2|congruence]|]. done.
  - apply create_vm_spec; [done|congruence| |congruence|lia]. by rewrite K4, P3, P2.
Qed.
End life.
