(* ===== verification/ExBalance.v ===== *)
(** * The example monitor from start to end

    RAM, the disk, the vCPUs and their threads on top of ExLifeFacts.v: a run of
    [main] with a disk gives back all it took.  Without a disk it closes
    descriptor 0, which it never opened. *)
From S2P Require Import Prelude Memory Codec State Snapshot BiosRom VirtioRegs CopyWorkers Lazy Restore Boot Config Cli ExVmm ExFrame ExIde ExBlk ExIo ExAcpi ExBios ExKernel ExCpu ExMain ExLedger ExLifeFacts.
From stdpp Require Import countable gmap options.
Local Open Scope Z_scope.

(** ** The command line asks for at least one vCPU *)

Lemma set_option_nr c v a a' : 1 <= a_nr_vcpus a -> set_option c v a = Some a' -> 1 <= a_nr_vcpus a'.
Proof.
  intros Ha. unfold set_option. repeat case_match; intros [= <-]; try exact Ha; cbn; [lia|].
  apply Z.ltb_ge. assumption.
Qed.

Lemma getopt_word_nr w : forall a a' p, 1 <= a_nr_vcpus a -> getopt_word w a = Some (a', p) -> 1 <= a_nr_vcpus a'.
Proof.
  induction w as [|c w IH]; intros a a' p Ha E; cbn [getopt_word] in E; [by injection E as <- <-|].
  destruct (takes_arg c).
  - destruct w as [|x w]; [by injection E as <- <-|]. apply bind_Some in E as (b & Hb & [= <- <-]). by eapply set_option_nr.
  - apply bind_Some in E as (b & Hb & E). eapply IH; [|exact E]. unfold set_flag in Hb. case_match; [|done]. by injection Hb as <-.
Qed.

Lemma getopt_nr args a : getopt_all args ex_args_default = Some a -> 1 <= a_nr_vcpus a.
Proof.
  assert (G : forall n args, (length args <= n)%nat -> forall a a', 1 <= a_nr_vcpus a -> getopt_all args a = Some a' -> 1 <= a_nr_vcpus a').
  2: { intros E. by eapply (G _ args); [done| |exact E]. }
  clear. intros n. induction n as [|n IH]; intros [|w args] Hn a a' Ha E; cbn in Hn; try lia; try (cbn in E; by injection E as <-).
  assert (Hskip : getopt_all args a = Some a' -> 1 <= a_nr_vcpus a') by (intros E'; eapply (IH args); [lia|exact Ha|exact E']).
  cbn [getopt_all] in E. repeat (case_match; try (by apply Hskip)); try (by injection E as <-).
  all: subst; apply bind_Some in E as ([b p] & Hb & E); pose proof (getopt_word_nr _ _ _ _ Ha Hb) as Hb'.
  all: destruct p as [c|]; [|eapply IH; [|exact Hb'|exact E]; cbn in *; lia]; try done.
  apply bind_Some in E as (b2 & Hb2 & E). eapply IH; [|by eapply set_option_nr|exact E]. cbn in Hn. lia.
Qed.

Lemma machine_take r rs i s s1 :
  machine rs i s -> handles s1 = handles s ->
  holds (x_trace s1) (r :: mjoin (vcpu_owns <$> vcpus s) ++ RHeap (x_vcpu_array s) :: rs ++ base_owns s) -> machine (rs ++ [r]) i s1.
Proof.
  intros M E Hh. eapply (machine_stable rs); [exact M| |exact E].
  eapply holds_perm; [|exact Hh]. solve_Permutation.
Qed.

(** A host with RAM to give, whose disk images can be opened and have a sector. *)
Class XSupplies (H : XHost) : Prop := {
  sup_ram t n : r_ret (xreply_of t (x_mmap_ram n)) <> -1;
  sup_region t fd slot flags gpa size hva : 0 <= r_ret (xreply_of t (x_memory_region fd slot flags gpa size hva));
  sup_disk t path : 0 <= r_ret (xreply_of t (x_open path true));
  sup_seek t fd : 512 <= r_ret (xreply_of t (x_lseek_end fd))
}.

Section balance.
  Context {H : XHost} {Fr : XFresh H} {Su : XSupplies H}.
  Context (locals : xtrace -> kvm_item -> list Z) (stack : xtrace -> Z -> mem).

Lemma map_spec i s :
  machine [] i s -> xwlp vmm_map_memory (fun r s' => r = 0 /\ machine [RMap (x_mem s')] i s' /\ x_mem s' <> 0 /\ nr_vcpus s' = nr_vcpus s) s.
Proof using Fr Su.
  intros M. unfold vmm_map_memory. apply xwlp_here. apply xwlp_bind. eapply take_step; [apply M|done|].
  intros s1 v Hh E. cbn [obtains] in Hh. pose proof (sup_ram (x_trace s) (mem_size (id s))) as Hr. pose proof (fresh_map (x_trace s) (mem_size (id s))) as H0.
  set (m := r_ret v) in *. change (r_ret (xreply_of (x_trace s) (x_mmap_ram (mem_size (id s))))) with m in Hr, H0. clearbody m. clear v.
  rewrite (proj2 (Z.eqb_neq _ _)) in Hh |- * by done. pose proof (machine_take _ _ _ _ _ M E Hh) as M1. cbn [app] in M1.
  apply xwlp_change. name_state s2. assert (M2 : machine [RMap m] i s2) by (destruct M1 as [A [] C]; split; [exact A|by split|exact C]).
  assert (N2 : nr_vcpus s2 = nr_vcpus s) by apply (handles_base _ _ E). assert (E2 : x_mem s2 = m) by done. clearbody s2. clear M1 E Hh s1.
  apply xwlp_bind. apply xwlp_sys. intros s3 T3 E3. rewrite (proj2 (Z.ltb_ge _ _)) by apply sup_region.
  assert (S3 : settled s2 s3) by (split; [rewrite T3; by apply ledger_neutral|done]).
  apply xwlp_ret. destruct (handles_base _ _ E3) as (_ & _ & _ & _ & N3 & _ & X3 & _). rewrite X3, E2.
  split; [done|]. split; [by eapply machine_settled|]. split; [done|congruence].
Qed.

Lemma disk_spec rs i path s :
  machine rs i s -> xwlp (vmm_load_disk path) (fun r s' => r = 0 /\ machine (rs ++ [RFd (disk_fd s')]) i s' /\
    0 <= disk_fd s' /\ x_mem s' = x_mem s /\ nr_vcpus s' = nr_vcpus s) s.
Proof using Fr Su.
  intros M. unfold vmm_load_disk. apply xwlp_bind. eapply take_step; [apply M|done|].
  intros s1 v Hh E. cbn [obtains] in Hh. pose proof (sup_disk (x_trace s) path) as Hr.
  set (fd := r_ret v) in *. change (r_ret (xreply_of (x_trace s) (x_open path true))) with fd in Hr. clearbody fd. clear v.
  rewrite (proj2 (Z.ltb_ge _ _)) in Hh |- * by done. pose proof (machine_take _ _ _ _ _ M E Hh) as M1.
  destruct (handles_base _ _ E) as (_ & _ & _ & _ & N1 & _ & X1 & _). unfold attach_disk.
  apply xwlp_bind. apply xwlp_sys. intros s2 T2 E2. pose proof (sup_seek (x_trace s1) fd) as Hl. cbv zeta.
  set (size := r_ret _) in *. clearbody size. rewrite !(proj2 (Z.ltb_ge _ _)) by lia.
  assert (M2 : machine (rs ++ [RFd fd]) i s2) by (eapply machine_settled; [done|]; split; [rewrite T2; by apply ledger_neutral|done]).
  destruct (handles_base _ _ E2) as (_ & _ & _ & _ & N2 & _ & X2 & _).
  apply xwlp_change. name_state s3. apply xwlp_ret. split; [done|]. change (disk_fd s3) with fd.
  split; [destruct M2 as [A [] C]; split; [exact A|by split|exact C]|]. split; [done|].
  change (x_mem s3) with (x_mem s2). change (nr_vcpus s3) with (nr_vcpus s2). split; congruence.
Qed.

(** ** vCPUs *)

Lemma create_vcpu_spec rs i s :
  holds (x_trace s) rs ->
  xwlp (vcpu_create i) (fun v s' => handles s' = handles s /\ holds (x_trace s') (vcpu_owns v ++ rs) /\ vcpu_sane v) s.
Proof using Fr.
  intros Hh. unfold vcpu_create. apply xwlp_here. apply xwlp_bind. eapply take_step; [exact Hh|done|].
  intros s1 v H1 E1. cbn [obtains] in H1. set (p := r_ret v) in *. clearbody p. clear v.
  destruct (Z.eqb_spec p 0); [by apply xwlp_ret|].
  apply xwlp_bind. eapply take_step; [exact H1|done|]. intros s2 v H2 E2. cbn [obtains] in H2. cbv zeta.
  set (fd := r_ret v) in *. clearbody fd. clear v. destruct (Z.ltb_spec fd 0).
  { apply xwlp_bind. eapply give_step; [exact H2|cbn; by rewrite (proj2 (Z.eqb_neq _ _))|]. intros s3 H3 E3. apply xwlp_ret. split; [congruence|done]. }
  assert (Hout : forall s', holds (x_trace s') (RFd fd :: RHeap p :: rs) -> handles s' = handles s2 ->
    xwlp (xsys_ (x_close fd) ;; xsys_ (x_free p) ;; mret None) (fun v s' => handles s' = handles s /\ holds (x_trace s') (vcpu_owns v ++ rs) /\ vcpu_sane v) s').
  { intros s' H' E'. apply xwlp_bind. eapply give_step; [exact H'|done|]. intros s3 H3 E3.
    apply xwlp_bind. eapply give_step; [exact H3|cbn; by rewrite (proj2 (Z.eqb_neq _ _))|]. intros s4 H4 E4. apply xwlp_ret. split; [congruence|done]. }
  apply xwlp_bind. eapply calm_step; [done|exact H2|]. intros m s3 H3 E3. destruct (r_ret m <? 0); [by apply Hout|].
  apply xwlp_bind. eapply take_step; [exact H3|done|]. intros s4 v H4 E4. cbn [obtains] in H4.
  pose proof (fresh_run (x_trace s3) fd (r_ret m)) as Hz. set (a := r_ret v) in *.
  change (r_ret (xreply_of (x_trace s3) (x_mmap_run fd (r_ret m)))) with a in Hz. clearbody a. clear v.
  destruct (Z.eqb_spec a (-1)); [apply Hout; [done|congruence]|]. apply xwlp_ret. split; [congruence|]. split; [exact H4|]. done.
Qed.

Definition exited (t : xtrace) : Prop := exists r, (x_exit 1, r) ∈ t.

Lemma exits s : xwlp (xsys_ (x_exit 1) ;; mret false) (fun ok s' => if ok : bool then False else exited (x_trace s')) s.
Proof using.
  apply xwlp_bind, xwlp_bind, xwlp_sys. intros s1 T E. apply xwlp_ret, xwlp_ret. exists (xreply_of (x_trace s) (x_exit 1)). rewrite T. clear. set_solver.
Qed.

Lemma owns_insert l i v :
  l !! i = Some None -> mjoin (vcpu_owns <$> <[i := Some v]> l) ≡ₚ vcpu_owns (Some v) ++ mjoin (vcpu_owns <$> l).
Proof using.
  revert i. induction l as [|o l IH]; intros [|i] Hl; try done; cbn in Hl.
  - injection Hl as ->. done.
  - cbn [insert list_insert]. rewrite !fmap_cons. change (mjoin (?x :: ?t)) with (x ++ mjoin t). rewrite (IH _ Hl). solve_Permutation.
Qed.

Lemma machine_insert rs i v s :
  machine (rs ++ vcpu_owns (Some v)) i s -> vcpu_sane (Some v) -> 0 <= i < nr_vcpus s ->
  machine rs (i + 1) (s <| vcpus ::= <[Z.to_nat i := Some v]> |>).
Proof using.
  intros [Hh S Hn] Hv Hi. pose proof (Hn i ltac:(lia)) as Ei. split.
  - eapply holds_perm; [|exact Hh]. change (vcpus (upd vcpus ?f s)) with (f (vcpus s)). cbv beta. rewrite (owns_insert _ _ _ Ei).
    change (base_owns (upd vcpus ?f s)) with (base_owns s). change (x_vcpu_array (upd vcpus ?f s)) with (x_vcpu_array s). solve_Permutation.
  - destruct S as [? ? ? ? E F]. split; try assumption.
    + change (nr_vcpus s = Z.of_nat (length (<[Z.to_nat i := Some v]> (vcpus s)))). by rewrite length_insert.
    + by apply (Forall_insert _ (vcpus s)).
  - intros j Hj. change (nr_vcpus (upd vcpus ?f s)) with (nr_vcpus s) in Hj. change (vcpus (upd vcpus ?f s)) with (f (vcpus s)). cbv beta.
    rewrite list_lookup_insert_ne by lia. apply Hn. lia.
Qed.

(** Creating the vCPUs [i], [i + 1], .. of a machine that has those below. *)
Lemma create_all_spec rs k i s :
  machine rs i s -> 0 <= i -> i + Z.of_nat k <= nr_vcpus s ->
  xwlp (create_all (seqZ i (Z.of_nat k))) (fun ok s' => if ok then machine rs (i + Z.of_nat k) s' /\ nr_vcpus s' = nr_vcpus s /\
    x_mem s' = x_mem s /\ disk_fd s' = disk_fd s else exited (x_trace s')) s.
Proof using Fr.
  revert i s. induction k as [|k IH]; intros i s M Hi Hk.
  { apply xwlp_ret. by rewrite Z.add_0_r. }
  rewrite seqZ_cons by lia. cbn [create_all]. apply xwlp_bind. eapply xwlp_mono; [apply create_vcpu_spec, M|]. cbv beta.
  intros v s1 (E1 & H1 & Sv). apply xwlp_change. name_state s2. destruct v as [v|].
  2: { eapply xwlp_mono; [apply exits|]. by intros []. }
  destruct (handles_base _ _ E1) as (_ & _ & _ & _ & N1 & _ & X1 & D1 & _).
  assert (M1 : machine (rs ++ vcpu_owns (Some v)) i s1).
  { eapply machine_stable; [exact M| |exact E1]. eapply holds_perm; [|exact H1]. solve_Permutation. }
  pose proof (machine_insert _ _ _ _ M1 Sv ltac:(lia)) as M2. change (machine rs (i + 1) s2) in M2.
  replace (Z.succ i) with (i + 1) by lia. replace (Z.pred (Z.of_nat (S k))) with (Z.of_nat k) by lia.
  assert (N2 : nr_vcpus s2 = nr_vcpus s) by exact N1. assert (X2 : x_mem s2 = x_mem s) by exact X1.
  assert (D2 : disk_fd s2 = disk_fd s) by exact D1. clearbody s2.
  eapply xwlp_mono; [apply IH; [exact M2|lia|lia]|]. cbv beta. intros [] s3; [|done]. intros (M3 & N3 & X3 & D3).
  split; [by replace (i + Z.of_nat (S k)) with (i + 1 + Z.of_nat k) by lia|]. split_and!; congruence.
Qed.

Lemma start_all_spec ids s :
  xwlp (start_all ids) (fun ok s' => if ok then settled s s' else exited (x_trace s')) s.
Proof using.
  revert s. induction ids as [|i ids IH]; intros s; [by apply xwlp_ret|]. cbn [start_all].
  apply xwlp_bind, idle_use; [by apply idle_sys|]. intros r s1 S1. case_match.
  - eapply xwlp_mono; [apply exits|]. by intros [].
  - apply xwlp_bind, idle_use; [by apply idle_upd_vcpu|]. intros [] s2 S2. eapply xwlp_mono; [apply IH|]. cbv beta.
    intros [] s3; [|done]. intros S3. etrans; [exact S1|]. by etrans.
Qed.

(** ** The whole program *)

(** A machine with RAM and disk can be destroyed. *)
Lemma machine_destroy m d i s :
  machine [RMap m; RFd d] i s -> x_mem s = m -> disk_fd s = d -> m <> 0 -> 0 <= d ->
  xwlp vmm_destroy (fun _ s' => holds (x_trace s') []) s.
Proof using.
  intros [Hh Hs _] <- <- Hm Hd. apply destroy_spec; [exact Hh|by split].
Qed.

Lemma run_spec chain fuel turns s :
  machine [RMap (x_mem s); RFd (disk_fd s)] 0 s -> x_mem s <> 0 -> 0 <= disk_fd s -> 0 <= nr_vcpus s ->
  xwlp (ex_run locals stack chain fuel turns) (fun r s' => forall code, r = Some code ->
    exited (x_trace s') \/ holds (x_trace s') []) s.
Proof using Fr.
  intros M Hm Hd Hn. unfold ex_run, vmm_run_all. apply xwlp_assoc, xwlp_bind. change (xwlp (xgets nr_vcpus) ?Q s) with (Q (nr_vcpus s) s). cbv beta.
  apply xwlp_assoc, xwlp_bind. rewrite <- (Z2Nat.id (nr_vcpus s)) by done.
  eapply xwlp_mono; [apply (create_all_spec _ _ _ _ M); lia|]. cbv beta. intros [] s1.
  2: { intros Hx. apply xwlp_bind, xwlp_ret. cbn [negb]. apply xwlp_ret. by left. }
  intros (M1 & N1 & X1 & D1). apply xwlp_bind. eapply xwlp_mono; [apply start_all_spec|]. cbv beta. intros [] s2.
  2: { intros Hx. apply xwlp_ret. by left. }
  intros S2. cbn [negb]. apply xwlp_bind, idle_use; [apply idle_gets|]. intros nr s3 S3.
  apply xwlp_bind, idle_use; [apply (idle_threads locals stack)|]. intros st s4 S4.
  assert (S14 : settled s1 s4) by (etrans; [exact S2|by etrans]). destruct st as [st|]; [|by apply xwlp_ret].
  case_match; [|by apply xwlp_ret]. apply xwlp_bind, idle_use; [unfold vmm_wait_all; idle_run|]. intros [] s5 S5.
  assert (S15 : settled s1 s5) by (by etrans). destruct (handles_base _ _ (proj2 S15)) as (_ & _ & _ & _ & _ & _ & X5 & D5 & _).
  apply xwlp_bind. eapply xwlp_mono; [eapply machine_destroy; [by eapply machine_settled|congruence|congruence|done|done]|].
  cbv beta. intros [] s6 H6. apply xwlp_ret. by right.
Qed.

(** C18: nothing leaks.  On a host that never hands out what is still held, with
    RAM and a disk image to give, a run of [main] with a disk that comes back,
    with status 0 or 1 and whatever the guest did and in whatever order the
    threads ran, has given back every descriptor, heap block and mapping it took,
    each exactly once, and nothing it did not have; unless a vCPU or a thread could
    not be made, when the process exits and the kernel does it.  This covers
    every way to fail: no KVM, a wrong API version, no interrupt chip, and
    tables or kernels that cannot be loaded. *)
Theorem ex_main_balanced chain fuel turns argv a path s :
  getopt_all (tail argv) ex_args_default = Some a -> a_disk a = Some path -> x_trace s = [] ->
  xwlp (ex_main locals stack chain fuel turns argv) (fun r s' => forall code, r = Some code ->
    exited (x_trace s') \/ ledger (x_trace s') = Some ∅) s.
Proof using Fr Su.
  intros Ha Hd Ht. pose proof (getopt_nr _ _ Ha) as Hn. unfold ex_main. rewrite Ha.
  assert (Hw : forall t, holds t [] -> ledger t = Some ∅) by (by intros t []).
  destruct (a_kernel a) as [kernel|].
  2: { unfold usage. apply xwlp_bind, xwlp_bind, xwlp_sys. intros s1 T1 _. apply xwlp_ret, xwlp_ret. intros code _. left.
       exists (xreply_of (x_trace s) (x_exit 1)). rewrite T1. clear. set_solver. }
  apply xwlp_change. name_state s1. assert (H1 : holds (x_trace s1) []) by (change (x_trace s1) with (x_trace s); rewrite Ht; by split; [|apply NoDup_nil]).
  clearbody s1. unfold ex_machine. rewrite Hd. cbv zeta. apply xwlp_bind. eapply xwlp_mono; [apply vmm_create_spec; [lia|done]|].
  cbv beta. intros [] s2; [|intros H2; apply xwlp_ret; auto]. intros [M2 N2]. cbn [negb].
  apply xwlp_bind. eapply xwlp_mono; [by apply map_spec|]. cbv beta. intros r s3 (-> & M3 & X3 & N3). change (0 <? 0) with false. cbv iota.
  apply xwlp_bind. eapply xwlp_mono; [apply disk_spec, M3|]. cbv beta. intros r s4 (-> & M4 & D4 & X4 & N4). change (0 <? 0) with false. cbv iota.
  rewrite <- X4 in M4, X3. apply xwlp_bind. eapply xwlp_mono; [apply ends_prepare|]. cbv beta. intros p s5 S5.
  destruct p as [p|]; [|by apply xwlp_ret]. specialize (S5 (ex_intro _ p eq_refl)).
  destruct (handles_base _ _ (proj2 S5)) as (_ & _ & _ & _ & N5 & _ & X5 & D5 & _).
  pose proof (machine_settled _ _ _ _ M4 S5) as M5. rewrite <- X5, <- D5 in M5. destruct p.
  - eapply xwlp_mono; [apply run_spec; [exact M5|congruence|lia|lia]|]. cbv beta. intros r s6 H6 code Hr. destruct (H6 code Hr); auto.
  - unfold ex_fail. apply xwlp_bind. eapply xwlp_mono; [eapply machine_destroy; [exact M5|done|done|congruence|lia]|].
    cbv beta. intros [] s6 H6. apply xwlp_ret. auto.
Qed.
End balance.
