(* ===== verification/ExWitnesses.v ===== *)
(** * Concrete runs of the example monitor

    One host on which every theorem of the example monitor with hypotheses
    applies: results that name resources are larger than anything returned
    before, files are read whole, the disk is kept in the trace, the guest
    halts at once. *)
From S2P Require Import Prelude Memory Codec State Logic Uart Snapshot SaveFacts BiosRom VirtioRegs CopyWorkers Lazy Restore Boot BootFacts Config Cli.
From S2P Require Import ExVmm ExFrame ExIde ExBlk ExBlkFacts ExIo ExIoFacts ExAcpi ExAcpiFacts ExBios ExFiles ExBiosFacts ExKernel ExKernelFacts.
From S2P Require Import ExCpu ExMain ExGuestFacts ExLedger ExLifeFacts ExBalance.
From stdpp Require Import countable gmap options.
Local Open Scope Z_scope.

(** ** The host *)

Definition top (t : xtrace) : Z := foldl (fun m e => Z.max m (r_ret e.2)) 16 t.

Lemma top_snoc t e : top (t ++ [e]) = Z.max (top t) (r_ret e.2).
Proof. unfold top. by rewrite foldl_app. Qed.

Lemma top_low t : 16 <= top t.
Proof. induction t as [|e t IH] using rev_ind; [done|]. rewrite top_snoc. lia. Qed.

(** A kernel of one setup sector and 16 bytes, a BIOS image, and an initrd. *)
Definition x_image : list Z :=
  zeros 0x1f1 ++ [1] ++ zeros 12 ++ [0x55; 0xAA] ++ zeros 2 ++ bytes "HdrS" ++ [0x0c; 0x02] ++ zeros 0x1f8 ++ replicate 16 7.
Definition x_files (path : list Z) : option (list Z) :=
  if bool_decide (path = bytes "bzImage") then Some x_image
  else if bool_decide (path = bytes "initrd") then Some [1; 2; 3]
  else if bool_decide (path = BIOS_BIN_PATH) then Some [0xea; 0x5b] else None.

Definition x_ret (z : Z) : reply := {| r_ret := z; r_errno := 0; r_data := [] |}.
Definition x_disk_size : Z := 0x100000.

(** KVM's list of CPUID leaves: leaf 1. *)
Definition x_leaves : list Z := le_enc 4 1 ++ zeros 4 ++ le_enc 4 1 ++ zeros 12 ++ le_enc 4 0x00200800 ++ le_enc 4 0x80202001 ++ zeros 16.

#[export] Instance x_host : XHost := {|
  xreply_of t c := match c with
    | x_calloc _ | x_mmap_ram _ | x_mmap_run _ _ | x_kvm_create_vm _ | x_kvm_create_vcpu _ _ | x_open _ true => x_ret (top t + 1)
    | x_open path false => match x_files path with Some _ => x_ret (top t + 1) | None => x_ret (-1) end
    | x_fstat fd => match fd_state fd t with
        | Some (path, _) => match x_files path with
            | Some c => {| r_ret := 0; r_errno := 0; r_data := le_enc 8 (Z.of_nat (length c)) |}
            | None => x_ret (-1) end
        | None => x_ret (-1) end
    | x_read fd n => match fd_state fd t with
        | Some (path, pos) => match x_files path with
            | Some c => let bs := take (Z.to_nat n) (drop (Z.to_nat pos) c) in
                {| r_ret := Z.of_nat (length bs); r_errno := 0; r_data := bs |}
            | None => x_ret (-1) end
        | None => x_ret (-1) end
    | x_pread fd n off => {| r_ret := n; r_errno := 0; r_data := mem_get (disk_after fd mem_zero t) off n |}
    | x_pwrite _ bs _ => x_ret (Z.of_nat (length bs))
    | x_lseek_end _ => x_ret x_disk_size
    | x_kvm_api_version _ => x_ret 12
    | x_kvm_user_memory _ => x_ret 1
    | x_kvm_supported_cpuid _ _ => {| r_ret := 0; r_errno := 0; r_data := x_leaves |}
    | _ => x_ret 0
    end;
  xguest_exit _ _ _ := KVM_EXIT_HLT;
  xguest_mem _ m := m
|}.

#[export] Instance x_disk fd : DiskFile x_host fd x_disk_size mem_zero.
Proof. by split. Qed.

#[export] Instance x_files_served : XFiles x_host x_files.
Proof.
  split.
  - intros path c. unfold x_files. repeat case_match; intros E; try done; apply (inj Some) in E; subst c; vm_compute; reflexivity.
  - intros t path. cbn. destruct (x_files path); cbn; [pose proof (top_low t)|]; lia.
  - intros t fd path pos c E Hc. cbn. by rewrite E, Hc.
  - intros t n. cbn. pose proof (top_low t). lia.
  - intros t fd n path pos c E Hc Hp Hn. cbn. rewrite E, Hc. cbn. rewrite length_take, length_drop. split; [lia|].
    rewrite Nat2Z.id. destruct (Nat.le_ge_cases (Z.to_nat n) (length c - Z.to_nat pos)).
    + by rewrite Nat.min_l.
    + by rewrite Nat.min_r, !take_ge by (rewrite ?length_drop; lia).
Qed.

Definition resource_value (r : resource) : Z := match r with RFd z | RHeap z | RMap z => z end.

Lemma ledger_top t h r : ledger t = Some h -> r ∈ h -> resource_value r <= top t.
Proof.
  revert h r. induction t as [|[c rep] t IH] using rev_ind; intros h r.
  - intros [= <-]. set_solver.
  - rewrite ledger_snoc, top_snoc. unfold ledger_step. destruct (ledger t) as [h0|]; [|done]. cbn [mbind option_bind fst snd].
    destruct (gives_back c) as [r0|].
    + case_bool_decide; [|done]. intros [= <-] Hr. specialize (IH h0 r eq_refl ltac:(set_solver)). lia.
    + intros [= <-] Hr. destruct (obtains c (r_ret rep)) as [r0|] eqn:Ho; [|specialize (IH h0 r eq_refl Hr); lia].
      apply elem_of_union in Hr as [->%elem_of_singleton|Hr]; [|specialize (IH h0 r eq_refl Hr); lia].
      unfold obtains in Ho. repeat case_match; simplify_eq; cbn; lia.
Qed.

#[export] Instance x_fresh : XFresh x_host.
Proof.
  split.
  - intros t c r h Hl Ho Hr. pose proof (ledger_top _ _ _ Hl Hr) as Ht.
    assert (resource_value r = top t + 1); [|lia]. destruct c; cbn in Ho; repeat case_match; simplify_eq; cbn in *; try lia; done.
  - intros t n. cbn. pose proof (top_low t). lia.
  - intros t fd n. cbn. pose proof (top_low t). lia.
Qed.

#[export] Instance x_kvm : XKvm x_host.
Proof.
  split; try done.
  - intros t fd buf. cbn [xreply_of x_host r_data]. destruct buf as [|b0 [|b1 [|b2 [|b3 buf]]]]; vm_compute; congruence.
  - intros t n. cbn. pose proof (top_low t). lia.
Qed.

#[export] Instance x_supplies : XSupplies x_host.
Proof. split; try done; intros; cbn; pose proof (top_low t); lia. Qed.

(** What an uninitialised structure and the stack hold. *)
Definition x_locals (_ : xtrace) (_ : kvm_item) : list Z := zeros 312.
Definition x_stack (_ : xtrace) (_ : Z) : mem := mem_zero.

(** An 8 MB machine with [n] vCPUs and a disk at descriptor 3. *)
Definition x_machine (n : Z) : ExVmm :=
  (ex_vmm_zero 1 false []) <| mem_size := 0x800000 |> <| nr_vcpus := n |> <| disk_fd := 3 |> <| disk_size := x_disk_size |>.

(** ** The disk controllers *)

Lemma x_disk_ready n : disk_ready 3 x_disk_size mem_zero (x_machine n).
Proof. by split. Qed.

Lemma ide_is_a_disk_witness :
  let ws := replicate 256 0x1234 in
  let disk' := mem_set mem_zero (5 * 512) (mjoin (le_enc 2 <$> ws)) in
  xwp (drv_write 5 1 ws ;; drv_read 4 2) (fun bs s' =>
    bs = mem_get disk' (4 * 512) (2 * 512) /\ disk_after 3 mem_zero (x_trace s') ≡ disk') (x_machine 1).
Proof.
  refine (ide_is_a_disk (H := x_host) 3 x_disk_size mem_zero 5 1 (replicate 256 0x1234) 4 2 (x_machine 1)
    (x_disk_ready 1) eq_refl _ _ _ eq_refl _ _ _ _); try (unfold x_disk_size; lia).
  apply Forall_replicate. split; vm_compute; congruence.
Defined.

Lemma ide_access_safe_witness :
  xwp (ide_out 0x1f7 1 [0x20]) (fun _ s' => ide_wf (x_ide s')) (x_machine 1) /\
  xwp (ide_in 0x1f7 1) (fun bs s' => ide_wf (x_ide s') /\ Z.of_nat (length bs) <= 1) (x_machine 1).
Proof.
  refine (ide_access_safe (H := x_host) 0x1f7 1 [0x20] (x_machine 1) _ _ _).
  - split; cbn; auto with lia.
  - cbn. lia.
  - repeat constructor; vm_compute; congruence.
Defined.

(** A queue of 4 at 4096: a request for one sector at [sector], the data at
    0x3100, as entry [k] of the available ring. *)
Definition x_request (m : mem) (ty sector k : Z) : mem :=
  let d i a l f nx := fun m => mem_set m (4096 + i * 16) (le_enc 8 a ++ le_enc 4 l ++ le_enc 2 f ++ le_enc 2 nx) in
  let m := d 2 0x3400 1 2 0 (d 1 0x3100 512 1 2 (d 0 0x3000 16 1 1 m)) in
  let m := mem_set m 0x3000 (le_enc 4 ty ++ zeros 4 ++ le_enc 8 sector) in
  mem_set (mem_set m 4162 (le_enc 2 (k + 1))) (4164 + k * 2) (le_enc 2 0).

Lemma x_request_bytes m ty sector k : mem_bytes m -> mem_bytes (x_request m ty sector k).
Proof.
  intros Hm. unfold x_request. repeat apply mem_set_bytes; try done; rewrite ?Forall_app; repeat split; try apply le_enc_bytes.
  by repeat constructor.
Qed.

Definition x_queue : ExVmm := (x_machine 1) <| x_ram := x_request (mem_set mem_zero 0x3100 (replicate 512 7)) 1 8 0 |>
  <| x_vio ::= (fun v => v <| vio_queue_num := 4 |> <| vio_queue_pfn := 1 |> <| vio_guest_page_size := 4096 |> <| vio_queue_align := 4096 |>) |>.

Lemma x_queue_bytes : mem_bytes (mem_set mem_zero 0x3100 (replicate 512 7)).
Proof. apply mem_set_bytes; [apply mem_zero_bytes|]. by apply Forall_replicate. Qed.

Lemma x_pending s is_in sector k :
  mem_size s = 0x800000 -> vio_queue_num (x_vio s) = 4 -> q_desc (x_vio s) = 4096 -> vio_queue_pfn (x_vio s) = 1 -> vio_queue_align (x_vio s) = 4096 ->
  vio_used_idx (x_vio s) = k -> (k = 0 \/ k = 1) -> (sector = 7 \/ sector = 8) ->
  x_ram s = x_request (mem_set mem_zero 0x3100 (replicate 512 7)) (if is_in : bool then 0 else 1) sector k ->
  pending x_disk_size s 0 is_in sector [(0x3100, 512)] 0x3400.
Proof.
  intros Em En Ed Ep Eal Ei Hk Hs Er.
  assert (Eu : q_used (x_vio s) = 8192) by (unfold q_used; by rewrite Ed, En, Eal).
  assert (Ea : q_avail (x_vio s) = 4160) by (unfold q_avail; by rewrite Ed, En).
  split; rewrite ?Er, ?En, ?Ed, ?Ep, ?Eu, ?Ea, ?Ei, ?Em; try lia.
  - apply x_request_bytes, x_queue_bytes.
  - destruct Hk as [-> | ->]; split; vm_compute; congruence.
  - destruct is_in, Hk as [-> | ->], Hs as [-> | ->]; vm_compute; reflexivity.
  - destruct is_in, Hk as [-> | ->], Hs as [-> | ->]; vm_compute; reflexivity.
  - destruct is_in, Hk as [-> | ->], Hs as [-> | ->]; vm_compute; repeat split; congruence.
  - assert (Eh : vd_addr (desc_of (x_ram s) 4096 0) = 0x3000) by (rewrite Er; destruct is_in, Hk as [-> | ->], Hs as [-> | ->]; vm_compute; reflexivity).
    split; rewrite ?Em, ?Eh; unfold sizeof_vring_desc, BLK_BUF, x_disk_size; try lia; [|cbn; lia..].
    repeat constructor; cbn; lia.
  - intros _. constructor; [right; cbn; unfold sizeof_vring_desc; lia|constructor].
Qed.

Lemma blk_is_a_disk_witness :
  let disk' := mem_set mem_zero (8 * 512) (replicate 512 7) in
  let ram2 := x_request (mem_set mem_zero 0x3100 (replicate 512 7)) 0 7 1 in
  xwp (r1 ← ex_virtio_mmio_write x_stack 2 1 0x50 0;
       m1 ← xgets x_ram;
       xmodify (fun s => s <| x_ram := ram2 |>) ;;
       r2 ← ex_virtio_mmio_write x_stack 2 1 0x50 0;
       mret (r1, m1, r2)) (fun '(r1, m1, r2) s' => r1 = Some () /\ r2 = Some () /\
    completed (x_ram x_queue) m1 8192 4 0 512 0x3400 /\
    completed ram2 (x_ram s') 8192 4 0 512 0x3400 /\
    mem_get (x_ram s') 0x3100 512 ++ [] = mem_get disk' (7 * 512) 512 /\ disk_after 3 mem_zero (x_trace s') ≡ disk' /\
    has_bits (vio_isr (x_vio s')) 1 = true /\
    (exists r', (x_irq_line 0 5 1, r') ∈ x_trace s')) x_queue.
Proof.
  refine (blk_is_a_disk (H := x_host) x_stack 3 x_disk_size mem_zero _ 2 0 8 [(0x3100, 512)] 0x3400
    (x_request (mem_set mem_zero 0x3100 (replicate 512 7)) 0 7 1) 0 7 [(0x3100, 512)] 0x3400 x_queue _ _ _ _ _ _ _ _ _ _).
  - done.
  - by split.
  - by apply (x_pending _ false 8 0); auto.
  - by apply (x_pending _ true 7 1); auto.
  - repeat constructor.
  - constructor; [left; vm_compute; congruence|constructor].
  - constructor; [right; vm_compute; congruence|constructor].
  - right. vm_compute. congruence.
  - right. vm_compute. congruence.
  - cbn. lia.
  - cbn. lia.
Defined.

(** ** The guest *)

Definition x_args : ex_args := ex_args_default <| a_kernel := Some (bytes "bzImage") |> <| a_initrd := Some (bytes "initrd") |>.

Lemma x_files_short p c : x_files p = Some c -> (length c < 2000)%nat.
Proof. unfold x_files. repeat case_match; intros E; try done; apply (inj Some) in E; subst c; apply Nat.ltb_lt; vm_compute; reflexivity. Qed.

Lemma x_loadable n : loadable x_files (mem_size (x_machine n)) (bytes "bzImage") (a_initrd x_args) x_image.
Proof.
  assert (E : setup_size x_image = 1024) by (vm_compute; reflexivity). assert (El : Z.of_nat (length x_image) = 1040) by (vm_compute; reflexivity).
  assert (Ei : a_initrd x_args ≫= x_files = Some [1; 2; 3]) by (vm_compute; reflexivity).
  split; rewrite ?E, ?El, ?Ei; try (cbn; lia).
  - vm_compute; reflexivity.
  - intros p [= <-]. vm_compute. by eexists.
  - refine (bool_decide_unpack _ _). vm_compute. exact I.
  - vm_compute; reflexivity.
  - split; vm_compute; congruence.
Qed.

Lemma ex_guest_prepared_witness :
  xwp (ex_prepare 2000 x_args (bytes "bzImage")) (fun r s' => r = Some true /\ moved (x_machine 2) s' /\
    guest_ready (x_ram s') 0x800000 2 [0xea; 0x5b] x_image (Some [1; 2; 3]) (a_cmdline x_args)) (x_machine 2).
Proof.
  refine (ex_guest_prepared (H := x_host) x_files 2000 x_args (bytes "bzImage") x_image (x_machine 2) (x_loadable 2) _ x_files_short).
  cbn. lia.
Defined.

Definition x_cpu : Vcpu := {| vc_self := 20; vc_id := 1; vc_fd := 21; vc_run := 22; vc_exit := KVM_EXIT_OTHER 0; vc_mmap_size := 4096;
  vc_thread := 0; vc_running := false; vc_is_bsp := false |}.

Lemma ex_vcpu_starts_witness :
  xwp (vcpu_init_regs x_locals x_cpu) (fun r s' => r = 0 /\ calls_only (x_machine 2) s' /\
    exists sregs regs mp new g out,
      x_trace s' = x_trace (x_machine 2) ++ new /\ kvm_offered (kvm_fd (x_machine 2)) new g /\
      ex_at_start false sregs regs mp /\ cpuid_for 1 (overlay cpuid_room (r_data g)) out /\
      xkvm_sets (x_trace s') = [] ++
        [(21, KvmSregs, c_put kvm_sregs_codec sregs); (21, KvmRegs, c_put kvm_regs_codec regs);
         (21, KvmMpState, le_enc 4 mp); (21, KvmCpuid2, out)]) (x_machine 2).
Proof. exact (ex_vcpu_starts (H := x_host) (K := x_kvm) x_locals x_cpu (x_machine 2)). Defined.

(** A guest that sets the divisor, prints a line and reads a register back. *)
Definition x_serial : list serial_op :=
  [SOut 0x3fb 0x83; SOut 0x3f8 1; SIn 0x3f9; SOut 0x3fb 3; SOut 0x3f8 72; SOut 0x3f8 105; SOut 0x3f8 10; SIn 0x3fd; SIn 0x3fe].

Definition main_host : Host := {| reply_of _ _ := {| r_ret := 0; r_errno := 0; r_data := [] |}; guest_exit _ e := e; guest_mem _ m := m |}.

Definition x_uart_start : ExVmm :=
  (x_machine 1) <| x_uart ::= (fun u => u <| uart_lcr := 0x03 |> <| uart_lsr := 0x60 |> <| uart_msr := 0xf0 |> <| uart_dll := 0x01 |>) |>.

Lemma ex_serial_like_main_witness :
  xwp (ex_serial x_serial) (fun rs x' => exists sent, ex_stdout (x_trace x') = [] ++ sent /\
    wp (main_serial (H := main_host) x_serial) (fun rs' s' => reads_agree 0xb0 0xf0 x_serial rs' rs /\ same_uart (uart_ s') (x_uart x') /\
      let '(ls, rest) := console [] sent in
      stdout_lines (trace_ s') = [] ++ ls /\ serial_line_buf_ (con_ s') = rest) (Vmm_new 1)) x_uart_start.
Proof.
  refine (ex_serial_like_main (H := main_host) (XH := x_host) x_serial (Vmm_new 1) x_uart_start _).
  repeat split.
Defined.

(** ** Whole runs *)

(** What is left of a run: its status, and whether nothing is held and nothing was
    given back that was not held. *)
Definition x_outcome (r : result (option Z * ExVmm)) : option (option Z * bool) :=
  match r with
  | Ok (o, s) => Some (o, match ledger (x_trace s) with Some h => bool_decide (h = ∅) | None => false end)
  | Fault _ => None
  end.

Definition x_argv : list (list Z) := bytes "example-vmm" :: bytes "-k" :: bytes "bzImage" :: bytes "-s2" :: bytes "-m" :: bytes "8" :: [].
Definition x_argv_disk : list (list Z) := x_argv ++ [bytes "-D"; bytes "disk.img"].
Definition x_start : ExVmm := ex_vmm_zero 0 false [].
Definition x_main (argv : list (list Z)) : result (option Z * ExVmm) :=
  ex_main (H := x_host) x_locals x_stack 10 2000 [0; 1; 1; 0] argv x_start.


Lemma x_runs : x_outcome (x_main x_argv_disk) = Some (Some 0, true).
Proof. vm_compute. reflexivity. Qed.

Definition x_disk_args : ex_args :=
  ex_args_default <| a_kernel := Some (bytes "bzImage") |> <| a_nr_vcpus := 2 |> <| a_mem_mb := 8 |> <| a_disk := Some (bytes "disk.img") |>.

Lemma ex_main_balanced_witness :
  x_outcome (x_main x_argv_disk) = Some (Some 0, true) /\
  xwlp (ex_main (H := x_host) x_locals x_stack 10 2000 [0; 1; 1; 0] x_argv_disk) (fun r s' => forall code, r = Some code ->
    exited (x_trace s') \/ ledger (x_trace s') = Some ∅) x_start.
Proof.
  split; [exact x_runs|].
  refine (ex_main_balanced (H := x_host) (Fr := x_fresh) (Su := x_supplies) x_locals x_stack 10 2000 [0; 1; 1; 0] x_argv_disk x_disk_args (bytes "disk.img") x_start _ eq_refl eq_refl).
  vm_compute. reflexivity.
Defined.

(** Without -D the member [disk_fd] stays 0: the same run closes descriptor 0,
    which it never opened. *)
Theorem ex_no_disk_closes_stdin :
  x_outcome (x_main x_argv) = Some (Some 0, false) /\
  match x_main x_argv with Ok (_, s) => existsb (fun e => match e.1 with x_close fd => fd =? 0 | _ => false end) (x_trace s) = true | Fault _ => False end.
Proof. split; vm_compute; reflexivity. Qed.
