(* ===== verification/Witnesses.v ===== *)
(** * Concrete runs

    The theorems with hypotheses, applied at concrete machines, hosts and files
    where the hypotheses hold: a 1 MB machine fresh from its constructor, a
    snapshot of it, small hosts that answer by the kind of call. *)
From stdpp Require Import gmap.
From S2P Require Import Prelude Memory Codec State Logic Uart VirtioRegs VhostUserProto.
From S2P Require Import VirtioFs VirtioNet Transport DeviceFacts Snapshot SnapFile SaveFacts.
From S2P Require Import CopyWorkers CopyFacts Lazy Restore RestoreFacts Run RunFacts NetPath NetFacts.
From S2P Require Import BiosRom Boot BootFacts Config ConfigFacts Cleanup Cli CliFacts.
From S2P Require Import GuestInit GuestFacts GuestRunFacts SnapDev SnapBench SnapToolFacts.
From stdpp Require Import relations options.

Local Open Scope Z_scope.

(** ** Machines and hosts *)

(** A machine of 1 MB. *)
Definition small : Vmm := Vmm_new 1.

(** A host whose answers have no data. *)
Definition ret_host (f : trace -> syscall -> Z) : Host := {|
  reply_of t c := {| r_ret := f t c; r_errno := 0; r_data := [] |};
  guest_exit _ e := e;
  guest_mem _ m := m;
|}.

(** virtiofsd listening from the third attempt on. *)
Definition late_daemon : Host := ret_host (fun t c =>
  match c with
  | sys_socket => 3
  | sys_connect _ => if (connects t <? 2)%nat then -1 else 0
  | _ => 0
  end).

(** A file system whose descriptor 7 takes all it is given. *)
Definition good_disk : Host := ret_host (fun _ c =>
  match c with
  | sys_open _ _ => 7
  | sys_write _ buf => Z.of_nat (length buf)
  | _ => 0
  end).

Lemma small_ok : machine_ok small.
Proof.
  split_and!; [unfold fits; cbn; lia|reflexivity|constructor|unfold fits; cbn; lia|unfold fits; cbn; lia| |
    |reflexivity]; [apply FsDev_init_ok|apply NetDev_init_ok].
Qed.

Lemma small_ram : ram_bytes_ small = 1048576.
Proof. reflexivity. Qed.

(** ** Serial console *)

Lemma serial_console_lines_witness :
  dlab (uart_ small) = false /\
  wp (serial_out_all (H := const_host 0) 0x3f8 (bytes "ok" ++ [10; 62])) (fun _ s' =>
    stdout_lines (trace_ s') = [bytes "ok"] /\ serial_line_buf_ (con_ s') = [62] /\
    uart_ s' = uart_ small) small.
Proof.
  split; [reflexivity|].
  exact (serial_console_lines (H := const_host 0) small (bytes "ok" ++ [10; 62]) eq_refl).
Defined.

Lemma serial_out_invariant_witness :
  wp (serial_out (H := const_host 0) 0x3fb 0x83) (fun _ s' =>
    Uart_ok (uart_ s') /\ (length (serial_line_buf_ (con_ s')) <= 1024)%nat) small.
Proof.
  apply (serial_out_invariant (H := const_host 0) small 0x3fb 0x83).
  - split; [|split; reflexivity]. cbn. rewrite !Forall_cons. unfold byte_ok, fits.
    split_and!; try lia. constructor.
  - cbn. lia.
  - unfold byte_ok, fits. lia.
Defined.

(** ** vhost-user *)

Lemma vu_frame_roundtrip_witness :
  vu_unframe (vu_frame VU_SET_FEATURES (le_enc 8 0x140000000) ++ [9]) =
  Some (VU_SET_FEATURES, le_enc 8 0x140000000, [9]).
Proof.
  apply (vu_frame_roundtrip VU_SET_FEATURES (le_enc 8 0x140000000) [9]).
  - unfold fits, VU_SET_FEATURES. lia.
  - rewrite le_enc_length. unfold PAYLOAD_MAX. lia.
Defined.

(** A daemon that answers every question with 0x8629, of which the protocol
    features 0x629 are known. *)
Definition daemon : Host := {|
  reply_of _ c :=
    match c with
    | sys_sendmsg _ _ _ => {| r_ret := 1; r_errno := 0; r_data := [] |}
    | sys_recvmsg _ _ => {| r_ret := 20; r_errno := 0; r_data := c_put VhostUserMsgHdr (1, (5, 8)) ++ le_enc 8 0x8629 |}
    | sys_socketpair => {| r_ret := 0; r_errno := 0; r_data := [7; 8] |}
    | _ => {| r_ret := 0; r_errno := 0; r_data := [] |}
    end;
  guest_exit _ e := e;
  guest_mem _ m := m;
|}.

Lemma daemon_ok : daemon_answers (H := daemon).
Proof. split; intros; cbn; unfold VHOST_USER_HDR_SIZE; lia. Qed.


(** The messages of that run, in full. *)
Example vu_early_init_run :
  match vu_early_init (H := daemon) small with
  | Ok (ok, s') => ok = true /\ answers (trace_ s') = [0x8629; 0x8629] /\ length (sent_msgs (trace_ s')) = 7%nat /\
      sent_msgs (trace_ s') !! 3%nat = Some (vu_frame VU_SET_PROTOCOL_FEATURES (le_enc 8 0x629), []) /\
      sent_msgs (trace_ s') !! 6%nat = Some (vu_frame VU_SET_BACKEND_REQ_FD [], [8])
  | Fault _ => False
  end.
Proof. vm_compute. repeat split. Qed.

(** Queue 0 set up by the driver, connected. *)
Definition driven : Vmm :=
  small <| vu_ ::= (fun v => v <| vu_sock_ := 5 |>) |>
        <| fs_ ::= (fun d => d <| vqs_ := [Virtqueue_init <| vq_num := 128 |> <| vq_ready := 1 |>;
                                           Virtqueue_init] |>) |>.

Lemma vu_setup_spec_witness :
  wp (vu_setup (H := const_host 9)) (fun _ s' =>
    virtio_active_ (fs_ s') = true /\ irq_thread_running_ (vu_ s') = true /\
    Forall2 same_regs (vqs_ (fs_ driven)) (vqs_ (fs_ s')) /\
    sent_msgs (trace_ s') =
      sent_msgs (trace_ driven) ++ mjoin (imap (queue_msgs (ram_ driven)) (vqs_ (fs_ s')))) driven.
Proof.
  apply (vu_setup_spec (H := const_host 9) driven); [reflexivity|cbn; lia|reflexivity].
Defined.

Lemma vu_connect_backoff_witness :
  wp (vu_connect (H := late_daemon) 3) (fun r s' =>
    r = Some true /\ vu_sock_ (vu_ s') = 3 /\ sleeps (trace_ s') = [50; 100]) small.
Proof.
  apply (vu_connect_backoff (H := late_daemon) 2 3 small 3);
    [reflexivity|lia|reflexivity|reflexivity|lia].
Defined.

(** ** Snapshots *)

(** A 1 MB machine with something in its second page. *)
Definition golden : Vmm := small <| ram_mem_ := mem_set mem_zero 4096 [1; 2; 3] |>.

Definition blank_kvm : KvmState := {|
  h_regs := zeros 144; h_sregs := zeros 312; h_lapic := zeros 1024; h_events := zeros 64;
  h_xcrs := zeros 392; h_mp_state := zeros 4; h_mp_pad := zeros 4; h_debugregs := zeros 128;
  h_clock := zeros 48; h_pit := zeros 112; h_pic_master := zeros 520; h_pic_slave := zeros 520;
  h_ioapic := zeros 520 |}.

(** The snapshot of [golden], with the bytes of one CPUID entry and one MSR. *)
Definition golden_snapshot : Snapshot := {|
  sn_hdr := {|
    h_magic := SNAP_MAGIC; h_version := SNAP_VERSION; h_ram_mb := 1; h_kvm := blank_kvm;
    h_tsc_khz := 3400000; h_cpuid_nent := 0; h_num_msrs := 1; h_xsave_size := XSAVE_SIZE;
    h_fs := DevState_of 0 0 NUM_QUEUES (vqs_ FsDev_init);
    h_net := DevState_of 0 0 NET_NUM_QUEUES (net_vqs_ NetDev_init);
    h_net_mac := zeros 6; h_net_pad := zeros 2; h_bitmap_bytes := 0; h_bitmap_pad := 0 |};
  sn_xsave := zeros XSAVE_SIZE; sn_cpuid := []; sn_msrs := [zeros 16];
  sn_ram := ram_mem_ golden; sn_ram_addr := 0x7f0000000000; sn_ram_size := 1048576;
  sn_dirty_bitmap := [] |}.

Lemma golden_snapshot_ok : Snapshot_ok golden_snapshot.
Proof.
  unfold Snapshot_ok. cbn [golden_snapshot sn_hdr sn_xsave sn_cpuid sn_msrs sn_dirty_bitmap sn_ram_size
    h_xsave_size h_cpuid_nent h_num_msrs h_bitmap_bytes h_ram_mb].
  split_and!; try reflexivity; try (by repeat constructor).
Qed.

Lemma golden_mem_pos a : 0 <= ram_mem_ golden a.
Proof.
  change (0 <= mem_set mem_zero 4096 [1; 2; 3] a). unfold mem_set. case_match; [|done].
  destruct (nth_in_or_default (Z.to_nat (a - 4096)) [1; 2; 3] 0) as [Hi|E]; [|rewrite E; done].
  destruct Hi as [<-|[<-|[<-|[]]]]; lia.
Qed.

Lemma xsave_length : Z.of_nat (length (zeros XSAVE_SIZE)) = XSAVE_SIZE.
Proof. unfold zeros. rewrite length_replicate. reflexivity. Qed.

Lemma bitmap_marks_nonzero_pages_witness :
  exists b, page_bit (build_bitmap (ram_mem_ golden) 2).1 1 = Ok b /\
            (b = false <-> page_is_zero (ram_mem_ golden) 1).
Proof.
  pose proof (bitmap_marks_nonzero_pages (ram_mem_ golden) 2 golden_mem_pos ltac:(lia)) as Hm.
  destruct (build_bitmap (ram_mem_ golden) 2) as [bm n]. destruct Hm as (_ & _ & _ & Hm).
  apply (Hm 1). lia.
Defined.

Lemma snapshot_file_roundtrip_witness :
  exists snap', parse_snapshot (zeros XSAVE_SIZE) 0 (snapshot_image golden_snapshot) = Ok (Some snap') /\
    snapshot_eq snap' golden_snapshot.
Proof.
  exact (snapshot_file_roundtrip (zeros XSAVE_SIZE) 0 golden_snapshot golden_snapshot_ok xsave_length).
Defined.

Lemma truncated_snapshot_rejected_witness :
  parse_snapshot (zeros XSAVE_SIZE) 0 (take 100 (snapshot_image golden_snapshot)) = Ok None.
Proof.
  apply (truncated_snapshot_rejected (zeros XSAVE_SIZE) 0 golden_snapshot 100 golden_snapshot_ok).
  unfold snapshot_image. rewrite length_app.
  rewrite (c_put_length SnapshotHeader_codec _ (proj1 golden_snapshot_ok)).
  change (c_size SnapshotHeader_codec) with 4000%nat. lia.
Defined.

(** A disk that takes one byte at a time. *)
Lemma ram_written_despite_short_writes_witness :
  wp (write_ram (H := const_host 1) 3 7 (ram_mem_ golden) 4096 4099) (fun r s' =>
    r = Some true /\ file_bytes 7 (trace_ s') = [1; 2; 3]) small.
Proof.
  apply (ram_written_despite_short_writes (H := const_host 1) 3 7 (ram_mem_ golden) 4096 4099 small);
    [|lia|lia].
  intros t buf Hb. cbn. lia.
Defined.


Lemma golden_image_ok :
  Snapshot_ok (with_bitmap golden_snapshot (build_bitmap (ram_mem_ golden) (ram_bytes_ golden / PAGE)).1).
Proof.
  apply with_bitmap_ok; [exact golden_snapshot_ok|].
  pose proof (build_bitmap_ok (ram_mem_ golden) (ram_bytes_ golden / PAGE) ltac:(vm_compute; discriminate)) as Hb.
  destruct (build_bitmap (ram_mem_ golden) (ram_bytes_ golden / PAGE)) as [bm n]. destruct Hb as [Hb _].
  change (fits 32 (Z.of_nat (length bm))). rewrite Hb. change (fits 32 32). unfold fits. lia.
Qed.

Lemma snapshot_file_restores_machine_witness :
  exists snap', parse_snapshot (zeros XSAVE_SIZE) 0 (snapshot_image
      (with_bitmap golden_snapshot (build_bitmap (ram_mem_ golden) (ram_bytes_ golden / PAGE)).1)) = Ok (Some snap') /\
    wp (restore_snapshot (H := const_host 0) snap') (fun ok s' =>
      ok = true /\ machine_is golden snap' (trace_ small) s') small.
Proof.
  destruct (snapshot_file_restores_machine (H := const_host 0) golden golden_snapshot (zeros XSAVE_SIZE) 0 small)
    as (snap' & Hp & _ & Hr).
  - exact small_ok.
  - exact golden_mem_pos.
  - split_and!; reflexivity.
  - exact golden_image_ok.
  - exact xsave_length.
  - split; [reflexivity|reflexivity|reflexivity|apply FsDev_init_ok|apply NetDev_init_ok|split; reflexivity].
  - intros t what obj. cbn. lia.
  - exists snap'. split; [exact Hp|exact Hr].
Defined.

Lemma restore_rejects_mismatch_witness :
  restore_snapshot (H := const_host 0) golden_snapshot (Vmm_new 2) = Ok (false, Vmm_new 2).
Proof.
  apply (restore_rejects_mismatch (H := const_host 0) golden_snapshot (Vmm_new 2)).
  right. right. discriminate.
Defined.

Lemma restore_kvm_order_witness :
  wp (restore_kvm (H := const_host 0) golden_snapshot) (fun ok s' =>
    (ok = true -> kvm_put (trace_ s') = restore_order golden_snapshot) /\
    (kvm_accepts (H := const_host 0) -> ok = true)) small.
Proof.
  exact (restore_kvm_order (H := const_host 0) golden_snapshot small eq_refl eq_refl).
Defined.

(** ** Copy threads *)

(** One page to copy, two threads. *)
Definition one_page : CopyContext := {|
  cc_src := ram_mem_ golden; cc_src_size := 4096; cc_dst_size := 4096;
  cc_bitmap := [1]; cc_total_pages := 1; cc_num_chunks := 1 |}.

Lemma one_page_ok : CopyContext_ok one_page.
Proof. unfold CopyContext_ok, PAGE. cbn. split_and!; try lia. reflexivity. Qed.

(** The second thread finds no chunk while the first one copies. *)
Lemma one_page_run : exists cf,
  rtc (copy_step one_page) (copy_start 2 mem_zero) cf /\ all_done cf.
Proof.
  assert (Hstep : forall i ws sh w w' sh' cf, ws !! i = Some w -> w <> W_done ->
    worker_step one_page w sh = Ok (w', sh') -> rtc (copy_step one_page) (<[i := w']> ws, sh') cf ->
    rtc (copy_step one_page) (ws, sh) cf).
  { intros i ws sh w w' sh' cf Hl Hd Hs Hr. eapply rtc_l; [by eapply (copy_step_thread _ ws sh i)|done]. }
  eexists. split.
  - unfold copy_start. cbn [replicate].
    eapply (Hstep 0%nat); [reflexivity|discriminate|reflexivity|].
    eapply (Hstep 1%nat); [reflexivity|discriminate|reflexivity|].
    eapply (Hstep 0%nat); [reflexivity|discriminate| |].
    { unfold worker_step. cbn [one_page cc_total_pages sh_chunk_idx Z.mul Z.add Z.min].
      change (0 <? 1) with true. cbn iota. change (page_bit _ _) with (Ok true). cbn iota.
      change (run_end _ _ _ _) with (Ok 1).
      unfold mbind, result_bind. rewrite ram_load_ok, ram_store_ok;
        [reflexivity|..]; rewrite ?mem_get_length; unfold PAGE; cbn; lia. }
    eapply (Hstep 1%nat); [reflexivity|discriminate|reflexivity|].
    eapply (Hstep 0%nat); [reflexivity|discriminate|reflexivity|].
    eapply (Hstep 0%nat); [reflexivity|discriminate|reflexivity|].
    eapply (Hstep 0%nat); [reflexivity|discriminate|reflexivity|].
    apply rtc_refl.
  - repeat constructor.
Qed.

Lemma parallel_copy_restores_ram_witness : exists cf,
  all_done cf /\ sh_dst cf.2 ≡ restored (ram_mem_ golden) [1] 1 mem_zero.
Proof.
  destruct one_page_run as (cf & Hr & Hd). exists cf. split; [exact Hd|].
  destruct (parallel_copy_restores_ram one_page 2 mem_zero cf one_page_ok ltac:(lia) ltac:(cbn; lia) Hr) as [_ Hf].
  exact (Hf Hd).
Defined.

Lemma parallel_copy_terminates_witness : exists k cf,
  nsteps (copy_step one_page) k (copy_start 2 mem_zero) cf /\ all_done cf /\ (k <= 264)%nat.
Proof.
  destruct one_page_run as (cf & Hr & Hd). destruct (proj1 (rtc_nsteps _ _) Hr) as [k Hn].
  exists k, cf. split; [exact Hn|]. split; [exact Hd|].
  exact (parallel_copy_terminates one_page 2 mem_zero k cf one_page_ok ltac:(cbn; lia) Hn).
Defined.

(** ** Demand paging *)

(** RAM mapped at 64 KB, its second page in the snapshot. *)
Definition lazy_vmm : Vmm :=
  small <| ram_ := 0x10000 |>
        <| lazy_ ::= (fun u => u <| snap_ram_ := Some (ram_mem_ golden) |>
             <| snap_bitmap_buf_ := 2 :: replicate 31 0 |> <| snap_total_pages_ := 256 |>) |>.

(** A kernel that knows which pages are there. *)
Definition paging_host : Host := {|
  reply_of t c :=
    let answer a := if populated t a then {| r_ret := -1; r_errno := EEXIST; r_data := [] |}
                    else {| r_ret := 0; r_errno := 0; r_data := [] |} in
    match c with
    | sys_uffdio_copy a _ => answer a
    | sys_uffdio_zeropage a _ => answer a
    | _ => {| r_ret := 0; r_errno := 0; r_data := [] |}
    end;
  guest_exit _ e := e;
  guest_mem _ m := m;
|}.

Lemma paging_host_ok : uffd_kernel (H := paging_host).
Proof. split; intros t a ?; unfold uffd_answer; cbn; by destruct (populated t a). Qed.

(** Two faults in the second page, and one in the third between them. *)
Lemma demand_paging_refines_copy_witness :
  wp (for_each [0x11001; 0x12000; 0x11fff] (fun a => uffd_fault (H := paging_host) 1 a ;; skip)) (fun _ s' =>
    forall x, ram_mem_ s' x =
      if bool_decide (Exists (fun a => x / PAGE = (a - ram_ lazy_vmm) / PAGE) [0x11001; 0x12000; 0x11fff])
      then restored (ram_mem_ golden) (2 :: replicate 31 0) (ram_bytes_ lazy_vmm / PAGE) mem_zero x
      else ram_mem_ lazy_vmm x) lazy_vmm.
Proof.
  apply (demand_paging_refines_copy (H := paging_host) (ram_mem_ golden) (2 :: replicate 31 0)
    [0x11001; 0x12000; 0x11fff] lazy_vmm).
  - exact paging_host_ok.
  - split; try reflexivity. vm_compute. split; [discriminate|reflexivity].
  - split; [discriminate|]. vm_compute. discriminate.
  - intros a. reflexivity.
  - repeat constructor; unfold in_guest; change (ram_bytes_ lazy_vmm) with 1048576; cbn; lia.
Defined.

(** ** The run loop *)

(** A guest that halts. *)
Definition halting : Host := {|
  reply_of _ _ := {| r_ret := 0; r_errno := 0; r_data := [] |};
  guest_exit _ _ := KVM_EXIT_HLT;
  guest_mem _ m := m;
|}.

Lemma small_inv : vmm_inv small.
Proof.
  split; [apply FsDev_init_ok|apply NetDev_init_ok|reflexivity|reflexivity| |cbn; lia].
  split; [|split; reflexivity]. cbn. rewrite !Forall_cons. unfold byte_ok, fits.
  split_and!; try lia. constructor.
Qed.

(** A guest that reads the last word of the network configuration, and one that
    reads 4 bytes from its last byte on. *)
Definition mmio_reader (addr : Z) : Host := {|
  reply_of _ _ := {| r_ret := 0; r_errno := 0; r_data := [] |};
  guest_exit _ _ := KVM_EXIT_MMIO addr 4 false (replicate 8 0);
  guest_mem _ m := m;
|}.

Lemma run_safe_witness :
  ends_or (exists t e, config_overrun (guest_exit (Host := mmio_reader 0xd0002108) t e))
    (run_loop (H := mmio_reader 0xd0002108) 20 0) (fun _ => vmm_inv) small /\
  handle_exit (H := mmio_reader 0xd000210b) (KVM_EXIT_MMIO 0xd000210b 4 false (replicate 8 0)) small =
    Fault OutOfBounds.
Proof.
  assert (Ha : forall addr t e, exit_abi (guest_exit (Host := mmio_reader addr) t e)).
  { intros addr t e. split; [|split; [reflexivity|lia]]. cbn. repeat constructor; lia. }
  split.
  - exact (proj1 (run_safe (H := mmio_reader 0xd0002108) 20 0 small (Ha 0xd0002108) small_inv)).
  - refine (proj2 (run_safe (H := mmio_reader 0xd000210b) 20 0 small (Ha 0xd000210b) small_inv) _ small
      small_inv (Ha 0xd000210b [] KVM_EXIT_HLT) _).
    right. vm_compute. by split; [split; [discriminate|]|].
Defined.

(** The guest halts with interrupts off at its first exit. *)
Lemma run_return_codes_witness : exists s',
  run (H := halting) 1 small = Ok (Some 0, s') /\ run_result 0 s'.
Proof.
  eexists. split; [reflexivity|].
  pose proof (proj1 (run_return_codes (H := halting) 1 small)) as Hr.
  apply Hr. reflexivity.
Defined.

(** ** The network device *)

(** One descriptor at 0x1000 describing [len] bytes at 0x4000, the available
    ring at 0x2000 with that descriptor in it, the used ring at 0x3000. *)
Definition net_rings : rings := {| rg_avail := 0x2000; rg_used := 0x3000; rg_desc := 0x1000 |}.

Definition net_mem (len flags : Z) : mem :=
  mem_set (mem_set (mem_set mem_zero 0x1000 (le_enc 8 0x4000 ++ le_enc 4 len ++ le_enc 2 flags))
    0x2002 [1]) 0x400c [0xde; 0xad].

Definition net_vmm (len flags : Z) : Vmm :=
  let q := Virtqueue_init <| vq_num := 1 |> <| vq_ready := 1 |> in
  small <| ram_mem_ := net_mem len flags |>
        <| net_ ::= (fun d => d <| net_vqs_ := [q; q] |> <| tap_fd_ := 11 |>) |>.

Lemma net_mem_bytes len flags : mem_bytes (net_mem len flags).
Proof.
  unfold net_mem. apply mem_set_bytes; [apply mem_set_bytes; [apply mem_set_bytes; [apply mem_zero_bytes|]|]|].
  - rewrite !Forall_app. split_and!; apply le_enc_bytes.
  - repeat constructor; lia.
  - repeat constructor; lia.
Qed.

Lemma net_rings_ok len flags qi : (qi < 2)%nat -> rings_ok qi net_rings (net_vmm len flags).
Proof.
  intros Hq. assert (Hn : queue_num (net_vmm len flags) qi = 1) by (destruct qi as [|[|]]; [reflexivity..|lia]).
  split; rewrite Hn; change (ram_bytes_ (net_vmm len flags)) with 1048576; [lia|..];
    (split; [cbn; lia|vm_compute; discriminate]).
Qed.

Lemma net_bufs_ok : bufs_in_ram (net_mem 14 0) net_rings 1 1048576.
Proof. intros i Hi. assert (i = 0) as -> by lia. vm_compute. discriminate. Qed.

Lemma tx_sends_packet_witness :
  wp (tx_one (H := const_host 2) mem_zero net_rings 0) (fun _ s' =>
    written (trace_ s') = [(11, [0xde; 0xad])] /\
    rd (ram_mem_ s') 4 (used_ring 0x3000 0) = 0 /\ rd (ram_mem_ s') 4 (used_ring 0x3000 0 + 4) = 0 /\
    rd (ram_mem_ s') 2 (used_idx 0x3000) = 1) (net_vmm 14 0).
Proof.
  refine (tx_sends_packet (H := const_host 2) mem_zero net_rings (net_vmm 14 0) 0 [(0x4000, 14)] _ _ _ _ _ _ _ _).
  - done.
  - apply net_mem_bytes.
  - apply net_rings_ok; lia.
  - exact net_bufs_ok.
  - exact (chain_last (net_mem 14 0) 0x1000 1 0 eq_refl).
  - cbn. lia.
  - constructor; [|constructor]. change (ram_bytes_ (net_vmm 14 0)) with 1048576. cbn. lia.
  - split; vm_compute; reflexivity.
Defined.

Lemma tx_any_chain_safe_witness :
  wp (tx_one (H := const_host 2) mem_zero net_rings 0) (fun _ s' =>
    (exists pkt, Z.of_nat (length pkt) < PKT_BUF - 12 /\
      (written (trace_ s') = [] \/ written (trace_ s') = [(11, pkt)])) /\
    rd (ram_mem_ s') 2 (used_idx 0x3000) = 1) (net_vmm 14 0).
Proof.
  apply (tx_any_chain_safe (H := const_host 2) mem_zero net_rings (net_vmm 14 0) 0);
    [done|apply net_mem_bytes|apply net_rings_ok; lia|exact net_bufs_ok].
Defined.

(** Two descriptors, posted in the order 1, 0. *)
Definition net_mem2 : mem :=
  mem_set (mem_set (mem_set (mem_set mem_zero
    0x1000 (le_enc 8 0x4000 ++ le_enc 4 14 ++ [0; 0; 0; 0] ++ le_enc 8 0x5000 ++ le_enc 4 15))
    0x2002 [2; 0; 1; 0; 0; 0]) 0x400c [0xde; 0xad]) 0x500c [0xbe; 0xef; 0xff].

Definition net_vmm2 : Vmm :=
  let q := Virtqueue_init <| vq_num := 2 |> <| vq_ready := 1 |> in
  small <| ram_mem_ := net_mem2 |>
        <| net_ ::= (fun d => d <| net_vqs_ := [q; q] |> <| tap_fd_ := 11 |>) |>.

Lemma net_mem2_bytes : mem_bytes net_mem2.
Proof.
  unfold net_mem2. repeat (apply mem_set_bytes; [|rewrite ?Forall_app; split_and?;
    first [apply le_enc_bytes|repeat constructor; lia]]). apply mem_zero_bytes.
Qed.

Lemma net2_tables : bufs_in_ram net_mem2 net_rings 2 1048576 /\ bufs_apart net_mem2 net_rings 2.
Proof.
  split; intros i Hi; (assert (i = 0 \/ i = 1) as [-> | ->] by lia); [..|right|right]; vm_compute; discriminate.
Qed.

(** The packet of descriptor 1 is sent first, then that of descriptor 0. *)
Lemma tx_drains_queue_witness :
  wp (tx_loop (H := const_host 2) mem_zero 2 net_rings 0 false) (fun o s' =>
    o = Some (2, true) /\
    written (trace_ s') = [(11, [0xbe; 0xef; 0xff]); (11, [0xde; 0xad])] /\
    ram_mem_ s' = handed_back 0x3000 2 [1; 0] net_mem2 /\
    rd (ram_mem_ s') 2 (used_idx 0x3000) = 2) net_vmm2.
Proof.
  eapply wp_mono; [apply (tx_drains_queue (H := const_host 2) mem_zero net_rings 2 2 net_vmm2 0 0)|].
  - done.
  - apply net_mem2_bytes.
  - split; change (queue_num net_vmm2 1) with 2; change (ram_bytes_ net_vmm2) with 1048576; [lia|..];
      (split; [cbn; lia|vm_compute; discriminate]).
  - apply net2_tables.
  - split; left; vm_compute; discriminate.
  - apply net2_tables.
  - reflexivity.
  - reflexivity.
  - unfold fits. lia.
  - lia.
  - lia.
  - change (queue_num net_vmm2 1) with 2.
    assert (posted (ram_mem_ net_vmm2) (rg_avail net_rings) 2 0 2 = [1; 0]) as -> by (vm_compute; reflexivity).
    cbv beta zeta. intros o s' (Ho & Hw & Hm & Hu). split; [exact Ho|]. split; [|split; [exact Hm|exact Hu]].
    rewrite Hw. vm_compute. reflexivity.
Defined.


(** ** Booting *)

(** The smallest image the loader takes: a page with the magic number. *)
Definition tiny_kernel : list Z := zeros 0x202 ++ le_enc 4 BZ_HEADER_MAGIC ++ zeros (4096 - 0x206).
Definition tiny_initrd : list Z := [1; 2; 3].

Definition path_kernel : list Z := bytes "bzImage".
Definition path_initrd : list Z := bytes "initrd".

(** A file system with the two files, the kernel at descriptor 3. *)
Definition boot_disk : Host := {|
  reply_of _ c :=
    let file fd := if fd =? 3 then tiny_kernel else tiny_initrd in
    match c with
    | sys_open p _ => {| r_ret := if bool_decide (p = path_kernel) then 3 else 4; r_errno := 0; r_data := [] |}
    | sys_fstat fd => {| r_ret := 0; r_errno := 0; r_data := le_enc 8 (Z.of_nat (length (file fd))) |}
    | sys_read fd _ => {| r_ret := Z.of_nat (length (file fd)); r_errno := 0; r_data := file fd |}
    | _ => {| r_ret := 0; r_errno := 0; r_data := [] |}
    end;
  guest_exit _ e := e;
  guest_mem _ m := m;
|}.

Lemma tiny_kernel_length : Z.of_nat (length tiny_kernel) = 4096.
Proof. unfold tiny_kernel, zeros. rewrite !length_app, !length_replicate, le_enc_length. reflexivity. Qed.

Lemma tiny_setup_size : setup_size tiny_kernel = 2560.
Proof. vm_compute. reflexivity. Qed.

Lemma tiny_kernel_ok : bzimage_ok tiny_kernel (ram_bytes_ (Vmm_new 4)).
Proof.
  split; rewrite ?tiny_kernel_length, ?tiny_setup_size.
  - unfold tiny_kernel, zeros. rewrite !Forall_app. split_and!;
      [|apply le_enc_bytes|]; apply Forall_replicate; unfold byte_ok, fits; lia.
  - unfold sizeof_boot_params. lia.
  - vm_compute. reflexivity.
  - split; vm_compute; discriminate.
  - vm_compute. discriminate.
Qed.

Lemma boot_disk_serves path content fd :
  0 <= fd -> (if bool_decide (path = path_kernel) then 3 else 4) = fd ->
  (if fd =? 3 then tiny_kernel else tiny_initrd) = content ->
  serves_file (H := boot_disk) path content.
Proof.
  intros Hfd Hp <-. split.
  - unfold fits. destruct (fd =? 3); [rewrite tiny_kernel_length; lia|cbn; lia].
  - exists fd. split_and!; [done|intros; exact Hp|intros; split; reflexivity|intros; split; reflexivity].
Qed.

Lemma bios_tables_installed_witness :
  wp setup_bios (fun ok s' =>
    ok = true /\ bios_ready (ram_bytes_ (Vmm_new 4)) (ram_mem_ s') /\
    e820_sound (ram_bytes_ (Vmm_new 4)) (e820_map (ram_mem_ s')) /\
    forall x, BZ_KERNEL_START <= x -> ram_mem_ s' x = ram_mem_ (Vmm_new 4) x) (Vmm_new 4).
Proof.
  apply (bios_tables_installed (Vmm_new 4)). split; vm_compute; [discriminate|reflexivity].
Defined.

Lemma guest_prepared_witness :
  wp (prepare_guest (H := boot_disk) (zeros 312) path_kernel path_initrd) (fun ok s' =>
    let m := ram_mem_ s' in
    ok = true /\ bios_ready (ram_bytes_ (Vmm_new 4)) m /\
    kernel_loaded tiny_kernel (cmdline_ (Vmm_new 4)) m /\
    initrd_loaded tiny_initrd (ram_bytes_ (Vmm_new 4)) m /\
    exists sregs regs rest, at_setup_entry sregs regs /\
      kvm_put (trace_ s') = rest ++ [(KvmSregs, c_put kvm_sregs_codec sregs); (KvmRegs, regs);
                                     (KvmCpuid2, cpuid_buffer (cpuid_ (Vmm_new 4)))]) (Vmm_new 4).
Proof.
  refine (guest_prepared (H := boot_disk) (zeros 312) path_kernel path_initrd tiny_kernel tiny_initrd
    (Vmm_new 4) _ _ _ _ _ _ _).
  - apply (boot_disk_serves _ _ 3); [lia|reflexivity|reflexivity].
  - apply (boot_disk_serves _ _ 4); [lia|reflexivity|reflexivity].
  - exact tiny_kernel_ok.
  - cbn. lia.
  - split; vm_compute; discriminate.
  - rewrite tiny_kernel_length, tiny_setup_size. vm_compute. discriminate.
  - intros t what obj. cbn. lia.
Defined.

(** A host of a recent kernel. *)
Definition generous : Host := ret_host (fun _ c =>
  match c with sys_kvm_api_version => 12 | _ => 4 end).

Lemma init_whole_machine_witness :
  host_grants (H := generous) /\
  wp (init (H := generous) true) (fun ok s' =>
    ok = true /\ Forall (Z.le 0) [kvm_fd_ s'; vm_fd_ s'; vcpu_fd_ s'; ram_memfd_ s']) small.
Proof.
  assert (Hg : host_grants (H := generous)) by (intros t c; destruct c; cbn; lia).
  split; [exact Hg|].
  eapply wp_mono; [apply (init_whole_machine (H := generous) true small); vm_compute; discriminate|].
  cbv beta. intros ok s' [Hok Hm]. split; [exact (Hok Hg)|]. apply (Hm (Hok Hg)).
Defined.

(** ** Configuration *)

Lemma config_field_found_witness :
  find_val (LBRACE :: needle "hostname" ++ [COLON; 32] ++ json_quote (bytes "box") ++ [RBRACE; 0])
    "hostname" [] SIZE_hostname = Ok (bytes "box").
Proof.
  apply (config_field_found [LBRACE] "hostname" [] [32] (bytes "box") [RBRACE; 0] [] SIZE_hostname);
    try (by repeat constructor); reflexivity.
Defined.

Lemma env_object_roundtrip_witness :
  let l := [(bytes "PATH", bytes "/bin"); (bytes "A", [])] in
  parse_env (length (env_text l ++ [0])) (env_text l ++ [0]) [] = Ok (Some l).
Proof.
  cbv zeta. apply (env_object_roundtrip [(bytes "PATH", bytes "/bin"); (bytes "A", [])] [0]).
  - by repeat constructor.
  - vm_compute. discriminate.
Defined.

Lemma cfg_init_ok : cfg_ok VmConfig_init.
Proof. split; try reflexivity; [vm_compute; discriminate|constructor]. Qed.

Lemma config_well_formed_witness :
  exists c, parse_config_buf (Z.of_nat (length blank_env_file)) (blank_env_file ++ [0]) VmConfig_init = Ok (Some c) /\
    cfg_ok c.
Proof.
  destruct (parse_config_buf (Z.of_nat (length blank_env_file)) (blank_env_file ++ [0]) VmConfig_init)
    as [o|f] eqn:E; [|vm_compute in E; discriminate E].
  destruct (config_well_formed _ _ VmConfig_init o cfg_init_ok E) as (c & -> & Hc).
  exists c. split; [reflexivity|exact Hc].
Defined.

Lemma mac_roundtrip_witness :
  parse_mac (bytes "52:54:00:12:34:56") = Some [0x52; 0x54; 0; 0x12; 0x34; 0x56].
Proof.
  apply (mac_roundtrip [0x52; 0x54; 0; 0x12; 0x34; 0x56]); [reflexivity|].
  by repeat constructor.
Defined.

(** ** Command line *)

Definition net_config : VmConfig := VmConfig_init <| cfg_has_net := true |>.

Lemma clones_distinct_witness :
  clone_mac net_config 0 <> clone_mac net_config 1 /\ clone_tap 0 <> clone_tap 1.
Proof.
  destruct (clones_distinct net_config 0 1 eq_refl eq_refl ltac:(lia)) as [Hm Ht].
  split; [apply Hm; lia|apply Ht; lia].
Defined.

Lemma clone_ip_shifted_witness :
  scan_fmt 10 [DOT; DOT; DOT; SLASH] (clone_ip (bytes "10.0.0.2/24") 3) = Some [10; 0; 0; 5; 24].
Proof.
  apply (clone_ip_shifted (bytes "10.0.0.2/24") 3 10 0 0 2 24); [reflexivity| |lia].
  repeat constructor; lia.
Defined.

(** The snapshot behind descriptor 3, read from where the last read ended. *)
Definition snapshot_disk : Host := {|
  reply_of t c :=
    match c with
    | sys_read fd n =>
      let d := take (Z.to_nat n) (drop (Z.to_nat (read_pos fd t)) (snapshot_image golden_snapshot)) in
      {| r_ret := Z.of_nat (length d); r_errno := 0; r_data := d |}
    | _ => {| r_ret := 3; r_errno := 0; r_data := [] |}
    end;
  guest_exit _ e := e;
  guest_mem _ m := m;
|}.


(** ** The guest *)

Definition web_config : VmConfig := VmConfig_init
  <| cfg_entrypoint := bytes "/bin/httpd -p 80" |> <| cfg_hostname := bytes "web" |>
  <| cfg_ip := bytes "10.0.0.2/24" |> <| cfg_gateway := bytes "10.0.0.1" |>
  <| cfg_env := [(bytes "MODE", bytes "prod"); (bytes "PATH", bytes "/bin")] |>.

Lemma web_config_shareable : shareable web_config.
Proof.
  assert (Hb : forall cap s, forallb (fun c => negb (c =? 0) && negb (c =? 10) && negb (c =? 13)) (bytes s) = true ->
    unquote (bytes s) = bytes s -> Z.of_nat (length (bytes s)) < cap -> bare_ok cap (bytes s)).
  { intros cap s H1 H2 H3. split; [by apply bytes_plain|done]. }
  assert (He : forall n v, name_ok (bytes n) -> plain (bytes n) -> plain (bytes v) ->
    starts_with (bytes "ENV_") (bytes n) = false ->
    bytes n ∉ [bytes "HOSTNAME"; bytes "NET_IP"; bytes "NET_GW"] -> env_entry_ok (bytes n, bytes v)).
  { intros n v H1 H2 H3 H4 H5. by split. }
  split; [apply (Hb _ "web"%string)|apply (Hb _ "10.0.0.2/24"%string)|apply (Hb _ "10.0.0.1"%string)| | | |]; try (vm_compute; congruence).
  - repeat constructor; vm_compute; congruence.
  - constructor; [apply (He "MODE"%string "prod"%string)|constructor; [apply (He "PATH"%string "/bin"%string)|constructor]];
      first [by apply bytes_plain | split; [done|by decided] | done | by decided].
  - apply (bool_decide_unpack _). vm_compute. exact I.
Qed.

Lemma web_entrypoint_plain : plain (cfg_entrypoint web_config).
Proof. by apply (bytes_plain "/bin/httpd -p 80"%string). Qed.

(** A guest kernel with the two files of [web_config], in which [fork] returns
    [pid]. *)
Definition web_file (fd : Z) : list Z :=
  if fd =? 5 then cfg_entrypoint web_config ++ NL else config_text web_config.

Definition web_kernel (pid : Z) : GuestHost := {|
  greply_of t c :=
    match c with
    | G_open p => {| r_ret := if bool_decide (p = bytes "/share/.entrypoint") then 5 else 6; r_errno := 0; r_data := [] |}
    | G_read fd n => {| r_ret := Z.min n (Z.of_nat (length (web_file fd))); r_errno := 0;
                        r_data := take (Z.to_nat n) (web_file fd) |}
    | G_socket => {| r_ret := 4; r_errno := 0; r_data := [] |}
    | G_fork => {| r_ret := pid; r_errno := 0; r_data := [] |}
    | _ => {| r_ret := 0; r_errno := 0; r_data := [] |}
    end;
|}.

Lemma web_kernel_share pid : share_has (H := web_kernel pid) web_config.
Proof. split; intros t; (split; [vm_compute; congruence|]); intros n Hn; split; reflexivity. Qed.

Lemma web_kernel_ready pid : kernel_ready (H := web_kernel pid).
Proof. split_and!; intros; vm_compute; congruence. Qed.

(** Two decimals, as far as a test needs them. *)
Definition zero_ms (t t' : Z * Z) : list Z := bytes "0.00".

Lemma zero_ms_short a b : (length (zero_ms a b) <= 32)%nat.
Proof. vm_compute. lia. Qed.


Lemma init_powers_off_witness :
  gwp (init_main (H := web_kernel 7) zero_ms) (fun o g' => o = Parked) (Guest_start []).
Proof.
  eapply gwp_mono.
  - apply (init_powers_off (H := web_kernel 7) zero_ms web_config 7 (Guest_start []) zero_ms_short
      (web_kernel_ready 7) (web_kernel_share 7) web_config_shareable ltac:(discriminate) web_entrypoint_plain
      ltac:(vm_compute; lia)); [lia|]. intros t. reflexivity.
  - cbn beta. by intros o g' (-> & _).
Defined.

Lemma guest_network_witness :
  gwp (setup_network (H := web_kernel 0) (bytes "10.0.0.2/24") (bytes "10.0.0.1")) (fun _ g' =>
    net_ioctls (g_trace g') = [G_set_flags 4 0x41; G_set_addr 4 [10; 0; 0; 2]; G_set_netmask 4 [255; 255; 255; 0];
      G_add_route 4 [10; 0; 0; 1]]) (Guest_start []).
Proof.
  eapply gwp_mono.
  - refine (guest_network (H := web_kernel 0) [10; 0; 0; 2] (Some 24) (Some [10; 0; 0; 1]) (Guest_start []) eq_refl _ _ _ _).
    + repeat constructor; vm_compute; congruence.
    + lia.
    + split; [reflexivity|]. repeat constructor; vm_compute; congruence.
    + vm_compute. congruence.
  - cbn beta. intros _ g' [E _]. rewrite E. reflexivity.
Defined.

Definition storing_host : Host := ret_host (fun t c =>
  match c with sys_write _ bs => Z.of_nat (length bs) | _ => 3 end).

Lemma storing_host_stores : host_stores (H := storing_host).
Proof. split; [intros; vm_compute; congruence|reflexivity]. Qed.

Lemma config_reaches_guest_witness :
  wp (write_config_to_share (H := storing_host) (Some (bytes "/srv/web")) web_config) (fun _ _ =>
    gwp (ep ← read_entrypoint (H := web_kernel 0); c ← read_vmconfig (H := web_kernel 0); mret (ep, c)) (fun o g' =>
      o.1 = bytes "/bin/httpd -p 80" /\ gc_hostname o.2 = bytes "web" /\
      getenv (bytes "PATH") (genv g') = Some (bytes "/bin")) (Guest_start [])) small.
Proof.
  eapply wp_mono.
  - apply wp_and.
    + apply (config_reaches_guest (H := storing_host) (K := web_kernel 0) small (bytes "/srv/web") web_config
        (Guest_start []) storing_host_stores ltac:(vm_compute; lia) web_config_shareable ltac:(discriminate)
        web_entrypoint_plain ltac:(vm_compute; lia)).
    + apply (write_config_files (H := storing_host) small (bytes "/srv/web") web_config storing_host_stores
        ltac:(vm_compute; lia) ltac:(discriminate)).
  - cbn beta. intros _ s' [Hg [F1 F2]]. eapply gwp_mono.
    + apply Hg. intros name data [->| [->|Hn]%elem_of_cons]%elem_of_cons Hd; [| |by apply elem_of_nil in Hn];
        [rewrite F1 in Hd|rewrite F2 in Hd]; injection Hd as <-; apply web_kernel_share.
    + cbn beta. intros o g' (E1 & (E2 & _ & _ & Hv & _) & E3). rewrite E3. split_and!; [exact E1|exact E2|].
      apply Forall_cons in Hv as [_ Hv]. apply Forall_cons in Hv as [Hv _]. exact Hv.
Defined.

(** ** The snapshot device and its benchmark *)

(** A kernel that always has memory, at an address not in use. *)
Definition roomy_kernel : SnapKernel := {|
  kzalloc_ok _ := true;
  vmalloc_user s _ := Some (fresh (dom (sm_areas s)), mem_zero);
  remap_vmalloc_range _ _ _ := 0
|}.

#[export] Instance roomy_kernel_ok : SnapKernel_ok roomy_kernel.
Proof.
  split.
  - intros s n a m [= <- _]. apply not_elem_of_dom. apply is_fresh.
  - intros s a n. cbn. lia.
Qed.

(** One file, open, and with 5000 bytes. *)
Definition one_open : SnapMod := (vmtainer_snap_open (K := roomy_kernel) 1 SnapMod_start).2.
Definition one_alloc : SnapMod :=
  (vmtainer_snap_ioctl (K := roomy_kernel) 1 (VMTAINER_SNAP_ALLOC (Some 5000)) one_open).2.

Lemma one_open_reached : rtc (snap_step (K := roomy_kernel)) SnapMod_start one_open.
Proof. apply rtc_once. by apply (step_open (K := roomy_kernel) SnapMod_start 1 0). Qed.

Lemma snap_device_invariant_witness : snap_inv one_alloc /\ snap_info 1 true one_alloc = (0, Some (8192, 0)).
Proof.
  split; [|reflexivity]. apply (snap_device_invariant (K := roomy_kernel) one_alloc).
  eapply rtc_r; [exact one_open_reached|].
  by apply (step_ioctl (K := roomy_kernel) one_open 1 (VMTAINER_SNAP_ALLOC (Some 5000)) 0).
Defined.

Lemma one_open_inv : snap_inv one_open.
Proof.
  eapply (snap_step_inv (K := roomy_kernel) SnapMod_start); [by apply (step_open (K := roomy_kernel) SnapMod_start 1 0)|].
  exact snap_inv_start.
Qed.

(** A request for 5000 bytes gets two pages, and one that cannot be read none. *)
Lemma snap_alloc_spec_witness :
  (exists a m, sm_files one_alloc !! 1 = Some {| ctx_buf := Some a; ctx_size := 8192 |} /\
    sm_areas one_alloc !! a = Some (8192, m) /\ (forall x, 0 <= x < 8192 -> m x = 0)) /\
  vmtainer_snap_ioctl (K := roomy_kernel) 1 (VMTAINER_SNAP_ALLOC None) one_open = (- EFAULT, one_open).
Proof.
  split.
  - pose proof (snap_alloc_spec (K := roomy_kernel) one_open 1 empty_ctx (Some 5000) one_open_inv eq_refl
      ltac:(intros n [= <-]; unfold fits; lia)) as Hs.
    destruct (vmtainer_snap_ioctl _ _ _) as [ret s'] eqn:E. change s' with ((ret, s').2) in Hs. rewrite <- E in Hs.
    destruct Hs as [_ Hs]. destruct (Hs ltac:(lia)) as (size & Hn & Hm & _ & _ & H1 & (m & H2 & H3) & _).
    assert (size = 8192) as -> by (pose proof (Z.div_mod size 4096); lia).
    eexists _, m. split; [exact H1|]. split; [exact H2|exact H3].
  - pose proof (snap_alloc_spec (K := roomy_kernel) one_open 1 empty_ctx None one_open_inv eq_refl ltac:(done)) as Hs.
    destruct (vmtainer_snap_ioctl _ _ _) as [ret s'] eqn:E. destruct Hs as [-> ->]. done.
Defined.

(** The file of [golden], mapped. *)
Definition golden_file : Snapshot :=
  with_bitmap golden_snapshot (build_bitmap (ram_mem_ golden) (ram_bytes_ golden / PAGE)).1.
Definition mapped (f : list Z) : region := {| rg_mem := mem_of f; rg_size := Z.of_nat (length f) |}.

Lemma mapped_bytes f : mem_get (rg_mem (mapped f)) 0 (Z.of_nat (length f)) = f.
Proof.
  apply list_eq_same_length with (length f); [done|cbn; rewrite mem_get_length; lia|].
  intros i x y Hi Hx Hy. cbn [mapped rg_mem] in Hx. rewrite mem_get_lookup in Hx by lia. injection Hx as <-.
  unfold mem_of. rewrite (proj2 (Z.ltb_ge _ 0)) by lia. apply nth_lookup_Some. rewrite <- Hy. f_equal. lia.
Qed.

Lemma golden_file_bytes : Forall byte_ok (snapshot_image golden_file).
Proof.
  assert (Hb : forall l, forallb (fun b => (0 <=? b) && (b <? 256)) l = true -> Forall byte_ok l).
  { intros l Hl. apply Forall_forall. intros b Hin. rewrite forallb_forall in Hl.
    specialize (Hl b (proj1 (list_elem_of_In _ _) Hin)). unfold byte_ok, fits. lia. }
  pose proof (build_bitmap_ok (ram_mem_ golden) (ram_bytes_ golden / PAGE) ltac:(vm_compute; discriminate)) as Hm.
  unfold golden_file. destruct (build_bitmap _ _) as [bm n]. destruct Hm as (Hl & Hbm & _). cbn [fst].
  change (length bm = 32%nat) in Hl. unfold with_bitmap. rewrite Hl. unfold snapshot_image.
  do 4 (apply Forall_app; split; [apply Hb; vm_compute; reflexivity|]).
  apply Forall_app. split; [exact Hbm|].
  apply mem_get_bytes, mem_set_bytes; [apply mem_zero_bytes|]. apply Hb. reflexivity.
Qed.

Lemma golden_bitmap_sound :
  bitmap_sound (sn_dirty_bitmap golden_file) (sn_ram golden_file) (sn_ram_size golden_file / PAGE).
Proof.
  apply (build_bitmap_sound (ram_mem_ golden) (ram_mem_ golden) (ram_bytes_ golden)).
  - split; [vm_compute; discriminate|reflexivity].
  - exact golden_mem_pos.
  - reflexivity.
Qed.


(** A system on which every call succeeds, and the snapshot is 100 bytes of
    zeros that are read at once. *)
Definition short_file_system : BenchHost := {|
  breply_of t c :=
    match c with
    | B_stat _ => {| r_ret := 0; r_errno := 0; r_data := [100] |}
    | B_snap_info _ =>
      {| r_ret := 0; r_errno := 0;
         r_data := [match last t with Some (B_snap_alloc _ n, _) => n | _ => 0 end] |}
    | B_read _ n => {| r_ret := n; r_errno := 0; r_data := zeros 100 |}
    | B_mmap _ n => {| r_ret := 3; r_errno := 0; r_data := zeros n |}
    | _ => {| r_ret := 3; r_errno := 0; r_data := [] |}
    end
|}.

Lemma bench_main_safe_witness :
  match bench_main (H := short_file_system) 100 [bytes "snap_bench"; bytes "golden.snap"] {| b_ram := mem_zero; b_trace := [] |} with
  | Done rc _ => rc = 0 \/ rc = 1
  | Exit code _ => code = 1
  | Fails _ | Spins => False
  end.
Proof.
  apply (bench_main_safe (H := short_file_system)).
  - intros t fd n. split; apply Forall_replicate; unfold byte_ok, fits; lia.
  - intros t fd n. cbn. lia.
  - intros t fd n _. cbn. unfold zeros. rewrite length_replicate. lia.
  - intros t fd n. cbn. unfold EINTR. lia.
  - intros t fd n r _. cbn. rewrite last_snoc. cbn. lia.
  - intros t p. vm_compute. discriminate.
Defined.
